(* ===== verification/_CoqProject ===== *)
-Q . S2P
Prelude.v
Types.v
Handles.v
ByteOrder.v
Bitmap.v
CtxPool.v
Stackbd.v
Request.v
Views.v
ChunkMap.v
MapInv.v
World.v
Transfer.v
Servers.v
Pages.v
Session.v
Device.v
DeviceInv.v
DeviceLife.v
Eviction.v
Select.v
Trigger.v
MapSafety.v
Connect.v
ConnectInv.v
SelectInv.v
Completion.v
Coherence.v
Endings.v
Volume.v
Hazards.v
Daemon.v
DaemonInv.v
DaemonSteps.v
ConnStates.v
Protocol.v
Mapping.v
IoInv.v
Disconnect.v
Swap.v
Evict.v
EvictInv.v
EvictSafety.v
EvictMem.v
Recall.v
ServerGlue.v
