(* ===== verification/Prelude.v ===== *)
(** * Infiniswap: the block device, the memory server, and what they keep true

    Infiniswap is a swap device that stores pages in the memory of other machines.  The
    kernel module ([src/Infiniswap/infiniswap_bd]) offers a block device of
    [STACKBD_SIZE_G] chunks of 1 GB.  Every page is written through to a local backup disk;
    a chunk that is used enough is mapped to a chunk of some server, and reads and writes of
    it go over RDMA, with a bitmap of the pages the server holds.  The daemon
    ([src/Infiniswap/infiniswap_daemon]) lends memory by the gigabyte and takes it back when
    its machine needs it.  The two talk in messages of one format: QUERY/FREE_SIZE,
    BIND_SINGLE/INFO_SINGLE, EVICT/ACTIVITY, STOP/DONE.

    ** Method

    The C code is a shallow embedding.  A function is a Gallina function in the monad
    [res]: [Ok] with the new state, or the [Fault] the C code runs into (an array access out
    of bounds, a NULL dereference, the use of an error code as a pointer or of a released
    object, [die], a wait nobody ends).  Arrays are lists read and
    written through [rd] and [wr], which fault out of range; [int], [unsigned long] and the
    words of the bitmap wrap at their width ([s32], [u64]); pointers are indices into the
    tables that own the objects.  Loops are [for_upto] and [for_upto_break], structural on
    their bound, with one rule each ([for_upto_inv], [for_upto_break_inv]) that proves
    at once that the loop ends without a fault and what it computes.  The only loops that
    need fuel are the circular searches of [probe]; [probe_total] shows that as many steps
    as there are places suffice whenever a free place exists, so no theorem is conditional
    on fuel.  A function that sleeps is split where it sleeps, or, where the wake-up is the
    arrival of a message, runs the handler of that message first.

    Code outside the repository is a parameter: the verbs ([ib_post_send], class [Verbs]),
    the block layer's allocation of clones (class [BlockLayer]), [posix_memalign],
    [ibv_reg_mr], random numbers, and the answers of the calls that hand out objects (records
    [verbs], [kernel], [ibverbs]).  Objects that are acquired and released (queue pairs, memory
    regions, disks, allocations) are numbers in the heap of [Handles], where a second release
    or a use after release is a fault.  The macros that [configure] can override are the classes
    [Config] and [DaemonConfig], whose bounds every theorem keeps general; witnesses use the
    defaults.

    ** The client: data path

    - [Types]: constants, enumerations and structures of [infiniswap.h].
    - [Bitmap]: [IS_bitmap_set], [_clear], [_test], [_group_set], [_group_clear], [_init] of
      [is_mq.c].  Group operations change exactly the pages of their range, sign bit of the
      words included.
    - [CtxPool]: [IS_get_ctx], [IS_insert_ctx], [IS_ctx_init], [IS_create_conn] of
      [is_main.c].  No context is held twice in any interleaving; a return to a full stack
      overflows.
    - [Stackbd]: the backup disk of [is_mq.c] ([stackbd_make_request*], [stackbd_io_fn],
      [stackbd_threadfn], the three [end_io] callbacks).  Nothing is lost or reordered; a
      disk that is not ready makes the abort path dereference NULL.
    - [Request]: [IS_queue_rq], [IS_request] ([is_mq.c]), [IS_transfer_chunk],
      [IS_rdma_read], [IS_rdma_write], [mem_gather], [client_read_done],
      [client_write_done] ([is_main.c]).
    - [Views], [World], [Transfer]: addresses of chunks and contexts in a session; the disk
      and the network card as an environment whose steps end in the module's completion
      code; what one page request does.
    - [Coherence], [Endings]: the invariant that ties disk, remote memory, bitmaps, queues and
      contexts to a flat array of pages, with any number of requests outstanding, and its
      preservation: [Coherence] has the submission of requests, [Endings] the steps of the
      disk and of the network card, which finishes its work requests in any order.
    - [Volume]: the refinement theorem (every run gives the replies of a flat array),
      progress, and acceptance of requests.
    - [Pages], [IoInv], [Swap]: the same refinement from [IS_session_create] on, while chunks
      come and go: the trigger, connections, messages and evictions ([MapSafety.map_step]) and
      the loss of idle servers ([Disconnect]) interleave with the data path.  [Pages] states
      that none of them makes a page readable on a server that was not recorded there before,
      [IoInv] that the data path keeps the client's maps and pools in order.
    - [Hazards]: what happens outside that contract, each by evaluation or proof: the reuse
      of a context whose RDMA write is in flight, writes made while RDMA is off, refused
      work requests.

    ** The client: chunks and servers

    - [ByteOrder]: [htonll] and [ntohll] of both ends.
    - [ChunkMap]: [IS_single_chunk_init], [IS_chunk_list_init], [client_recv] and its
      handlers, [IS_send_*], [evict_handler], [IS_disconnect_handler],
      [IS_cma_event_handler].
    - [MapInv], [Eviction], [MapSafety]: the maps of the session and of the control blocks
      are one partial bijection; every reachable session keeps it, and messages never make
      the handlers fault.  [Eviction.ChunkMapper] is the interface behind which the handlers
      and the trigger call [IS_single_chunk_map].  [Servers] has the part of the invariant
      that concerns the servers and their pools of contexts.
    - [Session]: [portal_parser], [kernel_cb_init], [IS_session_create].
    - [Disconnect]: [IS_disconnect_handler] takes a lost server out completely: its chunks
      are unmapped or mapped anew, its reads in flight are on the disk's queue, its writes
      have ended; but it frees contexts that bios on that queue still name.
    - [Select], [SelectInv], [Trigger], [Mapping]: [IS_single_chunk_map] and [rdma_trigger].
      The servers asked are distinct and open, idle ones are connected first, the exchange by
      sums and differences is right even where it overflows, the server with the most memory
      serves the chunk.  The activity of an idle chunk grows, since the filter is never
      divided by 100.  [Mapping.selection_mapper] shows that the code is an instance of
      [ChunkMapper], so that the theorems stated over the interface hold of it.

    ** The client: connections, completions, devices

    - [Handles]: pointers, live objects, ownership.
    - [Connect], [ConnectInv]: connection set-up ([IS_bind_client], [IS_setup_qp],
      [IS_setup_buffers], [IS_connect_client], [rdma_connect_upper], [rdma_connect_down]) with
      every verbs call free to fail.  What each outcome leaves live is stated exactly, a
      successful set-up is the step [Select.connect], and a failed one is used all the same.
    - [Completion]: [rdma_cq_event_handler].  Batching of completions does not matter, and the
      network card of [World] is this handler.
    - [Device], [DeviceInv], [DeviceLife]: devices and sessions in configfs
      ([is_configfs.c]), [IS_create_device], [IS_register_block_device], their inverses, and
      loading of the module.  The tables stay well formed in every reachable state, creating
      and removing a device gives back everything, and what happens after failures and in
      other orders.

    ** The server

    - [Daemon]: sessions, connections, lending and the messages of [rdma-common.c], the
      events of [infiniswap-daemon.c].
    - [DaemonInv], [DaemonSteps]: the accounts (sizes are the numbers of allocated and of
      lent chunks, and the maps of the server and of its connections agree), kept from
      [rdma_session_init] on by every event; what DONE and a lost connection do; what goes
      wrong when a chunk is asked for and none is free.
    - [Protocol]: the client of [ChunkMap] against the server of [Daemon]: the handshakes
      that bind a chunk and that take chunks back.
    - [Evict], [EvictInv], [EvictSafety]: [evict_mem] and the iteration of [free_mem], the
      filter in IEEE arithmetic included.  Only chunks that are not lent are freed, the draw
      of clients ends, the least active chunks are recalled; with several clients the count
      of a STOP message is wrong.
    - [ConnStates], [EvictMem]: the state of a connection is CONN_MAPPED exactly while its
      client has chunks, in every reachable state; the whole of [evict_mem], with the messages
      of the clients it waits for, gives back exactly the memory it was asked for.
    - [Recall]: that function answered by the client's own code ([client_recv],
      [evict_handler]): an eviction from end to end, which takes the chunks used least.
    - [ServerGlue]: the objects of the verbs library that the server holds
      ([build_context], [register_memory], [post_receives], ...), the polling thread, the
      loops of [main] and [free_mem].  No object is leaked or used twice; the memory thread
      ends with the last client and is not started again.

    ** Bounds of the statements

    The refinement holds for one-page requests.  Any number may be outstanding, for different
    pages and different pages of the host, as the block layer above submits them; a request
    is submitted only while every RDMA write in flight still has its context, which is so when
    the disk is not faster than the network ([no_orphans]; [Hazards.ctx_reuse_corrupts] shows
    what happens otherwise).  The disk completes its queue in order.  Chunks may be mapped and
    evicted at any time, since an eviction waits for the work requests of its server; a server
    that is lost has no request in flight and no write in the disk's queue ([Disconnect] has
    the handler with requests in flight).  [chunk_mapping_safe]
    and the handshakes assume servers that keep the protocol, which [DaemonSteps] and
    [Protocol] prove of the daemon.  Addresses of [posix_memalign] and keys of [ibv_reg_mr]
    are arbitrary, but a key that is 0 in its low 32 bits would look like a free slot, and
    is excluded where it matters.

    ** Not modelled

    Locks (each handler runs atomically up to its waits), the tables of operations that hand
    functions to the kernel, the file operations of the block device that return constants
    ([IS_open], [IS_ioctl], ...), [IS_alloc_hctx] (kernels before 3.16), the calls of [main]
    that open the listening socket, and the test programs under [src/test].  Still to prove:
    requests that span two chunks; the loss of a server with requests in flight as a step of
    [Swap]. *)

From Stdlib Require Import ZArith Lia.
From stdpp Require Import base tactics list numbers option.

#[global] Open Scope Z_scope.

(** * Results: a C function either returns or hits one of the faults below *)

Inductive fault :=
  | OutOfBounds   (* array access outside the allocation *)
  | NullDeref     (* dereference of a NULL pointer *)
  | WildPtr       (* dereference of an error code returned as a pointer *)
  | UseAfterFree  (* use, or a second release, of an object that was released *)
  | Blocked       (* a wait whose condition can never become true *)
  | OutOfFuel     (* the model's bound on a loop was reached *)
  | Die.          (* the program called die()/exit() *)

Inductive res (A : Type) :=
  | Ok (a : A)
  | Fault (f : fault).
Arguments Ok {A} a.
Arguments Fault {A} f.

#[export] Instance fault_eq_dec : EqDecision fault.
Proof. solve_decision. Defined.

Definition res_bind {A B} (r : res A) (k : A → res B) : res B :=
  match r with Ok a => k a | Fault f => Fault f end.

Declare Scope res_scope.
Delimit Scope res_scope with res.
#[global] Open Scope res_scope.

Notation "'let*' x := e 'in' k" := (res_bind e (fun x => k))
  (at level 10, x pattern, e at level 200, k at level 200,
   format "'[v' 'let*'  x  :=  e  'in' '/' k ']'") : res_scope.

(** * Record update: [r <| fld := v |>], built from an eta-expansion of the record *)

Class Eta (R : Type) := eta : R → R.
Class Setter {R E : Type} (g : R → E) := upd : (E → E) → R → R.
Arguments upd {R E} g {_} _ _ /.

Ltac build_setter :=
  lazymatch goal with
  | |- @Setter ?R ?E ?g =>
      let s := constr:(fun (f : E → E) (r : R) =>
        ltac:(let t := eval hnf in (@eta R _ r) in
              let p := eval pattern (g r) in t in
              lazymatch p with
              | ?h _ => let b := eval cbv beta in (h (f (g r))) in exact b
              end)) in
      exact s
  end.
#[global] Hint Extern 1 (Setter _) => build_setter : typeclass_instances.

#[warnings="-postfix-notation-not-level-1"]
Notation "r <| g := v |>" := (upd g (fun _ => v) r)
  (at level 12, left associativity, g at level 0, format "r  <| g  :=  v |>").
#[warnings="-postfix-notation-not-level-1"]
Notation "r <| g ::= f |>" := (upd g f r)
  (at level 12, left associativity, g at level 0, format "r  <| g  ::=  f |>").

(** * Machine integers *)

Definition u16 (z : Z) : Z := z mod 2 ^ 16.
Definition u32 (z : Z) : Z := z mod 2 ^ 32.
Definition u64 (z : Z) : Z := z mod 2 ^ 64.
(** Two's complement 32-bit [int]. *)
Definition s32 (z : Z) : Z := (z + 2 ^ 31) mod 2 ^ 32 - 2 ^ 31.

Definition is_u32 (z : Z) : Prop := 0 ≤ z < 2 ^ 32.
Definition is_u64 (z : Z) : Prop := 0 ≤ z < 2 ^ 64.
Definition is_s32 (z : Z) : Prop := - 2 ^ 31 ≤ z < 2 ^ 31.

(** * Arrays: lists indexed by a C [int] *)

Definition len {A} (l : list A) : Z := Z.of_nat (length l).

Definition zget {A} (l : list A) (i : Z) : option A :=
  if decide (0 ≤ i) then l !! Z.to_nat i else None.

Definition zset {A} (l : list A) (i : Z) (x : A) : list A :=
  if decide (0 ≤ i) then <[Z.to_nat i := x]> l else l.

Notation "l .[ i ]" := (zget l i) (at level 1, i at level 200, format "l .[ i ]").

(** [a[i]] and [a[i] = x] as C has them: an index outside the array faults. *)
Definition rd {A} (l : list A) (i : Z) : res A :=
  match zget l i with Some x => Ok x | None => Fault OutOfBounds end.

Definition wr {A} (l : list A) (i : Z) (x : A) : res (list A) :=
  match zget l i with Some _ => Ok (zset l i x) | None => Fault OutOfBounds end.

(** Dereference of a pointer that may be NULL. *)
Definition deref {A} (p : option A) : res A :=
  match p with Some x => Ok x | None => Fault NullDeref end.

(** * Loops *)

(** [for (i = lo; i < lo + n; i++) body] without [break]. *)
Fixpoint for_from {S} (lo : Z) (n : nat) (body : Z → S → res S) (s : S) : res S :=
  match n with
  | O => Ok s
  | S n' => let* s' := body lo s in for_from (lo + 1) n' body s'
  end.

Definition for_upto {S} (n : Z) (body : Z → S → res S) (s : S) : res S :=
  for_from 0 (Z.to_nat n) body s.

(** The same loop whose body may [break]. *)
Inductive ctl (S : Type) :=
  | Next (s : S)
  | Break (s : S).
Arguments Next {S} s.
Arguments Break {S} s.

Definition ctl_state {S} (c : ctl S) : S :=
  match c with Next s => s | Break s => s end.

Fixpoint for_from_break {S} (lo : Z) (n : nat) (body : Z → S → res (ctl S)) (s : S)
  : res (ctl S) :=
  match n with
  | O => Ok (Next s)
  | S n' =>
      let* c := body lo s in
      match c with
      | Next s' => for_from_break (lo + 1) n' body s'
      | Break s' => Ok (Break s')
      end
  end.

Definition for_upto_break {S} (n : Z) (body : Z → S → res (ctl S)) (s : S)
  : res (ctl S) :=
  for_from_break 0 (Z.to_nat n) body s.

(** * Circular probing: [while (busy(x)) { x += 1; x %= n; }], with fuel *)

Fixpoint probe (fuel : nat) (n : Z) (busy : Z → bool) (x : Z) : res Z :=
  match fuel with
  | O => Fault OutOfFuel
  | S fuel' => if busy x then probe fuel' n busy ((x + 1) mod n) else Ok x
  end.

(** * Lemmas and automation *)

Create HintDb zarr.
Create Rewrite HintDb zarrw.
Create HintDb machine.

(** ** Results *)

Lemma res_bind_assoc {A B D} (r : res A) (f : A → res B) (g : B → res D) :
  (let* y := (let* x := r in f x) in g y) = (let* x := r in let* y := f x in g y).
Proof. by destruct r. Qed.

Lemma res_bind_ok {A B} (r : res A) (k : A → res B) b :
  res_bind r k = Ok b → ∃ a, r = Ok a ∧ k a = Ok b.
Proof. destruct r; simpl; [eauto | done]. Qed.

(** Invert a successful sequence of commands, without rewriting with its results. *)
Ltac res_split :=
  repeat match goal with
  | H : res_bind _ _ = Ok _ |- _ =>
      let a := fresh "a" in let Ha := fresh "Ha" in
      apply res_bind_ok in H as (a & Ha & H)
  end.

(** Invert a successful sequence of commands. *)
Ltac res_inv :=
  repeat match goal with
  | H : res_bind _ _ = Ok _ |- _ =>
      let a := fresh "a" in let Ha := fresh "Ha" in
      apply res_bind_ok in H as (a & Ha & H)
  | H : Ok _ = Ok _ |- _ => apply (f_equal (λ r, match r with Ok x => Some x | _ => None end)) in H;
      simpl in H; simplify_eq
  | H : Fault _ = Ok _ |- _ => discriminate H
  end.

(** ** Z-indexed lookup and update *)

Lemma zget_nat {A} (l : list A) (i : nat) : zget l (Z.of_nat i) = l !! i.
Proof. unfold zget. rewrite decide_True by lia. by rewrite Nat2Z.id. Qed.

Lemma zget_Some_range {A} (l : list A) i x : zget l i = Some x → 0 ≤ i < len l.
Proof.
  unfold zget, len. case_decide; [|done]. intros H1%lookup_lt_Some. lia.
Qed.

Lemma zget_is_Some {A} (l : list A) i : 0 ≤ i < len l → ∃ x, zget l i = Some x.
Proof.
  unfold zget, len. intros ?. rewrite decide_True by lia.
  apply lookup_lt_is_Some_2. lia.
Qed.

Lemma zget_None {A} (l : list A) i : i < 0 ∨ len l ≤ i → zget l i = None.
Proof.
  unfold zget, len. intros ?. case_decide; [|done].
  apply lookup_ge_None_2. lia.
Qed.

Lemma len_zset {A} (l : list A) i x : len (zset l i x) = len l.
Proof. unfold len, zset. case_decide; [by rewrite length_insert | done]. Qed.

Lemma zget_zset {A} (l : list A) i j x :
  zget (zset l i x) j = if decide (i = j ∧ 0 ≤ i < len l) then Some x else zget l j.
Proof.
  unfold zget, zset, len.
  case_decide as Hi; repeat case_decide; try done; try lia.
  - destruct_and!. subst j. by rewrite list_lookup_insert_eq by lia.
  - destruct (decide (i = j)) as [<-|Hne].
    + assert (Z.of_nat (length l) ≤ i) by lia.
      rewrite list_insert_ge by lia. done.
    + rewrite list_lookup_insert_ne by lia. done.
Qed.

Lemma zget_zset_eq {A} (l : list A) i x :
  0 ≤ i < len l → zget (zset l i x) i = Some x.
Proof. intros ?. by rewrite zget_zset, decide_True. Qed.

Lemma zget_zset_ne {A} (l : list A) i j x :
  i ≠ j → zget (zset l i x) j = zget l j.
Proof. intros ?. rewrite zget_zset, decide_False; [done | tauto]. Qed.

Lemma zset_id {A} (l : list A) i x : zget l i = Some x → zset l i x = l.
Proof.
  unfold zget, zset. case_decide; [|done]. apply list_insert_id.
Qed.

Lemma zset_zset {A} (l : list A) i x y : zset (zset l i x) i y = zset l i y.
Proof. unfold zset. case_decide; [apply list_insert_insert_eq | done]. Qed.

Lemma zlist_eq {A} (l k : list A) :
  len l = len k → (∀ i, 0 ≤ i < len l → zget l i = zget k i) → l = k.
Proof.
  unfold len. intros Hl H. apply list_eq. intros i.
  destruct (decide (i < length l)%nat).
  - specialize (H (Z.of_nat i)). rewrite !zget_nat in H. apply H. lia.
  - rewrite !lookup_ge_None_2 by lia. done.
Qed.

Lemma len_nonneg {A} (l : list A) : 0 ≤ len l.
Proof. unfold len. lia. Qed.

Lemma len_replicate {A} n (x : A) : 0 ≤ n → len (replicate (Z.to_nat n) x) = n.
Proof. unfold len. rewrite length_replicate. lia. Qed.

Lemma zget_replicate {A} n (x : A) i :
  0 ≤ i < n → zget (replicate (Z.to_nat n) x) i = Some x.
Proof.
  intros ?. unfold zget. rewrite decide_True by lia.
  apply lookup_replicate_2. lia.
Qed.

Lemma forallb_seqZ (f : Z → bool) n i : forallb f (seqZ 0 n) = true → 0 ≤ i < n → f i = true.
Proof. rewrite forallb_forall. intros H Hi. apply H, list_elem_of_In, elem_of_seqZ. lia. Qed.

Lemma zget_fmap_seqZ {A} (f : Z → A) n i : 0 ≤ i < n → zget (f <$> seqZ 0 n) i = Some (f i).
Proof.
  intros Hi. unfold zget. rewrite decide_True, list_lookup_fmap, lookup_seqZ_lt by lia. cbn.
  do 2 f_equal. lia.
Qed.

Lemma zget_In {A} (l : list A) i x : zget l i = Some x → x ∈ l.
Proof.
  unfold zget. case_decide; [|done]. intros. apply list_elem_of_lookup. eauto.
Qed.

Lemma Forall_zget {A} (P : A → Prop) l i x : Forall P l → zget l i = Some x → P x.
Proof. unfold zget. case_decide; [|done]. apply Forall_lookup_1. Qed.

Lemma Forall_zset {A} (P : A → Prop) l i x : Forall P l → P x → Forall P (zset l i x).
Proof. intros. unfold zset. case_decide; [by apply Forall_insert | done]. Qed.

(** ** Checked reads and writes *)

Lemma rd_ok {A} (l : list A) i x : zget l i = Some x → rd l i = Ok x.
Proof. unfold rd. by intros ->. Qed.

Lemma rd_inv {A} (l : list A) i x : rd l i = Ok x → zget l i = Some x.
Proof. unfold rd. destruct (zget l i); congruence. Qed.

Lemma wr_ok {A} (l : list A) i x : 0 ≤ i < len l → wr l i x = Ok (zset l i x).
Proof. intros [y Hy]%zget_is_Some. unfold wr. by rewrite Hy. Qed.

Lemma wr_inv {A} (l l' : list A) i x :
  wr l i x = Ok l' → 0 ≤ i < len l ∧ l' = zset l i x.
Proof.
  unfold wr. destruct (zget l i) eqn:E; [|done].
  intros [= <-]. eauto using zget_Some_range.
Qed.

Lemma rd_fault {A} (l : list A) i : i < 0 ∨ len l ≤ i → rd l i = Fault OutOfBounds.
Proof. intros. unfold rd. by rewrite zget_None. Qed.

Lemma wr_fault {A} (l : list A) i x : i < 0 ∨ len l ≤ i → wr l i x = Fault OutOfBounds.
Proof. intros. unfold wr. by rewrite zget_None. Qed.

#[export] Hint Rewrite @len_zset @zset_zset : zarrw.
#[export] Hint Rewrite @zget_zset_eq @zget_zset_ne @len_replicate using lia : zarrw.
#[export] Hint Resolve zget_Some_range rd_ok Forall_zset len_nonneg : zarr.

(** Decide an access to an updated array. *)
Ltac zarr_solve :=
  repeat (rewrite zget_zset in *; case_decide); destruct_and?; simplify_eq;
  autorewrite with zarrw; try lia; eauto with zarr.

(** ** Loop rules: an invariant that every iteration re-establishes, without fault *)

Lemma for_from_inv {S} (I : Z → S → Prop) (body : Z → S → res S) n : ∀ lo s,
  I lo s →
  (∀ i s, lo ≤ i < lo + Z.of_nat n → I i s → ∃ s', body i s = Ok s' ∧ I (i + 1) s') →
  ∃ s', for_from lo n body s = Ok s' ∧ I (lo + Z.of_nat n) s'.
Proof.
  induction n as [|n IH]; intros lo s Hi Hstep; simpl.
  - exists s. by rewrite Z.add_0_r.
  - destruct (Hstep lo s) as (s1 & -> & H1); [lia | done |]. simpl.
    destruct (IH (lo + 1) s1 H1) as (s2 & H2 & H3).
    { intros i s' ? ?. apply Hstep; [lia | done]. }
    exists s2. split; [done|]. by replace (lo + Z.of_nat (Datatypes.S n)) with (lo + 1 + Z.of_nat n) by lia.
Qed.

Lemma for_upto_inv {S} (I : Z → S → Prop) (body : Z → S → res S) n s :
  0 ≤ n → I 0 s →
  (∀ i s, 0 ≤ i < n → I i s → ∃ s', body i s = Ok s' ∧ I (i + 1) s') →
  ∃ s', for_upto n body s = Ok s' ∧ I n s'.
Proof.
  intros Hn H0 Hstep. unfold for_upto.
  destruct (for_from_inv I body (Z.to_nat n) 0 s H0) as (s' & ? & HI).
  - intros i s'. rewrite Z2Nat.id by lia. apply Hstep.
  - exists s'. split; [done|]. by rewrite Z2Nat.id, Z.add_0_l in HI by lia.
Qed.

(** A loop in which a single iteration does something. *)
Lemma for_from_skip {S} (body : Z → S → res S) n : ∀ lo s,
  (∀ i s, lo ≤ i < lo + Z.of_nat n → body i s = Ok s) → for_from lo n body s = Ok s.
Proof.
  induction n as [|n IH]; intros lo s H; [done|]. cbn [for_from]. rewrite H by lia.
  apply IH. intros. apply H. lia.
Qed.

Lemma for_from_single {S} (body : Z → S → res S) k n : ∀ lo s,
  lo ≤ k < lo + Z.of_nat n →
  (∀ i s, lo ≤ i < lo + Z.of_nat n → i ≠ k → body i s = Ok s) →
  for_from lo n body s = body k s.
Proof.
  induction n as [|n IH]; intros lo s Hk Hb; [lia|]. cbn [for_from].
  destruct (decide (lo = k)) as [->|Hne].
  - destruct (body k s) as [s'|f]; [|done]. cbn [res_bind].
    apply for_from_skip. intros. apply Hb; lia.
  - rewrite Hb by lia. cbn [res_bind]. apply IH; [lia|]. intros. apply Hb; lia.
Qed.

Lemma for_upto_single {S} (body : Z → S → res S) k n s : 0 ≤ k < n →
  (∀ i s, 0 ≤ i < n → i ≠ k → body i s = Ok s) → for_upto n body s = body k s.
Proof. intros Hk Hb. apply for_from_single; [lia|]. intros. apply Hb; lia. Qed.

(** Partial form: the loop's result satisfies what every iteration preserves. *)
Lemma for_from_pres {S} (P : S → Prop) (body : Z → S → res S) n : ∀ lo s s',
  (∀ i s s', P s → body i s = Ok s' → P s') →
  for_from lo n body s = Ok s' → P s → P s'.
Proof.
  induction n as [|n IH]; intros lo s s' Hb; simpl.
  - by intros [= <-].
  - intros (s1 & H1 & H2)%res_bind_ok Hs. eapply IH; eauto.
Qed.

Lemma for_from_break_pres {S} (P : S → Prop) (body : Z → S → res (ctl S)) n : ∀ lo s c,
  (∀ i s c, P s → body i s = Ok c → P (ctl_state c)) →
  for_from_break lo n body s = Ok c → P s → P (ctl_state c).
Proof.
  induction n as [|n IH]; intros lo s c Hb; simpl.
  - by intros [= <-].
  - intros (c1 & H1 & H2)%res_bind_ok Hs. specialize (Hb lo s c1 Hs H1) as Hc1.
    destruct c1; [by eapply IH | by injection H2 as <-].
Qed.

Lemma for_from_break_inv {S} (I : Z → S → Prop) (Q : Z → S → Prop)
  (body : Z → S → res (ctl S)) n : ∀ lo s,
  I lo s →
  (∀ i s, lo ≤ i < lo + Z.of_nat n → I i s →
     ∃ c, body i s = Ok c ∧
       match c with Next s' => I (i + 1) s' | Break s' => Q i s' end) →
  ∃ c, for_from_break lo n body s = Ok c ∧
    match c with
    | Next s' => I (lo + Z.of_nat n) s'
    | Break s' => ∃ i, lo ≤ i < lo + Z.of_nat n ∧ Q i s'
    end.
Proof.
  induction n as [|n IH]; intros lo s Hi Hstep; simpl.
  - exists (Next s). by rewrite Z.add_0_r.
  - destruct (Hstep lo s) as ([s1|s1] & -> & H1); [lia | done | |]; simpl.
    + destruct (IH (lo + 1) s1 H1) as (c & Hc & H2).
      { intros i s' ? ?. apply Hstep; [lia | done]. }
      exists c. split; [done|]. destruct c.
      * by replace (lo + Z.of_nat (Datatypes.S n)) with (lo + 1 + Z.of_nat n) by lia.
      * destruct H2 as (i & ? & ?). exists i. split; [lia | done].
    + exists (Break s1). split; [done|]. exists lo. split; [lia | done].
Qed.

Lemma for_upto_break_inv {S} (I Q : Z → S → Prop) (body : Z → S → res (ctl S)) n s :
  0 ≤ n → I 0 s →
  (∀ i s, 0 ≤ i < n → I i s →
     ∃ c, body i s = Ok c ∧
       match c with Next s' => I (i + 1) s' | Break s' => Q i s' end) →
  ∃ c, for_upto_break n body s = Ok c ∧
    match c with Next s' => I n s' | Break s' => ∃ i, 0 ≤ i < n ∧ Q i s' end.
Proof.
  intros Hn H0 Hstep. unfold for_upto_break.
  destruct (for_from_break_inv I Q body (Z.to_nat n) 0 s H0) as (c & Hc & HI).
  - intros i s'. rewrite Z2Nat.id by lia. apply Hstep.
  - exists c. split; [done|]. destruct c.
    + by rewrite Z2Nat.id, Z.add_0_l in HI by lia.
    + destruct HI as (i & ? & ?). exists i. split; [lia | done].
Qed.

(** ** Machine integers *)

Lemma s32_id z : is_s32 z → s32 z = z.
Proof. unfold is_s32, s32. intros ?. rewrite Z.mod_small by lia. lia. Qed.

Lemma s32_range z : is_s32 (s32 z).
Proof.
  unfold is_s32, s32. pose proof (Z.mod_pos_bound (z + 2 ^ 31) (2 ^ 32)). lia.
Qed.

Lemma u32_id z : is_u32 z → u32 z = z.
Proof. intros ?. by apply Z.mod_small. Qed.

Lemma u64_id z : is_u64 z → u64 z = z.
Proof. intros ?. by apply Z.mod_small. Qed.

(** Addition and subtraction wrap modulo 2^32: the outer wrap absorbs inner ones. *)
Lemma s32_mod z k : s32 (z + k * 2 ^ 32) = s32 z.
Proof.
  unfold s32. replace (z + k * 2 ^ 32 + 2 ^ 31) with (z + 2 ^ 31 + k * 2 ^ 32) by lia.
  by rewrite Z.mod_add by lia.
Qed.

Lemma s32_decomp z : ∃ k, s32 z = z + k * 2 ^ 32.
Proof.
  exists (- ((z + 2 ^ 31) / 2 ^ 32)). unfold s32.
  pose proof (Z.div_mod (z + 2 ^ 31) (2 ^ 32)). lia.
Qed.

Lemma s32_sub_l a b : s32 (s32 a - b) = s32 (a - b).
Proof.
  destruct (s32_decomp a) as [k ->].
  replace (a + k * 2 ^ 32 - b) with (a - b + k * 2 ^ 32) by lia. apply s32_mod.
Qed.

Lemma s32_sub_r a b : s32 (a - s32 b) = s32 (a - b).
Proof.
  destruct (s32_decomp b) as [k ->].
  replace (a - (b + k * 2 ^ 32)) with (a - b + (- k) * 2 ^ 32) by lia. apply s32_mod.
Qed.

#[export] Hint Resolve s32_range : machine.

(** ** Circular probing terminates as soon as one slot is free *)

Lemma probe_finds n busy d : ∀ x fuel,
  0 ≤ x < n → 0 ≤ d < n → busy ((x + d) mod n) = false → d < Z.of_nat fuel →
  ∃ y, probe fuel n busy x = Ok y ∧ 0 ≤ y < n ∧ busy y = false.
Proof.
  remember (Z.to_nat d) as k eqn:Hk. revert d Hk.
  induction k as [|k IH]; intros d Hk x fuel Hx Hd Hfree Hf.
  - assert (d = 0) as -> by lia. destruct fuel as [|fuel]; [lia|]. simpl.
    rewrite Z.add_0_r, Z.mod_small in Hfree by lia. rewrite Hfree. eauto.
  - destruct fuel as [|fuel]; [lia|]. simpl. destruct (busy x) eqn:Hb; [|eauto].
    apply (IH (d - 1)); try lia.
    + apply Z.mod_pos_bound. lia.
    + rewrite Zplus_mod_idemp_l. by replace (x + 1 + (d - 1)) with (x + d) by lia.
Qed.

Lemma probe_total n busy x y :
  0 ≤ x < n → 0 ≤ y < n → busy y = false →
  ∃ z, probe (Z.to_nat n) n busy x = Ok z ∧ 0 ≤ z < n ∧ busy z = false.
Proof.
  intros Hx Hy Hb. apply (probe_finds n busy ((y - x) mod n)); try lia.
  - apply Z.mod_pos_bound. lia.
  - rewrite Zplus_mod_idemp_r. replace (x + (y - x)) with y by lia.
    by rewrite Z.mod_small by lia.
  - pose proof (Z.mod_pos_bound (y - x) n). lia.
Qed.

(** ** Counting the elements of an array that satisfy a test *)

Definition count {A} (f : A → bool) (l : list A) : Z :=
  Z.of_nat (length (List.filter f l)).

Lemma count_cons {A} (f : A → bool) x l :
  count f (x :: l) = (if f x then 1 else 0) + count f l.
Proof. unfold count. simpl. destruct (f x); simpl; lia. Qed.

Lemma count_nonneg {A} (f : A → bool) l : 0 ≤ count f l.
Proof. unfold count. lia. Qed.

Lemma count_le_len {A} (f : A → bool) l : count f l ≤ len l.
Proof.
  unfold len. induction l as [|x l IH]; [unfold count; simpl; lia|].
  rewrite count_cons. simpl. destruct (f x); lia.
Qed.

Lemma count_insert {A} (f : A → bool) (l : list A) i x y :
  l !! i = Some y →
  count f (<[i := x]> l) = count f l - (if f y then 1 else 0) + (if f x then 1 else 0).
Proof.
  revert i. induction l as [|z l IH]; intros [|i]; try done; simpl.
  - intros [= ->]. rewrite !count_cons. lia.
  - intros H. rewrite !count_cons, (IH _ H). lia.
Qed.

Lemma count_zset {A} (f : A → bool) (l : list A) i x y :
  zget l i = Some y →
  count f (zset l i x) = count f l - (if f y then 1 else 0) + (if f x then 1 else 0).
Proof.
  unfold zget, zset. case_decide; [|done]. apply count_insert.
Qed.

Lemma count_ext {A} (f g : A → bool) l :
  (∀ x, x ∈ l → f x = g x) → count f l = count g l.
Proof.
  induction l as [|x l IH]; intros H; [done|].
  rewrite !count_cons, (H x), IH; [done | | left].
  intros y ?. apply H. by right.
Qed.

Lemma zget_cons {A} (x : A) l j : 0 ≤ j → zget (x :: l) (j + 1) = zget l j.
Proof.
  intros Hj. unfold zget. rewrite !decide_True by lia.
  by replace (Z.to_nat (j + 1)) with (S (Z.to_nat j)) by lia.
Qed.

Lemma count_pointwise {A B} (f : A → bool) (g : B → bool) l : ∀ l', len l = len l' →
  (∀ j x y, zget l j = Some x → zget l' j = Some y → f x = g y) → count f l = count g l'.
Proof.
  unfold len. induction l as [|x l IH]; intros [|y l'] Hl Hs; try done.
  rewrite !count_cons, (Hs 0 x y) by done. f_equal. apply IH.
  - simpl in Hl. lia.
  - intros j a b Ha Hb. pose proof (zget_Some_range _ _ _ Ha) as Hr.
    apply (Hs (j + 1)); by rewrite zget_cons by lia.
Qed.

Lemma count_mono {A B} (f : A → bool) (g : B → bool) l : ∀ l', len l = len l' →
  (∀ j x y, zget l j = Some x → zget l' j = Some y → f x = true → g y = true) →
  count f l ≤ count g l'.
Proof.
  unfold len. induction l as [|x l IH]; intros [|y l'] Hl Hs; try done.
  rewrite !count_cons. assert (count f l ≤ count g l').
  { apply IH; [simpl in Hl; lia|]. intros j a b Ha Hb. pose proof (zget_Some_range _ _ _ Ha) as Hr.
    apply (Hs (j + 1)); by rewrite zget_cons by lia. }
  pose proof (Hs 0 x y eq_refl eq_refl). destruct (f x), (g y); try lia.
Qed.

Lemma count_pos {A} (f : A → bool) l : 0 < count f l → ∃ x, x ∈ l ∧ f x = true.
Proof.
  induction l as [|x l IH]; [unfold count; simpl; lia|]. rewrite count_cons.
  destruct (f x) eqn:E.
  - intros _. exists x. split; [left | done].
  - intros H. destruct IH as (y & ? & ?); [lia|]. exists y. split; [by right | done].
Qed.

Lemma count_take {A} (f : A → bool) (l : list A) n x : zget l n = Some x →
  count f (take (Z.to_nat (n + 1)) l) = count f (take (Z.to_nat n) l) + (if f x then 1 else 0).
Proof.
  intros H. pose proof (zget_Some_range _ _ _ H). unfold zget in H.
  rewrite decide_True in H by lia.
  replace (Z.to_nat (n + 1)) with (S (Z.to_nat n)) by lia.
  rewrite (take_S_r _ _ _ H). unfold count. rewrite List.filter_app, length_app. simpl.
  destruct (f x); simpl; lia.
Qed.
