(* ===== verification/Types.v ===== *)
(** The data of the block device module: the constants, enumerations and
    structures of [infiniswap_bd/infiniswap.h].

    A pointer is an index into the table that owns the object: a [struct
    kernel_cb *] is its index in [cb_list], a [struct remote_chunk_g *] is the
    pair of its control block and its slot in [chunk_list], a [struct rdma_ctx *]
    is a [ctx_ptr].  NULL is [None].  Locks and wait queues are left out of the
    records; the handles of the verbs library in a control block are the record
    [cb_handles] of [Connect]. *)

From Stdlib Require Import ZArith Lia Ascii.
From stdpp Require Import base tactics list numbers option.
From S2P Require Import Prelude.

(** * Build configuration: the macros that [configure] can override *)

Class Config := {
  MAX_MR_SIZE_GB : Z;
  STACKBD_SIZE_G : Z;
  MAX_SGL_LEN : Z;
  SERVER_SELECT_NUM : Z;
  max_mr_pos : 0 < MAX_MR_SIZE_GB < 2 ^ 20;
  stackbd_size_pos : 0 < STACKBD_SIZE_G < 2 ^ 20;
  max_sgl_pos : 0 < MAX_SGL_LEN < 2 ^ 10;
  server_select_pos : 0 < SERVER_SELECT_NUM < 2 ^ 10;
}.

(** The defaults, on a kernel 4.4.0 or later. *)
#[refine, export] Instance default_config : Config := {|
  MAX_MR_SIZE_GB := 32;
  STACKBD_SIZE_G := 12;
  MAX_SGL_LEN := 1;
  SERVER_SELECT_NUM := 1;
|}.
Proof. all: lia. Defined.

(** * Constants *)

Definition IS_SECT_SIZE : Z := 512.
Definition IS_SECT_SHIFT : Z := 9.
Definition IS_QUEUE_DEPTH : Z := 256.
Definition QUEUE_NUM_MASK : Z := 0x1f.
Definition KERNEL_SECTOR_SIZE : Z := 512.
Definition LOGICAL_BLOCK_SIZE : Z := 512.
Definition BITMAP_SHIFT : Z := 5.
Definition BITMAP_MASK : Z := 0x1f.
Definition ONE_GB_SHIFT : Z := 30.
Definition ONE_GB_MASK : Z := 0x3fffffff.
Definition ONE_GB : Z := 1073741824.
Definition BITMAP_INT_SIZE : Z := 8192.
Definition IS_PAGE_SIZE : Z := 4096.
Definition CHUNK_MAPPED : Z := 1.
Definition CHUNK_UNMAPPED : Z := 0.
Definition CTX_IDLE : Z := 0.
Definition CTX_R_IN_FLIGHT : Z := 1.
Definition CTX_W_IN_FLIGHT : Z := 2.
Definition DEV_RDMA_ON : Z := 1.
Definition DEV_RDMA_OFF : Z := 0.
Definition TRIGGER_ON : Z := 1.
Definition TRIGGER_OFF : Z := 0.
Definition RDMA_TRIGGER_THRESHOLD : Z := 0.
Definition RDMA_W_WEIGHT : Z := 50.
Definition RDMA_CUR_WEIGHT : Z := 80.
Definition NO_CB_MAPPED : Z := -1.
Definition EIO : Z := 5.
Definition ENOMEM : Z := 12.
Definition EFAULT : Z := 14.
Definition EEXIST : Z := 17.
Definition EINVAL : Z := 22.

(** * Control messages *)

(** [NO_TYPE] is the value 0 that zeroed memory holds, which is no enumerator. *)
Inductive info_type :=
  | NO_TYPE
  | DONE | INFO | INFO_SINGLE | FREE_SIZE | EVICT | ACTIVITY | STOP
  | BIND | BIND_SINGLE | QUERY.

Record IS_rdma_info := {
  buf : list Z;
  rkey : list Z;
  size_gb : Z;
  type : info_type;
}.
#[export] Instance eta_IS_rdma_info : Eta IS_rdma_info :=
  λ r, {| buf := buf r; rkey := rkey r; size_gb := size_gb r; type := type r |}.

(** * Connection state of a control block *)

Inductive test_state :=
  | IDLE | CONNECT_REQUEST | ADDR_RESOLVED | ROUTE_RESOLVED | CONNECTED
  | FREE_MEM_RECV | AFTER_FREE_MEM | RDMA_BUF_ADV | WAIT_OPS | RECV_STOP | RECV_EVICT
  | RDMA_WRITE_RUNNING | RDMA_READ_RUNNING | SEND_DONE | RDMA_DONE | RDMA_READ_ADV
  | RDMA_WRITE_ADV | CM_DISCONNECT | ERROR.

(** The enumerators' values, which the code compares with [<] and [>=]. *)
Definition test_state_val (s : test_state) : Z :=
  match s with
  | IDLE => 1 | CONNECT_REQUEST => 2 | ADDR_RESOLVED => 3 | ROUTE_RESOLVED => 4
  | CONNECTED => 5 | FREE_MEM_RECV => 6 | AFTER_FREE_MEM => 7 | RDMA_BUF_ADV => 8
  | WAIT_OPS => 9 | RECV_STOP => 10 | RECV_EVICT => 11 | RDMA_WRITE_RUNNING => 12
  | RDMA_READ_RUNNING => 13 | SEND_DONE => 14 | RDMA_DONE => 15 | RDMA_READ_ADV => 16
  | RDMA_WRITE_ADV => 17 | CM_DISCONNECT => 18 | ERROR => 19
  end.

Inductive cb_state := CB_IDLE | CB_CONNECTED | CB_MAPPED | CB_EVICTING | CB_FAIL.

Definition cb_state_val (s : cb_state) : Z :=
  match s with
  | CB_IDLE => 0 | CB_CONNECTED => 1 | CB_MAPPED => 2 | CB_EVICTING => 3 | CB_FAIL => 4
  end.

Inductive chunk_list_state := C_IDLE | C_READY | C_EVICT | C_STOP.

Inductive IS_dev_state :=
  | DEVICE_INITIALIZING | DEVICE_OPENNING | DEVICE_RUNNING | DEVICE_OFFLINE.

#[export] Instance info_type_eq_dec : EqDecision info_type.
Proof. solve_decision. Defined.
#[export] Instance test_state_eq_dec : EqDecision test_state.
Proof. solve_decision. Defined.
#[export] Instance cb_state_eq_dec : EqDecision cb_state.
Proof. solve_decision. Defined.
#[export] Instance chunk_list_state_eq_dec : EqDecision chunk_list_state.
Proof. solve_decision. Defined.
#[export] Instance IS_dev_state_eq_dec : EqDecision IS_dev_state.
Proof. solve_decision. Defined.

(** * Remote chunks *)

Record remote_chunk_g := {
  remote_rkey : Z;
  remote_addr : Z;
  bitmap_g : option (list Z);
}.
#[export] Instance eta_remote_chunk_g : Eta remote_chunk_g :=
  λ r, {| remote_rkey := remote_rkey r; remote_addr := remote_addr r;
          bitmap_g := bitmap_g r |}.

Record remote_chunk_g_list := {
  chunk_list : list remote_chunk_g;
  remote_mapped : list Z;
  chunk_size_g : Z;
  target_size_g : Z;
  shrink_size_g : Z;
  chunk_map : list Z;
  evict_chunk_map : list ascii;
  c_state : chunk_list_state;
}.
#[export] Instance eta_remote_chunk_g_list : Eta remote_chunk_g_list :=
  λ r, {| chunk_list := chunk_list r; remote_mapped := remote_mapped r;
          chunk_size_g := chunk_size_g r; target_size_g := target_size_g r;
          shrink_size_g := shrink_size_g r; chunk_map := chunk_map r;
          evict_chunk_map := evict_chunk_map r; c_state := c_state r |}.

Record kernel_cb := {
  cb_index : Z;
  recv_buf : IS_rdma_info;
  send_buf : IS_rdma_info;
  remote_chunk : remote_chunk_g_list;
  state : test_state;
  txdepth : Z;
  cb_size : Z;
}.
#[export] Instance eta_kernel_cb : Eta kernel_cb :=
  λ r, {| cb_index := cb_index r; recv_buf := recv_buf r; send_buf := send_buf r;
          remote_chunk := remote_chunk r; state := state r; txdepth := txdepth r;
          cb_size := cb_size r |}.

(** * Block layer requests *)

(** A 4 KB page of data. *)
Definition page : Type := list Byte.byte.

(** A context's address: the connection and control block whose pool holds it,
    and its index there. *)
Record ctx_ptr := { p_conn : Z; p_cb : Z; p_idx : Z }.

Inductive end_io := IS_stackbd_end_io | IS_stackbd_end_io2 | IS_stackbd_end_io3.

(** The memory a bio transfers: pages of the host from an address on, or the buffer
    of a context. *)
Inductive buffer := Host (addr : Z) | CtxBuf (c : ctx_ptr).

(** A [struct bio]: its memory, its length in segments and in bytes, and its
    position on the device. *)
Record bio_data_desc := {
  bi_buf : buffer;
  bi_phys_segments : Z;
  bi_size : Z;
  bi_sector : Z;
  bi_write : bool;
}.

Record request := {
  rq_id : Z;
  rq_write : bool;
  rq_pos : Z;
  rq_bytes : Z;
  nr_phys_segments : Z;
  rq_bio : list bio_data_desc;
}.

Inductive bio_private := Priv_none | Priv_req (r : request) | Priv_ctx (c : ctx_ptr).

Record bio := {
  bi_desc : bio_data_desc;
  bi_end_io : option end_io;
  bi_private : bio_private;
}.
#[export] Instance eta_bio_data_desc : Eta bio_data_desc :=
  λ r, {| bi_buf := bi_buf r; bi_phys_segments := bi_phys_segments r;
          bi_size := bi_size r; bi_sector := bi_sector r; bi_write := bi_write r |}.
#[export] Instance eta_bio : Eta bio :=
  λ r, {| bi_desc := bi_desc r; bi_end_io := bi_end_io r; bi_private := bi_private r |}.

#[export] Instance ctx_ptr_eq_dec : EqDecision ctx_ptr.
Proof. solve_decision. Defined.
#[export] Instance buffer_eq_dec : EqDecision buffer.
Proof. solve_decision. Defined.
#[export] Instance bio_data_desc_eq_dec : EqDecision bio_data_desc.
Proof. solve_decision. Defined.
#[export] Instance request_eq_dec : EqDecision request.
Proof. solve_decision. Defined.

(** * RDMA contexts and their pools *)

Inductive wr_opcode := IB_WR_RDMA_READ | IB_WR_RDMA_WRITE.

Record rdma_wr := {
  wr_length : Z;
  wr_rkey : Z;
  wr_remote_addr : Z;
  wr_opc : wr_opcode;
}.

Record rdma_ctx := {
  rdma_sq_wr : rdma_wr;
  rdma_buf : list page;
  req : option request;
  chunk_index : Z;
  ctx_cb : option Z;
  offset : Z;
  ctx_len : Z;
  chunk_ptr : option (Z * Z);
  in_flight : Z;
}.
#[export] Instance eta_rdma_ctx : Eta rdma_ctx :=
  λ r, {| rdma_sq_wr := rdma_sq_wr r; rdma_buf := rdma_buf r; req := req r;
          chunk_index := chunk_index r; ctx_cb := ctx_cb r; offset := offset r;
          ctx_len := ctx_len r; chunk_ptr := chunk_ptr r; in_flight := in_flight r |}.

(** [ctx_list] holds pointers into [ctx_pool]: the index of the context, or NULL. *)
Record free_ctx_pool := {
  fc_len : Z;
  ctx_list : list (option Z);
  head : Z;
  tail : Z;
}.
#[export] Instance eta_free_ctx_pool : Eta free_ctx_pool :=
  λ r, {| fc_len := fc_len r; ctx_list := ctx_list r; head := head r; tail := tail r |}.

Record ctx_pool_list := {
  ctx_pool : option (list rdma_ctx);
  free_ctxs : option free_ctx_pool;
}.
#[export] Instance eta_ctx_pool_list : Eta ctx_pool_list :=
  λ r, {| ctx_pool := ctx_pool r; free_ctxs := free_ctxs r |}.

Record IS_connection := {
  cpu_id : Z;
  ctx_pools : list ctx_pool_list;
}.
#[export] Instance eta_IS_connection : Eta IS_connection :=
  λ r, {| cpu_id := cpu_id r; ctx_pools := ctx_pools r |}.

(** * The session *)

Record IS_session := {
  mapped_cb_num : Z;
  cb_list : list kernel_cb;
  cb_num : Z;
  cb_state_list : list cb_state;
  IS_conns : list IS_connection;
  capacity_g : Z;
  cb_index_map : list Z;
  chunk_map_cb_chunk : list Z;
  unmapped_chunk_list : list Z;
  free_chunk_index : Z;
  rdma_on : Z;
  write_ops : list Z;
  read_ops : list Z;
  last_ops : list Z;
  trigger_threshold : Z;
  w_weight : Z;
  cur_weight : Z;
  trigger_enable : Z;
}.
#[export] Instance eta_IS_session : Eta IS_session :=
  λ r, {| mapped_cb_num := mapped_cb_num r; cb_list := cb_list r; cb_num := cb_num r;
          cb_state_list := cb_state_list r; IS_conns := IS_conns r;
          capacity_g := capacity_g r; cb_index_map := cb_index_map r;
          chunk_map_cb_chunk := chunk_map_cb_chunk r;
          unmapped_chunk_list := unmapped_chunk_list r;
          free_chunk_index := free_chunk_index r; rdma_on := rdma_on r;
          write_ops := write_ops r; read_ops := read_ops r; last_ops := last_ops r;
          trigger_threshold := trigger_threshold r; w_weight := w_weight r;
          cur_weight := cur_weight r; trigger_enable := trigger_enable r |}.
