(* ===== verification/Handles.v ===== *)
(** Objects that the module and the memory server acquire and release: protection domains,
    queue pairs, memory regions, DMA mappings, queues and disks of the block layer, their own
    allocations.

    The state is the set of live objects.  A pointer is NULL, an error code ([ERR_PTR]) or the
    number of an object; using or releasing anything but a live object of the right kind is a
    fault, so that a function that returns without a fault released nothing twice and used
    nothing it had released. *)

From Stdlib Require Import ZArith Lia.
From stdpp Require Import base tactics list numbers option gmap.
From S2P Require Import Prelude.

(** * Objects and pointers *)

Inductive kind :=
  | K_cm_id | K_pd | K_cq | K_qp | K_mr | K_dma_map
  | K_tag_set | K_blk_queue | K_disk | K_thread | K_bdev | K_subsys
  | K_file | K_session | K_queues
  | K_channel | K_conn | K_msg | K_ctx.

#[export] Instance kind_eq_dec : EqDecision kind.
Proof. solve_decision. Defined.

Inductive ptr := Null | ErrPtr (e : Z) | Obj (id : Z).

#[export] Instance ptr_eq_dec : EqDecision ptr.
Proof. solve_decision. Defined.

(** [IS_ERR(p)]. *)
Definition IS_ERR (p : ptr) : bool := match p with ErrPtr _ => true | _ => false end.
(** [PTR_ERR(p)], used after [IS_ERR]. *)
Definition PTR_ERR (p : ptr) : Z := match p with ErrPtr e => e | _ => 0 end.
Definition is_null (p : ptr) : bool := match p with Null => true | _ => false end.

Record heap := { live : gmap Z kind; next_id : Z }.
#[export] Instance eta_heap : Eta heap := λ h, {| live := live h; next_id := next_id h |}.

Definition empty_heap : heap := {| live := ∅; next_id := 0 |}.

(** * Operations *)

Definition acquire (k : kind) (h : heap) : ptr * heap :=
  (Obj (next_id h), {| live := <[next_id h := k]> (live h); next_id := next_id h + 1 |}).

(** A call that returns an object, or [err] as an error pointer when it is not 0. *)
Definition acquire_err (k : kind) (err : Z) (h : heap) : ptr * heap :=
  if err =? 0 then acquire k h else (ErrPtr err, h).

(** A call that returns an object, or NULL. *)
Definition acquire_null (k : kind) (ok : bool) (h : heap) : ptr * heap :=
  if ok then acquire k h else (Null, h).

Definition find (k : kind) (p : ptr) (h : heap) : res Z :=
  match p with
  | Null => Fault NullDeref
  | ErrPtr _ => Fault WildPtr
  | Obj id => if decide (live h !! id = Some k) then Ok id else Fault UseAfterFree
  end.

Definition release (k : kind) (p : ptr) (h : heap) : res heap :=
  let* id := find k p h in Ok (h <| live := delete id (live h) |>).

(** [kfree] of an allocation of the module; [kfree(NULL)] does nothing. *)
Definition kfree (k : kind) (p : ptr) (h : heap) : res heap :=
  if is_null p then Ok h else release k p h.

(** * Lemmas *)

(** Numbers at or above [next_id] are not in use. *)
Definition heap_wf (h : heap) : Prop := ∀ id, next_id h ≤ id → live h !! id = None.

Lemma empty_heap_wf : heap_wf empty_heap.
Proof. by intros id _. Qed.

Lemma acquire_wf k h : heap_wf h → heap_wf (acquire k h).2.
Proof.
  intros Hh id Hid. simpl in *. rewrite lookup_insert_ne by lia. apply Hh. lia.
Qed.

Lemma find_live k id h : live h !! id = Some k → find k (Obj id) h = Ok id.
Proof. intros H. simpl. by rewrite decide_True. Qed.

Lemma release_live k id h : live h !! id = Some k →
  release k (Obj id) h = Ok (h <| live := delete id (live h) |>).
Proof. intros H. unfold release. by rewrite find_live. Qed.

Lemma find_dead k id h : live h !! id = None → find k (Obj id) h = Fault UseAfterFree.
Proof. intros H. simpl. by rewrite H. Qed.

Lemma release_wf k p h h' : heap_wf h → release k p h = Ok h' → heap_wf h'.
Proof.
  unfold release. intros Hh Hr. res_inv. intros id Hid. simpl in *.
  destruct (decide (a = id)) as [->|]; [apply lookup_delete_eq|].
  rewrite lookup_delete_ne by done. by apply Hh.
Qed.

(** Releasing what was acquired last restores the live set. *)
Lemma release_acquired k h : heap_wf h →
  release k (Obj (next_id h)) (acquire k h).2
  = Ok {| live := live h; next_id := next_id h + 1 |}.
Proof.
  intros Hh. rewrite release_live by apply lookup_insert_eq. cbn.
  rewrite delete_insert_id; [done|]. apply Hh. lia.
Qed.

(** ** Ownership *)

(** The live objects are exactly those of [l]. *)
Record owns (h : heap) (l : list (Z * kind)) : Prop := {
  ow_live : live h = list_to_map l;
  ow_nodup : NoDup l.*1;
  ow_below : Forall (λ x, x.1 < next_id h) l;
}.

#[export] Instance owns_perm h : Proper ((≡ₚ) ==> iff) (owns h).
Proof.
  assert (∀ l k, l ≡ₚ k → owns h l → owns h k) as H.
  { intros l k Hp [H1 H2 H3]. split.
    - rewrite H1. by apply list_to_map_proper.
    - by rewrite <- Hp.
    - by rewrite <- Hp. }
  intros l k Hp. split; [by apply H | apply H; by symmetry].
Qed.

Lemma owns_empty : owns empty_heap [].
Proof. by split; [|constructor|constructor]. Qed.

Lemma owns_acquire k h l : owns h l → owns (acquire k h).2 ((next_id h, k) :: l).
Proof.
  intros [H1 H2 H3]. split; cbn.
  - by rewrite H1.
  - apply NoDup_cons. split; [|done]. intros ([i k'] & E & Hi)%list_elem_of_fmap.
    rewrite Forall_forall in H3. specialize (H3 _ Hi). simpl in *. lia.
  - constructor; [simpl; lia|]. eapply Forall_impl; [exact H3|]. intros x Hx. simpl in *. lia.
Qed.

Lemma owns_find k id h l : owns h ((id, k) :: l) → find k (Obj id) h = Ok id.
Proof. intros [H1 _ _]. apply find_live. rewrite H1. cbn. apply lookup_insert_eq. Qed.

Lemma owns_release k id h l : owns h ((id, k) :: l) →
  ∃ h', release k (Obj id) h = Ok h' ∧ owns h' l.
Proof.
  intros Ho. unfold release. rewrite (owns_find _ _ _ _ Ho). eexists. split; [done|].
  destruct Ho as [H1 H2 H3]. apply NoDup_cons in H2 as [Hn H2]. apply Forall_cons in H3 as [_ H3].
  split; [|done|done]. cbn. rewrite H1. cbn. apply delete_insert_id.
  by apply not_elem_of_list_to_map_1.
Qed.

Create HintDb handles.
#[export] Hint Resolve empty_heap_wf acquire_wf release_wf : handles.

#[global] Arguments find : simpl never.
#[global] Arguments release : simpl never.

(** Solve lookups in updates of the live set at numbers that differ by constants. *)
Ltac live_solve :=
  cbn; repeat first
    [ rewrite lookup_insert_eq | rewrite lookup_insert_ne by lia
    | rewrite lookup_delete_eq | rewrite lookup_delete_ne by lia ];
  eauto with handles; try congruence; try lia.
