(* ===== verification/ByteOrder.v ===== *)
(** Byte order of the control messages: [htonl] of the C library on a little-endian host,
    the function [htonll] of the daemon ([rdma-common.c]) and the macro [ntohll] that both
    sides define ([rdma-common.h], [infiniswap.h]). *)

From Stdlib Require Import ZArith Lia.
From stdpp Require Import base tactics list numbers option.
From S2P Require Import Prelude.

(** * Operations *)

Definition byte_of (k x : Z) : Z := x / 2 ^ (8 * k) mod 2 ^ 8.

(** [htonl] and [ntohl] reverse the four bytes of a [uint32_t]. *)
Definition htonl (x : Z) : Z :=
  byte_of 0 x * 2 ^ 24 + byte_of 1 x * 2 ^ 16 + byte_of 2 x * 2 ^ 8 + byte_of 3 x.
Definition ntohl (x : Z) : Z := htonl x.

(** The daemon's [htonll], on a little-endian host. *)
Definition htonll (value : Z) : Z :=
  Z.lor (u64 (Z.shiftl (htonl (Z.land value 0xFFFFFFFF)) 32)) (htonl (u32 (Z.shiftr value 32))).

(** The macro: the operands pass through [int] on their way to [ntohl]'s [uint32_t]. *)
Definition ntohll (x : Z) : Z :=
  Z.lor (u64 (Z.shiftl (ntohl (u32 (s32 (Z.shiftr (u64 (Z.shiftl x 32)) 32)))) 32))
        (ntohl (u32 (s32 (Z.shiftr x 32)))).

(** * Lemmas *)

Lemma byte_of_range k x : 0 ≤ byte_of k x < 2 ^ 8.
Proof. apply Z.mod_pos_bound. lia. Qed.

Lemma htonl_range x : is_u32 (htonl x).
Proof.
  unfold is_u32, htonl.
  pose proof (byte_of_range 0 x). pose proof (byte_of_range 1 x).
  pose proof (byte_of_range 2 x). pose proof (byte_of_range 3 x). lia.
Qed.

(** The bytes of four bytes put together. *)
Lemma bytes_of_sum a b c d :
  0 ≤ a < 2 ^ 8 → 0 ≤ b < 2 ^ 8 → 0 ≤ c < 2 ^ 8 → 0 ≤ d < 2 ^ 8 →
  let x := a * 2 ^ 24 + b * 2 ^ 16 + c * 2 ^ 8 + d in
  byte_of 0 x = d ∧ byte_of 1 x = c ∧ byte_of 2 x = b ∧ byte_of 3 x = a.
Proof.
  intros Ha Hb Hc Hd x. unfold byte_of, x.
  change (8 * 0) with 0. change (8 * 1) with 8. change (8 * 2) with 16. change (8 * 3) with 24.
  rewrite Z.div_1_r.
  split_and!; Z.to_euclidean_division_equations; lia.
Qed.

Lemma bytes_decomp x : is_u32 x →
  x = byte_of 3 x * 2 ^ 24 + byte_of 2 x * 2 ^ 16 + byte_of 1 x * 2 ^ 8 + byte_of 0 x.
Proof.
  unfold is_u32, byte_of. intros ?.
  change (8 * 0) with 0. change (8 * 1) with 8. change (8 * 2) with 16. change (8 * 3) with 24.
  rewrite Z.div_1_r. Z.to_euclidean_division_equations. lia.
Qed.

Lemma htonl_involutive x : is_u32 x → ntohl (htonl x) = x.
Proof.
  intros Hx. unfold ntohl, htonl at 1.
  destruct (bytes_of_sum (byte_of 0 x) (byte_of 1 x) (byte_of 2 x) (byte_of 3 x))
    as (E0 & E1 & E2 & E3); try apply byte_of_range.
  fold (htonl x) in *. rewrite E0, E1, E2, E3. symmetry. by apply bytes_decomp.
Qed.

Lemma lor_shift a b : 0 ≤ b < 2 ^ 32 → Z.lor (Z.shiftl a 32) b = a * 2 ^ 32 + b.
Proof.
  intros Hb. rewrite <- Z.shiftl_mul_pow2 by lia.
  assert (Z.land (Z.shiftl a 32) b = 0) as H0.
  { apply Z.bits_inj'. intros n Hn. rewrite Z.land_spec, Z.bits_0, Z.shiftl_spec by lia.
    destruct (decide (n < 32)); [by rewrite Z.testbit_neg_r by lia|].
    destruct (decide (b = 0)) as [->|]; [by rewrite Z.bits_0, andb_false_r|].
    rewrite (Z.bits_above_log2 b n), andb_false_r; [done | lia|].
    apply Z.log2_lt_pow2; [lia|]. assert (2 ^ 32 ≤ 2 ^ n) by (apply Z.pow_le_mono_r; lia). lia. }
  rewrite <- Z.lxor_lor by done. symmetry. by apply Z.add_nocarry_lxor.
Qed.

Lemma u32_land x : Z.land x 0xFFFFFFFF = u32 x.
Proof. change 0xFFFFFFFF with (Z.ones 32). by rewrite Z.land_ones. Qed.

Lemma u32_s32 x : u32 (s32 x) = u32 x.
Proof.
  destruct (s32_decomp x) as [k ->]. unfold u32. by rewrite Z.mod_add.
Qed.

Lemma u32_range x : is_u32 (u32 x).
Proof. unfold is_u32, u32. apply Z.mod_pos_bound. lia. Qed.

Lemma htonll_eq v : htonll v = htonl (u32 v) * 2 ^ 32 + htonl (u32 (v / 2 ^ 32)).
Proof.
  unfold htonll. rewrite u32_land, Z.shiftr_div_pow2 by lia.
  rewrite u64_id; [apply lor_shift, htonl_range|].
  pose proof (htonl_range (u32 v)). rewrite Z.shiftl_mul_pow2 by lia.
  unfold is_u64, is_u32 in *. lia.
Qed.

Lemma ntohll_eq x : ntohll x = ntohl (u32 x) * 2 ^ 32 + ntohl (u32 (x / 2 ^ 32)).
Proof.
  unfold ntohll. rewrite !u32_s32, !Z.shiftr_div_pow2 by lia.
  replace (u32 (u64 (Z.shiftl x 32) / 2 ^ 32)) with (u32 x).
  - rewrite u64_id; [apply lor_shift, htonl_range|].
    pose proof (htonl_range (u32 x)). rewrite Z.shiftl_mul_pow2 by lia.
    unfold is_u64, is_u32, ntohl in *. lia.
  - rewrite Z.shiftl_mul_pow2 by lia. unfold u32, u64.
    change (2 ^ 64) with (2 ^ 32 * 2 ^ 32). rewrite Z.mul_mod_distr_r by lia.
    rewrite Z.div_mul by lia. by rewrite Z.mod_mod by lia.
Qed.

Lemma split_u64 hi lo : is_u32 hi → is_u32 lo →
  u32 (hi * 2 ^ 32 + lo) = lo ∧ u32 ((hi * 2 ^ 32 + lo) / 2 ^ 32) = hi.
Proof.
  intros Hh Hl. rewrite Z.div_add_l, (Z.div_small lo), Z.add_0_r by (unfold is_u32 in *; lia).
  split; [|by apply u32_id]. unfold u32. rewrite Z.add_comm, Z.mod_add by lia. by apply u32_id.
Qed.

(** What both sides rely on: the client's [ntohll] undoes the server's [htonll]. *)
Lemma ntohll_htonll v : is_u64 v → ntohll (htonll v) = v.
Proof.
  intros Hv. rewrite ntohll_eq, htonll_eq.
  destruct (split_u64 (htonl (u32 v)) (htonl (u32 (v / 2 ^ 32)))) as [-> ->];
    try apply htonl_range.
  rewrite !htonl_involutive by apply u32_range. unfold u32, is_u64 in *.
  Z.to_euclidean_division_equations. lia.
Qed.

(** The macro is its own inverse, as the activities need it. *)
Lemma ntohll_involutive v : is_u64 v → ntohll (ntohll v) = v.
Proof.
  intros Hv. replace (ntohll v) with (htonll v) at 1 by by rewrite htonll_eq, ntohll_eq.
  by apply ntohll_htonll.
Qed.

Lemma htonl_zero x : is_u32 x → htonl x = 0 ↔ x = 0.
Proof.
  intros Hx. split; [|by intros ->]. intros H. apply (f_equal ntohl) in H.
  by rewrite htonl_involutive in H.
Qed.

#[export] Hint Resolve htonl_range u32_range : machine.

(** * Theorem *)

(** C31: no word of a control message is lost on the wire.  Addresses ([htonll]
    of the daemon, [ntohll] of the client), activities (the client's [htonll] is the macro
    [ntohll], and so is the daemon's reverse) and keys survive for every value of their
    width, and a key is nonzero on the wire exactly when it is nonzero, which is how the
    receiver tells the chunks that are present. *)
Theorem wire_roundtrip v k (Hv : is_u64 v) (Hk : is_u32 k) :
  ntohll (htonll v) = v ∧ ntohll (ntohll v) = v ∧ ntohl (htonl k) = k ∧
  (htonl k = 0 ↔ k = 0).
Proof.
  split_and!.
  - by apply ntohll_htonll.
  - by apply ntohll_involutive.
  - by apply htonl_involutive.
  - by apply htonl_zero.
Qed.

Lemma wire_roundtrip_witness :
  ntohll (htonll 0xdeadbeef80000001) = 0xdeadbeef80000001 ∧
  ntohll (ntohll 0xdeadbeef80000001) = 0xdeadbeef80000001 ∧
  ntohl (htonl 0x80000001) = 0x80000001 ∧ (htonl 0x80000001 = 0 ↔ 0x80000001 = 0).
Proof. apply wire_roundtrip; unfold is_u64, is_u32; lia. Defined.
