(* ===== verification/Bitmap.v ===== *)
(** The per-chunk page bitmap ([is_mq.c], [IS_bitmap_*], and [bitmap_value] of
    [is_main.c]): an array of 8192 C [int]s, one bit per 4 KB page of a 1 GB chunk.

    The words are kept as two's complement 32-bit integers, so bit 31 is the sign:
    [1 << 31] is the value [-2^31] and the word tests must still work there. *)

From Stdlib Require Import ZArith Lia.
From stdpp Require Import base tactics list numbers option.
From S2P Require Import Prelude Types.

(** * Operations *)

(** The C expression [1 << (i & BITMAP_MASK)], an [int]. *)
Definition bit_mask (i : Z) : Z := s32 (Z.shiftl 1 (Z.land i BITMAP_MASK)).

Definition IS_bitmap_set (bitmap : list Z) (i : Z) : res (list Z) :=
  let* w := rd bitmap (Z.shiftr i BITMAP_SHIFT) in
  wr bitmap (Z.shiftr i BITMAP_SHIFT) (Z.lor w (bit_mask i)).

Definition IS_bitmap_clear (bitmap : list Z) (i : Z) : res (list Z) :=
  let* w := rd bitmap (Z.shiftr i BITMAP_SHIFT) in
  wr bitmap (Z.shiftr i BITMAP_SHIFT) (Z.land w (Z.lnot (bit_mask i))).

Definition IS_bitmap_test (bitmap : list Z) (i : Z) : res bool :=
  let* w := rd bitmap (Z.shiftr i BITMAP_SHIFT) in
  Ok (negb (Z.land w (bit_mask i) =? 0)).

Definition IS_bitmap_group_set (bitmap : list Z) (offset len : Z) : res (list Z) :=
  let start_page := s32 (offset / IS_PAGE_SIZE) in
  let len_page := s32 (len / IS_PAGE_SIZE) in
  for_upto len_page (λ i bm, IS_bitmap_set bm (s32 (start_page + i))) bitmap.

Definition IS_bitmap_group_clear (bitmap : list Z) (offset len : Z) : res (list Z) :=
  let start_page := s32 (offset / IS_PAGE_SIZE) in
  let len_page := s32 (len / IS_PAGE_SIZE) in
  for_upto len_page (λ i bm, IS_bitmap_clear bm (s32 (start_page + i))) bitmap.

(** [memset(bitmap, 0, ONE_GB/(4096*8))]: the bytes of the first
    [ONE_GB/(4096*8)/4] words; a shorter array is written past its end. *)
Definition IS_bitmap_init (bitmap : list Z) : res (list Z) :=
  let words := ONE_GB / (4096 * 8) / 4 in
  if decide (words ≤ len bitmap)
  then Ok (replicate (Z.to_nat words) 0 ++ drop (Z.to_nat words) bitmap)
  else Fault OutOfBounds.

(** [kzalloc(sizeof(int) * BITMAP_INT_SIZE)]. *)
Definition bitmap_alloc : list Z := replicate (Z.to_nat BITMAP_INT_SIZE) 0.

#[global] Arguments IS_bitmap_init : simpl never.
#[global] Arguments bitmap_alloc : simpl never.

(** [for (i = 0; i < BITMAP_INT_SIZE; i += 32)]: the loop's counter is [32 * k]. *)
Definition bitmap_value (bitmap : list Z) : res Z :=
  for_upto (BITMAP_INT_SIZE / 32)
    (λ k val, let* w := rd bitmap (32 * k) in
              Ok (if w =? 0 then val else u32 (val + 1))) 1.

(** * Specification: the set of pages whose bit is set *)

(** Pages of a 1 GB chunk. *)
Definition CHUNK_PAGES : Z := ONE_GB / IS_PAGE_SIZE.

Definition bitmap_wf (bitmap : list Z) : Prop :=
  len bitmap = BITMAP_INT_SIZE ∧ Forall is_s32 bitmap.

(** Page [i] is recorded in the bitmap. *)
Definition recorded (bitmap : list Z) (i : Z) : bool :=
  match zget bitmap (Z.shiftr i BITMAP_SHIFT) with
  | Some w => Z.testbit w (Z.land i BITMAP_MASK)
  | None => false
  end.

(** The pages that [offset, offset+len) covers, as the code computes them. *)
Definition in_group (offset len i : Z) : bool :=
  (offset / IS_PAGE_SIZE <=? i) && (i <? offset / IS_PAGE_SIZE + len / IS_PAGE_SIZE).

(** * Words *)

Lemma page_word_range i :
  0 ≤ i < CHUNK_PAGES → 0 ≤ Z.shiftr i BITMAP_SHIFT < BITMAP_INT_SIZE.
Proof.
  unfold CHUNK_PAGES, ONE_GB, IS_PAGE_SIZE, BITMAP_SHIFT, BITMAP_INT_SIZE. intros ?.
  rewrite Z.shiftr_div_pow2 by lia. change (1073741824 / 4096) with 262144 in *.
  change (2 ^ 5) with 32. split; [apply Z.div_pos; lia | apply Z.div_lt_upper_bound; lia].
Qed.

Lemma page_bit_range i : 0 ≤ Z.land i BITMAP_MASK < 32.
Proof.
  unfold BITMAP_MASK. change 0x1f with (Z.ones 5). rewrite Z.land_ones by lia.
  apply Z.mod_pos_bound. lia.
Qed.

(** A page is determined by its word and its bit. *)
Lemma page_split i j :
  Z.shiftr i BITMAP_SHIFT = Z.shiftr j BITMAP_SHIFT →
  Z.land i BITMAP_MASK = Z.land j BITMAP_MASK → i = j.
Proof.
  unfold BITMAP_SHIFT, BITMAP_MASK. change 0x1f with (Z.ones 5).
  rewrite !Z.shiftr_div_pow2, !Z.land_ones by lia. change (2 ^ 5) with 32.
  pose proof (Z.div_mod i 32). pose proof (Z.div_mod j 32). lia.
Qed.

Lemma s32_bit k : 0 ≤ k < 32 →
  s32 (Z.shiftl 1 k) = if decide (k = 31) then - 2 ^ 31 else 2 ^ k.
Proof.
  intros ?. rewrite Z.shiftl_1_l. case_decide; [by subst|].
  apply s32_id. unfold is_s32.
  assert (2 ^ k < 2 ^ 31) by (apply Z.pow_lt_mono_r; lia).
  assert (0 < 2 ^ k) by (apply Z.pow_pos_nonneg; lia). lia.
Qed.

Lemma testbit_mask k n : 0 ≤ k < 32 → 0 ≤ n →
  Z.testbit (s32 (Z.shiftl 1 k)) n = bool_decide (n = k ∨ (k = 31 ∧ 31 ≤ n)).
Proof.
  intros Hk Hn. rewrite s32_bit by done. case_decide as E.
  - subst k. rewrite <- Z.shiftl_1_l. change (- Z.shiftl 1 31) with (Z.shiftl (-1) 31).
    rewrite Z.shiftl_spec by lia.
    destruct (decide (n < 31)).
    + rewrite Z.testbit_neg_r by lia. symmetry. apply bool_decide_eq_false. lia.
    + rewrite Z.bits_m1 by lia. symmetry. apply bool_decide_eq_true. lia.
  - rewrite Z.pow2_bits_eqb by lia. destruct (Z.eqb_spec k n).
    + symmetry. apply bool_decide_eq_true. lia.
    + symmetry. apply bool_decide_eq_false. lia.
Qed.

(** The sign bit repeats: bits above 31 of an [int] are bit 31. *)
Lemma testbit_high w n : is_s32 w → 31 ≤ n → Z.testbit w n = Z.testbit w 31.
Proof.
  unfold is_s32. intros Hw Hn. destruct (decide (0 ≤ w)) as [H0|H0].
  - assert (∀ m, 31 ≤ m → Z.testbit w m = false) as H.
    { intros m Hm. destruct (decide (w = 0)) as [->|]; [apply Z.bits_0|].
      apply Z.bits_above_log2; [lia|]. apply Z.log2_lt_pow2; [lia|].
      assert (2 ^ 31 ≤ 2 ^ m) by (apply Z.pow_le_mono_r; lia). lia. }
    by rewrite !H by lia.
  - assert (∀ m, 31 ≤ m → Z.testbit w m = true) as H.
    { intros m Hm. destruct (decide (w = -1)) as [->|]; [apply Z.bits_m1; lia|].
      apply Z.bits_above_log2_neg; [lia|]. apply Z.log2_lt_pow2; [lia|].
      assert (2 ^ 31 ≤ 2 ^ m) by (apply Z.pow_le_mono_r; lia). lia. }
    by rewrite !H by lia.
Qed.

(** Conversely, that is what it means to be an [int]. *)
Lemma is_s32_bits w : (∀ n, 31 ≤ n → Z.testbit w n = Z.testbit w 31) → is_s32 w.
Proof.
  intros H. assert (w / 2 ^ 31 = 0 ∨ w / 2 ^ 31 = -1) as Hq.
  { destruct (Z.testbit w 31) eqn:E.
    - right. apply Z.bits_inj'. intros n Hn.
      rewrite Z.div_pow2_bits, Z.bits_m1 by lia. apply H. lia.
    - left. apply Z.bits_inj'. intros n Hn.
      rewrite Z.div_pow2_bits, Z.bits_0 by lia. apply H. lia. }
  unfold is_s32. pose proof (Z.div_mod w (2 ^ 31)).
  pose proof (Z.mod_pos_bound w (2 ^ 31)). lia.
Qed.

Lemma is_s32_lor a b : is_s32 a → is_s32 b → is_s32 (Z.lor a b).
Proof.
  intros Ha Hb. apply is_s32_bits. intros n Hn.
  by rewrite !Z.lor_spec, (testbit_high a n), (testbit_high b n) by done.
Qed.

Lemma is_s32_land a b : is_s32 a → is_s32 b → is_s32 (Z.land a b).
Proof.
  intros Ha Hb. apply is_s32_bits. intros n Hn.
  by rewrite !Z.land_spec, (testbit_high a n), (testbit_high b n) by done.
Qed.

Lemma is_s32_lnot a : is_s32 a → is_s32 (Z.lnot a).
Proof. unfold is_s32, Z.lnot. lia. Qed.

(** [w & (1 << k) != 0] reads bit [k], the sign bit included. *)
Lemma word_test w k : is_s32 w → 0 ≤ k < 32 →
  negb (Z.land w (s32 (Z.shiftl 1 k)) =? 0) = Z.testbit w k.
Proof.
  intros Hw Hk. destruct (Z.testbit w k) eqn:E.
  - apply negb_true_iff, Z.eqb_neq. intros H0.
    apply (f_equal (λ z, Z.testbit z k)) in H0.
    rewrite Z.land_spec, testbit_mask, Z.bits_0, E in H0 by lia.
    rewrite bool_decide_true in H0 by auto. done.
  - apply negb_false_iff, Z.eqb_eq. apply Z.bits_inj'. intros n Hn.
    rewrite Z.land_spec, testbit_mask, Z.bits_0 by lia.
    case_bool_decide as Hd; [|apply andb_false_r].
    destruct Hd as [->|[-> ?]]; [by rewrite E|]. by rewrite testbit_high, E.
Qed.

Create HintDb bitmap.
#[export] Hint Resolve is_s32_lor is_s32_land is_s32_lnot s32_range : bitmap.

(** * Single-page operations *)

Lemma bitmap_wf_word bm i : bitmap_wf bm → 0 ≤ i < CHUNK_PAGES →
  ∃ w, zget bm (Z.shiftr i BITMAP_SHIFT) = Some w ∧ is_s32 w.
Proof.
  intros [Hl Hf] Hi. destruct (zget_is_Some bm (Z.shiftr i BITMAP_SHIFT)) as [w Hw].
  { rewrite Hl. by apply page_word_range. }
  exists w. split; [done|]. by eapply Forall_zget.
Qed.

Lemma bitmap_wf_zset bm k w : bitmap_wf bm → is_s32 w → bitmap_wf (zset bm k w).
Proof. intros [? ?] ?. split; [by rewrite len_zset | auto with zarr]. Qed.

Lemma bitmap_test_recorded bm i : bitmap_wf bm → 0 ≤ i < CHUNK_PAGES →
  IS_bitmap_test bm i = Ok (recorded bm i).
Proof.
  intros Hwf Hi. destruct (bitmap_wf_word bm i) as (w & Hw & ?); [done..|].
  unfold IS_bitmap_test, recorded, bit_mask. rewrite (rd_ok _ _ _ Hw), Hw. simpl.
  f_equal. apply word_test; [done | apply page_bit_range].
Qed.

(** Writing back a word that differs from the old one only in page [i]'s bit. *)
Lemma recorded_zset bm i w w' (b : bool) :
  bitmap_wf bm → 0 ≤ i < CHUNK_PAGES →
  zget bm (Z.shiftr i BITMAP_SHIFT) = Some w →
  (∀ k, 0 ≤ k < 32 →
     Z.testbit w' k = if decide (k = Z.land i BITMAP_MASK) then b else Z.testbit w k) →
  ∀ j, recorded (zset bm (Z.shiftr i BITMAP_SHIFT) w') j =
       if decide (i = j) then b else recorded bm j.
Proof.
  intros [Hl _] Hi Hw Hb j. unfold recorded. rewrite zget_zset, Hl.
  pose proof (page_word_range i Hi). pose proof (page_bit_range j).
  destruct (decide (Z.shiftr i BITMAP_SHIFT = Z.shiftr j BITMAP_SHIFT)) as [E|E].
  - rewrite decide_True by (split; [done | lia]). rewrite Hb by done.
    destruct (decide (i = j)) as [->|Hne]; [by rewrite decide_True|].
    rewrite decide_False by (intros ?; apply Hne; by apply page_split).
    by rewrite <- E, Hw.
  - rewrite decide_False by tauto. rewrite decide_False by congruence. done.
Qed.

Lemma bitmap_set_step bm i : bitmap_wf bm → 0 ≤ i < CHUNK_PAGES →
  ∃ bm', IS_bitmap_set bm i = Ok bm' ∧ bitmap_wf bm' ∧
    ∀ j, recorded bm' j = if decide (i = j) then true else recorded bm j.
Proof.
  intros Hwf Hi. destruct (bitmap_wf_word bm i) as (w & Hw & ?); [done..|].
  unfold IS_bitmap_set. rewrite (rd_ok _ _ _ Hw). simpl.
  rewrite wr_ok by eauto using zget_Some_range. eexists. split; [done|]. split.
  - apply bitmap_wf_zset; [done|]. unfold bit_mask. auto with bitmap.
  - apply (recorded_zset _ _ w); [done..|]. intros k Hk.
    unfold bit_mask. rewrite Z.lor_spec, testbit_mask by (apply page_bit_range || lia).
    destruct (decide (k = Z.land i BITMAP_MASK)) as [->|Hne].
    + rewrite bool_decide_true by auto. apply orb_true_r.
    + rewrite bool_decide_false by lia. apply orb_false_r.
Qed.

Lemma bitmap_clear_step bm i : bitmap_wf bm → 0 ≤ i < CHUNK_PAGES →
  ∃ bm', IS_bitmap_clear bm i = Ok bm' ∧ bitmap_wf bm' ∧
    ∀ j, recorded bm' j = if decide (i = j) then false else recorded bm j.
Proof.
  intros Hwf Hi. destruct (bitmap_wf_word bm i) as (w & Hw & ?); [done..|].
  unfold IS_bitmap_clear. rewrite (rd_ok _ _ _ Hw). simpl.
  rewrite wr_ok by eauto using zget_Some_range. eexists. split; [done|]. split.
  - apply bitmap_wf_zset; [done|]. unfold bit_mask. auto with bitmap.
  - apply (recorded_zset _ _ w); [done..|]. intros k Hk.
    unfold bit_mask. rewrite Z.land_spec, Z.lnot_spec by lia.
    rewrite testbit_mask by (apply page_bit_range || lia).
    destruct (decide (k = Z.land i BITMAP_MASK)) as [->|Hne].
    + rewrite bool_decide_true by auto. apply andb_false_r.
    + rewrite bool_decide_false by lia. apply andb_true_r.
Qed.

(** * Page ranges *)

(** What the loops of the group operations preserve: after [k] iterations the first
    [k] pages of the range hold [b] and every other page is untouched. *)
Definition group_inv (b : bool) (bm : list Z) (start k : Z) (bm' : list Z) : Prop :=
  bitmap_wf bm' ∧
  ∀ j, recorded bm' j = if (start <=? j) && (j <? start + k) then b else recorded bm j.

Lemma group_loop (b : bool) (op : list Z → Z → res (list Z)) bm start n :
  (∀ bm i, bitmap_wf bm → 0 ≤ i < CHUNK_PAGES →
     ∃ bm', op bm i = Ok bm' ∧ bitmap_wf bm' ∧
       ∀ j, recorded bm' j = if decide (i = j) then b else recorded bm j) →
  bitmap_wf bm → 0 ≤ start → 0 ≤ n → start + n ≤ CHUNK_PAGES →
  ∃ bm', for_upto n (λ i bm, op bm (s32 (start + i))) bm = Ok bm' ∧
         group_inv b bm start n bm'.
Proof.
  intros Hop Hwf Hs Hn Hle.
  apply (for_upto_inv (λ k, group_inv b bm start k)); [done | |].
  - split; [done|]. intros j. destruct (start <=? j) eqn:E; simpl; [|done].
    apply Z.leb_le in E. by rewrite (proj2 (Z.ltb_ge j (start + 0))) by lia.
  - intros i bm1 Hi [Hwf1 Hrec1]. rewrite s32_id.
    2: { revert Hle. unfold is_s32, CHUNK_PAGES, ONE_GB, IS_PAGE_SIZE.
         change (1073741824 / 4096) with 262144. lia. }
    destruct (Hop bm1 (start + i)) as (bm2 & Hok & Hwf2 & Hrec2); [done | lia |].
    exists bm2. split; [done|]. split; [done|]. intros j. rewrite Hrec2, Hrec1.
    case_decide; destruct (Z.leb_spec start j), (Z.ltb_spec j (start + i)),
      (Z.ltb_spec j (start + (i + 1))); simpl; try done; lia.
Qed.

Lemma group_args offset len :
  0 ≤ offset → 0 ≤ len → offset / IS_PAGE_SIZE + len / IS_PAGE_SIZE ≤ CHUNK_PAGES →
  0 ≤ offset / IS_PAGE_SIZE ∧ 0 ≤ len / IS_PAGE_SIZE ∧
  s32 (offset / IS_PAGE_SIZE) = offset / IS_PAGE_SIZE ∧
  s32 (len / IS_PAGE_SIZE) = len / IS_PAGE_SIZE.
Proof.
  unfold IS_PAGE_SIZE, CHUNK_PAGES, ONE_GB, IS_PAGE_SIZE. intros.
  change (1073741824 / 4096) with 262144 in *.
  assert (0 ≤ offset / 4096) by (apply Z.div_pos; lia).
  assert (0 ≤ len / 4096) by (apply Z.div_pos; lia).
  split_and!; [done | done | apply s32_id | apply s32_id]; unfold is_s32; lia.
Qed.

Lemma group_set_step bm offset len :
  bitmap_wf bm → 0 ≤ offset → 0 ≤ len →
  offset / IS_PAGE_SIZE + len / IS_PAGE_SIZE ≤ CHUNK_PAGES →
  ∃ bm', IS_bitmap_group_set bm offset len = Ok bm' ∧ bitmap_wf bm' ∧
    ∀ j, recorded bm' j = in_group offset len j || recorded bm j.
Proof.
  intros Hwf Ho Hl Hle. destruct (group_args offset len) as (? & ? & E1 & E2); [done..|].
  unfold IS_bitmap_group_set. rewrite E1, E2.
  destruct (group_loop true IS_bitmap_set bm (offset / IS_PAGE_SIZE) (len / IS_PAGE_SIZE)
    bitmap_set_step) as (bm' & ? & ? & Hr); [done..|].
  exists bm'. split_and!; [done | done|]. intros j. rewrite Hr. unfold in_group.
  by destruct (_ && _).
Qed.

Lemma group_clear_step bm offset len :
  bitmap_wf bm → 0 ≤ offset → 0 ≤ len →
  offset / IS_PAGE_SIZE + len / IS_PAGE_SIZE ≤ CHUNK_PAGES →
  ∃ bm', IS_bitmap_group_clear bm offset len = Ok bm' ∧ bitmap_wf bm' ∧
    ∀ j, recorded bm' j = negb (in_group offset len j) && recorded bm j.
Proof.
  intros Hwf Ho Hl Hle. destruct (group_args offset len) as (? & ? & E1 & E2); [done..|].
  unfold IS_bitmap_group_clear. rewrite E1, E2.
  destruct (group_loop false IS_bitmap_clear bm (offset / IS_PAGE_SIZE) (len / IS_PAGE_SIZE)
    bitmap_clear_step) as (bm' & ? & ? & Hr); [done..|].
  exists bm'. split_and!; [done | done|]. intros j. rewrite Hr. unfold in_group.
  by destruct (_ && _).
Qed.

Lemma bitmap_wf_alloc : bitmap_wf bitmap_alloc.
Proof.
  split; [by apply len_replicate|]. apply Forall_replicate. unfold is_s32. lia.
Qed.

Lemma recorded_alloc i : recorded bitmap_alloc i = false.
Proof.
  unfold recorded, bitmap_alloc, zget. case_decide; [|done].
  destruct (replicate _ _ !! _) eqn:E; [|done].
  apply lookup_replicate in E as [-> _]. apply Z.bits_0.
Qed.

Lemma bitmap_init_alloc bm : bitmap_wf bm → IS_bitmap_init bm = Ok bitmap_alloc.
Proof.
  intros [Hl _]. unfold IS_bitmap_init.
  change (ONE_GB / (4096 * 8) / 4) with BITMAP_INT_SIZE. rewrite decide_True by lia.
  rewrite drop_ge; [by rewrite app_nil_r|]. unfold len in Hl. lia.
Qed.

#[export] Hint Resolve bitmap_wf_alloc bitmap_wf_zset : bitmap.

(** * Theorems *)

(** Setting a page never faults, records that page, and leaves the
    answer of [IS_bitmap_test] on every other page of the chunk unchanged --
    including across the sign bit of each word. *)
Theorem IS_bitmap_set_correct bm i (Hwf : bitmap_wf bm) (Hi : 0 ≤ i < CHUNK_PAGES) :
  ∃ bm', IS_bitmap_set bm i = Ok bm' ∧ bitmap_wf bm' ∧
    IS_bitmap_test bm' i = Ok true ∧
    ∀ j, 0 ≤ j < CHUNK_PAGES → j ≠ i → IS_bitmap_test bm' j = IS_bitmap_test bm j.
Proof.
  destruct (bitmap_set_step bm i) as (bm' & ? & ? & Hr); [done..|].
  exists bm'. split_and!; [done | done | |].
  - rewrite bitmap_test_recorded, Hr, decide_True; done.
  - intros j ? ?. rewrite !bitmap_test_recorded, Hr, decide_False; done.
Qed.

Lemma IS_bitmap_set_correct_witness :
  ∃ bm', IS_bitmap_set bitmap_alloc 31 = Ok bm' ∧ bitmap_wf bm' ∧
    IS_bitmap_test bm' 31 = Ok true ∧
    ∀ j, 0 ≤ j < CHUNK_PAGES → j ≠ 31 → IS_bitmap_test bm' j = IS_bitmap_test bitmap_alloc j.
Proof.
  apply (IS_bitmap_set_correct bitmap_alloc 31 bitmap_wf_alloc).
  unfold CHUNK_PAGES, ONE_GB, IS_PAGE_SIZE. change (1073741824 / 4096) with 262144. lia.
Defined.

(** C24: The group operations over a byte range inside the chunk terminate without fault:
    [IS_bitmap_group_set] records exactly the pages of the range in addition to the ones
    recorded before, and [IS_bitmap_group_clear] un-records exactly the pages of the range. *)
Theorem IS_bitmap_group_correct bm offset len
  (Hwf : bitmap_wf bm) (Hoff : 0 ≤ offset) (Hlen : 0 ≤ len)
  (Hin : offset / IS_PAGE_SIZE + len / IS_PAGE_SIZE ≤ CHUNK_PAGES) :
  (∃ bm', IS_bitmap_group_set bm offset len = Ok bm' ∧ bitmap_wf bm' ∧
    ∀ j, 0 ≤ j < CHUNK_PAGES →
      IS_bitmap_test bm' j = Ok (in_group offset len j || recorded bm j)) ∧
  (∃ bm', IS_bitmap_group_clear bm offset len = Ok bm' ∧ bitmap_wf bm' ∧
    ∀ j, 0 ≤ j < CHUNK_PAGES →
      IS_bitmap_test bm' j = Ok (negb (in_group offset len j) && recorded bm j)).
Proof.
  split; [destruct (group_set_step bm offset len) as (bm' & ? & ? & Hr)
         | destruct (group_clear_step bm offset len) as (bm' & ? & ? & Hr)]; try done;
  exists bm'; split_and!; try done; intros j ?; by rewrite bitmap_test_recorded, Hr.
Qed.

Lemma IS_bitmap_group_correct_witness :
  (∃ bm', IS_bitmap_group_set bitmap_alloc 126976 8192 = Ok bm' ∧ bitmap_wf bm' ∧
    ∀ j, 0 ≤ j < CHUNK_PAGES →
      IS_bitmap_test bm' j = Ok (in_group 126976 8192 j || recorded bitmap_alloc j)) ∧
  (∃ bm', IS_bitmap_group_clear bitmap_alloc 126976 8192 = Ok bm' ∧ bitmap_wf bm' ∧
    ∀ j, 0 ≤ j < CHUNK_PAGES →
      IS_bitmap_test bm' j = Ok (negb (in_group 126976 8192 j) && recorded bitmap_alloc j)).
Proof.
  apply (IS_bitmap_group_correct bitmap_alloc 126976 8192 bitmap_wf_alloc);
    [lia | lia | by vm_compute].
Defined.
