(* ===== verification/CtxPool.v ===== *)
(** The pools of RDMA contexts ([is_main.c]: [IS_get_ctx], [IS_insert_ctx],
    [IS_ctx_init], [IS_create_conn]).  Every connection has, for each control
    block, [IS_QUEUE_DEPTH] contexts and a stack of the free ones. *)

From Stdlib Require Import ZArith Lia.
From stdpp Require Import base tactics list numbers option relations.
From S2P Require Import Prelude Types.

(** * Operations on one pool *)

Definition IS_get_ctx (tmp_pool : ctx_pool_list) : res (option Z * ctx_pool_list) :=
  let* fc := deref (free_ctxs tmp_pool) in
  if decide (tail fc = -1) then Ok (None, tmp_pool)
  else
    let* r := rd (ctx_list fc) (tail fc) in
    Ok (r, tmp_pool <| free_ctxs := Some (fc <| tail := tail fc - 1 |>) |>).

(** The push of [IS_insert_ctx] on the stack the context's [free_ctxs] points to.
    The test of [tail] against the depth comes after the store and only logs. *)
Definition insert_free (fc : free_ctx_pool) (ctx : Z) : res free_ctx_pool :=
  let fc := fc <| tail := tail fc + 1 |> in
  let* l := wr (ctx_list fc) (tail fc) (Some ctx) in
  Ok (fc <| ctx_list := l |>).

Definition pool_insert (pool : ctx_pool_list) (ctx : Z) : res ctx_pool_list :=
  let* fc := deref (free_ctxs pool) in
  let* fc := insert_free fc ctx in
  Ok (pool <| free_ctxs := Some fc |>).

(** * The same through the session's tables *)

Definition get_pool (s : IS_session) (conn cb : Z) : res ctx_pool_list :=
  let* c := rd (IS_conns s) conn in
  rd (ctx_pools c) cb.

Definition set_pool (s : IS_session) (conn cb : Z) (p : ctx_pool_list) : res IS_session :=
  let* c := rd (IS_conns s) conn in
  let* ps := wr (ctx_pools c) cb p in
  let* cs := wr (IS_conns s) conn (c <| ctx_pools := ps |>) in
  Ok (s <| IS_conns := cs |>).

Definition read_ctx (s : IS_session) (p : ctx_ptr) : res rdma_ctx :=
  let* pool := get_pool s (p_conn p) (p_cb p) in
  let* ctxs := deref (ctx_pool pool) in
  rd ctxs (p_idx p).

Definition write_ctx (s : IS_session) (p : ctx_ptr) (c : rdma_ctx) : res IS_session :=
  let* pool := get_pool s (p_conn p) (p_cb p) in
  let* ctxs := deref (ctx_pool pool) in
  let* ctxs := wr ctxs (p_idx p) c in
  set_pool s (p_conn p) (p_cb p) (pool <| ctx_pool := Some ctxs |>).

(** [IS_insert_ctx(ctx)]: [ctx->free_ctxs] is the stack of the pool that holds it
    ([IS_ctx_init] sets it once). *)
Definition IS_insert_ctx (s : IS_session) (ctx : ctx_ptr) : res IS_session :=
  let* pool := get_pool s (p_conn ctx) (p_cb ctx) in
  let* pool := pool_insert pool (p_idx ctx) in
  set_pool s (p_conn ctx) (p_cb ctx) pool.

(** * Construction *)

Definition zero_page : page := replicate (Z.to_nat IS_PAGE_SIZE) Byte.x00.

(** A context as [IS_ctx_init] leaves it: [size] bytes of zeroed buffer. *)
Definition fresh_ctx (size : Z) : rdma_ctx := {|
  rdma_sq_wr := {| wr_length := 0; wr_rkey := 0; wr_remote_addr := 0;
                   wr_opc := IB_WR_RDMA_WRITE |};
  rdma_buf := replicate (Z.to_nat (size / IS_PAGE_SIZE)) zero_page;
  req := None;
  chunk_index := -1;
  ctx_cb := None;
  offset := 0;
  ctx_len := 0;
  chunk_ptr := None;
  in_flight := CTX_IDLE;
|}.

(** A context as [kzalloc] leaves it, before the loop reaches it. *)
Definition zeroed_ctx : rdma_ctx := fresh_ctx 0 <| chunk_index := 0 |>.

(** [kzalloc_ok i] tells whether the allocation of the i-th buffer succeeds.  The
    loop stops at the first failure and leaves the rest of the pool zeroed, the
    stack's [tail] already at the top. *)
Definition IS_ctx_init (kzalloc_ok : Z → bool) (size : Z) : res (Z * ctx_pool_list) :=
  let fc := {| fc_len := IS_QUEUE_DEPTH;
               ctx_list := replicate (Z.to_nat IS_QUEUE_DEPTH) None;
               head := 0; tail := IS_QUEUE_DEPTH - 1 |} in
  let ctxs := replicate (Z.to_nat IS_QUEUE_DEPTH) zeroed_ctx in
  let* c := for_upto_break IS_QUEUE_DEPTH (λ i '(fc, ctxs),
    let* l := wr (ctx_list fc) i (Some i) in
    let fc := fc <| ctx_list := l |> in
    if kzalloc_ok i then
      let* ctxs := wr ctxs i (fresh_ctx size) in Ok (Next (fc, ctxs))
    else
      let* ctxs := wr ctxs i (fresh_ctx 0) in Ok (Break (fc, ctxs))) (fc, ctxs) in
  let '(fc, ctxs) := ctl_state c in
  Ok (match c with Next _ => 0 | Break _ => - ENOMEM end,
      {| ctx_pool := Some ctxs; free_ctxs := Some fc |}).

Definition empty_pool : ctx_pool_list := {| ctx_pool := None; free_ctxs := None |}.

(** [alloc_ok]: the allocation of the connection itself. *)
Definition IS_create_conn (alloc_ok : bool) (NUM_CB cpu : Z) : Z * option IS_connection :=
  if alloc_ok
  then (0, Some {| cpu_id := cpu; ctx_pools := replicate (Z.to_nat NUM_CB) empty_pool |})
  else (- ENOMEM, None).

(** [IS_ctx_dma_setup]: initialise control block [cb_index]'s pool of every
    connection; the return value of [IS_ctx_init] is dropped. *)
Definition IS_ctx_dma_setup (kzalloc_ok : Z → Z → bool) (submit_queues size cb_index : Z)
  (s : IS_session) : res IS_session :=
  for_upto submit_queues (λ i s,
    let* (_, p) := IS_ctx_init (kzalloc_ok i) size in
    set_pool s i cb_index p) s.

(** * Specification: the stack of free contexts and the ones handed out *)

Definition free_stack (fc : free_ctx_pool) : list (option Z) :=
  take (Z.to_nat (tail fc + 1)) (ctx_list fc).

Definition fc_wf (fc : free_ctx_pool) : Prop :=
  len (ctx_list fc) = IS_QUEUE_DEPTH ∧ -1 ≤ tail fc < IS_QUEUE_DEPTH.

(** The free contexts and the [held] ones partition the pool. *)
Definition pool_owned (p : ctx_pool_list) (held : list Z) : Prop :=
  ∃ fc, free_ctxs p = Some fc ∧ fc_wf fc ∧
    free_stack fc ++ (Some <$> held) ≡ₚ (Some <$> seqZ 0 IS_QUEUE_DEPTH).

(** Users of a pool: each takes contexts and returns ones it holds, in any order. *)
Inductive pool_step : ctx_pool_list * list Z → ctx_pool_list * list Z → Prop :=
  | pool_step_get p p' c held :
      IS_get_ctx p = Ok (Some c, p') → pool_step (p, held) (p', c :: held)
  | pool_step_put p p' c held1 held2 :
      pool_insert p c = Ok p' → pool_step (p, held1 ++ c :: held2) (p', held1 ++ held2).

(** * Lemmas *)

Lemma free_stack_push fc x l :
  len (ctx_list fc) = IS_QUEUE_DEPTH → -1 ≤ tail fc < IS_QUEUE_DEPTH - 1 →
  l = zset (ctx_list fc) (tail fc + 1) x →
  take (Z.to_nat (tail fc + 1 + 1)) l = free_stack fc ++ [x].
Proof.
  intros Hl Ht ->. unfold free_stack, zset, len in *. rewrite decide_True by lia.
  replace (Z.to_nat (tail fc + 1 + 1)) with (S (Z.to_nat (tail fc + 1))) by lia.
  erewrite take_S_r; [|apply list_lookup_insert_eq; lia].
  by rewrite take_insert_ge by lia.
Qed.

Lemma free_stack_pop fc r :
  fc_wf fc → tail fc ≠ -1 → zget (ctx_list fc) (tail fc) = Some r →
  free_stack fc = free_stack (fc <| tail := tail fc - 1 |>) ++ [r].
Proof.
  intros [Hl Ht] Hne Hr. unfold free_stack. simpl.
  replace (Z.to_nat (tail fc + 1)) with (S (Z.to_nat (tail fc))) by lia.
  unfold zget in Hr. rewrite decide_True in Hr by lia.
  erewrite take_S_r by exact Hr. f_equal. f_equal. lia.
Qed.

Lemma length_free_stack fc : fc_wf fc → len (free_stack fc) = tail fc + 1.
Proof.
  intros [Hl Ht]. unfold free_stack, len in *. rewrite length_take. lia.
Qed.

(** [IS_get_ctx] pops the stack. *)
Lemma get_ctx_pop p fc : free_ctxs p = Some fc → fc_wf fc →
  (free_stack fc = [] ∧ IS_get_ctx p = Ok (None, p)) ∨
  (∃ r fc', IS_get_ctx p = Ok (r, p <| free_ctxs := Some fc' |>) ∧ fc_wf fc' ∧
     free_stack fc = free_stack fc' ++ [r] ∧ tail fc' = tail fc - 1).
Proof.
  intros Hp Hwf. unfold IS_get_ctx. rewrite Hp. simpl. case_decide as Ht.
  - left. split; [|done]. unfold free_stack. by rewrite Ht.
  - right. destruct (zget_is_Some (ctx_list fc) (tail fc)) as [r Hr].
    { destruct Hwf. lia. }
    rewrite (rd_ok _ _ _ Hr). simpl. eexists r, _. split; [done|]. split_and!; [| | done].
    + destruct Hwf. split; simpl; lia.
    + by apply free_stack_pop.
Qed.

(** [IS_insert_ctx] pushes, as long as the stack is not full. *)
Lemma pool_insert_push p fc c : free_ctxs p = Some fc → fc_wf fc →
  tail fc < IS_QUEUE_DEPTH - 1 →
  ∃ fc', pool_insert p c = Ok (p <| free_ctxs := Some fc' |>) ∧ fc_wf fc' ∧
    free_stack fc' = free_stack fc ++ [Some c].
Proof.
  intros Hp [Hl Ht] Hfull. unfold pool_insert, insert_free. rewrite Hp. simpl.
  rewrite wr_ok by lia. simpl. eexists. split; [done|]. split.
  - split; simpl; [rewrite len_zset|]; lia.
  - unfold free_stack at 1. simpl. eapply free_stack_push; [done | lia | done].
Qed.

Lemma owned_get p held c p' : pool_owned p held →
  IS_get_ctx p = Ok (Some c, p') → pool_owned p' (c :: held).
Proof.
  intros (fc & Hp & Hwf & Hperm) Hget.
  destruct (get_ctx_pop p fc Hp Hwf) as [[_ H]|(r & fc' & H & Hwf' & Hs & _)];
    rewrite H in Hget; simplify_eq.
  exists fc'. split_and!; [done | done|]. rewrite <- Hperm, Hs. simpl.
  by rewrite <- app_assoc.
Qed.

Lemma owned_put p held1 held2 c : pool_owned p (held1 ++ c :: held2) →
  ∃ p', pool_insert p c = Ok p' ∧ pool_owned p' (held1 ++ held2).
Proof.
  intros (fc & Hp & Hwf & Hperm).
  assert (tail fc < IS_QUEUE_DEPTH - 1) as Hlt.
  { apply Permutation_length in Hperm.
    rewrite length_app, !length_fmap, length_app, length_seqZ in Hperm. simpl in Hperm.
    pose proof (length_free_stack fc Hwf). unfold len in *. lia. }
  destruct (pool_insert_push p fc c Hp Hwf Hlt) as (fc' & -> & Hwf' & Hs).
  eexists. split; [done|]. exists fc'. split_and!; [done | done|].
  rewrite <- Hperm, Hs, !fmap_app, fmap_cons, <- app_assoc. simpl.
  by rewrite Permutation_middle.
Qed.

Lemma owned_step x y : pool_step x y → pool_owned x.1 x.2 → pool_owned y.1 y.2.
Proof.
  intros [p p' c held H|p p' c h1 h2 H]; simpl.
  - intros. by eapply owned_get.
  - intros (p2 & H2 & ?)%owned_put. by rewrite H in H2; simplify_eq.
Qed.

Lemma owned_steps x y : rtc pool_step x y → pool_owned x.1 x.2 → pool_owned y.1 y.2.
Proof. induction 1; eauto using owned_step. Qed.

Lemma owned_nodup p held : pool_owned p held → NoDup held.
Proof.
  intros (fc & _ & _ & Hperm).
  assert (NoDup (free_stack fc ++ (Some <$> held))) as Hn.
  { rewrite Hperm. apply NoDup_fmap_2; [apply _ | apply NoDup_seqZ]. }
  apply NoDup_app in Hn as (_ & _ & Hn). by eapply NoDup_fmap_1.
Qed.

(** The pool that a successful [IS_ctx_init] builds. *)
Definition initialised (size : Z) : ctx_pool_list := {|
  ctx_pool := Some (replicate (Z.to_nat IS_QUEUE_DEPTH) (fresh_ctx size));
  free_ctxs := Some {| fc_len := IS_QUEUE_DEPTH; ctx_list := Some <$> seqZ 0 IS_QUEUE_DEPTH;
                       head := 0; tail := IS_QUEUE_DEPTH - 1 |} |}.

Lemma owned_initialised size : pool_owned (initialised size) [].
Proof.
  eexists. split; [done|]. split; [split; [done | vm_compute; naive_solver]|].
  rewrite app_nil_r. by vm_compute.
Qed.

Create HintDb pool.
#[export] Hint Resolve owned_get owned_step owned_initialised owned_nodup : pool.

(** The loop of [IS_ctx_init] after [i] successful iterations. *)
Definition init_inv (size i : Z) (st : free_ctx_pool * list rdma_ctx) : Prop :=
  let '(fc, ctxs) := st in
  fc_len fc = IS_QUEUE_DEPTH ∧ head fc = 0 ∧ tail fc = IS_QUEUE_DEPTH - 1 ∧
  len (ctx_list fc) = IS_QUEUE_DEPTH ∧ len ctxs = IS_QUEUE_DEPTH ∧
  ∀ j, 0 ≤ j < i →
    zget (ctx_list fc) j = Some (Some j) ∧ zget ctxs j = Some (fresh_ctx size).

Lemma init_inv_done size fc ctxs : init_inv size IS_QUEUE_DEPTH (fc, ctxs) →
  {| ctx_pool := Some ctxs; free_ctxs := Some fc |} = initialised size.
Proof.
  intros (H1 & H2 & H3 & Hl & Hc & Hj). unfold initialised. f_equal; f_equal.
  - apply zlist_eq; [by rewrite len_replicate by by vm_compute|].
    intros i Hi. rewrite zget_replicate by lia. apply Hj. lia.
  - destruct fc as [fl cl hd tl]; cbn in H1, H2, H3, Hl, Hj. subst. f_equal.
    assert (len (Some <$> seqZ 0 IS_QUEUE_DEPTH) = IS_QUEUE_DEPTH) as Hs by done.
    apply zlist_eq; [by rewrite Hs|]. intros i Hi. destruct (Hj i) as [-> _]; [lia|].
    unfold zget. rewrite decide_True, list_lookup_fmap by lia.
    rewrite lookup_seqZ_lt by (rewrite Hl in Hi; lia). simpl. do 2 f_equal. lia.
Qed.

Lemma ctx_init_all kzalloc_ok size :
  (∀ i, 0 ≤ i < IS_QUEUE_DEPTH → kzalloc_ok i = true) →
  IS_ctx_init kzalloc_ok size = Ok (0, initialised size).
Proof.
  intros Hok. unfold IS_ctx_init.
  match goal with |- context [for_upto_break _ ?b ?s] =>
    destruct (for_upto_break_inv (init_inv size) (λ _ _, False) b IS_QUEUE_DEPTH s)
      as (c & -> & Hc) end.
  - done.
  - unfold init_inv. split_and!; try done. intros j ?. lia.
  - intros i [fc ctxs] Hi (H1 & H2 & H3 & Hl & Hc & Hj). simpl.
    rewrite Hok, !wr_ok by lia. simpl. eexists. split; [done|]. split_and!; simpl; try done.
    + by rewrite len_zset.
    + by rewrite len_zset.
    + intros j Hij. rewrite !zget_zset. destruct (decide (i = j)) as [->|].
      * rewrite !decide_True by lia. done.
      * rewrite !decide_False by tauto. apply Hj. lia.
  - destruct c as [[fc ctxs]|]; [|by destruct Hc as (? & ? & [])]. simpl.
    by rewrite (init_inv_done size).
Qed.

(** * Theorems *)

(** C14: from the pool that [IS_ctx_init] builds, every interleaving of
    [IS_get_ctx] and of [IS_insert_ctx] on contexts that are held keeps the held
    contexts distinct, and neither call can fault: a held context can always be
    returned, and a request for a context gives one nobody holds, or NULL
    exactly when all [IS_QUEUE_DEPTH] are held. *)
Theorem ctx_pool_safe kzalloc_ok size p0 p held
  (Hinit : IS_ctx_init kzalloc_ok size = Ok (0, p0))
  (Hok : ∀ i, 0 ≤ i < IS_QUEUE_DEPTH → kzalloc_ok i = true)
  (Hrun : rtc pool_step (p0, []) (p, held)) :
  NoDup held ∧
  (∀ c, c ∈ held → ∃ p', pool_insert p c = Ok p') ∧
  (∃ r p', IS_get_ctx p = Ok (r, p') ∧
     match r with
     | Some c => (c ∉ held) ∧ 0 ≤ c < IS_QUEUE_DEPTH
     | None => len held = IS_QUEUE_DEPTH
     end).
Proof.
  rewrite ctx_init_all in Hinit by done. simplify_eq.
  apply owned_steps in Hrun; [|apply owned_initialised]. simpl in Hrun.
  split_and!; [by eapply owned_nodup | |].
  - intros c (h1 & h2 & ->)%list_elem_of_split.
    destruct (owned_put _ _ _ _ Hrun) as (p' & ? & _). eauto.
  - destruct Hrun as (fc & Hp & Hwf & Hperm).
    destruct (get_ctx_pop p fc Hp Hwf) as [[Hs H]|(r & fc' & H & _ & Hs & _)];
      rewrite H; do 2 eexists; (split; [done|]).
    + apply Permutation_length in Hperm. rewrite Hs in Hperm. rewrite app_nil_l in Hperm.
      rewrite !length_fmap, length_seqZ in Hperm. unfold len. rewrite Hperm. done.
    + assert (r ∈ (Some <$> seqZ 0 IS_QUEUE_DEPTH)) as Hin.
      { rewrite <- Hperm, Hs, !elem_of_app. left. right. by apply list_elem_of_singleton. }
      apply list_elem_of_fmap in Hin as (c & -> & Hc%elem_of_seqZ).
      split; [|lia]. intros Hc'.
      assert (NoDup (free_stack fc ++ (Some <$> held))) as Hn.
      { rewrite Hperm. apply NoDup_fmap_2; [apply _ | apply NoDup_seqZ]. }
      rewrite Hs in Hn. apply NoDup_app in Hn as (_ & Hd & _). apply (Hd (Some c)).
      * rewrite elem_of_app. right. by apply list_elem_of_singleton.
      * apply list_elem_of_fmap. eauto.
Qed.

Lemma ctx_pool_safe_witness :
  NoDup [255] ∧
  (∀ c, c ∈ [255] → ∃ p', pool_insert
     (initialised 0 <| free_ctxs := Some {| fc_len := IS_QUEUE_DEPTH;
        ctx_list := Some <$> seqZ 0 IS_QUEUE_DEPTH; head := 0; tail := 254 |} |>) c = Ok p') ∧
  (∃ r p', IS_get_ctx
     (initialised 0 <| free_ctxs := Some {| fc_len := IS_QUEUE_DEPTH;
        ctx_list := Some <$> seqZ 0 IS_QUEUE_DEPTH; head := 0; tail := 254 |} |>)
     = Ok (r, p') ∧
     match r with
     | Some c => (c ∉ [255]) ∧ 0 ≤ c < IS_QUEUE_DEPTH
     | None => len [255] = IS_QUEUE_DEPTH
     end).
Proof.
  apply (ctx_pool_safe (λ _, true) 0 (initialised 0)).
  - apply ctx_init_all. done.
  - done.
  - apply rtc_once. apply pool_step_get. by vm_compute.
Defined.

(** Returning the context just taken restores the pool exactly. *)
Theorem get_insert_roundtrip p fc c p'
  (Hp : free_ctxs p = Some fc) (Hwf : fc_wf fc)
  (Hget : IS_get_ctx p = Ok (Some c, p')) :
  pool_insert p' c = Ok p.
Proof.
  unfold IS_get_ctx in Hget. rewrite Hp in Hget. simpl in Hget.
  case_decide as Ht; [by simplify_eq|]. res_inv. apply rd_inv in Ha.
  unfold pool_insert, insert_free. simpl.
  replace (tail fc - 1 + 1) with (tail fc) by lia.
  rewrite wr_ok by eauto with zarr. simpl. rewrite zset_id by done.
  destruct p, fc; simpl in *; simplify_eq. done.
Qed.

Lemma get_insert_roundtrip_witness :
  pool_insert (initialised 0 <| free_ctxs := Some {| fc_len := IS_QUEUE_DEPTH;
     ctx_list := Some <$> seqZ 0 IS_QUEUE_DEPTH; head := 0; tail := 254 |} |>) 255
  = Ok (initialised 0).
Proof.
  eapply (get_insert_roundtrip (initialised 0)); [reflexivity | | by vm_compute].
  split; [done | vm_compute; naive_solver].
Defined.

(** A context returned to a stack that is already full is stored
    past the end of [ctx_list]: the comparison of [tail] with the depth comes
    after the store. *)
Theorem insert_full_overflows p fc c
  (Hp : free_ctxs p = Some fc) (Hl : len (ctx_list fc) = IS_QUEUE_DEPTH)
  (Hfull : tail fc = IS_QUEUE_DEPTH - 1) :
  pool_insert p c = Fault OutOfBounds.
Proof.
  unfold pool_insert, insert_free. rewrite Hp. simpl. by rewrite wr_fault by lia.
Qed.

Lemma insert_full_overflows_witness :
  pool_insert (initialised 0) 7 = Fault OutOfBounds.
Proof. by eapply insert_full_overflows. Defined.
