(* ===== verification/Stackbd.v ===== *)
(** The backup disk ([is_mq.c], [stackbd_*]): a queue of bios that a kernel thread
    drains to the raw device.  A request that must go to disk is cloned bio by bio
    onto the queue, and the clone of its last bio carries the callback that ends
    the request. *)

From Stdlib Require Import ZArith Lia.
From stdpp Require Import base tactics list numbers option relations.
From S2P Require Import Prelude Types.

(** * What the block layer provides *)

(** [bio_clone] with [GFP_ATOMIC]: NULL when memory is short; otherwise a bio over
    the same pages and sectors, with no callback of its own. *)
Class BlockLayer := {
  bio_clone : bio_data_desc → option bio;
  bio_clone_fresh b c : bio_clone b = Some c →
    c = {| bi_desc := b; bi_end_io := None; bi_private := Priv_none |};
}.

(** * State *)

Record stackbd_t := {
  capacity : Z;
  bio_list : list bio;
  is_active : Z;
  bdev_raw : option Z;
  redirect_done : Z;
}.
#[export] Instance eta_stackbd_t : Eta stackbd_t :=
  λ r, {| capacity := capacity r; bio_list := bio_list r; is_active := is_active r;
          bdev_raw := bdev_raw r; redirect_done := redirect_done r |}.

(** What the end of a bio does: [IS_stackbd_end_io], [IS_stackbd_end_io2] end the
    request, [IS_stackbd_end_io3] returns the context to its pool. *)
Inductive bio_effect :=
  | EndNothing
  | EndRequest (r : request) (err : Z)
  | ReturnCtx (c : ctx_ptr).

Definition bio_endio (b : bio) (err : Z) : res bio_effect :=
  match bi_end_io b, bi_private b with
  | None, _ => Ok EndNothing
  | Some IS_stackbd_end_io, Priv_req r => Ok (EndRequest r err)
  | Some IS_stackbd_end_io2, Priv_req r => Ok (EndRequest r err)
  | Some IS_stackbd_end_io3, Priv_ctx c => Ok (ReturnCtx c)
  | _, _ => Fault NullDeref
  end.

(** [bio_io_error(bio)]: end the bio with [-EIO]. *)
Definition bio_io_error (b : option bio) : res bio_effect :=
  let* b := deref b in bio_endio b (- EIO).

(** * Submitting to the queue *)

Section Submit.
Context `{BL : BlockLayer}.

Definition bio_list_add (st : stackbd_t) (b : option bio) : res stackbd_t :=
  let* b := deref b in Ok (st <| bio_list := bio_list st ++ [b] |>).

(** The guard shared by every [stackbd_make_request*]. *)
Definition stackbd_ready (st : stackbd_t) : bool :=
  match bdev_raw st with None => false | Some _ => negb (is_active st =? 0) end.

(** [for (i = 0; i < n; i++) { bio = bio_clone(b); bio_list_add(bio); b = b->bi_next; }] *)
Definition clone_loop (n : Z) (b : list bio_data_desc) (st : stackbd_t)
  : res (list bio_data_desc * stackbd_t) :=
  for_upto n (λ _ '(b, st),
    let* d := deref (hd_error b) in
    let* st := bio_list_add st (bio_clone d) in
    Ok (tl b, st)) (b, st).

(** The request goes to the queue with [cb] as the callback of its last bio.  On the
    abort path [bio] is still NULL when [bio_io_error] gets it. *)
Definition make_request_with (cb : end_io) (st : stackbd_t) (r : request)
  : res (stackbd_t * bio_effect) :=
  let len := s32 (nr_phys_segments r) in
  if stackbd_ready st then
    let* (b, st) := clone_loop (len - 1) (rq_bio r) st in
    let* d := deref (hd_error b) in
    let* bio := deref (bio_clone d) in
    let bio := bio <| bi_end_io := Some cb |> <| bi_private := Priv_req r |> in
    let* st := bio_list_add st (Some bio) in
    Ok (st, EndNothing)
  else
    let* e := bio_io_error None in Ok (st, e).

Definition stackbd_make_request2 (st : stackbd_t) (r : request)
  : res (stackbd_t * bio_effect) :=
  make_request_with IS_stackbd_end_io st r.

Definition stackbd_make_request4 (st : stackbd_t) (r : request)
  : res (stackbd_t * bio_effect) :=
  make_request_with IS_stackbd_end_io2 st r.

(** No callback is set: nothing ever ends the request. *)
Definition stackbd_make_request3 (st : stackbd_t) (r : request)
  : res (stackbd_t * bio_effect) :=
  let len := s32 (nr_phys_segments r) in
  if stackbd_ready st then
    let* (_, st) := clone_loop len (rq_bio r) st in Ok (st, EndNothing)
  else
    let* e := bio_io_error None in Ok (st, e).

(** One bio, whose end returns the context it carries. *)
Definition stackbd_make_request5 (st : stackbd_t) (b : bio)
  : res (stackbd_t * bio_effect) :=
  if stackbd_ready st then
    let* st := bio_list_add st (Some (b <| bi_end_io := Some IS_stackbd_end_io3 |>)) in
    Ok (st, EndNothing)
  else
    let* e := bio_io_error (Some b) in Ok (st, e).

(** The bio of a direct user of the stacked device. *)
Definition stackbd_make_request (st : stackbd_t) (b : bio)
  : res (stackbd_t * bio_effect) :=
  if stackbd_ready st then
    let* st := bio_list_add st (Some b) in Ok (st, EndNothing)
  else
    let* e := bio_io_error (Some b) in Ok (st, e).

Definition IS_mq_request_stackbd (st : stackbd_t) (r : request)
  : res (stackbd_t * bio_effect) := stackbd_make_request2 st r.

Definition IS_mq_request_stackbd2 (st : stackbd_t) (r : request)
  : res (stackbd_t * bio_effect) := stackbd_make_request4 st r.

End Submit.

(** * Draining *)

(** [stackbd_io_fn]: the bio is redirected to the raw device and submitted there. *)
Record issued := { is_dev : option Z; is_bio : bio }.

Definition stackbd_io_fn (st : stackbd_t) (b : bio) : issued :=
  {| is_dev := bdev_raw st; is_bio := b |}.

(** One iteration of [stackbd_threadfn] once it is awake. *)
Definition stackbd_threadfn (st : stackbd_t) : stackbd_t * option issued :=
  match bio_list st with
  | [] => (st, None)
  | b :: rest => (st <| bio_list := rest |>, Some (stackbd_io_fn st b))
  end.

(** The thread until the queue is empty. *)
Fixpoint drain (n : nat) (st : stackbd_t) : stackbd_t * list issued :=
  match n with
  | O => (st, [])
  | S n' =>
      match stackbd_threadfn st with
      | (st, None) => (st, [])
      | (st, Some i) => let '(st, out) := drain n' st in (st, i :: out)
      end
  end.

Definition stackbd_drain (st : stackbd_t) : stackbd_t * list issued :=
  drain (length (bio_list st)) st.

(** * Start and geometry *)

(** [lookup]: the device [lookup_bdev] finds; [bdget_ok], [get_ok]: whether
    [bdget] and [blkdev_get] succeed. *)
Definition stackbd_bdev_open (lookup : option Z) (bdget_ok get_ok : bool) : option Z :=
  match lookup with
  | None => None
  | Some d => if bdget_ok then if get_ok then Some d else None else None
  end.

(** [disk_capacity]: the capacity of the device's disk; [thread_ok]: whether
    [kthread_create] succeeds. *)
Definition stackbd_start (lookup : option Z) (bdget_ok get_ok thread_ok : bool)
  (disk_capacity : Z → Z) (st : stackbd_t) : Z * stackbd_t :=
  match stackbd_bdev_open lookup bdget_ok get_ok with
  | None => (- EFAULT, st <| bdev_raw := None |>)
  | Some d =>
      let st := st <| bdev_raw := Some d |> <| capacity := disk_capacity d |> in
      if thread_ok
      then (0, st <| is_active := 1 |> <| redirect_done := 0 |>)
      else (- EFAULT, st)
  end.

Record hd_geometry := { cylinders : Z; heads : Z; sectors : Z; geo_start : Z }.

(** [cylinders] is an [unsigned short]. *)
Definition stackbd_getgeo (st : stackbd_t) : hd_geometry :=
  let size := capacity st * (LOGICAL_BLOCK_SIZE / KERNEL_SECTOR_SIZE) in
  {| cylinders := u16 (Z.shiftr (Z.land size (Z.lnot 0x3f)) 6);
     heads := 4; sectors := 16; geo_start := 0 |}.

(** * Specification *)

Definition plain_bio (d : bio_data_desc) : bio :=
  {| bi_desc := d; bi_end_io := None; bi_private := Priv_none |}.

Definition ending_bio (cb : end_io) (r : request) (d : bio_data_desc) : bio :=
  {| bi_desc := d; bi_end_io := Some cb; bi_private := Priv_req r |}.

(** The bios a request puts on the queue: one per bio of the request, the last one
    carrying the request's end. *)
Fixpoint queue_of (cb : end_io) (r : request) (l : list bio_data_desc) : list bio :=
  match l with
  | [] => []
  | [d] => [ending_bio cb r d]
  | d :: l' => plain_bio d :: queue_of cb r l'
  end.

(** A request of the swap layer: one page per bio. *)
Definition rq_wf (r : request) : Prop :=
  rq_bio r ≠ [] ∧ nr_phys_segments r = len (rq_bio r) ∧ len (rq_bio r) < 2 ^ 31.

(** The requests that a sequence of ended bios completes. *)
Definition ended_requests (l : list bio) : list request :=
  omap (λ b, match bio_endio b 0 with Ok (EndRequest r _) => Some r | _ => None end) l.

Section StackbdProofs.
Context `{BL : BlockLayer}.

(** Enough memory for the clones of these bios. *)
Definition clones_ok (l : list bio_data_desc) : Prop := Forall (λ d, is_Some (bio_clone d)) l.

Lemma bio_clone_plain d : is_Some (bio_clone d) → bio_clone d = Some (plain_bio d).
Proof. intros [c Hc]. rewrite Hc. f_equal. by apply bio_clone_fresh. Qed.

Lemma clone_loop_run pre : ∀ post st lo,
  clones_ok pre →
  for_from lo (length pre) (λ _ '(b, st),
    let* d := deref (hd_error b) in
    let* st := bio_list_add st (bio_clone d) in
    Ok (tl b, st)) (pre ++ post, st)
  = Ok (post, st <| bio_list := bio_list st ++ (plain_bio <$> pre) |>).
Proof.
  induction pre as [|d pre IH]; intros post st lo Hc; simpl.
  - rewrite app_nil_r. by destruct st.
  - apply Forall_cons in Hc as [Hd Hc]. rewrite (bio_clone_plain d Hd). simpl.
    rewrite IH by done. simpl. by rewrite <- app_assoc.
Qed.

Lemma queue_of_snoc cb r l d :
  queue_of cb r (l ++ [d]) = (plain_bio <$> l) ++ [ending_bio cb r d].
Proof.
  induction l as [|x l IH]; [done|]. simpl. revert IH.
  destruct (l ++ [d]) eqn:E; [by destruct l|]. by intros ->.
Qed.

(** What a request adds to the queue of a ready device. *)
Lemma make_request_queue cb st r :
  stackbd_ready st = true → rq_wf r → clones_ok (rq_bio r) →
  make_request_with cb st r =
    Ok (st <| bio_list := bio_list st ++ queue_of cb r (rq_bio r) |>, EndNothing).
Proof.
  intros Hr (Hne & Hn & Hlt) Hc. unfold make_request_with. rewrite Hr, Hn.
  destruct (exists_last Hne) as (l & d & E). rewrite E in *.
  apply Forall_app in Hc as [Hc Hd]. apply Forall_cons in Hd as [Hd _].
  rewrite s32_id by (pose proof (len_nonneg (l ++ [d])); unfold is_s32; lia).
  unfold clone_loop, for_upto, len. rewrite length_app. simpl.
  replace (Z.to_nat (Z.of_nat (length l + 1) - 1)) with (length l) by lia.
  rewrite clone_loop_run by done. simpl. rewrite (bio_clone_plain d Hd). simpl.
  by rewrite queue_of_snoc, <- app_assoc.
Qed.

Lemma desc_plain (l : list bio_data_desc) : bi_desc <$> (plain_bio <$> l) = l.
Proof. induction l as [|x l IH]; [done|]. csimpl. by rewrite IH. Qed.

Lemma issued_bios st (l : list bio) : is_bio <$> ((λ b, stackbd_io_fn st b) <$> l) = l.
Proof. induction l as [|x l IH]; [done|]. csimpl. by rewrite IH. Qed.

Lemma ended_app l k : ended_requests (l ++ k) = ended_requests l ++ ended_requests k.
Proof. unfold ended_requests. apply omap_app. Qed.

Lemma ended_plain (l : list bio_data_desc) : ended_requests (plain_bio <$> l) = [].
Proof. by induction l. Qed.

Lemma ended_queue_of (cb : end_io) r l :
  cb ≠ IS_stackbd_end_io3 → l ≠ [] → ended_requests (queue_of cb r l) = [r].
Proof.
  intros Hcb Hl. destruct (exists_last Hl) as (l' & d & ->).
  rewrite queue_of_snoc, ended_app, ended_plain. by destruct cb.
Qed.

Lemma drain_all n : ∀ st, length (bio_list st) = n →
  drain n st = (st <| bio_list := [] |>, (λ b, stackbd_io_fn st b) <$> bio_list st).
Proof.
  induction n as [|n IH]; intros st Hl; simpl.
  - apply length_zero_iff_nil in Hl. rewrite Hl. destruct st; simpl in *. by subst.
  - unfold stackbd_threadfn. destruct (bio_list st) as [|b l] eqn:E; [done|].
    rewrite IH by (simpl in *; lia). simpl. by destruct st.
Qed.

(** ** Submissions and the thread, interleaved *)

(** The queue, every bio submitted so far, and every bio issued so far. *)
Inductive stackbd_step :
  stackbd_t * list bio * list bio → stackbd_t * list bio * list bio → Prop :=
  | stackbd_step_request st st' r sub out :
      IS_mq_request_stackbd st r = Ok (st', EndNothing) →
      rq_wf r → clones_ok (rq_bio r) →
      stackbd_step (st, sub, out)
        (st', sub ++ queue_of IS_stackbd_end_io r (rq_bio r), out)
  | stackbd_step_request2 st st' r sub out :
      IS_mq_request_stackbd2 st r = Ok (st', EndNothing) →
      rq_wf r → clones_ok (rq_bio r) →
      stackbd_step (st, sub, out)
        (st', sub ++ queue_of IS_stackbd_end_io2 r (rq_bio r), out)
  | stackbd_step_bio st st' b sub out :
      stackbd_make_request5 st b = Ok (st', EndNothing) →
      stackbd_step (st, sub, out)
        (st', sub ++ [b <| bi_end_io := Some IS_stackbd_end_io3 |>], out)
  | stackbd_step_thread st st' i sub out :
      stackbd_threadfn st = (st', Some i) →
      stackbd_step (st, sub, out) (st', sub, out ++ [is_bio i]).

Definition stackbd_inv (x : stackbd_t * list bio * list bio) : Prop :=
  let '(st, sub, out) := x in out ++ bio_list st = sub ∧ stackbd_ready st = true.

Lemma stackbd_step_inv x y : stackbd_step x y → stackbd_inv x → stackbd_inv y.
Proof.
  unfold stackbd_inv.
  intros [st st' r sub out H ? ?|st st' r sub out H ? ?|st st' b sub out H|st st' i sub out H]
    [Hq Hr].
  - unfold IS_mq_request_stackbd, stackbd_make_request2 in H.
    rewrite make_request_queue in H by done. simplify_eq. simpl.
    split; [by rewrite app_assoc | done].
  - unfold IS_mq_request_stackbd2, stackbd_make_request4 in H.
    rewrite make_request_queue in H by done. simplify_eq. simpl.
    split; [by rewrite app_assoc | done].
  - unfold stackbd_make_request5 in H. rewrite Hr in H. simpl in H. simplify_eq. simpl. split; [by rewrite app_assoc | done].
  - unfold stackbd_threadfn in H. destruct (bio_list st) as [|b l] eqn:E; simplify_eq.
    simpl. split; [by rewrite <- app_assoc | done].
Qed.

Lemma stackbd_steps_inv x y : rtc stackbd_step x y → stackbd_inv x → stackbd_inv y.
Proof. induction 1; eauto using stackbd_step_inv. Qed.

End StackbdProofs.

(** A block layer whose clones always succeed. *)
#[refine] Instance roomy_block_layer : BlockLayer := {|
  bio_clone := λ d, Some {| bi_desc := d; bi_end_io := None; bi_private := Priv_none |};
|}.
Proof. intros b c. by intros [= <-]. Defined.

(** * Theorems *)

(** On an active device, a request sent to the backup disk adds exactly
    one bio per bio of the request, in order and over the same pages and sectors,
    and only the last one ends the request. *)
Theorem stackbd_request_queued `{BL : BlockLayer} st r
  (Hready : stackbd_ready st = true) (Hwf : rq_wf r) (Hmem : clones_ok (rq_bio r)) :
  ∃ st', IS_mq_request_stackbd st r = Ok (st', EndNothing) ∧
    ∃ new, bio_list st' = bio_list st ++ new ∧
      bi_desc <$> new = rq_bio r ∧ ended_requests new = [r] ∧
      ended_requests (removelast new) = [].
Proof.
  unfold IS_mq_request_stackbd, stackbd_make_request2.
  rewrite make_request_queue by done. eexists. split; [done|].
  exists (queue_of IS_stackbd_end_io r (rq_bio r)). destruct Hwf as (Hne & _ & _).
  split_and!; [done | | by apply ended_queue_of |].
  - destruct (exists_last Hne) as (l & d & ->). by rewrite queue_of_snoc, fmap_app, desc_plain.
  - destruct (exists_last Hne) as (l & d & ->).
    by rewrite queue_of_snoc, removelast_last, ended_plain.
Qed.

Definition demo_bio (n : Z) : bio_data_desc :=
  {| bi_buf := Host (4096 * n); bi_phys_segments := 1; bi_size := 4096;
     bi_sector := 8 * n; bi_write := true |}.
Definition demo_request : request :=
  {| rq_id := 1; rq_write := true; rq_pos := 0; rq_bytes := 8192; nr_phys_segments := 2;
     rq_bio := [demo_bio 0; demo_bio 1] |}.
Definition demo_stackbd : stackbd_t :=
  {| capacity := 0; bio_list := []; is_active := 1; bdev_raw := Some 0;
     redirect_done := 0 |}.

Lemma demo_request_wf : rq_wf demo_request.
Proof. split_and!; done. Qed.

Lemma demo_clones_ok : @clones_ok roomy_block_layer (rq_bio demo_request).
Proof. repeat constructor; eexists; reflexivity. Qed.

Lemma stackbd_request_queued_witness :
  ∃ st', IS_mq_request_stackbd (BL := roomy_block_layer) demo_stackbd demo_request
           = Ok (st', EndNothing) ∧
    ∃ new, bio_list st' = bio_list demo_stackbd ++ new ∧
      bi_desc <$> new = rq_bio demo_request ∧ ended_requests new = [demo_request] ∧
      ended_requests (removelast new) = [].
Proof.
  apply (stackbd_request_queued (BL := roomy_block_layer) demo_stackbd demo_request);
    [reflexivity | apply demo_request_wf | apply demo_clones_ok].
Defined.

(** C15: whatever the interleaving of submissions and of the draining thread,
    the bios issued to the raw device followed by the ones still queued are the
    submitted ones in submission order: none is lost, duplicated or reordered. *)
Theorem stackbd_fifo `{BL : BlockLayer} st0 st sub out
  (Hempty : bio_list st0 = []) (Hready : stackbd_ready st0 = true)
  (Hrun : rtc stackbd_step (st0, [], []) (st, sub, out)) :
  out ++ bio_list st = sub ∧
  is_bio <$> (stackbd_drain st).2 = drop (length out) sub.
Proof.
  apply stackbd_steps_inv in Hrun; [|by split; [rewrite Hempty|]]. destruct Hrun as [<- _].
  split; [done|]. unfold stackbd_drain. rewrite drain_all by done. simpl.
  by rewrite drop_app_length, issued_bios.
Qed.

Lemma stackbd_fifo_witness :
  ∃ st sub out, length sub = 2%nat ∧ out ++ bio_list st = sub ∧
    is_bio <$> (stackbd_drain st).2 = drop (length out) sub.
Proof.
  exists (demo_stackbd <| bio_list :=
            queue_of IS_stackbd_end_io demo_request (rq_bio demo_request) |>),
    ([] ++ queue_of IS_stackbd_end_io demo_request (rq_bio demo_request)), [].
  split; [done|]. eapply (stackbd_fifo (BL := roomy_block_layer) demo_stackbd); [done..|].
  apply rtc_once. apply stackbd_step_request;
    [reflexivity | apply demo_request_wf | apply demo_clones_ok].
Defined.

(** While the backup device is not ready, sending a request to it
    dereferences NULL: the abort path ends a bio that was never cloned. *)
Theorem stackbd_request_abort_null `{BL : BlockLayer} st r
  (Hnot : stackbd_ready st = false) :
  IS_mq_request_stackbd st r = Fault NullDeref ∧
  IS_mq_request_stackbd2 st r = Fault NullDeref ∧
  stackbd_make_request3 st r = Fault NullDeref.
Proof.
  unfold IS_mq_request_stackbd, IS_mq_request_stackbd2, stackbd_make_request2,
    stackbd_make_request4, stackbd_make_request3, make_request_with. by rewrite Hnot.
Qed.

Lemma stackbd_request_abort_null_witness :
  IS_mq_request_stackbd (BL := roomy_block_layer) (demo_stackbd <| is_active := 0 |>)
    demo_request = Fault NullDeref ∧
  IS_mq_request_stackbd2 (BL := roomy_block_layer) (demo_stackbd <| is_active := 0 |>)
    demo_request = Fault NullDeref ∧
  stackbd_make_request3 (BL := roomy_block_layer) (demo_stackbd <| is_active := 0 |>)
    demo_request = Fault NullDeref.
Proof. by apply stackbd_request_abort_null. Defined.
