(* ===== verification/Request.v ===== *)
(** The data path of the block device: routing of a request ([is_mq.c],
    [IS_request], [IS_queue_rq]), its transfer over RDMA ([is_main.c],
    [IS_transfer_chunk], [IS_rdma_read], [IS_rdma_write], [mem_gather],
    [stackbd_bio_generate]) and the completion of the transfer
    ([client_read_done], [client_write_done]).

    Effects outside the module are recorded in the state: work requests accepted by
    [ib_post_send] in [posted], requests given back to the block layer in
    [ended]. *)

From Stdlib Require Import ZArith Lia.
From stdpp Require Import base tactics list numbers option gmap.
From S2P Require Import Prelude Types Bitmap CtxPool Stackbd.

(** * State of the module *)

(** An RDMA work request accepted by the queue pair of control block [po_cb]. *)
Record posting := { po_cb : Z; po_ctx : ctx_ptr; po_wr : rdma_wr }.

Record bd := {
  sess : IS_session;
  stackbd : stackbd_t;
  host : gmap Z page;
  posted : list posting;
  ended : list (request * Z);
  preempt : Z;
}.
#[export] Instance eta_bd : Eta bd :=
  λ r, {| sess := sess r; stackbd := stackbd r; host := host r; posted := posted r;
          ended := ended r; preempt := preempt r |}.

(** The queue pair: the return code of [ib_post_send], given what is outstanding. *)
Class Verbs := { ib_post_send : list posting → posting → Z }.

(** * Accessors *)

Definition read_cb (s : IS_session) (cb : Z) : res kernel_cb := rd (cb_list s) cb.

Definition read_chunk (s : IS_session) (cb ci : Z) : res remote_chunk_g :=
  let* c := read_cb s cb in rd (chunk_list (remote_chunk c)) ci.

(** [f] applied in place to the bitmap of chunk [ci] of control block [cb]. *)
Definition update_bitmap (f : list Z → res (list Z)) (s : IS_session) (cb ci : Z)
  : res IS_session :=
  let* c := read_cb s cb in
  let* ck := rd (chunk_list (remote_chunk c)) ci in
  let* bm := deref (bitmap_g ck) in
  let* bm := f bm in
  let* cl := wr (chunk_list (remote_chunk c)) ci (ck <| bitmap_g := Some bm |>) in
  let* cbs := wr (cb_list s) cb (c <| remote_chunk ::= λ rc, rc <| chunk_list := cl |> |>) in
  Ok (s <| cb_list := cbs |>).

(** The end of a bio acts on the module's state. *)
Definition apply_effect (w : bd) (e : bio_effect) : res bd :=
  match e with
  | EndNothing => Ok w
  | EndRequest r err => Ok (w <| ended := ended w ++ [(r, err)] |>)
  | ReturnCtx c => let* s := IS_insert_ctx (sess w) c in Ok (w <| sess := s |>)
  end.

Definition host_page (w : bd) (a : Z) : res page :=
  match host w !! a with Some p => Ok p | None => Fault NullDeref end.

Definition host_addr (b : buffer) : res Z :=
  match b with Host a => Ok a | CtxBuf _ => Fault NullDeref end.

(** * Transfers *)

Section Transfer.
Context `{C : Config} `{BL : BlockLayer} `{V : Verbs}.
Variable submit_queues : Z.

(** To disk, through the completion callback of the queue. *)
Definition to_disk (w : bd) (r : request) : res bd :=
  let* (st, e) := IS_mq_request_stackbd (stackbd w) r in
  apply_effect (w <| stackbd := st |>) e.

Definition to_disk2 (w : bd) (r : request) : res bd :=
  let* (st, e) := IS_mq_request_stackbd2 (stackbd w) r in
  apply_effect (w <| stackbd := st |>) e.

(** [while (!ctx) { ... conn_id = (conn_id + 1) % submit_queues; ... }]: the pools of
    the connections in turn.  With every pool empty the loop sleeps until another
    thread returns a context, which this sequential model reports as [Blocked]. *)
Fixpoint acquire_ctx (fuel : nat) (s : IS_session) (cb_index conn_id : Z)
  : res (ctx_ptr * IS_session) :=
  match fuel with
  | O => Fault Blocked
  | S fuel' =>
      let* pool := get_pool s conn_id cb_index in
      let* (r, pool) := IS_get_ctx pool in
      match r with
      | Some i =>
          let* s := set_pool s conn_id cb_index pool in
          Ok ({| p_conn := conn_id; p_cb := cb_index; p_idx := i |}, s)
      | None =>
          let* s := set_pool s conn_id cb_index pool in
          acquire_ctx fuel' s cb_index ((conn_id + 1) mod submit_queues)
      end
  end.

(** One attempt on the connection picked by the buffer's address, and one round. *)
Definition ctx_attempts : nat := S (Z.to_nat submit_queues).

(** [bio_data(req->bio) & QUEUE_NUM_MASK]. *)
Definition conn_id_of (r : request) : res Z :=
  let* b := deref (hd_error (rq_bio r)) in
  let* a := host_addr (bi_buf b) in
  Ok (Z.land (u64 a) QUEUE_NUM_MASK).

Definition with_ctx (w : bd) (p : ctx_ptr) (f : rdma_ctx → rdma_ctx) : res bd :=
  let* c := read_ctx (sess w) p in
  let* s := write_ctx (sess w) p (f c) in
  Ok (w <| sess := s |>).

Definition IS_insert (w : bd) (p : ctx_ptr) : res bd :=
  let* s := IS_insert_ctx (sess w) p in Ok (w <| sess := s |>).

(** Fill in the work request of the context and post it. *)
Definition post_rdma (w : bd) (cb_index : Z) (p : ctx_ptr) (wr : rdma_wr) : res (Z * bd) :=
  let* w := with_ctx w p (λ c, c <| rdma_sq_wr := wr |>) in
  let po := {| po_cb := cb_index; po_ctx := p; po_wr := wr |} in
  let ret := ib_post_send (posted w) po in
  if ret =? 0 then Ok (0, w <| posted := posted w ++ [po] |>) else Ok (ret, w).

Definition IS_rdma_read (w : bd) (cb_index chunk_index_ : Z) (chunk : remote_chunk_g)
  (offset_ len_ : Z) (r : request) : res (Z * bd) :=
  let* conn_id := conn_id_of r in
  let* (p, s) := acquire_ctx ctx_attempts (sess w) cb_index conn_id in
  let w := w <| sess := s |> in
  let* w := with_ctx w p (λ c, c <| req := Some r |> <| chunk_index := chunk_index_ |>
                                 <| in_flight := CTX_R_IN_FLIGHT |>) in
  if negb (rdma_on (sess w) =? DEV_RDMA_ON) then
    let* w := with_ctx w p (λ c, c <| in_flight := CTX_IDLE |>) in
    let* w := IS_insert w p in
    let* w := to_disk2 w r in
    Ok (0, w)
  else
    post_rdma w cb_index p
      {| wr_length := u32 len_; wr_rkey := remote_rkey chunk;
         wr_remote_addr := u64 (remote_addr chunk + offset_); wr_opc := IB_WR_RDMA_READ |}.

(** [memcpy(rdma_buf + i * IS_PAGE_SIZE, buffer, IS_PAGE_SIZE * j)], page by page. *)
Definition memcpy_pages (w : bd) (dst : list page) (i src j : Z) : res (list page) :=
  for_upto j (λ k dst,
    let* p := host_page w (src + k * IS_PAGE_SIZE) in
    wr dst (i + k) p) dst.

(** [for (i = 0; i < nr_seg;) { ...; i += j; tmp = tmp->bi_next; }]: one bio per
    iteration, a NULL [bi_next] is dereferenced. *)
Fixpoint gather_loop (w : bd) (nr_seg i : Z) (tmp : list bio_data_desc) (dst : list page)
  : res (list page) :=
  if nr_seg <=? i then Ok dst
  else
    match tmp with
    | [] => Fault NullDeref
    | b :: rest =>
        let* buffer := host_addr (bi_buf b) in
        let j := bi_phys_segments b in
        let* dst := memcpy_pages w dst i buffer j in
        gather_loop w nr_seg (u32 (i + j)) rest dst
    end.

Definition mem_gather (w : bd) (dst : list page) (r : request) : res (list page) :=
  gather_loop w (nr_phys_segments r) 0 (rq_bio r) dst.

(** The write-through to disk: a bio over the context's buffer at the request's
    position, whose end returns the context. *)
Definition stackbd_bio_generate (w : bd) (p : ctx_ptr) (r : request) : res bd :=
  let io_size := u32 (nr_phys_segments r * IS_PAGE_SIZE) in
  let* b := deref (hd_error (rq_bio r)) in
  let* cloned := deref (bio_clone b) in
  let cloned := cloned <| bi_desc ::= λ d, d <| bi_buf := CtxBuf p |> <| bi_size := io_size |> |>
                       <| bi_private := Priv_ctx p |> in
  let* (st, e) := stackbd_make_request5 (stackbd w) cloned in
  apply_effect (w <| stackbd := st |>) e.

Definition IS_rdma_write (w : bd) (cb_index chunk_index_ : Z) (chunk : remote_chunk_g)
  (offset_ len_ : Z) (r : request) : res (Z * bd) :=
  let* conn_id := conn_id_of r in
  let* (p, s) := acquire_ctx ctx_attempts (sess w) cb_index conn_id in
  let w := w <| sess := s |> in
  let* w := with_ctx w p (λ c, c <| req := Some r |> <| ctx_cb := Some cb_index |>
                                 <| offset := offset_ |> <| ctx_len := len_ |>
                                 <| chunk_ptr := Some (cb_index, chunk_index_) |>
                                 <| chunk_index := chunk_index_ |>
                                 <| in_flight := CTX_W_IN_FLIGHT |>) in
  if negb (rdma_on (sess w) =? DEV_RDMA_ON) then
    let* w := with_ctx w p (λ c, c <| in_flight := CTX_IDLE |>) in
    let* w := IS_insert w p in
    let* w := to_disk2 w r in
    Ok (0, w)
  else
    let* c := read_ctx (sess w) p in
    let* dst := mem_gather w (rdma_buf c) r in
    let* w := with_ctx w p (λ c, c <| rdma_buf := dst |>) in
    let* w := stackbd_bio_generate w p r in
    post_rdma w cb_index p
      {| wr_length := u32 len_; wr_rkey := remote_rkey chunk;
         wr_remote_addr := u64 (remote_addr chunk + offset_); wr_opc := IB_WR_RDMA_WRITE |}.

(** [get_cpu()] disables preemption; the error exit skips [put_cpu()]. *)
Definition IS_transfer_chunk (w : bd) (cb_index chunk_index_ : Z) (chunk : remote_chunk_g)
  (offset_ len_ : Z) (write : bool) (r : request) : res (Z * bd) :=
  let w := w <| preempt := preempt w + 1 |> in
  let* (retval, w) :=
    if write then IS_rdma_write w cb_index chunk_index_ chunk offset_ len_ r
    else IS_rdma_read w cb_index chunk_index_ chunk offset_ len_ r in
  if retval =? 0 then Ok (0, w <| preempt := preempt w - 1 |>) else Ok (retval, w).

(** * Routing *)

(** [start = blk_rq_pos(req) << IS_SECT_SHIFT] and the chunks of the first and of
    the last page. *)
Definition rq_start (r : request) : Z := u64 (Z.shiftl (rq_pos r) IS_SECT_SHIFT).
Definition gb_index_of (r : request) : Z := s32 (Z.shiftr (rq_start r) ONE_GB_SHIFT).
Definition end_index_of (r : request) : Z :=
  s32 (Z.shiftr (u64 (rq_start r + rq_bytes r - IS_PAGE_SIZE)) ONE_GB_SHIFT).

Definition count_op (s : IS_session) (write : bool) (gb_index : Z) : res IS_session :=
  if write then
    let* n := rd (write_ops s) gb_index in
    let* l := wr (write_ops s) gb_index (u64 (n + 1)) in
    Ok (s <| write_ops := l |>)
  else
    let* n := rd (read_ops s) gb_index in
    let* l := wr (read_ops s) gb_index (u64 (n + 1)) in
    Ok (s <| read_ops := l |>).

(** Clear the pages of one side of a request that spans two chunks; only a write
    changes the bitmap, but the chunk is looked up either way. *)
Definition clear_side (s : IS_session) (write : bool) (cb_index gb_index offset_ len_ : Z)
  : res IS_session :=
  if cb_index =? NO_CB_MAPPED then Ok s
  else
    let* ci := rd (chunk_map_cb_chunk s) gb_index in
    let* _ := read_chunk s cb_index ci in
    if write then update_bitmap (λ bm, IS_bitmap_group_clear bm offset_ len_) s cb_index ci
    else Ok s.

(** Every 0 the code returns after [IS_mq_request_stackbd(req)]. *)
Definition disk_ok (w : bd) (r : request) : res (Z * bd) :=
  let* w := to_disk w r in Ok (0, w).

Definition IS_request (w : bd) (r : request) : res (Z * bd) :=
  let write := rq_write r in
  let start := rq_start r in
  let len_ := rq_bytes r in
  let gb_index := gb_index_of r in
  let end_index := end_index_of r in
  let* s := count_op (sess w) write gb_index in
  let w := w <| sess := s |> in
  let chunk_offset := Z.land start ONE_GB_MASK in
  if gb_index =? end_index then
    let* cb_index := rd (cb_index_map s) gb_index in
    if cb_index =? NO_CB_MAPPED then disk_ok w r
    else
      let* cb := read_cb s cb_index in
      let* ci := rd (chunk_map_cb_chunk s) gb_index in
      if ci =? -1 then disk_ok w r
      else
        let* chunk := rd (chunk_list (remote_chunk cb)) ci in
        if write then
          if rdma_on s =? DEV_RDMA_ON
          then IS_transfer_chunk w cb_index ci chunk chunk_offset len_ write r
          else disk_ok w r
        else
          if rdma_on s =? DEV_RDMA_ON then
            let bitmap_i := s32 (chunk_offset / IS_PAGE_SIZE) in
            let* bm := deref (bitmap_g chunk) in
            let* hit := IS_bitmap_test bm bitmap_i in
            if hit : bool
            then IS_transfer_chunk w cb_index ci chunk chunk_offset len_ write r
            else disk_ok w r
          else disk_ok w r
  else
    let* cb_index := rd (cb_index_map s) gb_index in
    let* cb2_index := rd (cb_index_map s) end_index in
    let* s := clear_side s write cb_index gb_index chunk_offset (ONE_GB - chunk_offset) in
    let* s := clear_side s write cb2_index end_index 0
                (u64 (chunk_offset + len_ - ONE_GB)) in
    disk_ok (w <| sess := s |>) r.

Inductive queue_rc := BLK_MQ_RQ_QUEUE_OK | BLK_MQ_RQ_QUEUE_ERROR.

(** [rq->errors] is set to [-EIO] on the error return. *)
Definition IS_queue_rq (w : bd) (r : request) : res (queue_rc * Z * bd) :=
  let* (err, w) := IS_request w r in
  if err =? 0 then Ok (BLK_MQ_RQ_QUEUE_OK, 0, w)
  else Ok (BLK_MQ_RQ_QUEUE_ERROR, - EIO, w).

(** * Completions *)

Definition client_read_done (w : bd) (p : ctx_ptr) : res bd :=
  let* w := with_ctx w p (λ c, c <| in_flight := CTX_IDLE |> <| chunk_index := -1 |>) in
  let* c := read_ctx (sess w) p in
  let* w := with_ctx w p (λ c, c <| req := None |>) in
  let* r := deref (req c) in
  let* b := deref (hd_error (rq_bio r)) in
  let* a := host_addr (bi_buf b) in
  let* pg := rd (rdma_buf c) 0 in
  let w := w <| host := <[a := pg]> (host w) |> in
  let* w := IS_insert w p in
  Ok (w <| ended := ended w ++ [(r, 0)] |>).

Definition client_write_done (w : bd) (p : ctx_ptr) : res bd :=
  let* c := read_ctx (sess w) p in
  match chunk_ptr c with
  | None => Ok w
  | Some (cb, ci) =>
      let* w := with_ctx w p (λ c, c <| in_flight := CTX_IDLE |>) in
      let* s := update_bitmap (λ bm, IS_bitmap_group_set bm (offset c) (ctx_len c))
                  (sess w) cb ci in
      let w := w <| sess := s |> in
      let* w := with_ctx w p (λ c, c <| chunk_index := -1 |> <| chunk_ptr := None |>) in
      match req c with
      | None => Ok w
      | Some r =>
          let* w := with_ctx w p (λ c, c <| req := None |>) in
          Ok (w <| ended := ended w ++ [(r, 0)] |>)
      end
  end.

End Transfer.
