(* ===== verification/Views.v ===== *)
(** Views of the session's nested tables and what the operations of [CtxPool] and
    [Request] do to them.  Clients reason about a chunk, a context or a stack of
    free contexts by its address, never about the tables that hold it. *)

From Stdlib Require Import ZArith Lia.
From stdpp Require Import base tactics list numbers option gmap.
From S2P Require Import Prelude Types Bitmap CtxPool Stackbd Request.

(** * Views *)

Definition chunk_at (s : IS_session) (cb ci : Z) : option remote_chunk_g :=
  match zget (cb_list s) cb with
  | Some c => zget (chunk_list (remote_chunk c)) ci
  | None => None
  end.

Definition pool_at (s : IS_session) (conn cb : Z) : option ctx_pool_list :=
  match zget (IS_conns s) conn with
  | Some c => zget (ctx_pools c) cb
  | None => None
  end.

Definition free_at (s : IS_session) (conn cb : Z) : option free_ctx_pool :=
  match pool_at s conn cb with Some p => free_ctxs p | None => None end.

Definition ctx_at (s : IS_session) (p : ctx_ptr) : option rdma_ctx :=
  match pool_at s (p_conn p) (p_cb p) with
  | Some pool => match ctx_pool pool with Some l => zget l (p_idx p) | None => None end
  | None => None
  end.

(** Two sessions that differ at most in the contexts. *)
Definition same_but_conns (s s' : IS_session) : Prop :=
  ∃ cs, s' = s <| IS_conns := cs |>.

(** Two sessions that differ at most in the control blocks. *)
Definition same_but_cbs (s s' : IS_session) : Prop :=
  ∃ l, s' = s <| cb_list := l |>.

(** * Frame lemmas *)

Lemma same_but_conns_refl s : same_but_conns s s.
Proof. exists (IS_conns s). by destruct s. Qed.

Lemma same_but_conns_trans s1 s2 s3 :
  same_but_conns s1 s2 → same_but_conns s2 s3 → same_but_conns s1 s3.
Proof. intros [cs ->] [cs' ->]. by exists cs'. Qed.

Lemma same_but_conns_chunk s s' cb ci :
  same_but_conns s s' → chunk_at s' cb ci = chunk_at s cb ci.
Proof. by intros [cs ->]. Qed.

Lemma same_but_cbs_pool s s' conn cb :
  same_but_cbs s s' → pool_at s' conn cb = pool_at s conn cb.
Proof. by intros [cs ->]. Qed.

Lemma same_but_cbs_ctx s s' p : same_but_cbs s s' → ctx_at s' p = ctx_at s p.
Proof. by intros [cs ->]. Qed.

Create HintDb views.
#[export] Hint Resolve same_but_conns_refl same_but_conns_trans : views.

(** * Pools *)

Lemma get_pool_at s conn cb p : pool_at s conn cb = Some p → get_pool s conn cb = Ok p.
Proof.
  unfold pool_at, get_pool. destruct (zget (IS_conns s) conn) eqn:E; [|done].
  intros H. rewrite (rd_ok _ _ _ E). simpl. by apply rd_ok.
Qed.

Lemma set_pool_at s conn cb p0 p : pool_at s conn cb = Some p0 →
  ∃ s', set_pool s conn cb p = Ok s' ∧ same_but_conns s s' ∧
    ∀ conn' cb', pool_at s' conn' cb' =
      if decide (conn = conn' ∧ cb = cb') then Some p else pool_at s conn' cb'.
Proof.
  unfold pool_at at 1, set_pool. destruct (zget (IS_conns s) conn) as [c|] eqn:E; [|done].
  intros H. rewrite (rd_ok _ _ _ E). simpl.
  rewrite wr_ok by eauto with zarr. simpl. rewrite wr_ok by eauto with zarr. simpl.
  eexists. split; [done|]. split; [by eexists|]. intros conn' cb'.
  unfold pool_at. simpl. rewrite zget_zset.
  destruct (decide (conn = conn')) as [<-|Hne].
  - rewrite decide_True by eauto with zarr. simpl. rewrite E, zget_zset.
    destruct (decide (cb = cb')) as [<-|].
    + by rewrite !decide_True by eauto with zarr.
    + by rewrite !decide_False by tauto.
  - by rewrite !decide_False by tauto.
Qed.

Lemma set_pool_len s s' conn cb p : set_pool s conn cb p = Ok s' →
  len (IS_conns s') = len (IS_conns s).
Proof.
  unfold set_pool. intros H. res_split. injection H as <-. apply wr_inv in Ha1 as [_ ->].
  apply len_zset.
Qed.

Lemma read_ctx_at s p c : ctx_at s p = Some c → read_ctx s p = Ok c.
Proof.
  unfold ctx_at, read_ctx. destruct (pool_at _ _ _) as [pool|] eqn:E; [|done].
  rewrite (get_pool_at _ _ _ _ E). simpl. destruct (ctx_pool pool); [|done]. simpl.
  apply rd_ok.
Qed.

(** Writing a context changes that context only; every free stack stays. *)
Lemma write_ctx_at s p c0 c : ctx_at s p = Some c0 →
  ∃ s', write_ctx s p c = Ok s' ∧ same_but_conns s s' ∧
    (∀ q, ctx_at s' q = if decide (p = q) then Some c else ctx_at s q) ∧
    (∀ conn cb, free_at s' conn cb = free_at s conn cb).
Proof.
  unfold ctx_at at 1, write_ctx. destruct (pool_at _ _ _) as [pool|] eqn:E; [|done].
  destruct (ctx_pool pool) as [l|] eqn:El; [|done]. intros H.
  rewrite (get_pool_at _ _ _ _ E). simpl. rewrite El. simpl.
  rewrite wr_ok by eauto with zarr. simpl.
  destruct (set_pool_at s (p_conn p) (p_cb p) pool
    (pool <| ctx_pool := Some (zset l (p_idx p) c) |>) E) as (s' & H' & Hs & Hp).
  exists s'. split_and!; [exact H' | done | |].
  - intros q. unfold ctx_at. rewrite Hp. case_decide as Hq.
    + destruct Hq as [E1 E2]. simpl. rewrite zget_zset, <- E1, <- E2, E, El.
      destruct (decide (p_idx p = p_idx q)) as [E3|E3].
      * rewrite !decide_True; [done | | by split; eauto with zarr].
        destruct p, q; simpl in *; by subst.
      * rewrite !decide_False; [done | congruence | tauto].
    + rewrite decide_False by (intros ->; tauto). done.
  - intros conn cb. unfold free_at. rewrite Hp. case_decide as Hq; [|done].
    destruct Hq as [<- <-]. by rewrite E.
Qed.

(** Replacing the stack of free contexts of one pool. *)
Lemma set_free_at s conn cb pool fc : pool_at s conn cb = Some pool →
  ∃ s', set_pool s conn cb (pool <| free_ctxs := Some fc |>) = Ok s' ∧
    same_but_conns s s' ∧
    (∀ q, ctx_at s' q = ctx_at s q) ∧
    (∀ conn' cb', free_at s' conn' cb' =
       if decide (conn = conn' ∧ cb = cb') then Some fc else free_at s conn' cb').
Proof.
  intros E. destruct (set_pool_at s conn cb pool (pool <| free_ctxs := Some fc |>) E)
    as (s' & -> & Hs & Hp).
  exists s'. split_and!; [done | done | |].
  - intros q. unfold ctx_at. rewrite Hp. case_decide as Hq; [|done].
    destruct Hq as [<- <-]. by rewrite E.
  - intros conn' cb'. unfold free_at. rewrite Hp. by case_decide.
Qed.

Lemma free_at_pool s conn cb fc : free_at s conn cb = Some fc →
  ∃ pool, pool_at s conn cb = Some pool ∧ free_ctxs pool = Some fc.
Proof. unfold free_at. destruct (pool_at s conn cb); [eauto | done]. Qed.

(** * Chunks *)

Lemma read_chunk_at s cb ci ck : chunk_at s cb ci = Some ck → read_chunk s cb ci = Ok ck.
Proof.
  unfold chunk_at, read_chunk, read_cb. destruct (zget (cb_list s) cb) eqn:E; [|done].
  rewrite (rd_ok _ _ _ E). simpl. apply rd_ok.
Qed.

(** Updating a bitmap changes that chunk only. *)
Lemma update_bitmap_at (f : list Z → res (list Z)) s cb ci ck bm bm' :
  chunk_at s cb ci = Some ck → bitmap_g ck = Some bm → f bm = Ok bm' →
  ∃ s', update_bitmap f s cb ci = Ok s' ∧ same_but_cbs s s' ∧
    len (cb_list s') = len (cb_list s) ∧
    ∀ cb' ci', chunk_at s' cb' ci' =
      if decide (cb = cb' ∧ ci = ci') then Some (ck <| bitmap_g := Some bm' |>)
      else chunk_at s cb' ci'.
Proof.
  unfold chunk_at at 1, update_bitmap, read_cb.
  destruct (zget (cb_list s) cb) as [c|] eqn:E; [|done]. intros Hck Hbm Hf.
  rewrite (rd_ok _ _ _ E). simpl. rewrite (rd_ok _ _ _ Hck). simpl. rewrite Hbm. simpl.
  rewrite Hf. simpl. rewrite !wr_ok by eauto with zarr. simpl.
  rewrite !wr_ok by eauto with zarr. simpl.
  eexists. split; [done|]. split; [by eexists|]. split; [simpl; by rewrite len_zset|].
  intros cb' ci'. unfold chunk_at. simpl. rewrite zget_zset.
  destruct (decide (cb = cb')) as [<-|].
  - rewrite decide_True by eauto with zarr. simpl. rewrite E, zget_zset.
    destruct (decide (ci = ci')) as [<-|].
    + by rewrite !decide_True by eauto with zarr.
    + by rewrite !decide_False by tauto.
  - by rewrite !decide_False by tauto.
Qed.
