(* ===== verification/ChunkMap.v ===== *)
(** The mapping of the device's chunks to chunks of the servers, on the client: the
    messages of the servers ([is_mq.c], [IS_single_chunk_init], [IS_chunk_list_init];
    [is_main.c], [client_recv] and its handlers), the messages to them ([IS_send_*]), and
    the eviction and disconnect handlers. *)

From Stdlib Require Import ZArith Lia Ascii.
From stdpp Require Import base tactics list numbers option.
From S2P Require Import Prelude Types ByteOrder Bitmap CtxPool Stackbd Request Views.

(** * Control blocks *)

Definition write_cb (s : IS_session) (cb : Z) (c : kernel_cb) : res IS_session :=
  let* l := wr (cb_list s) cb c in Ok (s <| cb_list := l |>).

Definition with_cb (s : IS_session) (cb : Z) (f : kernel_cb → kernel_cb) : res IS_session :=
  let* c := read_cb s cb in write_cb s cb (f c).

Definition set_cb_state (s : IS_session) (cb : Z) (st : cb_state) : res IS_session :=
  let* l := wr (cb_state_list s) cb st in Ok (s <| cb_state_list := l |>).

Section ChunkMap.
Context `{C : Config}.

(** * Chunks offered by a server *)

(** The stores that make slot [i] of [cb] serve chunk [gb] of the device: the address from
    the message, a fresh bitmap, and the four maps. *)
Definition map_slot (s : IS_session) (cb i gb rk bf : Z) : res IS_session :=
  let* c := read_cb s cb in
  let rc := remote_chunk c in
  let* _ := rd (chunk_list rc) i in
  let* bm := IS_bitmap_init bitmap_alloc in
  let* cl := wr (chunk_list rc) i
               {| remote_rkey := ntohl rk; remote_addr := ntohll bf; bitmap_g := Some bm |} in
  let* cc := wr (chunk_map_cb_chunk s) gb i in
  let* cm := wr (chunk_map rc) i gb in
  let* rm := wr (remote_mapped rc) i CHUNK_MAPPED in
  let* im := wr (cb_index_map s) gb (cb_index c) in
  write_cb (s <| free_chunk_index := free_chunk_index s - 1 |> <| chunk_map_cb_chunk := cc |>
              <| cb_index_map := im |>) cb
    (c <| remote_chunk := rc <| chunk_list := cl |> <| chunk_map := cm |>
                             <| remote_mapped := rm |> |>).

(** The first slot with a key is mapped to the chunk the message names. *)
Definition IS_single_chunk_init (s : IS_session) (cb : Z) : res IS_session :=
  let* c := read_cb s cb in
  let select_chunk := size_gb (recv_buf c) in
  let* out := for_upto_break MAX_MR_SIZE_GB (λ i s,
    let* rk := rd (rkey (recv_buf c)) i in
    if rk =? 0 then Ok (Next s)
    else
      let* bf := rd (buf (recv_buf c)) i in
      let* s := map_slot s cb i select_chunk rk bf in
      let* s := with_cb s cb (λ c, c <| remote_chunk ::= λ rc,
                  rc <| chunk_size_g := chunk_size_g rc + 1 |> <| c_state := C_READY |> |>) in
      Ok (Break s)) s in
  Ok (ctl_state out).

(** Every slot with a key is mapped to the chunk on top of [unmapped_chunk_list]. *)
Definition IS_chunk_list_init (s : IS_session) (cb : Z) : res IS_session :=
  let* c := read_cb s cb in
  let size_g := size_gb (recv_buf c) in
  let* s := for_upto MAX_MR_SIZE_GB (λ i s,
    let* rk := rd (rkey (recv_buf c)) i in
    if rk =? 0 then Ok s
    else
      let* bf := rd (buf (recv_buf c)) i in
      let* sess_free_chunk := rd (unmapped_chunk_list s) (free_chunk_index s) in
      map_slot s cb i sess_free_chunk rk bf) s in
  with_cb s cb (λ c, c <| remote_chunk ::= λ rc,
    rc <| chunk_size_g := chunk_size_g rc + size_g |> <| c_state := C_READY |> |>).

(** * Messages from a server *)

Definition client_recv_evict (s : IS_session) (cb : Z) : res IS_session :=
  let* c := read_cb s cb in
  let n := size_gb (recv_buf c) in
  if n =? 0 then Ok s
  else with_cb s cb (λ c, c <| remote_chunk ::= λ rc,
         rc <| shrink_size_g := n |> <| c_state := C_EVICT |> |>).

Definition client_recv_stop (s : IS_session) (cb : Z) : res IS_session :=
  let* c := read_cb s cb in
  let n := size_gb (recv_buf c) in
  let* s := with_cb s cb (λ c, c <| remote_chunk ::= λ rc, rc <| shrink_size_g := n |> |>) in
  if n =? 0
  then with_cb s cb (λ c, c <| remote_chunk ::= λ rc, rc <| c_state := C_STOP |> |>)
  else
    let* m := for_upto MAX_MR_SIZE_GB (λ i m,
      let* rk := rd (rkey (recv_buf c)) i in
      wr m i (if rk =? 0 then "a"%char else "s"%char)) (evict_chunk_map (remote_chunk c)) in
    with_cb s cb (λ c, c <| remote_chunk ::= λ rc,
      rc <| evict_chunk_map := m |> <| c_state := C_STOP |> |>).

(** [sizeof(struct IS_rdma_info)]. *)
Definition sizeof_rdma_info : Z := MAX_MR_SIZE_GB * 8 + MAX_MR_SIZE_GB * 4 + 4 + 4.

Definition set_state (s : IS_session) (cb : Z) (st : test_state) : res IS_session :=
  with_cb s cb (λ c, c <| state := st |>).

(** The return code, and the session whose [recv_buf] holds the message. *)
Definition client_recv (s : IS_session) (cb byte_len : Z) : res (Z * IS_session) :=
  let* c := read_cb s cb in
  if negb (byte_len =? sizeof_rdma_info) then Ok (-1, s)
  else if test_state_val (state c) <? test_state_val CONNECTED then Ok (-1, s)
  else
    match type (recv_buf c) with
    | FREE_SIZE =>
        let* s := with_cb s cb (λ c, c <| remote_chunk ::= λ rc,
                    rc <| target_size_g := size_gb (recv_buf c) |> |>
                                       <| state := FREE_MEM_RECV |>) in
        Ok (0, s)
    | INFO =>
        let* s := set_cb_state s (cb_index c) CB_MAPPED in
        let* s := set_state s cb WAIT_OPS in
        let* s := IS_chunk_list_init s cb in Ok (0, s)
    | INFO_SINGLE =>
        let* s := set_cb_state s (cb_index c) CB_MAPPED in
        let* s := set_state s cb WAIT_OPS in
        let* s := IS_single_chunk_init s cb in Ok (0, s)
    | EVICT =>
        let* s := set_state s cb RECV_EVICT in
        let* s := client_recv_evict s cb in Ok (0, s)
    | STOP =>
        let* s := set_state s cb RECV_STOP in
        let* s := client_recv_stop s cb in Ok (0, s)
    | _ => Ok (-1, s)
    end.

(** * Messages to a server: [send_buf] filled in and posted *)

Definition post_msg (s : IS_session) (cb : Z) (f : IS_rdma_info → IS_rdma_info)
  : res (IS_rdma_info * IS_session) :=
  let* c := read_cb s cb in
  let m := f (send_buf c) in
  let* s := write_cb s cb (c <| send_buf := m |>) in
  Ok (m, s).

(** The activity of every slot: the device chunk's filtered rate plus one, 0 for a slot
    that is not mapped.  The macro [htonll] of [infiniswap.h] is [ntohll]. *)
Definition IS_send_activity (s : IS_session) (cb : Z) : res (IS_rdma_info * IS_session) :=
  let* c := read_cb s cb in
  let* b := for_upto MAX_MR_SIZE_GB (λ i b,
    let* k := rd (chunk_map (remote_chunk c)) i in
    if k =? -1 then wr b i 0
    else
      let* ops := rd (last_ops s) k in
      wr b i (ntohll (u64 (ops + 1)))) (buf (send_buf c)) in
  post_msg s cb (λ m, m <| type := ACTIVITY |> <| buf := b |>).

Definition IS_send_query (s : IS_session) (cb : Z) : res (IS_rdma_info * IS_session) :=
  post_msg s cb (λ m, m <| type := QUERY |>).

Definition IS_send_bind_single (s : IS_session) (cb select_chunk : Z)
  : res (IS_rdma_info * IS_session) :=
  post_msg s cb (λ m, m <| type := BIND_SINGLE |> <| size_gb := select_chunk |>).

Definition IS_send_done (s : IS_session) (cb num : Z) : res (IS_rdma_info * IS_session) :=
  post_msg s cb (λ m, m <| type := DONE |> <| size_gb := num |>).

(** * Eviction *)

Section Handlers.
Context `{BL : BlockLayer}.
Variable submit_queues : Z.
(** [IS_single_chunk_map] (module [Select]): find a server for a chunk. *)
Variable single_chunk_map : IS_session → Z → res IS_session.

(** One scan of [IS_chunk_wait_in_flight_requests]: is a request in flight on a slot that
    is being cancelled? *)
Definition scan_in_flight (s : IS_session) (cb : Z) : res bool :=
  let* c := read_cb s cb in
  let* out := for_upto_break submit_queues (λ i _,
    let* pool := get_pool s i (cb_index c) in
    let* ctxs := deref (ctx_pool pool) in
    let* out := for_upto_break IS_QUEUE_DEPTH (λ j _,
      let* ctx := rd ctxs j in
      if (in_flight ctx =? CTX_R_IN_FLIGHT) || (in_flight ctx =? CTX_W_IN_FLIGHT) then
        let* k := rd (chunk_map (remote_chunk c)) (chunk_index ctx) in
        Ok (if k =? -1 then Break tt else Next tt)
      else Ok (Next tt)) tt in
    Ok (match out with Break _ => Break tt | Next _ => Next tt end)) tt in
  Ok (match out with Break _ => true | Next _ => false end).

(** The scan repeats until it finds nothing; if it finds something, a completion must come
    from elsewhere. *)
Definition IS_chunk_wait_in_flight_requests (s : IS_session) (cb : Z) : res Z :=
  let* found := scan_in_flight s cb in
  if found : bool then Fault Blocked else Ok 0.

(** Cancel the slots marked ['s']: the device chunks go to [evict_list], the keys of the
    DONE message say which. *)
Definition cancel_slots (s : IS_session) (cb : Z) (evict_list : list Z)
  : res (IS_session * list Z) :=
  for_upto MAX_MR_SIZE_GB (λ i '(s, evict_list),
    let* c := read_cb s cb in
    let rc := remote_chunk c in
    let* mark := rd (evict_chunk_map rc) i in
    if decide (mark = "s"%char) then
      let* k := rd (chunk_map rc) i in
      let* im := wr (cb_index_map s) k NO_CB_MAPPED in
      let* evict_list := wr evict_list k 1 in
      let* cm := wr (chunk_map rc) i (-1) in
      let* rk := wr (rkey (send_buf c)) i 1 in
      let* s := write_cb (s <| cb_index_map := im |>) cb
                  (c <| remote_chunk := rc <| chunk_map := cm |> |>
                     <| send_buf ::= λ m, m <| rkey := rk |> |>) in
      Ok (s, evict_list)
    else
      let* rk := wr (rkey (send_buf c)) i 0 in
      let* s := write_cb s cb (c <| send_buf ::= λ m, m <| rkey := rk |> |>) in
      Ok (s, evict_list)) (s, evict_list).

(** Forget the pages of the cancelled slots. *)
Definition clear_slots (s : IS_session) (cb : Z) : res IS_session :=
  for_upto MAX_MR_SIZE_GB (λ i s,
    let* c := read_cb s cb in
    let rc := remote_chunk c in
    let* mark := rd (evict_chunk_map rc) i in
    if decide (mark = "s"%char) then
      let* ck := rd (chunk_list rc) i in
      let* bm := deref (bitmap_g ck) in
      let* bm := IS_bitmap_init bm in
      let* cl := wr (chunk_list rc) i (ck <| bitmap_g := Some bm |>) in
      let* rm := wr (remote_mapped rc) i CHUNK_UNMAPPED in
      write_cb s cb (c <| remote_chunk := rc <| chunk_list := cl |> <| remote_mapped := rm |> |>)
    else Ok s) s.

(** Give device chunk [k] back to the unmapped ones. *)
Definition unmap_chunk (s : IS_session) (k : Z) : res IS_session :=
  let* cc := wr (chunk_map_cb_chunk s) k (-1) in
  let n := free_chunk_index s + 1 in
  let* ul := wr (unmapped_chunk_list s) n k in
  Ok (s <| chunk_map_cb_chunk := cc |> <| free_chunk_index := n |> <| unmapped_chunk_list := ul |>).

(** [evict_handler] once the EVICT message came. *)
Definition evict_activity (s : IS_session) (cb : Z) : res (IS_rdma_info * IS_session) :=
  IS_send_activity s cb.

(** [evict_handler] once the STOP message came; the DONE message it sends, if any.  The loop
    that clears the keys of the message first is left out: [cancel_slots] writes them all. *)
Definition evict_stop (s : IS_session) (cb : Z) : res (option IS_rdma_info * IS_session) :=
  let* c := read_cb s cb in
  let size_g := shrink_size_g (remote_chunk c) in
  if size_g =? 0 then
    let* s := with_cb s cb (λ c, c <| remote_chunk ::= λ rc, rc <| c_state := C_READY |> |>) in
    Ok (None, s)
  else
    let evict_list := replicate (Z.to_nat STACKBD_SIZE_G) (-1) in
    let s := s <| trigger_enable := TRIGGER_OFF |> in
    let* (s, evict_list) := cancel_slots s cb evict_list in
    let* _ := IS_chunk_wait_in_flight_requests s cb in
    let* s := clear_slots s cb in
    let s := s <| mapped_cb_num := s32 (mapped_cb_num s - size_g) |> in
    let* s := with_cb s cb (λ c, c <| remote_chunk ::= λ rc,
                rc <| chunk_size_g := s32 (chunk_size_g rc - size_g) |>
                   <| shrink_size_g := 0 |> |>) in
    let* (m, s) := IS_send_done s cb size_g in
    let* s := with_cb s cb (λ c, c <| remote_chunk ::= λ rc, rc <| c_state := C_READY |> |>) in
    let* s := set_cb_state s (cb_index c) CB_EVICTING in
    let* s := for_upto STACKBD_SIZE_G (λ i s,
      let* e := rd evict_list i in
      if e =? 1 then
        let* s := unmap_chunk s i in single_chunk_map s i
      else Ok s) s in
    let* s := set_cb_state s (cb_index c) CB_MAPPED in
    Ok (Some m, s <| trigger_enable := TRIGGER_ON |>).

(** * Disconnection *)

(** Stop routing requests to the chunks of [cb] and forget their pages. *)
Definition drop_chunks (s : IS_session) (cb : Z) (evict_list : list Z)
  : res (IS_session * list Z) :=
  for_upto MAX_MR_SIZE_GB (λ i '(s, evict_list),
    let* c := read_cb s cb in
    let rc := remote_chunk c in
    let* k := rd (chunk_map rc) i in
    if k =? -1 then Ok (s, evict_list)
    else
      let* evict_list := wr evict_list k 1 in
      let* ck := rd (chunk_list rc) i in
      let* bm := deref (bitmap_g ck) in
      let* bm := IS_bitmap_init bm in
      let* cl := wr (chunk_list rc) i (ck <| bitmap_g := Some bm |>) in
      let* rm := wr (remote_mapped rc) i CHUNK_UNMAPPED in
      let* im := wr (cb_index_map s) k NO_CB_MAPPED in
      let* s := write_cb (s <| cb_index_map := im |>) cb
                  (c <| remote_chunk := rc <| chunk_list := cl |> <| remote_mapped := rm |> |>) in
      Ok (s, evict_list)) (s, evict_list).

(** Requests in flight on the lost server: a read goes to the disk, a write ends, its data
    being on its way to the disk already. *)
Definition settle_ctx (w : bd) (p : ctx_ptr) : res bd :=
  let* c := read_ctx (sess w) p in
  if in_flight c =? CTX_R_IN_FLIGHT then
    let* w := with_ctx w p (λ c, c <| in_flight := CTX_IDLE |>) in
    let* r := deref (req c) in
    let* w := to_disk2 w r in
    IS_insert w p
  else if in_flight c =? CTX_W_IN_FLIGHT then
    let* w := with_ctx w p (λ c, c <| in_flight := CTX_IDLE |>) in
    match req c with
    | None => Ok w
    | Some r => Ok (w <| ended := ended w ++ [(r, 0)] |>)
    end
  else Ok w.

Definition settle_in_flight (w : bd) (pool_index : Z) : res bd :=
  for_upto submit_queues (λ i w,
    for_upto IS_QUEUE_DEPTH (λ j w,
      settle_ctx w {| p_conn := i; p_cb := pool_index; p_idx := j |}) w) w.

(** The device chunks of [cb] join the unmapped ones. *)
Definition release_chunks (s : IS_session) (cb : Z) : res IS_session :=
  for_upto MAX_MR_SIZE_GB (λ i s,
    let* c := read_cb s cb in
    let rc := remote_chunk c in
    let* k := rd (chunk_map rc) i in
    if k =? -1 then Ok s
    else
      let* s := unmap_chunk s k in
      let* cm := wr (chunk_map rc) i (-1) in
      write_cb s cb (c <| remote_chunk := rc <| chunk_map := cm |> |>)) s.

(** The pools of [cb] are freed and replaced by empty ones. *)
Definition free_pools (s : IS_session) (pool_index : Z) : res IS_session :=
  for_upto submit_queues (λ i s,
    let* p := get_pool s i pool_index in
    let* _ := deref (free_ctxs p) in
    set_pool s i pool_index empty_pool) s.

Definition IS_disconnect_handler (w : bd) (cb : Z) : res (Z * bd) :=
  let* c := read_cb (sess w) cb in
  let* st := rd (cb_state_list (sess w)) (cb_index c) in
  let* s := set_cb_state (sess w) (cb_index c) CB_FAIL in
  if decide (st = CB_CONNECTED) then Ok (cb_index c, w <| sess := s |>)
  else
    let s := s <| trigger_enable := TRIGGER_OFF |> <| rdma_on := DEV_RDMA_OFF |> in
    let* (s, evict_list) := drop_chunks s cb (replicate (Z.to_nat STACKBD_SIZE_G) (-1)) in
    let* s := with_cb s cb (λ c, c <| remote_chunk ::= λ rc, rc <| chunk_size_g := 0 |> |>) in
    let* w := settle_in_flight (w <| sess := s |>) (cb_index c) in
    let* s := release_chunks (sess w) cb in
    let* s := free_pools s (cb_index c) in
    let s := s <| rdma_on := DEV_RDMA_ON |> in
    let* s := for_upto STACKBD_SIZE_G (λ i s,
      let* e := rd evict_list i in
      if e =? 1 then single_chunk_map s i else Ok s) s in
    Ok (0, w <| sess := s <| trigger_enable := TRIGGER_ON |> |>).

(** * Connection management *)

Inductive cma_event :=
  | EV_ADDR_RESOLVED | EV_ROUTE_RESOLVED | EV_CONNECT_REQUEST | EV_ESTABLISHED
  | EV_ADDR_ERROR | EV_ROUTE_ERROR | EV_CONNECT_ERROR | EV_UNREACHABLE | EV_REJECTED
  | EV_DISCONNECTED | EV_DEVICE_REMOVAL | EV_OTHER.

(** The state an event puts the control block in. *)
Definition cma_state (ev : cma_event) : option test_state :=
  match ev with
  | EV_ADDR_RESOLVED => Some ADDR_RESOLVED
  | EV_ROUTE_RESOLVED => Some ROUTE_RESOLVED
  | EV_CONNECT_REQUEST => Some CONNECT_REQUEST
  | EV_ESTABLISHED => Some CONNECTED
  | EV_ADDR_ERROR | EV_ROUTE_ERROR | EV_CONNECT_ERROR | EV_UNREACHABLE | EV_REJECTED => Some ERROR
  | EV_DISCONNECTED => Some CM_DISCONNECT
  | EV_DEVICE_REMOVAL | EV_OTHER => None
  end.

Definition IS_cma_event_handler (w : bd) (cb : Z) (ev : cma_event) : res (Z * bd) :=
  let* w := match cma_state ev with
            | Some st => let* s := set_state (sess w) cb st in Ok (w <| sess := s |>)
            | None => Ok w
            end in
  match ev with
  | EV_DISCONNECTED => let* (_, w) := IS_disconnect_handler w cb in Ok (0, w)
  | EV_DEVICE_REMOVAL => Ok (-1, w)
  | _ => Ok (0, w)
  end.

End Handlers.

End ChunkMap.
