(* ===== verification/MapInv.v ===== *)
(** The invariant of the chunk mapping: the session's maps and the slot maps of the
    control blocks describe one partial bijection, and [free_chunk_index] counts the chunks
    outside it.  Every operation of [ChunkMap] preserves it. *)

From Stdlib Require Import ZArith Lia Ascii.
From stdpp Require Import base tactics list numbers option.
From S2P Require Import Prelude Types ByteOrder Bitmap CtxPool Stackbd Request Views ChunkMap.

Section MapInv.
Context `{C : Config}.

(** * The invariant *)

(** Slot [ci] of control block [cb] serves device chunk [gb]. *)
Definition serves (s : IS_session) (cb ci gb : Z) : Prop :=
  ∃ c, zget (cb_list s) cb = Some c ∧ zget (chunk_map (remote_chunk c)) ci = Some gb ∧ gb ≠ -1.

Record cb_wf (i : Z) (c : kernel_cb) : Prop := {
  cw_index : cb_index c = i;
  cw_chunks : len (chunk_list (remote_chunk c)) = MAX_MR_SIZE_GB;
  cw_mapped : len (remote_mapped (remote_chunk c)) = MAX_MR_SIZE_GB;
  cw_map : len (chunk_map (remote_chunk c)) = MAX_MR_SIZE_GB;
  cw_evict : len (evict_chunk_map (remote_chunk c)) = MAX_MR_SIZE_GB;
  cw_rkeys : len (rkey (send_buf c)) = MAX_MR_SIZE_GB;
  cw_bitmaps : ∀ ci gb, zget (chunk_map (remote_chunk c)) ci = Some gb → gb ≠ -1 →
    ∃ ck bm, zget (chunk_list (remote_chunk c)) ci = Some ck ∧ bitmap_g ck = Some bm ∧
      bitmap_wf bm;
}.

Record cb_blank (i : Z) (c : kernel_cb) : Prop := {
  bl_index : cb_index c = i;
  bl_map : chunk_map (remote_chunk c) = [];
  bl_rkeys : len (rkey (send_buf c)) = MAX_MR_SIZE_GB;
}.

Record map_inv (s : IS_session) : Prop := {
  mi_index : len (cb_index_map s) = STACKBD_SIZE_G;
  mi_slots : len (chunk_map_cb_chunk s) = STACKBD_SIZE_G;
  mi_list : len (unmapped_chunk_list s) = STACKBD_SIZE_G;
  (* a control block that was never connected has no tables yet *)
  mi_cbs : ∀ i c, zget (cb_list s) i = Some c → cb_blank i c ∨ cb_wf i c;
  (* a routed chunk is served by the slot its maps name, and only there *)
  mi_fwd : ∀ gb cb, zget (cb_index_map s) gb = Some cb → cb ≠ NO_CB_MAPPED →
    ∃ ci, zget (chunk_map_cb_chunk s) gb = Some ci ∧ serves s cb ci gb;
  mi_bwd : ∀ cb ci gb, serves s cb ci gb →
    zget (cb_index_map s) gb = Some cb ∧ zget (chunk_map_cb_chunk s) gb = Some ci;
  (* the stack of unmapped chunks has as many entries as there are unmapped chunks *)
  mi_free : free_chunk_index s + 1 = count (λ k, k =? -1) (chunk_map_cb_chunk s);
}.

(** A chunk that nothing routes and no slot serves. *)
Definition unmapped (s : IS_session) (gb : Z) : Prop :=
  zget (cb_index_map s) gb = Some NO_CB_MAPPED ∧ zget (chunk_map_cb_chunk s) gb = Some (-1).

(** No chunk is half mapped: the handlers that leave chunks so turn the trigger off. *)
Definition settled (s : IS_session) : Prop :=
  ∀ gb, zget (cb_index_map s) gb = Some NO_CB_MAPPED → unmapped s gb.

(** * Reading and writing a control block *)

Lemma read_cb_at s cb c : zget (cb_list s) cb = Some c → read_cb s cb = Ok c.
Proof. apply rd_ok. Qed.

Lemma write_cb_at s cb c c' : zget (cb_list s) cb = Some c →
  write_cb s cb c' = Ok (s <| cb_list := zset (cb_list s) cb c' |>).
Proof. intros H. unfold write_cb. by rewrite wr_ok by eauto with zarr. Qed.

Lemma with_cb_at s cb c f : zget (cb_list s) cb = Some c →
  with_cb s cb f = Ok (s <| cb_list := zset (cb_list s) cb (f c) |>).
Proof. intros H. unfold with_cb. rewrite (read_cb_at _ _ _ H). simpl. by eapply write_cb_at. Qed.

Lemma serves_zset s s' cb c c' cb' ci gb : zget (cb_list s) cb = Some c →
  cb_list s' = zset (cb_list s) cb c' →
  serves s' cb' ci gb ↔
    if decide (cb' = cb)
    then zget (chunk_map (remote_chunk c')) ci = Some gb ∧ gb ≠ -1
    else serves s cb' ci gb.
Proof.
  intros Hc Hl. unfold serves. rewrite Hl, zget_zset. case_decide as Hd.
  - destruct Hd as [-> ?]. rewrite decide_True by done.
    split; [intros (c0 & [= <-] & ?); done | eauto].
  - rewrite decide_False; [done|]. intros ->. apply Hd. eauto with zarr.
Qed.

Lemma serves_at s cb c ci gb : zget (cb_list s) cb = Some c →
  serves s cb ci gb ↔ zget (chunk_map (remote_chunk c)) ci = Some gb ∧ gb ≠ -1.
Proof. intros Hc. unfold serves. rewrite Hc. split; [intros (c0 & [= <-] & ?); done | eauto]. Qed.

(** Changing anything of a control block but its slot map. *)
Lemma map_inv_cb_any s cb c c' : map_inv s → zget (cb_list s) cb = Some c →
  cb_blank cb c' ∨ cb_wf cb c' → chunk_map (remote_chunk c') = chunk_map (remote_chunk c) →
  map_inv (s <| cb_list := zset (cb_list s) cb c' |>).
Proof.
  intros [H1 H2 H3 H4 H5 H6 H7] Hc Hwf Hm.
  assert (∀ cb' ci gb, serves (s <| cb_list := zset (cb_list s) cb c' |>) cb' ci gb ↔
    serves s cb' ci gb) as Hs.
  { intros cb' ci gb. rewrite (serves_zset s _ cb c c') by done. rewrite Hm.
    case_decide as Hd; [|done]. subst. by rewrite (serves_at _ _ _ _ _ Hc). }
  split; try done.
  - intros i c0. simpl. rewrite zget_zset. case_decide as Hd; [|apply H4].
    destruct Hd as [<- _]. by intros [= <-].
  - intros gb cb' Hg Hn. destruct (H5 gb cb' Hg Hn) as (ci & ? & ?). exists ci.
    split; [done|]. by apply Hs.
  - intros cb' ci gb ?%Hs. by apply H6.
Qed.

Lemma map_inv_cb s cb c c' : map_inv s → zget (cb_list s) cb = Some c →
  cb_wf cb c' → chunk_map (remote_chunk c') = chunk_map (remote_chunk c) →
  map_inv (s <| cb_list := zset (cb_list s) cb c' |>).
Proof. intros Hinv Hc Hwf. apply map_inv_cb_any; auto. Qed.

(** * Mapping a slot *)

(** The slot a server offers becomes the home of chunk [gb], with no page recorded. *)
Definition offered (rk bf : Z) : remote_chunk_g :=
  {| remote_rkey := ntohl rk; remote_addr := ntohll bf; bitmap_g := Some bitmap_alloc |}.

Definition mapped_cb (c : kernel_cb) (i gb rk bf : Z) : kernel_cb :=
  c <| remote_chunk := remote_chunk c
         <| chunk_list := zset (chunk_list (remote_chunk c)) i (offered rk bf) |>
         <| chunk_map := zset (chunk_map (remote_chunk c)) i gb |>
         <| remote_mapped := zset (remote_mapped (remote_chunk c)) i CHUNK_MAPPED |> |>.

Definition mapped_session (s : IS_session) (cb : Z) (c : kernel_cb) (i gb rk bf : Z)
  : IS_session :=
  s <| free_chunk_index := free_chunk_index s - 1 |>
    <| chunk_map_cb_chunk := zset (chunk_map_cb_chunk s) gb i |>
    <| cb_index_map := zset (cb_index_map s) gb cb |>
    <| cb_list := zset (cb_list s) cb (mapped_cb c i gb rk bf) |>.

Lemma cb_ready s cb c i g : map_inv s → zget (cb_list s) cb = Some c →
  zget (chunk_map (remote_chunk c)) i = Some g → cb_wf cb c.
Proof.
  intros Hi Hc Hg. destruct (mi_cbs _ Hi _ _ Hc) as [[_ E _]|]; [|done].
  rewrite E in Hg. unfold zget in Hg. by case_decide.
Qed.

Lemma map_slot_eq s cb c i gb rk bf : map_inv s → zget (cb_list s) cb = Some c → cb_wf cb c →
  0 ≤ i < MAX_MR_SIZE_GB → 0 ≤ gb < STACKBD_SIZE_G →
  map_slot s cb i gb rk bf = Ok (mapped_session s cb c i gb rk bf).
Proof.
  intros Hi Hc [] Hr Hg. unfold map_slot.
  rewrite (bitmap_init_alloc _ bitmap_wf_alloc).
  rewrite (read_cb_at _ _ _ Hc). simpl.
  destruct (zget_is_Some (chunk_list (remote_chunk c)) i) as [ck Hck]; [lia|].
  rewrite (rd_ok _ _ _ Hck). simpl.
  repeat (rewrite wr_ok by (rewrite ?(mi_slots _ Hi), ?(mi_index _ Hi); lia); simpl).
  rewrite (write_cb_at _ _ c) by done. unfold mapped_session, mapped_cb. simpl.
  by rewrite cw_index0.
Qed.

Lemma mapped_cb_wf cb c i gb rk bf : cb_wf cb c → cb_wf cb (mapped_cb c i gb rk bf).
Proof.
  intros [Hi H1 H2 H3 H4 H5 Hb]. split; simpl; try (rewrite ?len_zset; done).
  intros ci g. rewrite !zget_zset, H1, H3. case_decide as Hd; [|apply Hb].
  intros _ _. exists (offered rk bf), bitmap_alloc. split_and!; try done. apply bitmap_wf_alloc.
Qed.

Lemma mapped_serves s cb c i gb rk bf cb' ci g : cb_wf cb c → zget (cb_list s) cb = Some c →
  0 ≤ i < MAX_MR_SIZE_GB → gb ≠ -1 →
  serves (mapped_session s cb c i gb rk bf) cb' ci g ↔
    if decide (cb' = cb ∧ ci = i) then g = gb else serves s cb' ci g.
Proof.
  intros Hwf Hc Hi Hg. rewrite (serves_zset s _ cb c (mapped_cb c i gb rk bf)) by done.
  simpl.
  rewrite zget_zset, (cw_map _ _ Hwf).
  destruct (decide (cb' = cb)) as [->|Hne].
  - destruct (decide (ci = i)) as [->|Hne].
    + rewrite !decide_True by done. split; [by intros [[= <-] ?] | by intros ->].
    + rewrite !decide_False by (intros [? ?]; congruence). by rewrite (serves_at _ _ _ _ _ Hc).
  - rewrite decide_False by (intros [? ?]; congruence). done.
Qed.

Lemma map_slot_inv s cb c i gb rk bf : map_inv s → zget (cb_list s) cb = Some c →
  zget (chunk_map (remote_chunk c)) i = Some (-1) → unmapped s gb →
  map_inv (mapped_session s cb c i gb rk bf).
Proof.
  intros Hinv Hc Hslot [Hg1 Hg2].
  pose proof (cb_ready _ _ _ _ _ Hinv Hc Hslot) as Hcw.
  pose proof (zget_Some_range _ _ _ Hslot) as Hi. rewrite (cw_map _ _ Hcw) in Hi.
  pose proof (zget_Some_range _ _ _ Hg1) as Hg. pose proof (zget_Some_range _ _ _ Hg2) as Hg'.
  assert (gb ≠ -1) as Hgne by lia.
  pose proof (λ cb' ci g, mapped_serves s cb c i gb rk bf cb' ci g Hcw Hc Hi Hgne) as Hs.
  destruct Hinv as [H1 H2 H3 H4 H5 H6 H7]. split; try (simpl; rewrite ?len_zset; done).
  - intros j c'. simpl. rewrite zget_zset. case_decide as Hd; [|apply H4].
    destruct Hd as [<- _]. intros [= <-]. right. by apply mapped_cb_wf.
  - intros g cb'. simpl. rewrite !zget_zset. destruct (decide (gb = g)) as [<-|Hne].
    + rewrite !decide_True by done. intros [= <-] _. exists i. split; [done|].
      rewrite Hs, decide_True by done. done.
    + rewrite !decide_False by tauto. intros Hl Hn. destruct (H5 g cb' Hl Hn) as (ci & Hci & Hsv).
      exists ci. split; [done|]. rewrite Hs. case_decide as Hd; [|done].
      destruct Hd as [-> ->]. apply (serves_at _ _ _ _ _ Hc) in Hsv as [E ?].
      rewrite Hslot in E. by injection E as <-.
  - intros cb' ci g Hsv. simpl. rewrite !zget_zset. rewrite Hs in Hsv. case_decide as Hd.
    + destruct Hd as [-> ->]. subst g. by rewrite !decide_True.
    + destruct (H6 _ _ _ Hsv) as [Ha Hb]. rewrite !decide_False; [done | |];
        intros [<- _]; rewrite Hg1 in Ha; injection Ha as <-;
        destruct Hsv as (c0 & H0 & _); apply zget_Some_range in H0; unfold NO_CB_MAPPED in *; lia.
  - simpl. rewrite (count_zset _ _ _ _ _ Hg2). simpl.
    destruct (Z.eqb_spec i (-1)); lia.
Qed.

(** * Unmapping *)

(** Slot [i] stops serving [k], and nothing routes [k] any more. *)
Lemma cancel_inv s s' cb c c' i k : map_inv s → zget (cb_list s) cb = Some c →
  zget (chunk_map (remote_chunk c)) i = Some k → k ≠ -1 →
  cb_wf cb c' → chunk_map (remote_chunk c') = zset (chunk_map (remote_chunk c)) i (-1) →
  cb_list s' = zset (cb_list s) cb c' → cb_index_map s' = zset (cb_index_map s) k NO_CB_MAPPED →
  chunk_map_cb_chunk s' = chunk_map_cb_chunk s →
  unmapped_chunk_list s' = unmapped_chunk_list s → free_chunk_index s' = free_chunk_index s →
  map_inv s'.
Proof.
  intros Hinv Hc Hi Hk Hwf Hm El Ei Ec Eu Ef.
  pose proof (proj2 (serves_at s cb c i k Hc) (conj Hi Hk)) as Hsv.
  destruct (mi_bwd _ Hinv _ _ _ Hsv) as [Hk1 Hk2].
  assert (∀ cb' ci g, serves s' cb' ci g ↔ serves s cb' ci g ∧ (cb', ci) ≠ (cb, i)) as Hs.
  { intros cb' ci g. rewrite (serves_zset s s' cb c c') by done. rewrite Hm, zget_zset.
    case_decide as Hd;
      [subst | split; [intros ?; split; [done | congruence] | by intros [? _]]].
    rewrite (serves_at _ _ _ _ _ Hc). case_decide as Hd.
    - destruct Hd as [-> _]. split; [intros [[= <-] ?]; done | intros [_ []]; done].
    - split; [|by intros [? _]]. intros ?. split; [done|]. intros [= ->]. apply Hd.
      eauto with zarr. }
  destruct Hinv as [H1 H2 H3 H4 H5 H6 H7].
  split; rewrite ?Ei, ?Ec, ?Eu, ?Ef, ?len_zset; try done.
  - intros j c0. rewrite El, zget_zset. case_decide as Hd; [|apply H4].
    destruct Hd as [<- _]. intros [= <-]. by right.
  - intros g cb'. rewrite zget_zset. case_decide as Hd; [intros [= <-]; done|].
    intros Hg Hn. destruct (H5 g cb' Hg Hn) as (ci & Hci & Hs0). exists ci. split; [done|].
    apply Hs. split; [done|]. intros [= -> ->]. apply (serves_at _ _ _ _ _ Hc) in Hs0 as [E _].
    rewrite Hi in E. injection E as <-. apply Hd. eauto with zarr.
  - intros cb' ci g [Hs0 Hne]%Hs. destruct (H6 _ _ _ Hs0) as [Ha Hb]. split; [|done].
    rewrite zget_zset, decide_False; [done|]. intros [<- _]. apply Hne. congruence.
Qed.

(** A chunk nobody serves joins the unmapped ones; the stack has room for it. *)
Lemma unmap_chunk_ok s k ci : map_inv s → zget (cb_index_map s) k = Some NO_CB_MAPPED →
  zget (chunk_map_cb_chunk s) k = Some ci → ci ≠ -1 →
  ∃ s' n ul, unmap_chunk s k = Ok s' ∧ map_inv s' ∧ unmapped s' k ∧
    s' = s <| chunk_map_cb_chunk := zset (chunk_map_cb_chunk s) k (-1) |>
           <| free_chunk_index := n |> <| unmapped_chunk_list := ul |>.
Proof.
  intros Hinv Hk Hci Hne. pose proof (zget_Some_range _ _ _ Hci) as Hr.
  pose proof (count_zset (λ x, x =? -1) _ _ (-1) _ Hci) as Hcount. simpl in Hcount.
  rewrite (proj2 (Z.eqb_neq ci (-1)) Hne) in Hcount.
  pose proof (count_le_len (λ x, x =? -1) (zset (chunk_map_cb_chunk s) k (-1))) as Hle.
  rewrite len_zset in Hle.
  pose proof (count_nonneg (λ x, x =? -1) (chunk_map_cb_chunk s)).
  destruct Hinv as [H1 H2 H3 H4 H5 H6 H7].
  unfold unmap_chunk. rewrite wr_ok by done. simpl. rewrite wr_ok by (rewrite H3; lia). simpl.
  eexists _, _, _. split; [done|]. simpl. split_and!; try done.
  - split; simpl; rewrite ?len_zset; try done; [| |lia].
    + intros g cb Hg Hn. destruct (H5 g cb Hg Hn) as (c0 & ? & ?). exists c0. split; [|done].
      rewrite zget_zset_ne; [done|]. intros <-. congruence.
    + intros cb c0 g Hs. destruct (H6 cb c0 g Hs) as [Ha Hb]. split; [done|].
      rewrite zget_zset_ne; [done|]. intros <-.
      destruct Hs as (c1 & Hc1 & _). apply zget_Some_range in Hc1.
      rewrite Hk in Ha. injection Ha as <-. unfold NO_CB_MAPPED in *. lia.
  - split; simpl; [done|]. by rewrite zget_zset_eq.
Qed.

(** The invariant reads five fields. *)
Lemma map_inv_ext s s' : cb_index_map s' = cb_index_map s →
  chunk_map_cb_chunk s' = chunk_map_cb_chunk s → unmapped_chunk_list s' = unmapped_chunk_list s →
  cb_list s' = cb_list s → free_chunk_index s' = free_chunk_index s → map_inv s → map_inv s'.
Proof.
  intros E1 E2 E3 E4 E5 [H1 H2 H3 H4 H5 H6 H7].
  split; unfold serves in *; rewrite ?E1, ?E2, ?E3, ?E4, ?E5; done.
Qed.

Lemma map_inv_conns s cs v : map_inv s → map_inv (s <| IS_conns := cs |> <| rdma_on := v |>).
Proof. intros H. destruct s. by eapply map_inv_ext; [..|exact H]. Qed.

End MapInv.
