(* ===== verification/World.v ===== *)
(** The environment of the block device: the raw disk below [stackbd], the memory of
    the servers, and the steps that the disk and the network card take on the work
    the module gave them.  Each step ends in the module's own completion code
    ([bio_endio], [client_read_done], [client_write_done]).

    The second half proves who owns the RDMA contexts of a whole session: the users of
    [Request] see the pools through [pools_owned] only. *)

From Stdlib Require Import ZArith Lia.
From stdpp Require Import functions base tactics list numbers option gmap.
From S2P Require Import Prelude Types Bitmap CtxPool Stackbd Request Views.

(** * The world *)

(** [disk] maps a page number of the raw device to its contents, [remote] maps a
    server, a memory key and an address to the page there. *)
Record world := {
  dev : bd;
  disk : Z → page;
  remote : Z * Z * Z → page;
}.
#[export] Instance eta_world : Eta world :=
  λ r, {| dev := dev r; disk := disk r; remote := remote r |}.

(** Sectors per page. *)
Definition PAGE_SECTORS : Z := IS_PAGE_SIZE / IS_SECT_SIZE.

(** Page [k] of the memory of a bio. *)
Definition buf_page (w : bd) (b : buffer) (k : Z) : res page :=
  match b with
  | Host a => host_page w (a + k * IS_PAGE_SIZE)
  | CtxBuf p => let* c := read_ctx (sess w) p in rd (rdma_buf c) k
  end.

Definition buf_store (w : bd) (b : buffer) (k : Z) (pg : page) : res bd :=
  match b with
  | Host a => Ok (w <| host := <[a + k * IS_PAGE_SIZE := pg]> (host w) |>)
  | CtxBuf p =>
      let* c := read_ctx (sess w) p in
      let* l := wr (rdma_buf c) k pg in
      with_ctx w p (λ c, c <| rdma_buf := l |>)
  end.

(** The raw device performs a bio, page by page. *)
Definition disk_io (x : world) (d : bio_data_desc) : res world :=
  for_upto (bi_size d / IS_PAGE_SIZE) (λ k x,
    let n := bi_sector d / PAGE_SECTORS + k in
    if bi_write d then
      let* pg := buf_page (dev x) (bi_buf d) k in
      Ok (x <| disk := <[n := pg]> (disk x) |>)
    else
      let* w := buf_store (dev x) (bi_buf d) k (disk x n) in
      Ok (x <| dev := w |>)) x.

(** The thread pops a bio, the raw device performs it and ends it. *)
Definition disk_step (x : world) : res world :=
  match stackbd_threadfn (stackbd (dev x)) with
  | (_, None) => Ok x
  | (st, Some i) =>
      let x := x <| dev := dev x <| stackbd := st |> |> in
      let* x := disk_io x (bi_desc (is_bio i)) in
      let* e := bio_endio (is_bio i) 0 in
      let* w := apply_effect (dev x) e in
      Ok (x <| dev := w |>)
  end.

(** The network card performs a work request, page by page. *)
Definition nic_io (x : world) (po : posting) : res world :=
  let wr := po_wr po in
  for_upto (wr_length wr / IS_PAGE_SIZE) (λ k x,
    let key := (po_cb po, wr_rkey wr, wr_remote_addr wr + k * IS_PAGE_SIZE) in
    match wr_opc wr with
    | IB_WR_RDMA_WRITE =>
        let* pg := buf_page (dev x) (CtxBuf (po_ctx po)) k in
        Ok (x <| remote := <[key := pg]> (remote x) |>)
    | IB_WR_RDMA_READ =>
        let* w := buf_store (dev x) (CtxBuf (po_ctx po)) k (remote x key) in
        Ok (x <| dev := w |>)
    end) x.

(** Completion of the oldest posting, and its handler. *)
Definition nic_step (x : world) : res world :=
  match posted (dev x) with
  | [] => Ok x
  | po :: rest =>
      let x := x <| dev := dev x <| posted := rest |> |> in
      let* x := nic_io x po in
      let* w := match wr_opc (po_wr po) with
                | IB_WR_RDMA_READ => client_read_done (dev x) (po_ctx po)
                | IB_WR_RDMA_WRITE => client_write_done (dev x) (po_ctx po)
                end in
      Ok (x <| dev := w |>)
  end.

(** * Ownership of the contexts of a session *)

(** The indices of the held contexts that belong to one pool. *)
Definition held_in (conn cb : Z) (held : list ctx_ptr) : list Z :=
  p_idx <$> filter (λ p, p_conn p = conn ∧ p_cb p = cb) held.

Definition pools_owned (s : IS_session) (held : list ctx_ptr) : Prop :=
  (∀ p, p ∈ held → is_Some (free_at s (p_conn p) (p_cb p))) ∧
  ∀ conn cb fc, free_at s conn cb = Some fc →
    fc_wf fc ∧
    free_stack fc ++ (Some <$> held_in conn cb held) ≡ₚ (Some <$> seqZ 0 IS_QUEUE_DEPTH).

(** Every context has a buffer of at least one page. *)
Definition ctxs_ok (s : IS_session) : Prop :=
  ∀ p, is_Some (free_at s (p_conn p) (p_cb p)) → 0 ≤ p_idx p < IS_QUEUE_DEPTH →
    ∃ c, ctx_at s p = Some c ∧ 0 < len (rdma_buf c).

Lemma held_in_cons conn cb p held :
  held_in conn cb (p :: held) =
    if decide (p_conn p = conn ∧ p_cb p = cb) then p_idx p :: held_in conn cb held
    else held_in conn cb held.
Proof. unfold held_in. rewrite filter_cons. by case_decide. Qed.

Lemma held_in_perm conn cb h1 h2 : h1 ≡ₚ h2 → held_in conn cb h1 ≡ₚ held_in conn cb h2.
Proof. intros H. unfold held_in. by rewrite H. Qed.

#[export] Instance pools_owned_perm s : Proper ((≡ₚ) ==> iff) (pools_owned s).
Proof.
  assert (∀ h1 h2, h1 ≡ₚ h2 → pools_owned s h1 → pools_owned s h2) as H.
  { intros h1 h2 Hp [H1 H2]. split.
    - intros p Hin. apply H1. by rewrite Hp.
    - intros conn cb fc Hf. destruct (H2 conn cb fc Hf) as [? Hperm]. split; [done|].
      by rewrite <- (held_in_perm _ _ _ _ Hp). }
  intros h1 h2 Hp. split; by apply H.
Qed.

Lemma elem_of_held_in p held :
  p ∈ held ↔ p_idx p ∈ held_in (p_conn p) (p_cb p) held.
Proof.
  unfold held_in. rewrite list_elem_of_fmap. split.
  - intros. exists p. split; [done|]. by apply list_elem_of_filter.
  - intros (q & Hi & [[Hc Hb] Hq]%list_elem_of_filter).
    destruct p, q; simpl in *; by subst.
Qed.

Lemma owned_range s held p : pools_owned s held → p ∈ held → 0 ≤ p_idx p < IS_QUEUE_DEPTH.
Proof.
  intros [H1 H2] Hin. destruct (H1 p Hin) as [fc Hf]. destruct (H2 _ _ _ Hf) as [_ Hp].
  assert (Some (p_idx p) ∈ (Some <$> seqZ 0 IS_QUEUE_DEPTH)) as Hs.
  { rewrite <- Hp. apply elem_of_app. right. apply list_elem_of_fmap.
    eexists. split; [done|]. by apply elem_of_held_in. }
  apply list_elem_of_fmap in Hs as (i & [= ->] & Hi). apply elem_of_seqZ in Hi. lia.
Qed.

Lemma owned_ctx s held p : pools_owned s held → ctxs_ok s → p ∈ held →
  ∃ c, ctx_at s p = Some c ∧ 0 < len (rdma_buf c).
Proof. intros Ho Hc Hin. apply Hc; [by apply Ho | by eapply owned_range]. Qed.

(** Ownership and the buffers only depend on what the views show. *)
Lemma pools_owned_free s s' held : (∀ conn cb, free_at s' conn cb = free_at s conn cb) →
  pools_owned s held → pools_owned s' held.
Proof.
  intros E [H1 H2]. split.
  - intros p Hp. rewrite E. by apply H1.
  - intros conn cb fc. rewrite E. apply H2.
Qed.

Lemma ctxs_ok_free s s' :
  (∀ conn cb, is_Some (free_at s' conn cb) → is_Some (free_at s conn cb)) →
  (∀ p c, ctx_at s p = Some c →
     ∃ c', ctx_at s' p = Some c' ∧ len (rdma_buf c') = len (rdma_buf c)) →
  ctxs_ok s → ctxs_ok s'.
Proof.
  intros E Hc H p Hp Hi. destruct (H p (E _ _ Hp) Hi) as (c & Hq & Hl).
  destruct (Hc _ _ Hq) as (c' & ? & Hlen). exists c'. split; [done | lia].
Qed.

(** * Taking and returning contexts of a session *)

Lemma pool_at_get s conn cb p : get_pool s conn cb = Ok p → pool_at s conn cb = Some p.
Proof.
  unfold get_pool, pool_at. intros H. res_inv. apply rd_inv in Ha. rewrite Ha.
  by apply rd_inv in H.
Qed.

Lemma free_some_pool s conn cb : is_Some (free_at s conn cb) → is_Some (pool_at s conn cb).
Proof. unfold free_at. destruct (pool_at s conn cb); [eauto | by intros []]. Qed.

(** Writing a pool back unchanged changes no view. *)
Lemma set_pool_same s conn cb p s' : pool_at s conn cb = Some p →
  set_pool s conn cb p = Ok s' →
  same_but_conns s s' ∧ ∀ conn' cb', pool_at s' conn' cb' = pool_at s conn' cb'.
Proof.
  intros Hp H. destruct (set_pool_at s conn cb p p Hp) as (s2 & H2 & Hs & He).
  rewrite H in H2. injection H2 as <-. split; [done|]. intros conn' cb'. rewrite He.
  case_decide as Hd; [|done]. destruct Hd as [<- <-]. done.
Qed.

Lemma pool_views s s' : (∀ conn cb, pool_at s' conn cb = pool_at s conn cb) →
  (∀ conn cb, free_at s' conn cb = free_at s conn cb) ∧ (∀ q, ctx_at s' q = ctx_at s q).
Proof. intros H. unfold free_at, ctx_at. split; intros; by rewrite H. Qed.

(** The entry below the top of a well-formed stack is never NULL. *)
Lemma owned_top s held conn cb fc : pools_owned s held → free_at s conn cb = Some fc →
  tail fc ≠ -1 →
  ∃ i, zget (ctx_list fc) (tail fc) = Some (Some i) ∧
    ({| p_conn := conn; p_cb := cb; p_idx := i |} ∉ held) ∧
    free_stack fc = free_stack (fc <| tail := tail fc - 1 |>) ++ [Some i].
Proof.
  intros [_ Ho] Hf Ht. destruct (Ho _ _ _ Hf) as [Hwf Hperm].
  destruct (zget_is_Some (ctx_list fc) (tail fc)) as [r Hr]; [destruct Hwf; lia|].
  pose proof (free_stack_pop fc r Hwf Ht Hr) as Hpop. rewrite Hpop in Hperm.
  assert (r ∈ (Some <$> seqZ 0 IS_QUEUE_DEPTH)) as Hin.
  { rewrite <- Hperm, !elem_of_app. left. right. by apply list_elem_of_singleton. }
  apply list_elem_of_fmap in Hin as (i & -> & _). exists i. split_and!; [done | | done].
  intros Hh%elem_of_held_in. simpl in Hh.
  assert (NoDup ((free_stack (fc <| tail := tail fc - 1 |>) ++ [Some i]) ++
    (Some <$> held_in conn cb held))) as Hn.
  { rewrite Hperm. apply NoDup_fmap_2; [apply _ | apply NoDup_seqZ]. }
  apply NoDup_app in Hn as (_ & Hd & _). apply (Hd (Some i)).
  - apply elem_of_app. right. by apply list_elem_of_singleton.
  - apply list_elem_of_fmap. eauto.
Qed.

(** Popping the stack of one pool hands its context to the holder. *)
Lemma owned_pop s s' held conn cb fc i : pools_owned s held →
  free_at s conn cb = Some fc → tail fc ≠ -1 →
  free_stack fc = free_stack (fc <| tail := tail fc - 1 |>) ++ [Some i] →
  (∀ conn' cb', free_at s' conn' cb' =
     if decide (conn = conn' ∧ cb = cb') then Some (fc <| tail := tail fc - 1 |>)
     else free_at s conn' cb') →
  pools_owned s' ({| p_conn := conn; p_cb := cb; p_idx := i |} :: held).
Proof.
  intros [H1 H2] Hf Ht Hs He. split.
  - intros p [->|Hp]%elem_of_cons; rewrite He; case_decide; simpl in *; eauto; tauto.
  - intros conn' cb' fc'. rewrite He, held_in_cons. simpl. case_decide as Hd.
    + destruct Hd as [<- <-]. intros [= <-]. destruct (H2 _ _ _ Hf) as [[? ?] Hperm].
      split; [split; simpl; [done | lia]|]. rewrite <- Hperm, Hs, fmap_cons, <- app_assoc. done.
    + apply H2.
Qed.

Lemma acquire_ctx_owned submit_queues fuel : ∀ s conn cb held p s',
  pools_owned s held → acquire_ctx submit_queues fuel s cb conn = Ok (p, s') →
  p_cb p = cb ∧ (p ∉ held) ∧ pools_owned s' (p :: held) ∧ same_but_conns s s' ∧
  (∀ q, ctx_at s' q = ctx_at s q) ∧
  (∀ conn cb, is_Some (free_at s' conn cb) ↔ is_Some (free_at s conn cb)).
Proof.
  induction fuel as [|fuel IH]; intros s conn cb held p s' Ho; [done|].
  cbn [acquire_ctx]. intros (pool & Hp%pool_at_get & H)%res_bind_ok.
  apply res_bind_ok in H as ([r pool'] & Hget & H).
  destruct (free_ctxs pool) as [fc|] eqn:Hfc;
    [|by unfold IS_get_ctx in Hget; rewrite Hfc in Hget].
  assert (free_at s conn cb = Some fc) as Hf by (unfold free_at; by rewrite Hp).
  unfold IS_get_ctx in Hget. rewrite Hfc in Hget. simpl in Hget.
  case_decide as Ht.
  - injection Hget as <- <-. apply res_bind_ok in H as (s1 & Hs1 & H).
    destruct (set_pool_same _ _ _ _ _ Hp Hs1) as [Hc Hv].
    destruct (pool_views _ _ Hv) as [Hvf Hvc].
    apply (IH _ _ _ held) in H as (? & ? & ? & ? & Hq & Hi);
      [|by eapply pools_owned_free; [apply Hvf|]].
    split_and!; eauto with views.
    + intros q. by rewrite Hq, Hvc.
    + intros conn' cb'. by rewrite Hi, Hvf.
  - destruct (owned_top _ _ _ _ _ Ho Hf Ht) as (i & Htop & Hnot & Hpop).
    rewrite (rd_ok _ _ _ Htop) in Hget. simpl in Hget. injection Hget as <- <-.
    apply res_bind_ok in H as (s1 & Hs1 & H). injection H as <- <-.
    destruct (set_free_at s conn cb pool (fc <| tail := tail fc - 1 |>) Hp)
      as (s2 & Hs2 & Hc & Hq & Hfr).
    simpl in Hs2. rewrite Hs2 in Hs1. injection Hs1 as <-.
    split_and!; [done | done | by eapply owned_pop | done | done |].
    intros conn' cb'. rewrite Hfr. case_decide as Hd; [|done]. destruct Hd as [<- <-].
    rewrite Hf. split; eauto.
Qed.

(** A held context can be returned. *)
Lemma insert_ctx_owned s held p : pools_owned s (p :: held) →
  ∃ s', IS_insert_ctx s p = Ok s' ∧ pools_owned s' held ∧ same_but_conns s s' ∧
    (∀ q, ctx_at s' q = ctx_at s q) ∧
    (∀ conn cb, is_Some (free_at s' conn cb) ↔ is_Some (free_at s conn cb)).
Proof.
  intros [H1 H2]. destruct (H1 p) as [fc Hf]; [left|].
  destruct (H2 _ _ _ Hf) as [Hwf Hperm]. rewrite held_in_cons, decide_True in Hperm by done.
  destruct (free_at_pool _ _ _ _ Hf) as (pool & Hp & Hfc).
  destruct (owned_put pool [] (held_in (p_conn p) (p_cb p) held) (p_idx p))
    as (pool' & Hins & fc' & Hfc' & Hwf' & Hperm'); [by exists fc|].
  assert (pool' = pool <| free_ctxs := Some fc' |>) as Epool.
  { unfold pool_insert in Hins. rewrite Hfc in Hins. simpl in Hins. res_inv. simpl in *.
    congruence. }
  unfold IS_insert_ctx. rewrite (get_pool_at _ _ _ _ Hp). simpl. rewrite Hins. simpl.
  destruct (set_free_at s (p_conn p) (p_cb p) pool fc' Hp) as (s' & Hs & Hc & Hq & Hfr).
  exists s'. split_and!; [by rewrite Epool | | done | done |].
  - split.
    + intros q Hq'. rewrite Hfr. case_decide; [eauto|]. apply H1. by right.
    + intros conn cb fc2. rewrite Hfr. case_decide as Hd.
      * destruct Hd as [<- <-]. intros [= <-]. done.
      * intros H%H2. by rewrite held_in_cons, decide_False in H by done.
  - intros conn cb. rewrite Hfr. case_decide as Hd; [|done]. destruct Hd as [<- <-].
    rewrite Hf. split; eauto.
Qed.

(** One context replaced, every other view kept. *)
Definition ctx_upd (s s' : IS_session) (p : ctx_ptr) (c : rdma_ctx) : Prop :=
  same_but_conns s s' ∧
  (∀ q, ctx_at s' q = if decide (p = q) then Some c else ctx_at s q) ∧
  (∀ conn cb, free_at s' conn cb = free_at s conn cb).

Lemma ctx_upd_trans s1 s2 s3 p c c' :
  ctx_upd s1 s2 p c → ctx_upd s2 s3 p c' → ctx_upd s1 s3 p c'.
Proof.
  intros (H1 & H2 & H3) (H4 & H5 & H6). split_and!; [by eauto with views | |].
  - intros q. rewrite H5, H2. by case_decide.
  - intros conn cb. by rewrite H6, H3.
Qed.

Lemma ctx_upd_at s s' p c : ctx_upd s s' p c → ctx_at s' p = Some c.
Proof. intros (_ & H & _). by rewrite H, decide_True. Qed.

Lemma ctx_upd_owned s s' p c held : ctx_upd s s' p c → pools_owned s held → pools_owned s' held.
Proof. intros (_ & _ & H). by apply pools_owned_free. Qed.

Lemma ctx_upd_ok s s' p c c0 : ctx_upd s s' p c → ctx_at s p = Some c0 →
  len (rdma_buf c) = len (rdma_buf c0) → ctxs_ok s → ctxs_ok s'.
Proof.
  intros (_ & Hq & Hf) Hp Hl. apply ctxs_ok_free; [intros ? ?; by rewrite Hf|].
  intros q c1 H1. rewrite Hq. case_decide as Hd; [|eauto]. subst q.
  rewrite Hp in H1. injection H1 as <-. eauto.
Qed.

(** Changing a context in place. *)
Lemma with_ctx_at w p c f : ctx_at (sess w) p = Some c →
  ∃ s', with_ctx w p f = Ok (w <| sess := s' |>) ∧ ctx_upd (sess w) s' p (f c).
Proof.
  intros H. unfold with_ctx. rewrite (read_ctx_at _ _ _ H). simpl.
  destruct (write_ctx_at (sess w) p c (f c) H) as (s' & -> & ?). exists s'. by split.
Qed.

(** An accepted work request. *)
Lemma post_rdma_at `{V : Verbs} w cb p c wr w' : ctx_at (sess w) p = Some c →
  post_rdma w cb p wr = Ok (0, w') →
  ∃ s', ctx_upd (sess w) s' p (c <| rdma_sq_wr := wr |>) ∧
    w' = w <| sess := s' |>
           <| posted := posted w ++ [{| po_cb := cb; po_ctx := p; po_wr := wr |}] |>.
Proof.
  intros Hc. unfold post_rdma.
  destruct (with_ctx_at w p c (λ c, c <| rdma_sq_wr := wr |>) Hc) as (s' & -> & Hu). simpl.
  destruct (Z.eqb_spec (ib_post_send (posted w) {| po_cb := cb; po_ctx := p; po_wr := wr |}) 0)
    as [E|E]; simpl; [|congruence].
  intros [= <-]. exists s'. done.
Qed.
