(* ===== verification/Transfer.v ===== *)
(** Single-page requests through the data path: where [IS_request] sends them, and what
    an accepted RDMA read or write leaves in the session, in the queue of the backup
    disk and in the send queue. *)

From Stdlib Require Import ZArith Lia.
From stdpp Require Import functions relations base tactics list numbers option gmap.
From S2P Require Import Prelude Types Bitmap CtxPool Stackbd Request Views World.

(** * Requests of one page *)

(** The swap layer of kernels 4.4 and later sends single pages ([MAX_SGL_LEN] is 1). *)
Definition page_bio (r : request) (a : Z) : bio_data_desc :=
  {| bi_buf := Host a; bi_phys_segments := 1; bi_size := IS_PAGE_SIZE;
     bi_sector := rq_pos r; bi_write := rq_write r |}.

Definition page_no (r : request) : Z := rq_pos r / PAGE_SECTORS.
Definition chunk_of (n : Z) : Z := n / CHUNK_PAGES.
Definition slot_of (n : Z) : Z := n mod CHUNK_PAGES.

(** A request for the page of the device at [rq_pos], with [a] the page of the host. *)
Record page_request `{C : Config} (r : request) (a : Z) : Prop := {
  pr_bio : rq_bio r = [page_bio r a];
  pr_segs : nr_phys_segments r = 1;
  pr_bytes : rq_bytes r = IS_PAGE_SIZE;
  pr_aligned : a mod IS_PAGE_SIZE = 0;
  pr_pos : 0 ≤ rq_pos r;
  pr_sector : rq_pos r mod PAGE_SECTORS = 0;
  pr_bound : page_no r < STACKBD_SIZE_G * CHUNK_PAGES;
}.

(** * The mapping of the device's chunks *)

(** The control block and the slot there that serve chunk [gb] of the device. *)
Definition mapping (s : IS_session) (gb : Z) : option (Z * Z) :=
  match zget (cb_index_map s) gb, zget (chunk_map_cb_chunk s) gb with
  | Some cb, Some ci =>
      if (cb =? NO_CB_MAPPED) || (ci =? -1) then None else Some (cb, ci)
  | _, _ => None
  end.

Definition mapped_chunk (s : IS_session) (n : Z) : option (Z * remote_chunk_g) :=
  match mapping s (chunk_of n) with
  | Some (cb, ci) => match chunk_at s cb ci with Some ck => Some (cb, ck) | None => None end
  | None => None
  end.

(** Where page [n] lives on its server, and whether the bitmap records it there. *)
Definition remote_key (s : IS_session) (n : Z) : option (Z * Z * Z) :=
  match mapped_chunk s n with
  | Some (cb, ck) => Some (cb, remote_rkey ck, remote_addr ck + slot_of n * IS_PAGE_SIZE)
  | None => None
  end.

Definition remote_hit (s : IS_session) (n : Z) : bool :=
  match mapped_chunk s n with
  | Some (_, ck) => match bitmap_g ck with Some bm => recorded bm (slot_of n) | None => false end
  | None => false
  end.

Record chunk_ok (ck : remote_chunk_g) : Prop := {
  ck_bitmap : ∃ bm, bitmap_g ck = Some bm ∧ bitmap_wf bm;
  ck_addr : 0 ≤ remote_addr ck ∧ remote_addr ck + ONE_GB ≤ 2 ^ 64;
}.

(** Two chunks of one server lie in different registrations or apart in memory. *)
Definition apart (c1 : Z * remote_chunk_g) (c2 : Z * remote_chunk_g) : Prop :=
  c1.1 = c2.1 → remote_rkey c1.2 = remote_rkey c2.2 →
  remote_addr c1.2 + ONE_GB ≤ remote_addr c2.2 ∨ remote_addr c2.2 + ONE_GB ≤ remote_addr c1.2.

Record session_wf `{C : Config} (s : IS_session) : Prop := {
  sw_map : len (cb_index_map s) = STACKBD_SIZE_G;
  sw_chunk : len (chunk_map_cb_chunk s) = STACKBD_SIZE_G;
  sw_wops : len (write_ops s) = STACKBD_SIZE_G;
  sw_rops : len (read_ops s) = STACKBD_SIZE_G;
  sw_on : ∀ gb cb ci, mapping s gb = Some (cb, ci) → rdma_on s = DEV_RDMA_ON;
  sw_cbs : ∀ gb cb, zget (cb_index_map s) gb = Some cb → cb ≠ NO_CB_MAPPED →
    0 ≤ cb < len (cb_list s);
  sw_chunks : ∀ gb cb ci, mapping s gb = Some (cb, ci) →
    ∃ ck, chunk_at s cb ci = Some ck ∧ chunk_ok ck;
  sw_apart : ∀ gb gb' cb ci cb' ci' ck ck', gb ≠ gb' →
    mapping s gb = Some (cb, ci) → mapping s gb' = Some (cb', ci') →
    chunk_at s cb ci = Some ck → chunk_at s cb' ci' = Some ck' →
    (cb, ci) ≠ (cb', ci') ∧ apart (cb, ck) (cb', ck');
}.

(** * Position of a page request *)

Section Positions.
Context `{C : Config}.
Variables (r : request) (a : Z).
Hypothesis Hr : page_request r a.

Lemma page_no_range : 0 ≤ page_no r < 2 ^ 38.
Proof.
  destruct Hr as [_ _ _ _ Hp _ Hb]. revert Hb. unfold page_no, CHUNK_PAGES.
  change (ONE_GB / IS_PAGE_SIZE) with 262144. change PAGE_SECTORS with 8 in *.
  pose proof stackbd_size_pos. intros ?. split; [apply Z.div_pos; lia | lia].
Qed.

Lemma slot_range n : 0 ≤ slot_of n < CHUNK_PAGES.
Proof. apply Z.mod_pos_bound. by vm_compute. Qed.

Lemma rq_start_eq : rq_start r = page_no r * IS_PAGE_SIZE.
Proof.
  destruct Hr as [_ _ _ _ Hp Hs _]. pose proof page_no_range as Hn.
  unfold rq_start, IS_SECT_SHIFT, page_no in *. rewrite Z.shiftl_mul_pow2 by lia.
  unfold PAGE_SECTORS, IS_PAGE_SIZE, IS_SECT_SIZE in *. change (4096 / 512) with 8 in *.
  pose proof (Z.div_mod (rq_pos r) 8). rewrite u64_id; [lia|]. unfold is_u64. lia.
Qed.

Lemma chunk_of_range : 0 ≤ chunk_of (page_no r) < STACKBD_SIZE_G.
Proof.
  destruct Hr as [_ _ _ _ _ _ Hb]. pose proof page_no_range as Hn. revert Hb.
  unfold chunk_of, CHUNK_PAGES. change (ONE_GB / IS_PAGE_SIZE) with 262144. intros Hb.
  split; [apply Z.div_pos; lia | apply Z.div_lt_upper_bound; lia].
Qed.

Lemma shift_start :
  s32 (Z.shiftr (page_no r * IS_PAGE_SIZE) ONE_GB_SHIFT) = chunk_of (page_no r).
Proof.
  pose proof chunk_of_range. pose proof stackbd_size_pos.
  unfold ONE_GB_SHIFT. rewrite Z.shiftr_div_pow2 by lia.
  replace (page_no r * IS_PAGE_SIZE / 2 ^ 30) with (chunk_of (page_no r)).
  - apply s32_id. unfold is_s32. lia.
  - unfold chunk_of, CHUNK_PAGES, IS_PAGE_SIZE. change (ONE_GB / 4096) with 262144.
    change (2 ^ 30) with (262144 * 4096). by rewrite Z.div_mul_cancel_r by lia.
Qed.

Lemma gb_index_eq : gb_index_of r = chunk_of (page_no r).
Proof. unfold gb_index_of. rewrite rq_start_eq. apply shift_start. Qed.

Lemma end_index_eq : end_index_of r = chunk_of (page_no r).
Proof.
  unfold end_index_of. rewrite (pr_bytes _ _ Hr), rq_start_eq, <- shift_start.
  pose proof page_no_range. rewrite u64_id; [do 2 f_equal; lia|].
  unfold is_u64, IS_PAGE_SIZE. lia.
Qed.

Lemma chunk_offset_eq :
  Z.land (rq_start r) ONE_GB_MASK = slot_of (page_no r) * IS_PAGE_SIZE.
Proof.
  rewrite rq_start_eq. unfold ONE_GB_MASK. change 0x3fffffff with (Z.ones 30).
  rewrite Z.land_ones by lia. unfold slot_of, CHUNK_PAGES, IS_PAGE_SIZE.
  change (ONE_GB / 4096) with 262144. change (2 ^ 30) with (262144 * 4096).
  by rewrite Z.mul_mod_distr_r by lia.
Qed.

Lemma chunk_offset_range n : 0 ≤ slot_of n * IS_PAGE_SIZE ∧
  slot_of n * IS_PAGE_SIZE + IS_PAGE_SIZE ≤ ONE_GB.
Proof.
  pose proof (slot_range n) as H. revert H. unfold CHUNK_PAGES, IS_PAGE_SIZE.
  change (ONE_GB / 4096) with 262144. change ONE_GB with (262144 * 4096). lia.
Qed.

Lemma bitmap_index_eq n : s32 (slot_of n * IS_PAGE_SIZE / IS_PAGE_SIZE) = slot_of n.
Proof.
  rewrite Z.div_mul by done. apply s32_id. pose proof (slot_range n) as H. revert H.
  unfold CHUNK_PAGES, is_s32. change (ONE_GB / IS_PAGE_SIZE) with 262144. lia.
Qed.

(** A page-aligned buffer always selects connection 0. *)
Lemma conn_id_zero : conn_id_of r = Ok 0.
Proof.
  unfold conn_id_of. rewrite (pr_bio _ _ Hr). simpl. f_equal.
  pose proof (pr_aligned _ _ Hr) as Ha. unfold QUEUE_NUM_MASK, u64.
  change 0x1f with (Z.ones 5). rewrite Z.land_ones by lia.
  apply Z.mod_divide in Ha as [k ->]; [|done]. unfold IS_PAGE_SIZE.
  change (2 ^ 64) with (2 ^ 52 * 4096). rewrite Z.mul_mod_distr_r by lia.
  change 4096 with (128 * 2 ^ 5). rewrite Z.mul_assoc. apply Z.mod_mul. lia.
Qed.

End Positions.

(** * Routing *)

Section Data.
Context `{C : Config} `{BL : BlockLayer} `{V : Verbs}.
Variable submit_queues : Z.

(** The counters are the only thing [count_op] touches. *)
Lemma count_op_ok s write gb : session_wf s → 0 ≤ gb < STACKBD_SIZE_G →
  ∃ s', count_op s write gb = Ok s' ∧ session_wf s' ∧
    (∀ cb ci, chunk_at s' cb ci = chunk_at s cb ci) ∧
    (∀ g, mapping s' g = mapping s g) ∧ cb_list s' = cb_list s ∧
    cb_index_map s' = cb_index_map s ∧ chunk_map_cb_chunk s' = chunk_map_cb_chunk s ∧
    (∀ conn cb, pool_at s' conn cb = pool_at s conn cb).
Proof.
  intros Hwf Hgb. unfold count_op.
  destruct (zget_is_Some (write_ops s) gb) as [nw Hnw]; [by rewrite sw_wops|].
  destruct (zget_is_Some (read_ops s) gb) as [nr Hnr]; [by rewrite sw_rops|].
  destruct write.
  - rewrite (rd_ok _ _ _ Hnw). simpl. rewrite wr_ok by eauto with zarr. simpl.
    eexists. split; [done|]. split_and!; try done. destruct Hwf.
    split; simpl; try rewrite len_zset; done.
  - rewrite (rd_ok _ _ _ Hnr). simpl. rewrite wr_ok by eauto with zarr. simpl.
    eexists. split; [done|]. split_and!; try done. destruct Hwf.
    split; simpl; try rewrite len_zset; done.
Qed.

Lemma mapping_lookup s gb : session_wf s → 0 ≤ gb < STACKBD_SIZE_G →
  ∃ cb ci, zget (cb_index_map s) gb = Some cb ∧ zget (chunk_map_cb_chunk s) gb = Some ci ∧
    mapping s gb = if (cb =? NO_CB_MAPPED) || (ci =? -1) then None else Some (cb, ci).
Proof.
  intros Hwf Hgb. unfold mapping.
  destruct (zget_is_Some (cb_index_map s) gb) as [cb Hcb]; [by rewrite sw_map|].
  destruct (zget_is_Some (chunk_map_cb_chunk s) gb) as [ci Hci]; [by rewrite sw_chunk|].
  rewrite Hcb, Hci. eauto.
Qed.

(** Where a page request goes. *)
Lemma request_route w r a s1 :
  page_request r a → session_wf (sess w) →
  count_op (sess w) (rq_write r) (chunk_of (page_no r)) = Ok s1 →
  IS_request submit_queues w r =
    match mapping (sess w) (chunk_of (page_no r)) with
    | None => disk_ok (w <| sess := s1 |>) r
    | Some (cb, ci) =>
        match chunk_at (sess w) cb ci with
        | None => Fault OutOfBounds
        | Some ck =>
            if rq_write r || remote_hit (sess w) (page_no r)
            then IS_transfer_chunk submit_queues (w <| sess := s1 |>) cb ci ck
                   (slot_of (page_no r) * IS_PAGE_SIZE) IS_PAGE_SIZE (rq_write r) r
            else disk_ok (w <| sess := s1 |>) r
        end
    end.
Proof.
  intros Hr Hwf Hc. pose proof (chunk_of_range _ _ Hr) as Hgb.
  destruct (count_op_ok (sess w) (rq_write r) _ Hwf Hgb)
    as (s2 & Hc2 & Hwf1 & Hck & Hmap & Hl & Hm1 & Hm2 & _).
  rewrite Hc in Hc2. injection Hc2 as <-.
  destruct (mapping_lookup _ _ Hwf Hgb) as (cb & ci & Hcb & Hci & Hm).
  unfold IS_request. rewrite (gb_index_eq _ _ Hr), (end_index_eq _ _ Hr), Z.eqb_refl,
    (chunk_offset_eq _ _ Hr), (pr_bytes _ _ Hr), Hc. simpl.
  rewrite Hm1, Hm2, (rd_ok _ _ _ Hcb), (rd_ok _ _ _ Hci). simpl.
  pose proof (sw_on _ Hwf1 (chunk_of (page_no r))) as Hon. rewrite Hmap in Hon. unfold mapping in *.
  unfold remote_hit, mapped_chunk, mapping. rewrite Hcb, Hci in *.
  destruct (Z.eqb_spec cb NO_CB_MAPPED) as [|Hne]; simpl; [done|].
  unfold read_cb. rewrite Hl. destruct (zget_is_Some (cb_list (sess w)) cb) as [k Hk];
    [by eapply sw_cbs|]. rewrite (rd_ok _ _ _ Hk). simpl.
  destruct (Z.eqb_spec ci (-1)) as [|Hci']; simpl; [done|].
  destruct (sw_chunks _ Hwf (chunk_of (page_no r)) cb ci) as (ck & Hat & Hok).
  { unfold mapping. rewrite Hcb, Hci. rewrite (proj2 (Z.eqb_neq _ _) Hne),
      (proj2 (Z.eqb_neq _ _) Hci'). done. }
  rewrite Hat. unfold chunk_at in Hat. rewrite Hk in Hat. rewrite (rd_ok _ _ _ Hat). simpl.
  rewrite (Hon cb ci) by done. simpl. destruct (rq_write r); simpl; [done|].
  destruct (ck_bitmap _ Hok) as (bm & Hbm & Hbwf). rewrite Hbm, (bitmap_index_eq). simpl.
  rewrite bitmap_test_recorded by (try done; apply slot_range). simpl. by destruct (recorded _ _).
Qed.

(** * Transfers *)

#[local] Arguments acquire_ctx : simpl never.

Definition read_wr (ck : remote_chunk_g) (off : Z) (opc : wr_opcode) : rdma_wr :=
  {| wr_length := IS_PAGE_SIZE; wr_rkey := remote_rkey ck;
     wr_remote_addr := remote_addr ck + off; wr_opc := opc |}.

(** The context of a request that the network card works on, in the pool of server [cb]. *)
Definition flying (cb : Z) (p : ctx_ptr) (c : rdma_ctx) : Prop :=
  p_cb p = cb ∧ in_flight c ≠ CTX_IDLE.

(** A read that was accepted holds a context that remembers the request. *)
Lemma transfer_read_ok w w' r a cb ci ck off held :
  page_request r a → rdma_on (sess w) = DEV_RDMA_ON →
  is_u64 (remote_addr ck + off) → pools_owned (sess w) held → ctxs_ok (sess w) →
  IS_transfer_chunk submit_queues w cb ci ck off IS_PAGE_SIZE false r = Ok (0, w') →
  ∃ p c, (p ∉ held) ∧ pools_owned (sess w') (p :: held) ∧ ctxs_ok (sess w') ∧
    same_but_conns (sess w) (sess w') ∧
    (∀ q, q ≠ p → ctx_at (sess w') q = ctx_at (sess w) q) ∧
    ctx_at (sess w') p = Some c ∧ req c = Some r ∧ flying cb p c ∧
    posted w' = posted w ++ [{| po_cb := cb; po_ctx := p;
                               po_wr := read_wr ck off IB_WR_RDMA_READ |}] ∧
    stackbd w' = stackbd w ∧ host w' = host w ∧ ended w' = ended w.
Proof.
  intros Hr Hon Haddr Ho Hc. unfold IS_transfer_chunk, IS_rdma_read.
  intros ([rc w1] & H & Hrc)%res_bind_ok. rewrite (conn_id_zero _ _ Hr) in H. simpl in H.
  apply res_bind_ok in H as ([p s1] & Hacq & H).
  apply (acquire_ctx_owned _ _ _ _ _ held) in Hacq as (Hcb & Hnot & Ho1 & Hs1 & Hq1 & Hf1);
    [|done].
  assert (ctxs_ok s1) as Hc1.
  { eapply ctxs_ok_free; [intros ? ?; by apply Hf1 | | done]. intros q c. rewrite Hq1. eauto. }
  destruct (owned_ctx _ _ p Ho1 Hc1) as (c & Hp & Hlen); [left|].
  match type of H with context [with_ctx ?w0 p ?f] =>
    destruct (with_ctx_at w0 p c f Hp) as (s2 & E2 & Hu2) end.
  rewrite E2 in H. simpl in H, Hu2. destruct Hs1 as [cs ->].
  assert (rdma_on s2 = DEV_RDMA_ON) as Hon2 by (by destruct Hu2 as ([cs2 ->] & _)).
  rewrite Hon2, u32_id, u64_id in H by done. simpl in H.
  destruct (Z.eqb_spec rc 0) as [->|Hne]; [|congruence]. injection Hrc as <-.
  eapply post_rdma_at in H; [|by apply ctx_upd_at in Hu2]. destruct H as (s3 & Hu3 & ->).
  simpl in *. pose proof (ctx_upd_trans _ _ _ _ _ _ Hu2 Hu3) as Hu.
  exists p. eexists. split_and!; [done | by eapply ctx_upd_owned | | | | by eapply ctx_upd_at | | by split | | done..].
  - eapply ctx_upd_ok; [done | done | done | done].
  - destruct Hu as ([cs3 ->] & _). by eexists.
  - intros q Hne. destruct Hu as (_ & Hu & _). rewrite Hu, decide_False by done. apply Hq1.
  - done.
  - done.
Qed.

(** The bio of the write-through leg: the context's buffer to the request's sectors. *)
Definition ctx_bio (p : ctx_ptr) (sector : Z) : bio :=
  {| bi_desc := {| bi_buf := CtxBuf p; bi_phys_segments := 1; bi_size := IS_PAGE_SIZE;
                   bi_sector := sector; bi_write := true |};
     bi_end_io := Some IS_stackbd_end_io3; bi_private := Priv_ctx p |}.

(** [mem_gather] copies the page of the host. *)
Lemma mem_gather_page w r a dst pg :
  page_request r a → host w !! a = Some pg → 0 < len dst →
  mem_gather w dst r = Ok (zset dst 0 pg).
Proof.
  intros Hr Hh Hl. unfold mem_gather. rewrite (pr_segs _ _ Hr), (pr_bio _ _ Hr). simpl.
  unfold memcpy_pages, for_upto. simpl. unfold host_page. rewrite Z.add_0_r, Hh. simpl.
  rewrite wr_ok by lia. simpl. done.
Qed.

Lemma bio_generate_page w r a p w' :
  page_request r a → rq_write r = true → stackbd_ready (stackbd w) = true →
  stackbd_bio_generate w p r = Ok w' →
  w' = w <| stackbd := stackbd w <| bio_list := bio_list (stackbd w) ++ [ctx_bio p (rq_pos r)] |> |>.
Proof.
  intros Hr Hw Hready. unfold stackbd_bio_generate. rewrite (pr_bio _ _ Hr), (pr_segs _ _ Hr).
  simpl. destruct (bio_clone (page_bio r a)) as [c|] eqn:Hcl; [|done]. simpl.
  apply bio_clone_fresh in Hcl as ->. unfold stackbd_make_request5. rewrite Hready. simpl.
  rewrite Hw. intros H. res_inv. done.
Qed.

(** What a context holds while its RDMA write is in flight. *)
Definition write_ctx_ok (c : rdma_ctx) (r : request) (cb ci off : Z) (pg : page) : Prop :=
  req c = Some r ∧ chunk_ptr c = Some (cb, ci) ∧ offset c = off ∧
  ctx_len c = IS_PAGE_SIZE ∧ zget (rdma_buf c) 0 = Some pg.

(** A write that was accepted is on its way to the server and to the disk. *)
Lemma transfer_write_ok w w' r a cb ci ck off held pg :
  page_request r a → rq_write r = true → host w !! a = Some pg →
  stackbd_ready (stackbd w) = true → rdma_on (sess w) = DEV_RDMA_ON →
  is_u64 (remote_addr ck + off) → pools_owned (sess w) held → ctxs_ok (sess w) →
  IS_transfer_chunk submit_queues w cb ci ck off IS_PAGE_SIZE true r = Ok (0, w') →
  ∃ p c, (p ∉ held) ∧ pools_owned (sess w') (p :: held) ∧ ctxs_ok (sess w') ∧
    same_but_conns (sess w) (sess w') ∧
    (∀ q, q ≠ p → ctx_at (sess w') q = ctx_at (sess w) q) ∧
    ctx_at (sess w') p = Some c ∧ write_ctx_ok c r cb ci off pg ∧ flying cb p c ∧
    posted w' = posted w ++ [{| po_cb := cb; po_ctx := p;
                               po_wr := read_wr ck off IB_WR_RDMA_WRITE |}] ∧
    stackbd w' = stackbd w <| bio_list := bio_list (stackbd w) ++ [ctx_bio p (rq_pos r)] |> ∧
    host w' = host w ∧ ended w' = ended w.
Proof.
  intros Hr Hw Hh Hready Hon Haddr Ho Hc. unfold IS_transfer_chunk, IS_rdma_write.
  intros ([rc w1] & H & Hrc)%res_bind_ok. rewrite (conn_id_zero _ _ Hr) in H. simpl in H.
  apply res_bind_ok in H as ([p s1] & Hacq & H).
  apply (acquire_ctx_owned _ _ _ _ _ held) in Hacq as (Hcb & Hnot & Ho1 & Hs1 & Hq1 & Hf1);
    [|done].
  assert (ctxs_ok s1) as Hc1.
  { eapply ctxs_ok_free; [intros ? ?; by apply Hf1 | | done]. intros q c. rewrite Hq1. eauto. }
  destruct (owned_ctx _ _ p Ho1 Hc1) as (c & Hp & Hlen); [left|].
  match type of H with context [with_ctx ?w0 p ?f] =>
    destruct (with_ctx_at w0 p c f Hp) as (s2 & E2 & Hu2) end.
  rewrite E2 in H. simpl in H, Hu2. destruct Hs1 as [cs ->].
  assert (rdma_on s2 = DEV_RDMA_ON) as Hon2 by (by destruct Hu2 as ([cs2 ->] & _)).
  rewrite Hon2 in H. simpl in H.
  rewrite (read_ctx_at _ _ _ (ctx_upd_at _ _ _ _ Hu2)) in H. simpl in H.
  erewrite mem_gather_page in H; [| exact Hr | exact Hh | exact Hlen]. simpl in H.
  match type of H with context [with_ctx ?w0 p ?f] =>
    destruct (with_ctx_at w0 p _ f (ctx_upd_at _ _ _ _ Hu2)) as (s3 & E3 & Hu3) end.
  rewrite E3 in H. simpl in H, Hu3.
  apply res_bind_ok in H as (w4 & Hgen & H).
  apply (bio_generate_page _ _ a) in Hgen as ->; [|done..]. simpl in H.
  rewrite u32_id, u64_id in H by done.
  destruct (Z.eqb_spec rc 0) as [->|Hne]; [|congruence]. injection Hrc as <-.
  eapply post_rdma_at in H; [|by apply ctx_upd_at in Hu3]. destruct H as (s5 & Hu5 & ->).
  simpl in *.
  pose proof (ctx_upd_trans _ _ _ _ _ _ Hu2 (ctx_upd_trans _ _ _ _ _ _ Hu3 Hu5)) as Hu.
  exists p. eexists.
  split_and!; [done | by eapply ctx_upd_owned | | | | by eapply ctx_upd_at | | by split | done..].
  - eapply ctx_upd_ok; [done | done | simpl; by rewrite len_zset | done].
  - destruct Hu as ([cs3 ->] & _). by eexists.
  - intros q Hne. destruct Hu as (_ & Hu & _). rewrite Hu, decide_False by done. apply Hq1.
  - split_and!; try done. simpl. by rewrite zget_zset_eq by lia.
Qed.

End Data.
