(* ===== verification/Servers.v ===== *)
(** The servers of a session: what their states promise to server selection, to eviction and
    to the data path. *)

From Stdlib Require Import ZArith Lia.
From stdpp Require Import base tactics list numbers option.
From S2P Require Import Prelude Types ByteOrder Bitmap CtxPool Stackbd Request Views ChunkMap.
From S2P Require Import MapInv.

(** A server that takes new chunks. *)
Definition cb_open (st : cb_state) : bool := cb_state_val st <? cb_state_val CB_EVICTING.

Definition put_cb (s : IS_session) (cb : Z) (c : kernel_cb) : IS_session :=
  s <| cb_list := zset (cb_list s) cb c |>.

(** A pool with contexts and its stack of free ones. *)
Definition live_pool (p : ctx_pool_list) : Prop := is_Some (ctx_pool p) ∧ is_Some (free_ctxs p).

Section Servers.
Context `{C : Config}.
Variable submit_queues : Z.

(** * States *)

(** A control block that serves no chunk and that [kernel_cb_init] can set up. *)
Record cb_idle (cb : Z) (c : kernel_cb) : Prop := {
  id_index : cb_index c = cb;
  id_rkeys : len (rkey (send_buf c)) = MAX_MR_SIZE_GB;
  id_map : Forall (λ gb, gb = -1) (chunk_map (remote_chunk c));
}.

(** A control block with its tables, on a connection that is established. *)
Definition cb_ready_for (cb : Z) (c : kernel_cb) : Prop :=
  cb_wf cb c ∧ test_state_val CONNECTED ≤ test_state_val (state c).

Definition cb_fits (st : cb_state) (cb : Z) (c : kernel_cb) : Prop :=
  match st with
  | CB_IDLE => cb_idle cb c
  | CB_CONNECTED => cb_ready_for cb c ∧ IS_PAGE_SIZE ≤ cb_size c
  | CB_MAPPED | CB_EVICTING => cb_ready_for cb c
  | CB_FAIL => True
  end.

(** A server has contexts from its first chunk on. *)
Definition pool_fits (st : cb_state) (p : ctx_pool_list) : Prop :=
  match st with
  | CB_IDLE | CB_CONNECTED => p = empty_pool
  | CB_MAPPED | CB_EVICTING => live_pool p
  | CB_FAIL => True
  end.

Definition pools_fit (s : IS_session) (st : cb_state) (cb : Z) : Prop :=
  ∀ i, 0 ≤ i < submit_queues → ∃ p, pool_at s i cb = Some p ∧ pool_fits st p.

Record servers_ok (s : IS_session) : Prop := {
  so_states : len (cb_state_list s) = Z.max 0 (cb_num s);
  so_num : cb_num s < 2 ^ 31;
  so_conns : len (IS_conns s) ≤ Z.max 0 submit_queues;
  so_cb : ∀ cb st, zget (cb_state_list s) cb = Some st →
    ∃ c, zget (cb_list s) cb = Some c ∧ cb_fits st cb c;
  so_pools : ∀ cb st, zget (cb_state_list s) cb = Some st → pools_fit s st cb;
}.

(** * Closure *)

Lemma pools_fit_views s s' st cb : (∀ i, pool_at s' i cb = pool_at s i cb) →
  pools_fit s st cb → pools_fit s' st cb.
Proof. intros E H i Hi. rewrite E. by apply H. Qed.

Lemma servers_ext s s' : cb_state_list s' = cb_state_list s → cb_num s' = cb_num s →
  cb_list s' = cb_list s → IS_conns s' = IS_conns s → servers_ok s → servers_ok s'.
Proof.
  intros E1 E2 E3 E4 [H1 H2 Hl H3 H4]. split; rewrite ?E1, ?E2, ?E3, ?E4; try done.
  intros cb st Hst. eapply pools_fit_views; [|by apply H4]. intros i. unfold pool_at. by rewrite E4.
Qed.

(** Control block and state of one server change together. *)
Lemma servers_update s s' cb c c' st : servers_ok s → zget (cb_list s) cb = Some c →
  cb_list s' = zset (cb_list s) cb c' → cb_state_list s' = zset (cb_state_list s) cb st →
  cb_num s' = cb_num s → len (IS_conns s') = len (IS_conns s) →
  (∀ i cb', cb' ≠ cb → pool_at s' i cb' = pool_at s i cb') →
  cb_fits st cb c' → pools_fit s' st cb → servers_ok s'.
Proof.
  intros [H1 H2 Hl H3 H4] Hc El Es En Ec Ep Hf Hp.
  split; rewrite ?El, ?Es, ?En, ?Ec; rewrite ?len_zset; try done.
  - intros cb1 st1. rewrite !zget_zset. destruct (decide (cb = cb1)) as [<-|Hne].
    + rewrite (decide_True (P := cb = cb ∧ 0 ≤ cb < len (cb_list s))) by eauto with zarr.
      case_decide as Hd; [intros [= <-]; eauto|]. intros Hst. exfalso. apply Hd. eauto with zarr.
    + rewrite !decide_False by tauto. apply H3.
  - intros cb1 st1. rewrite zget_zset. case_decide as Hd.
    + destruct Hd as [<- _]. by intros [= <-].
    + intros Hst. destruct (decide (cb1 = cb)) as [->|Hne].
      * exfalso. apply Hd. eauto with zarr.
      * eapply pools_fit_views; [|by apply H4]. intros i. by apply Ep.
Qed.

Lemma servers_cb s cb c c' : servers_ok s → zget (cb_list s) cb = Some c →
  (∀ st, zget (cb_state_list s) cb = Some st → cb_fits st cb c → cb_fits st cb c') →
  servers_ok (put_cb s cb c').
Proof.
  intros [H1 H2 Hl H3 H4] Hc Hf. split; try done. intros cb1 st1 Hst. simpl in *. rewrite zget_zset.
  destruct (H3 _ _ Hst) as (c1 & Hc1 & Hf1). case_decide as Hd; [|eauto]. destruct Hd as [<- _].
  rewrite Hc in Hc1. injection Hc1 as <-. eauto.
Qed.

Lemma servers_state s cb c st : servers_ok s → zget (cb_list s) cb = Some c →
  cb_fits st cb c → pools_fit s st cb →
  servers_ok (s <| cb_state_list := zset (cb_state_list s) cb st |>).
Proof.
  intros Hs Hc Hf Hp. eapply (servers_update s _ cb c c); try done. simpl. by rewrite zset_id.
Qed.

(** Changes of a control block that fit every state it can be in. *)
Record cb_same (c c' : kernel_cb) : Prop := {
  cs_fits : ∀ cb, cb_wf cb c → cb_wf cb c';
  cs_index : cb_index c' = cb_index c;
  cs_size : cb_size c' = cb_size c;
  cs_rkeys : len (rkey (send_buf c')) = len (rkey (send_buf c));
  cs_map : chunk_map (remote_chunk c') = chunk_map (remote_chunk c);
  cs_state : test_state_val CONNECTED ≤ test_state_val (state c) →
    test_state_val CONNECTED ≤ test_state_val (state c');
}.

Lemma cb_same_fits c c' st cb : cb_same c c' → cb_fits st cb c → cb_fits st cb c'.
Proof.
  intros [H1 H2 Hz H3 H4 H5]. destruct st; simpl; try done.
  - intros [I1 I2 I3]. split; [by rewrite H2 | by rewrite H3 | by rewrite H4].
  - intros [[? ?] ?]. rewrite Hz. split; [split; auto | done].
  - intros [? ?]. split; auto.
  - intros [? ?]. split; auto.
Qed.

Lemma servers_same s cb c c' : servers_ok s → zget (cb_list s) cb = Some c → cb_same c c' →
  servers_ok (put_cb s cb c').
Proof. intros Hs Hc Hsm. apply (servers_cb s cb c); eauto using cb_same_fits. Qed.

(** * Reading *)

Lemma servers_ready s cb st c : servers_ok s → zget (cb_state_list s) cb = Some st →
  st ≠ CB_IDLE → st ≠ CB_FAIL → zget (cb_list s) cb = Some c → cb_ready_for cb c.
Proof.
  intros Hs Hst H1 H2 Hc. destruct (so_cb _ Hs _ _ Hst) as (c' & Hc' & Hf).
  rewrite Hc in Hc'. injection Hc' as <-. destruct st; try done. by destruct Hf.
Qed.

Lemma servers_live s cb st i : servers_ok s → zget (cb_state_list s) cb = Some st →
  st = CB_MAPPED ∨ st = CB_EVICTING → 0 ≤ i < submit_queues → is_Some (free_at s i cb).
Proof.
  intros Hs Hst Hm Hi. destruct (so_pools _ Hs _ _ Hst i Hi) as (p & Hp & Hf).
  unfold free_at. rewrite Hp. destruct Hm as [-> | ->]; apply Hf.
Qed.

(** No chunk is served by an idle server. *)
Lemma idle_serves s cb c ci gb : zget (cb_list s) cb = Some c → cb_idle cb c → ¬ serves s cb ci gb.
Proof.
  intros Hc Hi [Hg Hne]%(serves_at _ _ _ _ _ Hc). apply Hne.
  by apply (Forall_zget _ _ _ _ (id_map _ _ Hi) Hg).
Qed.

(** Contexts come and go in pools that stay what they are. *)
Definition same_pools (s s' : IS_session) : Prop :=
  len (IS_conns s') = len (IS_conns s) ∧
  ∀ conn cb p, pool_at s conn cb = Some p → ∃ p', pool_at s' conn cb = Some p' ∧
    (is_Some (ctx_pool p') ↔ is_Some (ctx_pool p)) ∧ (is_Some (free_ctxs p') ↔ is_Some (free_ctxs p)).

#[export] Instance same_pools_preorder : PreOrder same_pools.
Proof.
  split.
  - intros s. split; [done|]. intros conn cb p Hp. by exists p.
  - intros s1 s2 s3 [L1 H1] [L2 H2]. split; [congruence|]. intros conn cb p Hp. destruct (H1 _ _ _ Hp) as (p2 & Hp2 & E1 & E2).
    destruct (H2 _ _ _ Hp2) as (p3 & Hp3 & E3 & E4). exists p3.
    split; [done|]. split; etransitivity; done.
Qed.

Lemma same_pools_fit s s' st cb : same_pools s s' → pools_fit s st cb → pools_fit s' st cb.
Proof.
  intros [_ Hs] H i Hi. destruct (H i Hi) as (p & Hp & Hf). destruct (Hs _ _ _ Hp) as (p' & Hp' & E1 & E2).
  exists p'. split; [done|]. unfold pool_fits in *.
  assert (p = empty_pool → p' = empty_pool) as He.
  { intros ->. destruct p' as [[l|] [fc|]]; try done.
    - destruct (proj1 E1 ltac:(eauto)). done.
    - destruct (proj1 E1 ltac:(eauto)). done.
    - destruct (proj1 E2 ltac:(eauto)). done. }
  destruct st; try done; [by apply He | by apply He | |]; destruct Hf as [? ?]; split; tauto.
Qed.

Lemma servers_conns s s' : servers_ok s → same_but_conns s s' → same_pools s s' → servers_ok s'.
Proof.
  intros [H1 H2 Hl H3 H4] [cs ->] Hp. split; try done; [destruct Hp as [-> _]; done|]. intros cb st Hst.
  eapply same_pools_fit; [done | by apply H4].
Qed.

End Servers.

Create HintDb servers.
#[export] Hint Resolve cb_same_fits : servers.
