(* ===== verification/Pages.v ===== *)
(** What changes of the chunk mapping mean for the data path: whatever a server's messages,
    an eviction or a new connection do to the maps of a session, no page becomes readable from
    a server that was not recorded there before, and only the servers that are named lose
    chunks. *)

From Stdlib Require Import ZArith Lia Ascii.
From stdpp Require Import functions relations base tactics list numbers option gmap.
From S2P Require Import Prelude Types ByteOrder Bitmap CtxPool Stackbd Request Views ChunkMap.
From S2P Require Import MapInv World Transfer Servers.

(** * Pools *)

(** Pools stay, or are set up where there were none. *)
Definition pools_grow (s s' : IS_session) : Prop :=
  ∀ conn cb, pool_at s' conn cb = pool_at s conn cb ∨
    pool_at s conn cb = Some empty_pool ∧
    ∃ size, IS_PAGE_SIZE ≤ size ∧ pool_at s' conn cb = Some (initialised size).

#[export] Instance pools_grow_preorder : PreOrder pools_grow.
Proof.
  split; [intros s conn cb; by left|]. intros s1 s2 s3 H1 H2 conn cb.
  destruct (H1 conn cb) as [E1|(E1 & size & Hs & E1')], (H2 conn cb) as [E2|(E2 & size2 & Hs2 & E2')].
  - left. congruence.
  - right. split; [congruence|]. eauto.
  - right. split; [done|]. exists size. split; congruence.
  - rewrite E1' in E2. done.
Qed.

Lemma grow_same s s' : IS_conns s' = IS_conns s → pools_grow s s'.
Proof. intros E conn cb. left. unfold pool_at. by rewrite E. Qed.

Lemma grow_ctx s s' p c : pools_grow s s' → ctx_at s p = Some c → ctx_at s' p = Some c.
Proof.
  intros Hg. unfold ctx_at. destruct (Hg (p_conn p) (p_cb p)) as [->|(-> & _)]; [done|]. done.
Qed.

Lemma grow_free s s' conn cb fc : pools_grow s s' → free_at s conn cb = Some fc →
  free_at s' conn cb = Some fc.
Proof. intros Hg. unfold free_at. by destruct (Hg conn cb) as [->|(-> & _)]. Qed.

(** A pool with contexts stays as it is. *)
Lemma grow_live s s' conn cb : pools_grow s s' → is_Some (free_at s conn cb) →
  pool_at s' conn cb = pool_at s conn cb.
Proof.
  intros Hg [fc Hf]. unfold free_at in Hf. destruct (Hg conn cb) as [->|(E & _)]; [done|].
  by rewrite E in Hf.
Qed.

(** A pool of the new session is an old one or full of free contexts. *)
Lemma grow_inv s s' conn cb fc : pools_grow s s' → free_at s' conn cb = Some fc →
  free_at s conn cb = Some fc ∨
  free_at s conn cb = None ∧ ∃ size, IS_PAGE_SIZE ≤ size ∧
    pool_at s' conn cb = Some (initialised size) ∧ free_ctxs (initialised size) = Some fc.
Proof.
  intros Hg. unfold free_at. destruct (Hg conn cb) as [->|(E & size & Hs & E')]; [by left|].
  rewrite E, E'. intros [= <-]. right. split; [done|]. by exists size.
Qed.

Lemma grow_owned s s' held : pools_grow s s' → pools_owned s held → pools_owned s' held.
Proof.
  intros Hg [H1 H2]. split.
  - intros p Hp. destruct (H1 p Hp) as [fc Hf]. exists fc. by eapply grow_free.
  - intros conn cb fc [Hf|(Hn & size & _ & _ & Hf)]%(grow_inv s); [by apply H2 | | done].
    destruct (owned_initialised size) as (fc' & Hfc' & Hwf & Hperm). rewrite Hf in Hfc'.
    injection Hfc' as <-. split; [done|]. replace (held_in conn cb held) with (@nil Z); [done|].
    unfold held_in. destruct (filter _ held) as [|p l] eqn:E; [done|]. exfalso.
    assert (p ∈ filter (λ p, p_conn p = conn ∧ p_cb p = cb) held) as Hin by (rewrite E; left).
    apply list_elem_of_filter in Hin as [[<- <-] Hin]. destruct (H1 p Hin). congruence.
Qed.

Lemma grow_ctxs_ok s s' : pools_grow s s' → ctxs_ok s → ctxs_ok s'.
Proof.
  intros Hg Hc p [fc Hf] Hi. destruct (grow_inv _ _ _ _ _ Hg Hf) as [Hf'|(_ & size & Hs & Hp & _)].
  - destruct (Hc p) as (c & Hp & Hl); [by eexists | done|]. exists c. split; [by eapply grow_ctx | done].
  - exists (fresh_ctx size). unfold ctx_at. rewrite Hp. split.
    + exact (zget_replicate IS_QUEUE_DEPTH (fresh_ctx size) (p_idx p) Hi).
    + cbn [rdma_buf fresh_ctx]. unfold IS_PAGE_SIZE in *. rewrite len_replicate; [|apply Z.div_pos; lia].
      assert (4096 / 4096 ≤ size / 4096) by (apply Z.div_le_mono; lia).
      change (4096 / 4096) with 1 in *. lia.
Qed.

Section Pages.
Context `{C : Config}.

(** * The relation *)

(** Chunks stay where they are, but for those on [lost] servers; and a page that is recorded
    on a server afterwards was recorded there before, at the same place. *)
Record keeps_pages (lost : Z → Prop) (s s' : IS_session) : Prop := {
  kp_pools : pools_grow s s';
  kp_on : rdma_on s = DEV_RDMA_ON → rdma_on s' = DEV_RDMA_ON;
  kp_wops : len (write_ops s') = len (write_ops s);
  kp_rops : len (read_ops s') = len (read_ops s);
  kp_lops : len (last_ops s') = len (last_ops s);
  kp_served : ∀ gb cb ci, mapping s gb = Some (cb, ci) → ¬ lost cb →
    mapping s' gb = Some (cb, ci) ∧ chunk_at s' cb ci = chunk_at s cb ci;
  kp_hit : ∀ n, remote_hit s' n = true →
    remote_hit s n = true ∧ remote_key s' n = remote_key s n;
}.

#[export] Instance keeps_pages_preorder lost : PreOrder (keeps_pages lost).
Proof.
  split; [intros s; by split|].
  intros s1 s2 s3 [A1 A2 A3 A4 A5 A6 A7] [B1 B2 B3 B4 B5 B6 B7].
  split; try congruence; [by transitivity s2 | auto | |].
  - intros gb cb ci Hm Hl. destruct (A6 _ _ _ Hm Hl) as [H1 K1].
    destruct (B6 _ _ _ H1 Hl) as [H2 K2]. split; congruence.
  - intros n Hn. destruct (B7 n Hn) as [H2 K2]. destruct (A7 n H2) as [H1 K1]. split; congruence.
Qed.

Lemma keeps_weaken (lost lost' : Z → Prop) s s' : (∀ cb, lost cb → lost' cb) →
  keeps_pages lost s s' → keeps_pages lost' s s'.
Proof. intros Hl []. split; eauto. Qed.

(** No server loses a chunk. *)
Definition nobody (cb : Z) : Prop := False.

Lemma keeps_nobody lost s s' : keeps_pages nobody s s' → keeps_pages lost s s'.
Proof. by apply keeps_weaken. Qed.

(** A chunk on which no page is recorded. *)
Definition pageless (ck : remote_chunk_g) : Prop :=
  ∀ bm n, bitmap_g ck = Some bm → recorded bm (slot_of n) = false.

(** The general case: a route stays, goes with a lost server, or is new and leads to a chunk
    without pages. *)
Lemma keeps_routes lost s s' : pools_grow s s' →
  (rdma_on s = DEV_RDMA_ON → rdma_on s' = DEV_RDMA_ON) →
  write_ops s' = write_ops s → read_ops s' = read_ops s → last_ops s' = last_ops s →
  (∀ gb cb ci, mapping s' gb = Some (cb, ci) →
     (mapping s gb = Some (cb, ci) ∧ chunk_at s' cb ci = chunk_at s cb ci) ∨
     ∀ ck, chunk_at s' cb ci = Some ck → pageless ck) →
  (∀ gb cb ci, mapping s gb = Some (cb, ci) → ¬ lost cb →
     mapping s' gb = Some (cb, ci) ∧ chunk_at s' cb ci = chunk_at s cb ci) →
  keeps_pages lost s s'.
Proof.
  intros E1 E2 E3 E4 E5 Hm Hs. split; try congruence; try done. intros n.
  unfold remote_hit, remote_key, mapped_chunk.
  destruct (mapping s' (chunk_of n)) as [[cb ci]|] eqn:Hmap; [|done].
  destruct (Hm _ _ _ Hmap) as [[-> ->]|Hp]; [by intros ->|].
  destruct (chunk_at s' cb ci) as [ck|]; [|done]. destruct (bitmap_g ck) as [bm|] eqn:Hb; [|done].
  by rewrite (Hp ck eq_refl bm n Hb).
Qed.

Lemma keeps_same lost s s' : IS_conns s' = IS_conns s →
  (rdma_on s = DEV_RDMA_ON → rdma_on s' = DEV_RDMA_ON) →
  len (write_ops s') = len (write_ops s) → len (read_ops s') = len (read_ops s) →
  len (last_ops s') = len (last_ops s) → cb_index_map s' = cb_index_map s →
  chunk_map_cb_chunk s' = chunk_map_cb_chunk s → cb_list s' = cb_list s → keeps_pages lost s s'.
Proof.
  intros E1 E2 E3 E4 E5 E6 E7 E8.
  assert (∀ gb, mapping s' gb = mapping s gb) as Hm by (intros; unfold mapping; by rewrite E6, E7).
  assert (∀ cb ci, chunk_at s' cb ci = chunk_at s cb ci) as Hk by (intros; unfold chunk_at; by rewrite E8).
  split; try done; [by apply grow_same | intros; by rewrite Hm, Hk|].
  intros n. unfold remote_hit, remote_key, mapped_chunk. rewrite Hm.
  destruct (mapping s (chunk_of n)) as [[cb ci]|]; [|done]. by rewrite Hk.
Qed.

(** * Sessions with a sound mapping *)

(** Under the invariant the maps of the session say what the slots of the servers say. *)
Lemma mapping_serves s gb cb ci : map_inv s → mapping s gb = Some (cb, ci) ↔ serves s cb ci gb.
Proof.
  intros Hinv. unfold mapping. split.
  - destruct (zget (cb_index_map s) gb) as [x|] eqn:E1; [|done].
    destruct (zget (chunk_map_cb_chunk s) gb) as [y|] eqn:E2; [|done].
    destruct (Z.eqb_spec x NO_CB_MAPPED) as [|Hx]; [done|]. cbn.
    destruct (y =? -1); [done|]. intros [= <- <-].
    destruct (mi_fwd _ Hinv _ _ E1 Hx) as (ci & Hci & Hs). congruence.
  - intros Hs. destruct (mi_bwd _ Hinv _ _ _ Hs) as [-> ->]. destruct Hs as (c & Hc & Hm & _).
    apply zget_Some_range in Hc, Hm. rewrite (proj2 (Z.eqb_neq cb NO_CB_MAPPED)),
      (proj2 (Z.eqb_neq ci (-1))); [done | lia | unfold NO_CB_MAPPED; lia].
Qed.

(** The slots of [c] and [c'] that matter: those in use stay in use unless the server is lost,
    and those taken into use hold no page. *)
Definition slots_keep (lost : Prop) (c c' : kernel_cb) : Prop :=
  ∀ ci gb, gb ≠ -1 →
    (zget (chunk_map (remote_chunk c')) ci = Some gb →
       (zget (chunk_map (remote_chunk c)) ci = Some gb ∧
        zget (chunk_list (remote_chunk c')) ci = zget (chunk_list (remote_chunk c)) ci) ∨
       ∀ ck, zget (chunk_list (remote_chunk c')) ci = Some ck → pageless ck) ∧
    (zget (chunk_map (remote_chunk c)) ci = Some gb → ¬ lost →
       zget (chunk_map (remote_chunk c')) ci = Some gb ∧
       zget (chunk_list (remote_chunk c')) ci = zget (chunk_list (remote_chunk c)) ci).

(** The control block of one server changes, and the maps of the session with it. *)
Lemma keeps_cb (lost : Z → Prop) s s' cb c c' : map_inv s → map_inv s' →
  zget (cb_list s) cb = Some c → cb_list s' = zset (cb_list s) cb c' → pools_grow s s' →
  (rdma_on s = DEV_RDMA_ON → rdma_on s' = DEV_RDMA_ON) →
  write_ops s' = write_ops s → read_ops s' = read_ops s → last_ops s' = last_ops s →
  slots_keep (lost cb) c c' → keeps_pages lost s s'.
Proof.
  intros Hi Hi' Hc El Hg Hon Ew Er Eo Hk. pose proof (zget_Some_range _ _ _ Hc) as Hr.
  assert (∀ cb' ci, chunk_at s' cb' ci = if decide (cb' = cb)
    then zget (chunk_list (remote_chunk c')) ci else chunk_at s cb' ci) as Hat.
  { intros cb' ci. unfold chunk_at. rewrite El, zget_zset. case_decide as H1; case_decide as H2; try done.
    - by destruct H1.
    - exfalso. apply H1. by split. }
  assert (∀ ci, chunk_at s cb ci = zget (chunk_list (remote_chunk c)) ci) as Hat0
    by (intros ci; unfold chunk_at; by rewrite Hc).
  apply keeps_routes; try done; intros gb cb' ci; rewrite !mapping_serves by done;
    rewrite (serves_zset s s' cb c c') by done; rewrite Hat; (destruct (decide (cb' = cb)) as [->|Hne]; [|by auto]);
    rewrite (serves_at _ _ _ _ _ Hc), Hat0.
  - intros [Hm Hne]. destruct (Hk ci gb Hne) as [H1 _]. destruct (H1 Hm) as [[? ?]|?]; auto.
  - intros [Hm Hne] Hl. destruct (Hk ci gb Hne) as [_ H2]. destruct (H2 Hm Hl). auto.
Qed.

(** Maps of the session alone. *)
Lemma keeps_maps lost s s' : map_inv s → map_inv s' → cb_list s' = cb_list s → pools_grow s s' →
  (rdma_on s = DEV_RDMA_ON → rdma_on s' = DEV_RDMA_ON) →
  write_ops s' = write_ops s → read_ops s' = read_ops s → last_ops s' = last_ops s →
  keeps_pages lost s s'.
Proof.
  intros Hi Hi' El Hg Hon Ew Er Eo.
  assert (∀ cb ci gb, serves s' cb ci gb ↔ serves s cb ci gb) as Hs by (intros; unfold serves; by rewrite El).
  assert (∀ cb ci, chunk_at s' cb ci = chunk_at s cb ci) as Hk by (intros; unfold chunk_at; by rewrite El).
  apply keeps_routes; try done; intros gb cb ci; rewrite !mapping_serves, Hs, Hk by done; auto.
Qed.

Lemma slots_same lost c c' : chunk_map (remote_chunk c') = chunk_map (remote_chunk c) →
  chunk_list (remote_chunk c') = chunk_list (remote_chunk c) → slots_keep lost c c'.
Proof. intros E1 E2 ci gb Hne. rewrite E1, E2. auto. Qed.

(** A server that serves no chunk gets fresh tables. *)
Lemma slots_idle lost cb c c' : cb_idle cb c → Forall (λ gb, gb = -1) (chunk_map (remote_chunk c')) →
  slots_keep lost c c'.
Proof.
  intros Hi H ci gb Hne. split; intros Hg; exfalso; apply Hne.
  - exact (Forall_zget _ _ _ _ H Hg).
  - exact (Forall_zget _ _ _ _ (id_map _ _ Hi) Hg).
Qed.

(** Slot [i], which was free, serves a chunk without pages. *)
Lemma slots_mapped lost c i gb rk bf : zget (chunk_map (remote_chunk c)) i = Some (-1) →
  slots_keep lost c (mapped_cb c i gb rk bf).
Proof.
  intros Hf ci g Hne. cbn. rewrite !zget_zset. split.
  - case_decide as Hd.
    + intros _. right. destruct Hd as [<- _]. case_decide as Hd2.
      * intros ck [= <-] bm n [= <-]. apply recorded_alloc.
      * intros ck Hck%zget_Some_range. exfalso. by apply Hd2.
    + intros Hg. case_decide as Hd2; [|by left]. destruct Hd2 as [<- _]. exfalso. apply Hd.
      eauto with zarr.
  - intros Hg _. assert (ci ≠ i) by congruence. by rewrite !decide_False by (intros [? _]; congruence).
Qed.

(** * The data path's view of the invariant *)

(** Servers lend memory that exists and lies apart. *)
Definition homes_apart (s : IS_session) : Prop :=
  (∀ gb cb ci ck, mapping s gb = Some (cb, ci) → chunk_at s cb ci = Some ck →
     0 ≤ remote_addr ck ∧ remote_addr ck + ONE_GB ≤ 2 ^ 64) ∧
  (∀ gb gb' cb ci cb' ci' ck ck', gb ≠ gb' →
     mapping s gb = Some (cb, ci) → mapping s gb' = Some (cb', ci') →
     chunk_at s cb ci = Some ck → chunk_at s cb' ci' = Some ck' → apart (cb, ck) (cb', ck')).

(** RDMA is on as soon as a chunk is mapped. *)
Definition mapped_on (s : IS_session) : Prop :=
  ∀ gb cb ci, mapping s gb = Some (cb, ci) → rdma_on s = DEV_RDMA_ON.

Record ops_wf (s : IS_session) : Prop := {
  ow_write : len (write_ops s) = STACKBD_SIZE_G;
  ow_read : len (read_ops s) = STACKBD_SIZE_G;
  ow_last : len (last_ops s) = STACKBD_SIZE_G;
}.

Lemma keeps_ops lost s s' : keeps_pages lost s s' → ops_wf s → ops_wf s'.
Proof. intros [] []. split; congruence. Qed.

(** The invariant of the client between its handlers. *)
Record client_inv (submit_queues : Z) (s : IS_session) : Prop := {
  ci_map : map_inv s;
  ci_servers : servers_ok submit_queues s;
  ci_settled : settled s;
  ci_ops : ops_wf s;
  ci_on : mapped_on s;
}.

(** ** Checks on a session with one server *)

Definition settled_check (s : IS_session) : bool :=
  forallb (λ gb, negb (bool_decide (zget (cb_index_map s) gb = Some NO_CB_MAPPED)) ||
                 bool_decide (zget (chunk_map_cb_chunk s) gb = Some (-1)))
    (seqZ 0 (len (cb_index_map s))).

Lemma settled_check_ok s : settled_check s = true → settled s.
Proof.
  intros H gb Hg. pose proof (zget_Some_range _ _ _ Hg) as Hr.
  pose proof (forallb_seqZ _ _ _ H Hr) as Hb. cbv beta in Hb. rewrite bool_decide_true in Hb by done.
  split; [done|]. by apply bool_decide_eq_true in Hb.
Qed.

Lemma one_server_client submit_queues s st c : map_inv s → settled_check s = true → ops_wf s →
  rdma_on s = DEV_RDMA_ON → cb_state_list s = [st] → cb_num s = 1 →
  zget (cb_list s) 0 = Some c → cb_fits st 0 c → len (IS_conns s) ≤ Z.max 0 submit_queues →
  pools_fit submit_queues s st 0 → client_inv submit_queues s.
Proof.
  intros Hi Hset Hops Hon Es En Hc Hf Hl Hp.
  assert (∀ cb st', zget (cb_state_list s) cb = Some st' → cb = 0 ∧ st' = st) as Hst.
  { intros cb st'. rewrite Es. intros H. pose proof (zget_Some_range _ _ _ H) as Hr.
    unfold len in Hr. cbn in Hr. assert (cb = 0) as -> by lia. by injection H as <-. }
  split; [done | | by apply settled_check_ok | done | by intros ? ? ? _].
  split; [by rewrite Es, En | rewrite En; lia | done | |];
    intros cb st' H; destruct (Hst _ _ H) as [-> ->]; eauto.
Qed.

(** ** Sessions of the data path *)

Lemma map_inv_session_wf s : map_inv s → homes_apart s → mapped_on s →
  len (write_ops s) = STACKBD_SIZE_G → len (read_ops s) = STACKBD_SIZE_G → session_wf s.
Proof.
  intros Hinv [Hr Ha] Hon Hw Hrd. split; [apply Hinv | apply Hinv | done..| | |].
  - intros gb cb Hg Hne. destruct (mi_fwd _ Hinv _ _ Hg Hne) as (ci & _ & c & Hc & _).
    eauto with zarr.
  - intros gb cb ci Hm. destruct (proj1 (mapping_serves _ _ _ _ Hinv) Hm) as (c & Hc & Hs & Hne).
    destruct (cw_bitmaps _ _ (cb_ready _ _ _ _ _ Hinv Hc Hs) _ _ Hs Hne) as (ck & bm & Hck & Hb & Hbw).
    exists ck. assert (chunk_at s cb ci = Some ck) as Hat by (unfold chunk_at; by rewrite Hc).
    split; [done|]. split; [eauto | by eapply Hr].
  - intros gb gb' cb ci cb' ci' ck ck' Hne Hm Hm' Hk Hk'. split; [|by eapply Ha].
    intros [= <- <-]. apply Hne. apply (mapping_serves _ _ _ _ Hinv) in Hm, Hm'.
    destruct Hm as (c & Hc & Hs & _), Hm' as (c' & Hc' & Hs' & _). congruence.
Qed.

End Pages.
