(* ===== verification/Session.v ===== *)
(** Construction of the client's state: [kernel_cb_init], [IS_session_create] and the
    parser of the portal string ([is_main.c]). *)

From Stdlib Require Import ZArith Lia Ascii String.
From stdpp Require Import base tactics list numbers option.
From S2P Require Import Prelude Types ByteOrder Bitmap CtxPool Stackbd Request Views ChunkMap.
From S2P Require Import MapInv.

(** * The portal string *)

(** C strings are lists of characters without their final NUL. *)
Definition cstring : Type := list ascii.

Definition chars (s : string) : cstring := String.list_ascii_of_string s.
Arguments chars s%_string.

Record IS_portal := { port : Z; addr : cstring }.

(** [strsep(&ptr, ",")]: the token before the first separator and the rest, NULL when the
    string ends there. *)
Fixpoint strsep (sep : ascii) (s : cstring) : cstring * option cstring :=
  match s with
  | [] => ([], None)
  | c :: s' =>
      if decide (c = sep) then ([], Some s')
      else let '(tok, rest) := strsep sep s' in (c :: tok, rest)
  end.

Definition is_digit (c : ascii) : bool :=
  let n := Z.of_nat (nat_of_ascii c) in (48 <=? n) && (n <=? 57).
Definition digit_val (c : ascii) : Z := Z.of_nat (nat_of_ascii c) - 48.

Fixpoint scan_digits (acc : Z) (s : cstring) : Z :=
  match s with
  | c :: s' => if is_digit c then scan_digits (acc * 10 + digit_val c) s' else acc
  | [] => acc
  end.

Definition is_space (c : ascii) : bool :=
  let n := Z.of_nat (nat_of_ascii c) in (n =? 32) || ((9 <=? n) && (n <=? 13)).

Fixpoint skip_spaces (s : cstring) : cstring :=
  match s with
  | c :: s' => if is_space c then skip_spaces s' else s
  | [] => []
  end.

(** [sscanf(s, "%d", &n)]: blanks, a sign, digits; [n] keeps its value [old] when there is
    no digit. *)
Definition sscanf_d (s : cstring) (old : Z) : Z :=
  let s := skip_spaces s in
  let '(neg, s) := match s with
                   | c :: s' => if decide (c = "-"%char) then (true, s') else (false, s)
                   | [] => (false, [])
                   end in
  match s with
  | c :: _ => if is_digit c then s32 (if neg : bool then - scan_digits 0 s else scan_digits 0 s)
              else old
  | [] => old
  end.

(** [addr] is an array of 16 bytes. *)
Definition ADDR_SIZE : Z := 16.

(** One [address:port]; the search for the colon runs past the end when there is none, and
    an address that does not fit in [addr] with its NUL overwrites what follows. *)
Definition parse_portal (s : cstring) : res IS_portal :=
  match strsep ":"%char s with
  | (_, None) => Fault OutOfBounds
  | (a, Some p) =>
      if ADDR_SIZE <=? len a then Fault OutOfBounds
      else Ok {| port := u16 (sscanf_d p 0); addr := a |}
  end.

Fixpoint parse_portals (n : nat) (ptr : option cstring) : res (list IS_portal) :=
  match n with
  | O => Ok []
  | S n' =>
      let* s := deref ptr in
      let '(tok, rest) := strsep ","%char s in
      let* p := parse_portal tok in
      let* l := parse_portals n' rest in
      Ok (p :: l)
  end.

(** [rdma://2,192.168.0.12:8000,192.168.0.11:9400]: the count and the portals. *)
Definition portal_parser (portal : cstring) : res (Z * list IS_portal) :=
  let '(tok, rest) := strsep ","%char (drop 7 portal) in
  let p_count := sscanf_d tok 0 in
  let* l := parse_portals (Z.to_nat p_count) rest in
  Ok (p_count, l).

Section Session.
Context `{C : Config}.

(** * Control blocks *)

Definition zero_info : IS_rdma_info :=
  {| buf := replicate (Z.to_nat MAX_MR_SIZE_GB) 0; rkey := replicate (Z.to_nat MAX_MR_SIZE_GB) 0;
     size_gb := 0; type := NO_TYPE |}.

(** As [kzalloc] leaves it in [IS_session_create]: no tables.  Its [state] is 0, which is
    below every enumerator; [IDLE] stands for it until [kernel_cb_init] sets it. *)
Definition zeroed_cb (i : Z) : kernel_cb :=
  {| cb_index := i; recv_buf := zero_info; send_buf := zero_info;
     remote_chunk := {| chunk_list := []; remote_mapped := []; chunk_size_g := 0;
       target_size_g := 0; shrink_size_g := 0; chunk_map := []; evict_chunk_map := [];
       c_state := C_IDLE |};
     state := IDLE; txdepth := 0; cb_size := 0 |}.

(** [cm_err]: the result of [rdma_create_id]; on an error the control block is freed. *)
Definition kernel_cb_init (cm_err submit_queues : Z) (c : kernel_cb) : Z * option kernel_cb :=
  let n := Z.to_nat MAX_MR_SIZE_GB in
  if cm_err =? 0 then
    (0, Some (c <| txdepth := s32 (IS_QUEUE_DEPTH * submit_queues + 1) |>
                <| cb_size := s32 (IS_PAGE_SIZE * MAX_SGL_LEN) |> <| state := IDLE |>
                <| remote_chunk := {|
                     chunk_list := replicate n {| remote_rkey := 0; remote_addr := 0;
                                                  bitmap_g := None |};
                     remote_mapped := replicate n CHUNK_UNMAPPED;
                     chunk_size_g := 0;
                     target_size_g := target_size_g (remote_chunk c);
                     shrink_size_g := shrink_size_g (remote_chunk c);
                     chunk_map := replicate n (-1);
                     evict_chunk_map := replicate n zero;
                     c_state := C_IDLE |} |>))
  else (cm_err, None).

(** * The session *)

(** [conn_ok i]: the allocation of connection [i].  On a failure the connections made so
    far are destroyed and the error is returned. *)
Definition IS_session_create (conn_ok : Z → bool) (submit_queues : Z) (portal : cstring)
  : res (Z * option IS_session) :=
  let* (n, _) := portal_parser portal in
  let cap := STACKBD_SIZE_G in
  if forallb conn_ok (seqZ 0 submit_queues) then
    Ok (0, Some {|
      mapped_cb_num := 0;
      cb_list := zeroed_cb <$> seqZ 0 n;
      cb_num := n;
      cb_state_list := replicate (Z.to_nat n) CB_IDLE;
      IS_conns := (λ i, {| cpu_id := i; ctx_pools := replicate (Z.to_nat n) empty_pool |})
                    <$> seqZ 0 submit_queues;
      capacity_g := cap;
      cb_index_map := replicate (Z.to_nat cap) NO_CB_MAPPED;
      chunk_map_cb_chunk := replicate (Z.to_nat cap) (-1);
      unmapped_chunk_list := (λ i, cap - 1 - i) <$> seqZ 0 cap;
      free_chunk_index := cap - 1;
      rdma_on := DEV_RDMA_OFF;
      write_ops := replicate (Z.to_nat cap) 0;
      read_ops := replicate (Z.to_nat cap) 0;
      last_ops := replicate (Z.to_nat cap) 0;
      trigger_threshold := RDMA_TRIGGER_THRESHOLD;
      w_weight := RDMA_W_WEIGHT;
      cur_weight := RDMA_CUR_WEIGHT;
      trigger_enable := TRIGGER_ON |})
  else Ok (- ENOMEM, None).

(** * Lemmas *)

Lemma count_all {A} (f : A → bool) n x : 0 ≤ n → f x = true →
  count f (replicate (Z.to_nat n) x) = n.
Proof.
  intros Hn Hf. rewrite <- (Z2Nat.id n) at 2 by done. induction (Z.to_nat n) as [|k IH]; [done|].
  simpl. rewrite count_cons, Hf, IH. lia.
Qed.

Lemma cb_init_wf submit_queues i c c' : cb_index c = i → len (rkey (send_buf c)) = MAX_MR_SIZE_GB →
  kernel_cb_init 0 submit_queues c = (0, Some c') → cb_wf i c'.
Proof.
  intros Hi Hk [= <-]. pose proof max_mr_pos.
  split; simpl; rewrite ?len_replicate by lia; try done.
  intros ci gb Hg. apply zget_In, elem_of_replicate in Hg as [-> _]. done.
Qed.

Lemma created_map_inv conn_ok submit_queues portal s :
  IS_session_create conn_ok submit_queues portal = Ok (0, Some s) → map_inv s.
Proof.
  intros H. unfold IS_session_create in H. res_inv. destruct a as [n portals].
  destruct (forallb _ _); simplify_eq.
  pose proof stackbd_size_pos.
  assert (∀ i c, zget (zeroed_cb <$> seqZ 0 n) i = Some c → cb_blank i c) as Hz.
  { intros i c Hc. unfold zget in Hc. case_decide; [|done]. rewrite list_lookup_fmap in Hc.
    destruct (seqZ 0 n !! Z.to_nat i) as [j|] eqn:E; [|done]. injection Hc as <-.
    apply lookup_seqZ in E as [-> _]. pose proof max_mr_pos.
    split; simpl; [lia | done | apply len_replicate; lia]. }
  split; simpl; rewrite ?len_replicate by lia; try done.
  - unfold len. rewrite length_fmap, length_seqZ. lia.
  - intros i c Hc%Hz. by left.
  - intros gb cb Hg. apply zget_In, elem_of_replicate in Hg as [-> _]. done.
  - intros cb ci gb (c & Hc%Hz & Hg & _). rewrite (bl_map _ _ Hc) in Hg. unfold zget in Hg.
    by case_decide.
  - rewrite count_all; [lia | lia | done].
Qed.

End Session.

(** * Printing a portal string *)

Definition digit (d : Z) : ascii := ascii_of_nat (Z.to_nat (48 + d)).

(** Decimal digits of [n], for at most [fuel] digits, in front of [acc]. *)
Fixpoint print_dec (fuel : nat) (n : Z) (acc : cstring) : cstring :=
  match fuel with
  | O => acc
  | S f => if n <? 10 then digit n :: acc else print_dec f (n / 10) (digit (n mod 10) :: acc)
  end.

Definition print_portal (p : IS_portal) : cstring :=
  addr p ++ ":"%char :: print_dec 5 (port p) [].

(** [rdma://n,a1:p1,...,an:pn]. *)
Definition print_portals (l : list IS_portal) : cstring :=
  chars "rdma://" ++ print_dec 10 (len l) [] ++
  concat ((λ p, ","%char :: print_portal p) <$> l).

Record portal_ok (p : IS_portal) : Prop := {
  po_port : 0 ≤ port p < 2 ^ 16;
  po_len : len (addr p) < ADDR_SIZE;
  po_colon : ":"%char ∉ addr p;
  po_comma : ","%char ∉ addr p;
}.

Lemma digit_cases d : 0 ≤ d < 10 →
  is_digit (digit d) = true ∧ digit_val (digit d) = d ∧ is_space (digit d) = false ∧
  digit d ≠ "-"%char ∧ digit d ≠ ","%char ∧ digit d ≠ ":"%char.
Proof.
  intros Hd. assert (d = 0 ∨ d = 1 ∨ d = 2 ∨ d = 3 ∨ d = 4 ∨ d = 5 ∨ d = 6 ∨ d = 7 ∨ d = 8 ∨ d = 9)
    as H by lia.
  repeat destruct H as [->|H]; [done..|]. by subst.
Qed.

Lemma scan_print f : ∀ n acc, 0 ≤ n < 10 ^ Z.of_nat f → (0 < f)%nat →
  scan_digits 0 (print_dec f n acc) = scan_digits n acc.
Proof.
  induction f as [|f IH]; intros n acc Hn Hf; [lia|]. simpl.
  destruct (Z.ltb_spec n 10) as [Hlt|Hge].
  - simpl. destruct (digit_cases n) as (-> & -> & _); [lia | done].
  - assert (10 ^ Z.of_nat (S f) = 10 * 10 ^ Z.of_nat f) as Ep
      by (rewrite Nat2Z.inj_succ, Z.pow_succ_r; lia).
    rewrite IH.
    + simpl. destruct (digit_cases (n mod 10)) as (-> & -> & _); [apply Z.mod_pos_bound; lia|].
      f_equal. pose proof (Z.div_mod n 10). lia.
    + split; [apply Z.div_pos; lia | apply Z.div_lt_upper_bound; lia].
    + destruct f; [simpl in Hn; lia | lia].
Qed.

(** Printed digits: a head that is a digit, and no separator. *)
Lemma print_dec_chars f : ∀ n acc, 0 ≤ n → (0 < f)%nat →
  (∃ d tl, 0 ≤ d < 10 ∧ print_dec f n acc = digit d :: tl) ∨
  (print_dec f n acc = acc).
Proof.
  induction f as [|f IH]; intros n acc Hn Hf; [lia|]. simpl.
  destruct (Z.ltb_spec n 10); [left; exists n, acc; split; [lia | done]|].
  destruct f as [|f]; [left; exists (n mod 10), acc; split; [apply Z.mod_pos_bound; lia | done]|].
  destruct (IH (n / 10) (digit (n mod 10) :: acc)) as [H'|H']; [apply Z.div_pos; lia | lia | by left|].
  left. exists (n mod 10), acc. split; [apply Z.mod_pos_bound; lia | done].
Qed.

Lemma print_dec_sep f (c : ascii) : ∀ n acc, 0 ≤ n → (c = ","%char ∨ c = ":"%char) →
  (c ∉ acc) → c ∉ print_dec f n acc.
Proof.
  induction f as [|f IH]; intros n acc Hn Hc Ha; [done|]. simpl.
  assert (∀ d, 0 ≤ d < 10 → c ∉ digit d :: acc) as Hcons.
  { intros d Hd. apply not_elem_of_cons. split; [|done].
    destruct (digit_cases d Hd) as (_ & _ & _ & _ & ? & ?). destruct Hc; congruence. }
  destruct (Z.ltb_spec n 10); [apply Hcons; lia|]. apply IH; [apply Z.div_pos; lia | done|].
  apply Hcons, Z.mod_pos_bound. lia.
Qed.

Lemma sscanf_print f n : (0 < f)%nat → 0 ≤ n < 10 ^ Z.of_nat f → n < 2 ^ 31 →
  sscanf_d (print_dec f n []) 0 = n.
Proof.
  intros Hf Hn Hs. unfold sscanf_d. pose proof (scan_print f n [] Hn Hf) as Hscan.
  destruct (print_dec_chars f n []) as [(d & tl & Hd & E)|E]; [lia | done | |].
  - rewrite E in *. destruct (digit_cases d Hd) as (Hdig & _ & Hsp & Hneg & _).
    cbn [skip_spaces]. rewrite Hsp, decide_False, Hdig, Hscan by done. apply s32_id.
    unfold is_s32. simpl. lia.
  - rewrite E in *. simpl in *. done.
Qed.

Lemma strsep_tok (c : ascii) tok rest : (c ∉ tok) → strsep c (tok ++ c :: rest) = (tok, Some rest).
Proof.
  induction tok as [|x tok IH]; intros Hn; simpl; [by rewrite decide_True|].
  apply not_elem_of_cons in Hn as [? Hn]. rewrite decide_False, IH by done. done.
Qed.

Lemma strsep_end (c : ascii) tok : (c ∉ tok) → strsep c tok = (tok, None).
Proof.
  induction tok as [|x tok IH]; intros Hn; simpl; [done|].
  apply not_elem_of_cons in Hn as [? Hn]. rewrite decide_False, IH by done. done.
Qed.

Lemma parse_print_portal p : portal_ok p → parse_portal (print_portal p) = Ok p.
Proof.
  intros [Hp Hl Hc _]. unfold parse_portal, print_portal. rewrite strsep_tok by done.
  rewrite (proj2 (Z.leb_gt _ _)) by done. rewrite sscanf_print by (simpl; lia).
  unfold u16. rewrite Z.mod_small by done. by destruct p.
Qed.

Lemma print_portal_comma p : portal_ok p → ","%char ∉ print_portal p.
Proof.
  intros [Hp _ _ Hc]. unfold print_portal. rewrite elem_of_app, elem_of_cons.
  intros [?|[?|H]]; [done | done|]. revert H. apply print_dec_sep; [lia | by left|].
  apply not_elem_of_nil.
Qed.

(** The tail of the printed list, as the parser meets it after a comma. *)
Lemma parse_print_portals l : Forall portal_ok l →
  parse_portals (length l)
    (match concat ((λ p, ","%char :: print_portal p) <$> l) with
     | [] => None | _ :: s => Some s end) = Ok l.
Proof.
  induction l as [|p l IH]; intros Hok; [done|]. apply Forall_cons_1 in Hok as [Hp Hok].
  specialize (IH Hok). cbn [fmap list_fmap concat length parse_portals app].
  pose proof (print_portal_comma p Hp) as Hc. simpl.
  destruct l as [|q l]; simpl in *.
  - rewrite app_nil_r, strsep_end by done. by rewrite parse_print_portal.
  - rewrite strsep_tok by done. rewrite parse_print_portal by done. simpl. by rewrite IH.
Qed.

(** * Theorems *)

(** C30: the portal parser inverts the printing of a portal string, for any
    number of portals that fit the 16-byte address field and the 16-bit port. *)
Theorem portal_roundtrip l (Hok : Forall portal_ok l) (Hne : l ≠ []) (Hn : len l < 2 ^ 31) :
  portal_parser (print_portals l) = Ok (len l, l).
Proof.
  unfold portal_parser, print_portals. rewrite (drop_app_length' (chars "rdma://")) by done.
  pose proof (len_nonneg l).
  assert (","%char ∉ print_dec 10 (len l) []) as Hc.
  { apply print_dec_sep; [done | by left | apply not_elem_of_nil]. }
  pose proof (parse_print_portals l Hok) as Hl.
  destruct (concat ((λ p, ","%char :: print_portal p) <$> l)) as [|c s] eqn:E; [by destruct l|].
  assert (c = ","%char) as -> by (destruct l; [done|]; by injection E as <- _).
  rewrite strsep_tok by done. rewrite sscanf_print by lia.
  unfold len at 1. rewrite Nat2Z.id, Hl. done.
Qed.

Lemma portal_roundtrip_witness :
  portal_parser (chars "rdma://2,192.168.0.12:8000,192.168.0.11:9400")
  = Ok (2, [{| port := 8000; addr := chars "192.168.0.12" |};
            {| port := 9400; addr := chars "192.168.0.11" |}]).
Proof.
  apply (portal_roundtrip [{| port := 8000; addr := chars "192.168.0.12" |};
                           {| port := 9400; addr := chars "192.168.0.11" |}]); [|done|done].
  repeat constructor; simpl; try lia; by apply (bool_decide_unpack _).
Defined.
