(* ===== verification/Device.v ===== *)
(** Devices and sessions as the administrator sees them: the configfs directories
    ([is_configfs.c]), creation and removal of a device ([is_main.c], [IS_create_device],
    [IS_destroy_device], [IS_set_device_state]; [is_mq.c], [IS_register_block_device],
    [IS_unregister_block_device], [IS_init_hctx]), loading and unloading the module.

    A [struct IS_file] and a configfs session are objects of [Handles] with a number; the tables
    [files] and [sessions] hold what is stored there.  Results of the kernel's allocators are the
    parameters [kernel]. *)

From Stdlib Require Import ZArith Lia Ascii String.
From stdpp Require Import base tactics list numbers option gmap.
From S2P Require Import Prelude Types Handles ByteOrder Bitmap CtxPool Stackbd Request Views.
From S2P Require Import ChunkMap MapInv Session.

(** * Data *)

Definition MAX_PORTAL_NAME : Z := 1024.
Definition MAX_IS_DEV_NAME : Z := 256.
Definition EBUSY : Z := 16.

(** One hardware queue: the connection it uses. *)
Record IS_queue := { IS_conn : option Z; q_depth : Z }.

Record IS_file := {
  file_name : cstring;
  dev_name : cstring;
  f_major : Z;
  index : Z;
  nr_queues : Z;
  queue_depth : Z;
  f_conns : option Z;           (* [IS_conns]: NULL or an array of that many connections *)
  queues : ptr;
  hctx : list IS_queue;         (* what [queues] points to *)
  tag_set : ptr;
  queue : ptr;
  disk : ptr;
  disk_capacity : Z;
  st_size : Z;
  f_state : IS_dev_state;
}.
#[export] Instance eta_IS_file : Eta IS_file :=
  λ r, {| file_name := file_name r; dev_name := dev_name r; f_major := f_major r;
          index := index r; nr_queues := nr_queues r; queue_depth := queue_depth r;
          f_conns := f_conns r; queues := queues r; hctx := hctx r; tag_set := tag_set r;
          queue := queue r; disk := disk r; disk_capacity := disk_capacity r;
          st_size := st_size r; f_state := f_state r |}.

(** The one [stackbd] of the module: its state and its objects. *)
Record stack_dev := {
  sb : stackbd_t;
  gd : ptr;
  sb_queue : ptr;
  sb_thread : ptr;
  sb_bdev : ptr;
}.
#[export] Instance eta_stack_dev : Eta stack_dev :=
  λ r, {| sb := sb r; gd := gd r; sb_queue := sb_queue r; sb_thread := sb_thread r;
          sb_bdev := sb_bdev r |}.

(** The state of the block layer that registration works on: live objects, block device
    numbers in use, [major_num], disks that [add_disk] has made visible. *)
Record blk := {
  hp : heap;
  majors : gset Z;
  major_num : Z;
  visible : gset Z;
  sd : stack_dev;
}.
#[export] Instance eta_blk : Eta blk :=
  λ r, {| hp := hp r; majors := majors r; major_num := major_num r; visible := visible r;
          sd := sd r |}.

(** What the kernel answers: success of an allocation, or an error code that is 0 on
    success; [k_major] is the number given to a caller that asks for any. *)
Record kernel := {
  k_queues : bool;
  k_tag_set : Z;
  k_init_queue : Z;
  k_disk_node : bool;
  k_blk_queue : bool;
  k_major : Z;
  k_alloc_disk : bool;
  k_lookup : option Z;
  k_bdget : bool;
  k_blkdev_get : bool;
  k_thread : bool;
  k_capacity : Z → Z;
}.

(** * Device state *)

Definition IS_set_device_state (f : IS_file) (st : IS_dev_state) : Z * IS_file :=
  match st with
  | DEVICE_OPENNING =>
      match f_state f with
      | DEVICE_OFFLINE | DEVICE_RUNNING => (- EINVAL, f)
      | _ => (0, f <| f_state := st |>)
      end
  | DEVICE_RUNNING => (0, f <| f_state := st |>)
  | DEVICE_OFFLINE => (0, f <| f_state := st |>)
  | DEVICE_INITIALIZING => (- EINVAL, f)
  end.

Definition IS_device_state_str (f : IS_file) : string :=
  match f_state f with
  | DEVICE_INITIALIZING => "Initial state"
  | DEVICE_OPENNING => "openning"
  | DEVICE_RUNNING => "running"
  | DEVICE_OFFLINE => "offline"
  end.

(** [snprintf(page, PAGE_SIZE, "%s\n", ...)]: its result, the length. *)
Definition state_attr_show (f : IS_file) : Z :=
  len (chars (IS_device_state_str f)) + 1.

(** * The block layer *)

(** [register_blkdev(req, name)]: a number of the kernel's choice for 0, else 0 or -EBUSY. *)
Definition register_blkdev (k : kernel) (req : Z) (ms : gset Z) : Z * gset Z :=
  if req =? 0 then
    if 0 <? k_major k then (k_major k, {[ k_major k ]} ∪ ms) else (- EBUSY, ms)
  else if decide (req ∈ ms) then (- EBUSY, ms) else (0, {[ req ]} ∪ ms).

(** [add_disk] and [del_gendisk]. *)
Definition add_disk (p : ptr) (b : blk) : res blk :=
  let* id := find K_disk p (hp b) in Ok (b <| visible := {[ id ]} ∪ visible b |>).
Definition del_gendisk (p : ptr) (b : blk) : res blk :=
  let* id := find K_disk p (hp b) in Ok (b <| visible := visible b ∖ {[ id ]} |>).

(** Release an object of the block layer. *)
Definition drop_obj (k : kind) (p : ptr) (b : blk) : res blk :=
  let* h := release k p (hp b) in Ok (b <| hp := h |>).

(** [stackbd_start], with its objects: the raw device and the thread. *)
Definition stackbd_start_objs (k : kernel) (b : blk) : res (Z * blk) :=
  let d := sd b in
  let '(ret, st) := stackbd_start (k_lookup k) (k_bdget k) (k_blkdev_get k) (k_thread k)
                      (k_capacity k) (sb d) in
  match stackbd_bdev_open (k_lookup k) (k_bdget k) (k_blkdev_get k) with
  | None => Ok (ret, b <| sd := d <| sb := st |> <| sb_bdev := Null |> |>)
  | Some _ =>
      let '(bp, h) := acquire K_bdev (hp b) in
      let* _ := find K_disk (gd d) h in
      let* _ := find K_blk_queue (sb_queue d) h in
      let d := d <| sb := st |> <| sb_bdev := bp |> in
      if k_thread k then
        let '(tp, h) := acquire K_thread h in
        Ok (ret, b <| hp := h |> <| sd := d <| sb_thread := tp |> |>)
      else
        let* h := release K_bdev bp h in
        Ok (ret, b <| hp := h |> <| sd := d <| sb_thread := ErrPtr (- ENOMEM) |> |>)
  end.

(** [blk_mq_init_queue] calls this for every hardware queue. *)
Definition IS_init_hctx (b : blk) (f : IS_file) (i : Z) : res IS_file :=
  let* _ := find K_queues (queues f) (hp b) in
  let* n := deref (f_conns f) in
  if (0 <=? i) && (i <? n) then
    let* l := wr (hctx f) i {| IS_conn := Some i; q_depth := queue_depth f |} in
    Ok (f <| hctx := l |>)
  else Fault OutOfBounds.

Definition IS_setup_queues (k : kernel) (submit_queues : Z) (b : blk) (f : IS_file)
  : Z * blk * IS_file :=
  let '(p, h) := acquire_null K_queues (k_queues k) (hp b) in
  let f := f <| queues := p |>
             <| hctx := replicate (Z.to_nat submit_queues) {| IS_conn := None; q_depth := 0 |} |> in
  if is_null p then (- ENOMEM, b, f) else (0, b <| hp := h |>, f).

Definition IS_destroy_queues (b : blk) (f : IS_file) : res blk :=
  let* h := kfree K_queues (queues f) (hp b) in Ok (b <| hp := h |>).

Section Register.
Context `{C : Config}.
Variable k : kernel.
Variable submit_queues IS_major : Z.

(** The second half of [IS_register_block_device]: the stacked device.  [alloc_disk] that
    fails leaves [err] at 0, since [err=-EFAULT] stands behind the [goto]. *)
Definition register_stackbd (b : blk) (f : IS_file) : res (Z * blk * IS_file) :=
  let '(q, h) := acquire_null K_blk_queue (k_blk_queue k) (hp b) in
  let b := b <| hp := h |> <| sd ::= λ d, d <| sb_queue := q |> |> in
  if is_null q then Ok (- EFAULT, b, f)
  else
    let '(mj, ms) := register_blkdev k (major_num b) (majors b) in
    let b := b <| major_num := mj |> <| majors := ms |> in
    if mj <? 0 then
      let* b := drop_obj K_blk_queue (sb_queue (sd b)) b in Ok (- EFAULT, b, f)
    else
      let '(g, h) := acquire_null K_disk (k_alloc_disk k) (hp b) in
      let b := b <| hp := h |> <| sd ::= λ d, d <| gd := g |> |> in
      if is_null g then
        let b := b <| majors := majors b ∖ {[ major_num b ]} |> in
        let* b := drop_obj K_blk_queue (sb_queue (sd b)) b in Ok (0, b, f)
      else
        let* b := add_disk g b in
        let* (ret, b) := stackbd_start_objs k b in
        let err := if ret <? 0 then -1 else 0 in
        let* b := add_disk (disk f) b in
        Ok (err, b, f).

Definition IS_register_block_device (b : blk) (f : IS_file) : res (Z * blk * IS_file) :=
  let f := f <| f_major := IS_major |> in
  if negb (k_tag_set k =? 0) then Ok (k_tag_set k, b, f)
  else
    let '(t, h) := acquire K_tag_set (hp b) in
    let b := b <| hp := h |> in
    let f := f <| tag_set := t |> in
    let* f := if k_init_queue k =? 0
              then for_upto submit_queues (λ i f, IS_init_hctx b f i) f
              else Ok f in
    let '(q, h) := acquire_err K_blk_queue (k_init_queue k) (hp b) in
    let b := b <| hp := h |> in
    let f := f <| queue := q |> in
    if IS_ERR q then
      let* b := drop_obj K_tag_set (tag_set f) b in Ok (PTR_ERR q, b, f)
    else
      let '(d, h) := acquire_null K_disk (k_disk_node k) (hp b) in
      let b := b <| hp := h |> in
      let f := f <| disk := d |> in
      if is_null d then
        let* b := drop_obj K_blk_queue (queue f) b in
        let* b := drop_obj K_tag_set (tag_set f) b in Ok (- ENOMEM, b, f)
      else
        register_stackbd b (f <| disk_capacity := st_size f / IS_SECT_SIZE |>).

Definition IS_unregister_block_device (b : blk) (f : IS_file) : res blk :=
  let* b := del_gendisk (disk f) b in
  let* b := drop_obj K_blk_queue (queue f) b in
  let* b := drop_obj K_tag_set (tag_set f) b in
  let* b := drop_obj K_disk (disk f) b in
  let* b := if is_active (sb (sd b)) =? 0 then Ok b
            else
              let* b := drop_obj K_thread (sb_thread (sd b)) b in
              drop_obj K_bdev (sb_bdev (sd b)) b in
  let* b := del_gendisk (gd (sd b)) b in
  let* b := drop_obj K_disk (gd (sd b)) b in
  let b := b <| majors := majors b ∖ {[ major_num b ]} |> in
  drop_obj K_blk_queue (sb_queue (sd b)) b.

End Register.

(** * Strings *)

Definition nul : ascii := zero.

(** The C string in a character array. *)
Fixpoint c_str (l : list ascii) : cstring :=
  match l with
  | [] => []
  | c :: l => if decide (c = nul) then [] else c :: c_str l
  end.

Fixpoint first_word (s : cstring) : cstring :=
  match s with
  | c :: s => if is_space c then [] else c :: first_word s
  | [] => []
  end.

(** [sscanf(s, "%s", dst)] into an array of [size] characters; [dst] keeps [old] when there is
    no word. *)
Definition sscanf_s (s old : cstring) (size : Z) : res cstring :=
  match first_word (skip_spaces s) with
  | [] => Ok old
  | w => if size <=? len w then Fault OutOfBounds else Ok w
  end.

(** [n] calls of [strsep(&ptr, ",")] overwrite the first [n] commas of the string. *)
Fixpoint cut_commas (n : nat) (l : list ascii) : list ascii :=
  match n, l with
  | O, _ => l
  | _, [] => []
  | S n', c :: l' =>
      if decide (c = nul) then l
      else if decide (c = ","%char) then nul :: cut_commas n' l' else c :: cut_commas n l'
  end.

(** * The module *)

(** A session as its configfs directory holds it: [n_sess] once [IS_session_create] has run. *)
Record node := {
  portal : list ascii;
  n_sess : option IS_session;
  devs_list : list Z;
  xdev : option Z;
}.
#[export] Instance eta_node : Eta node :=
  λ r, {| portal := portal r; n_sess := n_sess r; devs_list := devs_list r; xdev := xdev r |}.

Record modst := {
  bl : blk;
  files : gmap Z IS_file;
  sessions : gmap Z node;
  g_IS_sessions : list Z;
  created_portals : Z;
  IS_indexes : Z;
  IS_major : Z;
  submit_queues : Z;
}.
#[export] Instance eta_modst : Eta modst :=
  λ r, {| bl := bl r; files := files r; sessions := sessions r;
          g_IS_sessions := g_IS_sessions r; created_portals := created_portals r;
          IS_indexes := IS_indexes r; IS_major := IS_major r; submit_queues := submit_queues r |}.

(** Dereference of a [struct IS_file *] and of a [struct IS_session *]. *)
Definition get_file (m : modst) (i : Z) : res IS_file :=
  match files m !! i with Some f => Ok f | None => Fault UseAfterFree end.
Definition get_node (m : modst) (i : Z) : res node :=
  match sessions m !! i with Some n => Ok n | None => Fault UseAfterFree end.
Definition put_file (m : modst) (i : Z) (f : IS_file) : modst := m <| files := <[i := f]> (files m) |>.
Definition put_node (m : modst) (i : Z) (n : node) : modst :=
  m <| sessions := <[i := n]> (sessions m) |>.

(** [list_for_each_entry] with [strcmp]: the first object of the list with that name. *)
Fixpoint find_name {A} (get : Z → res A) (name : A → cstring) (key : cstring) (l : list Z)
  : res (option Z) :=
  match l with
  | [] => Ok None
  | i :: l =>
      let* x := get i in
      if decide (c_str (name x) = key) then Ok (Some i) else find_name get name key l
  end.

Definition IS_file_find (m : modst) (s : node) (name : cstring) : res (option Z) :=
  find_name (get_file m) file_name name (devs_list s).

Definition IS_session_find_by_portal (m : modst) (name : cstring) : res (option Z) :=
  find_name (get_node m) portal name (g_IS_sessions m).

Section Module.
Context `{C : Config}.
Variable k : kernel.

(** ** Devices *)

Definition IS_create_device (m : modst) (s i : Z) (xdev_name : cstring) : res (Z * modst) :=
  let* n := get_node m s in
  let* f := get_file m i in
  let* name := sscanf_s xdev_name (file_name f) MAX_IS_DEV_NAME in
  let f := f <| file_name := name |> <| index := IS_indexes m |>
             <| nr_queues := submit_queues m |> <| queue_depth := IS_QUEUE_DEPTH |>
             <| f_conns := (λ x, len (IS_conns x)) <$> n_sess n |> in
  let m := m <| IS_indexes := s32 (IS_indexes m + 1) |> in
  let '(ret, b, f) := IS_setup_queues k (submit_queues m) (bl m) f in
  if negb (ret =? 0) then Ok (ret, put_file (m <| bl := b |>) i f)
  else
    let f := f <| st_size := match n_sess n with
                             | Some _ => STACKBD_SIZE_G * ONE_GB | None => 0 end |> in
    let m := put_node m s (n <| xdev := Some i |>) in
    let* (ret, b, f) := IS_register_block_device k (submit_queues m) (IS_major m) b f in
    if negb (ret =? 0) then
      let* b := IS_destroy_queues b f in
      Ok (ret, put_file (m <| bl := b |>) i f)
    else
      let '(_, f) := IS_set_device_state f DEVICE_RUNNING in
      let* _ := deref (n_sess n) in
      Ok (0, put_file (m <| bl := b |>) i f).

(** [list_del] takes the device out of the list it is in. *)
Definition IS_destroy_device (m : modst) (s i : Z) : res modst :=
  let* f := get_file m i in
  let '(_, f) := IS_set_device_state f DEVICE_OFFLINE in
  let* b := if is_null (disk f) then Ok (bl m)
            else
              let* b := IS_unregister_block_device (bl m) f in
              IS_destroy_queues b f in
  let* n := get_node m s in
  let m := put_file (m <| bl := b |>) i f in
  Ok (put_node m s (n <| devs_list := filter (λ j, j ≠ i) (devs_list n) |>)).

Definition IS_destroy_session_devices (m : modst) (s : Z) : res modst :=
  let* n := get_node m s in
  foldl (λ m i, let* m := m in IS_destroy_device m s i) (Ok m) (devs_list n).

(** [list_del] of the session, and its devices. *)
Definition IS_session_destroy (m : modst) (s : Z) : res modst :=
  let m := m <| g_IS_sessions := filter (λ j, j ≠ s) (g_IS_sessions m) |> in
  IS_destroy_session_devices m s.

(** ** configfs *)

Definition zero_file : IS_file :=
  {| file_name := []; dev_name := []; f_major := 0; index := 0; nr_queues := 0;
     queue_depth := 0; f_conns := None; queues := Null; hctx := []; tag_set := Null;
     queue := Null; disk := Null; disk_capacity := 0; st_size := 0;
     f_state := DEVICE_INITIALIZING |}.

Definition zero_node : node :=
  {| portal := replicate (Z.to_nat MAX_PORTAL_NAME) nul; n_sess := None; devs_list := [];
     xdev := None |}.

(** [mkdir] of a device; [ok]: whether [kzalloc] succeeds. *)
Definition IS_device_make_group (ok : bool) (m : modst) (s : Z) (name : cstring)
  : res (option Z * modst) :=
  match acquire_null K_file ok (hp (bl m)) with
  | (Obj i, h) =>
      let m := m <| bl := bl m <| hp := h |> |> in
      let '(ret, f) := IS_set_device_state zero_file DEVICE_OPENNING in
      if negb (ret =? 0) then
        let* h := kfree K_file (Obj i) h in Ok (None, m <| bl := bl m <| hp := h |> |>)
      else
        let* dn := sscanf_s name (dev_name f) MAX_IS_DEV_NAME in
        let* n := get_node m s in
        let m := put_file m i (f <| dev_name := dn |>) in
        Ok (Some i, put_node m s (n <| devs_list := i :: devs_list n |>))
  | _ => Ok (None, m)
  end.

(** [rmdir] of a device. *)
Definition IS_device_drop (m : modst) (s i : Z) : res modst :=
  let* m := IS_destroy_device m s i in
  let* h := kfree K_file (Obj i) (hp (bl m)) in
  Ok (m <| bl := bl m <| hp := h |> |> <| files := delete i (files m) |>).

(** A write to the attribute [device]; [junk] is what the stack holds for a name that is all
    blanks. *)
Definition device_attr_store (m : modst) (s i : Z) (page junk : cstring) (count : Z)
  : res (Z * modst) :=
  let* xdev_name := sscanf_s page junk MAX_IS_DEV_NAME in
  let* n := get_node m s in
  let* found := IS_file_find m n xdev_name in
  match found with
  | Some _ => Ok (- EEXIST, m)
  | None =>
      let* (ret, m) := IS_create_device m s i xdev_name in
      Ok (if ret =? 0 then count else ret, m)
  end.

(** [mkdir] of a session. *)
Definition IS_session_make_group (ok : bool) (m : modst) : option Z * modst :=
  match acquire_null K_session ok (hp (bl m)) with
  | (Obj s, h) =>
      (Some s, put_node (m <| bl := bl m <| hp := h |> |>
                           <| g_IS_sessions := s :: g_IS_sessions m |>
                           <| created_portals := s32 (created_portals m + 1) |>) s zero_node)
  | _ => (None, m)
  end.

(** [rmdir] of a session. *)
Definition IS_session_drop (m : modst) (s : Z) : res modst :=
  let* m := IS_session_destroy m s in
  let* h := kfree K_session (Obj s) (hp (bl m)) in
  Ok (m <| bl := bl m <| hp := h |> |> <| sessions := delete s (sessions m) |>).

(** The character array [portal] after [IS_session_create] copied the string there and the
    parser cut it at its commas. *)
Definition stored_portal (old : list ascii) (rdma : cstring) (p_count : Z) : list ascii :=
  let l := rdma ++ drop (length rdma) old in
  take 7 l ++ cut_commas (S (Z.to_nat p_count)) (drop 7 l).

(** A write to the attribute [portal]; [conn_ok i]: the allocation of connection [i]. *)
Definition portal_attr_store (conn_ok : Z → bool) (m : modst) (s : Z) (buf : cstring) (count : Z)
  : res (Z * modst) :=
  if MAX_PORTAL_NAME <=? 7 + len buf then Fault OutOfBounds
  else
    let rdma := first_word (chars "rdma://" ++ buf) in
    let* found := IS_session_find_by_portal m rdma in
    match found with
    | Some _ => Ok (- EEXIST, m)
    | None =>
        let* n := get_node m s in
        let l := rdma ++ drop (length rdma) (portal n) in
        let* (p_count, _) := portal_parser (c_str l) in
        let n := n <| portal := stored_portal (portal n) rdma p_count |> in
        let* (ret, o) := IS_session_create conn_ok (submit_queues m) (c_str l) in
        if ret =? 0 then Ok (count, put_node m s (n <| n_sess := o |>))
        else Ok (- EINVAL, put_node m s n)
    end.

(** ** Loading and unloading *)

Definition empty_stackbd : stackbd_t :=
  {| capacity := 0; bio_list := []; is_active := 0; bdev_raw := None; redirect_done := 0 |}.

Definition fresh_blk : blk :=
  {| hp := empty_heap; majors := ∅; major_num := 0; visible := ∅;
     sd := {| sb := empty_stackbd; gd := Null; sb_queue := Null; sb_thread := Null;
              sb_bdev := Null |} |}.

(** [cfg_err]: the result of [configfs_register_subsystem]; [cpus]: the processors online.  A
    failure of [register_blkdev] leaves the subsystem registered. *)
Definition IS_init_module (cfg_err cpus : Z) (b : blk) : Z * modst :=
  let m := {| bl := b; files := ∅; sessions := ∅; g_IS_sessions := []; created_portals := 0;
              IS_indexes := 0; IS_major := 0; submit_queues := 0 |} in
  if negb (cfg_err =? 0) then (1, m)
  else
    let '(_, h) := acquire K_subsys (hp b) in
    let m := m <| bl := b <| hp := h |> |> <| submit_queues := cpus |> in
    let '(mj, ms) := register_blkdev k 0 (majors b) in
    let m := m <| bl := bl m <| majors := ms |> |> <| IS_major := mj |> in
    if mj <? 0 then (mj, m) else (0, m).

Definition IS_cleanup_module (m : modst) (subsys : ptr) : res modst :=
  let m := m <| bl := bl m <| majors := majors (bl m) ∖ {[ IS_major m ]} |> |> in
  let* m := foldl (λ m s, let* m := m in IS_session_destroy m s) (Ok m) (g_IS_sessions m) in
  let* h := release K_subsys subsys (hp (bl m)) in
  Ok (m <| bl := bl m <| hp := h |> |>).

End Module.
