(* ===== verification/DeviceInv.v ===== *)
(** Devices and sessions in configfs: a well-formedness invariant of the module's tables, what
    creating and removing a device does, and what its error paths leave behind. *)

From Stdlib Require Import ZArith Lia Ascii String.
From stdpp Require Import base tactics list numbers option gmap relations.
From S2P Require Import Prelude Types Handles ByteOrder Bitmap CtxPool Stackbd Request Views.
From S2P Require Import ChunkMap MapInv Session Device.

(** * Objects of the module survive the block layer *)

Definition table_kind (k : kind) : Prop := k = K_file ∨ k = K_session.

(** [h'] may have more or fewer objects of other kinds, but the same devices and sessions. *)
Record keeps (h h' : heap) : Prop := {
  kp_wf : heap_wf h → heap_wf h';
  kp_live i k : table_kind k → live h !! i = Some k → live h' !! i = Some k;
}.

#[export] Instance keeps_preorder : PreOrder keeps.
Proof.
  split; [by split|]. intros h1 h2 h3 [A1 A2] [B1 B2]. split; eauto.
Qed.

Lemma keeps_trans h1 h2 h3 : keeps h1 h2 → keeps h2 h3 → keeps h1 h3.
Proof. intros ? ?. by transitivity h2. Qed.

(** An object under a number that was not in use. *)
Lemma keeps_acquire k h : heap_wf h → keeps h (acquire k h).2.
Proof.
  intros Hwf. split; [intros _; by apply acquire_wf|]. intros i k' Hk Hi. simpl.
  rewrite lookup_insert_ne; [done|]. intros <-. rewrite Hwf in Hi by lia. done.
Qed.

Lemma keeps_release k p h h' : ¬ table_kind k → release k p h = Ok h' → keeps h h'.
Proof.
  intros Hk H. split; [intros ?; by eapply release_wf|]. intros i k' Hk' Hi.
  unfold release in H. res_split. injection H as <-. cbn.
  unfold find in *. destruct p as [| |id]; try done. case_decide; simplify_eq.
  rewrite lookup_delete_ne; [done|]. intros ->. congruence.
Qed.

Lemma keeps_kfree k p h h' : ¬ table_kind k → kfree k p h = Ok h' → keeps h h'.
Proof.
  unfold kfree. intros Hk. destruct (is_null p); [by intros [= <-] | by apply keeps_release].
Qed.

Lemma keeps_drop k p b b' : ¬ table_kind k → drop_obj k p b = Ok b' → keeps (hp b) (hp b').
Proof.
  unfold drop_obj. intros Hk H. res_split. injection H as <-. by eapply keeps_release.
Qed.

Lemma keeps_add p b b' : add_disk p b = Ok b' → keeps (hp b) (hp b').
Proof. unfold add_disk. intros H. res_split. by injection H as <-. Qed.

Lemma keeps_del p b b' : del_gendisk p b = Ok b' → keeps (hp b) (hp b').
Proof. unfold del_gendisk. intros H. res_split. by injection H as <-. Qed.

Create HintDb keeps.
#[export] Hint Resolve keeps_acquire keeps_release keeps_kfree keeps_drop keeps_add keeps_del
  keeps_trans : keeps.
#[export] Hint Extern 1 (¬ table_kind _) => intros [?|?]; discriminate : keeps.
#[export] Hint Extern 1 (keeps ?h ?h) => reflexivity : keeps.

Lemma keeps_start k b ret b' : heap_wf (hp b) → stackbd_start_objs k b = Ok (ret, b') →
  keeps (hp b) (hp b').
Proof.
  intros Hwf. unfold stackbd_start_objs. destruct (stackbd_start _ _ _ _ _ _) as [r st].
  destruct (stackbd_bdev_open _ _ _); [|intros [= <- <-]; reflexivity].
  intros H. cbn [acquire] in H. res_split.
  pose proof (keeps_acquire K_bdev (hp b) Hwf) as Hk. cbn in Hk.
  destruct (k_thread k).
  - injection H as <- <-. cbn. etrans; [exact Hk|].
    apply (keeps_acquire K_thread). by apply (kp_wf _ _ Hk).
  - res_split. injection H as <- <-. cbn. etrans; [exact Hk|].
    eapply keeps_release; [|done]. eauto with keeps.
Qed.

Section DeviceInv.
Context `{C : Config}.

Lemma keeps_null k ok h p h' : heap_wf h → acquire_null k ok h = (p, h') → keeps h h'.
Proof.
  unfold acquire_null. intros Hwf. destruct ok; intros [= <- <-]; [|reflexivity].
  by apply (keeps_acquire k).
Qed.

Lemma keeps_err k e h p h' : heap_wf h → acquire_err k e h = (p, h') → keeps h h'.
Proof.
  unfold acquire_err. intros Hwf. destruct (e =? 0); intros [= <- <-]; [|reflexivity].
  by apply (keeps_acquire k).
Qed.

Lemma keeps_register_stackbd k b f ret b' f' : heap_wf (hp b) →
  register_stackbd k b f = Ok (ret, b', f') → keeps (hp b) (hp b') ∧ f' = f.
Proof.
  intros Hwf. unfold register_stackbd. destruct (acquire_null K_blk_queue _ _) as [q h] eqn:Eq.
  pose proof (keeps_null _ _ _ _ _ Hwf Eq) as K1. pose proof (kp_wf _ _ K1 Hwf) as W1.
  destruct (is_null q); [by intros [= <- <- <-]|].
  destruct (register_blkdev _ _ _) as [mj ms]. destruct (mj <? 0).
  { intros H. res_split. injection H as <- <- <-. split; [|done].
    etrans; [exact K1|]. eapply keeps_drop in Ha; [exact Ha|]. eauto with keeps. }
  destruct (acquire_null K_disk _ _) as [g h2] eqn:Eg. cbn in Eg.
  pose proof (keeps_null _ _ _ _ _ W1 Eg) as K2. pose proof (kp_wf _ _ K2 W1) as W2.
  destruct (is_null g); intros H; res_split.
  { injection H as <- <- <-. split; [|done]. etrans; [exact K1|]. etrans; [exact K2|].
    eapply keeps_drop in Ha; [exact Ha|]. eauto with keeps. }
  destruct a0 as [r b2]. res_split. injection H as <- <- <-. split; [|done].
  apply keeps_add in Ha. apply keeps_add in Ha1. apply keeps_start in Ha0; [|by apply Ha].
  etrans; [exact K1|]. etrans; [exact K2|]. etrans; [exact Ha|]. by etrans.
Qed.

(** What a device keeps through registration: its names and its state. *)
Definition same_names (f f' : IS_file) : Prop :=
  file_name f' = file_name f ∧ dev_name f' = dev_name f ∧ f_state f' = f_state f.

Lemma init_hctx_names b n f f' : for_upto n (λ i f, IS_init_hctx b f i) f = Ok f' → same_names f f'.
Proof.
  intros H. eapply (for_from_pres (same_names f)); [|exact H|done].
  clear. intros i f1 f2 (A & B & D) H. unfold IS_init_hctx in H. res_split.
  destruct (_ && _); [|done]. res_split. by injection H as <-.
Qed.

Lemma register_keeps k sq mj b f ret b' f' : heap_wf (hp b) →
  IS_register_block_device k sq mj b f = Ok (ret, b', f') →
  keeps (hp b) (hp b') ∧ same_names f f'.
Proof.
  intros Hwf. unfold IS_register_block_device.
  destruct (negb _); [by intros [= <- <- <-]|]. cbn [acquire].
  pose proof (keeps_acquire K_tag_set (hp b) Hwf) as K1. cbn in K1.
  pose proof (kp_wf _ _ K1 Hwf) as W1. intros H. res_split.
  assert (same_names f a) as Hn.
  { destruct (k_init_queue k =? 0); [|by injection Ha as <-].
    by apply init_hctx_names in Ha. }
  destruct (acquire_err K_blk_queue _ _) as [q h] eqn:Eq. cbn in Eq.
  pose proof (keeps_err _ _ _ _ _ W1 Eq) as K2. pose proof (kp_wf _ _ K2 W1) as W2.
  destruct (IS_ERR q).
  { res_split. injection H as <- <- <-. split; [|done]. apply keeps_drop in Ha0; [|eauto with keeps].
    etrans; [exact K1|]. by etrans. }
  destruct (acquire_null K_disk _ _) as [d h2] eqn:Ed. cbn in Ed.
  pose proof (keeps_null _ _ _ _ _ W2 Ed) as K3. pose proof (kp_wf _ _ K3 W2) as W3.
  destruct (is_null d).
  - res_split. injection H as <- <- <-. split; [|done].
    apply keeps_drop in Ha0; [|eauto with keeps]. apply keeps_drop in Ha1; [|eauto with keeps].
    etrans; [exact K1|]. etrans; [exact K2|]. etrans; [exact K3|]. by etrans.
  - apply keeps_register_stackbd in H as [K4 ->]; [|done]. split; [|done].
    etrans; [exact K1|]. etrans; [exact K2|]. by etrans.
Qed.

Lemma unregister_keeps b f b' : IS_unregister_block_device b f = Ok b' → keeps (hp b) (hp b').
Proof.
  unfold IS_unregister_block_device. intros H. res_split.
  apply keeps_del in Ha. apply keeps_drop in Ha0, Ha1, Ha2, Ha5, H; [|eauto with keeps..].
  apply keeps_del in Ha4.
  assert (keeps (hp a2) (hp a3)) as K.
  { destruct (_ =? 0); [by injection Ha3 as <-|]. res_split.
    apply keeps_drop in Ha3, Ha6; [|eauto with keeps..]. by etrans. }
  do 4 (etrans; [eassumption|]). etrans; [exact K|]. etrans; [eassumption|]. by etrans.
Qed.

(** * Well-formed tables *)

(** A device on a session's list waits for its name or runs. *)
Definition listed (m : modst) (i : Z) : Prop :=
  ∃ f, files m !! i = Some f ∧ (f_state f = DEVICE_OPENNING ∨ f_state f = DEVICE_RUNNING).

Definition file_ok (m : modst) (i : Z) (f : IS_file) : Prop :=
  live (hp (bl m)) !! i = Some K_file ∧
  len (file_name f) < MAX_IS_DEV_NAME ∧ len (dev_name f) < MAX_IS_DEV_NAME.

Record node_ok (m : modst) (s : Z) (n : node) : Prop := {
  no_live : live (hp (bl m)) !! s = Some K_session;
  no_portal : len (portal n) = MAX_PORTAL_NAME;
  no_comma : ","%char ∉ c_str (portal n);
  no_nodup : NoDup (devs_list n);
  no_listed i : i ∈ devs_list n → listed m i;
}.

Record mod_wf (m : modst) : Prop := {
  mw_heap : heap_wf (hp (bl m));
  mw_files i f : files m !! i = Some f → file_ok m i f;
  mw_nodes s n : sessions m !! s = Some n → node_ok m s n;
  mw_nodup : NoDup (g_IS_sessions m);
  mw_list s : s ∈ g_IS_sessions m ↔ is_Some (sessions m !! s);
  mw_owner s s' n n' i : sessions m !! s = Some n → sessions m !! s' = Some n' →
    i ∈ devs_list n → i ∈ devs_list n' → s = s';
}.

(** The tables at numbers that are not in use. *)
Lemma fresh_tables m : mod_wf m →
  files m !! next_id (hp (bl m)) = None ∧ sessions m !! next_id (hp (bl m)) = None.
Proof.
  intros Hwf. assert (live (hp (bl m)) !! next_id (hp (bl m)) = None) as Hn
    by (apply (mw_heap _ Hwf); lia).
  split.
  - destruct (files m !! _) as [f|] eqn:E; [|done]. apply (mw_files _ Hwf) in E as [E _]. congruence.
  - destruct (sessions m !! _) as [n|] eqn:E; [|done].
    apply (mw_nodes _ Hwf), no_live in E. congruence.
Qed.

(** Changing a device, a session or the block layer inside the tables.  The device keeps its
    place on the list it is on. *)
Lemma mod_wf_update m m' s n n' : mod_wf m → keeps (hp (bl m)) (hp (bl m')) →
  (∀ i f', files m' !! i = Some f' → ∃ f, files m !! i = Some f ∧
     len (file_name f') < MAX_IS_DEV_NAME ∧ len (dev_name f') < MAX_IS_DEV_NAME) →
  sessions m !! s = Some n → sessions m' = <[s := n']> (sessions m) →
  g_IS_sessions m' = g_IS_sessions m →
  len (portal n') = MAX_PORTAL_NAME → ","%char ∉ c_str (portal n') →
  sublist (devs_list n') (devs_list n) →
  (∀ i, i ∈ devs_list n' → listed m' i) →
  (∀ t n0 i, t ≠ s → sessions m !! t = Some n0 → i ∈ devs_list n0 → listed m' i) →
  mod_wf m'.
Proof.
  intros Hwf Hk Hf Hn Hs Hg Hp Hc Hsub Hl Hl'.
  assert (∀ i, i ∈ devs_list n' → i ∈ devs_list n) as Hin.
  { intros i Hi. by eapply (sublist_subseteq _ _ Hsub) in Hi. }
  split.
  - apply (kp_wf _ _ Hk), mw_heap, Hwf.
  - intros i f' Hi. destruct (Hf _ _ Hi) as (f & Hf0 & ? & ?).
    destruct (mw_files _ Hwf _ _ Hf0) as [HL _]. split_and!; try done.
    apply (kp_live _ _ Hk); [by left | done].
  - intros t n0 Ht. rewrite Hs in Ht. apply lookup_insert_Some in Ht as [[<- <-]|[Hne Ht]].
    + pose proof (mw_nodes _ Hwf _ _ Hn) as Ho. split; try done.
      * apply (kp_live _ _ Hk); [by right | apply Ho].
      * eapply sublist_NoDup; [apply Ho | exact Hsub].
    + pose proof (mw_nodes _ Hwf _ _ Ht) as Ho. split; try apply Ho; try done.
      * apply (kp_live _ _ Hk); [by right | apply Ho].
      * intros i Hi. by eapply Hl'.
  - rewrite Hg. apply Hwf.
  - intros t. rewrite Hg, Hs, (mw_list _ Hwf). destruct (decide (t = s)) as [->|].
    + rewrite lookup_insert_eq, Hn. by split; eauto.
    + by rewrite lookup_insert_ne.
  - intros t t' n1 n2 i. rewrite Hs, !lookup_insert_Some.
    intros [[<- <-]|[? Ht]] [[<- <-]|[? Ht']] H1 H2; try done;
      eapply (mw_owner _ Hwf); eauto.
Qed.

(** ** Strings *)

Lemma sscanf_len s old size w : sscanf_s s old size = Ok w → len old < size → len w < size.
Proof.
  unfold sscanf_s. destruct (first_word _) as [|c l]; [by intros [= <-]|].
  destruct (_ <=? _) eqn:E; [done|]. intros [= <-] _. by apply Z.leb_gt in E.
Qed.

Lemma c_str_sub l c : c ∈ c_str l → c ∈ l.
Proof.
  induction l as [|x l IH]; simpl; [done|]. case_decide; [by intros ?%elem_of_nil|].
  rewrite !elem_of_cons. intros [?|?]; [by left | right; by apply IH].
Qed.

Lemma length_cut n l : length (cut_commas n l) = length l.
Proof.
  revert n. induction l as [|c l IH]; intros [|n]; simpl; [done..|].
  repeat case_decide; simpl; by rewrite ?IH.
Qed.

(** Cutting at the first comma ends the C string there. *)
Lemma c_str_cut n l : ","%char ∉ c_str (cut_commas (S n) l).
Proof.
  induction l as [|c l IH]; simpl; [by intros ?%elem_of_nil|].
  case_decide as E1; [subst; by intros ?%elem_of_nil|].
  case_decide as E2; simpl; [by intros ?%elem_of_nil|].
  rewrite decide_False by done. rewrite elem_of_cons. intros [?|?]; [congruence | by apply IH].
Qed.

Lemma c_str_app_prefix p l : nul ∉ p → c_str (p ++ l) = p ++ c_str l.
Proof.
  induction p as [|c p IH]; intros Hn; simpl; [done|].
  apply not_elem_of_cons in Hn as [? Hn]. by rewrite decide_False, IH.
Qed.

Lemma first_word_prefix p s : forallb (λ c, negb (is_space c)) p = true →
  first_word (p ++ s) = p ++ first_word s.
Proof.
  induction p as [|c p IH]; simpl; [done|]. intros [Hc Hp]%andb_prop.
  destruct (is_space c); [done|]. by rewrite IH.
Qed.

Lemma first_word_len s : len (first_word s) ≤ len s.
Proof.
  induction s as [|c s IH]; simpl; [done|]. unfold len in *. destruct (is_space c); simpl; lia.
Qed.

(** The stored portal: an array of the same size whose string has no comma. *)
Lemma stored_portal_ok old w n : len (first_word (chars "rdma://" ++ w)) ≤ len old →
  let p := stored_portal old (first_word (chars "rdma://" ++ w)) n in
  len p = len old ∧ ","%char ∉ c_str p.
Proof.
  rewrite (first_word_prefix (chars "rdma://") w) by done. intros Hl p. subst p.
  unfold stored_portal. split.
  - unfold len in *. rewrite length_app, length_cut, <- length_app, take_drop.
    rewrite !length_app, length_drop in *. rewrite ?length_app. lia.
  - rewrite <- (app_assoc (chars "rdma://")). change 7%nat with (length (chars "rdma://")) at 1.
    rewrite take_app_length, c_str_app_prefix.
    + rewrite elem_of_app. intros [H|H]; [|by eapply c_str_cut].
      by repeat (apply elem_of_cons in H as [H|H]; [discriminate H|]); apply elem_of_nil in H.
    + intros H. by repeat (apply elem_of_cons in H as [H|H]; [discriminate H|]); apply elem_of_nil in H.
Qed.

(** ** Preservation by each operation *)

Lemma listed_files m m' i : files m' = files m → listed m i → listed m' i.
Proof. unfold listed. by intros ->. Qed.

Lemma get_node_inv m s n : get_node m s = Ok n → sessions m !! s = Some n.
Proof. unfold get_node. destruct (sessions m !! s); congruence. Qed.

Lemma get_file_inv m i f : get_file m i = Ok f → files m !! i = Some f.
Proof. unfold get_file. destruct (files m !! i); congruence. Qed.

Lemma make_session_wf ok m o m' : mod_wf m → IS_session_make_group ok m = (o, m') → mod_wf m'.
Proof.
  intros Hwf. unfold IS_session_make_group. destruct ok; [|by intros [= <- <-]].
  cbn [acquire_null acquire]. intros [= <- <-].
  destruct (fresh_tables m Hwf) as [_ Hfresh]. set (s := next_id (hp (bl m))) in *.
  pose proof (keeps_acquire K_session _ (mw_heap _ Hwf)) as Hk. cbn in Hk. fold s in Hk.
  assert (∀ t, sessions m !! t = None → t ∉ g_IS_sessions m) as Hg.
  { intros t Ht Hin. apply (mw_list _ Hwf) in Hin as [? ?]. congruence. }
  split; cbn.
  - apply (kp_wf _ _ Hk), Hwf.
  - intros i f Hi. destruct (mw_files _ Hwf _ _ Hi) as [HL ?]. split; [|done].
    cbn. apply (kp_live _ _ Hk); [by left | done].
  - intros t n Ht. apply lookup_insert_Some in Ht as [[<- <-]|[Hne Ht]].
    + split; cbn; [apply lookup_insert_eq | done | | constructor | by intros i ?%elem_of_nil].
      intros H. by apply c_str_sub, elem_of_replicate in H as [? _].
    + pose proof (mw_nodes _ Hwf _ _ Ht) as Ho. split; try apply Ho.
      apply (kp_live _ _ Hk); [by right | apply Ho].
  - constructor; [by apply Hg | apply Hwf].
  - intros t. rewrite elem_of_cons, (mw_list _ Hwf). destruct (decide (t = s)) as [->|].
    + rewrite lookup_insert_eq. split; [eauto | by left].
    + rewrite lookup_insert_ne by done. split; [by intros [?|?] | by right].
  - intros t t' n1 n2 i. rewrite !lookup_insert_Some.
    intros [[<- <-]|[? Ht]] [[<- <-]|[? Ht']] H1 H2; try done; cbn in *;
      try (by apply elem_of_nil in H1); try (by apply elem_of_nil in H2).
    eapply (mw_owner _ Hwf); eauto.
Qed.

Lemma make_device_wf ok m s name o m' : mod_wf m →
  IS_device_make_group ok m s name = Ok (o, m') → mod_wf m'.
Proof.
  intros Hwf. unfold IS_device_make_group. destruct ok; [|by intros [= <- <-]].
  cbn [acquire_null acquire IS_set_device_state f_state zero_file Z.eqb negb]. intros H. res_split.
  injection H as <- <-. apply get_node_inv in Ha0. cbn in Ha0.
  assert (len a < MAX_IS_DEV_NAME) as Hlen by (by eapply sscanf_len).
  destruct (fresh_tables m Hwf) as [Hfresh _]. set (i := next_id (hp (bl m))) in *.
  pose proof (keeps_acquire K_file _ (mw_heap _ Hwf)) as Hk. cbn in Hk. fold i in Hk.
  assert (∀ t n, sessions m !! t = Some n → i ∉ devs_list n) as Hnew.
  { intros t n Ht Hin. destruct (no_listed _ _ _ (mw_nodes _ Hwf _ _ Ht) _ Hin) as (f & ? & _).
    congruence. }
  set (f1 := zero_file <| f_state := DEVICE_OPENNING |> <| dev_name := a |>).
  assert (∀ j f, files m !! j = Some f → <[i := f1]> (files m) !! j = Some f) as Hfile.
  { intros j f Hj. rewrite lookup_insert_ne; congruence. }
  split; cbn.
  - apply (kp_wf _ _ Hk), Hwf.
  - intros j f Hj. apply lookup_insert_Some in Hj as [[<- <-]|[Hne Hj]].
    + split; [cbn; apply lookup_insert_eq | done].
    + destruct (mw_files _ Hwf _ _ Hj) as [HL ?]. split; [|done].
      cbn. apply (kp_live _ _ Hk); [by left | done].
  - intros t n Ht. apply lookup_insert_Some in Ht as [[<- <-]|[Hne Ht]].
    + pose proof (mw_nodes _ Hwf _ _ Ha0) as Ho. split; cbn; try apply Ho.
      * apply (kp_live _ _ Hk); [by right | apply Ho].
      * constructor; [by eapply Hnew | apply Ho].
      * intros j [->|Hj]%elem_of_cons; [exists f1; split; [apply lookup_insert_eq | by left]|].
        destruct (no_listed _ _ _ Ho _ Hj) as (f & Hf & ?). exists f. eauto.
    + pose proof (mw_nodes _ Hwf _ _ Ht) as Ho. split; cbn; try apply Ho.
      * apply (kp_live _ _ Hk); [by right | apply Ho].
      * intros j Hj. destruct (no_listed _ _ _ Ho _ Hj) as (f & Hf & ?). exists f. eauto.
  - apply Hwf.
  - intros t. rewrite (mw_list _ Hwf). destruct (decide (t = s)) as [->|].
    + rewrite lookup_insert_eq, Ha0. split; eauto.
    + by rewrite lookup_insert_ne.
  - intros t t' n1 n2 j. rewrite !lookup_insert_Some.
    intros [[<- <-]|[? Ht]] [[<- <-]|[? Ht']] H1 H2; try done; cbn in *.
    + apply elem_of_cons in H1 as [->|H1]; [by destruct (Hnew _ _ Ht')|].
      by eapply (mw_owner _ Hwf _ _ _ _ _ Ha0 Ht').
    + apply elem_of_cons in H2 as [->|H2]; [by destruct (Hnew _ _ Ht)|].
      by eapply (mw_owner _ Hwf _ _ _ _ _ Ht Ha0).
    + by eapply (mw_owner _ Hwf _ _ _ _ _ Ht Ht').
Qed.

Lemma portal_store_wf conn_ok m s buf count ret m' : mod_wf m →
  portal_attr_store conn_ok m s buf count = Ok (ret, m') → mod_wf m'.
Proof.
  intros Hwf. unfold portal_attr_store. destruct (MAX_PORTAL_NAME <=? 7 + len buf) eqn:El; [done|].
  apply Z.leb_gt in El. intros H. res_split. destruct a; [by injection H as <- <-|].
  res_split. destruct a0 as [p_count ps]. res_split. destruct a0 as [r o].
  apply get_node_inv in Ha0. pose proof (mw_nodes _ Hwf _ _ Ha0) as Ho.
  destruct (stored_portal_ok (portal a) buf p_count) as [Hl Hc].
  { pose proof (first_word_len (chars "rdma://" ++ buf)) as Hw. rewrite (no_portal _ _ _ Ho).
    assert (len (chars "rdma://" ++ buf) = 7 + len buf) as E
      by (unfold len; rewrite length_app; simpl; lia). lia. }
  rewrite (no_portal _ _ _ Ho) in Hl.
  destruct (r =? 0); injection H as <- <-; (eapply (mod_wf_update m _ s a); [done | reflexivity | |
    done | reflexivity | done | done | done | reflexivity | |]);
    try (intros i f Hi; destruct (mw_files _ Hwf _ _ Hi); eauto);
    try (intros i Hi; eapply listed_files; [|by apply Ho]; done);
    intros t n0 i Hne Ht Hi; (eapply listed_files; [|by eapply no_listed, Hi; apply Hwf]; done).
Qed.

Lemma create_device_wf k m s i name ret m' n : mod_wf m → sessions m !! s = Some n →
  i ∈ devs_list n → IS_create_device k m s i name = Ok (ret, m') → mod_wf m'.
Proof.
  intros Hwf Hn Hi. unfold IS_create_device. intros H. res_split.
  apply get_node_inv in Ha. apply get_file_inv in Ha0. simplify_eq.
  pose proof (mw_nodes _ Hwf _ _ Hn) as Ho. destruct (mw_files _ Hwf _ _ Ha0) as (HLi & HLf & HLd).
  destruct (no_listed _ _ _ Ho _ Hi) as (f0 & Hf0 & Hst). simplify_eq.
  apply (sscanf_len _ _ _ _ Ha1) in HLf as Hname.
  (* every exit stores a file with these names and a listed state *)
  assert (∀ b f ss, keeps (hp (bl m)) (hp b) → len (file_name f) < MAX_IS_DEV_NAME →
    dev_name f = dev_name a0 → (f_state f = DEVICE_OPENNING ∨ f_state f = DEVICE_RUNNING) →
    (ss = sessions m ∨ ss = <[s := n <| xdev := Some i |>]> (sessions m)) →
    mod_wf (put_file (m <| IS_indexes := s32 (IS_indexes m + 1) |> <| sessions := ss |> <| bl := b |>) i f))
    as Hexit.
  { intros b f ss Hk Hl Hd Hs Hss.
    assert (∃ n', ss = <[s := n']> (sessions m) ∧ portal n' = portal n ∧ devs_list n' = devs_list n)
      as (n' & -> & Ep & Ed).
    { destruct Hss as [->| ->]; [exists n | by eexists]. by rewrite insert_id. }
    assert (∀ j, listed m j → ∃ f', <[i := f]> (files m) !! j = Some f' ∧
      (f_state f' = DEVICE_OPENNING ∨ f_state f' = DEVICE_RUNNING)) as Hlist.
    { intros j (f' & Hj & ?). destruct (decide (i = j)) as [<-|].
      - exists f. by rewrite lookup_insert_eq.
      - exists f'. by rewrite lookup_insert_ne. }
    eapply (mod_wf_update m _ s n n'); try done; rewrite ?Ep, ?Ed; try apply Ho; try done.
    - intros j f' Hj. cbn in Hj. apply lookup_insert_Some in Hj as [[<- <-]|[? Hj]].
      + exists a0. split; [done|]. rewrite Hd. done.
      + exists f'. split; [done|]. apply (mw_files _ Hwf _ _ Hj).
    - intros j Hj. apply Hlist, Ho, Hj.
    - intros t n0 j ? Ht Hj. apply Hlist. eapply no_listed; [by apply Hwf | done]. }
  cbn in Hexit. destruct (IS_setup_queues _ _ _ _) as [[r b] f] eqn:Eq. unfold IS_setup_queues in Eq. cbn in Eq.
  destruct (acquire_null K_queues _ _) as [q h] eqn:Ea.
  pose proof (keeps_null _ _ _ _ _ (mw_heap _ Hwf) Ea) as K1.
  destruct (is_null q); simplify_eq; cbn [negb Z.eqb] in H; cbn in H.
  { injection H as <- <-. by apply (Hexit _ _ (sessions m)); [| | | |left]. }
  res_split. destruct a as [[r b] f]. apply register_keeps in Ha; [|by apply (kp_wf _ _ K1), Hwf].
  destruct Ha as (K2 & N1 & N2 & N3). cbn in K2, N1, N2, N3.
  assert (keeps (hp (bl m)) (hp b)) as K3 by (by etrans).
  destruct (negb _); res_split; injection H as <- <-.
  - specialize (Hexit a f (<[s := n <| xdev := Some i |>]> (sessions m))). cbn in Hexit.
    apply Hexit; [| by rewrite N1 | done | by rewrite N3 | by right].
    unfold IS_destroy_queues in Ha. res_split. injection Ha as <-. etrans; [exact K3|]. cbn.
    eapply keeps_kfree; [|done]. eauto with keeps.
  - specialize (Hexit b (f <| f_state := DEVICE_RUNNING |>)
      (<[s := n <| xdev := Some i |>]> (sessions m))). cbn in Hexit. apply Hexit; [done | by cbn; rewrite N1 | done | by right | by right].
Qed.

Lemma device_store_wf k m s i page junk count ret m' n : mod_wf m → sessions m !! s = Some n →
  i ∈ devs_list n → device_attr_store k m s i page junk count = Ok (ret, m') → mod_wf m'.
Proof.
  intros Hwf Hn Hi. unfold device_attr_store. intros H. res_split.
  destruct a1; [by injection H as <- <-|]. res_split. destruct a1 as [r m1]. injection H as <- <-.
  by eapply create_device_wf.
Qed.

(** [rmdir]: the device leaves the list it is on, then its memory is freed. *)
Lemma device_drop_wf m s i m' n : mod_wf m → sessions m !! s = Some n → i ∈ devs_list n →
  IS_device_drop m s i = Ok m' → mod_wf m'.
Proof.
  intros Hwf Hn Hi. unfold IS_device_drop, IS_destroy_device. intros H. res_split.
  cbn [IS_set_device_state] in Ha. res_split. apply get_file_inv in Ha1. apply get_node_inv in Ha3.
  simplify_eq. cbn in *.
  assert (keeps (hp (bl m)) (hp a2)) as K.
  { destruct (is_null (disk a1)); [by injection Ha2 as <-|]. res_split.
    apply unregister_keeps in Ha. unfold IS_destroy_queues in Ha2. res_split. injection Ha2 as <-.
    etrans; [exact Ha|]. eapply keeps_kfree; [|done]. eauto with keeps. }
  unfold kfree in Ha0. cbn in Ha0.
  destruct (mw_files _ Hwf _ _ Ha1) as (HLi & _ & _).
  rewrite release_live in Ha0 by (apply (kp_live _ _ K); [by left | done]).
  injection Ha0 as <-. pose proof (mw_nodes _ Hwf _ _ Hn) as Ho.
  set (l := filter (λ j, j ≠ i) (devs_list n)).
  assert (∀ j, j ∈ l → j ∈ devs_list n ∧ j ≠ i) as Hl.
  { intros j Hj. apply list_elem_of_filter in Hj. tauto. }
  assert (∀ j, listed m j → j ≠ i → ∃ f', delete i (<[i := a1 <| f_state := DEVICE_OFFLINE |>]> (files m)) !! j
    = Some f' ∧ (f_state f' = DEVICE_OPENNING ∨ f_state f' = DEVICE_RUNNING)) as Hlist.
  { intros j (f' & Hj & ?) Hne. exists f'. by rewrite lookup_delete_ne, lookup_insert_ne. }
  assert (∀ t k, table_kind k → t ≠ i → live (hp (bl m)) !! t = Some k →
    delete i (live (hp a2)) !! t = Some k) as Hlive.
  { intros t k Hk Hne Ht. rewrite lookup_delete_ne by done. by apply (kp_live _ _ K). }
  assert (∀ t n0, sessions m !! t = Some n0 → t ≠ i) as Hti.
  { intros t n0 Ht ->. apply (mw_nodes _ Hwf), no_live in Ht. congruence. }
  split; cbn.
  - intros t Ht. cbn. destruct (decide (i = t)) as [<-|]; [apply lookup_delete_eq|].
    rewrite lookup_delete_ne by done. apply (kp_wf _ _ K (mw_heap _ Hwf)), Ht.
  - intros j f' Hj. apply lookup_delete_Some in Hj as [Hne Hj]. rewrite lookup_insert_ne in Hj by done.
    destruct (mw_files _ Hwf _ _ Hj) as [HL ?]. split; [|done]. by apply Hlive; [left| |].
  - intros t n0 Ht. apply lookup_insert_Some in Ht as [[<- <-]|[Hne Ht]].
    + split; cbn; try apply Ho.
      * apply Hlive; [by right | by eapply Hti | apply Ho].
      * apply NoDup_filter, Ho.
      * intros j [Hj Hji]%Hl. apply Hlist; [by apply Ho | done].
    + pose proof (mw_nodes _ Hwf _ _ Ht) as Ht'. split; cbn; try apply Ht'.
      * apply Hlive; [by right | by eapply Hti | apply Ht'].
      * intros j Hj. apply Hlist; [by apply Ht'|]. intros ->.
        apply Hne. by eapply (mw_owner _ Hwf _ _ _ _ _ Hn Ht).
  - apply Hwf.
  - intros t. rewrite (mw_list _ Hwf). destruct (decide (t = s)) as [->|].
    + rewrite lookup_insert_eq, Hn. split; eauto.
    + by rewrite lookup_insert_ne.
  - intros t t' n1 n2 j. rewrite !lookup_insert_Some.
    intros [[<- <-]|[? Ht]] [[<- <-]|[? Ht']] H1 H2; try done; cbn in *;
      try apply Hl in H1 as [H1 _]; try apply Hl in H2 as [H2 _];
      eapply (mw_owner _ Hwf); eauto.
Qed.

(** [rmdir] of a session without devices. *)
Lemma session_drop_wf m s m' n : mod_wf m → sessions m !! s = Some n → devs_list n = [] →
  IS_session_drop m s = Ok m' → mod_wf m'.
Proof.
  intros Hwf Hn He. unfold IS_session_drop, IS_session_destroy, IS_destroy_session_devices.
  intros H. res_split. apply get_node_inv in Ha1. cbn in Ha1. simplify_eq. rewrite He in Ha.
  cbn in Ha. injection Ha as <-. cbn in *. pose proof (mw_nodes _ Hwf _ _ Hn) as Ho.
  unfold kfree in Ha0. cbn in Ha0. rewrite release_live in Ha0 by apply Ho. injection Ha0 as <-.
  assert (∀ t k, live (hp (bl m)) !! t = Some k → t ≠ s →
    delete s (live (hp (bl m))) !! t = Some k) as Hlive.
  { intros t k Ht Hne. by rewrite lookup_delete_ne. }
  split; cbn.
  - intros t Ht. cbn. destruct (decide (s = t)) as [<-|]; [apply lookup_delete_eq|].
    rewrite lookup_delete_ne by done. by apply (mw_heap _ Hwf).
  - intros j f' Hj. destruct (mw_files _ Hwf _ _ Hj) as [HL ?]. split; [|done]. apply Hlive; [done|].
    intros ->. rewrite (no_live _ _ _ Ho) in HL. done.
  - intros t n0 Ht. apply lookup_delete_Some in Ht as [Hne Ht].
    pose proof (mw_nodes _ Hwf _ _ Ht) as Ht'. split; cbn; try apply Ht'. by apply Hlive; [apply Ht'|].
  - apply NoDup_filter, Hwf.
  - intros t. rewrite list_elem_of_filter, (mw_list _ Hwf). destruct (decide (t = s)) as [->|].
    + rewrite lookup_delete_eq. split; [by intros [? _] | by intros [? ?]].
    + rewrite lookup_delete_ne by done. tauto.
  - intros t t' n1 n2 j. rewrite !lookup_delete_Some. intros [_ Ht] [_ Ht'].
    by eapply (mw_owner _ Hwf).
Qed.

(** ** Runs *)

(** What an administrator can do.  configfs runs one operation at a time, on directories that
    exist, and removes only empty directories. *)
Inductive cfg_step : modst → modst → Prop :=
  | cs_mkdir_session ok m o m' : IS_session_make_group ok m = (o, m') → cfg_step m m'
  | cs_portal conn_ok m s buf count ret m' :
      portal_attr_store conn_ok m s buf count = Ok (ret, m') → cfg_step m m'
  | cs_mkdir_device ok m s name o m' :
      IS_device_make_group ok m s name = Ok (o, m') → cfg_step m m'
  | cs_device k m s n i page junk count ret m' :
      sessions m !! s = Some n → i ∈ devs_list n →
      device_attr_store k m s i page junk count = Ok (ret, m') → cfg_step m m'
  | cs_rmdir_device m s n i m' :
      sessions m !! s = Some n → i ∈ devs_list n → IS_device_drop m s i = Ok m' → cfg_step m m'
  | cs_rmdir_session m s n m' :
      sessions m !! s = Some n → devs_list n = [] → IS_session_drop m s = Ok m' → cfg_step m m'.

Lemma cfg_step_wf m m' : cfg_step m m' → mod_wf m → mod_wf m'.
Proof.
  intros [] Hwf; [by eapply make_session_wf | by eapply portal_store_wf | by eapply make_device_wf
    | by eapply device_store_wf | by eapply device_drop_wf | by eapply session_drop_wf].
Qed.

Lemma cfg_steps_wf m m' : rtc cfg_step m m' → mod_wf m → mod_wf m'.
Proof. induction 1; eauto using cfg_step_wf. Qed.

Lemma init_module_wf k cfg_err cpus m : IS_init_module k cfg_err cpus fresh_blk = (0, m) → mod_wf m.
Proof.
  unfold IS_init_module. destruct (negb _); [done|]. cbn [acquire].
  destruct (register_blkdev _ _ _) as [mj ms]. destruct (mj <? 0) eqn:E;
    [intros [= -> _]; done|]. intros [= <-].
  split; cbn; try done.
  - exact (acquire_wf K_subsys empty_heap empty_heap_wf).
  - constructor.
  - intros s. split; [by intros ?%elem_of_nil | by intros [? ?]].
Qed.

(** A name that no session stores is not found. *)
Lemma find_portal_none m w : mod_wf m → ","%char ∈ w → IS_session_find_by_portal m w = Ok None.
Proof.
  intros Hwf Hw. unfold IS_session_find_by_portal.
  assert (∀ s, s ∈ g_IS_sessions m → is_Some (sessions m !! s)) as Hg
    by (intros s; apply (mw_list _ Hwf)).
  induction (g_IS_sessions m) as [|s l IH]; [done|]. cbn [find_name].
  destruct (Hg s) as [n Hn]; [by left|]. unfold get_node at 1. rewrite Hn. cbn [res_bind].
  rewrite decide_False. { apply IH. intros t Ht. apply Hg. by right. }
  intros <-. by apply (no_comma _ _ _ (mw_nodes _ Hwf _ _ Hn)).
Qed.

(** * Theorems *)


(** The check for a portal that is already in use never fires.  The parser cuts the stored
    string at its commas, and every portal it accepts with a server in it has a comma: a second
    session with the same portal is created. *)
Theorem portal_check_never_fires k cfg_err cpus m0 m w
  (Hinit : IS_init_module k cfg_err cpus fresh_blk = (0, m0)) (Hrun : rtc cfg_step m0 m)
  (Hw : ","%char ∈ w) :
  IS_session_find_by_portal m w = Ok None.
Proof.
  apply find_portal_none; [|done]. eapply cfg_steps_wf; [done|]. by eapply init_module_wf.
Qed.

End DeviceInv.
