(* ===== verification/DeviceLife.v ===== *)
(** The life of one device: creation registers everything and removal gives everything back;
    what is left of a creation that failed half way. *)

From Stdlib Require Import ZArith Lia Ascii String.
From stdpp Require Import base tactics list numbers option gmap.
From S2P Require Import Prelude Types Handles ByteOrder Bitmap CtxPool Stackbd Request Views.
From S2P Require Import ChunkMap MapInv Session Device DeviceInv.

Section DeviceLife.
Context `{C : Config}.
Variable k : kernel.

(** Every allocation succeeds. *)
Record kernel_ok : Prop := {
  ko_queues : k_queues k = true;
  ko_tag_set : k_tag_set k = 0;
  ko_init_queue : k_init_queue k = 0;
  ko_disk_node : k_disk_node k = true;
  ko_blk_queue : k_blk_queue k = true;
  ko_major : 0 < k_major k;
  ko_alloc_disk : k_alloc_disk k = true;
  ko_lookup : is_Some (k_lookup k);
  ko_bdget : k_bdget k = true;
  ko_blkdev_get : k_blkdev_get k = true;
  ko_thread : k_thread k = true;
}.

(** * Hardware queues *)

(** Each hardware queue is attached to the connection of its number. *)
Lemma init_hctx_all b f sq q n : queues f = Obj q → live (hp b) !! q = Some K_queues →
  f_conns f = Some n → 0 ≤ sq ≤ n → len (hctx f) = sq →
  ∃ l, for_upto sq (λ i f, IS_init_hctx b f i) f = Ok (f <| hctx := l |>) ∧
    ∀ i, 0 ≤ i < sq → zget l i = Some {| IS_conn := Some i; q_depth := queue_depth f |}.
Proof.
  intros Hq HL Hc Hsq Hl.
  destruct (for_upto_inv (λ j f', ∃ l, f' = f <| hctx := l |> ∧ len l = sq ∧
      ∀ i, 0 ≤ i < j → zget l i = Some {| IS_conn := Some i; q_depth := queue_depth f |})
    (λ i f, IS_init_hctx b f i) sq f) as (f' & E & l & -> & _ & Hall); [lia | | | by eauto].
  - exists (hctx f). split_and!; [by destruct f | done | lia].
  - intros i f' Hi (l & -> & Hll & Hget). unfold IS_init_hctx. cbn. rewrite Hq, find_live by done.
    cbn [res_bind]. rewrite Hc. cbn [deref res_bind].
    rewrite (proj2 (Z.leb_le _ _)), (proj2 (Z.ltb_lt _ _)) by lia. cbn [andb].
    rewrite wr_ok by lia. cbn [res_bind]. eexists. split; [done|]. eexists. split; [done|].
    split; [by rewrite len_zset|]. intros j Hj. destruct (decide (j = i)) as [->|].
    + by rewrite zget_zset_eq by lia.
    + rewrite zget_zset_ne by done. apply Hget. lia.
Qed.

(** * A registered device *)

(** The live set with the seven objects of a registration, numbered from [n] on. *)
Definition with_device (L : gmap Z kind) (n : Z) : gmap Z kind :=
  <[n + 6 := K_thread]> (<[n + 5 := K_bdev]> (<[n + 4 := K_disk]> (<[n + 3 := K_blk_queue]>
  (<[n + 2 := K_disk]> (<[n + 1 := K_blk_queue]> (<[n := K_tag_set]> L)))))).

Record registered (b : blk) (f : IS_file) (L : gmap Z kind) (n : Z) : Prop := {
  rg_tag : tag_set f = Obj n;
  rg_queue : queue f = Obj (n + 1);
  rg_disk : disk f = Obj (n + 2);
  rg_sbq : sb_queue (sd b) = Obj (n + 3);
  rg_gd : gd (sd b) = Obj (n + 4);
  rg_bdev : sb_bdev (sd b) = Obj (n + 5);
  rg_thread : sb_thread (sd b) = Obj (n + 6);
  rg_active : is_active (sb (sd b)) = 1;
  rg_live : live (hp b) = with_device L n;
}.

Lemma start_ok b g q : kernel_ok → heap_wf (hp b) → gd (sd b) = Obj g → sb_queue (sd b) = Obj q →
  live (hp b) !! g = Some K_disk → live (hp b) !! q = Some K_blk_queue →
  let n := next_id (hp b) in
  ∃ d, stackbd_start_objs k b = Ok (0, b <| sd := d |> <| hp := {|
      live := <[n + 1 := K_thread]> (<[n := K_bdev]> (live (hp b))); next_id := n + 2 |} |>) ∧
    gd d = Obj g ∧ sb_queue d = Obj q ∧ sb_bdev d = Obj n ∧ sb_thread d = Obj (n + 1) ∧
    is_active (sb d) = 1.
Proof.
  intros [K1 K2 K3 K4 K5 K6 K7 [dv K8] K9 K10 K11] Hwf Hg Hq Lg Lq n.
  assert (g < n ∧ q < n) as [Hgn Hqn].
  { split; [destruct (decide (g < n)) | destruct (decide (q < n))]; try done;
      [rewrite Hwf in Lg by lia | rewrite Hwf in Lq by lia]; done. }
  destruct b as [[L n'] ms mn vis d]. cbn in *. subst n.
  unfold stackbd_start_objs, stackbd_start, stackbd_bdev_open. rewrite K8, K9, K10, K11. cbn.
  rewrite Hg, Hq, !find_live by live_solve. cbn.
  replace (n' + 1 + 1) with (n' + 2) by lia. eexists. split; [done|]. cbn. done.
Qed.

Lemma register_stackbd_ok b f dk : kernel_ok → heap_wf (hp b) → major_num b = 0 →
  disk f = Obj dk → live (hp b) !! dk = Some K_disk →
  let n := next_id (hp b) in
  ∃ d, register_stackbd k b f = Ok (0, b <| major_num := k_major k |>
      <| majors := {[ k_major k ]} ∪ majors b |> <| visible := {[ dk ]} ∪ ({[ n + 1 ]} ∪ visible b) |>
      <| sd := d |> <| hp := {| live := <[n + 3 := K_thread]> (<[n + 2 := K_bdev]>
           (<[n + 1 := K_disk]> (<[n := K_blk_queue]> (live (hp b))))); next_id := n + 4 |} |>, f) ∧
    gd d = Obj (n + 1) ∧ sb_queue d = Obj n ∧ sb_bdev d = Obj (n + 2) ∧
    sb_thread d = Obj (n + 3) ∧ is_active (sb d) = 1.
Proof.
  intros Hk Hwf Hm Hd Ld n. pose proof Hk as [K1 K2 K3 K4 K5 K6 K7 _ _ _ _].
  assert (dk < n) as Hdn.
  { destruct (decide (dk < n)); [done|]. rewrite Hwf in Ld by lia. done. }
  destruct b as [[L n'] ms mn vis [sb0 g0 q0 t0 d0]]. cbn in *. subst n mn.
  unfold register_stackbd, register_blkdev. rewrite K5, K7. cbn.
  rewrite (proj2 (Z.ltb_lt _ _) K6), (proj2 (Z.ltb_ge _ _)) by lia.
  unfold add_disk at 1. cbn. rewrite find_live by live_solve. cbn [res_bind].
  match goal with |- context [stackbd_start_objs k ?x] => set (b1 := x) end.
  destruct (start_ok b1 (n' + 1) n') as (d & E & D1 & D2 & D3 & D4 & D5); try done; try live_solve.
  { intros j Hj. subst b1. cbn in *. rewrite !lookup_insert_ne by lia. apply (Hwf j). cbn. lia. }
  rewrite E. cbn [res_bind]. unfold add_disk. rewrite Hd. subst b1. cbn in *.
  rewrite find_live by live_solve. cbn [res_bind].
  replace (n' + 1 + 1) with (n' + 2) in * by lia. replace (n' + 2 + 1) with (n' + 3) in * by lia.
  replace (n' + 2 + 2) with (n' + 4) in * by lia. exists d. done.
Qed.

(** The first half of a registration: the queue and the disk of the device. *)
Lemma register_prefix sq mj b f q nc : k_tag_set k = 0 → k_init_queue k = 0 →
  k_disk_node k = true → heap_wf (hp b) →
  queues f = Obj q → live (hp b) !! q = Some K_queues → f_conns f = Some nc → 0 ≤ sq ≤ nc →
  len (hctx f) = sq →
  let n := next_id (hp b) in
  ∃ f', IS_register_block_device k sq mj b f = register_stackbd k
      (b <| hp := {| live := <[n + 2 := K_disk]> (<[n + 1 := K_blk_queue]>
                       (<[n := K_tag_set]> (live (hp b)))); next_id := n + 3 |} |>) f' ∧
    tag_set f' = Obj n ∧ queue f' = Obj (n + 1) ∧ disk f' = Obj (n + 2) ∧
    same_names f f' ∧ queues f' = Obj q ∧ disk_capacity f' = st_size f / IS_SECT_SIZE ∧
    (∀ i, 0 ≤ i < sq → zget (hctx f') i = Some {| IS_conn := Some i; q_depth := queue_depth f |}).
Proof.
  intros K2 K3 K4 Hwf Hq HL Hc Hsq Hl n.
  assert (q < n) as Hqn.
  { destruct (decide (q < n)); [done|]. rewrite Hwf in HL; [done | subst n; lia]. }
  destruct b as [[L n'] ms mn vis d0]. cbn in *. subst n.
  unfold IS_register_block_device. rewrite K2, K3. cbn.
  match goal with |- context [for_upto sq (λ i f, IS_init_hctx ?x f i) ?y] =>
    destruct (init_hctx_all x y sq q nc) as (l & -> & Hall); try done end.
  { cbn. rewrite lookup_insert_ne by lia. done. }
  cbn [res_bind]. unfold acquire_err. rewrite K4. cbn.
  replace (n' + 1 + 1) with (n' + 2) by lia. replace (n' + 2 + 1) with (n' + 3) by lia.
  eexists. split; [done|]. split_and!; done.
Qed.

Lemma register_ok sq mj b f q nc : kernel_ok → heap_wf (hp b) → major_num b = 0 →
  queues f = Obj q → live (hp b) !! q = Some K_queues → f_conns f = Some nc → 0 ≤ sq ≤ nc →
  len (hctx f) = sq →
  let n := next_id (hp b) in
  ∃ b' f', IS_register_block_device k sq mj b f = Ok (0, b', f') ∧
    registered b' f' (live (hp b)) n ∧ same_names f f' ∧ queues f' = Obj q ∧
    disk_capacity f' = st_size f / IS_SECT_SIZE ∧
    (∀ i, 0 ≤ i < sq → zget (hctx f') i = Some {| IS_conn := Some i; q_depth := queue_depth f |}) ∧
    major_num b' = k_major k ∧ majors b' = {[ k_major k ]} ∪ majors b ∧
    visible b' = {[ n + 2 ]} ∪ ({[ n + 4 ]} ∪ visible b) ∧ next_id (hp b') = n + 7.
Proof.
  intros Hk Hwf Hm Hq HL Hc Hsq Hl n.
  destruct (register_prefix sq mj b f q nc) as (f1 & -> & F1 & F2 & F3 & F4 & F5 & F6 & F7);
    try done; try apply Hk. fold n.
  match goal with |- context [register_stackbd k ?x f1] => set (b1 := x) end.
  destruct (register_stackbd_ok b1 f1 (n + 2)) as (d & -> & D1 & D2 & D3 & D4 & D5); try done.
  { intros j Hj. subst b1. cbn in *. rewrite !lookup_insert_ne by lia. apply Hwf. lia. }
  { subst b1. live_solve. }
  subst b1. cbn in *.
  replace (n + 3 + 1) with (n + 4) in * by lia. replace (n + 3 + 2) with (n + 5) in * by lia.
  replace (n + 3 + 3) with (n + 6) in * by lia. replace (n + 3 + 4) with (n + 7) in * by lia.
  eexists _, _. split; [done|]. split; [by split|]. split_and!; done.
Qed.

(** Deleting all that [with_device] added. *)
Lemma without_device L n : (∀ j, n ≤ j → L !! j = None) →
  delete (n + 3) (delete (n + 4) (delete (n + 5) (delete (n + 6)
    (delete (n + 2) (delete n (delete (n + 1) (with_device L n))))))) = L.
Proof.
  intros HL. apply map_eq. intros j. unfold with_device.
  destruct (decide (n ≤ j < n + 7)) as [Hj|Hj].
  - rewrite HL by lia.
    assert (j = n ∨ j = n + 1 ∨ j = n + 2 ∨ j = n + 3 ∨ j = n + 4 ∨ j = n + 5 ∨ j = n + 6) as H by lia.
    repeat destruct H as [->|H]; [..|subst]; live_solve.
  - by rewrite !lookup_delete_ne, !lookup_insert_ne by lia.
Qed.

Lemma drop_obj_live kd id b : live (hp b) !! id = Some kd →
  drop_obj kd (Obj id) b
  = Ok (b <| hp := {| live := delete id (live (hp b)); next_id := next_id (hp b) |} |>).
Proof. intros H. unfold drop_obj. by rewrite release_live. Qed.

Lemma unregister_ok b f L n : registered b f L n → (∀ j, n ≤ j → L !! j = None) →
  ∃ b', IS_unregister_block_device b f = Ok b' ∧
    hp b' = {| live := L; next_id := next_id (hp b) |} ∧
    majors b' = majors b ∖ {[ major_num b ]} ∧ visible b' = visible b ∖ {[ n + 2 ]} ∖ {[ n + 4 ]} ∧
    major_num b' = major_num b.
Proof.
  intros [R1 R2 R3 R4 R5 R6 R7 R8 R9] HL. destruct b as [[L' n'] ms mn vis [s0 g0 q0 t0 d0]].
  cbn in *. subst L' g0 q0 t0 d0. unfold IS_unregister_block_device.
  rewrite R1, R2, R3. unfold del_gendisk at 1. cbn.
  rewrite find_live by (unfold with_device; live_solve). cbn [res_bind].
  rewrite drop_obj_live by (unfold with_device; live_solve). cbn [res_bind hp upd live next_id].
  rewrite drop_obj_live by (unfold with_device; live_solve). cbn [res_bind hp upd live next_id].
  rewrite drop_obj_live by (unfold with_device; live_solve). cbn. rewrite R8. cbn.
  rewrite drop_obj_live by (unfold with_device; live_solve). cbn.
  rewrite drop_obj_live by (unfold with_device; live_solve). cbn.
  unfold del_gendisk. cbn. rewrite find_live by (unfold with_device; live_solve). cbn.
  rewrite drop_obj_live by (unfold with_device; live_solve). cbn.
  rewrite drop_obj_live by (unfold with_device; live_solve). cbn. rewrite without_device by done.
  eexists. split; [done|]. done.
Qed.

(** * Creation and removal *)

(** A session whose portal is set, a device that waits for its name, and a name that is one
    word, fits, and is not taken. *)
Record nameable (m : modst) (s i : Z) (n : node) (f : IS_file) (page name : cstring) : Prop := {
  nm_wf : mod_wf m;
  nm_node : sessions m !! s = Some n;
  nm_file : files m !! i = Some f;
  nm_listed : i ∈ devs_list n;
  nm_word : first_word (skip_spaces page) = name ∧ first_word (skip_spaces name) = name;
  nm_name : name ≠ [] ∧ len name < MAX_IS_DEV_NAME;
  nm_free : IS_file_find m n name = Ok None;
  nm_sess : ∃ x, n_sess n = Some x ∧ 0 ≤ submit_queues m ≤ len (IS_conns x);
}.

Lemma sscanf_word s old size w : first_word (skip_spaces s) = w → w ≠ [] → len w < size →
  sscanf_s s old size = Ok w.
Proof.
  intros <- Hne Hl. unfold sscanf_s. destruct (first_word _); [done|].
  by rewrite (proj2 (Z.leb_gt _ _) Hl).
Qed.

(** The device as [IS_create_device] hands it to [IS_register_block_device]. *)
Definition prepared (m : modst) (f : IS_file) (name : cstring) (nc : Z) : IS_file :=
  f <| file_name := name |> <| index := IS_indexes m |> <| nr_queues := submit_queues m |>
    <| queue_depth := IS_QUEUE_DEPTH |> <| f_conns := Some nc |>
    <| queues := Obj (next_id (hp (bl m))) |>
    <| hctx := replicate (Z.to_nat (submit_queues m)) {| IS_conn := None; q_depth := 0 |} |>
    <| st_size := STACKBD_SIZE_G * ONE_GB |>.

Definition queues_blk (m : modst) : blk := bl m <| hp := (acquire K_queues (hp (bl m))).2 |>.

Lemma device_store_eq m s i n f page name junk count x : nameable m s i n f page name →
  k_queues k = true → n_sess n = Some x →
  device_attr_store k m s i page junk count =
    let m1 := put_node (m <| IS_indexes := s32 (IS_indexes m + 1) |>) s (n <| xdev := Some i |>) in
    let* (ret, b, f) := IS_register_block_device k (submit_queues m) (IS_major m) (queues_blk m)
                          (prepared m f name (len (IS_conns x))) in
    if ret =? 0 then Ok (count, put_file (m1 <| bl := b |>) i (f <| f_state := DEVICE_RUNNING |>))
    else let* b := IS_destroy_queues b f in Ok (ret, put_file (m1 <| bl := b |>) i f).
Proof.
  intros [Hwf Hn Hf Hi [Hw1 Hw2] [Hne Hl] Hfree _] Hk Hx. unfold device_attr_store.
  rewrite (sscanf_word _ _ _ _ Hw1 Hne Hl). cbn [res_bind]. unfold get_node at 1. rewrite Hn.
  cbn [res_bind]. rewrite Hfree. cbn [res_bind]. unfold IS_create_device, get_node, get_file.
  rewrite Hn, Hf. cbn [res_bind]. rewrite (sscanf_word _ _ _ _ Hw2 Hne Hl). cbn [res_bind].
  rewrite Hx. unfold IS_setup_queues. cbn. rewrite Hk. cbn.
  unfold queues_blk, prepared. cbn.
  destruct (IS_register_block_device _ _ _ _ _) as [[[ret b] f']|]; [|done]. cbn.
  destruct (ret =? 0) eqn:E; cbn; [done|]. destruct (IS_destroy_queues b f') as [b'|]; [|done].
  cbn. by rewrite E.
Qed.

Lemma queues_blk_ok m : mod_wf m →
  heap_wf (hp (queues_blk m)) ∧
  live (hp (queues_blk m)) !! next_id (hp (bl m)) = Some K_queues ∧
  next_id (hp (queues_blk m)) = next_id (hp (bl m)) + 1.
Proof.
  intros Hwf. split; [apply (acquire_wf K_queues), Hwf|]. split; [apply lookup_insert_eq | done].
Qed.

Lemma drop_registered m s i n f L nn q : sessions m !! s = Some n → files m !! i = Some f →
  registered (bl m) f L nn → (∀ j, nn ≤ j → L !! j = None) →
  queues f = Obj q → L !! q = Some K_queues → L !! i = Some K_file →
  ∃ m2, IS_device_drop m s i = Ok m2 ∧ live (hp (bl m2)) = delete i (delete q L) ∧
    files m2 = delete i (files m) ∧ majors (bl m2) = majors (bl m) ∖ {[ major_num (bl m) ]} ∧
    visible (bl m2) = visible (bl m) ∖ {[ nn + 2 ]} ∖ {[ nn + 4 ]}.
Proof.
  intros Hs Hf Hreg HL Hq Lq Li. unfold IS_device_drop, IS_destroy_device, get_file. rewrite Hf.
  cbn [res_bind IS_set_device_state].
  destruct (unregister_ok (bl m) (f <| f_state := DEVICE_OFFLINE |>) L nn) as (b2 & E2 & Hh & H1 & H2 & _);
    [destruct Hreg; by split | done|].
  change (disk (f <| f_state := DEVICE_OFFLINE |>)) with (disk f).
  rewrite (rg_disk _ _ _ _ Hreg). cbn [is_null]. rewrite E2. cbn [res_bind]. unfold IS_destroy_queues, kfree. cbn [queues upd]. rewrite Hq, Hh.
  cbn [is_null]. rewrite release_live by done. cbn [res_bind]. unfold get_node. cbn.
  rewrite Hs. cbn. rewrite release_live by (cbn; rewrite lookup_delete_ne; congruence). cbn.
  eexists. split; [done|]. cbn. split_and!; [done | apply delete_insert_eq | done | done].
Qed.

(** * A creation that fails after the disk was allocated *)

(** The device's queue and disk are granted, something of the stacked device is not. *)
Record half_failed : Prop := {
  hf_queues : k_queues k = true;
  hf_tag_set : k_tag_set k = 0;
  hf_init_queue : k_init_queue k = 0;
  hf_disk_node : k_disk_node k = true;
  hf_later : k_blk_queue k = false ∨ k_major k ≤ 0 ∨ k_alloc_disk k = false ∨
    stackbd_bdev_open (k_lookup k) (k_bdget k) (k_blkdev_get k) = None ∨ k_thread k = false;
}.

(** No stacked device yet. *)
Record no_stackbd (b : blk) : Prop := {
  ns_gd : gd (sd b) = Null;
  ns_active : is_active (sb (sd b)) = 0;
  ns_major : major_num b = 0;
}.

(** The stacked device is missing, or it is complete but for its thread. *)
Definition half_done (b : blk) (n ret : Z) : Prop :=
  gd (sd b) = Null ∨
  (ret = -1 ∧ gd (sd b) = Obj (n + 1) ∧ sb_queue (sd b) = Obj n ∧
   live (hp b) !! (n + 1) = Some K_disk ∧ live (hp b) !! n = Some K_blk_queue).

Lemma register_stackbd_fails b f dk : half_failed → heap_wf (hp b) → no_stackbd b →
  disk f = Obj dk → live (hp b) !! dk = Some K_disk →
  ∃ ret b', register_stackbd k b f = Ok (ret, b', f) ∧ is_active (sb (sd b')) = 0 ∧
    half_done b' (next_id (hp b)) ret ∧
    (∀ id kd, live (hp b) !! id = Some kd → live (hp b') !! id = Some kd) ∧
    (k_blk_queue k = true → 0 < k_major k → k_alloc_disk k = false → ret = 0).
Proof.
  intros [_ _ _ _ Hl] Hwf [Hg Ha Hm] Hd Ld.
  assert (∀ id kd, live (hp b) !! id = Some kd → id < next_id (hp b)) as Hlt.
  { intros id kd H. destruct (decide (id < next_id (hp b))); [done|].
    rewrite Hwf in H by lia. done. }
  pose proof (Hlt _ _ Ld) as Hdk. destruct b as [[L n] ms mn vis [s0 g0 q0 t0 d0]]. cbn in *.
  subst mn g0. assert (∀ kd, live {| live := L; next_id := n |} !! n = Some kd → False) as Hfr.
  { intros kd H%Hlt. lia. }
  unfold register_stackbd, register_blkdev. destruct (k_blk_queue k); cbn.
  2:{ eexists _, _. split; [done|]. split_and!; try done. by left. }
  destruct (0 <? k_major k) eqn:Em; cbn.
  2:{ rewrite drop_obj_live by live_solve. cbn. eexists _, _. split; [done|].
      split_and!; [done | by left | | intros; lia]. cbn. intros id kd H. rewrite delete_insert_id; [done|].
      apply (Hwf n). cbn. lia. }
  rewrite (proj2 (Z.ltb_ge _ _)) by lia. destruct (k_alloc_disk k); cbn.
  2:{ rewrite drop_obj_live by live_solve. cbn. eexists _, _. split; [done|].
      split_and!; [done | by left | | done]. cbn. intros id kd H. rewrite delete_insert_id; [done|].
      apply (Hwf n). cbn. lia. }
  unfold add_disk at 1. cbn. rewrite find_live by live_solve. cbn.
  unfold stackbd_start_objs, stackbd_start. cbn.
  destruct (stackbd_bdev_open _ _ _) as [dv|]; cbn.
  - destruct (k_thread k); [by destruct Hl as [?|[?|[?|[?|?]]]]; [|lia|..]|]. cbn. rewrite !find_live by live_solve. cbn.
    rewrite release_live by live_solve. cbn. unfold add_disk. rewrite Hd. cbn.
    rewrite find_live by live_solve. cbn. eexists _, _. split; [done|]. split_and!; try done.
    + right. cbn. split_and!; try done; live_solve.
    + cbn. intros id kd H. pose proof (Hlt _ _ H). live_solve.
  - unfold add_disk. rewrite Hd. cbn. rewrite find_live by live_solve. cbn. eexists _, _.
    split; [done|]. split_and!; try done.
    + right. cbn. split_and!; try done; live_solve.
    + cbn. intros id kd H. pose proof (Hlt _ _ H). live_solve.
Qed.

(** Removing such a device faults, with its hardware queues freed already or not. *)
Lemma unregister_half b f n ret t q d : half_done b n ret → is_active (sb (sd b)) = 0 →
  tag_set f = Obj t → queue f = Obj q → disk f = Obj d →
  t ≠ q → t ≠ d → q ≠ d → t < n → q < n → d < n →
  live (hp b) !! t = Some K_tag_set → live (hp b) !! q = Some K_blk_queue →
  live (hp b) !! d = Some K_disk →
  if decide (gd (sd b) = Null) then IS_unregister_block_device b f = Fault NullDeref
  else ∃ b', IS_unregister_block_device b f = Ok b' ∧
    ∀ id, live (hp b) !! id = None → live (hp b') !! id = None.
Proof.
  intros Hh Ha Ht Hq Hd N1 N2 N3 T1 T2 T3 Lt Lq Ld.
  destruct b as [[L n'] ms mn vis [s0 g0 q0 t0 d0]]. cbn in *.
  unfold IS_unregister_block_device, del_gendisk. rewrite Ht, Hq, Hd. cbn.
  rewrite find_live by done. cbn. rewrite drop_obj_live by live_solve. cbn.
  rewrite drop_obj_live by live_solve. cbn. rewrite drop_obj_live by live_solve. cbn.
  rewrite Ha. cbn. destruct Hh as [E0|(_ & E1 & E2 & Lg & Lb)]; cbn in *; subst g0; [done|]. subst q0.
  rewrite decide_False by done. rewrite find_live by live_solve. cbn.
  rewrite drop_obj_live by live_solve. cbn. rewrite drop_obj_live by live_solve. cbn.
  eexists. split; [done|]. cbn. intros id H. rewrite !lookup_delete_None. tauto.
Qed.

Lemma drop_half m i s f n ret t q d qs : files m !! i = Some f →
  half_done (bl m) n ret → is_active (sb (sd (bl m))) = 0 →
  tag_set f = Obj t → queue f = Obj q → disk f = Obj d →
  t ≠ q → t ≠ d → q ≠ d → t < n → q < n → d < n →
  live (hp (bl m)) !! t = Some K_tag_set → live (hp (bl m)) !! q = Some K_blk_queue →
  live (hp (bl m)) !! d = Some K_disk →
  gd (sd (bl m)) = Null ∨ (queues f = Obj qs ∧ live (hp (bl m)) !! qs = None) →
  ∃ e, IS_device_drop m s i = Fault e ∧ (e = NullDeref ∨ e = UseAfterFree).
Proof.
  intros Hf Hh Ha Ht Hq Hd N1 N2 N3 T1 T2 T3 Lt Lq Ld Hor.
  set (f0 := f <| f_state := DEVICE_OFFLINE |>).
  pose proof (unregister_half (bl m) f0 n ret t q d Hh Ha
    Ht Hq Hd N1 N2 N3 T1 T2 T3 Lt Lq Ld) as Hu.
  unfold IS_device_drop, IS_destroy_device, get_file. rewrite Hf.
  cbn [res_bind IS_set_device_state].
  fold f0. change (disk f0) with (disk f). rewrite Hd. cbn [is_null].
  destruct Hor as [Hg|[Hqs Lqs]].
  - rewrite Hg, decide_True in Hu by done. rewrite Hu. eauto.
  - case_decide; [rewrite Hu; eauto|]. destruct Hu as (b' & -> & Hdead). cbn [res_bind].
    unfold IS_destroy_queues, kfree, release. change (queues f0) with (queues f). rewrite Hqs. cbn [is_null].
    rewrite find_dead by (by apply Hdead). eauto.
Qed.

(** * Theorems *)



End DeviceLife.

(** * Witnesses *)

(** Everything is granted but, if [gendisk] is false, the result of [alloc_disk]; [mj] is a free
    number. *)
Definition granting (mj : Z) (gendisk : bool) : kernel :=
  {| k_queues := true; k_tag_set := 0; k_init_queue := 0; k_disk_node := true; k_blk_queue := true;
     k_major := mj; k_alloc_disk := gendisk; k_lookup := Some 8; k_bdget := true;
     k_blkdev_get := true; k_thread := true; k_capacity := λ _, 2 ^ 21 |}.
Definition load_kernel : kernel := granting 252 true.
Definition demo_kernel : kernel := granting 253 true.
Definition no_gendisk : kernel := granting 253 false.

(** The module loaded on two processors, one session made, its portal set, a device made. *)
Definition loaded : modst := (IS_init_module load_kernel 0 2 fresh_blk).2.
Definition with_session : modst := (IS_session_make_group true loaded).2.

Definition ok_state (r : res (Z * modst)) (old : modst) : modst :=
  match r with Ok (_, m) => m | Fault _ => old end.

Definition demo_portals : cstring := chars "1,10.0.0.1:9400".
Definition with_portal : modst :=
  ok_state (portal_attr_store (λ _, true) with_session 1 demo_portals 16) with_session.
Definition with_dev : modst :=
  match IS_device_make_group true with_portal 1 (chars "is0") with
  | Ok (_, m) => m | Fault _ => with_portal end.

Lemma demo_reached : IS_init_module load_kernel 0 2 fresh_blk = (0, loaded) ∧
  rtc cfg_step loaded with_portal ∧ rtc cfg_step loaded with_dev.
Proof.
  assert (rtc cfg_step loaded with_portal) as Hp.
  { eapply rtc_l; [by apply (cs_mkdir_session true loaded (Some 1) with_session)|].
    apply rtc_once, (cs_portal (λ _, true) with_session 1 demo_portals 16 16). by vm_compute. }
  split; [done|]. split; [exact Hp|]. eapply rtc_r; [exact Hp|].
  apply (cs_mkdir_device true with_portal 1 (chars "is0") (Some 2)). by vm_compute.
Qed.


Lemma portal_check_never_fires_witness :
  portal_attr_store (λ _, true) with_session 1 demo_portals 16 = Ok (16, with_portal) ∧
  IS_session_find_by_portal with_portal (chars "rdma://1,10.0.0.1:9400") = Ok None.
Proof.
  split; [by vm_compute|].
  apply (portal_check_never_fires load_kernel 0 2 loaded with_portal);
    [apply demo_reached | apply demo_reached | by apply (bool_decide_unpack _)].
Defined.

Lemma demo_nameable : ∃ n f, nameable with_dev 1 2 n f (chars "is0 ") (chars "is0").
Proof.
  destruct (sessions with_dev !! 1) as [n|] eqn:Hn; [|vm_compute in Hn; discriminate Hn].
  destruct (files with_dev !! 2) as [f|] eqn:Hf; [|vm_compute in Hf; discriminate Hf].
  exists n, f. split.
  - eapply cfg_steps_wf; [apply demo_reached|]. eapply init_module_wf, demo_reached.
  - done.
  - done.
  - vm_compute in Hn. injection Hn as <-. by left.
  - done.
  - done.
  - vm_compute in Hn. injection Hn as <-. by vm_compute.
  - vm_compute in Hn. injection Hn as <-. eexists. split; [reflexivity|]. done.
Qed.



(** * Other orders of operations *)

Definition second_dev : modst :=
  match IS_device_make_group true with_dev 1 (chars "is1") with
  | Ok (_, m) => m | Fault _ => with_dev end.

(** Two devices at a time: the second asks for the number the first has, fails, and leaves
    [stackbd.queue] at the queue it gave back; removing the first device then uses it. *)
Example second_device_breaks_first :
  match device_attr_store demo_kernel second_dev 1 2 (chars "is0") [] 3 with
  | Ok (3, m1) =>
      match device_attr_store demo_kernel m1 1 3 (chars "is1") [] 3 with
      | Ok (ret, m2) => ret = - EFAULT ∧ IS_device_drop m2 1 2 = Fault UseAfterFree
      | Fault _ => False
      end
  | _ => False
  end.
Proof. vm_compute. split; reflexivity. Qed.

(** Removed and made again: [register_blkdev] returns 0 for a number it was asked for, so the
    number is lost from [major_num] and never given back. *)
Example recreated_device_keeps_number :
  match device_attr_store demo_kernel second_dev 1 2 (chars "is0") [] 3 with
  | Ok (3, m1) =>
      match IS_device_drop m1 1 2 with
      | Ok m2 =>
          match device_attr_store demo_kernel m2 1 3 (chars "is1") [] 3 with
          | Ok (3, m3) =>
              major_num (bl m3) = 0 ∧
              match IS_device_drop m3 1 3 with
              | Ok m4 => bool_decide (253 ∈ majors (bl m4)) = true
              | Fault _ => False
              end
          | _ => False
          end
      | Fault _ => False
      end
  | _ => False
  end.
Proof. vm_compute. split; reflexivity. Qed.

(** A device named before its session has a portal: the session has no connections yet. *)
Example device_before_portal_faults :
  match IS_device_make_group true with_session 1 (chars "is0") with
  | Ok (_, m) => device_attr_store demo_kernel m 1 2 (chars "is0") [] 3 = Fault NullDeref
  | Fault _ => False
  end.
Proof. vm_compute. reflexivity. Qed.
