(* ===== verification/Eviction.v ===== *)
(** Eviction on the client: a STOP message of a server cancels the slots it names, waits
    for the requests in flight there, tells the server which slots are free and looks for
    other servers for the chunks it lost. *)

From Stdlib Require Import ZArith Lia Ascii.
From stdpp Require Import base tactics list numbers option.
From S2P Require Import Prelude Types ByteOrder Bitmap CtxPool Stackbd Request Views ChunkMap.
From S2P Require Import MapInv World Transfer Servers Pages.

(** * The interface to server selection *)

(** What a search for servers leaves alone: the chunks that are served, their pages, and the
    servers that take no chunks. *)
Record remapped (s s' : IS_session) : Prop := {
  rd_pages : keeps_pages nobody s s';
  rd_on : mapped_on s → mapped_on s';
  rd_closed : ∀ cb st, zget (cb_state_list s) cb = Some st → cb_open st = false →
    zget (cb_state_list s') cb = Some st;
  rd_ops : write_ops s' = write_ops s ∧ read_ops s' = read_ops s ∧ last_ops s' = last_ops s;
  rd_weights : w_weight s' = w_weight s ∧ cur_weight s' = cur_weight s;
}.

#[export] Instance remapped_preorder : PreOrder remapped.
Proof.
  split; [intros s; by split|].
  intros s1 s2 s3 [A1 A2 A3 (A4 & A5 & A6) (A7 & A8)] [B1 B2 B3 (B4 & B5 & B6) (B7 & B8)].
  split; [by transitivity s2 | auto | auto | split_and!; congruence..].
Qed.

(** The mapping of chunk [gb] may change, and nothing else a caller relies on. *)
Record remaps (s : IS_session) (gb : Z) (s' : IS_session) : Prop := {
  rm_others : ∀ k, k ≠ gb → zget (cb_index_map s') k = zget (cb_index_map s) k ∧
                            zget (chunk_map_cb_chunk s') k = zget (chunk_map_cb_chunk s) k;
  rm_chunk : zget (cb_index_map s') gb = Some NO_CB_MAPPED → unmapped s' gb;
  rm_rest : remapped s s';
}.

(** What [evict_handler], [IS_disconnect_handler] and [rdma_trigger] expect of
    [IS_single_chunk_map]: for a chunk that is unmapped it maps it to some slot or leaves it
    unmapped, and touches no other chunk. *)
Class ChunkMapper `{C : Config} (submit_queues : Z)
  (single_chunk_map : IS_session → Z → res IS_session) : Prop :=
  mapper_ok : ∀ s gb, map_inv s → servers_ok submit_queues s → unmapped s gb →
    ∃ s', single_chunk_map s gb = Ok s' ∧ map_inv s' ∧ servers_ok submit_queues s' ∧ remaps s gb s'.

(** With no server left, chunks stay on the disk. *)
#[export] Instance no_server_mapper `{C : Config} sq : ChunkMapper sq (λ s _, Ok s).
Proof. intros s gb Hi Hs Hu. exists s. split_and!; [done..|]. by split. Qed.

Section Eviction.
Context `{C : Config}.
Variable submit_queues : Z.
Context (single_chunk_map : IS_session → Z → res IS_session).
Context `{M : !ChunkMapper submit_queues single_chunk_map}.

Definition marked (c : kernel_cb) (i : Z) : bool :=
  match zget (evict_chunk_map (remote_chunk c)) i with
  | Some m => bool_decide (m = "s"%char)
  | None => false
  end.

(** No request is in flight on the contexts of the server. *)
Definition quiet (s : IS_session) (pool_index : Z) : Prop :=
  ∀ i, 0 ≤ i < submit_queues → ∃ p l, pool_at s i pool_index = Some p ∧ ctx_pool p = Some l ∧
    len l = IS_QUEUE_DEPTH ∧ Forall (λ c, in_flight c = CTX_IDLE) l.

Lemma scan_quiet s cb c : zget (cb_list s) cb = Some c → 0 ≤ submit_queues →
  quiet s (cb_index c) → scan_in_flight submit_queues s cb = Ok false.
Proof.
  intros Hc Hsq Hq. unfold scan_in_flight. rewrite (read_cb_at _ _ _ Hc). simpl.
  match goal with |- context [for_upto_break submit_queues ?b tt] =>
    destruct (for_upto_break_inv (λ _ _, True) (λ _ _, False) b submit_queues tt)
      as ([[]|[]] & -> & Hc'); [done | done | | done | by destruct Hc' as (? & _ & [])] end.
  intros i [] Hi _. destruct (Hq i Hi) as (p & l & Hp & Hl & Hlen & Hidle).
  rewrite (get_pool_at _ _ _ _ Hp). simpl. rewrite Hl. simpl.
  match goal with |- context [for_upto_break IS_QUEUE_DEPTH ?b tt] =>
    destruct (for_upto_break_inv (λ _ _, True) (λ _ _, False) b IS_QUEUE_DEPTH tt)
      as ([[]|[]] & -> & Hc'); [done | done | | by eexists | by destruct Hc' as (? & _ & [])] end.
  intros j [] Hj _. destruct (zget_is_Some l j) as [x Hx]; [lia|].
  rewrite (rd_ok _ _ _ Hx). simpl. rewrite (Forall_zget _ _ _ _ Hidle Hx). simpl. by eexists.
Qed.

(** ** Cancelling *)

(** The control block with its slot map and the keys of its message replaced. *)
Definition with_maps (c : kernel_cb) (cm rk : list Z) : kernel_cb :=
  c <| remote_chunk := remote_chunk c <| chunk_map := cm |> |>
    <| send_buf ::= λ m, m <| rkey := rk |> |>.

(** Device chunks that are cancelled and not yet given back. *)
Definition limbo (s : IS_session) (ev : list Z) (lo : Z) : Prop :=
  ∀ k, lo ≤ k → zget ev k = Some 1 → zget (cb_index_map s) k = Some NO_CB_MAPPED ∧
    ∃ ci, zget (chunk_map_cb_chunk s) k = Some ci ∧ ci ≠ -1.

Record cancelled (s : IS_session) (cb : Z) (c : kernel_cb) (i : Z) (s' : IS_session)
  (ev : list Z) (cm rk : list Z) : Prop := {
  ca_inv : map_inv s';
  ca_wf : cb_wf cb (with_maps c cm rk);
  ca_sess : ∃ im, s' = s <| cb_index_map := im |>
                        <| cb_list := zset (cb_list s) cb (with_maps c cm rk) |>;
  ca_rest : ∀ j, i ≤ j → zget cm j = zget (chunk_map (remote_chunk c)) j;
  ca_done : ∀ j, 0 ≤ j < i → marked c j = true → zget cm j = Some (-1);
  ca_len : len rk = MAX_MR_SIZE_GB;
  ca_keys : ∀ j, 0 ≤ j < i → zget rk j = Some (if marked c j then 1 else 0);
  ca_evlen : len ev = STACKBD_SIZE_G;
  ca_limbo : limbo s' ev 0;
  ca_sub : ∀ j gb, zget cm j = Some gb → gb ≠ -1 → zget (chunk_map (remote_chunk c)) j = Some gb;
  ca_same : ∀ k, zget ev k ≠ Some 1 → zget (cb_index_map s') k = zget (cb_index_map s) k;
}.

Lemma with_maps_wf cb c cm rk : cb_wf cb c → len cm = MAX_MR_SIZE_GB → len rk = MAX_MR_SIZE_GB →
  (∀ j gb, zget cm j = Some gb → gb ≠ -1 → zget (chunk_map (remote_chunk c)) j = Some gb) →
  cb_wf cb (with_maps c cm rk).
Proof.
  intros [Hi H1 H2 H3 H4 H5 Hb] Hl Hr Hm. split; simpl; try done.
  intros ci gb Hci Hne. apply (Hb ci gb); eauto.
Qed.

(** Marks name mapped slots only. *)
Definition marks_ok (c : kernel_cb) : Prop :=
  ∀ i, marked c i = true → ∃ k, zget (chunk_map (remote_chunk c)) i = Some k ∧ k ≠ -1.

Lemma cancelled_cb s cb c i s' ev cm rk : zget (cb_list s) cb = Some c →
  cancelled s cb c i s' ev cm rk →
  zget (cb_list s') cb = Some (with_maps c cm rk) ∧ cb_wf cb (with_maps c cm rk).
Proof.
  intros Hc Hca. destruct (ca_sess _ _ _ _ _ _ _ _ Hca) as [im Es].
  assert (zget (cb_list s') cb = Some (with_maps c cm rk)) as H.
  { rewrite Es. simpl. apply zget_zset_eq. eauto with zarr. }
  split; [done|]. apply (ca_wf _ _ _ _ _ _ _ _ Hca).
Qed.

(** A marked slot. *)
Lemma cancel_marked s cb c i s' ev cm rk k im :
  zget (cb_list s) cb = Some c → cancelled s cb c i s' ev cm rk →
  marked c i = true → zget (chunk_map (remote_chunk c)) i = Some k → k ≠ -1 → 0 ≤ i →
  im = zset (cb_index_map s') k NO_CB_MAPPED →
  cancelled s cb c (i + 1)
    (s' <| cb_index_map := im |>
        <| cb_list := zset (cb_list s') cb (with_maps c (zset cm i (-1)) (zset rk i 1)) |>)
    (zset ev k 1) (zset cm i (-1)) (zset rk i 1).
Proof.
  intros Hc Hca Hmk Hk Hne Hi0 ->.
  destruct (cancelled_cb _ _ _ _ _ _ _ _ Hc Hca) as [Hc' Hwf'].
  destruct Hca as [Hinv Hwfm [im0 Es] Hrest Hdone Hlen Hkeys Hevl Hlim Hsub Hsame].
  assert (zget cm i = Some k) as Hcm by (by rewrite Hrest).
  pose proof (zget_Some_range _ _ _ Hcm) as Hir. pose proof (cw_map _ _ Hwf') as Hcml.
  simpl in Hcml.
  assert (serves s' cb i k) as Hsv by (apply (serves_at _ _ _ _ _ Hc'); done).
  destruct (mi_bwd _ Hinv _ _ _ Hsv) as [Hb1 Hb2].
  pose proof (zget_Some_range _ _ _ Hb1) as Hkr.
  assert (cb_wf cb (with_maps c (zset cm i (-1)) (zset rk i 1))) as Hwf2.
  { destruct Hwf' as [? ? ? ? ? ? Hbm]. split; simpl in *; rewrite ?len_zset; try done.
    intros ci gb. rewrite zget_zset. case_decide as Hd; [by intros [= <-] ?|]. apply Hbm. }
  split.
  - eapply (cancel_inv s' _ cb _ _ i k); try done.
  - done.
  - eexists. rewrite Es. simpl. by rewrite zset_zset.
  - intros j Hj. rewrite zget_zset_ne by lia. apply Hrest. lia.
  - intros j Hj Hm. rewrite zget_zset. case_decide; [done|]. apply Hdone; [|done].
    assert (j ≠ i) by (intros ->; tauto). lia.
  - by rewrite len_zset.
  - intros j Hj. rewrite zget_zset. case_decide as Hd.
    + destruct Hd as [-> _]. by rewrite Hmk.
    + apply Hkeys. assert (j ≠ i) by (intros ->; apply Hd; lia). lia.
  - by rewrite len_zset.
  - intros j Hj. simpl. rewrite zget_zset. case_decide as Hd.
    + destruct Hd as [<- _]. intros _. rewrite zget_zset_eq by done. split; [done|].
      exists i. split; [done | lia].
    + intros He. destruct (Hlim j Hj He) as [? ?]. split; [|done].
      rewrite zget_zset. by case_decide.
  - intros j gb. rewrite zget_zset. case_decide; [by intros [= <-]|]. apply Hsub.
  - intros j. simpl. rewrite !zget_zset. destruct (decide (k = j)) as [<-|Hne'].
    + rewrite decide_True; [done|]. split; [done|].
      rewrite Hevl, <- (mi_index _ Hinv). done.
    + rewrite !decide_False by tauto. apply Hsame.
Qed.

(** A slot that stays. *)
Lemma cancel_other s cb c i s' ev cm rk :
  zget (cb_list s) cb = Some c → cancelled s cb c i s' ev cm rk →
  marked c i = false → 0 ≤ i < MAX_MR_SIZE_GB →
  cancelled s cb c (i + 1) (s' <| cb_list := zset (cb_list s') cb (with_maps c cm (zset rk i 0)) |>)
    ev cm (zset rk i 0).
Proof.
  intros Hc Hca Hmk Hi. destruct (cancelled_cb _ _ _ _ _ _ _ _ Hc Hca) as [Hc' Hwf'].
  destruct Hca as [Hinv Hwfm [im0 Es] Hrest Hdone Hlen Hkeys Hevl Hlim Hsub Hsame].
  assert (cb_wf cb (with_maps c cm (zset rk i 0))) as Hwf2.
  { destruct Hwf'. split; simpl in *; rewrite ?len_zset; done. }
  split.
  - by eapply map_inv_cb.
  - done.
  - eexists. rewrite Es. simpl. by rewrite zset_zset.
  - intros j Hj. apply Hrest. lia.
  - intros j Hj Hm. apply Hdone; [|done]. assert (j ≠ i) by congruence. lia.
  - by rewrite len_zset.
  - intros j Hj. rewrite zget_zset. case_decide as Hd.
    + destruct Hd as [-> _]. by rewrite Hmk.
    + apply Hkeys. assert (j ≠ i) by (intros ->; apply Hd; lia). lia.
  - done.
  - exact Hlim.
  - done.
  - done.
Qed.

Lemma cancel_slots_ok s cb c : map_inv s → zget (cb_list s) cb = Some c → cb_wf cb c →
  marks_ok c →
  ∃ s' ev cm rk,
    cancel_slots s cb (replicate (Z.to_nat STACKBD_SIZE_G) (-1)) = Ok (s', ev) ∧
    cancelled s cb c MAX_MR_SIZE_GB s' ev cm rk.
Proof.
  intros Hinv Hc Hwf Hmarks. unfold cancel_slots.
  match goal with |- context [for_upto _ ?b ?s0] =>
    destruct (for_upto_inv (λ i st, ∃ cm rk, cancelled s cb c i st.1 st.2 cm rk) b MAX_MR_SIZE_GB s0)
      as ([s' ev] & -> & cm & rk & Hca) end.
  - pose proof max_mr_pos. lia.
  - exists (chunk_map (remote_chunk c)), (rkey (send_buf c)).
    assert (with_maps c (chunk_map (remote_chunk c)) (rkey (send_buf c)) = c) as E
      by (unfold with_maps; destruct c as [? ? [] [] ? ? ?]; done).
    split; simpl; try done; try lia.
    + by rewrite E.
    + exists (cb_index_map s). rewrite E, zset_id by done. by destruct s.
    + apply (cw_rkeys _ _ Hwf).
    + apply len_replicate. pose proof stackbd_size_pos. lia.
    + intros k _ Hk. exfalso. apply zget_In in Hk. apply elem_of_replicate in Hk as [? _]. lia.
  - intros i [s' ev] Hi (cm & rk & Hca). simpl in *.
    destruct (cancelled_cb _ _ _ _ _ _ _ _ Hc Hca) as [Hc' Hwf'].
    rewrite (read_cb_at _ _ _ Hc'). simpl.
    destruct (zget_is_Some (evict_chunk_map (remote_chunk c)) i) as [mk Hmk];
      [rewrite (cw_evict _ _ Hwf); lia|].
    rewrite (rd_ok _ _ _ Hmk). simpl.
    assert (marked c i = bool_decide (mk = "s"%char)) as Em by (unfold marked; by rewrite Hmk).
    case_decide as Hd.
    + rewrite bool_decide_true in Em by done. destruct (Hmarks i Em) as (k & Hk & Hne).
      pose proof (ca_rest _ _ _ _ _ _ _ _ Hca i ltac:(lia)) as Hcm. rewrite Hk in Hcm.
      rewrite (rd_ok _ _ _ Hcm). simpl.
      assert (serves s' cb i k) as Hsv by (apply (serves_at _ _ _ _ _ Hc'); done).
      destruct (mi_bwd _ (ca_inv _ _ _ _ _ _ _ _ Hca) _ _ _ Hsv) as [Hb1 Hb2].
      pose proof (zget_Some_range _ _ _ Hb1) as Hkr.
      rewrite wr_ok by done. simpl.
      rewrite wr_ok by (rewrite (ca_evlen _ _ _ _ _ _ _ _ Hca),
        <- (mi_index _ (ca_inv _ _ _ _ _ _ _ _ Hca)); done). simpl.
      rewrite wr_ok by eauto with zarr. simpl.
      rewrite wr_ok by (rewrite (ca_len _ _ _ _ _ _ _ _ Hca); lia). simpl.
      rewrite (write_cb_at _ _ (with_maps c cm rk)) by done. simpl.
      eexists. split; [done|]. eexists _, _. simpl.
      by eapply cancel_marked; [..| lia |].
    + rewrite bool_decide_false in Em by done. simpl.
      rewrite wr_ok by (rewrite (ca_len _ _ _ _ _ _ _ _ Hca); lia). simpl.
      rewrite (write_cb_at _ _ (with_maps c cm rk)) by done. simpl.
      eexists. split; [done|]. eexists _, _. by eapply cancel_other.
  - by exists s', ev, cm, rk.
Qed.

(** ** Forgetting the pages *)

Definition with_chunks (c : kernel_cb) (cl : list remote_chunk_g) (rm : list Z) : kernel_cb :=
  c <| remote_chunk := remote_chunk c <| chunk_list := cl |> <| remote_mapped := rm |> |>.

(** Every marked slot still has its bitmap. *)
Definition marked_bitmaps (c : kernel_cb) : Prop :=
  ∀ i, marked c i = true → ∃ ck bm, zget (chunk_list (remote_chunk c)) i = Some ck ∧
    bitmap_g ck = Some bm ∧ bitmap_wf bm.

Lemma clear_slots_ok s cb c : map_inv s → zget (cb_list s) cb = Some c → cb_wf cb c →
  marked_bitmaps c →
  ∃ s' cl rm, clear_slots s cb = Ok s' ∧ map_inv s' ∧ cb_wf cb (with_chunks c cl rm) ∧
    s' = s <| cb_list := zset (cb_list s) cb (with_chunks c cl rm) |> ∧
    (∀ i, marked c i = false → zget cl i = zget (chunk_list (remote_chunk c)) i) ∧
    ∀ i, marked c i = true → ∃ ck, zget cl i = Some ck ∧ bitmap_g ck = Some bitmap_alloc.
Proof.
  intros Hinv Hc Hwf Hbm. unfold clear_slots.
  match goal with |- context [for_upto _ ?b ?s0] =>
    destruct (for_upto_inv (λ i s', ∃ cl rm, map_inv s' ∧ cb_wf cb (with_chunks c cl rm) ∧
      s' = s <| cb_list := zset (cb_list s) cb (with_chunks c cl rm) |> ∧
      (∀ j, i ≤ j ∨ marked c j = false → zget cl j = zget (chunk_list (remote_chunk c)) j) ∧
      (∀ j, 0 ≤ j < i → marked c j = true →
         ∃ ck, zget cl j = Some ck ∧ bitmap_g ck = Some bitmap_alloc)) b MAX_MR_SIZE_GB s0)
      as (s' & -> & cl & rm & Hi & Hw & Es & Hu & Hd) end.
  - pose proof max_mr_pos. lia.
  - exists (chunk_list (remote_chunk c)), (remote_mapped (remote_chunk c)).
    assert (with_chunks c (chunk_list (remote_chunk c)) (remote_mapped (remote_chunk c)) = c) as E
      by (unfold with_chunks; destruct c as [? ? ? [] ? ? ?]; done).
    split_and!; try done; [by rewrite E | | lia]. rewrite E, zset_id by done. by destruct s.
  - intros i s' Hi (cl & rm & Hi' & Hwf' & Es & Hrest & Hdone).
    assert (zget (cb_list s') cb = Some (with_chunks c cl rm)) as Hc'.
    { rewrite Es. simpl. apply zget_zset_eq. eauto with zarr. }
    rewrite (read_cb_at _ _ _ Hc'). simpl.
    destruct (zget_is_Some (evict_chunk_map (remote_chunk c)) i) as [mk Hmk];
      [rewrite (cw_evict _ _ Hwf); lia|].
    rewrite (rd_ok _ _ _ Hmk). simpl.
    assert (marked c i = bool_decide (mk = "s"%char)) as Em by (unfold marked; by rewrite Hmk).
    case_decide as Hd.
    + rewrite bool_decide_true in Em by done. destruct (Hbm i Em) as (ck & bm & Hck & Hg & Hw).
      rewrite <- Hrest in Hck by (left; lia). rewrite (rd_ok _ _ _ Hck). cbn [res_bind]. rewrite Hg.
      cbn [res_bind deref]. rewrite (bitmap_init_alloc _ Hw). cbn [res_bind].
      rewrite wr_ok by eauto with zarr. cbn [res_bind].
      rewrite wr_ok by (simpl; pose proof (cw_mapped _ _ Hwf') as E; simpl in E; lia).
      cbn [res_bind]. rewrite (write_cb_at _ _ _ _ Hc'). eexists. split; [done|].
      exists (zset cl i (ck <| bitmap_g := Some bitmap_alloc |>)), (zset rm i CHUNK_UNMAPPED).
      match goal with |- _ ∧ ?P ∧ _ => assert P as Hwf2 end.
      { destruct Hwf' as [? ? ? ? ? ? Hb].
        split; simpl in *; rewrite ?len_zset; try done. intros ci gb Hci Hne.
        rewrite zget_zset. case_decide; [|eauto]. eexists _, _. split_and!; try done.
        apply bitmap_wf_alloc. }
      split_and!.
      * by eapply map_inv_cb.
      * done.
      * rewrite Es. simpl. by rewrite zset_zset.
      * intros j Hj. rewrite zget_zset_ne; [apply Hrest; destruct Hj; [left; lia | auto]|].
        intros ->. destruct Hj; [lia | congruence].
      * intros j Hj Hm. rewrite zget_zset. case_decide as Hd'; [eauto|]. apply Hdone; [|done].
        assert (j ≠ i) by (intros ->; apply Hd'; eauto with zarr). lia.
    + rewrite bool_decide_false in Em by done. eexists. split; [done|]. exists cl, rm.
      split_and!; try done; [intros j Hj; apply Hrest; destruct Hj; [left; lia | auto]|].
      intros j Hj Hm. apply Hdone; [|done]. assert (j ≠ i) by congruence. lia.
  - exists s', cl, rm. split_and!; try done; [intros i Hm; auto|]. intros i Hm. apply Hd; [|done].
    unfold marked in Hm. destruct (zget _ i) eqn:E; [|done]. apply zget_Some_range in E.
    rewrite (cw_evict _ _ Hwf) in E. done.
Qed.

(** ** Finding other servers *)

(** The chunks in [ev] are searched a server for, one after the other. *)
Record searched (ev : list Z) (i : Z) (s s' : IS_session) : Prop := {
  sr_inv : map_inv s';
  sr_servers : servers_ok submit_queues s';
  sr_limbo : limbo s' ev i;
  sr_others : ∀ k, zget ev k ≠ Some 1 → zget (cb_index_map s') k = zget (cb_index_map s) k ∧
    zget (chunk_map_cb_chunk s') k = zget (chunk_map_cb_chunk s) k;
  sr_found : ∀ k, k < i → zget ev k = Some 1 →
    zget (cb_index_map s') k = Some NO_CB_MAPPED → unmapped s' k;
  sr_rest : remapped s s';
}.

Lemma unmap_remapped s s' cc n ul : map_inv s → map_inv s' →
  s' = s <| chunk_map_cb_chunk := cc |> <| free_chunk_index := n |> <| unmapped_chunk_list := ul |> →
  remapped s s'.
Proof.
  intros Hi Hi' Es. split; try (by subst s').
  - eapply keeps_maps; try done; [by subst s' | by subst s'; apply grow_same | by subst s'..].
  - intros Hon gb cb ci Hm. assert (mapping s gb = Some (cb, ci)) as Hm0.
    { rewrite mapping_serves in * by done. by subst s'. }
    specialize (Hon _ _ _ Hm0). by subst s'.
Qed.

Lemma search_one ev i s s1 : zget ev i = Some 1 → 0 ≤ i → searched ev i s s1 →
  ∃ s2 s3, unmap_chunk s1 i = Ok s2 ∧ single_chunk_map s2 i = Ok s3 ∧ searched ev (i + 1) s s3.
Proof.
  intros He Hi0 [Hi1 Hs1 Hl1 Ho1 Hf1 Hr1].
  destruct (Hl1 i) as (Hk & ci & Hci & Hne); [lia | done|].
  destruct (unmap_chunk_ok s1 i ci) as (s2 & n & ul & E2 & Hi2 & Hu2 & Es); [done..|].
  assert (servers_ok submit_queues s2) as Hs2 by (subst s2; by eapply (servers_ext _ s1)).
  destruct (mapper_ok s2 i Hi2 Hs2 Hu2) as (s3 & E3 & Hi3 & Hs3 & [Hk3 Hc3 Hr3]).
  assert (∀ k, k ≠ i → zget (cb_index_map s3) k = zget (cb_index_map s1) k ∧
    zget (chunk_map_cb_chunk s3) k = zget (chunk_map_cb_chunk s1) k) as Hkk.
  { intros k Hne'. destruct (Hk3 k Hne') as [-> ->]. subst s2. simpl. by rewrite zget_zset_ne. }
  exists s2, s3. split_and!; try done. split; try done.
  - intros k Hk' Hev. destruct (Hkk k) as [-> ->]; [lia|]. apply Hl1; [lia | done].
  - intros k Hev. destruct (Hkk k) as [-> ->]; [congruence|]. by apply Ho1.
  - intros k Hlt Hev Hix. destruct (decide (k = i)) as [->|Hne']; [by apply Hc3|].
    destruct (Hkk k Hne') as [E4 E5]. unfold unmapped. rewrite E4, E5 in *. apply Hf1; [lia | done..].
  - transitivity s1; [done|]. transitivity s2; [|done]. by eapply unmap_remapped.
Qed.

Lemma remap_ok ev n s : map_inv s → servers_ok submit_queues s → limbo s ev 0 → len ev = n →
  ∃ s', for_upto n (λ i s,
      let* e := rd ev i in
      if e =? 1 then let* s := unmap_chunk s i in single_chunk_map s i else Ok s) s = Ok s' ∧
    searched ev n s s'.
Proof.
  intros Hinv Hs Hlim Hn. pose proof (len_nonneg ev).
  match goal with |- context [for_upto _ ?b ?s0] =>
    destruct (for_upto_inv (λ i s', searched ev i s s') b n s0)
      as (s' & -> & ?) end; [lia | | | by exists s'].
  { split; try done. intros k Hk Hev. apply zget_Some_range in Hev. lia. }
  intros i s1 Hi Hsr. destruct (zget_is_Some ev i) as [e He]; [lia|]. rewrite (rd_ok _ _ _ He). simpl.
  destruct (Z.eqb_spec e 1) as [->|Hne].
  - destruct (search_one ev i s s1) as (s2 & s3 & -> & E & ?); [done | lia | done|]. by exists s3.
  - exists s1. split; [done|]. destruct Hsr as [? ? Hl ? Hf ?]. split; try done.
    + intros k Hk Hev. apply Hl; [|done]. assert (k ≠ i) by (intros ->; congruence). lia.
    + intros k Hk Hev. apply Hf; [|done]. assert (k ≠ i) by (intros ->; congruence). lia.
Qed.

(** ** The handler *)

(** What is left once the slots are cancelled: the counters, the message, the states. *)
Lemma cancelled_bitmaps s cb c i s' ev cm rk : cb_wf cb c →
  marks_ok c → cancelled s cb c i s' ev cm rk → marked_bitmaps (with_maps c cm rk).
Proof.
  intros Hwf Hm Hca j Hj. destruct (Hm j Hj) as (k & Hk & Hne).
  exact (cw_bitmaps _ _ Hwf _ _ Hk Hne).
Qed.

Definition done_msg (c : kernel_cb) (rk : list Z) : IS_rdma_info :=
  send_buf c <| rkey := rk |> <| type := DONE |> <| size_gb := shrink_size_g (remote_chunk c) |>.

(** The session once the slots of [cb] are given up, before the search for other servers. *)
Record given_up (s : IS_session) (cb : Z) (c c7 : kernel_cb) (s7 : IS_session) (ev : list Z) : Prop := {
  gu_inv : map_inv s7;
  gu_wf : cb_wf cb c7;
  gu_state : state c7 = state c;
  gu_sess : ∃ im n, s7 = s <| trigger_enable := TRIGGER_OFF |> <| cb_index_map := im |>
    <| mapped_cb_num := n |> <| cb_list := zset (cb_list s) cb c7 |>
    <| cb_state_list := zset (cb_state_list s) cb CB_EVICTING |>;
  gu_slots : slots_keep (cb = cb) c c7;
  gu_sub : ∀ i gb, zget (chunk_map (remote_chunk c7)) i = Some gb → gb ≠ -1 →
    zget (chunk_map (remote_chunk c)) i = Some gb;
  gu_len : len ev = STACKBD_SIZE_G;
  gu_limbo : limbo s7 ev 0;
  gu_same : ∀ k, zget ev k ≠ Some 1 → zget (cb_index_map s7) k = zget (cb_index_map s) k;
}.

(** What an eviction from server [cb] leaves. *)
Record evicted (s : IS_session) (cb : Z) (s' : IS_session) : Prop := {
  et_inv : map_inv s';
  et_servers : servers_ok submit_queues s';
  et_settled : settled s → settled s';
  et_on : mapped_on s → mapped_on s';
  et_pages : keeps_pages (eq cb) s s';
  et_trigger : trigger_enable s' = TRIGGER_ON;
  et_state : zget (cb_state_list s') cb = Some CB_MAPPED;
}.

(** Fewer chunks are mapped, and RDMA stays on. *)
Lemma mapped_on_sub s s' : map_inv s → map_inv s' → rdma_on s' = rdma_on s →
  (∀ cb ci gb, serves s' cb ci gb → serves s cb ci gb) → mapped_on s → mapped_on s'.
Proof.
  intros Hi Hi' Eon Hs Hon gb cb ci Hm. rewrite Eon. apply (Hon gb cb ci).
  rewrite mapping_serves in * by done. by apply Hs.
Qed.

Lemma given_up_ok s cb c c7 s7 ev : map_inv s → servers_ok submit_queues s →
  zget (cb_list s) cb = Some c → zget (cb_state_list s) cb = Some CB_MAPPED →
  given_up s cb c c7 s7 ev →
  servers_ok submit_queues s7 ∧ keeps_pages (eq cb) s s7 ∧ (mapped_on s → mapped_on s7) ∧
  zget (cb_state_list s7) cb = Some CB_EVICTING.
Proof.
  intros Hi0 Hs Hc Hst [Hi Hwf Est (im & n & Es) Hsl Hsub Hl Hlim Hsm].
  pose proof (zget_Some_range _ _ _ Hst) as Hr.
  destruct (servers_ready _ _ _ _ _ Hs Hst ltac:(done) ltac:(done) Hc) as [Hwf0 Hcon].
  split_and!; [| | |subst s7; by apply zget_zset_eq].
  - eapply (servers_update _ s s7 cb c c7 CB_EVICTING Hs Hc); try (by subst s7).
    + split; [done | by rewrite Est].
    + subst s7. exact (so_pools _ _ Hs _ _ Hst).
  - eapply (keeps_cb _ s s7 cb c c7); try done; try (by subst s7). subst s7. by apply grow_same.
  - apply mapped_on_sub; try done; [by subst s7|]. intros cb' ci gb.
    rewrite (serves_zset s s7 cb c c7) by (done || by subst s7).
    case_decide; [subst cb' | done]. rewrite (serves_at _ _ _ _ _ Hc). intros [? ?]. eauto.
Qed.

(** The search ends the eviction. *)
Lemma search_evicted s cb c c7 s7 ev s8 : map_inv s → servers_ok submit_queues s →
  zget (cb_list s) cb = Some c → zget (cb_state_list s) cb = Some CB_MAPPED →
  given_up s cb c c7 s7 ev → searched ev STACKBD_SIZE_G s7 s8 →
  0 ≤ cb < len (cb_state_list s8) ∧
  evicted s cb (s8 <| cb_state_list := zset (cb_state_list s8) cb CB_MAPPED |>
                   <| trigger_enable := TRIGGER_ON |>).
Proof.
  intros Hi0 Hs Hc Hst Hg [Hi8 Hs8 Hl8 Ho8 Hf8 [Hp8 Hon8 Hcl8 _]].
  destruct (given_up_ok _ _ _ _ _ _ Hi0 Hs Hc Hst Hg) as (Hs7 & Hk7 & Hon7 & Hst7).
  pose proof (Hcl8 _ _ Hst7 eq_refl) as Hst8. pose proof (zget_Some_range _ _ _ Hst8) as Hr8.
  split; [done|]. set (s' := _ <| trigger_enable := TRIGGER_ON |>).
  assert (map_inv s') as Hi' by by apply (map_inv_ext s8). split; try done.
  - destruct (so_cb _ _ Hs8 _ _ Hst8) as (c8 & Hc8 & Hf).
    eapply (servers_ext _ (s8 <| cb_state_list := zset (cb_state_list s8) cb CB_MAPPED |>)); try done.
    apply (servers_state _ s8 cb c8 CB_MAPPED Hs8 Hc8); [done|]. exact (so_pools _ _ Hs8 _ _ Hst8).
  - intros Hset gb Hgb. change (unmapped s8 gb). change (zget (cb_index_map s8) gb = Some NO_CB_MAPPED) in Hgb.
    destruct (decide (zget ev gb = Some 1)) as [He|He].
    + apply Hf8; [|done..]. apply zget_Some_range in He. rewrite <- (gu_len _ _ _ _ _ _ Hg). lia.
    + destruct (Ho8 gb He) as [E1 E2]. unfold unmapped. rewrite Hgb, E2.
      rewrite E1, (gu_same _ _ _ _ _ _ Hg gb He) in Hgb. destruct (Hset gb Hgb) as [_ Hu].
      destruct (gu_sess _ _ _ _ _ _ Hg) as (im & n & ->). done.
  - intros Hon. apply Hon7, Hon8 in Hon. exact Hon.
  - transitivity s7; [done|]. transitivity s8; [by apply keeps_nobody|]. by apply keeps_same.
  - simpl. by apply zget_zset_eq.
Qed.

(** The slots of a cancelled and cleared control block. *)
Lemma cancelled_slots s cb c s1 ev cm rk c7 cl : cb_wf cb c → 
  cancelled s cb c MAX_MR_SIZE_GB s1 ev cm rk →
  chunk_map (remote_chunk c7) = cm → chunk_list (remote_chunk c7) = cl →
  (∀ i, marked c i = false → zget cl i = zget (chunk_list (remote_chunk c)) i) →
  slots_keep (cb = cb) c c7.
Proof.
  intros Hwf Hca Em El Hcl i gb Hne. rewrite Em, El. split; [|by intros _ []]. intros Hg. left.
  split; [by eapply ca_sub|]. apply Hcl. destruct (marked c i) eqn:Hm; [|done]. exfalso. apply Hne.
  pose proof (zget_Some_range _ _ _ Hg) as Hr. pose proof (cw_map _ _ (ca_wf _ _ _ _ _ _ _ _ Hca)) as Hl.
  cbn in Hl. rewrite (ca_done _ _ _ _ _ _ _ _ Hca i) in Hg by (done || lia). congruence.
Qed.

Lemma evict_stop_ok s cb c : map_inv s → servers_ok submit_queues s →
  zget (cb_list s) cb = Some c → zget (cb_state_list s) cb = Some CB_MAPPED →
  marks_ok c → shrink_size_g (remote_chunk c) ≠ 0 → 0 ≤ submit_queues → quiet s cb →
  ∃ rk s', evict_stop submit_queues single_chunk_map s cb = Ok (Some (done_msg c rk), s') ∧
    evicted s cb s' ∧ len rk = MAX_MR_SIZE_GB ∧
    ∀ i, 0 ≤ i < MAX_MR_SIZE_GB → zget rk i = Some (if marked c i then 1 else 0).
Proof.
  intros Hinv Hs Hc Hst Hmk Hsz Hsq Hquiet.
  destruct (servers_ready _ _ _ _ _ Hs Hst ltac:(done) ltac:(done) Hc) as [Hwf _].
  pose proof (zget_Some_range _ _ _ Hst) as Hcb.
  unfold evict_stop. rewrite (read_cb_at _ _ _ Hc). cbn [res_bind].
  rewrite (proj2 (Z.eqb_neq _ _) Hsz), (cw_index _ _ Hwf).
  set (s0 := s <| trigger_enable := TRIGGER_OFF |>).
  destruct (cancel_slots_ok s0 cb c) as (s1 & ev & cm & rk & -> & Hca);
    [by eapply (map_inv_ext s) | done..|]. cbn [res_bind].
  destruct (cancelled_cb s0 _ _ _ _ _ _ _ Hc Hca) as [Hc1 Hwf1].
  pose proof (cancelled_bitmaps s0 _ _ _ _ _ _ _ Hwf Hmk Hca) as Hbm.
  pose proof Hca as [Hinv1 _ [im Es1] _ _ Hrkl Hkeys Hevl Hlim Hsub Hsm].
  unfold IS_chunk_wait_in_flight_requests. rewrite (scan_quiet s1 cb _ Hc1) by
    (try done; simpl; rewrite (cw_index _ _ Hwf), Es1; exact Hquiet). cbn [res_bind].
  destruct (clear_slots_ok s1 cb _ Hinv1 Hc1 Hwf1 Hbm)
    as (s2 & cl & rm & -> & Hinv2 & Hwf2 & Es2 & Hcl & _). cbn [res_bind].
  assert (zget (cb_list s2) cb = Some (with_chunks (with_maps c cm rk) cl rm)) as Hc2.
  { rewrite Es2. simpl. apply zget_zset_eq. eauto with zarr. }
  set (s3 := s2 <| mapped_cb_num := _ |>). rewrite (with_cb_at s3 _ _ _ Hc2). cbn [res_bind].
  set (s4 := s3 <| cb_list := _ |>). unfold IS_send_done, post_msg.
  erewrite (read_cb_at s4) by (apply zget_zset_eq; eauto with zarr). cbn [res_bind].
  erewrite (write_cb_at s4) by (apply zget_zset_eq; eauto with zarr). cbn [res_bind].
  set (s5 := s4 <| cb_list := _ |>).
  erewrite (with_cb_at s5) by (apply zget_zset_eq; simpl; rewrite !len_zset; eauto with zarr). cbn [res_bind].
  match goal with |- context [zset (cb_list s5) cb ?c'] => set (c7 := c') end.
  set (s6 := s5 <| cb_list := _ |>).
  assert (s6 = s2 <| mapped_cb_num := mapped_cb_num s3 |> <| cb_list := zset (cb_list s2) cb c7 |>) as Es6
    by (subst s6 s5 s4 s3; simpl; by rewrite !zset_zset).
  assert (cb_state_list s6 = cb_state_list s) as Est by (rewrite Es6, Es2, Es1; done).
  unfold set_cb_state. rewrite wr_ok by exact (eq_ind_r (λ l, 0 ≤ cb < len l) Hcb Est). cbn [res_bind].
  match goal with |- context [for_upto _ _ ?s0] => set (s7 := s0) end.
  assert (given_up s cb c c7 s7 ev) as Hg.
  { assert (cb_wf cb c7) as Hwf7 by (destruct Hwf2; by split). split; try done.
    - assert (map_inv (put_cb s2 cb c7)) as Hi7
        by exact (map_inv_cb s2 cb _ c7 Hinv2 Hc2 Hwf7 eq_refl).
      subst s7. rewrite Es6. by apply (map_inv_ext (put_cb s2 cb c7)).
    - exists im, (mapped_cb_num s3). subst s7. rewrite Es6, Es2, Es1. cbn. rewrite !zset_zset. reflexivity.
    - by eapply cancelled_slots.
    - subst s7. rewrite Es6, Es2. exact Hlim.
    - intros k Hk. subst s7. rewrite Es6, Es2. cbn. by rewrite (Hsm k Hk). }
  destruct (given_up_ok _ _ _ _ _ _ Hinv Hs Hc Hst Hg) as (Hs7 & _).
  destruct (remap_ok ev STACKBD_SIZE_G s7) as (s8 & -> & Hsr); [apply Hg | done | apply Hg | done|].
  cbn [res_bind]. destruct (search_evicted _ _ _ _ _ _ _ Hinv Hs Hc Hst Hg Hsr) as [Hr8 Hev].
  rewrite wr_ok by done. cbn [res_bind]. exists rk. eexists. split; [done|]. done.
Qed.

End Eviction.
