(* ===== verification/Select.v ===== *)
(** Server selection ([is_main.c], [IS_single_chunk_map]) and the thread that asks for it
    ([rdma_trigger]).

    [get_random_bytes] is the function [rand] of the number of the draw.  The messages the
    servers send while the client waits are functions of the server and, for a chunk that is
    asked for, of the chunk. *)

From Stdlib Require Import ZArith Lia.
From stdpp Require Import base tactics list numbers option.
From S2P Require Import Prelude Types ByteOrder Bitmap CtxPool Stackbd Request Views ChunkMap.
From S2P Require Import MapInv Session.

(** The answers of the servers. *)
Record peers := {
  free_size_msg : Z → IS_rdma_info;
  bind_reply : Z → Z → IS_rdma_info;
}.

Section Select.
Context `{C : Config}.

(** * Which servers to ask *)

(** The state of server [i] allows no new chunk. *)
Definition cb_busy (s : IS_session) (i : Z) : bool :=
  match zget (cb_state_list s) i with
  | Some st => cb_state_val CB_EVICTING <=? cb_state_val st
  | None => true
  end.

Definition avail_cb (s : IS_session) : res Z :=
  for_upto (cb_num s) (λ i n,
    let* st := rd (cb_state_list s) i in
    Ok (if cb_state_val CB_EVICTING <=? cb_state_val st then n - 1 else n)) (cb_num s).

(** All servers that can be asked, in order. *)
Definition all_servers (s : IS_session) : res (list Z) :=
  for_upto (cb_num s) (λ i selection,
    let* st := rd (cb_state_list s) i in
    Ok (if cb_state_val st <? cb_state_val CB_EVICTING then selection ++ [i] else selection)) [].

(** [SERVER_SELECT_NUM] draws without repetition. *)
Definition draw_servers (rand : Z → Z) (s : IS_session) : res (list Z * list Z) :=
  for_upto SERVER_SELECT_NUM (λ j '(selection, marks),
    let* x := probe (Z.to_nat (cb_num s)) (cb_num s)
                (λ x, cb_busy s x || match zget marks x with Some 1 => true | _ => false end)
                (rand j mod cb_num s) in
    let* marks := wr marks x 1 in
    Ok (selection ++ [x], marks)) ([], replicate (Z.to_nat (cb_num s)) (2 ^ 32 - 1)).

Definition select_servers (rand : Z → Z) (s : IS_session) : res (list Z) :=
  let* n := avail_cb s in
  if n <=? SERVER_SELECT_NUM then all_servers s
  else let* (selection, _) := draw_servers rand s in Ok selection.

(** * Asking *)

(** Sleep until server [cb] sends [m] and the handler leaves state [st]. *)
Definition wait_for (s : IS_session) (cb : Z) (m : IS_rdma_info) (st : test_state)
  : res IS_session :=
  let* s := with_cb s cb (λ c, c <| recv_buf := m |>) in
  let* (_, s) := client_recv s cb sizeof_rdma_info in
  let* c := read_cb s cb in
  if decide (state c = st) then Ok s else Fault Blocked.

(** While [rdma_connect_upper] and [rdma_connect_down] run: the events the connection manager
    reports for a connection that is established. *)
Definition connect (s : IS_session) (cb : Z) : res IS_session :=
  foldl (λ s ev, let* s := s in
    match cma_state ev with Some st => set_state s cb st | None => Ok s end)
    (Ok s) [EV_ADDR_RESOLVED; EV_ROUTE_RESOLVED; EV_ESTABLISHED].

Definition ask_server (submit_queues : Z) (p : peers) (s : IS_session) (cb : Z)
  : res (Z * IS_session) :=
  let* st := rd (cb_state_list s) cb in
  let* s :=
    if cb_state_val CB_IDLE <? cb_state_val st then
      let* (_, s) := IS_send_query s cb in
      let* s := wait_for s cb (free_size_msg p cb) FREE_MEM_RECV in
      set_state s cb AFTER_FREE_MEM
    else
      let* c := read_cb s cb in
      let* c := deref (kernel_cb_init 0 submit_queues c).2 in
      let* s := write_cb s cb c in
      let* s := connect s cb in
      let* s := wait_for s cb (free_size_msg p cb) FREE_MEM_RECV in
      let* s := set_state s cb AFTER_FREE_MEM in
      set_cb_state s cb CB_CONNECTED in
  let* c := read_cb s cb in
  Ok (target_size_g (remote_chunk c), s).

(** [free_mem] and [free_mem_sorted] after the loop; a server that failed meanwhile keeps
    -1 and [NUM_CB]. *)
Definition ask_servers (submit_queues : Z) (p : peers) (selection : list Z) (s : IS_session)
  : res (list Z * list Z * IS_session) :=
  let n := length selection in
  for_upto (len selection) (λ i '(free_mem, sorted, s),
    let* cb := rd selection i in
    let* st := rd (cb_state_list s) cb in
    if decide (st = CB_FAIL) then Ok (free_mem, sorted, s)
    else
      let* (f, s) := ask_server submit_queues p s cb in
      let* free_mem := wr free_mem i f in
      let* sorted := wr sorted i cb in
      Ok (free_mem, sorted, s)) (replicate n (-1), replicate n (cb_num s), s).

(** * The server with the most memory *)

(** Exchange places 0 and [j] by sums and differences of [int]s. *)
Definition swap_first (l : list Z) (j : Z) : res (list Z) :=
  let* a := rd l 0 in
  let* b := rd l j in
  let* l := wr l 0 (s32 (a + b)) in
  let* a := rd l 0 in
  let* l := wr l j (s32 (a - b)) in
  let* b := rd l j in
  wr l 0 (s32 (a - b)).

Definition best_first (free_mem sorted : list Z) : res (list Z * list Z) :=
  for_from 1 (length free_mem - 1) (λ j '(free_mem, sorted),
    let* a := rd free_mem 0 in
    let* b := rd free_mem j in
    if a <? b then
      let* free_mem := swap_first free_mem j in
      let* sorted := swap_first sorted j in
      Ok (free_mem, sorted)
    else Ok (free_mem, sorted)) (free_mem, sorted).

(** * Mapping a chunk *)

Definition IS_single_chunk_map (submit_queues : Z) (kzalloc_ok : Z → Z → bool) (rand : Z → Z)
  (p : peers) (s : IS_session) (select_chunk : Z) : res (Z * IS_session) :=
  let* selection := select_servers rand s in
  if len selection =? 0 then Ok (-1, s)
  else
    let* (free_mem, sorted, s) := ask_servers submit_queues p selection s in
    let* (free_mem, sorted) := best_first free_mem sorted in
    let* f := rd free_mem 0 in
    if f =? 0 then Ok (-1, s)
    else
      let* cb := rd sorted 0 in
      let* c := read_cb s cb in
      let* st := rd (cb_state_list s) cb in
      let* s :=
        if decide (st = CB_CONNECTED) then
          let s := s <| mapped_cb_num := s32 (mapped_cb_num s + 1) |> in
          IS_ctx_dma_setup kzalloc_ok submit_queues (cb_size c) cb s
        else Ok s in
      let* (_, s) := IS_send_bind_single s cb select_chunk in
      let* s := wait_for s cb (bind_reply p cb select_chunk) WAIT_OPS in
      Ok (select_chunk, s <| rdma_on := DEV_RDMA_ON |>).

(** * The trigger *)

Section Trigger.
(** [IS_single_chunk_map], whose result is not used. *)
Variable single_chunk_map : IS_session → Z → res IS_session.

(** The activity of chunk [i] in this period, filtered, in [unsigned long] arithmetic. *)
Definition filtered_ops (s : IS_session) (w r last : Z) : Z :=
  let r_weight := 100 - w_weight s in
  let last_weight := 100 - cur_weight s in
  let cur_ops := u64 (u64 (w_weight s) * w + u64 r_weight * r) in
  u64 (u64 (cur_weight s) * cur_ops + u64 last_weight * last).

Definition trigger_chunk (i : Z) (s : IS_session) : res IS_session :=
  let* w := rd (write_ops s) i in
  let* r := rd (read_ops s) i in
  let* wo := wr (write_ops s) i 0 in
  let* ro := wr (read_ops s) i 0 in
  let* last := rd (last_ops s) i in
  let f := filtered_ops s w r last in
  let* lo := wr (last_ops s) i f in
  let s := s <| write_ops := wo |> <| read_ops := ro |> <| last_ops := lo |> in
  if trigger_threshold s <? f then
    if trigger_enable s =? TRIGGER_ON then
      let* cb := rd (cb_index_map s) i in
      if cb =? NO_CB_MAPPED then single_chunk_map s i else Ok s
    else Ok s
  else Ok s.

(** One period of [rdma_trigger]. *)
Definition trigger_period (s : IS_session) : res IS_session :=
  for_upto STACKBD_SIZE_G trigger_chunk s.

End Trigger.

End Select.
