(* ===== verification/Trigger.v ===== *)
(** A period of the trigger thread, against the interface of server selection: it asks for a
    server only for chunks that are unmapped, and keeps the invariant of the client. *)

From Stdlib Require Import ZArith Lia.
From stdpp Require Import base tactics list numbers option.
From S2P Require Import Prelude Types ByteOrder Bitmap CtxPool Stackbd Request Views ChunkMap.
From S2P Require Import MapInv World Transfer Servers Pages Session Eviction Select.

Section Trigger.
Context `{C : Config}.
Variable submit_queues : Z.
Context (single_chunk_map : IS_session → Z → res IS_session).
Context `{M : !ChunkMapper submit_queues single_chunk_map}.

Lemma remaps_settled s gb s' : settled s → remaps s gb s' → settled s'.
Proof.
  intros Hs [Ho Hc _] k Hk. destruct (decide (k = gb)) as [->|Hne]; [by apply Hc|].
  destruct (Ho k Hne) as [E1 E2]. rewrite E1 in Hk. destruct (Hs k Hk) as [? ?].
  split; congruence.
Qed.

(** The mapper keeps the invariant of the client. *)
Lemma mapper_client s gb : client_inv submit_queues s → unmapped s gb →
  ∃ s', single_chunk_map s gb = Ok s' ∧ client_inv submit_queues s' ∧ remaps s gb s'.
Proof.
  intros [Hi Hs Hset Hops Hon] Hu. destruct (mapper_ok s gb Hi Hs Hu) as (s' & E & Hi' & Hs' & Hr).
  exists s'. split_and!; try done. destruct (rm_rest _ _ _ Hr) as [Hp Hon' _ _ _].
  split; [done | done | by eapply remaps_settled | by eapply keeps_ops | auto].
Qed.

(** The counters of a client are its own. *)
Lemma client_ops s wo ro lo : client_inv submit_queues s →
  len wo = STACKBD_SIZE_G → len ro = STACKBD_SIZE_G → len lo = STACKBD_SIZE_G →
  client_inv submit_queues (s <| write_ops := wo |> <| read_ops := ro |> <| last_ops := lo |>).
Proof.
  intros [Hi Hs Hset Hops Hon] Hw Hr Hl.
  split; [by apply (map_inv_ext s) | by apply (servers_ext _ s) | exact Hset | done | exact Hon].
Qed.

Lemma trigger_chunk_ok i s w r last : client_inv submit_queues s →
  zget (write_ops s) i = Some w → zget (read_ops s) i = Some r → zget (last_ops s) i = Some last →
  ∃ s', trigger_chunk single_chunk_map i s = Ok s' ∧ client_inv submit_queues s' ∧
    keeps_pages nobody s s' ∧ w_weight s' = w_weight s ∧ cur_weight s' = cur_weight s ∧
    write_ops s' = zset (write_ops s) i 0 ∧ read_ops s' = zset (read_ops s) i 0 ∧
    last_ops s' = zset (last_ops s) i (filtered_ops s w r last).
Proof.
  intros Hci Ew Er El. destruct (ci_ops _ _ Hci) as [Hw Hr Hl]. unfold trigger_chunk.
  pose proof (zget_Some_range _ _ _ Ew) as Hi. rewrite Hw in Hi.
  rewrite (rd_ok _ _ _ Ew), (rd_ok _ _ _ Er). cbn [res_bind].
  rewrite wr_ok by lia. cbn [res_bind]. rewrite wr_ok by lia. cbn [res_bind].
  rewrite (rd_ok _ _ _ El). cbn [res_bind]. rewrite wr_ok by lia. cbn [res_bind].
  set (s1 := s <| write_ops := _ |> <| read_ops := _ |> <| last_ops := _ |>).
  assert (client_inv submit_queues s1) as Hci1 by (apply client_ops; rewrite ?len_zset; done).
  assert (keeps_pages nobody s s1) as Hk1 by (apply keeps_same; try done; apply len_zset).
  destruct (_ <? _); [|by exists s1]. destruct (_ =? TRIGGER_ON); [|by exists s1].
  destruct (zget_is_Some (cb_index_map s1) i) as [cb Hcb]; [rewrite (mi_index _ (ci_map _ _ Hci1)); lia|].
  rewrite (rd_ok _ _ _ Hcb). cbn [res_bind]. destruct (Z.eqb_spec cb NO_CB_MAPPED) as [->|]; [|by exists s1].
  destruct (mapper_client s1 i Hci1) as (s2 & -> & Hci2 & Hrm); [by apply (ci_settled _ _ Hci1)|].
  destruct (rm_rest _ _ _ Hrm) as [Hp _ _ (E1 & E2 & E3) (E4 & E5)].
  exists s2. split_and!; try done; [by transitivity s1 | congruence..].
Qed.

(** The first [n] chunks are filtered, the others not yet. *)
Record filtered_upto (s : IS_session) (n : Z) (s' : IS_session) : Prop := {
  fu_w : w_weight s' = w_weight s;
  fu_cur : cur_weight s' = cur_weight s;
  fu_rest : ∀ i, n ≤ i → zget (write_ops s') i = zget (write_ops s) i ∧
    zget (read_ops s') i = zget (read_ops s) i ∧ zget (last_ops s') i = zget (last_ops s) i;
  fu_done : ∀ i w r last, 0 ≤ i < n → zget (write_ops s) i = Some w → zget (read_ops s) i = Some r →
    zget (last_ops s) i = Some last →
    zget (write_ops s') i = Some 0 ∧ zget (read_ops s') i = Some 0 ∧
    zget (last_ops s') i = Some (filtered_ops s w r last);
}.

Lemma filtered_next s n s1 s2 w r last : filtered_upto s n s1 → 
  zget (write_ops s1) n = Some w → zget (read_ops s1) n = Some r → zget (last_ops s1) n = Some last →
  w_weight s2 = w_weight s1 ∧ cur_weight s2 = cur_weight s1 ∧
    write_ops s2 = zset (write_ops s1) n 0 ∧ read_ops s2 = zset (read_ops s1) n 0 ∧
    last_ops s2 = zset (last_ops s1) n (filtered_ops s1 w r last) →
  filtered_upto s (n + 1) s2.
Proof.
  intros [F1 F2 F3 F4] Hw Hr Hl (E1 & E2 & E3 & E4 & E5). split; [congruence..| |].
  - intros i Hi. rewrite E3, E4, E5, !zget_zset_ne by lia. apply F3. lia.
  - intros i w0 r0 l0 Hi Hw0 Hr0 Hl0. rewrite E3, E4, E5. destruct (decide (i = n)) as [->|Hne].
    + destruct (F3 n) as (G1 & G2 & G3); [lia|]. rewrite G1 in Hw. rewrite G2 in Hr. rewrite G3 in Hl.
      simplify_eq. rewrite !zget_zset_eq by (eapply zget_Some_range; rewrite ?G1, ?G2, ?G3; done).
      unfold filtered_ops. by rewrite F1, F2.
    + rewrite !zget_zset_ne by done. apply F4; [lia | done..].
Qed.

Lemma trigger_period_ok s : client_inv submit_queues s →
  ∃ s', trigger_period single_chunk_map s = Ok s' ∧ client_inv submit_queues s' ∧
    keeps_pages nobody s s' ∧
    ∀ i w r last, zget (write_ops s) i = Some w → zget (read_ops s) i = Some r →
      zget (last_ops s) i = Some last →
      zget (write_ops s') i = Some 0 ∧ zget (read_ops s') i = Some 0 ∧
      zget (last_ops s') i = Some (filtered_ops s w r last).
Proof.
  intros Hci. pose proof stackbd_size_pos.
  destruct (for_upto_inv (λ n s', client_inv submit_queues s' ∧ keeps_pages nobody s s' ∧
      filtered_upto s n s') (trigger_chunk single_chunk_map) STACKBD_SIZE_G s)
    as (s' & E & H1 & H2 & [_ _ _ H3]); [lia | split_and!; [done..|] | |].
  { split; try done. lia. }
  2:{ exists s'. split_and!; try done. intros i w r last Hw. apply H3; [|done].
      apply zget_Some_range in Hw. by rewrite <- (ow_write _ (ci_ops _ _ Hci)). }
  intros i s1 Hi (H1 & H2 & H3). destruct (ci_ops _ _ H1) as [Hw Hr Hl].
  destruct (zget_is_Some (write_ops s1) i) as [w Ew]; [lia|].
  destruct (zget_is_Some (read_ops s1) i) as [r Er]; [lia|].
  destruct (zget_is_Some (last_ops s1) i) as [last El]; [lia|].
  destruct (trigger_chunk_ok i s1 w r last H1 Ew Er El) as (s2 & E & Hc2 & Hk2 & Hf2).
  exists s2. split_and!; [done | done | by transitivity s1|]. by eapply (filtered_next s i s1 s2).
Qed.

Lemma trigger_client s s' : client_inv submit_queues s → trigger_period single_chunk_map s = Ok s' →
  client_inv submit_queues s' ∧ keeps_pages nobody s s'.
Proof.
  intros Hci H. destruct (trigger_period_ok s Hci) as (s2 & E & H1 & H2 & _).
  rewrite H in E. by injection E as <-.
Qed.

End Trigger.
