(* ===== verification/MapSafety.v ===== *)
(** The chunk mapping as a state machine: sessions change when a server is connected, when
    a message of a server arrives, and when an eviction runs.  The mapping invariant holds in
    every session that [IS_session_create] and these steps reach. *)

From Stdlib Require Import ZArith Lia Ascii String.
From stdpp Require Import relations base tactics list numbers option.
From S2P Require Import Prelude Types ByteOrder Bitmap CtxPool Stackbd Request Views ChunkMap.
From S2P Require Import MapInv World Transfer Servers Pages Session Eviction Select Trigger.

Section MapSafety.
Context `{C : Config}.

(** * What a server promises *)

(** The slot a message offers: the first one with a key. *)
Definition first_key (m : IS_rdma_info) : option Z :=
  match list_find (λ k, k ≠ 0) (rkey m) with
  | Some (i, _) => Some (Z.of_nat i)
  | None => None
  end.

Record msg_wf (m : IS_rdma_info) : Prop := {
  mw_buf : len (buf m) = MAX_MR_SIZE_GB;
  mw_rkey : len (rkey m) = MAX_MR_SIZE_GB;
}.

(** The daemon answers BIND_SINGLE only, so INFO never comes; an INFO_SINGLE names the chunk
    that was asked for, which is unmapped, and a slot it has not given yet.  (That a STOP
    only names slots that are mapped is asked where the eviction acts on it, [marks_ok].) *)
Definition promise (s : IS_session) (c : kernel_cb) (m : IS_rdma_info) : Prop :=
  msg_wf m ∧
  match type m with
  | INFO => False
  | INFO_SINGLE => unmapped s (size_gb m) ∧
      ∀ i, first_key m = Some i → zget (chunk_map (remote_chunk c)) i = Some (-1)
  | _ => True
  end.

(** * INFO_SINGLE *)

Lemma first_key_Some m i : first_key m = Some i →
  ∃ k, zget (rkey m) i = Some k ∧ k ≠ 0 ∧ ∀ j k', 0 ≤ j < i → zget (rkey m) j = Some k' → k' = 0.
Proof.
  unfold first_key. destruct (list_find _ _) as [[n k]|] eqn:E; [|done]. simpl. intros [= <-].
  apply list_find_Some in E as (H1 & H2 & H3). exists k. rewrite zget_nat. split_and!; try done.
  intros j k' Hj Hk'. unfold zget in Hk'. rewrite decide_True in Hk' by lia.
  destruct (decide (k' = 0)); [done|]. exfalso. apply (H3 (Z.to_nat j) k'); [done | lia | done].
Qed.

Lemma first_key_None m i k : first_key m = None → zget (rkey m) i = Some k → k = 0.
Proof.
  unfold first_key. destruct (list_find _ _) as [[]|] eqn:E; [done|]. intros _ Hk.
  apply list_find_None in E. destruct (decide (k = 0)); [done|].
  by apply (Forall_zget _ _ _ _ E) in Hk.
Qed.

(** What [IS_single_chunk_init] makes of the session. *)
Definition single_mapped (s : IS_session) (cb : Z) (c : kernel_cb) (i rk bf : Z) : IS_session :=
  let s1 := mapped_session s cb c i (size_gb (recv_buf c)) rk bf in
  s1 <| cb_list := zset (cb_list s1) cb
         (mapped_cb c i (size_gb (recv_buf c)) rk bf <| remote_chunk ::= λ rc,
            rc <| chunk_size_g := chunk_size_g rc + 1 |> <| c_state := C_READY |> |>) |>.

Lemma single_chunk_init_eq s cb c : map_inv s → zget (cb_list s) cb = Some c → cb_wf cb c →
  msg_wf (recv_buf c) → 0 ≤ size_gb (recv_buf c) < STACKBD_SIZE_G →
  IS_single_chunk_init s cb = Ok (
    match first_key (recv_buf c) with
    | None => s
    | Some i =>
        match zget (rkey (recv_buf c)) i, zget (buf (recv_buf c)) i with
        | Some rk, Some bf => single_mapped s cb c i rk bf
        | _, _ => s
        end
    end).
Proof.
  intros Hinv Hc Hwf [Hb Hr] Hg. unfold IS_single_chunk_init.
  rewrite (read_cb_at _ _ _ Hc). cbn [res_bind]. pose proof max_mr_pos.
  destruct (first_key (recv_buf c)) as [i|] eqn:Hf.
  - apply first_key_Some in Hf as (k & Hk & Hne & Hbefore).
    pose proof (zget_Some_range _ _ _ Hk) as Hi. rewrite Hr in Hi.
    destruct (zget_is_Some (buf (recv_buf c)) i) as [bf Hbf]; [lia|]. rewrite Hk, Hbf.
    match goal with |- context [for_upto_break _ ?b ?s0] =>
      destruct (for_upto_break_inv (λ j s', s' = s ∧ j ≤ i)
        (λ j s', j = i ∧ s' = single_mapped s cb c i k bf) b MAX_MR_SIZE_GB s0)
        as (out & -> & Hout) end; [lia | split; [done | lia] | |].
    + intros j s' Hj [-> Hle]. destruct (zget_is_Some (rkey (recv_buf c)) j) as [k' Hk']; [lia|].
      rewrite (rd_ok _ _ _ Hk'). cbn [res_bind].
      destruct (Z.eqb_spec k' 0) as [->|Hk0].
      * eexists. split; [done|]. split; [done|]. assert (j ≠ i) by congruence. lia.
      * assert (j = i) as ->.
        { destruct (decide (j = i)); [done|]. destruct Hk0. apply (Hbefore j); [lia | done]. }
        rewrite Hk in Hk'. injection Hk' as <-. rewrite (rd_ok _ _ _ Hbf). cbn [res_bind].
        rewrite (map_slot_eq _ _ c) by done. cbn [res_bind].
        rewrite (with_cb_at _ _ (mapped_cb c i (size_gb (recv_buf c)) k bf))
          by (apply zget_zset_eq; eauto with zarr).
        cbn [res_bind]. eexists. split; [done|]. done.
    + cbn [res_bind]. destruct out as [s'|s']; [lia|]. by destruct Hout as (j & _ & _ & ->).
  - match goal with |- context [for_upto_break _ ?b ?s0] =>
      destruct (for_upto_break_inv (λ j s', s' = s) (λ j s', False) b MAX_MR_SIZE_GB s0)
        as (out & -> & Hout) end; [lia | done | |].
    + intros j s' Hj ->. destruct (zget_is_Some (rkey (recv_buf c)) j) as [k' Hk']; [lia|].
      rewrite (rd_ok _ _ _ Hk'). cbn [res_bind].
      apply (first_key_None _ _ _ Hf) in Hk' as ->. by eexists.
    + cbn [res_bind]. destruct out as [s'|s']; [by subst | by destruct Hout as (? & _ & [])].
Qed.

Lemma single_mapped_inv s cb c i rk bf : map_inv s → zget (cb_list s) cb = Some c →
  zget (chunk_map (remote_chunk c)) i = Some (-1) → unmapped s (size_gb (recv_buf c)) →
  map_inv (single_mapped s cb c i rk bf).
Proof.
  intros Hinv Hc Hi Hu. pose proof (cb_ready _ _ _ _ _ Hinv Hc Hi) as Hwf.
  pose proof (map_slot_inv s cb c i _ rk bf Hinv Hc Hi Hu) as Hm.
  eapply map_inv_cb; [done | apply zget_zset_eq; eauto with zarr | | done].
  destruct (mapped_cb_wf cb c i (size_gb (recv_buf c)) rk bf Hwf). by split.
Qed.

(** * Every message *)

(** An offer is taken: one of its slots, which was free, serves the chunk; without a key in the
    message only the state of the connection changes. *)
Inductive offer_taken (s : IS_session) (cb : Z) (c : kernel_cb) : IS_session → Prop :=
  | ot_empty : offer_taken s cb c (put_cb s cb c)
  | ot_slot i rk bf : zget (chunk_map (remote_chunk c)) i = Some (-1) →
      unmapped s (size_gb (recv_buf c)) →
      offer_taken s cb c (single_mapped s cb c i rk bf).

(** What a message does to the session: nothing, an update of the control block that keeps its
    slots, or the acceptance of an offer. *)
Inductive received (s : IS_session) (cb : Z) (c : kernel_cb) : IS_session → Prop :=
  | rv_nothing : received s cb c s
  | rv_update c' : cb_same c c' → chunk_list (remote_chunk c') = chunk_list (remote_chunk c) →
      received s cb c (put_cb s cb c')
  | rv_offer s' : type (recv_buf c) = INFO_SINGLE →
      test_state_val CONNECTED ≤ test_state_val (state c) →
      offer_taken (s <| cb_state_list := zset (cb_state_list s) cb CB_MAPPED |>) cb
        (c <| state := WAIT_OPS |>) s' → received s cb c s'.

Lemma cb_same_state c st : test_state_val CONNECTED ≤ test_state_val st → cb_same c (c <| state := st |>).
Proof. intros Hst. split; try done. intros cb []. by split. Qed.

Lemma put_cb_at s cb c c' : zget (cb_list s) cb = Some c → zget (cb_list (put_cb s cb c')) cb = Some c'.
Proof. intros Hc. apply zget_zset_eq. eauto with zarr. Qed.

Lemma put_cb_twice s cb c c' : put_cb (put_cb s cb c) cb c' = put_cb s cb c'.
Proof. unfold put_cb. cbn. by rewrite zset_zset. Qed.

(** A control block updated in place, its slot map kept. *)
Lemma with_cb_inv s cb c f : map_inv s → zget (cb_list s) cb = Some c → cb_wf cb (f c) →
  chunk_map (remote_chunk (f c)) = chunk_map (remote_chunk c) →
  with_cb s cb f = Ok (put_cb s cb (f c)) ∧ map_inv (put_cb s cb (f c)) ∧
  zget (cb_list (put_cb s cb (f c))) cb = Some (f c).
Proof.
  intros Hinv Hc Hwf Hm.
  split_and!; [by apply with_cb_at | by eapply map_inv_cb | by apply (put_cb_at _ _ c)].
Qed.

Lemma set_cb_state_inv s cb st : map_inv s → 0 ≤ cb < len (cb_state_list s) →
  set_cb_state s cb st = Ok (s <| cb_state_list := zset (cb_state_list s) cb st |>) ∧
  map_inv (s <| cb_state_list := zset (cb_state_list s) cb st |>).
Proof.
  intros Hinv Hr. unfold set_cb_state. rewrite wr_ok by done. split; [done|].
  by apply (map_inv_ext s).
Qed.

Lemma stop_marks_ok (ks : list Z) (m0 : list ascii) : len ks = MAX_MR_SIZE_GB →
  len m0 = MAX_MR_SIZE_GB →
  ∃ m, for_upto MAX_MR_SIZE_GB (λ i m,
      let* rk := rd ks i in wr m i (if rk =? 0 then "a"%char else "s"%char)) m0 = Ok m ∧
    len m = MAX_MR_SIZE_GB ∧
    ∀ i k, zget ks i = Some k → zget m i = Some (if k =? 0 then "a"%char else "s"%char).
Proof.
  intros Hk Hm. pose proof max_mr_pos.
  match goal with |- context [for_upto _ ?b ?s0] =>
    destruct (for_upto_inv (λ j m, len m = MAX_MR_SIZE_GB ∧ ∀ i k, i < j → zget ks i = Some k →
      zget m i = Some (if k =? 0 then "a"%char else "s"%char)) b MAX_MR_SIZE_GB s0)
      as (m & -> & Hl & Hall) end; [lia | | |].
  - split; [done|]. intros i k Hi Hg. apply zget_Some_range in Hg. lia.
  - intros j m Hj [Hl Hall]. destruct (zget_is_Some ks j) as [k Hkj]; [lia|].
    rewrite (rd_ok _ _ _ Hkj). simpl. rewrite wr_ok by lia. eexists. split; [done|].
    split; [by rewrite len_zset|]. intros i k' Hi Hg. rewrite zget_zset. case_decide as Hd.
    + destruct Hd as [<- _]. rewrite Hkj in Hg. by injection Hg as <-.
    + apply Hall; [|done]. assert (i ≠ j) by (intros ->; apply Hd; lia). lia.
  - exists m. split_and!; try done. intros i k Hg. apply Hall; [|done].
    apply zget_Some_range in Hg. lia.
Qed.

Lemma client_recv_stop_ok s cb c : zget (cb_list s) cb = Some c → cb_wf cb c →
  msg_wf (recv_buf c) →
  ∃ c', client_recv_stop s cb = Ok (put_cb s cb c') ∧ cb_same c c' ∧
    chunk_list (remote_chunk c') = chunk_list (remote_chunk c).
Proof.
  intros Hc Hwf [_ Hr]. unfold client_recv_stop. rewrite (read_cb_at _ _ _ Hc).
  cbn [res_bind]. rewrite (with_cb_at _ _ _ _ Hc). cbn [res_bind].
  destruct (size_gb (recv_buf c) =? 0).
  - erewrite with_cb_at by (by apply (put_cb_at _ _ c)).
    eexists. split; [unfold put_cb; cbn; by rewrite zset_zset|]. split; [|done].
    split; try done. intros cb' []. by split.
  - destruct (stop_marks_ok (rkey (recv_buf c)) (evict_chunk_map (remote_chunk c)))
      as (m & -> & Hl & _); [done | apply (cw_evict _ _ Hwf)|]. cbn [res_bind].
    erewrite with_cb_at by (by apply (put_cb_at _ _ c)).
    eexists. split; [unfold put_cb; cbn; by rewrite zset_zset|]. split; [|done].
    split; try done. intros cb' []. by split.
Qed.

Lemma recv_offer_ok s cb c : map_inv s → zget (cb_list s) cb = Some c → cb_wf cb c →
  promise s c (recv_buf c) → type (recv_buf c) = INFO_SINGLE →
  ∃ s', (let* s := set_state s cb WAIT_OPS in IS_single_chunk_init s cb) = Ok s' ∧
    offer_taken s cb (c <| state := WAIT_OPS |>) s'.
Proof.
  intros Hinv Hc Hwf [Hmsg Hp] Ht. rewrite Ht in Hp. destruct Hp as [[Hu1 Hu2] Hslot].
  set (c1 := c <| state := WAIT_OPS |>).
  assert (cb_wf cb c1) as Hwf1 by (destruct Hwf; by split).
  unfold set_state. rewrite (with_cb_at _ _ _ _ Hc). cbn [res_bind]. fold c1.
  change (s <| cb_list := _ |>) with (put_cb s cb c1).
  pose proof (put_cb_at s cb c c1 Hc) as Hc1.
  assert (map_inv (put_cb s cb c1)) as Hi1 by (by apply (map_inv_cb s cb c)).
  pose proof (zget_Some_range _ _ _ Hu1) as Hg. rewrite (mi_index _ Hinv) in Hg.
  rewrite (single_chunk_init_eq _ _ _ Hi1 Hc1 Hwf1) by done.
  eexists. split; [done|]. change (recv_buf c1) with (recv_buf c).
  destruct (first_key (recv_buf c)) as [i|] eqn:Hf; [|constructor].
  destruct (zget (rkey (recv_buf c)) i) as [rk|]; [|constructor].
  destruct (zget (buf (recv_buf c)) i) as [bf|]; [|constructor].
  replace (single_mapped (put_cb s cb c1) cb c1 i rk bf) with (single_mapped s cb c1 i rk bf)
    by (unfold single_mapped, mapped_session, put_cb; cbn; by rewrite !zset_zset).
  by apply ot_slot; [apply Hslot|].
Qed.

(** Handling a message never faults. *)
Lemma client_recv_ok s cb c byte_len : map_inv s → zget (cb_list s) cb = Some c → cb_wf cb c →
  0 ≤ cb < len (cb_state_list s) → promise s c (recv_buf c) →
  ∃ rc s', client_recv s cb byte_len = Ok (rc, s') ∧ received s cb c s'.
Proof.
  intros Hinv Hc Hwf Hst Hp. unfold client_recv. rewrite (read_cb_at _ _ _ Hc).
  cbn [res_bind]. destruct (negb _); [eexists _, _; split; [done | constructor]|].
  destruct (Z.ltb_spec (test_state_val (state c)) (test_state_val CONNECTED)) as [|Hcon];
    [eexists _, _; split; [done | constructor]|]. rewrite (cw_index _ _ Hwf).
  destruct (type (recv_buf c)) eqn:Ht; try (eexists _, _; split; [done | constructor]).
  - destruct Hp as [_ Hp]. by rewrite Ht in Hp.
  - unfold set_cb_state. rewrite wr_ok by done. cbn [res_bind].
    destruct (recv_offer_ok (s <| cb_state_list := zset (cb_state_list s) cb CB_MAPPED |>) cb c)
      as (s' & E & Ho); [by apply (map_inv_ext s) | done..|].
    apply res_bind_ok in E as (s1 & -> & E). cbn [res_bind]. rewrite E. cbn [res_bind].
    eexists _, _. split; [done|]. by apply rv_offer.
  - rewrite (with_cb_at _ _ _ _ Hc). cbn [res_bind]. eexists _, _. split; [done|].
    apply rv_update; [|done]. split; try done. intros cb' []. by split.
  - unfold set_state. rewrite (with_cb_at _ _ _ _ Hc). cbn [res_bind]. unfold client_recv_evict.
    erewrite read_cb_at by (by apply (put_cb_at _ _ c)). cbn [res_bind]. destruct (_ =? 0).
    + eexists _, _. split; [done|]. apply rv_update; [by apply cb_same_state | done].
    + erewrite with_cb_at by (by apply (put_cb_at _ _ c)). cbn [res_bind]. eexists _, _.
      split; [done|]. change (s <| cb_list := zset (cb_list s) cb ?x |>) with (put_cb s cb x).
      match goal with |- received _ _ _ (?s1 <| cb_list := _ |>) =>
        match goal with |- received _ _ _ (s1 <| cb_list := zset _ _ ?y |>) =>
          change (received s cb c (put_cb s1 cb y)) end end.
      rewrite put_cb_twice. apply rv_update; [|done]. split; try done. intros cb' []. by split.
  - unfold set_state. rewrite (with_cb_at _ _ _ _ Hc). cbn [res_bind].
    destruct (client_recv_stop_ok _ cb _ (put_cb_at s cb c (c <| state := RECV_STOP |>) Hc))
      as (c' & E & [A1 A2 Az A3 A4 A5] & El).
    { destruct Hwf. by split. }
    { apply Hp. }
    unfold put_cb in E at 1. rewrite E. cbn [res_bind]. eexists _, _. split; [done|].
    rewrite put_cb_twice. apply rv_update; [|done]. split; try done; [|by intros _; apply A5].
    intros cb' []. apply A1. by split.
Qed.

(** ** The invariant after a message *)

(** The session after an offer, its control block [c']. *)
Record taken (s : IS_session) (cb : Z) (c c' : kernel_cb) (s' : IS_session) : Prop := {
  tk_inv : map_inv s';
  tk_sess : ∃ fi cc im, s' = s <| free_chunk_index := fi |> <| chunk_map_cb_chunk := cc |>
    <| cb_index_map := im |> <| cb_list := zset (cb_list s) cb c' |>;
  tk_wf : cb_wf cb c';
  tk_state : state c' = state c;
  tk_slots : slots_keep False c c';
  tk_others : ∀ k, k ≠ size_gb (recv_buf c) → zget (cb_index_map s') k = zget (cb_index_map s) k ∧
    zget (chunk_map_cb_chunk s') k = zget (chunk_map_cb_chunk s) k;
  tk_free : ∀ k, zget (cb_index_map s') k = Some NO_CB_MAPPED →
    zget (cb_index_map s) k = Some NO_CB_MAPPED ∧
    zget (chunk_map_cb_chunk s') k = zget (chunk_map_cb_chunk s) k;
}.

Lemma offer_taken_ok s cb c s' : map_inv s → zget (cb_list s) cb = Some c → cb_wf cb c →
  offer_taken s cb c s' → ∃ c', taken s cb c c' s'.
Proof.
  intros Hinv Hc Hwf [|i rk bf Hi Hu].
  - exists c. split; try done; [by apply (map_inv_cb s cb c) | by exists (free_chunk_index s), (chunk_map_cb_chunk s), (cb_index_map s); destruct s | by apply slots_same].
  - set (gb := size_gb (recv_buf c)) in *. set (c' := mapped_cb c i gb rk bf <| remote_chunk ::= λ rc,
      rc <| chunk_size_g := chunk_size_g rc + 1 |> <| c_state := C_READY |> |>).
    exists c'. split.
    + by apply single_mapped_inv.
    + eexists _, _, _. unfold single_mapped, mapped_session. cbn. by rewrite zset_zset.
    + destruct (mapped_cb_wf cb c i gb rk bf Hwf). by split.
    + done.
    + exact (slots_mapped False c i gb rk bf Hi).
    + intros k Hk. cbn. fold gb. by rewrite !zget_zset_ne.
    + intros k. cbn. fold gb. destruct Hu as [Hu1 Hu2]. destruct (decide (k = gb)) as [->|Hne].
      * rewrite zget_zset_eq by eauto with zarr. intros [= E].
        apply zget_Some_range in Hc. unfold NO_CB_MAPPED in E. lia.
      * by rewrite !zget_zset_ne.
Qed.

Lemma offer_state_taken s cb c s' : map_inv s → zget (cb_list s) cb = Some c → cb_wf cb c →
  offer_taken (s <| cb_state_list := zset (cb_state_list s) cb CB_MAPPED |>) cb
    (c <| state := WAIT_OPS |>) s' →
  ∃ c', taken (s <| cb_state_list := zset (cb_state_list s) cb CB_MAPPED |>) cb
          (c <| state := WAIT_OPS |>) c' s'.
Proof.
  intros Hinv Hc Hwf Ho. set (s2 := s <| cb_state_list := _ |>) in *. set (c1 := c <| state := _ |>) in *.
  assert (map_inv s2) as Hi2 by by apply (map_inv_ext s).
  assert (cb_wf cb c1) as Hwf1 by (destruct Hwf; by split).
  assert (map_inv (put_cb s2 cb c1)) as Hi3 by by apply (map_inv_cb s2 cb c).
  destruct (offer_taken_ok (put_cb s2 cb c1) cb c1 s') as (c' & [T1 (fi & cc & im & T2) T3 T4 T5 T6 T7]);
    [done | by apply (put_cb_at _ _ c) | done | |].
  { destruct Ho as [|i rk bf Hi Hu].
    - pose proof (ot_empty (put_cb s2 cb c1) cb c1) as H. by rewrite put_cb_twice in H.
    - replace (single_mapped s2 cb c1 i rk bf) with (single_mapped (put_cb s2 cb c1) cb c1 i rk bf)
        by (unfold single_mapped, mapped_session, put_cb; cbn; by rewrite !zset_zset).
      by constructor. }
  exists c'. split; try done. exists fi, cc, im. rewrite T2. cbn. by rewrite zset_zset.
Qed.

Lemma received_ok s cb c s' : map_inv s → zget (cb_list s) cb = Some c → cb_wf cb c →
  received s cb c s' →
  s' = s ∨ (∃ c', s' = put_cb s cb c' ∧ cb_same c c' ∧
              chunk_list (remote_chunk c') = chunk_list (remote_chunk c)) ∨
  (type (recv_buf c) = INFO_SINGLE ∧ test_state_val CONNECTED ≤ test_state_val (state c) ∧
   ∃ c', taken (s <| cb_state_list := zset (cb_state_list s) cb CB_MAPPED |>) cb
           (c <| state := WAIT_OPS |>) c' s').
Proof.
  intros Hinv Hc Hwf [|c' Hsm El|s1 Ht Hcon Ho]; [by left | right; left; eauto|]. right; right.
  split_and!; try done. by apply offer_state_taken.
Qed.

(** An offer that arrives complete is taken. *)
Lemma recv_offer_taken s cb c : map_inv s → zget (cb_list s) cb = Some c → cb_wf cb c →
  0 ≤ cb < len (cb_state_list s) → promise s c (recv_buf c) → type (recv_buf c) = INFO_SINGLE →
  test_state_val CONNECTED ≤ test_state_val (state c) →
  ∃ s' c', client_recv s cb sizeof_rdma_info = Ok (0, s') ∧
    taken (s <| cb_state_list := zset (cb_state_list s) cb CB_MAPPED |>) cb
      (c <| state := WAIT_OPS |>) c' s'.
Proof.
  intros Hinv Hc Hwf Hst Hp Ht Hcon.
  destruct (recv_offer_ok (s <| cb_state_list := zset (cb_state_list s) cb CB_MAPPED |>) cb c)
    as (s' & E & Ho); [by apply (map_inv_ext s) | done..|].
  destruct (offer_state_taken s cb c s' Hinv Hc Hwf Ho) as (c' & Htk). exists s', c'. split; [|done].
  unfold client_recv. rewrite (read_cb_at _ _ _ Hc). cbn [res_bind]. rewrite Z.eqb_refl. cbn [negb].
  rewrite (proj2 (Z.ltb_ge _ _)) by done. rewrite Ht, (cw_index _ _ Hwf).
  unfold set_cb_state. rewrite wr_ok by done. cbn [res_bind].
  apply res_bind_ok in E as (s1 & -> & E). cbn [res_bind]. by rewrite E.
Qed.

Lemma received_inv s cb c s' : map_inv s → zget (cb_list s) cb = Some c → cb_wf cb c →
  received s cb c s' → map_inv s'.
Proof.
  intros Hi Hc Hwf Hr.
  destruct (received_ok _ _ _ _ Hi Hc Hwf Hr) as [->|[(c' & -> & Hsm & _)|(_ & _ & c' & Htk)]].
  - done.
  - apply (map_inv_cb _ _ _ _ Hi Hc); [by apply Hsm | apply Hsm].
  - apply Htk.
Qed.

(** * The invariant of the client *)

Variable submit_queues : Z.

Lemma taken_client s cb c c' s' : client_inv submit_queues s → zget (cb_list s) cb = Some c →
  zget (cb_state_list s) cb = Some CB_MAPPED → rdma_on s = DEV_RDMA_ON →
  test_state_val CONNECTED ≤ test_state_val (state c) →
  taken (s <| cb_state_list := zset (cb_state_list s) cb CB_MAPPED |>) cb
    (c <| state := WAIT_OPS |>) c' s' →
  client_inv submit_queues s' ∧ keeps_pages nobody s s'.
Proof.
  intros [Hi Hs Hset Hops Hon] Hc Hst Hr Hcon [T1 (fi & cc & im & T2) T3 T4 T5 T6 T7].
  assert (keeps_pages nobody s s') as Hk.
  { eapply (keeps_cb _ s s' cb c c'); try done; try (by subst s'); subst s'; by apply grow_same. }
  split; [|done]. split; [done | | | by eapply keeps_ops
    | intros ? ? ? _; by subst s'].
  - eapply (servers_update _ s s' cb c c' CB_MAPPED Hs Hc); try (by subst s').
    + split; [done|]. by rewrite T4.
    + subst s'. exact (so_pools _ _ Hs _ _ Hst).
  - intros k Hn. destruct (T7 k Hn) as [E1 E2]. split; [done|]. rewrite E2. apply (Hset k E1).
Qed.

(** The control block of a server changes without its slots. *)
Lemma client_cb s cb c c' : client_inv submit_queues s → zget (cb_list s) cb = Some c →
  map_inv (put_cb s cb c') → servers_ok submit_queues (put_cb s cb c') → slots_keep False c c' →
  client_inv submit_queues (put_cb s cb c') ∧ keeps_pages nobody s (put_cb s cb c').
Proof.
  intros [Hi Hs Hset Hops Hon] Hc Hi' Hs' Hsl.
  assert (keeps_pages nobody s (put_cb s cb c')) as Hk
    by (eapply (keeps_cb _ s _ cb c c'); try done; by apply grow_same).
  split; [|done]. split; [done | done | exact Hset | by eapply keeps_ops | exact Hon].
Qed.

Lemma client_same s cb c c' : client_inv submit_queues s → zget (cb_list s) cb = Some c →
  cb_blank cb c' ∨ cb_wf cb c' → cb_same c c' →
  chunk_list (remote_chunk c') = chunk_list (remote_chunk c) →
  client_inv submit_queues (put_cb s cb c') ∧ keeps_pages nobody s (put_cb s cb c').
Proof.
  intros Hci Hc Hw Hsm El. apply (client_cb s cb c); try done.
  - apply (map_inv_cb_any s cb c c'); [apply Hci | done | done | apply Hsm].
  - apply (servers_same _ s cb c); [apply Hci | done | done].
  - apply slots_same; [apply Hsm | done].
Qed.

Lemma received_client s cb c s' : client_inv submit_queues s → zget (cb_list s) cb = Some c →
  cb_wf cb c → (type (recv_buf c) = INFO_SINGLE →
    zget (cb_state_list s) cb = Some CB_MAPPED ∧ rdma_on s = DEV_RDMA_ON) →
  received s cb c s' → client_inv submit_queues s' ∧ keeps_pages nobody s s'.
Proof.
  intros Hci Hc Hwf Hm Hr.
  destruct (received_ok _ _ _ _ (ci_map _ _ Hci) Hc Hwf Hr)
    as [->|[(c' & -> & Hsm & El)|(Ht & Hcon & c' & Htk)]].
  - done.
  - apply (client_same s cb c); try done. right. by apply Hsm.
  - destruct (Hm Ht). by eapply taken_client.
Qed.

(** * The machine *)

Context (single_chunk_map : IS_session → Z → res IS_session).
Context `{M : !ChunkMapper submit_queues single_chunk_map}.

Inductive map_step : IS_session → IS_session → Prop :=
  (* a server is connected for the first time *)
  | ms_connect s cb c c' :
      zget (cb_list s) cb = Some c → zget (cb_state_list s) cb = Some CB_IDLE →
      kernel_cb_init 0 submit_queues c = (0, Some c') →
      map_step s (put_cb s cb c')
  (* the connection manager reports an event: addresses and routes only while connecting *)
  | ms_cma s cb c ev st :
      zget (cb_list s) cb = Some c → cma_state ev = Some st → ev ≠ EV_DISCONNECTED →
      zget (cb_state_list s) cb = Some CB_IDLE ∨
        test_state_val CONNECTED ≤ test_state_val st →
      map_step s (put_cb s cb (c <| state := st |>))
  (* a message arrives in [recv_buf] and is handled; offers come from servers in use *)
  | ms_message s cb c m byte_len rc s' :
      zget (cb_list s) cb = Some c → cb_wf cb c → 0 ≤ cb < len (cb_state_list s) →
      promise s c m →
      (type m = INFO_SINGLE →
         zget (cb_state_list s) cb = Some CB_MAPPED ∧ rdma_on s = DEV_RDMA_ON) →
      client_recv (put_cb s cb (c <| recv_buf := m |>)) cb byte_len = Ok (rc, s') →
      map_step s s'
  (* a request is counted *)
  | ms_count s write gb s' : count_op s write gb = Ok s' → map_step s s'
  (* a period of the trigger thread, which connects servers and maps chunks *)
  | ms_trigger s s' : trigger_period single_chunk_map s = Ok s' → map_step s s'
  (* the eviction thread of a server acts on a STOP *)
  | ms_evict s cb c m s' :
      zget (cb_list s) cb = Some c → zget (cb_state_list s) cb = Some CB_MAPPED →
      marks_ok c → shrink_size_g (remote_chunk c) ≠ 0 → 0 < submit_queues →
      quiet submit_queues s cb →
      evict_stop submit_queues single_chunk_map s cb = Ok (m, s') →
      map_step s s'.

Lemma idle_init cb c c' : cb_idle cb c → kernel_cb_init 0 submit_queues c = (0, Some c') →
  cb_wf cb c' ∧ cb_idle cb c' ∧ ∀ ck, ck ∈ chunk_list (remote_chunk c') → bitmap_g ck = None.
Proof.
  intros [Hi Hk Hm] Hinit. pose proof (cb_init_wf submit_queues cb c c' Hi Hk Hinit) as Hwf.
  injection Hinit as <-. split_and!; [done | |].
  - split; try done. cbn. by apply Forall_replicate.
  - intros ck Hck. cbn in Hck. by apply elem_of_replicate in Hck as [-> _].
Qed.

(** Fresh tables for a server that serves nothing. *)
Lemma idle_map_inv s cb c c' : map_inv s → zget (cb_list s) cb = Some c → cb_idle cb c →
  cb_wf cb c' → cb_idle cb c' → map_inv (put_cb s cb c').
Proof.
  intros [H1 H2 H3 H4 H5 H6 H7] Hc Hid Hwf Hid'.
  assert (∀ cb' ci gb, serves (put_cb s cb c') cb' ci gb ↔ serves s cb' ci gb) as Hs.
  { intros cb' ci gb. rewrite (serves_zset s _ cb c c') by done.
    case_decide as Hd; [subst|done]. split; intros Hx; exfalso.
    - apply (idle_serves (put_cb s cb c') cb c' ci gb); [by apply (put_cb_at _ _ c) | done|].
      by apply (serves_at _ _ _ _ _ (put_cb_at s cb c c' Hc)).
    - by eapply idle_serves. }
  split; try done.
  - intros i c0. simpl. rewrite zget_zset. case_decide as Hd; [|apply H4].
    destruct Hd as [<- _]. intros [= <-]. by right.
  - intros gb cb' Hg Hn. destruct (H5 gb cb' Hg Hn) as (ci & ? & ?). exists ci.
    split; [done|]. by apply Hs.
  - intros cb' ci gb ?%Hs. by apply H6.
Qed.

Lemma init_client s cb c c' : client_inv submit_queues s → zget (cb_list s) cb = Some c →
  zget (cb_state_list s) cb = Some CB_IDLE → kernel_cb_init 0 submit_queues c = (0, Some c') →
  client_inv submit_queues (put_cb s cb c') ∧ keeps_pages nobody s (put_cb s cb c').
Proof.
  intros Hci Hc Hst Hinit. destruct (so_cb _ _ (ci_servers _ _ Hci) _ _ Hst) as (c0 & Hc0 & Hid).
  rewrite Hc in Hc0. injection Hc0 as <-.
  destruct (idle_init _ _ _ Hid Hinit) as (Hwf & Hid' & _). apply (client_cb s cb c); try done.
  - apply (idle_map_inv s cb c); try done. apply Hci.
  - apply (servers_cb _ s cb c); [apply Hci | done|]. intros st Hst' _. rewrite Hst in Hst'.
    by injection Hst' as <-.
  - eapply slots_idle; [exact Hid | apply Hid'].
Qed.

Lemma cma_client s cb c st : client_inv submit_queues s → zget (cb_list s) cb = Some c →
  zget (cb_state_list s) cb = Some CB_IDLE ∨ test_state_val CONNECTED ≤ test_state_val st →
  client_inv submit_queues (put_cb s cb (c <| state := st |>)) ∧
  keeps_pages nobody s (put_cb s cb (c <| state := st |>)).
Proof.
  intros Hci Hc Hst. apply (client_cb s cb c); try done.
  - apply (map_inv_cb_any s cb c); [apply Hci | done | | done].
    destruct (mi_cbs _ (ci_map _ _ Hci) _ _ Hc) as [[]|[]]; [left | right]; by split.
  - apply (servers_cb _ s cb c); [apply Hci | done|]. intros st' Hst' Hf.
    destruct Hst as [Hst|Hst]; [rewrite Hst in Hst'; injection Hst' as <-; destruct Hf; by split|].
    eapply cb_same_fits; [by apply cb_same_state | done].
  - by apply slots_same.
Qed.

Lemma recv_buf_promise s cb c m : map_inv s → zget (cb_list s) cb = Some c → cb_wf cb c →
  promise s c m →
  map_inv (put_cb s cb (c <| recv_buf := m |>)) ∧
  zget (cb_list (put_cb s cb (c <| recv_buf := m |>))) cb = Some (c <| recv_buf := m |>) ∧
  cb_wf cb (c <| recv_buf := m |>) ∧
  promise (put_cb s cb (c <| recv_buf := m |>)) (c <| recv_buf := m |>) m.
Proof.
  intros Hinv Hc Hwf Hp. assert (cb_wf cb (c <| recv_buf := m |>)) by (destruct Hwf; by split).
  split_and!; try done; [by eapply map_inv_cb | by apply (put_cb_at _ _ c)].
Qed.

Lemma message_client s cb c m byte_len rc s' : client_inv submit_queues s →
  zget (cb_list s) cb = Some c → cb_wf cb c → 0 ≤ cb < len (cb_state_list s) → promise s c m →
  (type m = INFO_SINGLE →
     zget (cb_state_list s) cb = Some CB_MAPPED ∧ rdma_on s = DEV_RDMA_ON) →
  client_recv (put_cb s cb (c <| recv_buf := m |>)) cb byte_len = Ok (rc, s') →
  client_inv submit_queues s' ∧ keeps_pages nobody s s'.
Proof.
  intros Hci Hc Hwf Hst Hp Hm Hr.
  destruct (recv_buf_promise _ _ _ _ (ci_map _ _ Hci) Hc Hwf Hp) as (Hi & Hc' & Hwf' & Hp').
  set (c1 := c <| recv_buf := m |>) in *.
  destruct (client_same s cb c c1 Hci Hc) as [Hci1 Hk1];
    [by right | split; try done; intros cb' []; by split | done|].
  destruct (client_recv_ok _ cb c1 byte_len Hi Hc' Hwf' Hst Hp') as (rc' & s2 & E & Hrv).
  rewrite Hr in E. injection E as _ <-.
  destruct (received_client _ _ _ _ Hci1 Hc' Hwf' Hm Hrv) as [? ?].
  split; [done|]. by etransitivity.
Qed.

Lemma count_client s write gb s' : client_inv submit_queues s → count_op s write gb = Ok s' →
  client_inv submit_queues s' ∧ keeps_pages nobody s s'.
Proof.
  intros Hci H. destruct (ci_ops _ _ Hci) as [Hw Hr Hl]. unfold count_op in H.
  destruct write; res_split; injection H as <-; apply wr_inv in Ha0 as [_ ->].
  - split; [refine (client_ops submit_queues s _ (read_ops s) (last_ops s) Hci _ Hr Hl);
      by rewrite len_zset|].
    apply keeps_same; try done. apply len_zset.
  - split; [refine (client_ops submit_queues s (write_ops s) _ (last_ops s) Hci Hw _ Hl);
      by rewrite len_zset|].
    apply keeps_same; try done. apply len_zset.
Qed.

(** Every step keeps the invariant; only an eviction takes chunks away, from a server without
    requests in flight. *)
Lemma map_step_client s s' : client_inv submit_queues s → map_step s s' →
  client_inv submit_queues s' ∧ ∃ lost, keeps_pages lost s s' ∧
    ∀ cb, lost cb → 0 < submit_queues ∧ quiet submit_queues s cb.
Proof.
  intros Hci Hstep.
  destruct Hstep as [s cb c c' Hc Hst Hi|s cb c ev st Hc _ _ Hst|s cb c m bl rc s1 Hc Hwf Hst Hp Hm Hr
         |s write gb s1 Hcnt|s s1 Ht|s cb c m s1 Hc Hst Hmk Hsz Hsq Hq He].
  - destruct (init_client _ _ _ _ Hci Hc Hst Hi). split; [done|]. by exists nobody.
  - destruct (cma_client _ _ _ _ Hci Hc Hst). split; [done|]. by exists nobody.
  - destruct (message_client _ _ _ _ _ _ _ Hci Hc Hwf Hst Hp Hm Hr). split; [done|]. by exists nobody.
  - destruct (count_client _ _ _ _ Hci Hcnt). split; [done|]. by exists nobody.
  - destruct (trigger_client submit_queues single_chunk_map s s1 Hci Ht). split; [done|]. by exists nobody.
  - destruct Hci as [Hi Hs Hset Hops Hon].
    destruct (evict_stop_ok submit_queues single_chunk_map s cb c) as (rk & s2 & E & Hev & _);
      [done..| lia | done |]. rewrite He in E. injection E as _ <-.
    destruct Hev as [E1 E2 E3 E4 E5 _ _]. split; [split; auto; by eapply keeps_ops|].
    exists (eq cb). split; [done|]. by intros cb' <-.
Qed.

Lemma map_steps_client s s' : rtc map_step s s' → client_inv submit_queues s →
  client_inv submit_queues s'.
Proof.
  induction 1 as [|s1 s2 s3 Hs _ IH]; [done|]. intros Hci. apply IH.
  by destruct (map_step_client _ _ Hci Hs).
Qed.

(** ** Creation *)

Lemma parsed_count portal n l : portal_parser portal = Ok (n, l) → n < 2 ^ 31.
Proof.
  unfold portal_parser. destruct (strsep _ _) as [tok rest]. intros H. res_split. injection H as <- _.
  unfold sscanf_d. destruct (match skip_spaces tok with [] => _ | _ => _ end) as [neg t].
  destruct t as [|ch t]; [done|]. destruct (is_digit ch); [|done].
  pose proof (s32_range (if neg : bool then - scan_digits 0 (ch :: t) else scan_digits 0 (ch :: t))).
  unfold is_s32 in *. lia.
Qed.

Lemma created_client conn_ok portal s :
  IS_session_create conn_ok submit_queues portal = Ok (0, Some s) → client_inv submit_queues s.
Proof.
  intros H. pose proof (created_map_inv _ _ _ _ H) as Hi. pose proof stackbd_size_pos. pose proof max_mr_pos.
  unfold IS_session_create in H. res_split. destruct a as [n portals]. apply parsed_count in Ha.
  destruct (forallb _ _); [|done]. injection H as <-.
  assert (∀ gb cb, zget (replicate (Z.to_nat STACKBD_SIZE_G) NO_CB_MAPPED) gb = Some cb → cb = NO_CB_MAPPED) as Hno
    by (intros gb cb Hg; by apply zget_In, elem_of_replicate in Hg as [-> _]).
  split; [done | | | |].
  - split; cbn.
    + unfold len. rewrite length_replicate. lia.
    + done.
    + unfold len. rewrite length_fmap, length_seqZ. lia.
    + intros cb st Hst. pose proof (zget_Some_range _ _ _ Hst) as Hr. unfold len in Hr. rewrite length_replicate in Hr.
      apply zget_In, elem_of_replicate in Hst as [-> _]. exists (zeroed_cb cb). split.
      * apply zget_fmap_seqZ. lia.
      * split; [done | by apply len_replicate; lia | constructor].
    + intros cb st Hst i Hj. pose proof (zget_Some_range _ _ _ Hst) as Hr. unfold len in Hr. rewrite length_replicate in Hr.
      apply zget_In, elem_of_replicate in Hst as [-> _]. exists empty_pool. split; [|done].
      unfold pool_at. cbn. rewrite zget_fmap_seqZ by lia. cbn. apply (zget_replicate n). lia.
  - intros gb Hg. split; [done|]. cbn in *. apply zget_Some_range in Hg. rewrite len_replicate in Hg by lia.
    by apply (zget_replicate STACKBD_SIZE_G).
  - split; cbn; apply len_replicate; lia.
  - intros gb cb ci Hm. unfold mapping in Hm. cbn in Hm.
    destruct (zget (replicate _ NO_CB_MAPPED) gb) as [x|] eqn:E; [|done]. apply Hno in E as ->.
    by destruct (zget _ gb).
Qed.

End MapSafety.

(** * A session with one server *)

Definition one_portal : cstring := chars "rdma://1,10.0.0.1:9400".
Definition demo_created : IS_session :=
  match IS_session_create (λ _, true) 1 one_portal with
  | Ok (_, Some s) => s
  | _ => {| mapped_cb_num := 0; cb_list := []; cb_num := 0; cb_state_list := []; IS_conns := [];
            capacity_g := 0; cb_index_map := []; chunk_map_cb_chunk := [];
            unmapped_chunk_list := []; free_chunk_index := 0; rdma_on := 0; write_ops := [];
            read_ops := []; last_ops := []; trigger_threshold := 0; w_weight := 0;
            cur_weight := 0; trigger_enable := 0 |}
  end.
Definition demo_cb0 : kernel_cb :=
  match kernel_cb_init 0 1 (zeroed_cb 0) with (_, Some c) => c | _ => zeroed_cb 0 end.
(** Slot 3 of the server is offered for chunk 5. *)
Definition demo_offer : IS_rdma_info :=
  {| buf := <[3%nat := htonll (2 ^ 40)]> (replicate 32 0);
     rkey := <[3%nat := htonl 77]> (replicate 32 0); size_gb := 5; type := INFO_SINGLE |}.
Definition demo_connected : IS_session :=
  put_cb (put_cb demo_created 0 demo_cb0) 0 (demo_cb0 <| state := CONNECTED |>).
Definition demo_offered : IS_session :=
  put_cb demo_connected 0 (demo_cb0 <| state := CONNECTED |> <| recv_buf := demo_offer |>).
Definition demo_mapped : IS_session :=
  match client_recv demo_offered 0 sizeof_rdma_info with Ok (_, s) => s | Fault _ => demo_created end.

Lemma demo_cb0_wf : cb_wf 0 (demo_cb0 <| state := CONNECTED |>).
Proof.
  assert (cb_wf 0 demo_cb0) as [] by (by apply (cb_init_wf 1 0 (zeroed_cb 0))). by split.
Qed.

Lemma demo_promise : promise demo_connected (demo_cb0 <| state := CONNECTED |>) demo_offer.
Proof.
  split; [done|]. simpl. split; [done|]. intros i Hi. vm_compute in Hi. by injection Hi as <-.
Qed.

Lemma demo_recv : client_recv demo_offered 0 sizeof_rdma_info = Ok (0, demo_mapped).
Proof.
  unfold demo_mapped.
  assert (match client_recv demo_offered 0 sizeof_rdma_info with Ok (rc, _) => Some rc
          | Fault _ => None end = Some 0) as H by by vm_compute.
  destruct (client_recv demo_offered 0 sizeof_rdma_info) as [[rc s]|]; [|done].
  by injection H as ->.
Qed.

Lemma demo_created_client : client_inv 1 demo_created.
Proof. exact (created_client 1 (λ _, true) one_portal demo_created eq_refl). Qed.

Lemma demo_connected_client : client_inv 1 demo_connected.
Proof.
  destruct (init_client 1 demo_created 0 (zeroed_cb 0) demo_cb0 demo_created_client) as [H _]; [done..|].
  destruct (cma_client 1 (put_cb demo_created 0 demo_cb0) 0 demo_cb0 CONNECTED H) as [H' _];
    [done | by right | exact H'].
Qed.

Lemma demo_connected_inv : map_inv demo_connected.
Proof. apply (ci_map _ _ demo_connected_client). Qed.

Lemma demo_mapped_inv : map_inv demo_mapped.
Proof.
  destruct (recv_buf_promise demo_connected 0 (demo_cb0 <| state := CONNECTED |>) demo_offer
    demo_connected_inv eq_refl demo_cb0_wf demo_promise) as (Hi & Hc & Hwf & Hp).
  destruct (client_recv_ok demo_offered 0 _ sizeof_rdma_info Hi Hc Hwf ltac:(done) Hp) as (rc & s' & E & Hr).
  rewrite demo_recv in E. injection E as _ <-. exact (received_inv _ _ _ _ Hi Hc Hwf Hr).
Qed.

Lemma demo_run : rtc (map_step 1 (λ s _, Ok s)) demo_created demo_connected.
Proof.
  eapply rtc_l; [apply (ms_connect 1 _ demo_created 0 (zeroed_cb 0) demo_cb0); done|].
  apply rtc_once, (ms_cma 1 _ _ 0 demo_cb0 EV_ESTABLISHED); try done. by right.
Qed.

(** * Theorems *)

(** C5: in every session that session creation, connections, messages of servers
    that keep their promise and evictions reach, a chunk that is routed to a server has there
    a slot with a bitmap, that slot names the chunk back, no two chunks share a slot, and
    [free_chunk_index] counts the chunks without a slot. *)
Theorem chunk_mapping_safe `{C : Config} submit_queues conn_ok portal single_chunk_map
  `{M : !ChunkMapper submit_queues single_chunk_map} s0 s
  (Hcreate : IS_session_create conn_ok submit_queues portal = Ok (0, Some s0))
  (Hrun : rtc (map_step submit_queues single_chunk_map) s0 s) :
  (∀ gb cb, zget (cb_index_map s) gb = Some cb → cb ≠ NO_CB_MAPPED →
     ∃ c ci ck bm, zget (cb_list s) cb = Some c ∧ zget (chunk_map_cb_chunk s) gb = Some ci ∧
       zget (chunk_map (remote_chunk c)) ci = Some gb ∧
       zget (chunk_list (remote_chunk c)) ci = Some ck ∧ bitmap_g ck = Some bm ∧ bitmap_wf bm) ∧
  (∀ gb gb' cb ci, cb ≠ NO_CB_MAPPED →
     zget (cb_index_map s) gb = Some cb → zget (chunk_map_cb_chunk s) gb = Some ci →
     zget (cb_index_map s) gb' = Some cb → zget (chunk_map_cb_chunk s) gb' = Some ci → gb = gb') ∧
  free_chunk_index s + 1 = count (λ k, k =? -1) (chunk_map_cb_chunk s).
Proof.
  assert (map_inv s) as Hinv
    by (eapply ci_map, map_steps_client; [done | done | by eapply created_client]).
  split_and!; [| |apply (mi_free _ Hinv)].
  - intros gb cb Hg Hne. destruct (mi_fwd _ Hinv _ _ Hg Hne) as (ci & Hci & c & Hc & Hm & Hn).
    destruct (cw_bitmaps _ _ (cb_ready _ _ _ _ _ Hinv Hc Hm) _ _ Hm Hn) as (ck & bm & ? & ? & ?).
    by exists c, ci, ck, bm.
  - intros gb gb' cb ci Hne Hg Hc Hg' Hc'.
    destruct (mi_fwd _ Hinv _ _ Hg Hne) as (ci1 & E1 & c1 & Hc1 & Hm1 & _).
    destruct (mi_fwd _ Hinv _ _ Hg' Hne) as (ci2 & E2 & c2 & Hc2 & Hm2 & _). congruence.
Qed.


