(* ===== verification/Connect.v ===== *)
(** Setting up the connection to a server ([is_main.c]): address and route resolution, the
    queue pair and its buffers, the connection itself, and what [IS_single_chunk_map] makes of
    their results.

    The handles of a control block that [Types] leaves out are the record [cb_handles], beside
    the session.  The return codes of the verbs calls and the events of the connection manager
    are the parameters [verbs]. *)

From Stdlib Require Import ZArith Lia.
From stdpp Require Import base tactics list numbers option gmap.
From S2P Require Import Prelude Types Handles ByteOrder Bitmap CtxPool Stackbd Request Views.
From S2P Require Import ChunkMap MapInv Session Select.

(** * Data *)

Inductive mem_type := DMA | FASTREG | MW | MR.

#[export] Instance mem_type_eq_dec : EqDecision mem_type.
Proof. solve_decision. Defined.

Definition AF_INET : Z := 2.
Definition AF_INET6 : Z := 10.
Definition EINTR : Z := 4.

Inductive lkey := Key_unset | Key_device | Key_mr (mr : ptr).

Record ib_sge := { sge_addr : ptr; sge_length : Z; sge_lkey : lkey }.
#[export] Instance eta_ib_sge : Eta ib_sge :=
  λ r, {| sge_addr := sge_addr r; sge_length := sge_length r; sge_lkey := sge_lkey r |}.

(** [&cb->recv_sgl] and [&cb->send_sgl]. *)
Inductive sg_ref := SG_none | SG_recv | SG_send.

Inductive send_opcode := OP_unset | IB_WR_SEND.

Record ib_recv_wr := { rq_sg_list : sg_ref; rq_num_sge : Z }.
Record ib_send_wr := {
  sq_opcode : send_opcode; sq_signaled : bool; sq_sg_list : sg_ref; sq_num_sge : Z }.

(** The members of [struct kernel_cb] that name objects of the verbs library, and the peer's
    address. *)
Record cb_handles := {
  cm_id : ptr; pd : ptr; cq : ptr; qp : ptr;
  mem : mem_type;
  dma_mr : ptr; recv_mr : ptr; send_mr : ptr; rdma_mr : ptr;
  recv_dma_addr : ptr; recv_mapping : ptr; send_dma_addr : ptr; send_mapping : ptr;
  recv_sgl : ib_sge; send_sgl : ib_sge;
  rq_wr : ib_recv_wr; sq_wr : ib_send_wr;
  local_dma_lkey : Z;
  addr_type : Z; cb_addr : list Z; cb_port : Z;
}.
#[export] Instance eta_cb_handles : Eta cb_handles :=
  λ r, {| cm_id := cm_id r; pd := pd r; cq := cq r; qp := qp r; mem := mem r;
          dma_mr := dma_mr r; recv_mr := recv_mr r; send_mr := send_mr r; rdma_mr := rdma_mr r;
          recv_dma_addr := recv_dma_addr r; recv_mapping := recv_mapping r;
          send_dma_addr := send_dma_addr r; send_mapping := send_mapping r;
          recv_sgl := recv_sgl r; send_sgl := send_sgl r; rq_wr := rq_wr r; sq_wr := sq_wr r;
          local_dma_lkey := local_dma_lkey r; addr_type := addr_type r;
          cb_addr := cb_addr r; cb_port := cb_port r |}.

Record sockaddr_storage := { ss_family : Z; ss_addr : list Z; ss_port : Z }.

Record ib_qp_init_attr := {
  max_send_wr : Z; max_recv_wr : Z; max_recv_sge : Z; max_send_sge : Z;
  send_cq : ptr; recv_cq : ptr }.

Record rdma_conn_param := { responder_resources : Z; initiator_depth : Z; retry_count : Z }.

(** A sleeper is woken by an event of the connection manager or by a signal. *)
Inductive wake := Event (ev : cma_event) | Signal.

(** What the verbs library and the connection manager answer: 0 or an error code for each
    call, and the events that arrive during the two waits. *)
Record verbs := {
  rdma_create_id : Z;
  rdma_resolve_addr : sockaddr_storage → Z;
  ib_alloc_pd : Z;
  ib_create_cq : Z → Z;
  ib_req_notify_cq : Z;
  rdma_create_qp : ib_qp_init_attr → Z;
  get_dma_mr : Z;
  ib_post_recv : Z;
  rdma_connect : rdma_conn_param → Z;
  resolve_events : list wake;
  connect_events : list wake;
}.

(** The block device, the handles of one control block, and the live objects. *)
Record conn := { cn_bd : bd; cn_cb : cb_handles; cn_heap : heap }.
#[export] Instance eta_conn : Eta conn :=
  λ r, {| cn_bd := cn_bd r; cn_cb := cn_cb r; cn_heap := cn_heap r |}.

Definition fill_sockaddr (c : cb_handles) : sockaddr_storage :=
  if addr_type c =? AF_INET then
    {| ss_family := AF_INET; ss_addr := take 4 (cb_addr c); ss_port := cb_port c |}
  else if addr_type c =? AF_INET6 then
    {| ss_family := AF_INET6; ss_addr := take 16 (cb_addr c); ss_port := cb_port c |}
  else {| ss_family := 0; ss_addr := []; ss_port := 0 |}.

Section Connect.
Context `{C : Config} `{BL : BlockLayer}.
Variable submit_queues : Z.
Variable single_chunk_map : IS_session → Z → res IS_session.
Variable cb : Z.
Variable V : verbs.

(** * Waiting *)

(** [wait_event_interruptible(cb->sem, cond(cb->state))]: the events run through the handler
    of the connection manager until the condition holds; a signal ends the wait early. *)
Fixpoint wait_state (cond : test_state → bool) (evs : list wake) (w : bd) : res bd :=
  let* c := read_cb (sess w) cb in
  if cond (state c) then Ok w
  else
    match evs with
    | [] => Fault Blocked
    | Signal :: _ => Ok w
    | Event ev :: evs =>
        let* (_, w) := IS_cma_event_handler submit_queues single_chunk_map w cb ev in
        wait_state cond evs w
    end.

Definition state_ge (s : test_state) (st : test_state) : bool :=
  test_state_val s <=? test_state_val st.

(** * Resolution *)

Definition IS_bind_client (cn : conn) : res (Z * conn) :=
  let sin := fill_sockaddr (cn_cb cn) in
  let ret := rdma_resolve_addr V sin in
  if negb (ret =? 0) then Ok (ret, cn)
  else
    let* w := wait_state (state_ge ROUTE_RESOLVED) (resolve_events V) (cn_bd cn) in
    let cn := cn <| cn_bd := w |> in
    let* c := read_cb (sess w) cb in
    if decide (state c = ROUTE_RESOLVED) then Ok (0, cn) else Ok (- EINTR, cn).

(** * The queue pair *)

Definition qp_attr (txd : Z) (q : ptr) : ib_qp_init_attr :=
  {| max_send_wr := txd; max_recv_wr := txd; max_recv_sge := 1; max_send_sge := 1;
     send_cq := q; recv_cq := q |}.

Definition IS_create_qp (cn : conn) : res (Z * conn) :=
  let* c := read_cb (sess (cn_bd cn)) cb in
  let h := cn_cb cn in
  let* _ := find K_cm_id (cm_id h) (cn_heap cn) in
  let* _ := find K_pd (pd h) (cn_heap cn) in
  let* _ := find K_cq (cq h) (cn_heap cn) in
  let ret := rdma_create_qp V (qp_attr (txdepth c) (cq h)) in
  if ret =? 0 then
    let '(q, hp) := acquire K_qp (cn_heap cn) in
    Ok (0, cn <| cn_cb := h <| qp := q |> |> <| cn_heap := hp |>)
  else Ok (ret, cn).

Definition IS_free_qp (cn : conn) : res conn :=
  let h := cn_cb cn in
  let* hp := release K_qp (qp h) (cn_heap cn) in
  let* hp := release K_cq (cq h) hp in
  let* hp := release K_pd (pd h) hp in
  Ok (cn <| cn_heap := hp |>).

(** The labels [err2] and [err1]. *)
Definition free_pd (ret : Z) (cn : conn) : res (Z * conn) :=
  let* hp := release K_pd (pd (cn_cb cn)) (cn_heap cn) in
  Ok (ret, cn <| cn_heap := hp |>).

Definition free_cq_pd (ret : Z) (cn : conn) : res (Z * conn) :=
  let* hp := release K_cq (cq (cn_cb cn)) (cn_heap cn) in
  free_pd ret (cn <| cn_heap := hp |>).

Definition IS_setup_qp (cn : conn) : res (Z * conn) :=
  let* _ := find K_cm_id (cm_id (cn_cb cn)) (cn_heap cn) in
  let '(p, hp) := acquire_err K_pd (ib_alloc_pd V) (cn_heap cn) in
  let cn := cn <| cn_cb ::= λ h, h <| pd := p |> |> <| cn_heap := hp |> in
  if IS_ERR p then Ok (PTR_ERR p, cn)
  else
    let* c := read_cb (sess (cn_bd cn)) cb in
    let '(q, hp) := acquire_err K_cq (ib_create_cq V (s32 (txdepth c * 2))) (cn_heap cn) in
    let cn := cn <| cn_cb ::= λ h, h <| cq := q |> |> <| cn_heap := hp |> in
    if IS_ERR q then free_pd (PTR_ERR q) cn
    else if negb (ib_req_notify_cq V =? 0) then free_cq_pd (ib_req_notify_cq V) cn
    else
      let* (ret, cn) := IS_create_qp cn in
      if ret =? 0 then Ok (0, cn) else free_cq_pd ret cn.

(** * Buffers *)

(** [sizeof cb->recv_buf] and the key its scatter list gets. *)
Definition setup_sge (h : cb_handles) (dma_addr : ptr) (old : lkey) : res ib_sge :=
  let* k := if negb (local_dma_lkey h =? 0) then Ok Key_device
            else if decide (mem h = DMA) then
              match dma_mr h with
              | Null => Fault NullDeref | ErrPtr _ => Fault WildPtr | mr => Ok (Key_mr mr)
              end
            else Ok old in
  Ok {| sge_addr := dma_addr; sge_length := sizeof_rdma_info; sge_lkey := k |}.

Definition IS_setup_wr (h : cb_handles) : res cb_handles :=
  let* r := setup_sge h (recv_dma_addr h) (sge_lkey (recv_sgl h)) in
  let* s := setup_sge h (send_dma_addr h) (sge_lkey (send_sgl h)) in
  Ok (h <| recv_sgl := r |> <| rq_wr := {| rq_sg_list := SG_recv; rq_num_sge := 1 |} |>
        <| send_sgl := s |>
        <| sq_wr := {| sq_opcode := IB_WR_SEND; sq_signaled := true; sq_sg_list := SG_send;
                       sq_num_sge := 1 |} |>).

(** [if (mr && !IS_ERR(mr)) ib_dereg_mr(mr)]. *)
Definition dereg_ok_mr (mr : ptr) (hp : heap) : res heap :=
  if is_null mr || IS_ERR mr then Ok hp else release K_mr mr hp.

(** [if (mr) ib_dereg_mr(mr)]. *)
Definition dereg_mr (mr : ptr) (hp : heap) : res heap :=
  if is_null mr then Ok hp else release K_mr mr hp.

Definition IS_setup_buffers (cn : conn) : res (Z * conn) :=
  let* _ := find K_pd (pd (cn_cb cn)) (cn_heap cn) in
  let '(r, hp) := acquire K_dma_map (cn_heap cn) in
  let '(s, hp) := acquire K_dma_map hp in
  let h := cn_cb cn <| recv_dma_addr := r |> <| recv_mapping := r |>
                    <| send_dma_addr := s |> <| send_mapping := s |> in
  let '(h, hp) := if decide (mem h = DMA) then
                    let '(mr, hp) := acquire_err K_mr (get_dma_mr V) hp in
                    (h <| dma_mr := mr |>, hp)
                  else (h, hp) in
  if bool_decide (mem h = DMA) && IS_ERR (dma_mr h) then
    let* hp := dereg_ok_mr (rdma_mr h) hp in
    let* hp := dereg_ok_mr (dma_mr h) hp in
    let* hp := dereg_ok_mr (recv_mr h) hp in
    let* hp := dereg_ok_mr (send_mr h) hp in
    Ok (PTR_ERR (dma_mr h), cn <| cn_cb := h |> <| cn_heap := hp |>)
  else
    let* h := IS_setup_wr h in
    Ok (0, cn <| cn_cb := h |> <| cn_heap := hp |>).

Definition IS_free_buffers (cn : conn) : res conn :=
  let h := cn_cb cn in
  let* hp := dereg_mr (dma_mr h) (cn_heap cn) in
  let* hp := dereg_mr (send_mr h) hp in
  let* hp := dereg_mr (recv_mr h) hp in
  let* hp := dereg_mr (rdma_mr h) hp in
  let* _ := find K_pd (pd h) hp in
  let* hp := release K_dma_map (recv_mapping h) hp in
  let* hp := release K_dma_map (send_mapping h) hp in
  Ok (cn <| cn_heap := hp |>).

(** * Connecting *)

Definition IS_connect_client (cn : conn) : res (Z * conn) :=
  let* _ := find K_cm_id (cm_id (cn_cb cn)) (cn_heap cn) in
  let ret := rdma_connect V {| responder_resources := 1; initiator_depth := 1;
                               retry_count := 10 |} in
  if negb (ret =? 0) then Ok (ret, cn)
  else
    let* w := wait_state (state_ge CONNECTED) (connect_events V) (cn_bd cn) in
    let cn := cn <| cn_bd := w |> in
    let* c := read_cb (sess w) cb in
    if decide (state c = ERROR) then Ok (-1, cn) else Ok (0, cn).

Definition rdma_connect_upper (cn : conn) : res (Z * conn) :=
  let* (ret, cn) := IS_bind_client cn in
  if negb (ret =? 0) then Ok (ret, cn)
  else
    let* (ret, cn) := IS_setup_qp cn in
    if negb (ret =? 0) then Ok (ret, cn)
    else
      let* (ret, cn) := IS_setup_buffers cn in
      if ret =? 0 then Ok (0, cn)
      else let* cn := IS_free_qp cn in Ok (ret, cn).

Definition rdma_connect_down (cn : conn) : res (Z * conn) :=
  let* _ := find K_qp (qp (cn_cb cn)) (cn_heap cn) in
  let ret := ib_post_recv V in
  let* (ret, cn) := if ret =? 0 then IS_connect_client cn else Ok (ret, cn) in
  if ret =? 0 then Ok (0, cn)
  else let* cn := IS_free_buffers cn in Ok (ret, cn).

(** The part of [kernel_cb_init] that concerns the handles: on an error the control block
    itself is freed. *)
Definition init_handles (cn : conn) : Z * conn :=
  let '(p, hp) := acquire_err K_cm_id (rdma_create_id V) (cn_heap cn) in
  (PTR_ERR p, cn <| cn_cb ::= λ h, h <| addr_type := AF_INET |> <| mem := DMA |> <| cm_id := p |> |>
                 <| cn_heap := hp |>).

(** The calls of [IS_single_chunk_map] for a server that is not connected yet; their results
    are not looked at. *)
Definition connect_server (cn : conn) : res conn :=
  let* c := read_cb (sess (cn_bd cn)) cb in
  let '(err, cn) := init_handles cn in
  match kernel_cb_init err submit_queues c with
  | (_, None) => Fault UseAfterFree
  | (_, Some c) =>
      let* s := write_cb (sess (cn_bd cn)) cb c in
      let cn := cn <| cn_bd ::= λ w, w <| sess := s |> |> in
      let* (_, cn) := rdma_connect_upper cn in
      let* (_, cn) := rdma_connect_down cn in
      Ok cn
  end.

End Connect.
