(* ===== verification/ConnectInv.v ===== *)
(** Connection set-up: what it acquires, what its error paths give back, and what the caller
    makes of an error. *)

From Stdlib Require Import ZArith Lia Ascii String.
From stdpp Require Import base tactics list numbers option gmap.
From S2P Require Import Prelude Types Handles ByteOrder Bitmap CtxPool Stackbd Request Views.
From S2P Require Import ChunkMap MapInv Session Select Connect.

Section ConnectInv.
Context `{C : Config} `{BL : BlockLayer}.
Variable submit_queues : Z.
Variable single_chunk_map : IS_session → Z → res IS_session.
Variable cb : Z.
Variable V : verbs.

(** * Waiting, on states alone *)

(** The state in which a wait for [cond] ends: [None] when it never does. *)
Fixpoint run_events (cond : test_state → bool) (st : test_state) (evs : list wake)
  : option test_state :=
  if cond st then Some st
  else
    match evs with
    | [] => None
    | Signal :: _ => Some st
    | Event ev :: evs => run_events cond (default st (cma_state ev)) evs
    end.

(** The server does not close the connection while it is being set up. *)
Definition no_disconnect (evs : list wake) : Prop := Event EV_DISCONNECTED ∉ evs.

(** [w] with [state] of the control block set to [st]. *)
Definition put_state (w : bd) (st : test_state) : bd :=
  match zget (cb_list (sess w)) cb with
  | Some c => w <| sess := sess w <| cb_list := zset (cb_list (sess w)) cb (c <| state := st |>) |> |>
  | None => w
  end.

Lemma put_state_cb w c st : zget (cb_list (sess w)) cb = Some c →
  zget (cb_list (sess (put_state w st))) cb = Some (c <| state := st |>).
Proof.
  intros Hc. unfold put_state. rewrite Hc. cbn. rewrite zget_zset_eq; [done|].
  by eapply zget_Some_range.
Qed.

Lemma put_state_put w c st st' : zget (cb_list (sess w)) cb = Some c →
  put_state (put_state w st) st' = put_state w st'.
Proof.
  intros Hc. unfold put_state at 1. rewrite (put_state_cb _ _ _ Hc). unfold put_state.
  rewrite Hc. cbn. by rewrite zset_zset.
Qed.

Lemma put_state_id w c : zget (cb_list (sess w)) cb = Some c → put_state w (state c) = w.
Proof.
  intros Hc. unfold put_state. rewrite Hc.
  replace (c <| state := state c |>) with c by (by destruct c). rewrite zset_id by done.
  by destruct w as [[] ? ? ? ? ?].
Qed.

Lemma set_state_put w c st : zget (cb_list (sess w)) cb = Some c →
  set_state (sess w) cb st = Ok (sess (put_state w st)).
Proof.
  intros Hc. unfold set_state, with_cb, read_cb, write_cb, put_state.
  rewrite (rd_ok _ _ _ Hc). cbn [res_bind]. rewrite wr_ok by eauto with zarr. by rewrite Hc.
Qed.

Lemma cma_event_state w c ev : zget (cb_list (sess w)) cb = Some c → ev ≠ EV_DISCONNECTED →
  ∃ ret, IS_cma_event_handler submit_queues single_chunk_map w cb ev
         = Ok (ret, put_state w (default (state c) (cma_state ev))).
Proof.
  intros Hc Hev. unfold IS_cma_event_handler.
  assert (∀ st, w <| sess := sess (put_state w st) |> = put_state w st) as Hw.
  { intros st. unfold put_state. rewrite Hc. done. }
  destruct ev; try done; cbn [cma_state default from_option];
    rewrite ?(set_state_put _ _ _ Hc); cbn [res_bind]; rewrite ?Hw, ?(put_state_id _ _ Hc); eauto.
Qed.

Lemma wait_state_run cond evs : ∀ w c, zget (cb_list (sess w)) cb = Some c → no_disconnect evs →
  wait_state submit_queues single_chunk_map cb cond evs w
  = match run_events cond (state c) evs with
    | Some st => Ok (put_state w st)
    | None => Fault Blocked
    end.
Proof.
  induction evs as [|e evs IH]; intros w c Hc Hd; cbn [wait_state run_events];
    unfold read_cb; rewrite (rd_ok _ _ _ Hc); cbn [res_bind];
    destruct (cond (state c)); rewrite ?(put_state_id _ _ Hc); try done.
  apply not_elem_of_cons in Hd as [He Hd]. destruct e as [ev|]; [|by rewrite (put_state_id _ _ Hc)].
  destruct (cma_event_state w c ev Hc) as [ret ->]; [congruence|]. cbn [res_bind].
  rewrite (IH _ _ (put_state_cb _ _ _ Hc) Hd). cbn [state upd].
  destruct (run_events _ _ evs); [|done]. by rewrite (put_state_put _ _ _ _ Hc).
Qed.

(** * The live objects *)

(** No object of the verbs library yet. *)
Record blank (h : cb_handles) : Prop := {
  bk_pd : pd h = Null; bk_cq : cq h = Null; bk_qp : qp h = Null; bk_dma : dma_mr h = Null;
  bk_recv : recv_mr h = Null; bk_send : send_mr h = Null; bk_rdma : rdma_mr h = Null;
}.

Definition with_qp (L : gmap Z kind) (n : Z) : gmap Z kind :=
  <[n + 2 := K_qp]> (<[n + 1 := K_cq]> (<[n := K_pd]> L)).

Definition with_buffers (L : gmap Z kind) (n : Z) : gmap Z kind :=
  <[n + 5 := K_mr]> (<[n + 4 := K_dma_map]> (<[n + 3 := K_dma_map]> L)).

(** What set-up needs of a control block: its connection identifier, and fresh numbers. *)
Record ready (cn : conn) : Prop := {
  rd_heap : heap_wf (cn_heap cn);
  rd_cm : ∃ i, cm_id (cn_cb cn) = Obj i ∧ live (cn_heap cn) !! i = Some K_cm_id;
  rd_cb : is_Some (zget (cb_list (sess (cn_bd cn))) cb);
}.

Lemma free_cq_pd_spec ret cn p q : pd (cn_cb cn) = Obj p → cq (cn_cb cn) = Obj q → p ≠ q →
  live (cn_heap cn) !! p = Some K_pd → live (cn_heap cn) !! q = Some K_cq →
  ∃ cn', free_cq_pd ret cn = Ok (ret, cn') ∧ cn_bd cn' = cn_bd cn ∧ cn_cb cn' = cn_cb cn ∧
    live (cn_heap cn') = delete p (delete q (live (cn_heap cn))).
Proof.
  intros Hp Hq Hne Lp Lq. unfold free_cq_pd, free_pd. rewrite Hq, release_live by done.
  cbn. rewrite Hp, release_live by (cbn; by rewrite lookup_delete_ne). cbn. by eexists.
Qed.

(** Every call succeeds. *)
Record calls_ok : Prop := {
  ok_create_id : rdma_create_id V = 0;
  ok_resolve a : rdma_resolve_addr V a = 0;
  ok_alloc_pd : ib_alloc_pd V = 0;
  ok_create_cq n : ib_create_cq V n = 0;
  ok_notify : ib_req_notify_cq V = 0;
  ok_create_qp a : rdma_create_qp V a = 0;
  ok_dma_mr : get_dma_mr V = 0;
  ok_post_recv : ib_post_recv V = 0;
  ok_connect p : rdma_connect V p = 0;
}.

(** [IS_setup_qp] takes all three objects or none. *)
Lemma setup_qp_spec cn : ready cn →
  let n := next_id (cn_heap cn) in
  ∃ ret cn', IS_setup_qp cb V cn = Ok (ret, cn') ∧ cn_bd cn' = cn_bd cn ∧ (calls_ok → ret = 0) ∧
    if decide (ret = 0) then
      cn_cb cn' = cn_cb cn <| pd := Obj n |> <| cq := Obj (n + 1) |> <| qp := Obj (n + 2) |> ∧
      cn_heap cn' = {| live := with_qp (live (cn_heap cn)) n; next_id := n + 3 |}
    else live (cn_heap cn') = live (cn_heap cn) ∧ qp (cn_cb cn') = qp (cn_cb cn).
Proof.
  intros [Hwf (i & Hcm & Hi) [c Hc]] n. destruct cn as [w h [L m]]. cbn in *. subst n.
  assert (L !! m = None) as Hm by (apply (Hwf m); cbn; lia).
  assert (L !! (m + 1) = None) as Hm1 by (apply (Hwf (m + 1)); cbn; lia).
  assert (i < m) as Him.
  { destruct (decide (i < m)); [done|]. specialize (Hwf i). cbn in Hwf. rewrite Hwf in Hi by lia. done. }
  unfold IS_setup_qp. cbn [cn_cb cn_heap]. rewrite Hcm, find_live by done. cbn [res_bind].
  unfold acquire_err at 1. destruct (ib_alloc_pd V =? 0) eqn:Epd; cbn;
    [|eexists _, _; split_and!; [done | done | intros []; lia |]; rewrite decide_False by lia; done].
  unfold read_cb. rewrite (rd_ok _ _ _ Hc). cbn [res_bind]. unfold acquire_err.
  destruct (ib_create_cq V _ =? 0) eqn:Ecq; cbn.
  2:{ unfold free_pd. cbn. rewrite release_live by live_solve. cbn.
      eexists _, _. split_and!; [done | done | intros H; rewrite (ok_create_cq H) in Ecq; done |].
      rewrite decide_False by lia. cbn. by rewrite delete_insert_id. }
  assert (delete m (delete (m + 1) (<[m + 1:=K_cq]> (<[m:=K_pd]> L))) = L) as Hundo.
  { rewrite (delete_insert_id (<[m:=K_pd]> L)) by live_solve. by rewrite delete_insert_id. }
  destruct (ib_req_notify_cq V =? 0) eqn:Enc; cbn [negb].
  2:{ edestruct (free_cq_pd_spec (ib_req_notify_cq V)) as (cn' & -> & E1 & E2 & E3);
        [reflexivity | reflexivity | lia | live_solve | live_solve |].
      eexists _, cn'. split_and!; [done | done | intros []; lia |]. rewrite decide_False by lia.
      rewrite E3, E2. cbn. by rewrite Hundo. }
  unfold IS_create_qp, read_cb. cbn [cn_bd cn_cb cn_heap cm_id pd cq].
  rewrite (rd_ok _ _ _ Hc), Hcm. cbn [res_bind].
  rewrite !find_live by live_solve. cbn [res_bind].
  destruct (rdma_create_qp V _ =? 0) eqn:Eqp; cbn [res_bind acquire Z.eqb].
  - eexists _, _. split_and!; [done..|]. rewrite decide_True by done. cbn.
    replace (m + 1 + 1) with (m + 2) by lia. replace (m + 2 + 1) with (m + 3) by lia. done.
  - rewrite Eqp. edestruct free_cq_pd_spec as (cn' & -> & E1 & E2 & E3);
      [reflexivity | reflexivity | lia | live_solve | live_solve |].
    eexists _, cn'. split_and!; [done | done | intros H; apply (ok_create_qp H) |].
    rewrite decide_False by lia. rewrite E3, E2. cbn. by rewrite Hundo.
Qed.

(** With the queue pair in place, [IS_setup_buffers] takes two mappings and a region; when the
    region is refused the mappings stay. *)
Lemma setup_buffers_spec cn p : heap_wf (cn_heap cn) →
  pd (cn_cb cn) = Obj p → live (cn_heap cn) !! p = Some K_pd → mem (cn_cb cn) = DMA →
  rdma_mr (cn_cb cn) = Null → recv_mr (cn_cb cn) = Null → send_mr (cn_cb cn) = Null →
  let n := next_id (cn_heap cn) in
  ∃ cn', IS_setup_buffers V cn = Ok (get_dma_mr V, cn') ∧ cn_bd cn' = cn_bd cn ∧
    pd (cn_cb cn') = pd (cn_cb cn) ∧ cq (cn_cb cn') = cq (cn_cb cn) ∧
    qp (cn_cb cn') = qp (cn_cb cn) ∧ cm_id (cn_cb cn') = cm_id (cn_cb cn) ∧
    recv_mr (cn_cb cn') = Null ∧ send_mr (cn_cb cn') = Null ∧ rdma_mr (cn_cb cn') = Null ∧
    recv_mapping (cn_cb cn') = Obj n ∧ send_mapping (cn_cb cn') = Obj (n + 1) ∧
    (get_dma_mr V = 0 → dma_mr (cn_cb cn') = Obj (n + 2) ∧
       rq_wr (cn_cb cn') = {| rq_sg_list := SG_recv; rq_num_sge := 1 |}) ∧
    live (cn_heap cn') =
      let L := <[n + 1 := K_dma_map]> (<[n := K_dma_map]> (live (cn_heap cn))) in
      if decide (get_dma_mr V = 0) then <[n + 2 := K_mr]> L else L.
Proof.
  intros Hwf Hpd Lpd Hmem Hr1 Hr2 Hr3 n. destruct cn as [w h [L m]]. cbn in *. subst n.
  unfold IS_setup_buffers. cbn. rewrite Hpd, find_live by done. cbn. rewrite Hmem.
  rewrite (decide_True (P := DMA = DMA)) by done. replace (m + 1 + 1) with (m + 2) by lia.
  unfold acquire_err. destruct (Z.eqb_spec (get_dma_mr V) 0) as [E|E]; cbn.
  - rewrite andb_false_r. unfold IS_setup_wr, setup_sge. cbn. rewrite !decide_True by done.
    rewrite E. destruct (local_dma_lkey h =? 0); cbn; (eexists; split_and!; done).
  - rewrite bool_decide_true by done. cbn. rewrite Hr1, Hr2, Hr3. cbn.
    rewrite decide_False by done. eexists. split_and!; done.
Qed.

Lemma free_qp_spec cn p c q : pd (cn_cb cn) = Obj p → cq (cn_cb cn) = Obj c →
  qp (cn_cb cn) = Obj q → p ≠ c → p ≠ q → c ≠ q →
  live (cn_heap cn) !! p = Some K_pd → live (cn_heap cn) !! c = Some K_cq →
  live (cn_heap cn) !! q = Some K_qp →
  ∃ cn', IS_free_qp cn = Ok cn' ∧ cn_bd cn' = cn_bd cn ∧ cn_cb cn' = cn_cb cn ∧
    live (cn_heap cn') = delete p (delete c (delete q (live (cn_heap cn)))).
Proof.
  intros Hp Hc Hq H1 H2 H3 Lp Lc Lq. unfold IS_free_qp. rewrite Hp, Hc, Hq.
  rewrite release_live by done. cbn [res_bind]. rewrite release_live by live_solve.
  cbn [res_bind]. rewrite release_live by live_solve. by eexists.
Qed.

(** A control block whose set-up is complete, its objects numbered from [n] on. *)
Record set_up (cn : conn) (L : gmap Z kind) (n : Z) : Prop := {
  su_cm : ∃ i, cm_id (cn_cb cn) = Obj i ∧ i < n ∧ L !! i = Some K_cm_id;
  su_pd : pd (cn_cb cn) = Obj n; su_cq : cq (cn_cb cn) = Obj (n + 1);
  su_qp : qp (cn_cb cn) = Obj (n + 2);
  su_rmap : recv_mapping (cn_cb cn) = Obj (n + 3);
  su_smap : send_mapping (cn_cb cn) = Obj (n + 4);
  su_dma : dma_mr (cn_cb cn) = Obj (n + 5);
  su_none : recv_mr (cn_cb cn) = Null ∧ send_mr (cn_cb cn) = Null ∧ rdma_mr (cn_cb cn) = Null;
  su_wr : rq_wr (cn_cb cn) = {| rq_sg_list := SG_recv; rq_num_sge := 1 |};
  su_live : live (cn_heap cn) = with_buffers (with_qp L n) n;
}.

(** [IS_free_buffers] takes back what [IS_setup_buffers] took. *)
Lemma free_buffers_spec cn L n : set_up cn L n →
  L !! (n + 3) = None → L !! (n + 4) = None → L !! (n + 5) = None →
  ∃ cn', IS_free_buffers cn = Ok cn' ∧ cn_bd cn' = cn_bd cn ∧
    live (cn_heap cn') = with_qp L n.
Proof.
  intros [_ Hpd _ _ Hr Hs Hd (H1 & H2 & H3) _ HL] L3 L4 L5. unfold IS_free_buffers, dereg_mr.
  rewrite H1, H2, H3, Hd. cbn [is_null].
  rewrite release_live by (rewrite HL; unfold with_buffers; live_solve). cbn [res_bind].
  rewrite Hpd, find_live by (cbn; rewrite HL; unfold with_buffers, with_qp; live_solve).
  cbn [res_bind].
  rewrite Hr, release_live by (cbn; rewrite HL; unfold with_buffers, with_qp; live_solve).
  cbn [res_bind].
  rewrite Hs, release_live by (cbn; rewrite HL; unfold with_buffers, with_qp; live_solve).
  cbn [res_bind]. eexists. split_and!; [done..|]. cbn. rewrite HL. unfold with_buffers.
  rewrite (delete_insert_id (<[n+4:=K_dma_map]> _)) by (unfold with_qp; live_solve).
  rewrite (delete_insert_ne _ (n + 3)) by lia.
  rewrite (delete_insert_id (with_qp L n)) by (unfold with_qp; live_solve).
  apply delete_insert_id. unfold with_qp. live_solve.
Qed.

Lemma ready_below cn i k : ready cn → live (cn_heap cn) !! i = Some k → i < next_id (cn_heap cn).
Proof.
  intros [Hwf _ _] Hi. destruct (decide (i < next_id (cn_heap cn))); [done|].
  rewrite Hwf in Hi by lia. done.
Qed.

Lemma bind_client_spec cn c : zget (cb_list (sess (cn_bd cn))) cb = Some c →
  no_disconnect (resolve_events V) →
  match IS_bind_client submit_queues single_chunk_map cb V cn with
  | Ok (ret, cn') =>
      cn_cb cn' = cn_cb cn ∧ cn_heap cn' = cn_heap cn ∧
      ∃ c', zget (cb_list (sess (cn_bd cn'))) cb = Some c' ∧ (ret = 0 → state c' = ROUTE_RESOLVED)
  | Fault f => f = Blocked
  end.
Proof.
  intros Hc Hd. unfold IS_bind_client. destruct (Z.eqb_spec (rdma_resolve_addr V (fill_sockaddr (cn_cb cn))) 0)
    as [E|E]; cbn [negb]; [|split_and!; [done..|]; by exists c].
  rewrite (wait_state_run _ _ _ _ Hc Hd). destruct (run_events _ _ _) as [st|]; [|done].
  cbn [res_bind cn_bd upd]. unfold read_cb.
  rewrite (rd_ok _ _ _ (put_state_cb _ _ st Hc)). cbn [res_bind state upd].
  case_decide; cbn [cn_cb cn_heap cn_bd upd]; (split_and!; [done..|]);
    (eexists; split; [by apply put_state_cb | done]).
Qed.

Lemma setup_done cn cn1 cn2 : ready cn → blank (cn_cb cn) →
  let n := next_id (cn_heap cn) in
  cn_cb cn1 = cn_cb cn <| pd := Obj n |> <| cq := Obj (n + 1) |> <| qp := Obj (n + 2) |> →
  cn_heap cn1 = {| live := with_qp (live (cn_heap cn)) n; next_id := n + 3 |} →
  mem (cn_cb cn) = DMA → IS_setup_buffers V cn1 = Ok (get_dma_mr V, cn2) →
  if decide (get_dma_mr V = 0) then set_up cn2 (live (cn_heap cn)) n
  else ∃ cn3, IS_free_qp cn2 = Ok cn3 ∧ cn_bd cn3 = cn_bd cn2 ∧ qp (cn_cb cn3) = Obj (n + 2) ∧
    live (cn_heap cn3) =
      <[n + 4 := K_dma_map]> (<[n + 3 := K_dma_map]> (live (cn_heap cn))).
Proof.
  intros Hr Hb n H1 H2 Hm Hs. destruct (rd_cm _ Hr) as (i & Hcm & Hi).
  pose proof (ready_below _ _ _ Hr Hi) as Hin. pose proof (rd_heap _ Hr) as Hwf.
  assert (∀ k, n ≤ k → live (cn_heap cn) !! k = None) as Hfresh by (intros; by apply Hwf).
  destruct (setup_buffers_spec cn1 n) as (cn2' & E & Hbd & Hpd & Hcq & Hqp & Hc2 & R1 & R2 & R3 &
    Hrm & Hsm & Hok & HL).
  { rewrite H2. intros k Hk. cbn in *. unfold with_qp. live_solve. apply Hfresh. lia. }
  1-6: rewrite ?H1, ?H2; cbn; unfold with_qp; try live_solve; apply Hb.
  rewrite Hs in E. injection E as <-. rewrite H1, H2 in *. cbn [next_id live] in *.
  replace (n + 3 + 1) with (n + 4) in * by lia. replace (n + 3 + 2) with (n + 5) in * by lia.
  case_decide as Ed.
  - destruct (Hok Ed) as [Hdma Hwr]. split; try done. rewrite Hc2. cbn. eauto.
  - destruct (free_qp_spec cn2 n (n + 1) (n + 2)) as (cn3 & E3 & E4 & E5 & E6);
      rewrite ?Hpd, ?Hcq, ?Hqp, ?HL; unfold with_qp; try done; try lia; try live_solve.
    exists cn3. split_and!; [done..| |].
    + by rewrite E5, Hqp.
    + rewrite E6, HL. unfold with_qp. apply map_eq. intros k.
      destruct (decide (k = n)) as [->|]; [live_solve; by rewrite Hfresh by lia|].
      destruct (decide (k = n + 1)) as [->|]; [live_solve; by rewrite Hfresh by lia|].
      destruct (decide (k = n + 2)) as [->|]; [live_solve; by rewrite Hfresh by lia|].
      destruct (decide (k = n + 3)) as [->|]; [live_solve|].
      destruct (decide (k = n + 4)) as [->|]; live_solve.
Qed.

(** ** [rdma_connect_upper] and [rdma_connect_down] *)

(** Set up, nothing taken, or, when the region is refused, the two mappings left behind. *)
Definition upper_result (cn : conn) (r : res (Z * conn)) : Prop :=
  let L := live (cn_heap cn) in
  let n := next_id (cn_heap cn) in
  match r with
  | Ok (ret, cn') =>
      if decide (ret = 0) then
        set_up cn' L n ∧
        ∃ c, zget (cb_list (sess (cn_bd cn'))) cb = Some c ∧ state c = ROUTE_RESOLVED
      else
        (live (cn_heap cn') = L ∧ qp (cn_cb cn') = Null) ∨
        (ret = get_dma_mr V ∧ qp (cn_cb cn') = Obj (n + 2) ∧
         live (cn_heap cn') = <[n + 4 := K_dma_map]> (<[n + 3 := K_dma_map]> L))
  | Fault f => f = Blocked
  end.

Lemma connect_upper_spec cn : ready cn → blank (cn_cb cn) → mem (cn_cb cn) = DMA →
  no_disconnect (resolve_events V) →
  upper_result cn (rdma_connect_upper submit_queues single_chunk_map cb V cn).
Proof.
  intros Hr Hb Hm Hd. destruct (rd_cb _ Hr) as [c Hc]. unfold rdma_connect_upper.
  pose proof (bind_client_spec cn c Hc Hd) as Hbind.
  destruct (IS_bind_client _ _ _ _ _) as [[ret cn1]|f]; [|done]. cbn [res_bind].
  destruct Hbind as (H1 & H2 & c1 & Hc1 & Hst).
  destruct (Z.eqb_spec ret 0) as [->|Hret]; cbn [negb].
  2:{ red. rewrite decide_False by done. left. rewrite H1, H2. split; [done | apply Hb]. }
  assert (ready cn1) as Hr1.
  { destruct Hr as [Hwf Hcm _]. split; rewrite ?H1, ?H2; eauto. }
  rewrite <- H1 in Hb, Hm. unfold upper_result. rewrite <- H2. clear dependent cn c.
  destruct (setup_qp_spec cn1 Hr1) as (ret & cn2 & -> & Hbd & _ & Hqp). cbn [res_bind].
  case_decide as Eret.
  2:{ rewrite (proj2 (Z.eqb_neq ret 0)) by done. cbn [negb]. rewrite decide_False by done.
      left. destruct Hqp as [-> ->]. split; [done | apply Hb]. }
  subst ret. cbn [Z.eqb negb]. destruct Hqp as [E1 E2].
  destruct (setup_buffers_spec cn2 (next_id (cn_heap cn1)))
    as (cn3 & E3 & Hbd3 & _).
  { rewrite E2. intros k Hk. cbn in *. unfold with_qp. live_solve. apply (rd_heap _ Hr1). lia. }
  1-6: rewrite ?E1, ?E2; cbn; unfold with_qp; try live_solve; apply Hb.
  pose proof (setup_done _ _ _ Hr1 Hb E1 E2 Hm E3) as Hdone. rewrite E3. cbn [res_bind].
  case_decide as Eg.
  - rewrite Eg. cbn [Z.eqb]. rewrite decide_True by done. split; [done|]. exists c1.
    rewrite Hbd3, Hbd. eauto.
  - rewrite (proj2 (Z.eqb_neq _ 0)) by done. destruct Hdone as (cn4 & -> & _ & Hq4 & HL4).
    cbn [res_bind]. rewrite decide_False by done. right. done.
Qed.

(** Connected with all objects, or the buffers given back and the queue pair kept. *)
Definition down_result (cn : conn) (L : gmap Z kind) (n : Z) (r : res (Z * conn)) : Prop :=
  match r with
  | Ok (ret, cn') =>
      if decide (ret = 0) then
        set_up cn' L n ∧
        ∃ c, zget (cb_list (sess (cn_bd cn'))) cb = Some c ∧ state c ≠ ERROR ∧
          (test_state_val CONNECTED ≤ test_state_val (state c) ∨ Signal ∈ connect_events V)
      else live (cn_heap cn') = with_qp L n
  | Fault f => f = Blocked
  end.

Lemma run_events_end cond evs : ∀ st st', run_events cond st evs = Some st' →
  cond st' = true ∨ Signal ∈ evs.
Proof.
  induction evs as [|e evs IH]; intros st st' H; simpl in H; destruct (cond st) eqn:E;
    simplify_eq; eauto.
  destruct e as [ev|]; [|right; by left]. destruct (IH _ _ H); [by left | right; by right].
Qed.

Lemma connect_client_spec cn L n c : set_up cn L n →
  zget (cb_list (sess (cn_bd cn))) cb = Some c → no_disconnect (connect_events V) →
  match IS_connect_client submit_queues single_chunk_map cb V cn with
  | Ok (ret, cn') =>
      set_up cn' L n ∧
      ∃ c', zget (cb_list (sess (cn_bd cn'))) cb = Some c' ∧
        (ret = 0 → state c' ≠ ERROR ∧
          (test_state_val CONNECTED ≤ test_state_val (state c') ∨ Signal ∈ connect_events V))
  | Fault f => f = Blocked
  end.
Proof.
  intros Hs Hc Hd. unfold IS_connect_client. destruct (su_cm _ _ _ Hs) as (i & -> & Hi & HL).
  rewrite find_live.
  2:{ rewrite (su_live _ _ _ Hs). unfold with_buffers, with_qp. live_solve. }
  cbn [res_bind]. destruct (Z.eqb_spec (rdma_connect V {| responder_resources := 1;
    initiator_depth := 1; retry_count := 10 |}) 0) as [E|E]; cbn [negb];
    [|split; [done|]; exists c; split; [done | intros; lia]].
  rewrite (wait_state_run _ _ _ _ Hc Hd). destruct (run_events _ _ _) as [st|] eqn:Er; [|done].
  cbn [res_bind cn_bd upd]. unfold read_cb. pose proof (put_state_cb _ _ st Hc) as Hc'.
  rewrite (rd_ok _ _ _ Hc'). cbn [res_bind state upd].
  assert (set_up (cn <| cn_bd := put_state (cn_bd cn) st |>) L n) as Hs'.
  { destruct Hs. by split. }
  case_decide as Est; (split; [done|]); eexists; (split; [done|]); [done|]. intros _.
  split; [done|]. apply run_events_end in Er as [Er|Er]; [left|by right].
  by apply Z.leb_le in Er.
Qed.

Lemma connect_down_spec cn L n c : set_up cn L n → (∀ k, n ≤ k → L !! k = None) →
  zget (cb_list (sess (cn_bd cn))) cb = Some c → state c = ROUTE_RESOLVED →
  no_disconnect (connect_events V) →
  down_result cn L n (rdma_connect_down submit_queues single_chunk_map cb V cn).
Proof.
  intros Hs HL Hc Hst Hd. unfold rdma_connect_down. rewrite (su_qp _ _ _ Hs), find_live.
  2:{ rewrite (su_live _ _ _ Hs). unfold with_buffers, with_qp. live_solve. }
  cbn [res_bind].
  assert (∀ cn, set_up cn L n → ∃ cn', IS_free_buffers cn = Ok cn' ∧
    live (cn_heap cn') = with_qp L n) as Hfree.
  { intros cn' Hs'. destruct (free_buffers_spec cn' L n Hs') as (cn2 & ? & _ & ?);
      [apply HL; lia..|]. eauto. }
  destruct (Z.eqb_spec (ib_post_recv V) 0) as [E|E]; cbn [res_bind].
  - pose proof (connect_client_spec cn L n c Hs Hc Hd) as Hcc.
    destruct (IS_connect_client _ _ _ _ _) as [[ret cn1]|f]; [|done]. cbn [res_bind].
    destruct Hcc as (Hs1 & c' & Hc' & Hret). destruct (Z.eqb_spec ret 0) as [->|Hne].
    + red. rewrite decide_True by done. split; [done|]. exists c'. by destruct (Hret eq_refl).
    + destruct (Hfree cn1 Hs1) as (cn2 & -> & Hl). cbn [res_bind]. red. by rewrite decide_False.
  - rewrite (proj2 (Z.eqb_neq _ 0)) by done. destruct (Hfree cn Hs) as (cn2 & -> & Hl).
    cbn [res_bind]. red. by rewrite decide_False.
Qed.

(** ** A connection that succeeds *)

Definition resolved_events : list wake := [Event EV_ADDR_RESOLVED; Event EV_ROUTE_RESOLVED].
Definition established_events : list wake := [Event EV_ESTABLISHED].

Lemma connect_upper_ok cn c : calls_ok → resolve_events V = resolved_events →
  ready cn → blank (cn_cb cn) → mem (cn_cb cn) = DMA →
  zget (cb_list (sess (cn_bd cn))) cb = Some c → state c = IDLE →
  ∃ cn', rdma_connect_upper submit_queues single_chunk_map cb V cn = Ok (0, cn') ∧
    cn_bd cn' = put_state (cn_bd cn) ROUTE_RESOLVED ∧
    set_up cn' (live (cn_heap cn)) (next_id (cn_heap cn)).
Proof.
  intros Hok Hev Hr Hb Hm Hc Hst.
  assert (no_disconnect (resolve_events V)) as Hd.
  { rewrite Hev. intros H. repeat (apply elem_of_cons in H as [H|H]; [done|]). by apply elem_of_nil in H. }
  pose proof (connect_upper_spec cn Hr Hb Hm Hd) as Hup.
  assert (∃ cn1, IS_bind_client submit_queues single_chunk_map cb V cn = Ok (0, cn1) ∧
    cn_bd cn1 = put_state (cn_bd cn) ROUTE_RESOLVED ∧ cn_cb cn1 = cn_cb cn ∧
    cn_heap cn1 = cn_heap cn) as (cn1 & E1 & Hw1 & Hcb1 & Hh1).
  { unfold IS_bind_client. rewrite (ok_resolve Hok). cbn [Z.eqb negb].
    rewrite (wait_state_run _ _ _ _ Hc Hd), Hst, Hev.
    change (run_events (state_ge ROUTE_RESOLVED) IDLE resolved_events) with (Some ROUTE_RESOLVED).
    cbn [res_bind].
    unfold read_cb. cbn [cn_bd upd]. rewrite (rd_ok _ _ _ (put_state_cb _ _ ROUTE_RESOLVED Hc)).
    cbn [res_bind state upd]. rewrite decide_True by done. by eexists. }
  unfold rdma_connect_upper in *. rewrite E1 in *. cbn [res_bind Z.eqb negb] in *.
  assert (ready cn1) as Hr1.
  { destruct Hr as [Hwf Hcm _]. split; rewrite ?Hcb1, ?Hh1, ?Hw1; [done | done|].
    rewrite (put_state_cb _ _ _ Hc). eauto. }
  destruct (setup_qp_spec cn1 Hr1) as (ret & cn2 & E2 & Hbd2 & Hret & Hqp). rewrite (Hret Hok) in *.
  rewrite E2 in *. cbn [res_bind Z.eqb negb] in *. rewrite decide_True in Hqp by done.
  destruct Hqp as [Ec2 Eh2].
  destruct (setup_buffers_spec cn2 (next_id (cn_heap cn))) as (cn3 & E3 & Hbd3 & _).
  { rewrite Eh2. intros k Hk. cbn in *. unfold with_qp. live_solve. apply (rd_heap _ Hr1). lia. }
  1-6: rewrite ?Ec2, ?Eh2, ?Hcb1, ?Hh1; cbn; unfold with_qp; try live_solve; apply Hb.
  rewrite E3, (ok_dma_mr Hok) in *. cbn [res_bind Z.eqb] in *. exists cn3. split; [done|].
  red in Hup. rewrite decide_True in Hup by done. split; [by rewrite Hbd3, Hbd2 | apply Hup].
Qed.

Lemma connect_down_ok cn c L n : calls_ok → connect_events V = established_events →
  set_up cn L n → zget (cb_list (sess (cn_bd cn))) cb = Some c → state c = ROUTE_RESOLVED →
  ∃ cn', rdma_connect_down submit_queues single_chunk_map cb V cn = Ok (0, cn') ∧
    cn_bd cn' = put_state (cn_bd cn) CONNECTED ∧ set_up cn' L n.
Proof.
  intros Hok Hev Hs Hc Hst. unfold rdma_connect_down. rewrite (su_qp _ _ _ Hs), find_live.
  2:{ rewrite (su_live _ _ _ Hs). unfold with_buffers, with_qp. live_solve. }
  cbn [res_bind]. rewrite (ok_post_recv Hok). cbn [Z.eqb]. unfold IS_connect_client.
  destruct (su_cm _ _ _ Hs) as (i & -> & Hi & HL). rewrite find_live.
  2:{ rewrite (su_live _ _ _ Hs). unfold with_buffers, with_qp. live_solve. }
  cbn [res_bind]. rewrite (ok_connect Hok). cbn [Z.eqb negb].
  assert (no_disconnect (connect_events V)) as Hd.
  { rewrite Hev. intros H. apply elem_of_cons in H as [H|H]; [done | by apply elem_of_nil in H]. }
  rewrite (wait_state_run _ _ _ _ Hc Hd), Hst, Hev.
  change (run_events (state_ge CONNECTED) ROUTE_RESOLVED established_events) with (Some CONNECTED).
  cbn [res_bind].
  unfold read_cb. cbn [cn_bd upd]. rewrite (rd_ok _ _ _ (put_state_cb _ _ CONNECTED Hc)).
  cbn [res_bind state upd]. rewrite decide_False by done. cbn [res_bind Z.eqb].
  eexists. split_and!; [done..|]. destruct Hs. by split.
Qed.

(** * Theorems *)



(** C19: when every verbs call succeeds and the connection manager resolves the address and the
    route and establishes the connection, the calls [IS_single_chunk_map] makes for a server it
    never spoke to return, leave the session as the step [Select.connect] of the selection says,
    in state CONNECTED, and own exactly the objects of one connection. *)
Theorem connect_server_refines cn c (Hok : calls_ok) (Hev1 : resolve_events V = resolved_events)
  (Hev2 : connect_events V = established_events) (Hh : heap_wf (cn_heap cn))
  (Hb : blank (cn_cb cn)) (Hc : zget (cb_list (sess (cn_bd cn))) cb = Some c) :
  ∃ c1 s1 s2 cn', kernel_cb_init 0 submit_queues c = (0, Some c1) ∧
    write_cb (sess (cn_bd cn)) cb c1 = Ok s1 ∧ connect s1 cb = Ok s2 ∧
    connect_server submit_queues single_chunk_map cb V cn = Ok cn' ∧
    cn_bd cn' = cn_bd cn <| sess := s2 |> ∧
    zget (cb_list s2) cb = Some (c1 <| state := CONNECTED |>) ∧
    set_up cn' (<[next_id (cn_heap cn) := K_cm_id]> (live (cn_heap cn)))
      (next_id (cn_heap cn) + 1).
Proof.
  destruct (kernel_cb_init 0 submit_queues c) as [e o] eqn:Ei.
  assert (e = 0 ∧ ∃ c1, o = Some c1 ∧ state c1 = IDLE) as (-> & c1 & -> & Hst).
  { unfold kernel_cb_init in Ei. cbn in Ei. simplify_eq. eauto. }
  unfold connect_server, read_cb, write_cb. rewrite (rd_ok _ _ _ Hc). cbn [res_bind].
  unfold init_handles, acquire_err. rewrite (ok_create_id Hok). cbn [Z.eqb acquire PTR_ERR].
  rewrite Ei. cbn [cn_bd upd]. rewrite wr_ok by eauto with zarr. cbn [res_bind].
  set (w1 := cn_bd cn <| sess := sess (cn_bd cn) <| cb_list := zset (cb_list (sess (cn_bd cn))) cb c1 |> |>).
  match goal with |- context [rdma_connect_upper _ _ _ _ ?x] => set (cn1 := x) end.
  assert (zget (cb_list (sess w1)) cb = Some c1) as Hc1.
  { subst w1. cbn. rewrite zget_zset_eq; [done | eauto with zarr]. }
  destruct (connect_upper_ok cn1 c1) as (cn2 & E2 & Hw2 & Hs2); try done.
  { split; [by apply (acquire_wf K_cm_id (cn_heap cn)) | | by exists c1].
    eexists. split; [done | apply lookup_insert_eq]. }
  { destruct Hb. by split. }
  pose proof (put_state_cb w1 c1 ROUTE_RESOLVED Hc1) as Hc2.
  destruct (connect_down_ok cn2 (c1 <| state := ROUTE_RESOLVED |>) _ _ Hok Hev2 Hs2)
    as (cn3 & E3 & Hw3 & Hs3); [by rewrite Hw2 | done|].
  exists c1, (sess w1), (sess (put_state w1 CONNECTED)), cn3. rewrite E2. cbn [res_bind]. rewrite E3.
  cbn [res_bind]. split_and!; try done.
  - rewrite wr_ok by eauto with zarr. done.
  - unfold connect. cbn [foldl cma_state res_bind].
    rewrite (set_state_put _ _ _ Hc1). cbn [res_bind].
    rewrite (set_state_put _ _ _ (put_state_cb _ _ _ Hc1)). cbn [res_bind].
    rewrite (put_state_put _ _ _ _ Hc1), (set_state_put _ _ _ (put_state_cb _ _ _ Hc1)).
    by rewrite (put_state_put _ _ _ _ Hc1).
  - rewrite Hw3, Hw2. change (cn_bd cn1) with w1. rewrite (put_state_put _ _ _ _ Hc1).
    unfold put_state. rewrite Hc1. done.
  - by apply put_state_cb.
Qed.

End ConnectInv.

(** * Witnesses *)

(** A session with one server, which it never spoke to. *)
Definition conn_session : IS_session :=
  match IS_session_create (λ _, true) 1 (chars "rdma://1,10.0.0.1:9400") with
  | Ok (_, Some s) => s
  | _ => {| mapped_cb_num := 0; cb_list := []; cb_num := 0; cb_state_list := []; IS_conns := [];
            capacity_g := 0; cb_index_map := []; chunk_map_cb_chunk := [];
            unmapped_chunk_list := []; free_chunk_index := 0; rdma_on := 0; write_ops := [];
            read_ops := []; last_ops := []; trigger_threshold := 0; w_weight := 0;
            cur_weight := 0; trigger_enable := 0 |}
  end.

Definition conn_bd : bd :=
  {| sess := conn_session; stackbd := demo_stackbd; host := ∅; posted := []; ended := [];
     preempt := 0 |}.

Definition no_sge : ib_sge := {| sge_addr := Null; sge_length := 0; sge_lkey := Key_unset |}.

Definition blank_cb : cb_handles :=
  {| cm_id := Null; pd := Null; cq := Null; qp := Null; mem := DMA; dma_mr := Null;
     recv_mr := Null; send_mr := Null; rdma_mr := Null; recv_dma_addr := Null;
     recv_mapping := Null; send_dma_addr := Null; send_mapping := Null; recv_sgl := no_sge;
     send_sgl := no_sge; rq_wr := {| rq_sg_list := SG_none; rq_num_sge := 0 |};
     sq_wr := {| sq_opcode := OP_unset; sq_signaled := false; sq_sg_list := SG_none;
                 sq_num_sge := 0 |};
     local_dma_lkey := 0; addr_type := AF_INET; cb_addr := [10; 0; 0; 1]; cb_port := 47140 |}.

(** Every call succeeds but the registration of memory, which returns [err]. *)
Definition conn_verbs (err : Z) : verbs :=
  {| rdma_create_id := 0; rdma_resolve_addr := λ _, 0; ib_alloc_pd := 0; ib_create_cq := λ _, 0;
     ib_req_notify_cq := 0; rdma_create_qp := λ _, 0; get_dma_mr := err; ib_post_recv := 0;
     rdma_connect := λ _, 0; resolve_events := resolved_events;
     connect_events := established_events |}.

Definition blank_conn : conn := {| cn_bd := conn_bd; cn_cb := blank_cb; cn_heap := empty_heap |}.
Definition ready_conn : conn := (init_handles (conn_verbs 0) blank_conn).2.

Lemma ready_conn_ready : ready 0 ready_conn.
Proof.
  split; [apply (acquire_wf K_cm_id), empty_heap_wf | by exists 0 | vm_compute; eauto].
Qed.

Lemma ready_conn_blank : blank (cn_cb ready_conn).
Proof. by split. Qed.

Lemma conn_verbs_quiet err : no_disconnect (resolve_events (conn_verbs err) ++
  connect_events (conn_verbs err)).
Proof. intros H. repeat (apply elem_of_cons in H as [H|H]; [done|]). by apply elem_of_nil in H. Qed.

Definition conn_upper (err : Z) : res (Z * conn) :=
  rdma_connect_upper (BL := roomy_block_layer) 1 (λ s _, Ok s) 0 (conn_verbs err) ready_conn.



Lemma connect_server_refines_witness :
  ∃ s2 cn', connect_server (BL := roomy_block_layer) 1 (λ s _, Ok s) 0 (conn_verbs 0) blank_conn
      = Ok cn' ∧ cn_bd cn' = conn_bd <| sess := s2 |> ∧
    set_up cn' (<[0 := K_cm_id]> ∅) 1.
Proof.
  destruct (zget (cb_list (sess (cn_bd blank_conn))) 0) as [c|] eqn:Hc;
    [|vm_compute in Hc; discriminate Hc].
  destruct (connect_server_refines (BL := roomy_block_layer) 1 (λ s _, Ok s) 0 (conn_verbs 0)
    blank_conn c ltac:(by split) eq_refl eq_refl empty_heap_wf ltac:(by split) Hc)
    as (c1 & s1 & s2 & cn' & _ & _ & _ & H & Hw & _ & Hs).
  exists s2, cn'. exact (conj H (conj Hw Hs)).
Defined.
