(* ===== verification/SelectInv.v ===== *)
(** Server selection asks distinct servers that can take a chunk, puts the one with the most
    memory first; the activity the trigger thread filters. *)

From Stdlib Require Import ZArith Lia.
From stdpp Require Import base tactics list numbers option.
From S2P Require Import Prelude Types ByteOrder Bitmap CtxPool Stackbd Request Views ChunkMap.
From S2P Require Import MapInv World Transfer Servers Pages Session Eviction Select Trigger MapSafety.
From stdpp Require Import list_relations.

Local Open Scope Z_scope.

Section SelectInv.
Context `{C : Config}.

(** * Distinct servers *)

Lemma busy_open s i st : zget (cb_state_list s) i = Some st → cb_busy s i = negb (cb_open st).
Proof. intros H. unfold cb_busy, cb_open. rewrite H. by destruct st. Qed.

(** Servers in range, open, and listed once. *)
Definition picks (s : IS_session) (l : list Z) : Prop :=
  NoDup l ∧ ∀ x, x ∈ l → ∃ st, zget (cb_state_list s) x = Some st ∧ cb_open st = true.

Lemma picks_snoc s l x st : picks s l → zget (cb_state_list s) x = Some st → cb_open st = true →
  x ∉ l → picks s (l ++ [x]).
Proof.
  intros [Hn Hl] Hx Ho Hni. split.
  - apply NoDup_app. split_and!; [done | | by apply NoDup_singleton].
    intros y Hy Hy'. apply list_elem_of_singleton in Hy'. by subst.
  - intros y [Hy|Hy]%elem_of_app; [by apply Hl|]. apply list_elem_of_singleton in Hy. subst. eauto.
Qed.

Lemma avail_cb_ok s : len (cb_state_list s) = cb_num s →
  avail_cb s = Ok (count cb_open (cb_state_list s)).
Proof.
  intros Hl. pose proof (len_nonneg (cb_state_list s)). unfold avail_cb.
  destruct (for_upto_inv (λ i n, n = cb_num s - i + count cb_open (take (Z.to_nat i) (cb_state_list s)))
    (λ i n, let* st := rd (cb_state_list s) i in
      Ok (if cb_state_val CB_EVICTING <=? cb_state_val st then n - 1 else n)) (cb_num s) (cb_num s))
    as (n & -> & ->); [lia | change (count cb_open (take _ _)) with 0; lia | |].
  - intros i n Hi ->. destruct (zget_is_Some (cb_state_list s) i) as [st Hst]; [lia|].
    rewrite (rd_ok _ _ _ Hst). eexists. split; [done|]. rewrite (count_take cb_open _ _ _ Hst).
    destruct st; simpl; lia.
  - f_equal. rewrite <- Hl. unfold len. rewrite Nat2Z.id, firstn_all. lia.
Qed.

Lemma all_servers_ok s : len (cb_state_list s) = cb_num s →
  ∃ l, all_servers s = Ok l ∧ picks s l ∧ len l = count cb_open (cb_state_list s).
Proof.
  intros Hl. pose proof (len_nonneg (cb_state_list s)). unfold all_servers.
  destruct (for_upto_inv (λ i l, picks s l ∧ (∀ x, x ∈ l → x < i) ∧
      len l = count cb_open (take (Z.to_nat i) (cb_state_list s)))
    (λ i selection, let* st := rd (cb_state_list s) i in
      Ok (if cb_state_val st <? cb_state_val CB_EVICTING then selection ++ [i] else selection))
    (cb_num s) []) as (l & -> & Hp & _ & Hn); [lia | | |].
  - split_and!; [split; [by apply NoDup_nil_2|] | |done]; intros x Hx; by apply elem_of_nil in Hx.
  - intros i l Hi (Hp & Hlt & Hn). destruct (zget_is_Some (cb_state_list s) i) as [st Hst]; [lia|].
    rewrite (rd_ok _ _ _ Hst). cbn [res_bind]. eexists. split; [done|].
    rewrite (count_take cb_open _ _ _ Hst). change (cb_state_val st <? cb_state_val CB_EVICTING) with (cb_open st).
    destruct (cb_open st) eqn:Ho.
    + split_and!.
      * apply (picks_snoc _ _ _ st); try done. intros Hin. apply Hlt in Hin. lia.
      * intros x [Hx|Hx]%elem_of_app; [apply Hlt in Hx; lia|].
        apply list_elem_of_singleton in Hx. lia.
      * unfold len in *. rewrite length_app. simpl. lia.
    + split_and!; [done | intros x Hx; apply Hlt in Hx; lia | lia].
  - exists l. split_and!; [done | done |]. rewrite Hn, <- Hl. unfold len.
    by rewrite Nat2Z.id, firstn_all.
Qed.

(** Servers that are open and not drawn. *)
Definition unmarked (e : cb_state * Z) : bool := cb_open e.1 && negb (e.2 =? 1).

Lemma zip_zset (states : list cb_state) (marks : list Z) x st v : zget states x = Some st →
  zip states (zset marks x v) = zset (zip states marks) x (st, v).
Proof.
  intros H. pose proof (zget_Some_range _ _ _ H). unfold zset, zget in *. rewrite decide_True in H by lia.
  rewrite !decide_True by lia. rewrite <- (list_insert_id _ _ _ H) at 1. by rewrite insert_zip_with.
Qed.

Lemma zget_zip {A B} (l : list A) (k : list B) x a b :
  zget (zip l k) x = Some (a, b) ↔ zget l x = Some a ∧ zget k x = Some b.
Proof.
  unfold zget. case_decide; [|split; [done | by intros []]]. rewrite lookup_zip_with_Some.
  split; [intros (? & ? & [= <- <-] & ? & ?); done | intros [? ?]; eauto].
Qed.

Record drawn_servers (s : IS_session) (j : Z) (l marks : list Z) : Prop := {
  ds_picks : picks s l;
  ds_len : len l = j;
  ds_marks : len marks = cb_num s;
  ds_in : ∀ x, x ∈ l → zget marks x = Some 1;
  ds_left : count unmarked (zip (cb_state_list s) marks) = count cb_open (cb_state_list s) - j;
}.

Lemma drawn_servers_0 s : len (cb_state_list s) = cb_num s →
  drawn_servers s 0 [] (replicate (Z.to_nat (cb_num s)) (2 ^ 32 - 1)).
Proof.
  intros Hl. pose proof (len_nonneg (cb_state_list s)). split; try done.
  - split; [by apply NoDup_nil_2 | intros x Hx; by apply elem_of_nil in Hx].
  - rewrite len_replicate by lia. done.
  - intros x Hx. by apply elem_of_nil in Hx.
  - rewrite <- Hl. unfold len. rewrite Nat2Z.id, Z.sub_0_r. clear.
    induction (cb_state_list s) as [|st l IH]; [done|]. simpl. rewrite !count_cons, IH.
    f_equal. unfold unmarked. simpl. by rewrite andb_true_r.
Qed.

(** A draw finds a server while one is left. *)
Lemma draw_server_ok s j l marks random : len (cb_state_list s) = cb_num s → 0 ≤ j →
  j < count cb_open (cb_state_list s) → drawn_servers s j l marks →
  ∃ x, probe (Z.to_nat (cb_num s)) (cb_num s)
         (λ x, cb_busy s x || match zget marks x with Some 1 => true | _ => false end)
         (random mod cb_num s) = Ok x ∧
    wr marks x 1 = Ok (zset marks x 1) ∧ drawn_servers s (j + 1) (l ++ [x]) (zset marks x 1).
Proof.
  intros Hl Hj Hlt [Hp Hn Hm Hin Hleft].
  destruct (count_pos unmarked (zip (cb_state_list s) marks)) as ([st v] & Hv & Hu); [lia|].
  apply list_elem_of_lookup in Hv as [y Hy]. rewrite <- zget_nat in Hy. apply zget_zip in Hy as [Hy1 Hy2].
  pose proof (zget_Some_range _ _ _ Hy1) as Hyr.
  apply andb_true_iff in Hu as [Ho Hv1]. simpl in Ho, Hv1.
  destruct (probe_total (cb_num s)
    (λ x, cb_busy s x || match zget marks x with Some 1 => true | _ => false end)
    (random mod cb_num s) (Z.of_nat y)) as (x & Hx & Hxr & Hb).
  - apply Z.mod_pos_bound. lia.
  - lia.
  - rewrite (busy_open _ _ _ Hy1), Ho, Hy2. simpl. apply negb_true_iff, Z.eqb_neq in Hv1.
    destruct v as [|[]|]; done.
  - destruct (zget_is_Some (cb_state_list s) x) as [sx Hsx]; [lia|].
    destruct (zget_is_Some marks x) as [mx Hmx]; [lia|].
    apply orb_false_iff in Hb as [Hb1 Hb2]. rewrite (busy_open _ _ _ Hsx) in Hb1.
    apply negb_false_iff in Hb1. rewrite Hmx in Hb2. assert (mx ≠ 1) as Hm1 by (by intros ->).
    exists x. split; [done|]. split; [by apply wr_ok; lia|]. split.
    + apply (picks_snoc _ _ _ sx); try done. intros Hx'. apply Hin in Hx'. congruence.
    + unfold len in *. rewrite length_app. simpl. lia.
    + by rewrite len_zset.
    + intros z [Hz|Hz]%elem_of_app.
      * rewrite zget_zset. case_decide; [done | by apply Hin].
      * apply list_elem_of_singleton in Hz. subst. apply zget_zset_eq. lia.
    + rewrite (zip_zset _ _ _ sx _ Hsx),
        (count_zset _ _ _ _ _ (proj2 (zget_zip _ _ _ _ _) (conj Hsx Hmx))).
      unfold unmarked at 2 3. simpl. rewrite Hb1, (proj2 (Z.eqb_neq _ _) Hm1). simpl. lia.
Qed.

Lemma select_servers_ok rand s : len (cb_state_list s) = cb_num s →
  ∃ l, select_servers rand s = Ok l ∧ picks s l ∧
    len l = Z.min SERVER_SELECT_NUM (count cb_open (cb_state_list s)).
Proof.
  intros Hl. pose proof server_select_pos. unfold select_servers. rewrite (avail_cb_ok _ Hl).
  cbn [res_bind]. destruct (Z.leb_spec (count cb_open (cb_state_list s)) SERVER_SELECT_NUM) as [Hle|Hgt].
  - destruct (all_servers_ok s Hl) as (l & -> & Hp & Hn). exists l. split_and!; [done | done | lia].
  - unfold draw_servers.
    match goal with |- context [for_upto _ ?b ?s0] =>
      destruct (for_upto_inv (λ j st, drawn_servers s j st.1 st.2) b SERVER_SELECT_NUM s0)
        as ([l marks] & -> & Hd); [lia | by apply drawn_servers_0 | |] end.
    + intros j [l marks] Hj Hd. cbn [fst snd] in Hd.
      destruct (draw_server_ok s j l marks (rand j) Hl) as (x & -> & E & Hd'); [lia | lia | done|].
      cbn [res_bind]. rewrite E. by eexists.
    + cbn [res_bind]. cbn [fst snd] in Hd. exists l. split_and!; [done | apply (ds_picks _ _ _ _ Hd)|].
      rewrite (ds_len _ _ _ _ Hd). lia.
Qed.

(** Also where the portal string gave a negative count. *)
Lemma select_open rand s : len (cb_state_list s) = Z.max 0 (cb_num s) →
  ∃ l, select_servers rand s = Ok l ∧ picks s l ∧
    len l = Z.min SERVER_SELECT_NUM (count cb_open (cb_state_list s)).
Proof.
  intros Hl. destruct (Z.le_gt_cases 0 (cb_num s)) as [Hn|Hn]; [apply select_servers_ok; lia|].
  pose proof server_select_pos. exists []. unfold select_servers, avail_cb, all_servers, for_upto.
  replace (Z.to_nat (cb_num s)) with 0%nat by lia. cbn [for_from res_bind].
  rewrite (proj2 (Z.leb_le _ _)) by lia. 
  assert (cb_state_list s = []) as -> by (apply nil_length_inv; unfold len in Hl; lia).
  split_and!; [done | split; [by apply NoDup_nil_2 | intros x Hx; by apply elem_of_nil in Hx]|].
  change (count cb_open []) with 0. change (len []) with 0. lia.
Qed.

(** * The server with the most memory *)

Lemma s32_add_sub a b : is_s32 a → s32 (s32 (a + b) - b) = a.
Proof. intros Ha. rewrite s32_sub_l. replace (a + b - b) with a by lia. by apply s32_id. Qed.

Lemma s32_sub_sub a b : is_s32 b → s32 (s32 (a + b) - a) = b.
Proof. intros Hb. rewrite s32_sub_l. replace (a + b - a) with b by lia. by apply s32_id. Qed.

(** The exchange is right even where the sum overflows. *)
Lemma swap_first_ok l j a b : zget l 0 = Some a → zget l j = Some b → 0 < j →
  is_s32 a → is_s32 b → swap_first l j = Ok (zset (zset l 0 b) j a).
Proof.
  intros H0 Hj Hp Ha Hb. pose proof (zget_Some_range _ _ _ H0). pose proof (zget_Some_range _ _ _ Hj).
  unfold swap_first. rewrite (rd_ok _ _ _ H0), (rd_ok _ _ _ Hj). cbn [res_bind].
  rewrite wr_ok by lia. cbn [res_bind]. rewrite (rd_ok _ _ (s32 (a + b))) by (apply zget_zset_eq; lia).
  cbn [res_bind]. rewrite (s32_add_sub a b Ha). rewrite wr_ok by (rewrite len_zset; lia).
  cbn [res_bind]. rewrite (rd_ok _ _ a) by (apply zget_zset_eq; rewrite len_zset; lia).
  cbn [res_bind]. rewrite (s32_sub_sub a b Hb), wr_ok by (rewrite !len_zset; lia). f_equal.
  apply zlist_eq; [by rewrite !len_zset|]. intros i _. rewrite !zget_zset, !len_zset.
  repeat case_decide; try done; lia.
Qed.

Lemma zip_swap {A B} (l : list A) (k : list B) i j a b c d : zget l i = Some a → zget l j = Some b →
  zget k i = Some c → zget k j = Some d →
  zip (zset (zset l i b) j a) (zset (zset k i d) j c) ≡ₚ zip l k.
Proof.
  intros Ha Hb Hc Hd. pose proof (zget_Some_range _ _ _ Ha). pose proof (zget_Some_range _ _ _ Hb).
  unfold zget, zset in *. rewrite decide_True in Ha by lia.
  rewrite decide_True in Hb by lia. rewrite decide_True in Hc by lia. rewrite decide_True in Hd by lia.
  rewrite !decide_True by lia. rewrite <- !insert_zip_with.
  apply Permutation_insert_swap; rewrite lookup_zip_with_Some; eauto 10.
Qed.

Record best_upto (fm so : list Z) (j : Z) (fm' so' : list Z) : Prop := {
  bu_fm : len fm' = len fm;
  bu_so : len so' = len so;
  bu_s32 : Forall is_s32 fm' ∧ Forall is_s32 so';
  bu_perm : zip fm' so' ≡ₚ zip fm so;
  bu_max : ∀ i a b, 0 ≤ i < j → zget fm' 0 = Some a → zget fm' i = Some b → b ≤ a;
}.

(** Servers and their memory stay together, and the first has the most. *)
Lemma best_first_ok fm so : len fm = len so → 0 < len fm → Forall is_s32 fm → Forall is_s32 so →
  ∃ fm' so', best_first fm so = Ok (fm', so') ∧ best_upto fm so (len fm) fm' so'.
Proof.
  intros Hl Hp Hf Hs. unfold best_first.
  match goal with |- context [for_from 1 ?n ?b ?s0] =>
    destruct (for_from_inv (λ j st, best_upto fm so j st.1 st.2) b n 1 s0)
      as ([fm' so'] & -> & Hb) end.
  - split; try done. intros i a b Hi Ha Hb. assert (i = 0) as -> by lia. cbn [fst] in *.
    rewrite Ha in Hb. injection Hb as <-. done.
  - intros j [f1 s1] Hj [L1 L2 [F1 F2] Hperm Hmax]. cbn [fst snd] in *.
    assert (j < len fm) by (unfold len; lia).
    destruct (zget_is_Some f1 0) as [a Ha]; [lia|]. destruct (zget_is_Some f1 j) as [b Hb]; [lia|].
    rewrite (rd_ok _ _ _ Ha), (rd_ok _ _ _ Hb). cbn [res_bind].
    destruct (Z.ltb_spec a b) as [Hlt|Hge].
    + destruct (zget_is_Some s1 0) as [c Hc]; [lia|]. destruct (zget_is_Some s1 j) as [e He]; [lia|].
      pose proof (Forall_zget _ _ _ _ F1 Ha). pose proof (Forall_zget _ _ _ _ F1 Hb).
      pose proof (Forall_zget _ _ _ _ F2 Hc). pose proof (Forall_zget _ _ _ _ F2 He).
      rewrite (swap_first_ok f1 j a b) by (done || lia). cbn [res_bind].
      rewrite (swap_first_ok s1 j c e) by (done || lia). cbn [res_bind].
      eexists. split; [done|]. split; cbn [fst snd]; rewrite ?len_zset; try done.
      * split; by repeat apply Forall_zset.
      * etransitivity; [by apply zip_swap|]. done.
      * intros i x y Hi. rewrite zget_zset_ne, zget_zset_eq by lia. intros [= <-].
        rewrite zget_zset, len_zset. case_decide as Hd; [intros [= <-]; lia|].
        rewrite zget_zset. case_decide as Hd'; [intros [= <-]; lia|]. intros Hy.
        assert (i ≠ j) by (intros ->; apply Hd; lia).
        pose proof (Hmax i a y ltac:(lia) Ha Hy). lia.
    + eexists. split; [done|]. split; cbn [fst snd]; try done. intros i x y Hi Hx Hy.
      rewrite Ha in Hx. injection Hx as <-. destruct (decide (i = j)) as [->|].
      * rewrite Hb in Hy. by injection Hy as <-.
      * by apply (Hmax i); [lia|..].
  - exists fm', so'. split; [done|]. cbn [fst snd] in Hb.
    by replace (len fm) with (1 + Z.of_nat (length fm - 1)) by (unfold len in *; lia).
Qed.

End SelectInv.

(** * Theorems *)

(** The share of the last activity in the filter, in percent, as [IS_session_create] sets it. *)
Definition last_share (s : IS_session) : Z := 100 - cur_weight s.

(** The filter of the trigger is not divided by 100: the activity of a chunk that gets no
    request at all is multiplied by the weight of the last activity every period, so it
    grows where it should fade. *)
Theorem idle_activity_grows `{C : Config} submit_queues single_chunk_map
  `{M : !ChunkMapper submit_queues single_chunk_map} s i a :
  client_inv submit_queues s → 1 < last_share s ≤ 100 →
  zget (write_ops s) i = Some 0 → zget (read_ops s) i = Some 0 →
  zget (last_ops s) i = Some a → 0 < a → last_share s * a < 2 ^ 64 →
  ∃ s' a', trigger_chunk single_chunk_map i s = Ok s' ∧ zget (last_ops s') i = Some a' ∧
    a' = last_share s * a ∧ a < a'.
Proof.
  intros Hci Hw Ew Er El Ha Hb. unfold last_share in *.
  destruct (trigger_chunk_ok submit_queues single_chunk_map i s 0 0 a Hci Ew Er El)
    as (s' & E & _ & _ & _ & _ & _ & _ & El').
  assert (filtered_ops s 0 0 a = (100 - cur_weight s) * a) as Ef.
  { unfold filtered_ops. cbv zeta. replace (u64 (u64 (w_weight s) * 0 + u64 (100 - w_weight s) * 0)) with 0 by (by rewrite !Z.mul_0_r).
    rewrite Z.mul_0_r, Z.add_0_l.
    rewrite (u64_id (100 - cur_weight s)) by (unfold is_u64; lia).
    apply u64_id. unfold is_u64. nia. }
  pose proof (zget_Some_range _ _ _ El).
  exists s', ((100 - cur_weight s) * a). rewrite El', Ef, zget_zset_eq by done. split_and!; try done. nia.
Qed.

(** Chunk 2 was used once and then left alone. *)
Definition demo_idle : IS_session :=
  demo_created <| last_ops := zset (last_ops demo_created) 2 4000 |>.

Lemma idle_activity_grows_witness : last_share demo_created = 20 ∧
  ∃ s', trigger_chunk (λ s _, Ok s) 2 demo_idle = Ok s' ∧ zget (last_ops s') 2 = Some 80000.
Proof.
  split; [vm_compute; reflexivity|].
  destruct (idle_activity_grows 1 (λ s _, Ok s) demo_idle 2 4000) as (s' & a' & E & El & Ea & _).
  - exact (client_ops 1 demo_created (write_ops demo_created) (read_ops demo_created)
      (zset (last_ops demo_created) 2 4000) demo_created_client eq_refl eq_refl eq_refl).
  - vm_compute. split; [reflexivity | discriminate].
  - vm_compute. reflexivity.
  - vm_compute. reflexivity.
  - vm_compute. reflexivity.
  - lia.
  - vm_compute. reflexivity.
  - exists s'. rewrite El, Ea. split; [exact E | vm_compute; reflexivity].
Defined.
