(* ===== verification/Completion.v ===== *)
(** The completion handler of a connection ([is_main.c], [rdma_cq_event_handler]): it polls
    the completion queue until it is empty and hands each completion to the function for its
    kind.

    The completions that [ib_poll_cq] returns during one call are a list; [last] is the result
    that ends the loop, 0 when the queue is empty. *)

From Stdlib Require Import ZArith Lia.
From stdpp Require Import functions base tactics list numbers option gmap.
From S2P Require Import Prelude Types ByteOrder Bitmap CtxPool Stackbd Request Views ChunkMap World.

(** * Completions *)

Inductive ib_wc_status := IB_WC_SUCCESS | IB_WC_WR_FLUSH_ERR | IB_WC_FAILED.

Inductive ib_wc_opcode :=
  | IB_WC_RECV | IB_WC_SEND | IB_WC_RDMA_READ | IB_WC_RDMA_WRITE | IB_WC_OTHER.

(** [wr_id] is the address of the context of an RDMA transfer.  For a receive, [message] is
    what the card has stored in [recv_buf], and [repost] the result of the [ib_post_recv] that
    follows. *)
Record ib_wc := {
  wc_status : ib_wc_status;
  wc_opcode : ib_wc_opcode;
  wr_id : ctx_ptr;
  byte_len : Z;
  message : IS_rdma_info;
  repost : Z;
}.

Section Completion.
Context `{C : Config}.

Definition client_send (w : bd) : res (Z * bd) := Ok (0, w).

(** [wake_up_interruptible(&cb->sem)] after a receive: in which state the sleeper finds the
    control block. *)
Definition wakes (st : test_state) : bool :=
  match st with RDMA_BUF_ADV | FREE_MEM_RECV | WAIT_OPS => true | _ => false end.

(** The body of the [switch]: 0, or the error that ends the loop; and the wake-up, if any. *)
Definition dispatch (w : bd) (cb : Z) (wc : ib_wc) : res (Z * option test_state * bd) :=
  match wc_opcode wc with
  | IB_WC_RECV =>
      let* s := with_cb (sess w) cb (λ c, c <| recv_buf := message wc |>) in
      let* (ret, s) := client_recv s cb (byte_len wc) in
      let w := w <| sess := s |> in
      if negb (ret =? 0) then Ok (ret, None, w)
      else if negb (repost wc =? 0) then Ok (repost wc, None, w)
      else
        let* c := read_cb s cb in
        Ok (0, if wakes (state c) then Some (state c) else None, w)
  | IB_WC_SEND => let* (ret, w) := client_send w in Ok (ret, None, w)
  | IB_WC_RDMA_READ => let* w := client_read_done w (wr_id wc) in Ok (0, None, w)
  | IB_WC_RDMA_WRITE => let* w := client_write_done w (wr_id wc) in Ok (0, None, w)
  | IB_WC_OTHER => Ok (-1, None, w)
  end.

(** The label [error]. *)
Definition cq_error (w : bd) (cb : Z) : res bd :=
  let* s := set_state (sess w) cb ERROR in Ok (w <| sess := s |>).

(** The polling loop, and the wake-ups it makes. *)
Fixpoint poll_loop (w : bd) (cb : Z) (wcs : list ib_wc) (last : Z) : res (list test_state * bd) :=
  match wcs with
  | [] => if last =? 0 then Ok ([], w) else let* w := cq_error w cb in Ok ([], w)
  | wc :: wcs =>
      match wc_status wc with
      | IB_WC_WR_FLUSH_ERR => poll_loop w cb wcs last
      | IB_WC_FAILED => let* w := cq_error w cb in Ok ([], w)
      | IB_WC_SUCCESS =>
          let* (ret, wk, w) := dispatch w cb wc in
          if ret =? 0 then
            let* (l, w) := poll_loop w cb wcs last in
            Ok (match wk with Some st => st :: l | None => l end, w)
          else let* w := cq_error w cb in Ok ([], w)
      end
  end.

Definition rdma_cq_event_handler (w : bd) (cb : Z) (wcs : list ib_wc) (last : Z)
  : res (list test_state * bd) :=
  let* c := read_cb (sess w) cb in
  if decide (state c = ERROR) then Ok ([], w) else poll_loop w cb wcs last.

(** * A control block outside the ERROR state *)

Definition alive (cb : Z) (s : IS_session) : Prop :=
  ∃ c, zget (cb_list s) cb = Some c ∧ state c ≠ ERROR.

Lemma write_cb_alive s s' cb i c : write_cb s i c = Ok s' → (i = cb → state c ≠ ERROR) →
  alive cb s → alive cb s'.
Proof.
  unfold write_cb. intros H Hst (c0 & Hc & H0). res_inv.
  match goal with H : wr _ _ _ = _ |- _ => apply wr_inv in H as [Hr ->] end.
  destruct (decide (i = cb)) as [->|].
  - exists c. split; [by apply zget_zset_eq | by apply Hst].
  - exists c0. split; [by cbn; rewrite zget_zset_ne | done].
Qed.

Lemma with_cb_alive s s' cb i f : with_cb s i f = Ok s' →
  (∀ c, state c ≠ ERROR → state (f c) ≠ ERROR) → alive cb s → alive cb s'.
Proof.
  unfold with_cb, read_cb. intros H Hf Ha. res_inv.
  match goal with H : rd _ _ = _ |- _ => apply rd_inv in H end.
  eapply write_cb_alive; [done | | done]. intros ->. destruct Ha as (c & Hc & Hst).
  simplify_eq. by apply Hf.
Qed.

Lemma set_state_alive s s' cb i st : set_state s i st = Ok s' → st ≠ ERROR →
  alive cb s → alive cb s'.
Proof. intros H Hst. by eapply with_cb_alive. Qed.

Lemma alive_cbs cb s s' : cb_list s' = cb_list s → alive cb s → alive cb s'.
Proof. intros H (c & Hc & Hst). exists c. by rewrite H. Qed.

Lemma set_cb_state_alive s s' cb i st : set_cb_state s i st = Ok s' → alive cb s → alive cb s'.
Proof. unfold set_cb_state. intros H. res_inv. by apply alive_cbs. Qed.

Lemma map_slot_alive s s' cb c i gb rk bf : map_slot s c i gb rk bf = Ok s' →
  alive cb s → alive cb s'.
Proof.
  unfold map_slot. intros H Ha. res_split.
  eapply write_cb_alive; [done | | by eapply alive_cbs; [|done]].
  intros ->. destruct Ha as (c0 & Hc & Hst). unfold read_cb in *.
  match goal with H : rd (cb_list _) _ = Ok ?a |- _ => apply rd_inv in H end. cbn. congruence.
Qed.

Lemma single_init_alive s s' cb i : IS_single_chunk_init s i = Ok s' → alive cb s → alive cb s'.
Proof.
  unfold IS_single_chunk_init. intros H Ha. res_split. injection H as <-.
  eapply (for_from_break_pres (alive cb)); [|done|done]. clear. intros j s c' Hs H. cbv beta in H. res_split.
  case_match; [by injection H as <-|]. res_split. injection H as <-. cbn.
  eapply with_cb_alive; [done | done|]. by eapply map_slot_alive.
Qed.

Lemma list_init_alive s s' cb i : IS_chunk_list_init s i = Ok s' → alive cb s → alive cb s'.
Proof.
  unfold IS_chunk_list_init. intros H Ha. res_split. eapply with_cb_alive; [done | done|].
  eapply (for_from_pres (alive cb)); [|done|done]. clear. intros j s s' Hs H. cbv beta in H. res_split.
  case_match; [by injection H as <-|]. res_split. by eapply map_slot_alive.
Qed.

Lemma recv_evict_alive s s' cb i : client_recv_evict s i = Ok s' → alive cb s → alive cb s'.
Proof.
  unfold client_recv_evict. intros H Ha. res_split. case_match; [by injection H as <-|].
  by eapply with_cb_alive.
Qed.

Lemma recv_stop_alive s s' cb i : client_recv_stop s i = Ok s' → alive cb s → alive cb s'.
Proof.
  unfold client_recv_stop. intros H Ha. res_split.
  match goal with H : with_cb s _ _ = Ok ?a |- _ =>
    assert (alive cb a) by (by eapply with_cb_alive) end.
  case_match; [by eapply with_cb_alive|]. res_split. by eapply with_cb_alive.
Qed.

Lemma client_recv_alive s s' cb i n ret : client_recv s i n = Ok (ret, s') →
  alive cb s → alive cb s'.
Proof.
  unfold client_recv. intros H Ha. res_split.
  repeat case_match; res_split; simplify_eq; try done; eauto using single_init_alive,
    list_init_alive, recv_evict_alive, recv_stop_alive, set_cb_state_alive.
  all: try (by eapply with_cb_alive).
  all: match goal with
       | H : IS_single_chunk_init _ _ = _ |- _ => eapply single_init_alive; [exact H|]
       | H : IS_chunk_list_init _ _ = _ |- _ => eapply list_init_alive; [exact H|]
       | H : client_recv_evict _ _ = _ |- _ => eapply recv_evict_alive; [exact H|]
       | H : client_recv_stop _ _ = _ |- _ => eapply recv_stop_alive; [exact H|]
       end; (eapply set_state_alive; [done | done|]); eauto using set_cb_state_alive.
Qed.

(** The pools are no part of the control blocks. *)
Lemma set_pool_cbs s s' conn cb p : set_pool s conn cb p = Ok s' → cb_list s' = cb_list s.
Proof. unfold set_pool. intros H. res_split. by injection H as <-. Qed.

Lemma with_ctx_cbs w w' p f : with_ctx w p f = Ok w' → cb_list (sess w') = cb_list (sess w).
Proof.
  unfold with_ctx, write_ctx. intros H. res_split. injection H as <-. by eapply set_pool_cbs.
Qed.

Lemma insert_cbs w w' p : IS_insert w p = Ok w' → cb_list (sess w') = cb_list (sess w).
Proof.
  unfold IS_insert, IS_insert_ctx. intros H. res_split. injection H as <-. by eapply set_pool_cbs.
Qed.

Lemma update_bitmap_alive f s s' cb i ci : update_bitmap f s i ci = Ok s' →
  alive cb s → alive cb s'.
Proof.
  unfold update_bitmap. intros H (c & Hc & Hst). res_split. injection H as <-. unfold read_cb in *.
  match goal with H : rd (cb_list _) _ = Ok ?a |- _ => apply rd_inv in H end.
  match goal with H : wr (cb_list _) _ _ = Ok ?a |- _ => apply wr_inv in H as [? ->] end.
  destruct (decide (i = cb)) as [->|].
  - eexists. split; [by apply zget_zset_eq|]. cbn. congruence.
  - exists c. split; [by cbn; rewrite zget_zset_ne | done].
Qed.

Lemma read_done_alive w w' cb p : client_read_done w p = Ok w' → alive cb (sess w) →
  alive cb (sess w').
Proof.
  unfold client_read_done. intros H. res_split. injection H as <-. apply alive_cbs. cbn.
  repeat match goal with
  | H : with_ctx _ _ _ = Ok _ |- _ => apply with_ctx_cbs in H
  | H : IS_insert _ _ = Ok _ |- _ => apply insert_cbs in H
  end. cbn in *. congruence.
Qed.

Lemma write_done_alive w w' cb p : client_write_done w p = Ok w' → alive cb (sess w) →
  alive cb (sess w').
Proof.
  unfold client_write_done. intros H Ha. res_split.
  destruct (chunk_ptr a) as [[c ci]|]; [|by simplify_eq]. res_split.
  match goal with H : update_bitmap _ _ _ _ = Ok _, H' : with_ctx w _ _ = Ok _ |- _ =>
    apply with_ctx_cbs in H';
    eapply (update_bitmap_alive _ _ _ cb) in H; [|by eapply alive_cbs] end.
  clear Ha. match goal with H' : with_ctx _ _ _ = Ok _ |- _ => apply with_ctx_cbs in H'; cbn in H' end.
  destruct (req a); res_split; injection H as <-; [|by eapply alive_cbs].
  match goal with H' : with_ctx _ _ _ = Ok _ |- _ => apply with_ctx_cbs in H' end.
  eapply alive_cbs; [|done]. cbn. congruence.
Qed.

Lemma dispatch_alive w w' cb wc ret wk : dispatch w cb wc = Ok (ret, wk, w') →
  alive cb (sess w) → alive cb (sess w').
Proof.
  unfold dispatch, client_send. intros H Ha. destruct (wc_opcode wc); res_split.
  - destruct a0 as [r s]. assert (alive cb s) as Hs.
    { eapply client_recv_alive; [done|]. by eapply with_cb_alive. }
    repeat case_match; res_split; by simplify_eq.
  - by simplify_eq.
  - injection H as <- <- <-. by eapply read_done_alive.
  - injection H as <- <- <-. by eapply write_done_alive.
  - by simplify_eq.
Qed.

(** * Splitting a batch *)

Lemma handler_alive w cb wcs last : alive cb (sess w) →
  rdma_cq_event_handler w cb wcs last = poll_loop w cb wcs last.
Proof.
  intros (c & Hc & Hst). unfold rdma_cq_event_handler, read_cb. rewrite (rd_ok _ _ _ Hc).
  cbn [res_bind]. by rewrite decide_False.
Qed.

(** After an error no completion is looked at. *)
Lemma handler_error w w' cb wcs last : cq_error w cb = Ok w' →
  rdma_cq_event_handler w' cb wcs last = Ok ([], w').
Proof.
  unfold cq_error, set_state, with_cb, write_cb, read_cb. intros H. res_split. injection H as <-.
  match goal with H : Ok _ = Ok _ |- _ => injection H as <- end.
  match goal with H : wr _ _ _ = Ok _ |- _ => apply wr_inv in H as [Hr ->] end.
  unfold rdma_cq_event_handler, read_cb. cbn [sess upd cb_list].
  rewrite (rd_ok _ _ _ (zget_zset_eq _ _ _ Hr)). cbn [res_bind]. by rewrite decide_True.
Qed.

Lemma cq_error_then w cb wcs last :
  (let* w := cq_error w cb in Ok ([], w)) =
  (let* (l1, w1) := let* w := cq_error w cb in Ok ([], w) in
   let* (l2, w2) := rdma_cq_event_handler w1 cb wcs last in Ok (l1 ++ l2, w2)).
Proof.
  destruct (cq_error w cb) as [w'|] eqn:E; [|done]. cbn [res_bind].
  by rewrite (handler_error _ _ _ _ _ E).
Qed.

Lemma poll_loop_app cb wcs2 last wcs1 : ∀ w, alive cb (sess w) →
  poll_loop w cb (wcs1 ++ wcs2) last =
  let* (l1, w1) := poll_loop w cb wcs1 0 in
  let* (l2, w2) := rdma_cq_event_handler w1 cb wcs2 last in Ok (l1 ++ l2, w2).
Proof.
  induction wcs1 as [|wc wcs1 IH]; intros w Ha; cbn [app poll_loop Z.eqb res_bind].
  - rewrite handler_alive by done. by destruct (poll_loop _ _ _ _) as [[]|].
  - destruct (wc_status wc); [|by apply IH | apply cq_error_then].
    destruct (dispatch w cb wc) as [[[ret wk] w1]|] eqn:E; [|done]. cbn [res_bind].
    destruct (ret =? 0); [|apply cq_error_then].
    rewrite IH by (by eapply dispatch_alive).
    destruct (poll_loop w1 cb wcs1 0) as [[l1 w2]|]; [|done]. cbn [res_bind].
    destruct (rdma_cq_event_handler w2 cb wcs2 last) as [[l2 w3]|]; [|done]. cbn [res_bind].
    by destruct wk.
Qed.

(** The completion of a work request. *)
Definition wc_of (po : posting) : ib_wc := {|
  wc_status := IB_WC_SUCCESS;
  wc_opcode := match wr_opc (po_wr po) with
               | IB_WR_RDMA_READ => IB_WC_RDMA_READ | IB_WR_RDMA_WRITE => IB_WC_RDMA_WRITE end;
  wr_id := po_ctx po; byte_len := wr_length (po_wr po);
  message := {| buf := []; rkey := []; size_gb := 0; type := NO_TYPE |}; repost := 0 |}.

(** * Theorems *)

(** C20: how the completions are batched does not matter.  For any completions, failed and
    flushed ones and messages included, one call of the handler on two batches together does
    what two calls do one after the other: the same state, the same wake-ups in the same order,
    the same fault if there is one, and nothing at all after the first error. *)
Theorem cq_batch_equiv w cb wcs1 wcs2 last :
  rdma_cq_event_handler w cb (wcs1 ++ wcs2) last =
  let* (l1, w1) := rdma_cq_event_handler w cb wcs1 0 in
  let* (l2, w2) := rdma_cq_event_handler w1 cb wcs2 last in Ok (l1 ++ l2, w2).
Proof.
  destruct (zget (cb_list (sess w)) cb) as [c|] eqn:Hc.
  2:{ unfold rdma_cq_event_handler at 1 2. unfold read_cb, rd. by rewrite Hc. }
  destruct (decide (state c = ERROR)) as [E|E].
  - assert (∀ wcs n, rdma_cq_event_handler w cb wcs n = Ok ([], w)) as H.
    { intros. unfold rdma_cq_event_handler, read_cb. rewrite (rd_ok _ _ _ Hc). cbn [res_bind].
      by rewrite decide_True. }
    rewrite !H. cbn [res_bind]. by rewrite H.
  - assert (alive cb (sess w)) as Ha by (by exists c).
    rewrite !(handler_alive w) by done. by apply poll_loop_app.
Qed.


End Completion.
