(* ===== verification/Coherence.v ===== *)
(** The contract of the block device: with any number of requests outstanding, for different
    pages, and whatever the order in which the backup disk and the network card finish the work
    they were given, the device behaves as a flat array of pages.

    [vol] is that array: a write updates it when it is submitted, and every read that
    ends has stored [vol]'s page in the memory of the request. *)

From Stdlib Require Import ZArith Lia.
From stdpp Require Import functions relations base tactics list numbers option gmap.
From S2P Require Import Prelude Types Bitmap CtxPool Stackbd Request Views World Transfer.

(** * The machine *)

Section Machine.
Context `{C : Config} `{BL : BlockLayer} `{V : Verbs}.
Variable submit_queues : Z.

(** The world, the array of pages it stands for, and the outstanding requests with the
    host pages they transfer. *)
Record machine := {
  wd : world;
  vol : Z → page;
  busy : list (request * Z);
}.

(** The requests that a step of the environment has ended. *)
Definition finished (x x' : world) : list (request * Z) :=
  drop (length (ended (dev x))) (ended (dev x')).

Definition still_busy (x x' : world) (b : list (request * Z)) : list (request * Z) :=
  filter (λ e, page_no e.1 ∉ (λ f, page_no f.1) <$> finished x x') b.

(** Every write the network card still has to send is from a context that the disk has not
    given back yet. *)
Definition no_orphans (w : bd) : Prop :=
  ∀ po, po ∈ posted w → wr_opc (po_wr po) = IB_WR_RDMA_WRITE →
    ∃ b, b ∈ bio_list (stackbd w) ∧ bi_private b = Priv_ctx (po_ctx po).

(** The card takes up the work request [po] first. *)
Definition nic_first (x : world) (l1 : list posting) (po : posting) (l2 : list posting) : world :=
  x <| dev := dev x <| posted := po :: l1 ++ l2 |> |>.

Inductive io_step : machine → machine → Prop :=
  (* the block layer submits a request, for a page and from memory no other one uses *)
  | io_submit x v b r a pg w :
      page_request r a → host (dev x) !! a = Some pg →
      (∀ r' a', (r', a') ∈ b → page_no r' ≠ page_no r ∧ a' ≠ a) → no_orphans (dev x) →
      IS_queue_rq submit_queues (dev x) r = Ok (BLK_MQ_RQ_QUEUE_OK, 0, w) →
      io_step {| wd := x; vol := v; busy := b |}
        {| wd := x <| dev := w |>;
           vol := if rq_write r then <[page_no r := pg]> v else v;
           busy := (r, a) :: b |}
  (* the host uses memory that no request uses *)
  | io_host x v b h :
      (∀ r a, (r, a) ∈ b → h !! a = host (dev x) !! a) →
      io_step {| wd := x; vol := v; busy := b |}
        {| wd := x <| dev := dev x <| host := h |> |>; vol := v; busy := b |}
  (* the backup disk finishes the bio at the head of the queue *)
  | io_disk x x' v b :
      bio_list (stackbd (dev x)) ≠ [] → disk_step x = Ok x' →
      io_step {| wd := x; vol := v; busy := b |}
        {| wd := x'; vol := v; busy := still_busy x x' b |}
  (* the network card finishes a work request, whichever *)
  | io_nic x x' v b l1 po l2 :
      posted (dev x) = l1 ++ po :: l2 → nic_step (nic_first x l1 po l2) = Ok x' →
      io_step {| wd := x; vol := v; busy := b |}
        {| wd := x'; vol := v; busy := still_busy x x' b |}.

(** * The invariant *)

(** An entry of the disk's queue: a request, or the write-through of a context whose page goes
    to page [n]. *)
Inductive queued := QReq (r : request) (a : Z) | QCtx (p : ctx_ptr) (n : Z).

Definition q_bio (e : queued) : bio :=
  match e with
  | QReq r a => ending_bio IS_stackbd_end_io r (page_bio r a)
  | QCtx p n => ctx_bio p (n * PAGE_SECTORS)
  end.
Definition q_page (e : queued) : Z := match e with QReq r _ => page_no r | QCtx _ n => n end.
Definition q_ctxs (q : list queued) : list ctx_ptr :=
  omap (λ e, match e with QCtx p _ => Some p | _ => None end) q.
Definition q_reqs (q : list queued) : list (request * Z) :=
  omap (λ e, match e with QReq r a => Some (r, a) | _ => None end) q.

(** A work request: the request it is for and its context. *)
Inductive flight := FRead (r : request) (a : Z) (p : ctx_ptr) | FWrite (r : request) (a : Z) (p : ctx_ptr).

Definition f_req (f : flight) : request * Z := match f with FRead r a _ | FWrite r a _ => (r, a) end.
Definition f_ctx (f : flight) : ctx_ptr := match f with FRead _ _ p | FWrite _ _ p => p end.
Definition read_ctxs (fs : list flight) : list ctx_ptr :=
  omap (λ f, match f with FRead _ _ p => Some p | _ => None end) fs.

(** Requests that have not ended, and the contexts in use. *)
Definition outstanding (q : list queued) (fs : list flight) : list (request * Z) :=
  q_reqs q ++ (f_req <$> fs).
Definition held_by (q : list queued) (fs : list flight) : list ctx_ptr := read_ctxs fs ++ q_ctxs q.

(** The first page of a context's buffer. *)
Definition ctx_page (s : IS_session) (p : ctx_ptr) : page :=
  match ctx_at s p with
  | Some c => match zget (rdma_buf c) 0 with Some pg => pg | None => [] end
  | None => []
  end.

(** The page of the host at [a]. *)
Definition host_at (h : gmap Z page) (a : Z) : page :=
  match h !! a with Some pg => pg | None => [] end.

(** The disk once the queue is done. *)
Definition q_effect (s : IS_session) (h : gmap Z page) (d : Z → page) (e : queued) : Z → page :=
  match e with
  | QReq r a => if rq_write r then <[page_no r := host_at h a]> d else d
  | QCtx p n => <[n := ctx_page s p]> d
  end.
Definition settled (s : IS_session) (h : gmap Z page) (d : Z → page) (q : list queued) : Z → page :=
  foldl (q_effect s h) d q.

(** Nothing is queued for a page after a request for it. *)
Fixpoint lasts (q : list queued) : Prop :=
  match q with
  | [] => True
  | QReq r _ :: q' => (∀ e, e ∈ q' → q_page e ≠ page_no r) ∧ lasts q'
  | QCtx _ _ :: q' => lasts q'
  end.

Definition flight_posted (s : IS_session) (f : flight) (po : posting) : Prop :=
  match f with
  | FRead r a p =>
      ∃ cb ck c, mapped_chunk s (page_no r) = Some (cb, ck) ∧ ctx_at s p = Some c ∧
        req c = Some r ∧ flying cb p c ∧ remote_hit s (page_no r) = true ∧
        po = {| po_cb := cb; po_ctx := p;
                po_wr := read_wr ck (slot_of (page_no r) * IS_PAGE_SIZE) IB_WR_RDMA_READ |}
  | FWrite r a p =>
      ∃ cb ci ck c pg, mapping s (chunk_of (page_no r)) = Some (cb, ci) ∧
        chunk_at s cb ci = Some ck ∧ ctx_at s p = Some c ∧ flying cb p c ∧
        write_ctx_ok c r cb ci (slot_of (page_no r) * IS_PAGE_SIZE) pg ∧
        po = {| po_cb := cb; po_ctx := p;
                po_wr := read_wr ck (slot_of (page_no r) * IS_PAGE_SIZE) IB_WR_RDMA_WRITE |}
  end.

Definition flight_ok (s : IS_session) (v : Z → page) (f : flight) : Prop :=
  match f with
  | FRead r a _ => page_request r a ∧ rq_write r = false
  | FWrite r a p => page_request r a ∧ rq_write r = true ∧ ctx_page s p = v (page_no r)
  end.

Definition req_ok (h : gmap Z page) (v : Z → page) (r : request) (a : Z) : Prop :=
  page_request r a ∧ (rq_write r = true → h !! a = Some (v (page_no r))).

(** The page is being written over the network. *)
Definition in_writing (fs : list flight) (n : Z) : Prop :=
  ∃ r a p, FWrite r a p ∈ fs ∧ page_no r = n.

Definition pages_of (o : list (request * Z)) : list Z := (λ e, page_no e.1) <$> o.

Record coherent (x : world) (v : Z → page) (q : list queued) (fs : list flight) : Prop := {
  co_wf : session_wf (sess (dev x));
  co_ready : stackbd_ready (stackbd (dev x)) = true;
  co_ctxs : ctxs_ok (sess (dev x));
  co_owned : pools_owned (sess (dev x)) (held_by q fs);
  co_nodup : NoDup (held_by q fs);
  co_flights : NoDup (f_ctx <$> fs);
  co_queue : bio_list (stackbd (dev x)) = q_bio <$> q;
  co_posted : Forall2 (flight_posted (sess (dev x))) fs (posted (dev x));
  co_reqs : ∀ r a, (r, a) ∈ q_reqs q → req_ok (host (dev x)) v r a;
  co_fok : ∀ f, f ∈ fs → flight_ok (sess (dev x)) v f;
  (* one request per page of the device and per page of the host *)
  co_pages : NoDup (pages_of (outstanding q fs));
  co_hosts : NoDup (outstanding q fs).*2;
  co_last : lasts q;
  (* write-through: the disk, once settled, holds every page *)
  co_disk : ∀ n, settled (sess (dev x)) (host (dev x)) (disk x) q n = v n;
  (* a recorded page is on its server *)
  co_remote : ∀ n key, remote_key (sess (dev x)) n = Some key →
    remote_hit (sess (dev x)) n = true → ¬ in_writing fs n → remote x key = v n;
}.

Definition inv (m : machine) : Prop :=
  ∃ q fs, coherent (wd m) (vol m) q fs ∧ busy m ≡ₚ outstanding q fs.

(** * Frames *)

(** Two sessions with the same mapping and the same chunks. *)
Definition same_map (s s' : IS_session) : Prop :=
  (∀ g, mapping s' g = mapping s g) ∧ (∀ cb ci, chunk_at s' cb ci = chunk_at s cb ci).

Lemma same_map_chunk s s' n : same_map s s' → mapped_chunk s' n = mapped_chunk s n.
Proof.
  intros [H1 H2]. unfold mapped_chunk. rewrite H1. destruct (mapping s (chunk_of n)) as [[cb ci]|];
    [by rewrite H2 | done].
Qed.

Lemma same_map_key s s' n : same_map s s' → remote_key s' n = remote_key s n.
Proof. intros H. unfold remote_key. by rewrite (same_map_chunk _ _ _ H). Qed.

Lemma same_map_hit s s' n : same_map s s' → remote_hit s' n = remote_hit s n.
Proof. intros H. unfold remote_hit. by rewrite (same_map_chunk _ _ _ H). Qed.

Lemma same_map_conns s s' : same_but_conns s s' → same_map s s'.
Proof. by intros [cs ->]. Qed.

Lemma same_map_trans s1 s2 s3 : same_map s1 s2 → same_map s2 s3 → same_map s1 s3.
Proof. intros [H1 H2] [H3 H4]. split; intros; congruence. Qed.

Lemma session_wf_conns s s' : same_but_conns s s' → session_wf s → session_wf s'.
Proof. intros [cs ->] []. split; simpl; done. Qed.

(** ** The queue *)

Lemma elem_of_q_ctxs p q : p ∈ q_ctxs q ↔ ∃ n, QCtx p n ∈ q.
Proof.
  unfold q_ctxs. rewrite list_elem_of_omap. split.
  - intros ([r a|p' n] & Hin & [= <-]). eauto.
  - intros [n Hin]. eauto.
Qed.

Lemma elem_of_q_reqs r a q : (r, a) ∈ q_reqs q ↔ QReq r a ∈ q.
Proof.
  unfold q_reqs. rewrite list_elem_of_omap. split.
  - by intros ([r' a'|p' n] & Hin & [= <- <-]).
  - intros Hin. eauto.
Qed.

Lemma elem_of_read_ctxs p fs : p ∈ read_ctxs fs ↔ ∃ r a, FRead r a p ∈ fs.
Proof.
  unfold read_ctxs. rewrite list_elem_of_omap. split.
  - intros ([r a p'|r a p'] & Hin & [= <-]). eauto.
  - intros (r & a & Hin). eauto.
Qed.

Lemma settled_ext s s' (h h' : gmap Z page) d q :
  (∀ p, p ∈ q_ctxs q → ctx_page s' p = ctx_page s p) →
  (∀ r a, (r, a) ∈ q_reqs q → rq_write r = true → h' !! a = h !! a) →
  settled s' h' d q = settled s h d q.
Proof.
  unfold settled. revert d. induction q as [|e q IH]; intros d Hc Hh; [done|]. simpl.
  replace (q_effect s' h' d e) with (q_effect s h d e).
  - apply IH; intros *; rewrite ?elem_of_q_ctxs, ?elem_of_q_reqs; intros Hin.
    + destruct Hin as [n Hin]. apply Hc, elem_of_q_ctxs. exists n. by right.
    + apply Hh, elem_of_q_reqs. by right.
  - destruct e as [r a|p n]; cbn [q_effect].
    + destruct (rq_write r) eqn:E; [|done].
      assert (h' !! a = h !! a) as Ha by (apply (Hh r a); [apply elem_of_q_reqs; left | done]).
      unfold host_at. by rewrite Ha.
    + rewrite Hc; [done|]. apply elem_of_q_ctxs. exists n. left.
Qed.

(** Entries for other pages leave a page alone. *)
Lemma settled_other s h q n : ∀ d, (∀ e, e ∈ q → q_page e ≠ n) → settled s h d q n = d n.
Proof.
  unfold settled. induction q as [|e q IH]; intros d Hq; [done|]. simpl. rewrite IH.
  - pose proof (Hq e ltac:(left)) as Hne. destruct e as [r a|p m]; simpl in *.
    + destruct (rq_write r); [|done]. by rewrite fn_lookup_insert_ne.
    + by rewrite fn_lookup_insert_ne.
  - intros e' He. apply Hq. by right.
Qed.

Lemma settled_snoc s h d q e : settled s h d (q ++ [e]) = q_effect s h (settled s h d q) e.
Proof. unfold settled. by rewrite foldl_app. Qed.

Lemma lasts_snoc q e : lasts q → (∀ r a, (r, a) ∈ q_reqs q → page_no r ≠ q_page e) →
  lasts (q ++ [e]).
Proof.
  induction q as [|[r a|p n] q IH]; simpl; intros Hl He.
  - by destruct e as [r a|]; simpl; [split; [intros e' H; by apply elem_of_nil in H|]|].
  - destruct Hl as [H1 H2]. split.
    + intros e' [Hin|Hin]%elem_of_app; [by apply H1|]. apply list_elem_of_singleton in Hin as ->.
      intros E. apply (He r a); [left | done].
    + apply IH; [done|]. intros r' a' Hin. apply (He r' a'). by right.
  - apply IH; [done|]. intros r' a' Hin. apply (He r' a'). done.
Qed.

Lemma q_reqs_app q q' : q_reqs (q ++ q') = q_reqs q ++ q_reqs q'.
Proof. apply omap_app. Qed.

Lemma q_ctxs_app q q' : q_ctxs (q ++ q') = q_ctxs q ++ q_ctxs q'.
Proof. apply omap_app. Qed.

Lemma read_ctxs_app fs fs' : read_ctxs (fs ++ fs') = read_ctxs fs ++ read_ctxs fs'.
Proof. apply omap_app. Qed.

Lemma ctx_page_eq s s' p : ctx_at s' p = ctx_at s p → ctx_page s' p = ctx_page s p.
Proof. unfold ctx_page. by intros ->. Qed.

Lemma page_sector r a : page_request r a → page_no r * PAGE_SECTORS = rq_pos r.
Proof.
  intros Hr. unfold page_no. pose proof (pr_sector _ _ Hr).
  pose proof (Z.div_mod (rq_pos r) PAGE_SECTORS). change PAGE_SECTORS with 8 in *. lia.
Qed.

Lemma mapped_chunk_inv s n cb ci ck : mapping s (chunk_of n) = Some (cb, ci) →
  chunk_at s cb ci = Some ck → mapped_chunk s n = Some (cb, ck).
Proof. unfold mapped_chunk. intros -> ->. done. Qed.

Lemma chunk_key_u64 ck n : chunk_ok ck → is_u64 (remote_addr ck + slot_of n * IS_PAGE_SIZE).
Proof.
  intros [_ [? ?]]. pose proof (chunk_offset_range n). unfold is_u64, IS_PAGE_SIZE in *. lia.
Qed.

(** * Submission *)

Lemma queue_rq_inv w r w' :
  IS_queue_rq submit_queues w r = Ok (BLK_MQ_RQ_QUEUE_OK, 0, w') →
  IS_request submit_queues w r = Ok (0, w').
Proof.
  unfold IS_queue_rq. intros ([err w1] & H & H1)%res_bind_ok.
  destruct (Z.eqb_spec err 0); simplify_eq. done.
Qed.

(** To disk: the request joins the queue. *)
Lemma submit_disk w r a w' : page_request r a → stackbd_ready (stackbd w) = true →
  disk_ok w r = Ok (0, w') →
  w' = w <| stackbd := stackbd w <| bio_list := bio_list (stackbd w) ++
              [ending_bio IS_stackbd_end_io r (page_bio r a)] |> |>.
Proof.
  intros Hr Hready. unfold disk_ok, to_disk, IS_mq_request_stackbd, stackbd_make_request2,
    make_request_with. rewrite Hready, (pr_segs _ _ Hr), (pr_bio _ _ Hr).
  unfold clone_loop, for_upto. simpl.
  destruct (bio_clone (page_bio r a)) as [c|] eqn:Hc; [|done].
  apply bio_clone_fresh in Hc as ->. simpl. intros H. res_inv. done.
Qed.

(** ** Frames of requests *)

(** The array after [r] is submitted with page [pg]. *)
Definition vol_after (r : request) (pg : page) (v : Z → page) : Z → page :=
  if rq_write r then <[page_no r := pg]> v else v.

Lemma vol_after_ne r pg v n : n ≠ page_no r → vol_after r pg v n = v n.
Proof. intros Hne. unfold vol_after. destruct (rq_write r); [by rewrite fn_lookup_insert_ne | done]. Qed.

(** No outstanding request is for the page of [r] or uses the host page at [a]. *)
Definition apart_from (o : list (request * Z)) (r : request) (a : Z) : Prop :=
  ∀ r' a', (r', a') ∈ o → page_no r' ≠ page_no r ∧ a' ≠ a.

Lemma flight_outstanding q fs f : f ∈ fs → f_req f ∈ outstanding q fs.
Proof. intros Hf. apply elem_of_app. right. apply list_elem_of_fmap. eauto. Qed.

Lemma req_outstanding q fs r a : (r, a) ∈ q_reqs q → (r, a) ∈ outstanding q fs.
Proof. intros H. apply elem_of_app. by left. Qed.

Lemma outstanding_req q fs r a : outstanding (q ++ [QReq r a]) fs ≡ₚ (r, a) :: outstanding q fs.
Proof. unfold outstanding. rewrite q_reqs_app, <- app_assoc. simpl. by rewrite <- Permutation_middle. Qed.

Lemma outstanding_flight q fs f p n :
  outstanding q (fs ++ [f]) ≡ₚ f_req f :: outstanding q fs ∧
  outstanding (q ++ [QCtx p n]) (fs ++ [f]) ≡ₚ f_req f :: outstanding q fs.
Proof.
  unfold outstanding. rewrite q_reqs_app, fmap_app. simpl. rewrite app_nil_r, app_assoc.
  split; by rewrite Permutation_app_comm.
Qed.

Lemma outstanding_nodup o o' r a : o' ≡ₚ (r, a) :: o → apart_from o r a →
  NoDup (pages_of o) → NoDup o.*2 → NoDup (pages_of o') ∧ NoDup o'.*2.
Proof.
  intros Hp Ha H1 H2. unfold pages_of in *. rewrite Hp. split; apply NoDup_cons; (split; [|done]).
  - intros ([r' a'] & E & Hin)%list_elem_of_fmap. destruct (Ha r' a' Hin) as [Hne _]. by apply Hne.
  - intros ([r' a'] & E & Hin)%list_elem_of_fmap. destruct (Ha r' a' Hin) as [_ Hne]. by apply Hne.
Qed.

Lemma flight_frame s s' f po : same_map s s' → ctx_at s' (f_ctx f) = ctx_at s (f_ctx f) →
  flight_posted s f po → flight_posted s' f po.
Proof.
  intros Hm Hq. destruct f; simpl in *; rewrite Hq.
  - by rewrite (same_map_chunk _ _ _ Hm), (same_map_hit _ _ _ Hm).
  - destruct Hm as [H1 H2]. intros (cb & ci & ck & c & pg & ?). exists cb, ci, ck, c, pg.
    by rewrite H1, H2.
Qed.

Lemma flights_frame s s' fs l : same_map s s' →
  (∀ f, f ∈ fs → ctx_at s' (f_ctx f) = ctx_at s (f_ctx f)) →
  Forall2 (flight_posted s) fs l → Forall2 (flight_posted s') fs l.
Proof.
  intros Hm Hq. induction 1 as [|f po fs l Hf _ IH]; constructor.
  - apply (flight_frame s); [done | apply Hq; left | done].
  - apply IH. intros f' Hf'. apply Hq. by right.
Qed.

Lemma flight_ok_frame s s' v v' f : ctx_page s' (f_ctx f) = ctx_page s (f_ctx f) →
  v' (page_no (f_req f).1) = v (page_no (f_req f).1) → flight_ok s v f → flight_ok s' v' f.
Proof. intros Hq Hv. destruct f; simpl in *; [done|]. intros (? & ? & ?). by rewrite Hq, Hv. Qed.

Lemma in_writing_snoc fs f n : in_writing (fs ++ [f]) n ↔
  in_writing fs n ∨ ∃ r a p, f = FWrite r a p ∧ page_no r = n.
Proof.
  unfold in_writing. split.
  - intros (r & a & p & [Hin|Hin]%elem_of_app & E); [left; eauto|].
    apply list_elem_of_singleton in Hin. right. eauto.
  - intros [(r & a & p & Hin & E)|(r & a & p & -> & E)]; exists r, a, p; (split; [|done]);
      apply elem_of_app; [by left | right; by left].
Qed.

(** The contexts of flights are in use unless the disk has given them back. *)
Lemma flight_held x v q fs f : coherent x v q fs → no_orphans (dev x) → f ∈ fs →
  f_ctx f ∈ held_by q fs.
Proof.
  intros Hco Hn Hf. unfold held_by. apply elem_of_app. destruct f as [r a p|r a p]; simpl.
  - left. apply elem_of_read_ctxs. eauto.
  - right. apply list_elem_of_lookup in Hf as [i Hi].
    destruct (Forall2_lookup_l _ _ _ _ _ (co_posted _ _ _ _ Hco) Hi) as (po & Hpo & Hfp).
    destruct Hfp as (cb & ci & ck & c & pg & _ & _ & _ & _ & _ & E).
    destruct (Hn po) as (b & Hb & Hpriv); [by eapply list_elem_of_lookup_2 | by rewrite E|].
    rewrite (co_queue _ _ _ _ Hco) in Hb. apply list_elem_of_fmap in Hb as (e & -> & He).
    rewrite E in Hpriv. destruct e as [|p' n]; simpl in Hpriv; [done|]. injection Hpriv as <-.
    apply elem_of_q_ctxs. eauto.
Qed.

(** ** Submitting *)

(** Counting the operation changes nothing the invariant speaks of. *)
Lemma coherent_count x v q fs s1 :
  coherent x v q fs → session_wf s1 → same_map (sess (dev x)) s1 →
  (∀ conn cb, pool_at s1 conn cb = pool_at (sess (dev x)) conn cb) →
  coherent (x <| dev := dev x <| sess := s1 |> |>) v q fs.
Proof.
  intros [Hwf Hready Hc Ho Hnd Hfl Hq Hp Hrq Hfk Hpg Hho Hla Hd Hr] Hwf1 Hm Hv.
  destruct (pool_views _ _ Hv) as [Hvf Hvc]. split; simpl in *; try done.
  - eapply ctxs_ok_free; [| |exact Hc]; intros *; [by rewrite Hvf | rewrite Hvc; eauto].
  - by eapply pools_owned_free.
  - eapply flights_frame; [done | | done]. intros; apply Hvc.
  - intros f Hf. apply (flight_ok_frame (sess (dev x)) _ v); [by apply ctx_page_eq | done | auto].
  - intros n. rewrite <- (Hd n). erewrite settled_ext; [done | intros; by apply ctx_page_eq | done].
  - intros n key. rewrite (same_map_key _ _ _ Hm), (same_map_hit _ _ _ Hm). apply Hr.
Qed.

Lemma reqs_after h v q r a pg fs : (∀ r a, (r, a) ∈ q_reqs q → req_ok h v r a) →
  apart_from (outstanding q fs) r a →
  ∀ r' a', (r', a') ∈ q_reqs q → req_ok h (vol_after r pg v) r' a'.
Proof.
  intros H Ha r' a' Hin. destruct (H r' a' Hin) as [? Hw]. split; [done|]. intros Hrw.
  destruct (Ha r' a' (req_outstanding _ fs _ _ Hin)). rewrite vol_after_ne by done. auto.
Qed.

Lemma flights_after s s' v q fs r a pg : (∀ f, f ∈ fs → flight_ok s v f) →
  apart_from (outstanding q fs) r a →
  (∀ f, f ∈ fs → ctx_page s' (f_ctx f) = ctx_page s (f_ctx f)) →
  ∀ f, f ∈ fs → flight_ok s' (vol_after r pg v) f.
Proof.
  intros H Ha Hc f Hf. apply (flight_ok_frame s _ v); auto. apply vol_after_ne.
  pose proof (flight_outstanding q fs f Hf) as Ho. destruct (f_req f) as [r' a'].
  by apply (Ha r' a').
Qed.

Lemma submit_disk_coherent x v q fs r a pg w :
  coherent x v q fs → page_request r a → host (dev x) !! a = Some pg →
  apart_from (outstanding q fs) r a →
  (rq_write r = true → mapping (sess (dev x)) (chunk_of (page_no r)) = None) →
  disk_ok (dev x) r = Ok (0, w) →
  coherent (x <| dev := w |>) (vol_after r pg v) (q ++ [QReq r a]) fs ∧ ended w = ended (dev x).
Proof.
  intros [Hwf Hready Hc Ho Hnd Hfl Hq Hp Hrq Hfk Hpg Hho Hla Hd Hrem] Hr Hh Hap Hmap H.
  apply (submit_disk _ _ a) in H as ->; [|done..]. split; [|done].
  destruct (outstanding_nodup _ _ r a (outstanding_req q fs r a) Hap Hpg Hho) as [Hpg' Hho'].
  assert (held_by (q ++ [QReq r a]) fs = held_by q fs) as Eh
    by (unfold held_by; rewrite q_ctxs_app; simpl; by rewrite app_nil_r).
  split; simpl in *; try done.
  - by rewrite Eh.
  - by rewrite Eh.
  - by rewrite Hq, fmap_app.
  - intros r' a'. rewrite q_reqs_app, elem_of_app. intros [Hin|Hin]; [by eapply reqs_after|].
    apply list_elem_of_singleton in Hin as [= -> ->]. split; [done|]. intros E.
    unfold vol_after. by rewrite E, fn_lookup_insert.
  - by eapply flights_after.
  - apply lasts_snoc; [done|]. intros r' a' Hin. by apply (Hap r' a' (req_outstanding _ fs _ _ Hin)).
  - intros n. rewrite settled_snoc. unfold vol_after. cbn [q_effect]. destruct (rq_write r); [|apply Hd].
    destruct (decide (n = page_no r)) as [->|Hne].
    + rewrite !fn_lookup_insert. unfold host_at. by rewrite Hh.
    + rewrite !fn_lookup_insert_ne by done. apply Hd.
  - intros n key Hk Hit Hn. rewrite (Hrem n key) by done. unfold vol_after.
    destruct (rq_write r) eqn:E; [|done]. rewrite fn_lookup_insert_ne; [done|]. intros <-.
    unfold remote_key, mapped_chunk in Hk. by rewrite Hmap in Hk.
Qed.

Lemma submit_read_coherent x v q fs r a pg cb ci ck w :
  coherent x v q fs → page_request r a → rq_write r = false →
  apart_from (outstanding q fs) r a → no_orphans (dev x) →
  mapping (sess (dev x)) (chunk_of (page_no r)) = Some (cb, ci) →
  chunk_at (sess (dev x)) cb ci = Some ck → chunk_ok ck →
  remote_hit (sess (dev x)) (page_no r) = true →
  IS_transfer_chunk submit_queues (dev x) cb ci ck (slot_of (page_no r) * IS_PAGE_SIZE)
    IS_PAGE_SIZE false r = Ok (0, w) →
  ∃ p, coherent (x <| dev := w |>) (vol_after r pg v) q (fs ++ [FRead r a p]) ∧ ended w = ended (dev x).
Proof.
  intros Hco Hr Hrw Hap Hno Hm Hck Hok Hit H.
  pose proof (λ f, flight_held x v q fs f Hco Hno) as Hheld.
  destruct Hco as [Hwf Hready Hc Ho Hnd Hfl Hq Hp Hrq Hfk Hpg Hho Hla Hd Hrem].
  apply (transfer_read_ok _ _ _ _ a _ _ _ _ (held_by q fs)) in H
    as (p & c & Hnot & Ho' & Hc' & Hs & Hq' & Hp' & Hreq & Hfly & Hpo & Hst & Hhost & Hen);
    [|try done..]; [|by eapply sw_on|by apply chunk_key_u64].
  pose proof (same_map_conns _ _ Hs) as Hsm.
  destruct (outstanding_flight q fs (FRead r a p) p 0) as [Hout _].
  destruct (outstanding_nodup _ _ r a Hout Hap Hpg Hho) as [Hpg' Hho'].
  assert (∀ f, f ∈ fs → f_ctx f ≠ p) as Hne by (intros f Hf E; apply Hnot; rewrite <- E; auto).
  assert (∀ p', p' ∈ q_ctxs q → ctx_page (sess w) p' = ctx_page (sess (dev x)) p') as Hcq.
  { intros p' Hin. apply ctx_page_eq, Hq'. intros ->. apply Hnot, elem_of_app. by right. }
  assert (held_by q (fs ++ [FRead r a p]) ≡ₚ p :: held_by q fs) as Eh.
  { unfold held_by. rewrite read_ctxs_app, <- app_assoc. simpl. by rewrite <- Permutation_middle. }
  unfold vol_after. rewrite Hrw. exists p. split; [|done]. split; simpl in *; try done.
  - by eapply session_wf_conns.
  - by rewrite Hst.
  - by rewrite Eh.
  - rewrite Eh. by apply NoDup_cons.
  - rewrite fmap_app. simpl. rewrite Permutation_app_comm. simpl. apply NoDup_cons. split; [|done].
    intros (f & E & Hf)%list_elem_of_fmap. by apply (Hne f Hf).
  - by rewrite Hst.
  - rewrite Hpo. apply Forall2_app.
    + apply (flights_frame (sess (dev x))); [done | | done]. intros f Hf. by apply Hq', Hne.
    + constructor; [|constructor]. exists cb, ck, c.
      rewrite (same_map_chunk _ _ _ Hsm), (same_map_hit _ _ _ Hsm).
      split_and!; try done. by eapply mapped_chunk_inv.
  - by rewrite Hhost.
  - intros f [Hf|Hf]%elem_of_app.
    + apply (flight_ok_frame (sess (dev x)) _ v); [by apply ctx_page_eq, Hq', Hne | done | auto].
    + apply list_elem_of_singleton in Hf as ->. done.
  - intros n. rewrite <- (Hd n), Hhost. by erewrite settled_ext; [|exact Hcq|].
  - intros n key. rewrite (same_map_key _ _ _ Hsm), (same_map_hit _ _ _ Hsm). intros Hk Hi Hn.
    apply Hrem; [done..|]. intros Hw. apply Hn, in_writing_snoc. by left.
Qed.

Lemma submit_write_coherent x v q fs r a pg cb ci ck w :
  coherent x v q fs → page_request r a → rq_write r = true →
  host (dev x) !! a = Some pg →
  apart_from (outstanding q fs) r a → no_orphans (dev x) →
  mapping (sess (dev x)) (chunk_of (page_no r)) = Some (cb, ci) →
  chunk_at (sess (dev x)) cb ci = Some ck → chunk_ok ck →
  IS_transfer_chunk submit_queues (dev x) cb ci ck (slot_of (page_no r) * IS_PAGE_SIZE)
    IS_PAGE_SIZE true r = Ok (0, w) →
  ∃ p, coherent (x <| dev := w |>) (vol_after r pg v) (q ++ [QCtx p (page_no r)])
         (fs ++ [FWrite r a p]) ∧ ended w = ended (dev x).
Proof.
  intros Hco Hr Hrw Hh Hap Hno Hm Hck Hok H.
  pose proof (λ f, flight_held x v q fs f Hco Hno) as Hheld.
  destruct Hco as [Hwf Hready Hc Ho Hnd Hfl Hq Hp Hrq Hfk Hpg Hho Hla Hd Hrem].
  apply (transfer_write_ok _ _ _ _ a _ _ _ _ (held_by q fs) pg) in H
    as (p & c & Hnot & Ho' & Hc' & Hs & Hq' & Hp' & Hwc & Hfly & Hpo & Hst & Hhost & Hen);
    [|try done..]; [|by eapply sw_on|by apply chunk_key_u64].
  pose proof (same_map_conns _ _ Hs) as Hsm.
  destruct (outstanding_flight q fs (FWrite r a p) p (page_no r)) as [_ Hout].
  destruct (outstanding_nodup _ _ r a Hout Hap Hpg Hho) as [Hpg' Hho'].
  assert (∀ f, f ∈ fs → f_ctx f ≠ p) as Hne by (intros f Hf E; apply Hnot; rewrite <- E; auto).
  assert (∀ p', p' ∈ q_ctxs q → ctx_page (sess w) p' = ctx_page (sess (dev x)) p') as Hcq.
  { intros p' Hin. apply ctx_page_eq, Hq'. intros ->. apply Hnot, elem_of_app. by right. }
  assert (held_by (q ++ [QCtx p (page_no r)]) (fs ++ [FWrite r a p]) ≡ₚ p :: held_by q fs) as Eh.
  { unfold held_by. rewrite read_ctxs_app, q_ctxs_app. simpl. rewrite app_nil_r.
    solve_Permutation. }
  assert (ctx_page (sess w) p = pg) as Hpage.
  { unfold ctx_page. rewrite Hp'. by destruct Hwc as (_ & _ & _ & _ & ->). }
  assert (vol_after r pg v (page_no r) = pg) as Hv by (unfold vol_after; by rewrite Hrw, fn_lookup_insert).
  exists p. split; [|done]. split; simpl in *; try done.
  - by eapply session_wf_conns.
  - by rewrite Hst.
  - by rewrite Eh.
  - rewrite Eh. by apply NoDup_cons.
  - rewrite fmap_app. simpl. rewrite Permutation_app_comm. simpl. apply NoDup_cons. split; [|done].
    intros (f & E & Hf)%list_elem_of_fmap. by apply (Hne f Hf).
  - rewrite Hst, fmap_app. cbn. by rewrite Hq, (page_sector _ _ Hr).
  - rewrite Hpo. apply Forall2_app.
    + apply (flights_frame (sess (dev x))); [done | | done]. intros f Hf. by apply Hq', Hne.
    + constructor; [|constructor]. exists cb, ci, ck, c, pg. destruct Hsm as [-> ->]. done.
  - rewrite Hhost. intros r' a'. rewrite q_reqs_app. simpl. rewrite app_nil_r. by eapply reqs_after.
  - intros f [Hf|Hf]%elem_of_app.
    + eapply flights_after; [exact Hfk | done | | done]. intros f' Hf'. by apply ctx_page_eq, Hq', Hne.
    + apply list_elem_of_singleton in Hf as ->. split_and!; [done | done|]. simpl. by rewrite Hpage.
  - apply lasts_snoc; [done|]. intros r' a' Hin. by apply (Hap r' a' (req_outstanding _ fs _ _ Hin)).
  - intros n. rewrite settled_snoc, Hhost. cbn [q_effect]. rewrite Hpage.
    rewrite (settled_ext (sess (dev x)) _ (host (dev x))) by done.
    destruct (decide (n = page_no r)) as [->|Hn]; [by rewrite fn_lookup_insert|].
    rewrite fn_lookup_insert_ne, vol_after_ne by done. apply Hd.
  - intros n key. rewrite (same_map_key _ _ _ Hsm), (same_map_hit _ _ _ Hsm). intros Hk Hi Hn.
    rewrite in_writing_snoc in Hn. rewrite vol_after_ne; [apply Hrem; tauto|].
    intros ->. apply Hn. right. eauto.
Qed.

Lemma submit_coherent x v q fs r a pg w :
  coherent x v q fs → page_request r a → host (dev x) !! a = Some pg →
  apart_from (outstanding q fs) r a → no_orphans (dev x) →
  IS_queue_rq submit_queues (dev x) r = Ok (BLK_MQ_RQ_QUEUE_OK, 0, w) →
  ∃ q' fs', coherent (x <| dev := w |>) (vol_after r pg v) q' fs' ∧
    outstanding q' fs' ≡ₚ (r, a) :: outstanding q fs ∧ ended w = ended (dev x).
Proof.
  intros Hco Hr Hh Hap Hno H%queue_rq_inv. pose proof (co_wf _ _ _ _ Hco) as Hwf.
  destruct (count_op_ok (sess (dev x)) (rq_write r) (chunk_of (page_no r)))
    as (s1 & Hc & Hwf1 & Hck1 & Hm1 & _ & _ & _ & Hv); [done | by eapply chunk_of_range|].
  pose proof (coherent_count _ _ _ _ s1 Hco Hwf1 (conj Hm1 Hck1) Hv) as Hco1.
  rewrite (request_route _ _ _ a s1) in H by done.
  set (x1 := x <| dev := dev x <| sess := s1 |> |>) in *.
  change (dev x <| sess := s1 |>) with (dev x1) in H.
  destruct (mapping (sess (dev x)) _) as [[cb ci]|] eqn:Hm.
  - destruct (sw_chunks _ Hwf _ _ _ Hm) as (ck & Hck & Hok). rewrite Hck in H.
    destruct (rq_write r) eqn:Hrw; simpl in H.
    + eapply (submit_write_coherent x1 v q fs r a pg) in H as (p & ? & ?); try done; simpl.
      * exists (q ++ [QCtx p (page_no r)]), (fs ++ [FWrite r a p]). split_and!; try done.
        by destruct (outstanding_flight q fs (FWrite r a p) p (page_no r)).
      * by rewrite Hm1.
      * by rewrite Hck1.
    + destruct (remote_hit _ _) eqn:Hit.
      * eapply (submit_read_coherent x1 v q fs r a pg) in H as (p & ? & ?); try done; simpl.
        -- exists q, (fs ++ [FRead r a p]). split_and!; try done.
           by destruct (outstanding_flight q fs (FRead r a p) p 0).
        -- by rewrite Hm1.
        -- by rewrite Hck1.
        -- by rewrite (same_map_hit _ _ _ (conj Hm1 Hck1)).
      * eapply (submit_disk_coherent x1 v q fs r a pg) in H as [? ?]; try done; simpl; [|congruence].
        exists (q ++ [QReq r a]), fs. split_and!; try done. apply outstanding_req.
  - eapply (submit_disk_coherent x1 v q fs r a pg) in H as [? ?]; try done; simpl; [|by rewrite Hm1].
    exists (q ++ [QReq r a]), fs. split_and!; try done. apply outstanding_req.
Qed.

End Machine.
