(* ===== verification/Endings.v ===== *)
(** How outstanding requests end: the backup disk and the network card finish their work in
    any order, and the contract of [Coherence] holds after each step. *)

From Stdlib Require Import ZArith Lia.
From stdpp Require Import functions relations base tactics list numbers option gmap.
From S2P Require Import Prelude Types Bitmap CtxPool Stackbd Request Views World Transfer Coherence.

(** Filters that keep everything, and that keep one entry. *)
Lemma list_filter_true {A} (P : A → Prop) `{∀ x, Decision (P x)} (l : list A) :
  (∀ x, x ∈ l → P x) → filter P l = l.
Proof.
  induction l as [|x l IH]; intros HP; [done|]. rewrite filter_cons_True by (apply HP; left).
  f_equal. apply IH. intros y Hy. apply HP. by right.
Qed.

Lemma list_filter_one {A} (P : A → Prop) `{∀ x, Decision (P x)} (l k : list A) x :
  P x → (∀ y, y ∈ l ++ k → ¬ P y) → filter P (l ++ x :: k) = [x].
Proof.
  intros Hx Hn. assert (∀ m, (∀ y, y ∈ m → ¬ P y) → filter P m = []) as Hnil.
  { intros m Hm. apply elem_of_nil_inv. intros y [Hp Hy]%list_elem_of_filter. by apply (Hm y). }
  rewrite filter_app, filter_cons_True, !Hnil by (done || (intros y Hy; apply Hn, elem_of_app; auto)).
  done.
Qed.

Section Endings.
Context `{C : Config} `{BL : BlockLayer} `{V : Verbs}.
Variable submit_queues : Z.

(** A step either leaves the outstanding requests as they are or ends one with success, a
    read having stored the page of the array. *)
Definition advances (x x' : world) (v : Z → page) (o o' : list (request * Z)) : Prop :=
  (o ≡ₚ o' ∧ ended (dev x') = ended (dev x)) ∨
  (∃ r a, o ≡ₚ (r, a) :: o' ∧ ended (dev x') = ended (dev x) ++ [(r, 0)] ∧
     (rq_write r = false → host (dev x') !! a = Some (v (page_no r)))).

(** * The disk *)

Lemma disk_io_write x d pg : bi_size d = IS_PAGE_SIZE → bi_write d = true →
  buf_page (dev x) (bi_buf d) 0 = Ok pg →
  disk_io x d = Ok (x <| disk := <[bi_sector d / PAGE_SECTORS := pg]> (disk x) |>).
Proof.
  intros Hs Hw Hp. unfold disk_io, for_upto. rewrite Hs.
  change (Z.to_nat (IS_PAGE_SIZE / IS_PAGE_SIZE)) with 1%nat. cbn [for_from].
  rewrite Hw, Hp. simpl. by rewrite Z.add_0_r.
Qed.

Lemma disk_io_read x d a : bi_size d = IS_PAGE_SIZE → bi_write d = false → bi_buf d = Host a →
  disk_io x d = Ok (x <| dev := dev x <| host :=
    <[a := disk x (bi_sector d / PAGE_SECTORS)]> (host (dev x)) |> |>).
Proof.
  intros Hs Hw Hb. unfold disk_io, for_upto. rewrite Hs.
  change (Z.to_nat (IS_PAGE_SIZE / IS_PAGE_SIZE)) with 1%nat. cbn [for_from].
  rewrite Hw, Hb. simpl. by rewrite !Z.add_0_r.
Qed.

Lemma ctx_page_buf s p c : ctx_at s p = Some c → 0 < len (rdma_buf c) →
  zget (rdma_buf c) 0 = Some (ctx_page s p).
Proof.
  intros Hc Hl. unfold ctx_page. rewrite Hc. destruct (zget_is_Some (rdma_buf c) 0) as [pg ->];
    [lia | done].
Qed.

(** The write-through of an earlier write reaches the disk and frees its context. *)
Lemma disk_ctx_coherent x v p n q fs :
  coherent x v (QCtx p n :: q) fs →
  ∃ x', disk_step x = Ok x' ∧ coherent x' v q fs ∧
    advances x x' v (outstanding (QCtx p n :: q) fs) (outstanding q fs).
Proof.
  intros [Hwf Hready Hc Ho Hnd Hfl Hq Hp Hrq Hfk Hpg Hho Hla Hd Hrem].
  assert (held_by (QCtx p n :: q) fs ≡ₚ p :: held_by q fs) as Hperm
    by (unfold held_by; cbn; solve_Permutation).
  rewrite Hperm in Ho, Hnd.
  destruct (owned_ctx _ _ p Ho Hc) as (c & Hcp & Hlen); [left|].
  pose proof (ctx_page_buf _ _ _ Hcp Hlen) as Hbuf.
  destruct (insert_ctx_owned _ _ _ Ho) as (s' & Hins & Ho' & Hs & Hv & Hf).
  pose proof (same_map_conns _ _ Hs) as Hsm.
  unfold disk_step, stackbd_threadfn. rewrite Hq. simpl.
  erewrite disk_io_write; [| done | done | simpl; by rewrite (read_ctx_at _ _ _ Hcp); apply rd_ok].
  simpl. rewrite Hins. simpl. eexists. split; [done|]. split; [|by left].
  rewrite Z.div_mul by done. split; simpl in *; try done.
  - by eapply session_wf_conns.
  - eapply ctxs_ok_free; [| |exact Hc]; intros *; [by rewrite Hf | rewrite Hv; eauto].
  - by apply NoDup_cons in Hnd as [_ ?].
  - apply (flights_frame (sess (dev x))); [done | intros; apply Hv | done].
  - intros f Hin. apply (flight_ok_frame (sess (dev x)) _ v); [by apply ctx_page_eq | done | auto].
  - intros m. rewrite (settled_ext (sess (dev x)) _ (host (dev x)));
      [apply Hd | intros; by apply ctx_page_eq | done].
  - intros m key. rewrite (same_map_key _ _ _ Hsm), (same_map_hit _ _ _ Hsm). apply Hrem.
Qed.

Lemma host_other (o : list (request * Z)) r a r' a' : NoDup ((r, a) :: o).*2 → (r', a') ∈ o → a' ≠ a.
Proof.
  cbn. intros [Hn _]%NoDup_cons Hin ->. apply Hn, list_elem_of_fmap. by exists (r', a).
Qed.

(** A request reaches the disk. *)
Lemma disk_req_coherent x v r a q fs :
  coherent x v (QReq r a :: q) fs →
  ∃ x', disk_step x = Ok x' ∧ coherent x' v q fs ∧
    advances x x' v (outstanding (QReq r a :: q) fs) (outstanding q fs).
Proof.
  intros [Hwf Hready Hc Ho Hnd Hfl Hq Hp Hrq Hfk Hpg Hho [Hla1 Hla2] Hd Hrem].
  destruct (Hrq r a) as [Hr Hh]; [left|].
  assert (∀ r' a', (r', a') ∈ q_reqs q → a' ≠ a) as Hne.
  { intros r' a' Hin. apply (host_other (outstanding q fs) r a r' a' Hho). by apply req_outstanding. }
  pose proof Hpg as [_ Hpg']%NoDup_cons. pose proof Hho as [_ Hho']%NoDup_cons.
  unfold disk_step, stackbd_threadfn. rewrite Hq. simpl. destruct (rq_write r) eqn:Hrw.
  - specialize (Hh eq_refl).
    erewrite disk_io_write; [| done | done | simpl; unfold host_page; simpl; by rewrite Z.add_0_r, Hh].
    simpl. eexists. split; [done|]. split; [split; simpl in *; try done|].
    + intros r' a' Hin. apply Hrq. by right.
    + intros n. rewrite <- (Hd n), Hrw. unfold host_at. by rewrite Hh.
    + right. exists r, a. split_and!; try done.
  - erewrite disk_io_read by done. simpl.
    assert (disk x (page_no r) = v (page_no r)) as Hv.
    { rewrite <- (Hd (page_no r)). unfold settled. simpl. rewrite Hrw. symmetry.
      by apply settled_other. }
    eexists. split; [done|]. split.
    + split; simpl in *; try done.
      * intros r' a' Hin. destruct (Hrq r' a') as [? Hw]; [by right|]. split; [done|]. intros E.
        rewrite lookup_insert_ne by (intros ->; by apply (Hne r' a')). auto.
      * intros n. rewrite <- (Hd n). unfold settled at 2. simpl. rewrite Hrw.
        erewrite settled_ext; [done | done |]. intros r' a' Hin _.
        by rewrite lookup_insert_ne by (intros ->; by apply (Hne r' a')).
    + right. exists r, a. split_and!; try done. intros _. simpl. rewrite lookup_insert_eq. by f_equal.
Qed.

(** * The network card *)

Lemma nic_io_write x po pg : wr_length (po_wr po) = IS_PAGE_SIZE →
  wr_opc (po_wr po) = IB_WR_RDMA_WRITE → buf_page (dev x) (CtxBuf (po_ctx po)) 0 = Ok pg →
  nic_io x po = Ok (x <| remote :=
    <[(po_cb po, wr_rkey (po_wr po), wr_remote_addr (po_wr po)) := pg]> (remote x) |>).
Proof.
  intros Hl Ho Hp. unfold nic_io, for_upto. rewrite Hl.
  change (Z.to_nat (IS_PAGE_SIZE / IS_PAGE_SIZE)) with 1%nat. cbn [for_from].
  rewrite Ho, Hp. simpl. by rewrite Z.add_0_r.
Qed.

Lemma nic_io_read x po c : wr_length (po_wr po) = IS_PAGE_SIZE →
  wr_opc (po_wr po) = IB_WR_RDMA_READ → ctx_at (sess (dev x)) (po_ctx po) = Some c →
  0 < len (rdma_buf c) →
  let pg := remote x (po_cb po, wr_rkey (po_wr po), wr_remote_addr (po_wr po)) in
  ∃ s', nic_io x po = Ok (x <| dev := dev x <| sess := s' |> |>) ∧
    ctx_upd (sess (dev x)) s' (po_ctx po) (c <| rdma_buf := zset (rdma_buf c) 0 pg |>).
Proof.
  intros Hl Ho Hc Hlen pg. unfold nic_io, for_upto. rewrite Hl.
  change (Z.to_nat (IS_PAGE_SIZE / IS_PAGE_SIZE)) with 1%nat. cbn [for_from].
  rewrite Ho. unfold buf_store. rewrite (read_ctx_at _ _ _ Hc). simpl.
  rewrite wr_ok by lia. simpl. rewrite Z.add_0_r. fold pg.
  match goal with |- context [with_ctx (dev x) (po_ctx po) ?f] =>
    destruct (with_ctx_at (dev x) (po_ctx po) c f Hc) as (s' & -> & Hu) end.
  simpl. by exists s'.
Qed.

(** [client_read_done] copies the buffer to the request's page and ends the request. *)
Lemma read_done_ok w p c r a pg held :
  page_request r a → ctx_at (sess w) p = Some c → req c = Some r →
  zget (rdma_buf c) 0 = Some pg → pools_owned (sess w) (p :: held) → ctxs_ok (sess w) →
  ∃ s', client_read_done w p = Ok (w <| sess := s' |> <| host := <[a := pg]> (host w) |>
                                    <| ended := ended w ++ [(r, 0)] |>) ∧
    same_but_conns (sess w) s' ∧ pools_owned s' held ∧ ctxs_ok s' ∧
    (∀ q, q ≠ p → ctx_at s' q = ctx_at (sess w) q).
Proof.
  intros Hr Hc Hreq Hpg Ho Hok. unfold client_read_done.
  match goal with |- context [with_ctx w p ?f] =>
    destruct (with_ctx_at w p c f Hc) as (s1 & -> & Hu1) end. simpl.
  rewrite (read_ctx_at _ _ _ (ctx_upd_at _ _ _ _ Hu1)). simpl.
  match goal with |- context [with_ctx ?w0 p ?f] =>
    destruct (with_ctx_at w0 p _ f (ctx_upd_at _ _ _ _ Hu1)) as (s2 & -> & Hu2) end. simpl in *.
  rewrite Hreq. simpl. rewrite (pr_bio _ _ Hr). simpl. rewrite (rd_ok _ _ _ Hpg). simpl.
  pose proof (ctx_upd_trans _ _ _ _ _ _ Hu1 Hu2) as Hu.
  destruct (insert_ctx_owned s2 held p) as (s3 & Hins & Ho3 & Hs3 & Hq3 & Hf3);
    [by eapply ctx_upd_owned|].
  unfold IS_insert. simpl. rewrite Hins. simpl. exists s3. split_and!; try done.
  - destruct Hu as (? & _). by eapply same_but_conns_trans.
  - eapply ctxs_ok_free; [| |eapply ctx_upd_ok; [exact Hu | done | done | done]]; intros *.
    + by rewrite Hf3.
    + rewrite Hq3. eauto.
  - intros q Hne. rewrite Hq3. destruct Hu as (_ & Hu & _). by rewrite Hu, decide_False.
Qed.

(** Whichever work request comes first, the requests are the same. *)
Lemma coherent_first x v q fs l1 po l2 : coherent x v q fs → posted (dev x) = l1 ++ po :: l2 →
  ∃ f fs', fs ≡ₚ f :: fs' ∧ coherent (nic_first x l1 po l2) v q (f :: fs').
Proof.
  intros [Hwf Hready Hc Ho Hnd Hfl Hq Hp Hrq Hfk Hpg Hho Hla Hd Hrem] El. rewrite El in Hp.
  apply Forall2_app_inv_r in Hp as (f1 & fs2 & Hf1 & Hf2 & ->).
  inversion Hf2 as [|f ? f2 ? Hf Hf2']; subst. exists f, (f1 ++ f2).
  assert (f1 ++ f :: f2 ≡ₚ f :: f1 ++ f2) as Hperm by (symmetry; apply Permutation_middle).
  split; [done|].
  assert (held_by q (f1 ++ f :: f2) ≡ₚ held_by q (f :: f1 ++ f2)) as Eh
    by (unfold held_by, read_ctxs; by rewrite Hperm).
  assert (outstanding q (f1 ++ f :: f2) ≡ₚ outstanding q (f :: f1 ++ f2)) as Eo
    by (unfold outstanding; by rewrite Hperm).
  split; simpl in *; try done.
  - by rewrite <- Eh.
  - by rewrite <- Eh.
  - change (NoDup (f_ctx <$> f :: f1 ++ f2)). by rewrite <- Hperm.
  - constructor; [done|]. by apply Forall2_app.
  - intros f' Hin. apply Hfk. by rewrite Hperm.
  - unfold pages_of in *. by rewrite <- Eo.
  - by rewrite <- Eo.
  - intros n key Hk Hi Hn. apply Hrem; [done..|]. intros (r & a & p & Hin & E). apply Hn.
    exists r, a, p. by rewrite <- Hperm.
Qed.

Lemma nic_read_coherent x v r a p q fs :
  coherent x v q (FRead r a p :: fs) →
  ∃ x', nic_step x = Ok x' ∧ coherent x' v q fs ∧
    advances x x' v (outstanding q (FRead r a p :: fs)) (outstanding q fs).
Proof.
  intros [Hwf Hready Hc Ho Hnd Hfl Hq Hp Hrq Hfk Hpg Hho Hla Hd Hrem].
  destruct (Hfk (FRead r a p)) as [Hr Hrw]; [left|].
  inversion Hp as [|? po ? rest Hf Hp' E1 E2]; subst. symmetry in E2.
  destruct Hf as (cb & ck & c & Hmc & Hcp & Hreq & _ & Hit & ->).
  assert (outstanding q (FRead r a p :: fs) ≡ₚ (r, a) :: outstanding q fs) as Eo
    by (unfold outstanding; cbn; by rewrite <- Permutation_middle).
  unfold pages_of in Hpg. rewrite Eo in Hpg, Hho.
  pose proof Hpg as [Hpn Hpg']%NoDup_cons. pose proof Hho as [_ Hho']%NoDup_cons.
  change (held_by q (FRead r a p :: fs)) with (p :: held_by q fs) in Ho, Hnd.
  apply NoDup_cons in Hnd as [Hnot Hnd]. cbn in Hfl. apply NoDup_cons in Hfl as [Hfp Hfl].
  assert (∀ f, f ∈ fs → f_ctx f ≠ p) as Hne.
  { intros f Hin E. apply Hfp, list_elem_of_fmap. eauto. }
  destruct (owned_ctx _ _ p Ho Hc) as (c' & Hcp' & Hlen); [left|].
  rewrite Hcp in Hcp'. injection Hcp' as <-.
  unfold nic_step. rewrite E2. simpl.
  match goal with |- context [nic_io ?x0 ?po] =>
    destruct (nic_io_read x0 po c) as (s1 & -> & Hu); [done..|] end. simpl in *.
  rewrite (Hrem (page_no r)) in Hu;
    [|unfold remote_key; by rewrite Hmc | done |].
  2:{ intros (r' & a' & p' & [[=]|Hin]%elem_of_cons & E). apply Hpn. rewrite <- E.
      apply list_elem_of_fmap. exists (r', a'). split; [done|].
      exact (flight_outstanding q fs (FWrite r' a' p') Hin). }
  match goal with |- context [client_read_done ?w0 p] =>
    edestruct (read_done_ok w0 p _ r a (v (page_no r)) (held_by q fs) Hr (ctx_upd_at _ _ _ _ Hu))
      as (s2 & -> & Hs2 & Ho2 & Hc2 & Hq2) end.
  - done.
  - simpl. by rewrite zget_zset_eq by lia.
  - by eapply ctx_upd_owned.
  - eapply ctx_upd_ok; [exact Hu | exact Hcp | simpl; by rewrite len_zset | done].
  - simpl in *. destruct Hu as (Hs1 & Hu & _).
    pose proof (same_but_conns_trans _ _ _ Hs1 Hs2) as Hs.
    pose proof (same_map_conns _ _ Hs) as Hsm.
    assert (∀ p', p' ≠ p → ctx_at s2 p' = ctx_at (sess (dev x)) p') as Hctx
      by (intros p' Hn; by rewrite Hq2, Hu, decide_False by done).
    assert (∀ r' a', (r', a') ∈ q_reqs q → a ≠ a') as Hha.
    { intros r' a' Hin E. apply (host_other (outstanding q fs) r a r' a' Hho); [|done].
      by apply req_outstanding. }
    eexists. split; [done|]. split.
    + split; simpl in *; try done.
      * by eapply session_wf_conns.
      * apply (flights_frame (sess (dev x))); [done | | done]. intros f Hin. by apply Hctx, Hne.
      * intros r' a' Hin. destruct (Hrq r' a' Hin) as [? Hw]. split; [done|]. intros E.
        rewrite lookup_insert_ne by eauto. auto.
      * intros f Hin. apply (flight_ok_frame (sess (dev x)) _ v); [by apply ctx_page_eq, Hctx, Hne | done |].
        apply Hfk. by right.
      * intros n. rewrite <- (Hd n). erewrite settled_ext; [done | |].
        -- intros p' Hin. apply ctx_page_eq, Hctx. intros ->. apply Hnot, elem_of_app. by right.
        -- intros r' a' Hin _. by rewrite lookup_insert_ne by eauto.
      * intros n key. rewrite (same_map_key _ _ _ Hsm), (same_map_hit _ _ _ Hsm). intros Hk Hi Hn.
        apply Hrem; [done..|]. intros (r' & a' & p' & [[=]|Hin]%elem_of_cons & E). apply Hn. by exists r', a', p'.
    + right. exists r, a. split_and!; try done. intros _. simpl. by rewrite lookup_insert_eq.
Qed.

(** Different pages live at different places. *)
Lemma remote_key_inj s n n' k : session_wf s →
  remote_key s n = Some k → remote_key s n' = Some k → n = n'.
Proof.
  intros Hwf. unfold remote_key, mapped_chunk.
  destruct (mapping s (chunk_of n)) as [[cb ci]|] eqn:Hm; [|done].
  destruct (chunk_at s cb ci) as [ck|] eqn:Hck; [|done]. intros [= <-].
  destruct (mapping s (chunk_of n')) as [[cb' ci']|] eqn:Hm'; [|done].
  destruct (chunk_at s cb' ci') as [ck'|] eqn:Hck'; [|done]. intros [= E1 E2 E3].
  pose proof (chunk_offset_range n). pose proof (chunk_offset_range n').
  destruct (decide (chunk_of n = chunk_of n')) as [E|Hne].
  - rewrite <- E, Hm in Hm'. simplify_eq.
    rewrite (Z.div_mod n CHUNK_PAGES), (Z.div_mod n' CHUNK_PAGES) by done.
    unfold chunk_of in E. fold (slot_of n) (slot_of n'). rewrite E. f_equal.
    by apply Z.add_cancel_l, Z.mul_cancel_r in E3.
  - destruct (sw_apart _ Hwf _ _ _ _ _ _ _ _ Hne Hm Hm' Hck Hck') as [_ Ha].
    destruct Ha; simpl in *; try done; unfold IS_PAGE_SIZE in *; lia.
Qed.

(** Only the bitmap of chunk [(cb, ci)] differs. *)
Definition bitmap_upd (s s' : IS_session) (cb ci : Z) (ck : remote_chunk_g) (bm : list Z) : Prop :=
  (∃ l cs, s' = s <| cb_list := l |> <| IS_conns := cs |>) ∧
  len (cb_list s') = len (cb_list s) ∧
  ∀ cb' ci', chunk_at s' cb' ci' =
    if decide (cb = cb' ∧ ci = ci') then Some (ck <| bitmap_g := Some bm |>)
    else chunk_at s cb' ci'.

Lemma bitmap_upd_wf s s' cb ci ck bm : session_wf s → chunk_at s cb ci = Some ck →
  bitmap_wf bm → bitmap_upd s s' cb ci ck bm → session_wf s'.
Proof.
  intros Hwf Hck Hbm ((l & cs & ->) & Hl & Hat).
  destruct Hwf as [? ? ? ? ? Hcbs Hchunks Hap].
  assert (∀ cb' ci' ck', chunk_at (s <| cb_list := l |> <| IS_conns := cs |>) cb' ci' = Some ck' →
    ∃ ck0, chunk_at s cb' ci' = Some ck0 ∧ remote_rkey ck' = remote_rkey ck0 ∧
      remote_addr ck' = remote_addr ck0) as Hold.
  { intros cb' ci' ck'. rewrite Hat. case_decide as Hd; [|eauto].
    destruct Hd as [<- <-]. intros [= <-]. eauto. }
  split; try done.
  - intros gb cb' H1 H2. rewrite Hl. by eapply Hcbs.
  - intros gb cb' ci' Hm. destruct (Hchunks _ _ _ Hm) as (ck0 & H0 & Hok). rewrite Hat.
    case_decide as Hd; [|eauto]. destruct Hd as [<- <-]. eexists. split; [done|].
    rewrite Hck in H0. injection H0 as <-. destruct Hok as [_ ?]. split; [|done]. eauto.
  - intros gb gb' c1 i1 c2 i2 k1 k2 Hne Hm1 Hm2 Hk1 Hk2.
    destruct (Hold _ _ _ Hk1) as (k1' & H1 & R1 & A1).
    destruct (Hold _ _ _ Hk2) as (k2' & H2 & R2 & A2).
    destruct (Hap _ _ _ _ _ _ _ _ Hne Hm1 Hm2 H1 H2) as [? Ha]. split; [done|].
    unfold apart in *. simpl in *. by rewrite R1, R2, A1, A2.
Qed.

(** Recording one page adds that page and keeps every place. *)
Lemma bitmap_upd_views s s' cb ci ck bm bm' m : session_wf s →
  mapping s (chunk_of m) = Some (cb, ci) → chunk_at s cb ci = Some ck →
  bitmap_g ck = Some bm → bitmap_upd s s' cb ci ck bm' →
  (∀ j, recorded bm' j = (j =? slot_of m) || recorded bm j) →
  ∀ n, remote_key s' n = remote_key s n ∧
    (n ≠ m → remote_hit s' n = remote_hit s n).
Proof.
  intros Hwf Hm Hck Hbm ((l & cs & ->) & _ & Hat) Hrec n.
  unfold remote_key, remote_hit, mapped_chunk.
  change (mapping (s <| cb_list := l |> <| IS_conns := cs |>) (chunk_of n))
    with (mapping s (chunk_of n)).
  destruct (mapping s (chunk_of n)) as [[cb' ci']|] eqn:Hn; [|done]. rewrite Hat.
  case_decide as Hd; [|done]. destruct Hd as [<- <-]. rewrite Hck. split; [done|].
  intros Hne. simpl. rewrite Hbm, Hrec. destruct (Z.eqb_spec (slot_of n) (slot_of m)) as [E|];
    [|done].
  destruct (decide (chunk_of n = chunk_of m)) as [E'|Hne'].
  - destruct Hne. rewrite (Z.div_mod n CHUNK_PAGES), (Z.div_mod m CHUNK_PAGES) by done.
    fold (slot_of n) (slot_of m) (chunk_of n) (chunk_of m). by rewrite E, E'.
  - by destruct (sw_apart _ Hwf _ _ _ _ _ _ _ _ Hne' Hn Hm Hck Hck) as [[] _].
Qed.

Lemma in_group_slot m j :
  in_group (slot_of m * IS_PAGE_SIZE) IS_PAGE_SIZE j = (j =? slot_of m).
Proof.
  unfold in_group. rewrite Z.div_mul, Z.div_same by done.
  destruct (Z.leb_spec (slot_of m) j), (Z.ltb_spec j (slot_of m + 1)),
    (Z.eqb_spec j (slot_of m)); simpl; try done; lia.
Qed.

(** [client_write_done] records the page and ends the request. *)
Lemma write_done_ok w p c r cb ci ck bm m pg :
  ctx_at (sess w) p = Some c → write_ctx_ok c r cb ci (slot_of m * IS_PAGE_SIZE) pg →
  chunk_at (sess w) cb ci = Some ck → bitmap_g ck = Some bm → bitmap_wf bm →
  ∃ s' bm' c', client_write_done w p =
      Ok (w <| sess := s' |> <| ended := ended w ++ [(r, 0)] |>) ∧
    bitmap_wf bm' ∧ (∀ j, recorded bm' j = (j =? slot_of m) || recorded bm j) ∧
    bitmap_upd (sess w) s' cb ci ck bm' ∧ rdma_buf c' = rdma_buf c ∧
    (∀ q, ctx_at s' q = if decide (p = q) then Some c' else ctx_at (sess w) q) ∧
    (∀ conn cb, free_at s' conn cb = free_at (sess w) conn cb).
Proof.
  intros Hc (Hreq & Hptr & Hoff & Hlen & Hpg) Hck Hbm Hbwf.
  destruct (group_set_step bm (slot_of m * IS_PAGE_SIZE) IS_PAGE_SIZE)
    as (bm' & Hset & Hbwf' & Hrec); [done | | done | |].
  { apply chunk_offset_range. }
  { rewrite Z.div_mul, Z.div_same by done. pose proof (slot_range m). lia. }
  unfold client_write_done. rewrite (read_ctx_at _ _ _ Hc). simpl. rewrite Hptr, Hreq.
  match goal with |- context [with_ctx w p ?f] =>
    destruct (with_ctx_at w p c f Hc) as (s1 & -> & Hu1) end. simpl.
  pose proof (ctx_upd_at _ _ _ _ Hu1) as Hc1. destruct Hu1 as ([cs1 ->] & Hq1 & Hf1).
  rewrite Hoff, Hlen.
  destruct (update_bitmap_at (λ bm, IS_bitmap_group_set bm (slot_of m * IS_PAGE_SIZE) IS_PAGE_SIZE)
    (sess w <| IS_conns := cs1 |>) cb ci ck bm bm') as (s2 & Hup & Hs2 & Hl2 & Hat2); [done..|].
  rewrite Hup. simpl.
  assert (ctx_at s2 p = Some (c <| in_flight := CTX_IDLE |>)) as Hc2
    by by rewrite (same_but_cbs_ctx _ _ _ Hs2).
  match goal with |- context [with_ctx ?w0 p ?f] =>
    destruct (with_ctx_at w0 p _ f Hc2) as (s3 & -> & Hu3) end. simpl in *.
  match goal with |- context [with_ctx ?w0 p ?f] =>
    destruct (with_ctx_at w0 p _ f (ctx_upd_at _ _ _ _ Hu3)) as (s4 & -> & Hu4) end. simpl in *.
  pose proof (ctx_upd_trans _ _ _ _ _ _ Hu3 Hu4) as ((cs4 & ->) & Hq4 & Hf4).
  destruct Hs2 as [l2 ->].
  exists (sess w <| cb_list := l2 |> <| IS_conns := cs4 |>), bm',
    (c <| in_flight := CTX_IDLE |> <| chunk_index := -1 |> <| chunk_ptr := None |> <| req := None |>).
  split; [done|]. split_and!; [done | | | | | ].
  - intros j. by rewrite Hrec, in_group_slot.
  - split_and!; [by eexists _, _ | done | exact Hat2].
  - done.
  - intros q. etransitivity; [exact (Hq4 q)|]. case_decide; [done|].
    etransitivity; [exact (Hq1 q)|]. by rewrite decide_False.
  - intros conn cb'. etransitivity; [exact (Hf4 conn cb') | apply Hf1].
Qed.

(** Recording a page leaves the work requests for other pages alone. *)
Lemma flights_bitmap s s' cb ci ck bm m fs l : bitmap_upd s s' cb ci ck bm →
  chunk_at s cb ci = Some ck →
  (∀ n, remote_key s' n = remote_key s n ∧ (n ≠ m → remote_hit s' n = remote_hit s n)) →
  (∀ f, f ∈ fs → ctx_at s' (f_ctx f) = ctx_at s (f_ctx f)) →
  (∀ f, f ∈ fs → page_no (f_req f).1 ≠ m) →
  Forall2 (flight_posted s) fs l → Forall2 (flight_posted s') fs l.
Proof.
  intros ((l0 & cs & Hs') & _ & Hat) Hck Hviews Hctx Hnp.
  assert (∀ g, mapping s' g = mapping s g) as Hmap by (by rewrite Hs').
  assert (∀ cb' ci' ck', chunk_at s cb' ci' = Some ck' → ∃ ck2, chunk_at s' cb' ci' = Some ck2 ∧
      remote_rkey ck2 = remote_rkey ck' ∧ remote_addr ck2 = remote_addr ck') as Hold.
  { intros cb' ci' ck' Hk. rewrite Hat. case_decide as Hd; [|eauto]. destruct Hd as [<- <-].
    rewrite Hck in Hk. injection Hk as <-. eauto. }
  clear Hs' Hat. induction 1 as [|f po fs l Hf _ IH]; constructor.
  2:{ apply IH; intros f' Hf'; [apply Hctx | apply Hnp]; by right. }
  pose proof (Hctx f ltac:(left)) as Hc. pose proof (Hnp f ltac:(left)) as Hn.
  destruct f as [r a p|r a p]; simpl in *.
  - destruct Hf as (cb' & ck' & c & Hmc & Hcp & Hreq & Hfly & Hit & ->).
    unfold mapped_chunk in *. rewrite Hmap.
    destruct (mapping s (chunk_of (page_no r))) as [[cb2 ci2]|]; [|done].
    destruct (chunk_at s cb2 ci2) as [ck3|] eqn:Hk3; [|done]. injection Hmc as <- <-.
    destruct (Hold _ _ _ Hk3) as (ck2 & Hk2 & E1 & E2). exists cb2, ck2, c. rewrite Hk2, Hc.
    destruct (Hviews (page_no r)) as [_ ->]; [|done]. split_and!; try done. unfold read_wr. by rewrite E1, E2.
  - destruct Hf as (cb' & ci' & ck' & c & pg & Hm & Hk & Hcp & Hfly & Hw & ->).
    destruct (Hold _ _ _ Hk) as (ck2 & Hk2 & E1 & E2). exists cb', ci', ck2, c, pg.
    rewrite Hmap, Hc. split_and!; try done. unfold read_wr. by rewrite E1, E2.
Qed.

Lemma nic_write_coherent x v r a p q fs :
  coherent x v q (FWrite r a p :: fs) →
  ∃ x', nic_step x = Ok x' ∧ coherent x' v q fs ∧
    advances x x' v (outstanding q (FWrite r a p :: fs)) (outstanding q fs).
Proof.
  intros [Hwf Hready Hc Ho Hnd Hfl Hq Hp Hrq Hfk Hpg Hho Hla Hd Hrem].
  destruct (Hfk (FWrite r a p)) as (Hr & Hrw & Hpage); [left|].
  inversion Hp as [|? po ? rest Hf Hp' E1 E2]; subst. symmetry in E2.
  destruct Hf as (cb & ci & ck & c & pg & Hm & Hck & Hcp & _ & Hwc & ->).
  assert (outstanding q (FWrite r a p :: fs) ≡ₚ (r, a) :: outstanding q fs) as Eo
    by (unfold outstanding; cbn; by rewrite <- Permutation_middle).
  unfold pages_of in Hpg. rewrite Eo in Hpg, Hho.
  pose proof Hpg as [Hpn Hpg']%NoDup_cons. pose proof Hho as [_ Hho']%NoDup_cons.
  change (held_by q (FWrite r a p :: fs)) with (held_by q fs) in Ho, Hnd.
  cbn in Hfl. apply NoDup_cons in Hfl as [Hfp Hfl].
  assert (∀ f, f ∈ fs → f_ctx f ≠ p) as Hne.
  { intros f Hin E. apply Hfp, list_elem_of_fmap. eauto. }
  assert (∀ f, f ∈ fs → page_no (f_req f).1 ≠ page_no r) as Hnp.
  { intros f Hin E. apply Hpn. unfold pages_of. apply list_elem_of_fmap. exists (f_req f).
    split; [done | by apply flight_outstanding]. }
  destruct (sw_chunks _ Hwf _ _ _ Hm) as (ck' & Hck' & Hok).
  rewrite Hck in Hck'. injection Hck' as <-. destruct (ck_bitmap _ Hok) as (bm & Hbm & Hbwf).
  pose proof Hwc as (_ & _ & _ & _ & Hbuf0).
  unfold nic_step. rewrite E2. simpl.
  erewrite nic_io_write; [| done | done | simpl; by rewrite (read_ctx_at _ _ _ Hcp); apply rd_ok].
  simpl. match goal with |- context [client_write_done ?w0 p] =>
    destruct (write_done_ok w0 p c r cb ci ck bm (page_no r) pg)
      as (s' & bm' & c' & -> & Hbwf' & Hrec & Hbu & Hbuf & Hq' & Hf'); [done..|] end. simpl in *.
  assert (∀ p', ctx_page s' p' = ctx_page (sess (dev x)) p') as Hcpage.
  { intros p'. unfold ctx_page. rewrite Hq'. case_decide; [|done]. subst. by rewrite Hcp, Hbuf. }
  pose proof (bitmap_upd_views _ _ _ _ _ _ _ _ Hwf Hm Hck Hbm Hbu Hrec) as Hviews.
  eexists. split; [done|]. split.
  - split; simpl in *; try done.
    + by eapply bitmap_upd_wf.
    + eapply ctxs_ok_free; [| |exact Hc]; intros *; [by rewrite Hf'|].
      rewrite Hq'. case_decide; [|eauto]. subst. intros Hq0. rewrite Hcp in Hq0. injection Hq0 as <-.
      exists c'. by rewrite Hbuf.
    + by eapply pools_owned_free.
    + eapply flights_bitmap; [exact Hbu | exact Hck | exact Hviews | | exact Hnp | exact Hp'].
      intros f Hin. rewrite Hq', decide_False; [done|]. intros E. by apply (Hne f).
    + intros f Hin. apply (flight_ok_frame (sess (dev x)) _ v); [apply Hcpage | done|].
      apply Hfk. by right.
    + intros n. rewrite <- (Hd n). by erewrite settled_ext; [|intros; apply Hcpage|].
    + intros n key. destruct (Hviews n) as [-> Hhit]. intros Hk Hi Hn.
      destruct (decide (n = page_no r)) as [->|Hnr].
      * unfold remote_key in Hk. rewrite (mapped_chunk_inv _ _ _ _ _ Hm Hck) in Hk.
        injection Hk as <-. simpl. rewrite fn_lookup_insert, <- Hpage.
        unfold ctx_page. by rewrite Hcp, Hbuf0.
      * rewrite fn_lookup_insert_ne.
        -- apply Hrem; [done | by rewrite <- Hhit|]. intros (r' & a' & p' & Hin & E).
           apply elem_of_cons in Hin as [[= -> -> ->]|Hin]; [by apply Hnr|]. apply Hn. by exists r', a', p'.
        -- intros <-. apply Hnr. eapply (remote_key_inj _ _ _ _ Hwf Hk).
           unfold remote_key. by rewrite (mapped_chunk_inv _ _ _ _ _ Hm Hck).
  - right. exists r, a. split_and!; try done. congruence.
Qed.

(** * Every step *)

Lemma pending_work x v q fs : coherent x v q fs →
  (length (bio_list (stackbd (dev x))) + length (posted (dev x)))%nat = (length q + length fs)%nat.
Proof.
  intros Hco. rewrite (co_queue _ _ _ _ Hco), length_fmap.
  by rewrite (Forall2_length _ _ _ (co_posted _ _ _ _ Hco)).
Qed.

Lemma disk_step_coherent x v q fs : coherent x v q fs → bio_list (stackbd (dev x)) ≠ [] →
  ∃ x' e q', q = e :: q' ∧ disk_step x = Ok x' ∧ coherent x' v q' fs ∧
    advances x x' v (outstanding q fs) (outstanding q' fs).
Proof.
  intros Hco Hne. destruct q as [|[r a|p n] q]; [by rewrite (co_queue _ _ _ _ Hco) in Hne|..].
  - destruct (disk_req_coherent _ _ _ _ _ _ Hco) as (x' & ? & ? & ?). by exists x', (QReq r a), q.
  - destruct (disk_ctx_coherent _ _ _ _ _ _ Hco) as (x' & ? & ? & ?). by exists x', (QCtx p n), q.
Qed.

Lemma nic_step_coherent x v q fs l1 po l2 : coherent x v q fs → posted (dev x) = l1 ++ po :: l2 →
  ∃ x' f fs', fs ≡ₚ f :: fs' ∧ nic_step (nic_first x l1 po l2) = Ok x' ∧ coherent x' v q fs' ∧
    advances x x' v (outstanding q fs) (outstanding q fs').
Proof.
  intros Hco El. destruct (coherent_first _ _ _ _ _ _ _ Hco El) as (f & fs' & Hperm & Hco').
  assert (outstanding q fs ≡ₚ outstanding q (f :: fs')) as Eo by (unfold outstanding; by rewrite Hperm).
  assert (∀ x', advances (nic_first x l1 po l2) x' v (outstanding q (f :: fs')) (outstanding q fs') →
    advances x x' v (outstanding q fs) (outstanding q fs')) as Had.
  { unfold advances. simpl. intros x' [[H1 H2]|(r & a & H1 & H2)]; [left | right; exists r, a];
      by rewrite Eo. }
  destruct f as [r a p|r a p].
  - destruct (nic_read_coherent _ _ _ _ _ _ _ Hco') as (x' & ? & ? & ?). exists x', (FRead r a p), fs'. auto.
  - destruct (nic_write_coherent _ _ _ _ _ _ _ Hco') as (x' & ? & ? & ?). exists x', (FWrite r a p), fs'. auto.
Qed.

(** What a step does to the list of outstanding requests: nothing, or one entry goes. *)
Lemma advances_cases x x' v b o o' : advances x x' v o o' → NoDup (pages_of o) → b ≡ₚ o →
  (still_busy x x' b = b ∧ b ≡ₚ o' ∧ ended (dev x') = ended (dev x)) ∨
  (∃ r a b1 b2, b = b1 ++ (r, a) :: b2 ∧ still_busy x x' b = b1 ++ b2 ∧ b1 ++ b2 ≡ₚ o' ∧
     ended (dev x') = ended (dev x) ++ [(r, 0)] ∧
     (∀ e, e ∈ b1 ++ b2 → page_no e.1 ≠ page_no r) ∧
     (rq_write r = false → host (dev x') !! a = Some (v (page_no r)))).
Proof.
  unfold still_busy, finished. intros [[Ho ->]|(r & a & Ho & Hen & Hread)] Hnd Hb.
  - left. rewrite drop_all. split_and!; [|by rewrite Hb|done].
    apply list_filter_true. intros e _. apply not_elem_of_nil.
  - right. rewrite Hen, drop_app_length. rewrite Ho in Hb.
    destruct (list_elem_of_split b (r, a)) as (b1 & b2 & ->); [rewrite Hb; left|].
    assert (NoDup (pages_of ((r, a) :: b1 ++ b2))) as Hnd'.
    { unfold pages_of in *. by rewrite Permutation_middle, Hb, <- Ho. }
    apply NoDup_cons in Hnd' as [Hn _].
    assert (∀ e, e ∈ b1 ++ b2 → page_no e.1 ≠ page_no r) as Hne.
    { intros e He E. apply Hn, list_elem_of_fmap. eauto. }
    exists r, a, b1, b2. split_and!; try done.
    + rewrite filter_app, filter_cons_False, <- filter_app
        by (intros H; by apply H, list_elem_of_singleton).
      apply list_filter_true. intros e He E%list_elem_of_singleton. by apply (Hne e).
    + apply (Permutation_cons_inv (a := (r, a))). by rewrite Permutation_middle.
Qed.

(** [still_busy] agrees with the outstanding requests. *)
Lemma advances_busy x x' v b o o' : advances x x' v o o' → NoDup (pages_of o) → b ≡ₚ o →
  still_busy x x' b ≡ₚ o'.
Proof.
  intros Ha Hnd Hb. destruct (advances_cases _ _ _ _ _ _ Ha Hnd Hb)
    as [(-> & ? & _)|(r & a & b1 & b2 & _ & -> & ? & _)]; done.
Qed.

Lemma io_step_inv m m' : io_step submit_queues m m' → inv m → inv m'.
Proof.
  intros [x v b r a pg w Hr Hh Hap Hno Hq|x v b h Hh|x x' v b Hne Hs|x x' v b l1 po l2 El Hs]
    (q & fs & Hco & Hb); simpl in *.
  - destruct (submit_coherent submit_queues x v q fs r a pg w) as (q' & fs' & ? & Ho & _); try done.
    { intros r' a' Hin. apply Hap. by rewrite Hb. }
    exists q', fs'. split; [done|]. simpl. by rewrite Hb, Ho.
  - exists q, fs. split; [|done]. simpl.
    assert (∀ r a, (r, a) ∈ q_reqs q → h !! a = host (dev x) !! a) as Hh'.
    { intros r a Hin. apply (Hh r). rewrite Hb. by apply req_outstanding. }
    destruct Hco as [Hwf Hready Hc Ho Hnd Hfl Hq Hp Hrq Hfk Hpg Hho Hla Hd Hrem]. split; simpl; try done.
    + intros r a Hin. destruct (Hrq r a Hin) as [? Hw]. split; [done|]. rewrite (Hh' r a Hin). done.
    + intros n. rewrite (settled_ext (sess (dev x)) _ (host (dev x))); eauto.
  - destruct (disk_step_coherent _ _ _ _ Hco Hne) as (x2 & e & q' & -> & H2 & Hco' & Ha).
    rewrite Hs in H2. injection H2 as <-. exists q', fs. split; [done|]. simpl.
    eapply advances_busy; [done | apply Hco | done].
  - destruct (nic_step_coherent _ _ _ _ _ _ _ Hco El) as (x2 & f & fs' & _ & H2 & Hco' & Ha).
    rewrite Hs in H2. injection H2 as <-. exists q, fs'. split; [done|]. simpl.
    eapply advances_busy; [done | apply Hco | done].
Qed.

Lemma io_steps_inv m m' : rtc (io_step submit_queues) m m' → inv m → inv m'.
Proof. induction 1; eauto using io_step_inv. Qed.

End Endings.
