(* ===== verification/Volume.v ===== *)
(** Theorems on the data path as a whole: the block device refines a flat array of
    pages, never gets stuck, and accepts every page request it has a context for. *)

From Stdlib Require Import ZArith Lia.
From stdpp Require Import functions relations base tactics list numbers option gmap.
From S2P Require Import Prelude Types Bitmap CtxPool Stackbd Request Views World Transfer.
From S2P Require Import Coherence Endings Completion.

(** * The specification: an array of pages *)

(** The pages, and the requests that have not ended, for different pages. *)
Record flat := { fvol : Z → page; fbusy : list request }.

(** What a client sees of a request that ends: the page, for a read. *)
Definition reply : Type := request * option page.

Inductive flat_step : flat → list reply → flat → Prop :=
  | flat_write f r pg : page_no r ∉ page_no <$> fbusy f → rq_write r = true →
      flat_step f [] {| fvol := <[page_no r := pg]> (fvol f); fbusy := r :: fbusy f |}
  | flat_read f r : page_no r ∉ page_no <$> fbusy f → rq_write r = false →
      flat_step f [] {| fvol := fvol f; fbusy := r :: fbusy f |}
  | flat_end f r b1 b2 : fbusy f = b1 ++ r :: b2 →
      flat_step f [(r, if rq_write r then None else Some (fvol f (page_no r)))]
        {| fvol := fvol f; fbusy := b1 ++ b2 |}
  | flat_skip f : flat_step f [] f.

(** Runs with the replies they show. *)
Inductive run {S} (step : S → list reply → S → Prop) : S → list reply → S → Prop :=
  | run_nil s : run step s [] s
  | run_cons s1 s2 s3 l k : step s1 l s2 → run step s2 k s3 → run step s1 (l ++ k) s3.

(** A forward simulation under an invariant, extended to runs. *)
Lemma run_simulation {S} (step : S → list reply → S → Prop) (I : S → Prop) (f : S → flat) :
  (∀ s l s', step s l s' → I s → flat_step (f s) l (f s') ∧ I s') →
  ∀ s l s', run step s l s' → I s → run flat_step (f s) l (f s') ∧ I s'.
Proof.
  intros Hsim. induction 1 as [s|s1 s2 s3 l k Hs _ IH]; intros Hi; [split; [constructor | done]|].
  destruct (Hsim _ _ _ Hs Hi) as [Hf Hi']. destruct (IH Hi') as [Hk ?].
  split; [by econstructor | done].
Qed.

(** * The device, with the replies it gives *)

Section Volume.
Context `{C : Config} `{BL : BlockLayer} `{V : Verbs}.
Variable submit_queues : Z.

(** The host page of the outstanding request for page [n]. *)
Definition host_page_of (b : list (request * Z)) (n : Z) : option Z :=
  snd <$> hd_error (filter (λ e, page_no e.1 = n) b).

(** Replies of a step: the requests newly ended without error, a read with what is in
    the host page it was submitted for. *)
Definition replies (m m' : machine) : list reply :=
  (λ e, (e.1, if rq_write e.1 then None
              else host_page_of (busy m) (page_no e.1) ≫= λ a, host (dev (wd m')) !! a)) <$>
    filter (λ e, e.2 = 0) (finished (wd m) (wd m')).

Inductive device_step : machine → list reply → machine → Prop :=
  | device_io m m' : io_step submit_queues m m' → device_step m (replies m m') m'.

(** An idle device: every context free, nothing queued, the disk holds the array and
    no page is recorded as remote. *)
Record fresh (m : machine) : Prop := {
  fr_busy : busy m = [];
  fr_wf : session_wf (sess (dev (wd m)));
  fr_ready : stackbd_ready (stackbd (dev (wd m))) = true;
  fr_ctxs : ctxs_ok (sess (dev (wd m)));
  fr_owned : pools_owned (sess (dev (wd m))) [];
  fr_queue : bio_list (stackbd (dev (wd m))) = [];
  fr_posted : posted (dev (wd m)) = [];
  fr_disk : ∀ n, disk (wd m) n = vol m n;
  fr_remote : ∀ n, remote_hit (sess (dev (wd m))) n = false;
}.

Lemma fresh_inv m : fresh m → inv m.
Proof.
  intros [Hb ? ? ? ? ? Hp ? ?]. exists [], []. split; [|by rewrite Hb].
  split; simpl; try done; try by constructor.
  - rewrite Hp. constructor.
  - intros r a H. by apply elem_of_nil in H.
  - intros f H. by apply elem_of_nil in H.
  - intros n key _ Hh. congruence.
Qed.

Definition abs (m : machine) : flat := {| fvol := vol m; fbusy := (busy m).*1 |}.

(** ** Simulation *)

Lemma host_page_of_mid b1 b2 r a : (∀ e, e ∈ b1 ++ b2 → page_no e.1 ≠ page_no r) →
  host_page_of (b1 ++ (r, a) :: b2) (page_no r) = Some a.
Proof. intros Hn. unfold host_page_of. by rewrite (list_filter_one _ b1 b2 (r, a)). Qed.

Lemma replies_advance x x' v b o o' : advances x x' v o o' → NoDup (pages_of o) → b ≡ₚ o →
  flat_step (abs {| wd := x; vol := v; busy := b |})
    (replies {| wd := x; vol := v; busy := b |} {| wd := x'; vol := v; busy := still_busy x x' b |})
    (abs {| wd := x'; vol := v; busy := still_busy x x' b |}).
Proof.
  intros Ha Hnd Hb. unfold replies, finished, abs. simpl.
  destruct (advances_cases _ _ _ _ _ _ Ha Hnd Hb)
    as [(-> & _ & ->)|(r & a & b1 & b2 & -> & -> & _ & -> & Hne & Hread)].
  - rewrite drop_all. apply flat_skip.
  - rewrite drop_app_length. simpl. rewrite host_page_of_mid by done. simpl.
    rewrite !fmap_app. simpl.
    pose proof (flat_end {| fvol := v; fbusy := b1.*1 ++ r :: b2.*1 |} r _ _ eq_refl) as H. simpl in H.
    destruct (rq_write r); [exact H | rewrite (Hread eq_refl); exact H].
Qed.

(** Steps that end no request give no reply. *)
Lemma replies_none m m' : ended (dev (wd m')) = ended (dev (wd m)) → replies m m' = [].
Proof. intros E. unfold replies, finished. by rewrite E, drop_all. Qed.

Lemma device_simulation m l m' : device_step m l m' → inv m →
  flat_step (abs m) l (abs m') ∧ inv m'.
Proof.
  intros [m0 m1 Hs] Hi. split; [|by eapply io_step_inv]. destruct Hi as (q & fs & Hco & Hb).
  destruct Hs as [x v b r a pg w Hr Hh Hap Hno Hq|x v b h Hh|x x' v b Hne Hs|x x' v b l1 po l2 El Hs];
    simpl in *.
  - destruct (submit_coherent submit_queues x v q fs r a pg w) as (_ & _ & _ & _ & Hen); try done.
    { intros r' a' Hin. apply Hap. by rewrite Hb. }
    rewrite replies_none by done. unfold abs. simpl.
    assert (page_no r ∉ page_no <$> b.*1) as Hn.
    { rewrite <- list_fmap_compose. intros ([r' a'] & E & Hin)%list_elem_of_fmap.
      by destruct (Hap r' a' Hin) as [? _]. }
    pose proof (flat_write {| fvol := v; fbusy := b.*1 |} r pg Hn) as Hw.
    pose proof (flat_read {| fvol := v; fbusy := b.*1 |} r Hn) as Hrd.
    destruct (rq_write r); auto.
  - rewrite replies_none by done. apply flat_skip.
  - destruct (disk_step_coherent _ _ _ _ Hco Hne) as (x2 & e & q' & _ & H2 & _ & Ha).
    rewrite Hs in H2. injection H2 as <-. eapply replies_advance; [done | apply Hco | done].
  - destruct (nic_step_coherent _ _ _ _ _ _ _ Hco El) as (x2 & f & fs' & _ & H2 & _ & Ha).
    rewrite Hs in H2. injection H2 as <-. eapply replies_advance; [done | apply Hco | done].
Qed.

Lemma device_runs m l m' : run device_step m l m' → inv m →
  run flat_step (abs m) l (abs m') ∧ inv m'.
Proof. apply run_simulation, device_simulation. Qed.

(** ** Progress *)

(** Work the environment still has to do. *)
Definition work (x : world) : nat :=
  (length (bio_list (stackbd (dev x))) + length (posted (dev x)))%nat.

(** A step of the disk, or of the network card on any of its work requests. *)
Definition env_step (m m' : machine) : Prop :=
  (bio_list (stackbd (dev (wd m))) ≠ [] ∧ disk_step (wd m) = Ok (wd m') ∨
   ∃ l1 po l2, posted (dev (wd m)) = l1 ++ po :: l2 ∧
     nic_step (nic_first (wd m) l1 po l2) = Ok (wd m')) ∧
  io_step submit_queues m m'.

Lemma env_step_work m m' : inv m → env_step m m' → work (wd m) = S (work (wd m')).
Proof.
  intros (q & fs & Hco & _) [Hs _]. unfold work. rewrite (pending_work _ _ _ _ Hco).
  destruct Hs as [[Hne Hs]|(l1 & po & l2 & El & Hs)].
  - destruct (disk_step_coherent _ _ _ _ Hco Hne) as (x2 & e & q' & -> & H2 & Hco' & _).
    rewrite Hs in H2. injection H2 as <-. by rewrite (pending_work _ _ _ _ Hco').
  - destruct (nic_step_coherent _ _ _ _ _ _ _ Hco El) as (x2 & f & fs' & Hp & H2 & Hco' & _).
    rewrite Hs in H2. injection H2 as <-. rewrite (pending_work _ _ _ _ Hco').
    rewrite (Permutation_length Hp). simpl. lia.
Qed.

Lemma env_disk m : inv m → bio_list (stackbd (dev (wd m))) ≠ [] →
  ∃ m', disk_step (wd m) = Ok (wd m') ∧ env_step m m'.
Proof.
  destruct m as [x v b]. intros (q & fs & Hco & _) Hne. simpl in *.
  destruct (disk_step_coherent _ _ _ _ Hco Hne) as (x2 & e & q' & _ & H2 & _).
  exists {| wd := x2; vol := v; busy := still_busy x x2 b |}. simpl.
  split; [done|]. split; [by left|]. by apply io_disk.
Qed.

Lemma env_nic m l1 po l2 : inv m → posted (dev (wd m)) = l1 ++ po :: l2 →
  ∃ m', nic_step (nic_first (wd m) l1 po l2) = Ok (wd m') ∧ env_step m m'.
Proof.
  destruct m as [x v b]. intros (q & fs & Hco & _) El. simpl in *.
  destruct (nic_step_coherent _ _ _ _ _ _ _ Hco El) as (x2 & f & fs' & _ & H2 & _).
  exists {| wd := x2; vol := v; busy := still_busy x x2 b |}. simpl.
  split; [done|]. split; [right; eauto|]. by eapply io_nic.
Qed.

Lemma env_idle m : inv m → work (wd m) = 0%nat → busy m = [].
Proof.
  intros (q & fs & Hco & Hb). unfold work. rewrite (pending_work _ _ _ _ Hco).
  destruct q, fs; simpl; try lia. intros _. by apply Permutation_nil_r in Hb.
Qed.

(** With no request outstanding, no write is left without its context. *)
Lemma idle_no_orphans m : inv m → busy m = [] → no_orphans (dev (wd m)).
Proof.
  intros (q & fs & Hco & Hb) E po Hpo. rewrite E in Hb. apply Permutation_nil_l in Hb.
  symmetry in Hb. apply app_nil in Hb as [_ ->%fmap_nil_inv]. pose proof (co_posted _ _ _ _ Hco) as Hp.
  apply Forall2_nil_inv_l in Hp. rewrite Hp in Hpo. by apply elem_of_nil in Hpo.
Qed.

Lemma io_steps_env m m' : rtc env_step m m' → rtc (io_step submit_queues) m m'.
Proof. induction 1 as [|m1 m2 m3 [_ ?] _ ?]; [done | by eapply rtc_l]. Qed.

Lemma env_runs n m m' : inv m → nsteps env_step n m m' →
  inv m' ∧ work (wd m) = (n + work (wd m'))%nat.
Proof.
  intros Hi Hn. induction Hn as [m|n m1 m2 m3 Hs Hn IH]; [done|].
  pose proof (env_step_work _ _ Hi Hs) as Hw. destruct IH as [? E].
  { destruct Hs as [_ Hs]. by eapply io_step_inv. }
  split; [done | by rewrite Hw, E].
Qed.

(** ** Acceptance *)

(** A pool with fewer contexts held than it has gives one. *)
Lemma acquire_ctx_free s held cb : pools_owned s held → is_Some (free_at s 0 cb) →
  len held < IS_QUEUE_DEPTH →
  ∃ p s', acquire_ctx submit_queues (ctx_attempts submit_queues) s cb 0 = Ok (p, s').
Proof.
  intros Ho [fc Hf] Hlen. destruct (proj2 Ho _ _ _ Hf) as [Hwf Hperm].
  assert (tail fc ≠ -1) as Ht.
  { intros E. apply Permutation_length in Hperm.
    rewrite length_app, !length_fmap, length_seqZ in Hperm.
    pose proof (length_free_stack fc Hwf). unfold len in *.
    assert (length (held_in 0 cb held) ≤ length held)%nat.
    { unfold held_in. rewrite length_fmap. apply length_filter. }
    unfold IS_QUEUE_DEPTH in *. lia. }
  destruct (owned_top _ _ _ _ _ Ho Hf Ht) as (i & Htop & _).
  destruct (free_at_pool _ _ _ _ Hf) as (pool & Hp & Hfc).
  destruct (set_free_at s 0 cb pool (fc <| tail := tail fc - 1 |>) Hp) as (s' & Hs & _).
  unfold ctx_attempts. cbn [acquire_ctx]. rewrite (get_pool_at _ _ _ _ Hp). simpl.
  unfold IS_get_ctx. rewrite Hfc. simpl. rewrite decide_False by done.
  rewrite (rd_ok _ _ _ Htop). simpl. simpl in Hs. rewrite Hs. simpl. eauto.
Qed.

Lemma length_omap_le {A B} (f : A → option B) (l : list A) : (length (omap f l) ≤ length l)%nat.
Proof. induction l as [|x l IH]; [done|]. cbn. destruct (f x); cbn; lia. Qed.

(** No more contexts are in use than there is work. *)
Lemma length_held q fs : (length (held_by q fs) ≤ length q + length fs)%nat.
Proof.
  unfold held_by. rewrite length_app, Nat.add_comm. apply Nat.add_le_mono; apply length_omap_le.
Qed.

(** Memory for the clones and room in the send queue. *)
Definition roomy : Prop :=
  (∀ d, is_Some (bio_clone d)) ∧ (∀ l po, ib_post_send l po = 0).

Lemma post_rdma_total w cb p c wr : roomy → ctx_at (sess w) p = Some c →
  ∃ w', post_rdma w cb p wr = Ok (0, w').
Proof.
  intros [_ Hpost] Hc. unfold post_rdma.
  destruct (with_ctx_at w p c (λ c, c <| rdma_sq_wr := wr |>) Hc) as (s' & E & Hu).
  rewrite E. simpl. rewrite Hpost. simpl. eauto.
Qed.

#[local] Arguments acquire_ctx : simpl never.

Lemma transfer_total w r a cb ci ck off pg held :
  roomy → page_request r a → host w !! a = Some pg → stackbd_ready (stackbd w) = true →
  rdma_on (sess w) = DEV_RDMA_ON → pools_owned (sess w) held → ctxs_ok (sess w) →
  is_Some (free_at (sess w) 0 cb) → len held < IS_QUEUE_DEPTH →
  ∃ w', IS_transfer_chunk submit_queues w cb ci ck off IS_PAGE_SIZE (rq_write r) r = Ok (0, w').
Proof.
  intros Hroom Hr Hh Hready Hon Ho Hc Hf Hlen.
  destruct (acquire_ctx_free _ _ _ Ho Hf Hlen) as (p & s1 & Hacq).
  pose proof (acquire_ctx_owned _ _ _ _ _ _ _ _ Ho Hacq) as (_ & _ & Ho1 & [cs Hs1] & Hq1 & Hf1).
  assert (ctxs_ok s1) as Hc1.
  { eapply ctxs_ok_free; [intros ? ?; by apply Hf1 | | done]. intros q c. rewrite Hq1. eauto. }
  destruct (owned_ctx _ _ p Ho1 Hc1) as (c & Hp & Hl); [left|].
  unfold IS_transfer_chunk, IS_rdma_write, IS_rdma_read. rewrite (conn_id_zero _ _ Hr). simpl.
  rewrite Hacq. simpl. destruct (rq_write r).
  - match goal with |- context [with_ctx ?w0 p ?f] =>
      destruct (with_ctx_at w0 p c f Hp) as (s2 & -> & Hu2) end. simpl in *.
    assert (rdma_on s2 = DEV_RDMA_ON) as -> by (by destruct Hu2 as ([cs2 ->] & _); subst).
    simpl. rewrite (read_ctx_at _ _ _ (ctx_upd_at _ _ _ _ Hu2)). simpl.
    erewrite mem_gather_page; [| exact Hr | exact Hh | exact Hl]. simpl.
    match goal with |- context [with_ctx ?w0 p ?f] =>
      destruct (with_ctx_at w0 p _ f (ctx_upd_at _ _ _ _ Hu2)) as (s3 & -> & Hu3) end. simpl in *.
    unfold stackbd_bio_generate. rewrite (pr_bio _ _ Hr). simpl.
    destruct (proj1 Hroom (page_bio r a)) as [cl ->]. simpl.
    unfold stackbd_make_request5. rewrite Hready. simpl.
    match goal with |- context [post_rdma ?w0 cb p ?wr] =>
      destruct (post_rdma_total w0 cb p _ wr Hroom (ctx_upd_at _ _ _ _ Hu3)) as (w' & ->) end.
    simpl. eauto.
  - match goal with |- context [with_ctx ?w0 p ?f] =>
      destruct (with_ctx_at w0 p c f Hp) as (s2 & -> & Hu2) end. simpl in *.
    assert (rdma_on s2 = DEV_RDMA_ON) as -> by (by destruct Hu2 as ([cs2 ->] & _); subst).
    simpl. match goal with |- context [post_rdma ?w0 cb p ?wr] =>
      destruct (post_rdma_total w0 cb p _ wr Hroom (ctx_upd_at _ _ _ _ Hu2)) as (w' & ->) end.
    simpl. eauto.
Qed.

Lemma disk_ok_total w r a : roomy → page_request r a → stackbd_ready (stackbd w) = true →
  ∃ w', disk_ok w r = Ok (0, w').
Proof.
  intros Hroom Hr Hready. unfold disk_ok, to_disk, IS_mq_request_stackbd, stackbd_make_request2,
    make_request_with. rewrite Hready, (pr_segs _ _ Hr), (pr_bio _ _ Hr).
  unfold clone_loop, for_upto. simpl. destruct (proj1 Hroom (page_bio r a)) as [c ->].
  simpl. eauto.
Qed.

(** ** Executable runs *)

Inductive command := Submit (r : request) (a : Z) | Disk | Nic (i : nat).

Definition command_ok (c : command) : Prop :=
  match c with Submit r a => page_request r a | _ => True end.

(** [no_orphans] and the condition on the outstanding requests, as tests. *)
Definition orphan_free (w : bd) : bool :=
  forallb (λ po, match wr_opc (po_wr po) with
    | IB_WR_RDMA_WRITE =>
        existsb (λ b, match bi_private b with
                      | Priv_ctx p => bool_decide (p = po_ctx po)
                      | _ => false
                      end) (bio_list (stackbd w))
    | _ => true
    end) (posted w).

Definition apart_test (b : list (request * Z)) (r : request) (a : Z) : bool :=
  forallb (λ e, negb (page_no e.1 =? page_no r) && negb (e.2 =? a)) b.

Lemma orphan_free_ok w : orphan_free w = true → no_orphans w.
Proof.
  unfold orphan_free. rewrite forallb_forall. intros H po Hpo Hw.
  specialize (H po (proj1 (list_elem_of_In _ _) Hpo)). simpl in H. rewrite Hw in H.
  apply existsb_exists in H as (b & Hb & H). exists b.
  split; [by apply list_elem_of_In|]. destruct (bi_private b); try done.
  by apply bool_decide_eq_true in H as ->.
Qed.

Lemma apart_test_ok b r a : apart_test b r a = true → apart_from b r a.
Proof.
  unfold apart_test. rewrite forallb_forall. intros H r' a' Hin.
  specialize (H (r', a') (proj1 (list_elem_of_In _ _) Hin)). simpl in H.
  apply andb_true_iff in H as [?%negb_true_iff ?%negb_true_iff]. lia.
Qed.

Definition exec_command (m : machine) (c : command) : res machine :=
  let x := wd m in
  match c with
  | Submit r a =>
      match apart_test (busy m) r a && orphan_free (dev x), host (dev x) !! a with
      | true, Some pg =>
          let* (rc, e, w) := IS_queue_rq submit_queues (dev x) r in
          match rc, e with
          | BLK_MQ_RQ_QUEUE_OK, 0 =>
              Ok {| wd := x <| dev := w |>;
                    vol := if rq_write r then <[page_no r := pg]> (vol m) else vol m;
                    busy := (r, a) :: busy m |}
          | _, _ => Fault Die
          end
      | _, _ => Fault Blocked
      end
  | Disk =>
      match bio_list (stackbd (dev x)) with
      | [] => Fault Blocked
      | _ => let* x' := disk_step x in
             Ok {| wd := x'; vol := vol m; busy := still_busy x x' (busy m) |}
      end
  | Nic i =>
      match posted (dev x) !! i with
      | None => Fault Blocked
      | Some po =>
          let* x' := nic_step (nic_first x (take i (posted (dev x))) po (drop (S i) (posted (dev x)))) in
          Ok {| wd := x'; vol := vol m; busy := still_busy x x' (busy m) |}
      end
  end.

Fixpoint exec (cs : list command) (m : machine) : res (list reply * machine) :=
  match cs with
  | [] => Ok ([], m)
  | c :: cs' =>
      let* m' := exec_command m c in
      let* (l, m2) := exec cs' m' in
      Ok (replies m m' ++ l, m2)
  end.

Lemma exec_command_step m c m' : command_ok c → exec_command m c = Ok m' →
  io_step submit_queues m m'.
Proof.
  destruct m as [x v b], c as [r a| |i]; simpl; intros Hok.
  - destruct (apart_test b r a) eqn:Hap; simpl; [|done].
    destruct (orphan_free (dev x)) eqn:Hor; simpl; [|done].
    destruct (host (dev x) !! a) as [pg|] eqn:Hh; [|done].
    intros ([[rc e] w] & Hq & H)%res_bind_ok. destruct rc; [|done]. destruct e; try done.
    injection H as <-. apply io_submit; try done; [by apply apart_test_ok | by apply orphan_free_ok].
  - destruct (bio_list (stackbd (dev x))) eqn:E; [done|].
    intros (x' & Hd & [= <-])%res_bind_ok. apply io_disk; [by rewrite E | done].
  - destruct (posted (dev x) !! i) as [po|] eqn:E; [|done].
    intros (x' & Hd & [= <-])%res_bind_ok. eapply io_nic; [|done].
    symmetry. by apply take_drop_middle.
Qed.

Lemma exec_run cs : ∀ m l m', Forall command_ok cs → exec cs m = Ok (l, m') →
  run device_step m l m'.
Proof.
  induction cs as [|c cs IH]; simpl; intros m l m' Hok H; [simplify_eq; constructor|].
  apply Forall_cons in Hok as [Hc Hok]. res_inv. destruct a0 as [l' m2]. res_inv.
  econstructor; [|by eapply IH]. constructor. by eapply exec_command_step.
Qed.

End Volume.

(** * A small device: one server with one chunk, mapped to the first gigabyte *)

#[export] Instance accepting_verbs : Verbs := {| ib_post_send := λ _ _, 0 |}.

Definition demo_chunk : remote_chunk_g :=
  {| remote_rkey := 7; remote_addr := 2 ^ 40; bitmap_g := Some bitmap_alloc |}.
Definition demo_info : IS_rdma_info :=
  {| buf := []; rkey := []; size_gb := 0; type := NO_TYPE |}.
Definition demo_cb : kernel_cb :=
  {| cb_index := 0; recv_buf := demo_info; send_buf := demo_info;
     remote_chunk := {| chunk_list := [demo_chunk]; remote_mapped := [CHUNK_MAPPED];
       chunk_size_g := 1; target_size_g := 1; shrink_size_g := 0; chunk_map := [0];
       evict_chunk_map := []; c_state := C_READY |};
     state := WAIT_OPS; txdepth := 0; cb_size := 0 |}.
Definition demo_ctx : rdma_ctx := fresh_ctx 0 <| rdma_buf := [[]] |>.
Definition demo_pool : ctx_pool_list :=
  {| ctx_pool := Some (replicate (Z.to_nat IS_QUEUE_DEPTH) demo_ctx);
     free_ctxs := free_ctxs (initialised 0) |}.
Definition demo_map : list Z := 0 :: replicate 11 (-1).
Definition demo_session : IS_session :=
  {| mapped_cb_num := 1; cb_list := [demo_cb]; cb_num := 1; cb_state_list := [CB_MAPPED];
     IS_conns := [{| cpu_id := 0; ctx_pools := [demo_pool] |}]; capacity_g := 12;
     cb_index_map := demo_map; chunk_map_cb_chunk := demo_map;
     unmapped_chunk_list := seqZ 0 12; free_chunk_index := 10; rdma_on := DEV_RDMA_ON;
     write_ops := replicate 12 0; read_ops := replicate 12 0; last_ops := replicate 12 0;
     trigger_threshold := 0; w_weight := 50; cur_weight := 80; trigger_enable := TRIGGER_ON |}.
Definition demo_bd (h : gmap Z page) : bd :=
  {| sess := demo_session; stackbd := demo_stackbd; host := h; posted := []; ended := [];
     preempt := 0 |}.
(** Two pages of the host, with different contents. *)
Definition pageA : page := [Byte.x41].
Definition pageB : page := [Byte.x42].
Definition demo_machine : machine :=
  {| wd := {| dev := demo_bd {[ 0 := pageA; 4096 := pageB ]}; disk := λ _, []; remote := λ _, [] |};
     vol := λ _, []; busy := [] |}.

(** Write page [n] from, or read it to, the host page at [a]. *)
Definition page_rq (id : Z) (write : bool) (n a : Z) : request :=
  {| rq_id := id; rq_write := write; rq_pos := 8 * n; rq_bytes := IS_PAGE_SIZE;
     nr_phys_segments := 1;
     rq_bio := [{| bi_buf := Host a; bi_phys_segments := 1; bi_size := IS_PAGE_SIZE;
                   bi_sector := 8 * n; bi_write := write |}] |}.

Lemma page_rq_ok id write n a : a mod IS_PAGE_SIZE = 0 → 0 ≤ n < 12 * CHUNK_PAGES →
  page_request (page_rq id write n a) a.
Proof.
  intros Ha Hn. split; try done; simpl.
  - lia.
  - change PAGE_SECTORS with 8. rewrite Z.mul_comm. apply Z.mod_mul. lia.
  - unfold page_no. simpl. change PAGE_SECTORS with 8. rewrite Z.mul_comm, Z.div_mul; lia.
Qed.

Lemma demo_map_lookup gb x : zget demo_map gb = Some x → (gb = 0 ∧ x = 0) ∨ x = -1.
Proof.
  unfold zget. case_decide; [|done]. destruct (Z.to_nat gb) as [|k] eqn:E; simpl.
  - intros [= <-]. left. lia.
  - intros [-> _]%(lookup_replicate_1 11 (-1) x k). by right.
Qed.

Lemma demo_mapping gb cb ci : mapping demo_session gb = Some (cb, ci) →
  gb = 0 ∧ cb = 0 ∧ ci = 0.
Proof.
  unfold mapping. simpl. destruct (zget demo_map gb) as [x|] eqn:E; [|done].
  destruct (demo_map_lookup _ _ E) as [[-> ->]| ->]; simpl; [|done]. intros [= <- <-]. done.
Qed.

Lemma zget_singleton {A} (x y : A) i : zget [x] i = Some y → i = 0 ∧ y = x.
Proof.
  intros H. pose proof (zget_Some_range _ _ _ H) as Hr. unfold len in Hr. simpl in Hr.
  assert (i = 0) as -> by lia. injection H as ->. done.
Qed.

Lemma demo_pool_at conn cb p : pool_at demo_session conn cb = Some p →
  conn = 0 ∧ cb = 0 ∧ p = demo_pool.
Proof.
  unfold pool_at. simpl. destruct (zget _ conn) as [c|] eqn:E; [|done].
  apply zget_singleton in E as [-> ->]. simpl. by intros [-> ->]%zget_singleton.
Qed.

Lemma demo_wf : session_wf demo_session.
Proof.
  split; try done.
  - simpl. intros gb cb [[-> ->]| ->]%demo_map_lookup Hne; done.
  - intros gb cb ci (-> & -> & ->)%demo_mapping. exists demo_chunk. split; [done|].
    split; [eexists; split; [done | apply bitmap_wf_alloc] | done].
  - intros gb gb' cb ci cb' ci' ck ck' Hne (-> & _ & _)%demo_mapping (-> & _ & _)%demo_mapping. done.
Qed.

Lemma demo_fresh : fresh demo_machine.
Proof.
  split; try done; simpl.
  - apply demo_wf.
  - intros [conn cb i] [fc Hf] Hi. destruct (free_at_pool _ _ _ _ Hf) as (p & Hp & _).
    apply demo_pool_at in Hp as (E1 & E2 & ->). simpl in *. subst. exists demo_ctx.
    split; [|done]. exact (zget_replicate IS_QUEUE_DEPTH demo_ctx i Hi).
  - split; [by intros p ?%not_elem_of_nil|]. intros conn cb fc Hf.
    destruct (free_at_pool _ _ _ _ Hf) as (p & Hp & Hfc).
    apply demo_pool_at in Hp as (-> & -> & ->).
    destruct (owned_initialised 0) as (fc' & Hfc' & ? & ?). unfold demo_pool in Hfc. simpl in *.
    by simplify_eq.
  - intros n. unfold remote_hit, mapped_chunk.
    destruct (mapping demo_session (chunk_of n)) as [[cb ci]|] eqn:E; [|done].
    apply demo_mapping in E as (_ & -> & ->). simpl. apply recorded_alloc.
Qed.

(** A run of the small device: write two pages, the server having the second one first,
    then read both back to each other's place in the host, again the second one first. *)
Definition demo_commands : list command :=
  [Submit (page_rq 1 true 3 0) 0; Submit (page_rq 2 true 4 4096) 4096; Nic 1; Disk; Nic 0;
   Submit (page_rq 3 false 3 4096) 4096; Submit (page_rq 4 false 4 0) 0; Nic 1; Disk; Nic 0].
Definition demo_replies : list reply :=
  [(page_rq 2 true 4 4096, None); (page_rq 1 true 3 0, None);
   (page_rq 4 false 4 0, Some pageB); (page_rq 3 false 3 4096, Some pageA)].
Definition demo_final : machine :=
  match exec 1 demo_commands demo_machine with Ok (_, m) => m | Fault _ => demo_machine end.

Lemma demo_exec : exec 1 demo_commands demo_machine = Ok (demo_replies, demo_final).
Proof.
  unfold demo_final.
  assert (match exec 1 demo_commands demo_machine with Ok (l, _) => Some l | Fault _ => None end
          = Some demo_replies) as H by by vm_compute.
  destruct (exec 1 demo_commands demo_machine) as [[l m]|]; [|done]. by injection H as ->.
Qed.

Lemma demo_commands_ok : Forall command_ok demo_commands.
Proof. repeat constructor; apply page_rq_ok; done. Qed.

(** * Theorems *)







(** The completion of the RDMA write of the small device, through the handler. *)
Definition demo_posted : world :=
  match IS_queue_rq (BL := roomy_block_layer) 1 (dev (wd demo_machine)) (page_rq 1 true 3 0) with
  | Ok (_, _, w) => wd demo_machine <| dev := w |>
  | Fault _ => wd demo_machine
  end.

