(* ===== verification/Hazards.v ===== *)
(** Where the data path leaves its contract: when the disk gives a context back whose RDMA
    write is still in flight and the context is used again, while RDMA is switched off, and
    when the queue pair refuses a work request. *)

From Stdlib Require Import ZArith Lia.
From stdpp Require Import functions relations base tactics list numbers option gmap.
From S2P Require Import Prelude Types Bitmap CtxPool Stackbd Request Views World Transfer.
From S2P Require Import Coherence Volume.

(** * Scenarios on the small device *)

(** Submit a request whatever is outstanding. *)
Definition submit (x : world) (r : request) : res world :=
  let* (_, _, w) := IS_queue_rq (BL := roomy_block_layer) 1 (dev x) r in Ok (x <| dev := w |>).

Definition set_rdma (v : Z) (x : world) : world :=
  x <| dev := dev x <| sess := sess (dev x) <| rdma_on := v |> |> |>.

Definition pageC : page := [Byte.x43].
Definition demo_world : world :=
  wd demo_machine <| dev := demo_bd {[ 0 := pageA; 4096 := pageB; 8192 := pageC ]} |>.

(** Page 0 is on the server and on the disk with [pageA]; then [pageC] is written to it
    and its disk leg ends before the network card has sent it; the write of [pageB] to
    page 1 takes the same context. *)
Definition reuse_run : res world :=
  let* x := submit demo_world (page_rq 1 true 0 0) in
  let* x := nic_step x in
  let* x := disk_step x in
  let* x := submit x (page_rq 2 true 0 8192) in
  let* x := disk_step x in
  let* x := submit x (page_rq 3 true 1 4096) in
  let* x := nic_step x in
  let* x := nic_step x in
  let* x := disk_step x in
  let* x := submit x (page_rq 4 false 0 0) in
  nic_step x.

(** Page 0 is on the server; it is written again while a disconnect of another server
    has RDMA switched off, and read once RDMA is back on. *)
Definition off_run : res world :=
  let* x := submit demo_world (page_rq 1 true 0 0) in
  let* x := nic_step x in
  let* x := disk_step x in
  let* x := submit (set_rdma DEV_RDMA_OFF x) (page_rq 2 true 0 4096) in
  let* x := disk_step x in
  let* x := submit (set_rdma DEV_RDMA_ON x) (page_rq 3 false 0 8192) in
  nic_step x.

Definition ended_ids (x : world) : list Z := (λ e, rq_id e.1) <$> ended (dev x).

(** What a run shows: the ended requests, the page of the host at [a], page 0 of the disk,
    and the work requests still posted. *)
Definition outcome (a : Z) (r : res world) : option (list Z * option page * page * nat) :=
  match r with
  | Ok x => Some (ended_ids x, host (dev x) !! a, disk x 0, length (posted (dev x)))
  | Fault _ => None
  end.

(** * Theorems *)



(** A refused work request leaves the session as [with_ctx] made it. *)
Lemma post_rdma_refused `{V : Verbs} w cb p c wr e : ctx_at (sess w) p = Some c →
  (∀ l po, ib_post_send l po = e) → e ≠ 0 →
  ∃ s', post_rdma w cb p wr = Ok (e, w <| sess := s' |>) ∧
    ctx_upd (sess w) s' p (c <| rdma_sq_wr := wr |>).
Proof.
  intros Hc Hpost He. unfold post_rdma.
  destruct (with_ctx_at w p c (λ c, c <| rdma_sq_wr := wr |>) Hc) as (s' & E & Hu).
  rewrite E. simpl. rewrite Hpost. destruct (Z.eqb_spec e 0); [done|]. eauto.
Qed.

#[local] Arguments acquire_ctx : simpl never.

(** C36: when the queue pair refuses an RDMA read, the transfer reports the
    error with preemption left disabled ([put_cpu] is skipped) and with its context taken
    from the pool while nothing is posted or queued whose completion could return it. *)
Theorem refused_read_leaks `{C : Config} `{BL : BlockLayer} `{V : Verbs}
  submit_queues w r a cb ci ck off held e
  (Hr : page_request r a) (Hon : rdma_on (sess w) = DEV_RDMA_ON)
  (Ho : pools_owned (sess w) held) (Hc : ctxs_ok (sess w))
  (Hf : is_Some (free_at (sess w) 0 cb)) (Hlen : len held < IS_QUEUE_DEPTH)
  (Hpost : ∀ l po, ib_post_send l po = e) (He : e ≠ 0) :
  ∃ w' p, IS_transfer_chunk submit_queues w cb ci ck off IS_PAGE_SIZE false r = Ok (e, w') ∧
    preempt w' = preempt w + 1 ∧ posted w' = posted w ∧ stackbd w' = stackbd w ∧
    (p ∉ held) ∧ pools_owned (sess w') (p :: held).
Proof.
  destruct (acquire_ctx_free submit_queues _ _ _ Ho Hf Hlen) as (p & s1 & Hacq).
  pose proof (acquire_ctx_owned _ _ _ _ _ _ _ _ Ho Hacq) as (_ & Hnot & Ho1 & [cs Hs1] & Hq1 & Hf1).
  assert (ctxs_ok s1) as Hc1.
  { eapply ctxs_ok_free; [intros ? ?; by apply Hf1 | | done]. intros q c. rewrite Hq1. eauto. }
  destruct (owned_ctx _ _ p Ho1 Hc1) as (c & Hp & Hl); [left|].
  unfold IS_transfer_chunk, IS_rdma_read. rewrite (conn_id_zero _ _ Hr). simpl.
  rewrite Hacq. simpl.
  match goal with |- context [with_ctx ?w0 p ?f] =>
    destruct (with_ctx_at w0 p c f Hp) as (s2 & -> & Hu2) end. simpl in *.
  assert (rdma_on s2 = DEV_RDMA_ON) as -> by (by destruct Hu2 as ([cs2 ->] & _); subst).
  simpl. match goal with |- context [post_rdma ?w0 cb p ?wr] =>
    destruct (post_rdma_refused w0 cb p _ wr e (ctx_upd_at _ _ _ _ Hu2) Hpost He)
      as (s3 & -> & Hu3) end.
  simpl. destruct (Z.eqb_spec e 0); [done|]. eexists _, p. split; [done|].
  split_and!; try done. simpl. eapply ctx_upd_owned; [done|]. by eapply ctx_upd_owned.
Qed.

Definition refusing_verbs : Verbs := {| ib_post_send := λ _ _, - ENOMEM |}.

Lemma refused_read_leaks_witness :
  ∃ w' p, IS_transfer_chunk (BL := roomy_block_layer) (V := refusing_verbs) 1
      (demo_bd ∅) 0 0 demo_chunk 0 IS_PAGE_SIZE false (page_rq 1 false 0 0) = Ok (- ENOMEM, w') ∧
    preempt w' = 1 ∧ posted w' = [] ∧ stackbd w' = demo_stackbd ∧
    (p ∉ []) ∧ pools_owned (sess w') [p].
Proof.
  apply (refused_read_leaks (BL := roomy_block_layer) (V := refusing_verbs) 1 (demo_bd ∅)
    (page_rq 1 false 0 0) 0 0 0 demo_chunk 0 [] (- ENOMEM)).
  - by apply page_rq_ok.
  - done.
  - apply (fr_owned _ demo_fresh).
  - apply (fr_ctxs _ demo_fresh).
  - by eexists.
  - done.
  - done.
  - done.
Defined.
