(* ===== verification/Daemon.v ===== *)
(** The memory server ([infiniswap_daemon/rdma-common.c]): the chunks it lends, its
    connections and the messages it exchanges with clients.

    A [struct connection *] is its index in [session.conns].  [malloc_addr] and [reg_mr]
    stand for [posix_memalign] and [ibv_reg_mr]; messages accepted by [ibv_post_send] are
    recorded in [outbox]. *)

From Stdlib Require Import ZArith Lia.
From stdpp Require Import base tactics list numbers option.
From S2P Require Import Prelude Types ByteOrder.

(** * Configuration and constants *)

Class DaemonConfig := {
  MAX_CLIENT : Z;
  FREE_MEM_EVICT_THRESHOLD : Z;
  FREE_MEM_EXPAND_THRESHOLD : Z;
  MEM_EVICT_HIT_THRESHOLD : Z;
  MEM_EXPAND_HIT_THRESHOLD : Z;
  max_client_pos : 0 < MAX_CLIENT < 2 ^ 20;
  evict_threshold_pos : 0 ≤ FREE_MEM_EVICT_THRESHOLD < 2 ^ 20;
  expand_threshold_pos : FREE_MEM_EVICT_THRESHOLD ≤ FREE_MEM_EXPAND_THRESHOLD < 2 ^ 20;
}.

#[refine, export] Instance default_daemon_config : DaemonConfig := {|
  MAX_CLIENT := 32;
  FREE_MEM_EVICT_THRESHOLD := 8;
  FREE_MEM_EXPAND_THRESHOLD := 16;
  MEM_EVICT_HIT_THRESHOLD := 1;
  MEM_EXPAND_HIT_THRESHOLD := 20;
|}.
Proof. all: lia. Defined.

Definition EXTRA_CHUNK_NUM : Z := 2.
Definition ONE_MB : Z := 1048576.
Definition CHUNK_MALLOCED : Z := 1.
Definition CHUNK_EMPTY : Z := 0.
Definition CQ_QP_BUSY : Z := 1.
Definition CQ_QP_IDLE : Z := 0.

(** * Data *)

(** [struct message] has the layout of [struct IS_rdma_info]. *)
Definition message : Type := IS_rdma_info.

Inductive server_st := S_WAIT | S_BIND | S_DONE.
Inductive conn_state := CONN_IDLE | CONN_CONNECTED | CONN_MAPPED | CONN_FAILED.
#[export] Instance conn_state_eq_dec : EqDecision conn_state.
Proof. solve_decision. Defined.

Record connection := {
  conn_index : Z;
  sess_chunk_map : list Z;
  mapped_chunk_size : Z;
  evict_sem : Z;
  stop_sem : Z;
  connected : Z;
  recv_msg : message;
  send_msg : message;
  cq_qp_state : Z;
  server_state : server_st;
}.
#[export] Instance eta_connection : Eta connection :=
  λ r, {| conn_index := conn_index r; sess_chunk_map := sess_chunk_map r;
          mapped_chunk_size := mapped_chunk_size r; evict_sem := evict_sem r;
          stop_sem := stop_sem r; connected := connected r; recv_msg := recv_msg r;
          send_msg := send_msg r; cq_qp_state := cq_qp_state r;
          server_state := server_state r |}.

(** [mr_list]: address and key of a registered region. *)
Record rdma_remote_mem := {
  region_list : list Z;
  mr_list : list (option (Z * Z));
  rm_size_gb : Z;
  mapped_size : Z;
  conn_map : list Z;
  malloc_map : list Z;
  conn_chunk_map : list Z;
}.
#[export] Instance eta_rdma_remote_mem : Eta rdma_remote_mem :=
  λ r, {| region_list := region_list r; mr_list := mr_list r; rm_size_gb := rm_size_gb r;
          mapped_size := mapped_size r; conn_map := conn_map r; malloc_map := malloc_map r;
          conn_chunk_map := conn_chunk_map r |}.

Record chunk_activity := { activity : Z; ca_chunk_index : Z }.

Record rdma_session := {
  conns : list (option connection);
  conns_state : list conn_state;
  conn_num : Z;
  rdma_remote : rdma_remote_mem;
}.
#[export] Instance eta_rdma_session : Eta rdma_session :=
  λ r, {| conns := conns r; conns_state := conns_state r; conn_num := conn_num r;
          rdma_remote := rdma_remote r |}.

Record daemon := {
  session : rdma_session;
  running : Z;
  outbox : list (Z * message);
}.
#[export] Instance eta_daemon : Eta daemon :=
  λ r, {| session := session r; running := running r; outbox := outbox r |}.

(** * Access *)

Definition get_conn (d : daemon) (i : Z) : res connection :=
  let* o := rd (conns (session d)) i in deref o.

Definition put_conn (d : daemon) (i : Z) (c : connection) : res daemon :=
  let* l := wr (conns (session d)) i (Some c) in
  Ok (d <| session ::= λ s, s <| conns := l |> |>).

Definition with_conn (d : daemon) (i : Z) (f : connection → connection) : res daemon :=
  let* c := get_conn d i in put_conn d i (f c).

Definition with_remote (d : daemon) (f : rdma_remote_mem → rdma_remote_mem) : daemon :=
  d <| session ::= λ s, s <| rdma_remote ::= f |> |>.

Definition set_conn_state (d : daemon) (i : Z) (st : conn_state) : res daemon :=
  let* l := wr (conns_state (session d)) i st in
  Ok (d <| session ::= λ s, s <| conns_state := l |> |>).

(** [send_message]: spins until the connection is established. *)
Definition send_message (d : daemon) (i : Z) : res daemon :=
  let* c := get_conn d i in
  if connected c =? 0 then Fault Blocked
  else Ok (d <| outbox := outbox d ++ [(i, send_msg c)] |>).

(** [get_free_mem]: the digits among the 60 bytes of the buffer that holds the second line
    of [/proc/meminfo] ("MemFree: ... kB"), a byte each. *)
Definition get_free_mem (line : list Z) : Z :=
  foldl (λ res b, if (48 <=? b) && (b <=? 57) then res * 10 + (b - 48) else res) 0
    (take 60 line).

Section Daemon.
Context `{C : Config} `{D : DaemonConfig}.
(** The address [posix_memalign] returns for chunk [i]. *)
Variable malloc_addr : Z → Z.
(** The key [ibv_reg_mr] returns for a region, [None] when it fails. *)
Variable reg_mr : Z → option Z.

(** A message buffer of [register_memory]; every field the protocol reads is set before the
    message is sent. *)
Definition zero_msg : message :=
  {| buf := replicate (Z.to_nat MAX_MR_SIZE_GB) 0; rkey := replicate (Z.to_nat MAX_MR_SIZE_GB) 0;
     size_gb := 0; type := NO_TYPE |}.

(** * Start *)

(** How much of the free memory to lend. *)
Definition initial_size (free_mem_kb : Z) : Z :=
  let g := s32 (free_mem_kb / ONE_MB) in
  let g := if FREE_MEM_EXPAND_THRESHOLD <? g
           then g - (FREE_MEM_EVICT_THRESHOLD + FREE_MEM_EXPAND_THRESHOLD) / 2
           else if FREE_MEM_EVICT_THRESHOLD <? g then g - FREE_MEM_EVICT_THRESHOLD
           else 0 in
  if MAX_MR_SIZE_GB <? g then MAX_MR_SIZE_GB else g.

Definition alloc_chunk (m : rdma_remote_mem) (i : Z) : res rdma_remote_mem :=
  let* rl := wr (region_list m) i (malloc_addr i) in
  let* mm := wr (malloc_map m) i CHUNK_MALLOCED in
  Ok (m <| region_list := rl |> <| malloc_map := mm |>).

Definition rdma_session_init (free_mem_kb : Z) : res rdma_session :=
  let g := initial_size free_mem_kb in
  let n := Z.to_nat MAX_MR_SIZE_GB in
  let m := {| region_list := replicate n 0; mr_list := replicate n None; rm_size_gb := 0;
              mapped_size := 0; conn_map := replicate n (-1);
              malloc_map := replicate n CHUNK_EMPTY; conn_chunk_map := replicate n (-1) |} in
  let* m := for_upto g (λ i m, alloc_chunk m i) m in
  Ok {| conns := replicate (Z.to_nat MAX_CLIENT) None;
        conns_state := replicate (Z.to_nat MAX_CLIENT) CONN_IDLE; conn_num := 0;
        rdma_remote := m <| rm_size_gb := g |> <| mapped_size := 0 |> |}.

(** * Connections *)

(** The slot taken, if one was free; [conn_num] grows either way. *)
Definition build_connection (d : daemon) : res (option Z * daemon) :=
  let c := {| conn_index := 0; sess_chunk_map := replicate (Z.to_nat MAX_MR_SIZE_GB) (-1);
              mapped_chunk_size := 0; evict_sem := 0; stop_sem := 0; connected := 0;
              recv_msg := zero_msg; send_msg := zero_msg; cq_qp_state := CQ_QP_BUSY;
              server_state := S_WAIT |} in
  let* out := for_upto_break MAX_CLIENT (λ i '(_, d),
    let* st := rd (conns_state (session d)) i in
    if decide (st = CONN_IDLE) then
      let* d := put_conn d i (c <| conn_index := i |>) in
      let* d := set_conn_state d i CONN_CONNECTED in
      Ok (Break (Some i, d))
    else Ok (Next (None, d))) (None, d) in
  let '(slot, d) := ctl_state out in
  Ok (slot, d <| session ::= λ s, s <| conn_num := s32 (conn_num s + 1) |> |>).

Definition on_connect (d : daemon) (i : Z) : res daemon :=
  with_conn d i (λ c, c <| connected := 1 |>).

(** Slot [j] of a lost connection, whose slot map is [sm]. *)
Definition unlend_chunk (sm : list Z) (j : Z) (d : daemon) : res daemon :=
  let* index := rd sm j in
  if index =? -1 then Ok d
  else
    let m := rdma_remote (session d) in
    let* cm := wr (conn_map m) index (-1) in
    let* cc := wr (conn_chunk_map m) index (-1) in
    Ok (with_remote d (λ m, m <| conn_map := cm |> <| conn_chunk_map := cc |>)).

(** The chunks of a lost connection become unmapped. *)
Definition unlend_chunks (d : daemon) (c : connection) : res daemon :=
  if 0 <? mapped_chunk_size c then
    let* d := for_upto MAX_MR_SIZE_GB (unlend_chunk (sess_chunk_map c)) d in
    Ok (with_remote d (λ m, m <| mapped_size := s32 (mapped_size m - mapped_chunk_size c) |>))
  else Ok d.

(** The daemon stops its memory thread when no connection is left. *)
Definition destroy_connection (d : daemon) (i : Z) : res daemon :=
  let* c := get_conn d i in
  let* d := unlend_chunks d c in
  let* l := wr (conns (session d)) (conn_index c) None in
  let d := d <| session ::= λ s, s <| conns := l |> |> in
  let* d := set_conn_state d (conn_index c) CONN_IDLE in
  let n := s32 (conn_num (session d) - 1) in
  let d := d <| session ::= λ s, s <| conn_num := n |> |> in
  Ok (if n =? 0 then d <| running := 0 |> else d).

(** * Lending chunks *)

(** Chunk [i] is allocated and lent to nobody. *)
Definition lendable (m : rdma_remote_mem) (i : Z) : res bool :=
  let* a := rd (malloc_map m) i in
  let* c := rd (conn_map m) i in
  Ok ((a =? CHUNK_MALLOCED) && (c =? -1)).

(** Lend chunk [j] to connection [i] and write its address and key in the message. *)
Definition lend_chunk (d : daemon) (i j : Z) : res daemon :=
  let* c := get_conn d i in
  let* sm := wr (sess_chunk_map c) j j in
  let m := rdma_remote (session d) in
  let* cm := wr (conn_map m) j (conn_index c) in
  let* region := rd (region_list m) j in
  match reg_mr region with
  | None => Fault Die
  | Some key =>
      let* ml := wr (mr_list m) j (Some (region, key)) in
      let* b := wr (buf (send_msg c)) j (htonll (u64 region)) in
      let* k := wr (rkey (send_msg c)) j (htonl (u32 key)) in
      put_conn (with_remote d (λ m, m <| conn_map := cm |> <| mr_list := ml |>)) i
        (c <| sess_chunk_map := sm |> <| send_msg ::= λ s, s <| buf := b |> <| rkey := k |> |>)
  end.

Definition clear_keys (m : message) : message :=
  m <| rkey := replicate (length (rkey m)) 0 |>.

Definition send_single_mr (d : daemon) (i client_chunk_index : Z) : res daemon :=
  let* d := with_conn d i (λ c, c <| send_msg ::= λ m,
              clear_keys (m <| size_gb := client_chunk_index |>) |>) in
  let* out := for_upto_break MAX_MR_SIZE_GB (λ j d,
    let* free := lendable (rdma_remote (session d)) j in
    if free : bool then let* d := lend_chunk d i j in Ok (Break d)
    else Ok (Next d)) d in
  let d := with_remote (ctl_state out) (λ m, m <| mapped_size := s32 (mapped_size m + 1) |>) in
  let* d := with_conn d i (λ c, c <| mapped_chunk_size := s32 (mapped_chunk_size c + 1) |>
                                  <| send_msg ::= λ m, m <| type := INFO_SINGLE |> |>) in
  send_message d i.

Definition send_mr (d : daemon) (i size : Z) : res daemon :=
  let* d := with_conn d i (λ c, c <| send_msg ::= λ m, clear_keys (m <| size_gb := size |>) |>) in
  let* out := for_upto_break MAX_MR_SIZE_GB (λ k '(n, d),
    let* free := lendable (rdma_remote (session d)) k in
    if free : bool then
      let* d := lend_chunk d i k in
      let n := n + 1 in
      Ok (if n =? size then Break (n, d) else Next (n, d))
    else Ok (Next (n, d))) (0, d) in
  let d := with_remote (ctl_state out).2 (λ m, m <| mapped_size := s32 (mapped_size m + size) |>) in
  let* d := with_conn d i (λ c, c <| mapped_chunk_size := s32 (mapped_chunk_size c + size) |>
                                  <| send_msg ::= λ m, m <| type := INFO |> |>) in
  send_message d i.

Definition send_free_mem_size (d : daemon) (i : Z) : res daemon :=
  let m := rdma_remote (session d) in
  let* d := with_conn d i (λ c, c <| send_msg ::= λ s,
              s <| type := FREE_SIZE |> <| size_gb := s32 (rm_size_gb m - mapped_size m) |> |>) in
  send_message d i.

(** [send_stop] up to its wait: a nonzero count waits for [stop_sem], which [recv_done]
    posts. *)
Definition send_stop (d : daemon) (i n : Z) : res daemon :=
  let* d := with_conn d i (λ c, c <| send_msg ::= λ m, m <| type := STOP |> <| size_gb := n |> |>) in
  send_message d i.

Definition wait_stop (d : daemon) (i : Z) : res daemon :=
  let* c := get_conn d i in
  if stop_sem c <=? 0 then Fault Blocked
  else put_conn d i (c <| stop_sem := stop_sem c - 1 |>).

Definition send_evict (d : daemon) (i n : Z) : res daemon :=
  let* d := with_conn d i (λ c, c <| send_msg ::= λ m,
              clear_keys (m <| type := EVICT |> <| size_gb := n |>) |>) in
  send_message d i.

Definition send_terminate (d : daemon) (i : Z) : res daemon :=
  let* d := with_conn d i (λ c, c <| send_msg ::= λ m, m <| type := DONE |> |>) in
  send_message d i.

(** * Messages from clients *)

(** Slot [j] of a DONE message with keys [keys]: a chunk whose key is set is deregistered
    and freed. *)
Definition drop_chunk (i : Z) (keys : list Z) (j : Z) (d : daemon) : res daemon :=
  let* k := rd keys j in
  if k =? 0 then Ok d
  else
    let* c := get_conn d i in
    let* index := rd (sess_chunk_map c) j in
    let* sm := wr (sess_chunk_map c) j (-1) in
    let m := rdma_remote (session d) in
    let* _ := rd (mr_list m) index in
    let* cm := wr (conn_map m) index (-1) in
    let* mm := wr (malloc_map m) index CHUNK_EMPTY in
    let* cc := wr (conn_chunk_map m) index (-1) in
    put_conn (with_remote d (λ m, m <| conn_map := cm |> <| malloc_map := mm |>
                                    <| conn_chunk_map := cc |>)) i
      (c <| sess_chunk_map := sm |>).

Definition recv_done (d : daemon) (i : Z) : res daemon :=
  let* c := get_conn d i in
  let evict_g := size_gb (recv_msg c) in
  let* d := for_upto MAX_MR_SIZE_GB (drop_chunk i (rkey (recv_msg c))) d in
  let d := with_remote d (λ m, m <| rm_size_gb := s32 (rm_size_gb m - evict_g) |>
                                 <| mapped_size := s32 (mapped_size m - evict_g) |>) in
  let* d := with_conn d i (λ c, c <| mapped_chunk_size := s32 (mapped_chunk_size c - evict_g) |>
                                  <| stop_sem := stop_sem c + 1 |>) in
  let* c := get_conn d i in
  if mapped_chunk_size c =? 0 then set_conn_state d (conn_index c) CONN_CONNECTED else Ok d.

Inductive wc_opcode := IBV_WC_RECV | IBV_WC_SEND.

Definition set_busy (d : daemon) (i v : Z) : res daemon :=
  with_conn d i (λ c, c <| cq_qp_state := v |>).

Definition bind (d : daemon) (i : Z) : res daemon :=
  with_conn d i (λ c, c <| cq_qp_state := CQ_QP_BUSY |> <| server_state := S_BIND |>).

Definition on_completion (d : daemon) (i : Z) (status_ok : bool) (op : wc_opcode) : res daemon :=
  if negb status_ok then Fault Die
  else
    match op with
    | IBV_WC_SEND => set_busy d i CQ_QP_IDLE
    | IBV_WC_RECV =>
        let* c := get_conn d i in
        match type (recv_msg c) with
        | QUERY =>
            let* d := set_busy d i CQ_QP_BUSY in send_free_mem_size d i
        | BIND =>
            let* d := bind d i in
            let* d := send_mr d i (size_gb (recv_msg c)) in
            set_conn_state d (conn_index c) CONN_MAPPED
        | BIND_SINGLE =>
            let* d := bind d i in
            let* d := send_single_mr d i (size_gb (recv_msg c)) in
            set_conn_state d (conn_index c) CONN_MAPPED
        | ACTIVITY => with_conn d i (λ c, c <| evict_sem := evict_sem c + 1 |>)
        | DONE =>
            let* d := set_busy d i CQ_QP_BUSY in recv_done d i
        | _ => Fault Die
        end
    end.

(** * Events of the connection manager *)

Inductive cm_event := CM_CONNECT_REQUEST | CM_ESTABLISHED | CM_DISCONNECTED | CM_OTHER.

(** Connection [i] is the one the event is about. *)
Definition on_event (d : daemon) (i : Z) (ev : cm_event) : res daemon :=
  match ev with
  | CM_CONNECT_REQUEST => let* (_, d) := build_connection d in Ok d
  | CM_ESTABLISHED => let* d := on_connect d i in send_free_mem_size d i
  | CM_DISCONNECTED => destroy_connection d i
  | CM_OTHER => Fault Die
  end.

End Daemon.
