(* ===== verification/DaemonInv.v ===== *)
(** The accounts of the memory server: the sizes it keeps are the numbers of allocated and
    of lent chunks, and its maps and those of its connections agree. *)

From Stdlib Require Import ZArith Lia.
From stdpp Require Import base tactics list numbers option.
From S2P Require Import Prelude Types ByteOrder Daemon.

Section DaemonInv.
Context `{C : Config} `{D : DaemonConfig}.

Definition is_malloced (x : Z) : bool := x =? CHUNK_MALLOCED.
Definition is_lent (x : Z) : bool := negb (x =? -1).

Lemma count_lend l j x : zget l j = Some (-1) → x ≠ -1 →
  count is_lent (zset l j x) = count is_lent l + 1.
Proof.
  intros H Hx. rewrite (count_zset _ _ _ _ _ H). unfold is_lent.
  rewrite (proj2 (Z.eqb_neq x (-1)) Hx). simpl. lia.
Qed.

Lemma count_unlend l j x : zget l j = Some x → x ≠ -1 →
  count is_lent (zset l j (-1)) = count is_lent l - 1.
Proof.
  intros H Hx. rewrite (count_zset _ _ _ _ _ H). unfold is_lent.
  rewrite (proj2 (Z.eqb_neq x (-1)) Hx). simpl. lia.
Qed.

Lemma count_free l j : zget l j = Some CHUNK_MALLOCED →
  count is_malloced (zset l j CHUNK_EMPTY) = count is_malloced l - 1.
Proof. intros H. rewrite (count_zset _ _ _ _ _ H). simpl. lia. Qed.

(** * The invariant *)

Record conn_wf (i : Z) (c : connection) (m : rdma_remote_mem) (k : Z) : Prop := {
  cn_index : conn_index c = i;
  cn_map : len (sess_chunk_map c) = MAX_MR_SIZE_GB;
  cn_buf : len (buf (send_msg c)) = MAX_MR_SIZE_GB;
  cn_key : len (rkey (send_msg c)) = MAX_MR_SIZE_GB;
  cn_size : mapped_chunk_size c = count is_lent (sess_chunk_map c) + k;
  cn_back : ∀ j x, zget (sess_chunk_map c) j = Some x → x ≠ -1 →
    x = j ∧ zget (conn_map m) j = Some i;
}.

(** A slot in state [CONN_IDLE] holds no connection. *)
Definition idle_ok (s : rdma_session) : Prop :=
  ∀ i, zget (conns_state s) i = Some CONN_IDLE → zget (conns s) i = Some None.

Lemma idle_ok_conn s s' i c c' : idle_ok s → zget (conns s) i = Some (Some c) →
  conns s' = zset (conns s) i (Some c') → conns_state s' = conns_state s → idle_ok s'.
Proof.
  intros H Hc E1 E2 k. rewrite E1, E2. intros Hk. rewrite zget_zset_ne; [by apply H|].
  intros <-. by rewrite (H _ Hk) in Hc.
Qed.

(** [ks] and [km]: by how much the sizes lag behind the maps while connection [i0] is being
    served; both are 0 between messages. *)
Record lend_inv (d : daemon) (i0 ks km : Z) : Prop := {
  li_conns : len (conns (session d)) = MAX_CLIENT;
  li_states : len (conns_state (session d)) = MAX_CLIENT;
  li_regions : len (region_list (rdma_remote (session d))) = MAX_MR_SIZE_GB;
  li_mrs : len (mr_list (rdma_remote (session d))) = MAX_MR_SIZE_GB;
  li_map : len (conn_map (rdma_remote (session d))) = MAX_MR_SIZE_GB;
  li_malloc : len (malloc_map (rdma_remote (session d))) = MAX_MR_SIZE_GB;
  li_chunks : len (conn_chunk_map (rdma_remote (session d))) = MAX_MR_SIZE_GB;
  li_size : rm_size_gb (rdma_remote (session d)) =
              count is_malloced (malloc_map (rdma_remote (session d))) + ks;
  li_mapped : mapped_size (rdma_remote (session d)) =
                count is_lent (conn_map (rdma_remote (session d))) + km;
  li_lent : ∀ j i, zget (conn_map (rdma_remote (session d))) j = Some i → i ≠ -1 →
    zget (malloc_map (rdma_remote (session d))) j = Some CHUNK_MALLOCED ∧
    ∃ c, zget (conns (session d)) i = Some (Some c) ∧ zget (sess_chunk_map c) j = Some j;
  li_wf : ∀ i c, zget (conns (session d)) i = Some (Some c) →
    conn_wf i c (rdma_remote (session d)) (if decide (i = i0) then km else 0);
  li_idle : idle_ok (session d);
  li_bits : Forall (λ x, x = CHUNK_EMPTY ∨ x = CHUNK_MALLOCED)
              (malloc_map (rdma_remote (session d)));
}.

(** Between messages. *)
Definition accounts (d : daemon) : Prop := lend_inv d 0 0 0.

Lemma lend_inv_any d i i' : lend_inv d i 0 0 → lend_inv d i' 0 0.
Proof.
  intros []. split; try done. intros j c Hc. destruct (li_wf0 j c Hc). split; try done.
  destruct (decide (j = i)), (decide (j = i')); done.
Qed.

(** * Access *)

Lemma get_conn_at d i c : zget (conns (session d)) i = Some (Some c) → get_conn d i = Ok c.
Proof. intros H. unfold get_conn. by rewrite (rd_ok _ _ _ H). Qed.

Lemma put_conn_at d i c c' : zget (conns (session d)) i = Some (Some c) →
  put_conn d i c' = Ok (d <| session ::= λ s, s <| conns := zset (conns s) i (Some c') |> |>).
Proof. intros H. unfold put_conn. by rewrite wr_ok by eauto with zarr. Qed.

Lemma with_conn_at d i c f : zget (conns (session d)) i = Some (Some c) →
  with_conn d i f = Ok (d <| session ::= λ s, s <| conns := zset (conns s) i (Some (f c)) |> |>).
Proof. intros H. unfold with_conn. rewrite (get_conn_at _ _ _ H). simpl. by eapply put_conn_at. Qed.

(** A connection changed outside its map and its count. *)
Lemma lend_inv_conn d i0 ks km i c c' : lend_inv d i0 ks km →
  zget (conns (session d)) i = Some (Some c) →
  conn_index c' = conn_index c → sess_chunk_map c' = sess_chunk_map c →
  mapped_chunk_size c' = mapped_chunk_size c →
  len (buf (send_msg c')) = MAX_MR_SIZE_GB → len (rkey (send_msg c')) = MAX_MR_SIZE_GB →
  lend_inv (d <| session ::= λ s, s <| conns := zset (conns s) i (Some c') |> |>) i0 ks km.
Proof.
  intros [] Hc E1 E2 E3 E4 E5. split; simpl; rewrite ?len_zset; try done.
  - intros j k Hj Hk. destruct (li_lent0 j k Hj Hk) as (Hm & c0 & Hc0 & Hs). split; [done|].
    rewrite zget_zset. case_decide as Hd; [|eauto]. destruct Hd as [<- _].
    rewrite Hc in Hc0. injection Hc0 as <-. exists c'. by rewrite E2.
  - intros j c0. rewrite zget_zset. case_decide as Hd; [|apply li_wf0].
    destruct Hd as [<- _]. intros [= <-]. destruct (li_wf0 _ _ Hc).
    split; rewrite ?E1, ?E2, ?E3; done.
  - by eapply idle_ok_conn.
Qed.

Lemma set_conn_state_ok d i0 ks km i c st : lend_inv d i0 ks km →
  zget (conns (session d)) i = Some (Some c) → st ≠ CONN_IDLE →
  ∃ d', set_conn_state d i st = Ok d' ∧ lend_inv d' i0 ks km ∧
    d' = d <| session ::= λ s, s <| conns_state := zset (conns_state s) i st |> |>.
Proof.
  intros [H1 H2 H3 H4 H5 H6 H7 H8 H9 H10 H11 H12 H13] Hc Hst. unfold set_conn_state.
  pose proof (zget_Some_range _ _ _ Hc). rewrite wr_ok by lia. eexists. split; [done|].
  split; [|done]. split; try done.
  - simpl. by rewrite len_zset.
  - intros k. simpl. rewrite zget_zset. case_decide; [intros [= ?]; done | apply H12].
Qed.

(** * Lending *)

Definition lent_conn (c : connection) (j region key : Z) : connection :=
  c <| sess_chunk_map := zset (sess_chunk_map c) j j |>
    <| send_msg ::= λ s, s <| buf := zset (buf s) j (htonll (u64 region)) |>
                           <| rkey := zset (rkey s) j (htonl (u32 key)) |> |>.

Definition lent (d : daemon) (i : Z) (c : connection) (j region key : Z) : daemon :=
  d <| session ::= λ s, s
         <| rdma_remote ::= λ m, m <| conn_map := zset (conn_map m) j i |>
                                   <| mr_list := zset (mr_list m) j (Some (region, key)) |> |>
         <| conns := zset (conns s) i (Some (lent_conn c j region key)) |> |>.

Lemma lend_chunk_ok reg_mr d i c j region key ks km : lend_inv d i ks km →
  zget (conns (session d)) i = Some (Some c) →
  zget (malloc_map (rdma_remote (session d))) j = Some CHUNK_MALLOCED →
  zget (conn_map (rdma_remote (session d))) j = Some (-1) →
  zget (region_list (rdma_remote (session d))) j = Some region → reg_mr region = Some key →
  lend_chunk reg_mr d i j = Ok (lent d i c j region key) ∧
  lend_inv (lent d i c j region key) i ks (km - 1).
Proof.
  intros Hinv Hc Hm Hn Hr Hk. pose proof (li_wf _ _ _ _ Hinv _ _ Hc) as Hcw.
  rewrite decide_True in Hcw by done.
  pose proof (zget_Some_range _ _ _ Hc) as Hir.
  pose proof (zget_Some_range _ _ _ Hn) as Hj. rewrite (li_map _ _ _ _ Hinv) in Hj.
  assert (zget (sess_chunk_map c) j = Some (-1)) as Hs.
  { destruct (zget_is_Some (sess_chunk_map c) j) as [x Hx]; [rewrite (cn_map _ _ _ _ Hcw); lia|].
    destruct (decide (x = -1)) as [->|Hx1]; [done|].
    destruct (cn_back _ _ _ _ Hcw j x Hx Hx1) as [-> E]. rewrite Hn in E.
    injection E as E. apply zget_Some_range in Hc. lia. }
  split.
  - unfold lend_chunk. rewrite (get_conn_at _ _ _ Hc). cbn [res_bind].
    rewrite wr_ok by eauto with zarr. cbn [res_bind]. rewrite wr_ok by eauto with zarr.
    cbn [res_bind]. rewrite (rd_ok _ _ _ Hr). cbn [res_bind]. rewrite Hk.
    rewrite wr_ok by (rewrite (li_mrs _ _ _ _ Hinv); lia). cbn [res_bind].
    rewrite wr_ok by (rewrite (cn_buf _ _ _ _ Hcw); lia). cbn [res_bind].
    rewrite wr_ok by (rewrite (cn_key _ _ _ _ Hcw); lia). cbn [res_bind].
    rewrite (cn_index _ _ _ _ Hcw). by erewrite put_conn_at by exact Hc.
  - destruct Hinv as [H1 H2 H3 H4 H5 H6 H7 H8 H9 H10 H11 H12 H13].
    split; simpl; rewrite ?len_zset; try done.
    + rewrite (count_lend _ _ _ Hn) by lia. lia.
    + intros j' i'. rewrite zget_zset, H5. case_decide as Hd.
      * destruct Hd as [<- _]. intros [= <-] _. split; [done|].
        eexists. rewrite zget_zset_eq by lia. split; [done|]. simpl. apply zget_zset_eq.
        eauto with zarr.
      * intros Hj' Hne. destruct (H10 _ _ Hj' Hne) as (Hm' & c' & Hc' & Hs'). split; [done|].
        rewrite zget_zset. case_decide as Hd'; [|eauto]. destruct Hd' as [<- _]. rewrite Hc in Hc'.
        injection Hc' as <-. eexists. split; [done|]. simpl. rewrite zget_zset.
        case_decide as Hd2; [by destruct Hd2 as [<- _]|done].
    + intros i' c'. rewrite zget_zset. case_decide as Hd.
      * destruct Hd as [<- _]. intros [= <-]. rewrite decide_True by done.
        destruct Hcw as [Hi Hl Hb Hkl Hsz Hback]. split; simpl; rewrite ?len_zset; try done.
        -- rewrite (count_lend _ _ _ Hs), Hsz by lia. lia.
        -- intros j' x. rewrite !zget_zset, H5, Hl. case_decide as Hd.
           ++ destruct Hd as [<- _]. intros [= <-] _. done.
           ++ apply Hback.
      * intros Hc'. assert (i' ≠ i) as Hne by (intros ->; tauto). rewrite decide_False by done.
        destruct (H11 _ _ Hc') as [Hi Hl Hb Hkl Hsz Hback]. rewrite decide_False in Hsz by done.
        split; try done. intros j' x Hx Hx1. destruct (Hback j' x Hx Hx1) as [-> E]. split; [done|].
        simpl. rewrite zget_zset_ne; [done|]. intros <-. rewrite Hn in E. injection E as E.
        apply zget_Some_range in Hc'. lia.
    + by eapply idle_ok_conn.
Qed.

(** * Sizes *)

Lemma s32_small z : - 2 ^ 20 ≤ z ≤ 2 ^ 20 → s32 z = z.
Proof. intros. apply s32_id. unfold is_s32. lia. Qed.

(** The sizes of the server and of connection [i] catch up. *)
Lemma lend_inv_resize d d' i c c' ks km a b : lend_inv d i ks km →
  zget (conns (session d)) i = Some (Some c) →
  conns (session d') = zset (conns (session d)) i (Some c') →
  conns_state (session d') = conns_state (session d) →
  rdma_remote (session d') = rdma_remote (session d) <| rm_size_gb ::= λ x, x + a |>
                               <| mapped_size ::= λ x, x + b |> →
  conn_index c' = conn_index c → sess_chunk_map c' = sess_chunk_map c →
  mapped_chunk_size c' = mapped_chunk_size c + b →
  len (buf (send_msg c')) = MAX_MR_SIZE_GB → len (rkey (send_msg c')) = MAX_MR_SIZE_GB →
  lend_inv d' i (ks + a) (km + b).
Proof.
  intros [H1 H2 H3 H4 H5 H6 H7 H8 H9 H10 H11 H12 H13] Hc Ec Es Er E1 E2 E3 E4 E5.
  split; rewrite ?Ec, ?Es, ?Er, ?len_zset; simpl; try done; try lia.
  - intros j k Hj Hk. destruct (H10 j k Hj Hk) as (Hm & c0 & Hc0 & Hs). split; [done|].
    rewrite zget_zset. case_decide as Hd; [|eauto]. destruct Hd as [<- _].
    rewrite Hc in Hc0. injection Hc0 as <-. exists c'. by rewrite E2.
  - intros j c0. rewrite zget_zset. case_decide as Hd.
    + destruct Hd as [<- _]. intros [= <-]. rewrite decide_True by done.
      destruct (H11 _ _ Hc) as [? ? ? ? Hsz ?]. rewrite decide_True in Hsz by done.
      split; rewrite ?E1, ?E2, ?E3; try done. lia.
    + intros Hc0. assert (j ≠ i) by (intros ->; apply Hd; eauto with zarr).
      rewrite decide_False by done. destruct (H11 _ _ Hc0) as [? ? ? ? Hsz ?].
      rewrite decide_False in Hsz by done. by split.
  - by eapply idle_ok_conn.
Qed.

Lemma lend_bounds d i ks km c : lend_inv d i ks km → zget (conns (session d)) i = Some (Some c) →
  0 ≤ mapped_size (rdma_remote (session d)) - km ≤ MAX_MR_SIZE_GB ∧
  0 ≤ rm_size_gb (rdma_remote (session d)) - ks ≤ MAX_MR_SIZE_GB ∧
  0 ≤ mapped_chunk_size c - km ≤ MAX_MR_SIZE_GB.
Proof.
  intros [H1 H2 H3 H4 H5 H6 H7 H8 H9 H10 H11 H12 H13] Hc. destruct (H11 _ _ Hc) as [? Hl ? ? Hsz ?].
  rewrite decide_True in Hsz by done.
  pose proof (count_le_len is_lent (conn_map (rdma_remote (session d)))).
  pose proof (count_le_len is_malloced (malloc_map (rdma_remote (session d)))).
  pose proof (count_le_len is_lent (sess_chunk_map c)).
  pose proof (count_nonneg is_lent (conn_map (rdma_remote (session d)))).
  pose proof (count_nonneg is_malloced (malloc_map (rdma_remote (session d)))).
  pose proof (count_nonneg is_lent (sess_chunk_map c)). lia.
Qed.

(** * Serving BIND_SINGLE *)

Section Serving.
Variable reg_mr : Z → option Z.

(** Chunk [j] is free, and no lower one is. *)
Definition first_lendable (m : rdma_remote_mem) (j : Z) : Prop :=
  zget (malloc_map m) j = Some CHUNK_MALLOCED ∧ zget (conn_map m) j = Some (-1) ∧
  ∀ k a b, 0 ≤ k < j → zget (malloc_map m) k = Some a → zget (conn_map m) k = Some b →
    a ≠ CHUNK_MALLOCED ∨ b ≠ -1.

Lemma lendable_at m j : 0 ≤ j < len (malloc_map m) → 0 ≤ j < len (conn_map m) →
  ∃ a b, zget (malloc_map m) j = Some a ∧ zget (conn_map m) j = Some b ∧
    lendable m j = Ok ((a =? CHUNK_MALLOCED) && (b =? -1)).
Proof.
  intros Ha Hb. destruct (zget_is_Some _ _ Ha) as [a Ea]. destruct (zget_is_Some _ _ Hb) as [b Eb].
  exists a, b. split_and!; try done. unfold lendable. by rewrite (rd_ok _ _ _ Ea), (rd_ok _ _ _ Eb).
Qed.

(** The search stops at the first free chunk. *)
Lemma lend_search d i c j region key : lend_inv d i 0 0 →
  zget (conns (session d)) i = Some (Some c) →
  first_lendable (rdma_remote (session d)) j →
  zget (region_list (rdma_remote (session d))) j = Some region → reg_mr region = Some key →
  for_upto_break MAX_MR_SIZE_GB (λ j d,
    let* free := lendable (rdma_remote (session d)) j in
    if free : bool then let* d := lend_chunk reg_mr d i j in Ok (Break d)
    else Ok (Next d)) d = Ok (Break (lent d i c j region key)).
Proof.
  intros Hinv Hc (Hm & Hn & Hlow) Hr Hk. pose proof max_mr_pos as Hmax.
  pose proof (li_malloc _ _ _ _ Hinv) as Lm. pose proof (li_map _ _ _ _ Hinv) as Lc.
  pose proof (zget_Some_range _ _ _ Hn) as Hj. rewrite Lc in Hj.
  match goal with |- for_upto_break _ ?b _ = _ =>
    destruct (for_upto_break_inv (λ k d', d' = d ∧ k ≤ j) (λ k d', d' = lent d i c j region key)
                b MAX_MR_SIZE_GB d) as ([d'|d'] & -> & Hout) end.
  - lia.
  - split; [done | lia].
  - intros k d' Hk' [-> Hle].
    destruct (lendable_at (rdma_remote (session d)) k) as (a & b & Ea & Eb & ->); [lia..|]. simpl.
    destruct (decide (k = j)) as [->|Hne].
    + rewrite Hm in Ea. rewrite Hn in Eb. injection Ea as <-. injection Eb as <-. simpl.
      destruct (lend_chunk_ok reg_mr d i c j region key 0 0) as [-> _]; try done.
      eexists. split; [done|]. done.
    + destruct (Hlow k a b) as [Ha|Hb]; [lia | done | done | |].
      * rewrite (proj2 (Z.eqb_neq _ _) Ha). eexists. split; [done|]. split; [done | lia].
      * rewrite (proj2 (Z.eqb_neq _ _) Hb), andb_false_r. eexists. split; [done|].
        split; [done | lia].
  - destruct Hout. lia.
  - destruct Hout as (_ & _ & ->). done.
Qed.

(** The message that offers chunk [j]. *)
Record offers (m : message) (select j region key : Z) : Prop := {
  of_type : type m = INFO_SINGLE;
  of_size : size_gb m = select;
  of_klen : len (rkey m) = MAX_MR_SIZE_GB;
  of_blen : len (buf m) = MAX_MR_SIZE_GB;
  of_keys : ∀ k, 0 ≤ k < MAX_MR_SIZE_GB →
    zget (rkey m) k = Some (if decide (k = j) then htonl (u32 key) else 0);
  of_addr : zget (buf m) j = Some (htonll (u64 region));
}.

Lemma send_single_mr_ok d i c select j region key : lend_inv d i 0 0 →
  zget (conns (session d)) i = Some (Some c) → connected c ≠ 0 →
  first_lendable (rdma_remote (session d)) j →
  zget (region_list (rdma_remote (session d))) j = Some region → reg_mr region = Some key →
  ∃ d' m, send_single_mr reg_mr d i select = Ok d' ∧ lend_inv d' i 0 0 ∧
    outbox d' = outbox d ++ [(i, m)] ∧ offers m select j region key ∧
    conn_map (rdma_remote (session d')) = zset (conn_map (rdma_remote (session d))) j i ∧
    malloc_map (rdma_remote (session d')) = malloc_map (rdma_remote (session d)) ∧
    ∃ c', zget (conns (session d')) i = Some (Some c').
Proof.
  intros Hinv Hc Hcon Hfl Hr Hk. pose proof max_mr_pos as Hmax.
  pose proof (lend_bounds _ _ _ _ _ Hinv Hc) as (Hb1 & _ & Hb2).
  pose proof (li_wf _ _ _ _ Hinv _ _ Hc) as [_ _ Hbl Hkl _ _].
  unfold send_single_mr. rewrite (with_conn_at _ _ _ _ Hc). cbn [res_bind].
  match goal with |- context [zset (conns _) i (Some ?c')] => set (c1 := c') end.
  set (d1 := d <| session ::= _ |>).
  assert (zget (conns (session d1)) i = Some (Some c1)) as Hc1
    by (apply zget_zset_eq; eauto with zarr).
  assert (len (rkey (send_msg c1)) = MAX_MR_SIZE_GB) as Hkl1.
  { unfold c1. simpl. rewrite <- Hkl. unfold len. by rewrite length_replicate. }
  assert (lend_inv d1 i 0 0) as Hinv1 by by apply (lend_inv_conn _ _ _ _ _ _ _ Hinv Hc).
  rewrite (lend_search d1 i c1 j region key) by done. cbn [res_bind ctl_state].
  destruct (lend_chunk_ok reg_mr d1 i c1 j region key 0 0) as [_ Hinv2]; try done; try by apply Hfl.
  set (d2 := lent d1 i c1 j region key) in *. set (c2 := lent_conn c1 j region key).
  assert (zget (conns (session d2)) i = Some (Some c2)) as Hc2
    by (apply zget_zset_eq; eauto with zarr).
  set (d3 := with_remote d2 _).
  rewrite (with_conn_at d3 _ c2 _ Hc2). cbn [res_bind].
  match goal with |- context [zset (conns _) i (Some ?c')] => set (c3 := c') end.
  set (d4 := d3 <| session ::= _ |>).
  assert (zget (conns (session d4)) i = Some (Some c3)) as Hc4
    by (apply zget_zset_eq; eauto with zarr).
  unfold send_message. rewrite (get_conn_at _ _ _ Hc4). cbn [res_bind].
  replace (connected c3) with (connected c) by done. rewrite (proj2 (Z.eqb_neq _ _) Hcon).
  eexists _, _. split; [done|]. split_and!; try done.
  - apply (lend_inv_resize d2 _ i c2 c3 0 (-1) 0 1); try done.
    + simpl. rewrite s32_small, Z.add_0_r by lia. done.
    + simpl. rewrite s32_small by lia. done.
    + simpl. by rewrite len_zset.
    + change (len (zset (rkey (send_msg c1)) j (htonl (u32 key))) = MAX_MR_SIZE_GB).
      by rewrite len_zset.
  - destruct Hfl as (_ & Hn & _). apply zget_Some_range in Hn.
    rewrite (li_map _ _ _ _ Hinv) in Hn. split; simpl; rewrite ?len_zset; try done.
    + intros k Hk'.
      change (zget (zset (rkey (send_msg c1)) j (htonl (u32 key))) k =
        Some (if decide (k = j) then htonl (u32 key) else 0)).
      rewrite zget_zset, Hkl1. destruct (decide (k = j)) as [->|Hne].
      * by rewrite decide_True.
      * rewrite decide_False by (intros [? _]; congruence). unfold c1. simpl.
        rewrite <- Hkl in Hk'. unfold len in Hk'.
        rewrite <- (Nat2Z.id (length _)). by apply zget_replicate.
    + apply zget_zset_eq. lia.
  - by exists c3.
Qed.

(** * Serving BIND *)

(** The free chunks have memory that can be registered. *)
Definition registrable (m : rdma_remote_mem) : Prop :=
  ∀ j region, zget (malloc_map m) j = Some CHUNK_MALLOCED → zget (conn_map m) j = Some (-1) →
    zget (region_list m) j = Some region → is_Some (reg_mr region).

(** Slot [j] of message [msg]: empty, or chunk [j], which was free in [m] and is lent to [i]
    in [m']. *)
Definition slot_offer (m m' : rdma_remote_mem) (i : Z) (msg : message) (j : Z) : Prop :=
  zget (rkey msg) j = Some 0 ∧ zget (conn_map m') j = zget (conn_map m) j ∨
  ∃ region key, zget (malloc_map m) j = Some CHUNK_MALLOCED ∧ zget (conn_map m) j = Some (-1) ∧
    zget (conn_map m') j = Some i ∧ zget (region_list m) j = Some region ∧ reg_mr region = Some key ∧
    zget (rkey msg) j = Some (htonl (u32 key)) ∧ zget (buf msg) j = Some (htonll (u64 region)).

(** [n] of the free chunks below [k] are lent to [i], starting from [d0]. *)
Record lending (d0 : daemon) (c0 : connection) (i k n : Z) (d : daemon) (c : connection) : Prop := {
  ln_inv : lend_inv d i 0 (- n);
  ln_conn : zget (conns (session d)) i = Some (Some c);
  ln_same : connected c = connected c0 ∧ size_gb (send_msg c) = size_gb (send_msg c0);
  ln_outbox : outbox d = outbox d0;
  ln_malloc : malloc_map (rdma_remote (session d)) = malloc_map (rdma_remote (session d0));
  ln_regions : region_list (rdma_remote (session d)) = region_list (rdma_remote (session d0));
  ln_size : rm_size_gb (rdma_remote (session d)) = rm_size_gb (rdma_remote (session d0));
  ln_mapped : mapped_size (rdma_remote (session d)) = mapped_size (rdma_remote (session d0));
  ln_below : ∀ j, 0 ≤ j < k → zget (malloc_map (rdma_remote (session d0))) j = Some CHUNK_MALLOCED →
    zget (conn_map (rdma_remote (session d))) j ≠ Some (-1);
  ln_above : ∀ j, k ≤ j → zget (conn_map (rdma_remote (session d))) j =
    zget (conn_map (rdma_remote (session d0))) j;
  ln_slots : ∀ j, 0 ≤ j < MAX_MR_SIZE_GB →
    slot_offer (rdma_remote (session d0)) (rdma_remote (session d)) i (send_msg c) j;
  ln_some : 0 < n → ∃ j, zget (conn_map (rdma_remote (session d))) j = Some i;
}.

Lemma lending_skip d0 c0 i k n d c : lending d0 c0 i k n d c →
  (zget (malloc_map (rdma_remote (session d))) k = Some CHUNK_MALLOCED →
   zget (conn_map (rdma_remote (session d))) k ≠ Some (-1)) → lending d0 c0 i (k + 1) n d c.
Proof.
  intros [H1 H2 H3 H4 H5 H6 H7 H8 H9 H10 H11 H12] Hk. split; try done.
  - intros j Hj. destruct (decide (j = k)) as [->|]; [by rewrite <- H5 | apply H9; lia].
  - intros j Hj. apply H10. lia.
Qed.

Lemma lending_lend d0 c0 i k n d c region key : lending d0 c0 i k n d c → 0 ≤ n →
  zget (malloc_map (rdma_remote (session d))) k = Some CHUNK_MALLOCED →
  zget (conn_map (rdma_remote (session d))) k = Some (-1) →
  zget (region_list (rdma_remote (session d))) k = Some region → reg_mr region = Some key →
  lend_chunk reg_mr d i k = Ok (lent d i c k region key) ∧
  lending d0 c0 i (k + 1) (n + 1) (lent d i c k region key) (lent_conn c k region key).
Proof.
  intros [H1 H2 H3 H4 H5 H6 H7 H8 H9 H10 H11 H12] Hn0 Hm Hn Hr Hk.
  destruct (lend_chunk_ok reg_mr d i c k region key 0 (- n)) as [E Hinv]; try done.
  pose proof (zget_Some_range _ _ _ Hn) as Hkr. pose proof (zget_Some_range _ _ _ H2) as Hi.
  pose proof (li_wf _ _ _ _ H1 _ _ H2) as [_ _ Hbl Hkl _ _].
  pose proof Hkr as Hkr'. rewrite (li_map _ _ _ _ H1) in Hkr'.
  split; [done|]. split; try done.
  - by replace (- (n + 1)) with (- n - 1) by lia.
  - simpl. by apply zget_zset_eq.
  - intros j Hj Hmj. simpl. rewrite zget_zset. case_decide as Hd.
    + intros [= ->]. lia.
    + apply H9; [|done]. assert (j ≠ k) by (intros ->; by destruct Hd). lia.
  - intros j Hj. simpl. rewrite zget_zset_ne by lia. apply H10. lia.
  - intros j Hj. unfold slot_offer. simpl. destruct (decide (j = k)) as [->|Hne].
    + right. exists region, key. rewrite !zget_zset_eq by lia.
      rewrite <- H5, <- H6, <- (H10 k) by lia. done.
    + rewrite !zget_zset_ne by done. apply (H11 j Hj).
  - intros _. exists k. simpl. by apply zget_zset_eq.
Qed.

(** As many chunks are lent as were asked for, when that many are free. *)
Lemma lend_many d i c size : lend_inv d i 0 0 → zget (conns (session d)) i = Some (Some c) →
  rkey (send_msg c) = replicate (length (rkey (send_msg c))) 0 →
  registrable (rdma_remote (session d)) →
  0 < size ≤ rm_size_gb (rdma_remote (session d)) - mapped_size (rdma_remote (session d)) →
  ∃ k n d' c', for_upto_break MAX_MR_SIZE_GB (λ k '(n, d),
    let* free := lendable (rdma_remote (session d)) k in
    if free : bool then
      let* d := lend_chunk reg_mr d i k in
      Ok (if n + 1 =? size then Break (n + 1, d) else Next (n + 1, d))
    else Ok (Next (n, d))) (0, d) = Ok (Break (n, d')) ∧ lending d c i k size d' c'.
Proof.
  intros Hinv Hc Hkeys Hreg Hsize. pose proof max_mr_pos as Hmax.
  match goal with |- context [for_upto_break _ ?b _] =>
    destruct (for_upto_break_inv
      (λ k st, 0 ≤ st.1 < size ∧ ∃ c', lending d c i k st.1 st.2 c')
      (λ k st, ∃ c', lending d c i (k + 1) size st.2 c')
      b MAX_MR_SIZE_GB (0, d)) as ([[n d']|[n d']] & E & Hout) end.
  - lia.
  - split; [simpl; lia|]. exists c. split; try done; [lia|].
    intros j Hj. left. split; [|done]. rewrite Hkeys.
    pose proof (li_wf _ _ _ _ Hinv _ _ Hc) as [_ _ _ Hkl _ _]. unfold len in Hkl.
    rewrite <- (Nat2Z.id (length _)). apply zget_replicate. lia.
  - intros k [n d'] Hk [Hn (c' & Hln)]. simpl in Hn, Hln. pose proof (ln_inv _ _ _ _ _ _ _ Hln) as Hi.
    destruct (lendable_at (rdma_remote (session d')) k) as (a & b & Ea & Eb & ->);
      [rewrite (li_malloc _ _ _ _ Hi); lia | rewrite (li_map _ _ _ _ Hi); lia|]. cbn [res_bind].
    destruct ((a =? CHUNK_MALLOCED) && (b =? -1)) eqn:Hab.
    + apply andb_true_iff in Hab as [->%Z.eqb_eq ->%Z.eqb_eq].
      destruct (zget_is_Some (region_list (rdma_remote (session d'))) k) as [region Hr];
        [rewrite (li_regions _ _ _ _ Hi); lia|].
      destruct (Hreg k region) as [key Hkey].
      { by rewrite <- (ln_malloc _ _ _ _ _ _ _ Hln). }
      { rewrite <- (ln_above _ _ _ _ _ _ _ Hln) by lia. done. }
      { by rewrite <- (ln_regions _ _ _ _ _ _ _ Hln). }
      destruct (lending_lend d c i k n d' c' region key) as [-> Hln']; try done; [lia|].
      cbn [res_bind]. eexists. split; [done|]. destruct (Z.eqb_spec (n + 1) size) as [<-|Hne].
      * by eexists.
      * simpl. split; [lia|]. by eexists.
    + eexists. split; [done|]. simpl. split; [done|]. exists c'. apply lending_skip; [done|].
      rewrite Ea, Eb. intros [= ->] [= ->]. done.
  - exfalso. destruct Hout as [Hn (c' & Hln)]. simpl in Hn, Hln.
    pose proof (ln_inv _ _ _ _ _ _ _ Hln) as Hi.
    pose proof (li_mapped _ _ _ _ Hi) as Hm. pose proof (li_size _ _ _ _ Hi) as Hz.
    assert (count is_malloced (malloc_map (rdma_remote (session d'))) =
            count is_lent (conn_map (rdma_remote (session d')))) as Ec.
    { apply count_pointwise; [by rewrite (li_malloc _ _ _ _ Hi), (li_map _ _ _ _ Hi)|].
      intros j x y Hx Hy. pose proof (zget_Some_range _ _ _ Hy) as Hj. rewrite (li_map _ _ _ _ Hi) in Hj.
      unfold is_malloced, is_lent. destruct (Z.eqb_spec x CHUNK_MALLOCED) as [->|Hx1].
      - destruct (Z.eqb_spec y (-1)) as [->|]; [|done].
        rewrite (ln_malloc _ _ _ _ _ _ _ Hln) in Hx. by destruct (ln_below _ _ _ _ _ _ _ Hln j Hj Hx).
      - destruct (Z.eqb_spec y (-1)) as [|Hy1]; [done|].
        destruct (li_lent _ _ _ _ Hi _ _ Hy Hy1) as [E1 _]. congruence. }
    rewrite (ln_size _ _ _ _ _ _ _ Hln) in Hz. rewrite (ln_mapped _ _ _ _ _ _ _ Hln) in Hm. lia.
  - destruct Hout as (k & _ & c' & Hln). exists (k + 1), n, d', c'. done.
Qed.

(** BIND: [size] free chunks are lent and offered. *)
Lemma send_mr_ok d i c size : lend_inv d i 0 0 →
  zget (conns (session d)) i = Some (Some c) → connected c ≠ 0 →
  registrable (rdma_remote (session d)) →
  0 < size ≤ rm_size_gb (rdma_remote (session d)) - mapped_size (rdma_remote (session d)) →
  ∃ d' m, send_mr reg_mr d i size = Ok d' ∧ lend_inv d' i 0 0 ∧
    outbox d' = outbox d ++ [(i, m)] ∧ type m = INFO ∧ size_gb m = size ∧
    (∀ j, 0 ≤ j < MAX_MR_SIZE_GB →
       slot_offer (rdma_remote (session d)) (rdma_remote (session d')) i m j) ∧
    mapped_size (rdma_remote (session d')) = mapped_size (rdma_remote (session d)) + size ∧
    (∃ j, zget (conn_map (rdma_remote (session d'))) j = Some i) ∧
    ∃ c', zget (conns (session d')) i = Some (Some c').
Proof.
  intros Hinv Hc Hcon Hreg Hsize. pose proof max_mr_pos as Hmax.
  pose proof (lend_bounds _ _ _ _ _ Hinv Hc) as (Hb1 & Hb3 & Hb2).
  pose proof (li_wf _ _ _ _ Hinv _ _ Hc) as [_ _ Hbl Hkl _ _].
  unfold send_mr. rewrite (with_conn_at _ _ _ _ Hc). cbn [res_bind].
  match goal with |- context [zset (conns _) i (Some ?c')] => set (c1 := c') end.
  set (d1 := d <| session ::= _ |>).
  assert (zget (conns (session d1)) i = Some (Some c1)) as Hc1
    by (apply zget_zset_eq; eauto with zarr).
  assert (len (rkey (send_msg c1)) = MAX_MR_SIZE_GB) as Hkl1.
  { unfold c1. simpl. rewrite <- Hkl. unfold len. by rewrite length_replicate. }
  assert (lend_inv d1 i 0 0) as Hinv1 by by apply (lend_inv_conn _ _ _ _ _ _ _ Hinv Hc).
  destruct (lend_many d1 i c1 size) as (k & n & d2 & c2 & -> & Hln); try done.
  { unfold c1. simpl. by rewrite length_replicate. }
  cbn [res_bind ctl_state snd].
  destruct Hln as [L1 L2 [L3 L3'] L4 L5 L6 L7 L8 _ _ L11 L12].
  pose proof (li_wf _ _ _ _ L1 _ _ L2) as [_ _ Hbl2 Hkl2 _ _].
  pose proof (lend_bounds _ _ _ _ _ L1 L2) as (Hb1' & _ & Hb2').
  set (d3 := with_remote d2 _).
  rewrite (with_conn_at d3 _ c2 _ L2). cbn [res_bind].
  match goal with |- context [zset (conns _) i (Some ?c')] => set (c3 := c') end.
  set (d4 := d3 <| session ::= _ |>).
  assert (zget (conns (session d4)) i = Some (Some c3)) as Hc4
    by (apply zget_zset_eq; eauto with zarr).
  unfold send_message. rewrite (get_conn_at _ _ _ Hc4). cbn [res_bind].
  change (connected c3) with (connected c2). rewrite L3. change (connected c1) with (connected c).
  rewrite (proj2 (Z.eqb_neq _ _) Hcon). eexists _, _. split; [done|]. split_and!.
  - replace 0 with (- size + size) at 2 by lia.
    apply (lend_inv_resize d2 _ i c2 c3 0 (- size) 0 size); try done.
    + simpl. rewrite s32_small, Z.add_0_r by lia. done.
    + simpl. rewrite s32_small by lia. done.
  - simpl. by rewrite L4.
  - done.
  - exact L3'.
  - exact L11.
  - simpl. rewrite L8. apply s32_small. change (mapped_size (rdma_remote (session d1))) with
      (mapped_size (rdma_remote (session d))). lia.
  - simpl. apply L12. lia.
  - by exists c3.
Qed.

(** With no free chunk the server still answers, without a key, and counts one more chunk
    lent than its maps say. *)
Lemma lend_search_none d i : lend_inv d i 0 0 →
  (∀ j, zget (malloc_map (rdma_remote (session d))) j = Some CHUNK_MALLOCED →
        zget (conn_map (rdma_remote (session d))) j ≠ Some (-1)) →
  for_upto_break MAX_MR_SIZE_GB (λ j d,
    let* free := lendable (rdma_remote (session d)) j in
    if free : bool then let* d := lend_chunk reg_mr d i j in Ok (Break d)
    else Ok (Next d)) d = Ok (Next d).
Proof.
  intros Hinv Hno. pose proof max_mr_pos as Hmax.
  pose proof (li_malloc _ _ _ _ Hinv) as Lm. pose proof (li_map _ _ _ _ Hinv) as Lc.
  match goal with |- for_upto_break _ ?b _ = _ =>
    destruct (for_upto_break_inv (λ k d', d' = d) (λ _ _, False) b MAX_MR_SIZE_GB d)
      as ([d'|d'] & -> & Hout) end; [lia | done | | by subst | by destruct Hout as (? & _ & [])].
  intros k d' Hk ->.
  destruct (lendable_at (rdma_remote (session d)) k) as (a & b & Ea & Eb & ->); [lia..|]. simpl.
  destruct (Z.eqb_spec a CHUNK_MALLOCED) as [->|]; [|by eexists].
  destruct (Z.eqb_spec b (-1)) as [->|]; [by apply Hno in Ea | by eexists].
Qed.

End Serving.

(** * Serving DONE *)

Definition returned (d : daemon) (i : Z) (c : connection) (j : Z) : daemon :=
  d <| session ::= λ s, s
         <| rdma_remote ::= λ m, m <| conn_map := zset (conn_map m) j (-1) |>
                                   <| malloc_map := zset (malloc_map m) j CHUNK_EMPTY |>
                                   <| conn_chunk_map := zset (conn_chunk_map m) j (-1) |> |>
         <| conns := zset (conns s) i
              (Some (c <| sess_chunk_map := zset (sess_chunk_map c) j (-1) |>)) |> |>.

Lemma returned_inv d i c j x ks km : lend_inv d i ks km →
  zget (conns (session d)) i = Some (Some c) → zget (sess_chunk_map c) j = Some x → x ≠ -1 →
  x = j ∧ lend_inv (returned d i c j) i (ks + 1) (km + 1).
Proof.
  intros Hinv Hc Hx Hne. pose proof (li_wf _ _ _ _ Hinv _ _ Hc) as Hcw.
  rewrite decide_True in Hcw by done.
  destruct (cn_back _ _ _ _ Hcw j x Hx Hne) as [-> Hn]. split; [done|].
  pose proof (zget_Some_range _ _ _ Hc) as Hir.
  pose proof (zget_Some_range _ _ _ Hn) as Hj. rewrite (li_map _ _ _ _ Hinv) in Hj.
  assert (i ≠ -1) as Hi by lia.
  destruct (li_lent _ _ _ _ Hinv j i Hn Hi) as [Hm _].
  destruct Hinv as [H1 H2 H3 H4 H5 H6 H7 H8 H9 H10 H11 H12 H13].
  split; simpl; rewrite ?len_zset; try done.
  - rewrite (count_free _ _ Hm). lia.
  - rewrite (count_unlend _ _ _ Hn Hi). lia.
  - intros j' i'. rewrite zget_zset. case_decide as Hd; [by intros [= <-] ?|].
    assert (j' ≠ j) by (intros ->; apply Hd; lia). intros Hj' Hne'.
    rewrite zget_zset_ne by done. destruct (H10 j' i' Hj' Hne') as (? & c' & Hc' & Hs').
    split; [done|]. rewrite zget_zset. case_decide as Hd'; [|eauto]. destruct Hd' as [<- _].
    rewrite Hc in Hc'. injection Hc' as <-. eexists. split; [done|]. simpl.
    by rewrite zget_zset_ne.
  - intros i' c'. rewrite zget_zset. case_decide as Hd.
    + destruct Hd as [<- _]. intros [= <-]. rewrite decide_True by done.
      destruct Hcw as [E1 E2 E3 E4 E5 E6]. split; simpl; rewrite ?len_zset; try done.
      * rewrite (count_unlend _ _ _ Hx Hne). lia.
      * intros j' y. rewrite !zget_zset. case_decide as Hd; [by intros [= <-] ?|].
        intros Hy Hy1. destruct (E6 j' y Hy Hy1) as [-> E]. split; [done|].
        rewrite decide_False; [done|]. intros [<- _]. apply Hd. eauto with zarr.
    + intros Hc'. assert (i' ≠ i) as Hnei by (intros ->; tauto). rewrite decide_False by done.
      destruct (H11 _ _ Hc') as [E1 E2 E3 E4 E5 E6]. rewrite decide_False in E5 by done.
      split; try done. intros j' y Hy Hy1. destruct (E6 j' y Hy Hy1) as [-> E]. split; [done|].
      simpl. rewrite zget_zset_ne; [done|]. intros <-. rewrite Hn in E. by injection E.
  - by eapply idle_ok_conn.
  - apply Forall_zset; [done | by left].
Qed.

Definition set_key (k : Z) : bool := negb (k =? 0).

(** Slot [k] is among the first [n] and passes the test. *)
Definition gives (f : Z → bool) (keys : list Z) (n k : Z) : bool :=
  (0 <=? k) && (k <? n) && match zget keys k with Some x => f x | None => false end.

Lemma gives_step f keys n k x : zget keys n = Some x →
  gives f keys (n + 1) k = if decide (k = n) then f x else gives f keys n k.
Proof.
  intros H. pose proof (zget_Some_range _ _ _ H). unfold gives. case_decide as Hd.
  - subst k. rewrite H, (proj2 (Z.leb_le 0 n)), (proj2 (Z.ltb_lt n (n + 1))) by lia. done.
  - replace (k <? n + 1) with (k <? n); [done|].
    destruct (Z.ltb_spec k n), (Z.ltb_spec k (n + 1)); lia.
Qed.

Lemma gives_0 f keys k : gives f keys 0 k = false.
Proof. unfold gives. by destruct (Z.leb_spec 0 k), (Z.ltb_spec k 0); try lia. Qed.

Lemma gives_self f keys n : gives f keys n n = false.
Proof. unfold gives. rewrite (proj2 (Z.ltb_ge n n)) by lia. by rewrite andb_false_r. Qed.

Record done_upto (d : daemon) (i : Z) (c : connection) (keys : list Z) (n : Z) (d' : daemon) : Prop := {
  du_conn : ∃ sm, conns (session d') = zset (conns (session d)) i (Some (c <| sess_chunk_map := sm |>)) ∧
    ∀ k, n ≤ k → zget sm k = zget (sess_chunk_map c) k;
  du_inv : lend_inv d' i (count set_key (take (Z.to_nat n) keys))
             (count set_key (take (Z.to_nat n) keys));
  du_map : ∀ k, zget (conn_map (rdma_remote (session d'))) k =
    if gives set_key keys n k then Some (-1) else zget (conn_map (rdma_remote (session d))) k;
  du_malloc : ∀ k, zget (malloc_map (rdma_remote (session d'))) k =
    if gives set_key keys n k then Some CHUNK_EMPTY else zget (malloc_map (rdma_remote (session d))) k;
  du_out : outbox d' = outbox d;
  du_states : conns_state (session d') = conns_state (session d);
  du_size : rm_size_gb (rdma_remote (session d')) = rm_size_gb (rdma_remote (session d));
  du_mapped : mapped_size (rdma_remote (session d')) = mapped_size (rdma_remote (session d));
}.

(** A client gives back chunks it was lent. *)
Definition done_ok (c : connection) : Prop :=
  len (rkey (recv_msg c)) = MAX_MR_SIZE_GB ∧
  size_gb (recv_msg c) = count set_key (rkey (recv_msg c)) ∧
  ∀ j, gives set_key (rkey (recv_msg c)) MAX_MR_SIZE_GB j = true →
    ∃ x, zget (sess_chunk_map c) j = Some x ∧ x ≠ -1.

Lemma done_step d i c n x d' : zget (conns (session d)) i = Some (Some c) →
  zget (rkey (recv_msg c)) n = Some x → set_key x = true → done_ok c → n < MAX_MR_SIZE_GB →
  done_upto d i c (rkey (recv_msg c)) n d' →
  ∃ c', get_conn d' i = Ok c' ∧ zget (sess_chunk_map c') n = Some n ∧
    done_upto d i c (rkey (recv_msg c)) (n + 1) (returned d' i c' n) ∧
    zget (conns (session d')) i = Some (Some c').
Proof.
  intros Hc Hx Hk (Hkl & Hsz & Hok) Hn [(sm & Ec & Hsm) Hinv Hm Hmm Ho Hst Hsg Hmg].
  pose proof (zget_Some_range _ _ _ Hx) as Hr.
  set (c' := c <| sess_chunk_map := sm |>).
  assert (zget (conns (session d')) i = Some (Some c')) as Hc'
    by (rewrite Ec; apply zget_zset_eq; eauto with zarr).
  destruct (Hok n) as (y & Hy & Hne).
  { unfold gives. rewrite Hx, Hk, (proj2 (Z.leb_le _ _)), (proj2 (Z.ltb_lt _ _)) by lia. done. }
  assert (zget (sess_chunk_map c') n = Some y) as Hy' by (simpl; rewrite Hsm by lia; done).
  destruct (returned_inv _ _ _ _ _ _ _ Hinv Hc' Hy' Hne) as [-> Hinv'].
  exists c'. split_and!; [by apply get_conn_at | done | | done]. split; simpl.
  - exists (zset sm n (-1)). rewrite Ec, zset_zset. split; [done|]. intros k Hk'.
    rewrite zget_zset_ne by lia. apply Hsm. lia.
  - rewrite (count_take _ _ _ _ Hx), Hk. exact Hinv'.
  - intros k. rewrite (gives_step _ _ _ _ _ Hx), Hk. case_decide as Hd.
    + subst k. apply zget_zset_eq. rewrite (li_map _ _ _ _ Hinv). lia.
    + rewrite zget_zset_ne by done. apply Hm.
  - intros k. rewrite (gives_step _ _ _ _ _ Hx), Hk. case_decide as Hd.
    + subst k. apply zget_zset_eq. rewrite (li_malloc _ _ _ _ Hinv). lia.
    + rewrite zget_zset_ne by done. apply Hmm.
  - done.
  - done.
  - done.
  - done.
Qed.

Lemma done_skip d i c n x d' : zget (rkey (recv_msg c)) n = Some x → set_key x = false →
  done_upto d i c (rkey (recv_msg c)) n d' → done_upto d i c (rkey (recv_msg c)) (n + 1) d'.
Proof.
  intros Hx Hk [(sm & Ec & Hsm) Hinv Hm Hmm Ho Hst Hsg Hmg].
  assert (∀ k, gives set_key (rkey (recv_msg c)) (n + 1) k = gives set_key (rkey (recv_msg c)) n k) as Hg.
  { intros k. rewrite (gives_step _ _ _ _ _ Hx), Hk. case_decide as Hd; [|done].
    subst. by rewrite gives_self. }
  split; try done.
  - exists sm. split; [done|]. intros k Hk'. apply Hsm. lia.
  - rewrite (count_take _ _ _ _ Hx), Hk, Z.add_0_r. done.
  - intros k. rewrite Hg. apply Hm.
  - intros k. rewrite Hg. apply Hmm.
Qed.

Lemma drop_chunk_ok d i c n d' : zget (conns (session d)) i = Some (Some c) → done_ok c →
  0 ≤ n < MAX_MR_SIZE_GB → done_upto d i c (rkey (recv_msg c)) n d' →
  ∃ d2, drop_chunk i (rkey (recv_msg c)) n d' = Ok d2 ∧
    done_upto d i c (rkey (recv_msg c)) (n + 1) d2.
Proof.
  intros Hc Hok Hn Hdu. pose proof Hok as (Hkl & _ & _).
  destruct (zget_is_Some (rkey (recv_msg c)) n) as [x Hx]; [lia|].
  unfold drop_chunk. rewrite (rd_ok _ _ _ Hx). cbn [res_bind]. destruct (set_key x) eqn:Hk.
  - destruct (done_step d i c n x d' Hc Hx Hk Hok) as (c' & -> & Hy & Hdu' & Hc'); [lia | done|].
    pose proof (du_inv _ _ _ _ _ _ Hdu) as Hi'. pose proof (li_wf _ _ _ _ Hi' _ _ Hc') as [].
    apply negb_true_iff in Hk. rewrite Hk. cbn [res_bind].
    rewrite (rd_ok _ _ _ Hy). cbn [res_bind]. rewrite wr_ok by lia. cbn [res_bind].
    destruct (zget_is_Some (mr_list (rdma_remote (session d'))) n) as [mr Hmr];
      [rewrite (li_mrs _ _ _ _ Hi'); lia|].
    rewrite (rd_ok _ _ _ Hmr). cbn [res_bind].
    rewrite wr_ok by (rewrite (li_map _ _ _ _ Hi'); lia). cbn [res_bind].
    rewrite wr_ok by (rewrite (li_malloc _ _ _ _ Hi'); lia). cbn [res_bind].
    rewrite wr_ok by (rewrite (li_chunks _ _ _ _ Hi'); lia). cbn [res_bind].
    erewrite put_conn_at by exact Hc'. eexists. split; [done|]. exact Hdu'.
  - exists d'. apply negb_false_iff in Hk as Hk'. rewrite Hk'. split; [done|]. by eapply done_skip.
Qed.

Lemma drop_loop_ok d i c : lend_inv d i 0 0 → zget (conns (session d)) i = Some (Some c) →
  done_ok c →
  ∃ d', for_upto MAX_MR_SIZE_GB (drop_chunk i (rkey (recv_msg c))) d = Ok d' ∧
    done_upto d i c (rkey (recv_msg c)) MAX_MR_SIZE_GB d'.
Proof.
  intros Hinv Hc Hok. pose proof max_mr_pos as Hmax. apply for_upto_inv; [lia | |].
  - split; try done.
    + exists (sess_chunk_map c). split; [|done]. rewrite zset_id; [done|]. rewrite Hc. by destruct c.
    + intros k. by rewrite gives_0.
    + intros k. by rewrite gives_0.
  - intros n d' Hn Hdu. by apply drop_chunk_ok.
Qed.

(** What DONE does besides: one connection changes, its state with its last chunk, and the
    server has that much less memory. *)
Record done_frame (d : daemon) (i : Z) (c : connection) (d' : daemon) (c' : connection) : Prop := {
  df_conns : conns (session d') = zset (conns (session d)) i (Some c');
  df_states : conns_state (session d') =
    if mapped_chunk_size c' =? 0 then zset (conns_state (session d)) i CONN_CONNECTED
    else conns_state (session d);
  df_connected : connected c' = connected c;
  df_mapped : mapped_chunk_size c' = mapped_chunk_size c - size_gb (recv_msg c);
  df_size : rm_size_gb (rdma_remote (session d')) =
    rm_size_gb (rdma_remote (session d)) - size_gb (recv_msg c);
  df_lent : mapped_size (rdma_remote (session d')) =
    mapped_size (rdma_remote (session d)) - size_gb (recv_msg c);
}.

(** DONE: the chunks named are free again, the accounts balance, [stop_sem] is posted. *)
Lemma recv_done_ok d i c : lend_inv d i 0 0 → zget (conns (session d)) i = Some (Some c) →
  done_ok c →
  ∃ d' c', recv_done d i = Ok d' ∧ lend_inv d' i 0 0 ∧
    zget (conns (session d')) i = Some (Some c') ∧ stop_sem c' = stop_sem c + 1 ∧
    outbox d' = outbox d ∧ done_frame d i c d' c' ∧
    ∀ k, 0 ≤ k < MAX_MR_SIZE_GB →
      zget (conn_map (rdma_remote (session d'))) k =
        (if gives set_key (rkey (recv_msg c)) MAX_MR_SIZE_GB k then Some (-1)
         else zget (conn_map (rdma_remote (session d))) k) ∧
      zget (malloc_map (rdma_remote (session d'))) k =
        (if gives set_key (rkey (recv_msg c)) MAX_MR_SIZE_GB k then Some CHUNK_EMPTY
         else zget (malloc_map (rdma_remote (session d))) k).
Proof.
  intros Hinv Hc Hok. pose proof max_mr_pos as Hmax. pose proof Hok as (Hkl & Hsz & _).
  unfold recv_done. rewrite (get_conn_at _ _ _ Hc). cbn [res_bind].
  destruct (drop_loop_ok d i c Hinv Hc Hok) as (d1 & E1 & Hd1).
  rewrite E1. cbn [res_bind]. destruct Hd1 as [(sm & Ec & _) Hinv1 Hm Hmm Ho Hst Hsg Hmg].
  rewrite <- Hkl in Hinv1. unfold len in Hinv1. rewrite Nat2Z.id, firstn_all in Hinv1.
  rewrite <- Hsz in Hinv1. set (q := size_gb (recv_msg c)) in *.
  set (c1 := c <| sess_chunk_map := sm |>) in *.
  assert (zget (conns (session d1)) i = Some (Some c1)) as Hc1
    by (rewrite Ec; apply zget_zset_eq; eauto with zarr).
  destruct (lend_bounds _ _ _ _ _ Hinv1 Hc1) as (B1 & B2 & B3).
  set (d2 := with_remote d1 _). rewrite (with_conn_at d2 _ c1 _ Hc1). cbn [res_bind].
  match goal with |- context [zset (conns _) i (Some ?c')] => set (c3 := c') end.
  set (d3 := d2 <| session ::= _ |>).
  assert (zget (conns (session d3)) i = Some (Some c3)) as Hc3
    by (apply zget_zset_eq; eauto with zarr).
  rewrite (get_conn_at _ _ _ Hc3). cbn [res_bind].
  pose proof (li_wf _ _ _ _ Hinv1 _ _ Hc1) as [Hix _ Hbl Hkl' _ _].
  assert (lend_inv d3 i 0 0) as Hinv3.
  { replace 0 with (q + - q) by lia. apply (lend_inv_resize d1 _ i c1 c3); try done.
    - simpl. rewrite !s32_small by lia. done.
    - simpl. rewrite s32_small by (simpl in B3; lia). done. }
  assert (rm_size_gb (rdma_remote (session d3)) = rm_size_gb (rdma_remote (session d)) - q) as Hsize
    by (simpl; rewrite s32_small, Hsg by lia; done).
  assert (mapped_size (rdma_remote (session d3)) = mapped_size (rdma_remote (session d)) - q) as Hlent
    by (simpl; rewrite s32_small, Hmg by lia; done).
  assert (conns (session d3) = zset (conns (session d)) i (Some c3)) as Hconns
    by (simpl; by rewrite Ec, zset_zset).
  assert (mapped_chunk_size c3 = mapped_chunk_size c - q) as Hmc
    by (simpl; rewrite s32_small by (simpl in B3; lia); done).
  destruct (mapped_chunk_size c3 =? 0) eqn:Hz.
  - change (conn_index c3) with (conn_index c1). rewrite Hix.
    destruct (set_conn_state_ok d3 i 0 0 i c3 CONN_CONNECTED Hinv3 Hc3) as (d4 & -> & Hinv4 & ->);
      [done|].
    eexists _, c3. split; [done|]. split_and!; try done. split; try done. rewrite Hz. simpl. by rewrite Hst.
  - exists d3, c3. split_and!; try done. split; try done. by rewrite Hz.
Qed.

(** * A connection that goes away *)

Record unlent_upto (sm cm : list Z) (n : Z) (cm' : list Z) : Prop := {
  uu_len : len cm' = len cm;
  uu_at : ∀ k, zget cm' k = if gives is_lent sm n k then Some (-1) else zget cm k;
  uu_count : count is_lent cm' = count is_lent cm - count is_lent (take (Z.to_nat n) sm);
}.

Lemma unlent_0 sm cm : unlent_upto sm cm 0 cm.
Proof. split; [done | intros k; by rewrite gives_0 | change (count is_lent (take _ sm)) with 0; lia]. Qed.

Lemma unlent_skip sm cm n cm' : zget sm n = Some (-1) → unlent_upto sm cm n cm' →
  unlent_upto sm cm (n + 1) cm'.
Proof.
  intros Hn [H1 H2 H3]. split; [done | |].
  - intros k. rewrite (gives_step _ _ _ _ _ Hn), H2. case_decide as Hd; [|done].
    subst. by rewrite gives_self.
  - rewrite (count_take _ _ _ _ Hn). simpl. lia.
Qed.

Lemma unlent_step sm cm n cm' x : zget sm n = Some n → n ≠ -1 → zget cm n = Some x → x ≠ -1 →
  unlent_upto sm cm n cm' → unlent_upto sm cm (n + 1) (zset cm' n (-1)).
Proof.
  intros Hn Hne Hx Hx1 [H1 H2 H3].
  assert (is_lent n = true) as Hl by (apply negb_true_iff, Z.eqb_neq; done).
  assert (zget cm' n = Some x) as Hx' by (by rewrite H2, gives_self).
  split; [by rewrite len_zset | |].
  - intros k. rewrite (gives_step _ _ _ _ _ Hn), Hl. case_decide as Hd.
    + subst. apply zget_zset_eq. eauto with zarr.
    + rewrite zget_zset_ne by done. apply H2.
  - rewrite (count_unlend _ _ _ Hx' Hx1), (count_take _ _ _ _ Hn), Hl. lia.
Qed.

(** Connection [i] is gone and [cm] is what is left of the map of lent chunks. *)
Definition gone (d : daemon) (i : Z) (c : connection) (cm cc : list Z) : daemon :=
  d <| session ::= λ s, s
         <| rdma_remote ::= λ m, m <| conn_map := cm |> <| conn_chunk_map := cc |>
              <| mapped_size := mapped_size m - mapped_chunk_size c |> |>
         <| conns := zset (conns s) i None |>
         <| conns_state := zset (conns_state s) i CONN_IDLE |> |>.

Lemma gone_inv d i c cm cc : lend_inv d i 0 0 → zget (conns (session d)) i = Some (Some c) →
  unlent_upto (sess_chunk_map c) (conn_map (rdma_remote (session d))) MAX_MR_SIZE_GB cm →
  len cc = MAX_MR_SIZE_GB → accounts (gone d i c cm cc).
Proof.
  intros Hinv Hc [U1 U2 U3] Hcc. pose proof (li_wf _ _ _ _ Hinv _ _ Hc) as Hcw.
  rewrite decide_True in Hcw by done. pose proof (zget_Some_range _ _ _ Hc) as Hir.
  destruct Hinv as [H1 H2 H3 H4 H5 H6 H7 H8 H9 H10 H11 H12 H13].
  rewrite <- (cn_map _ _ _ _ Hcw) in U3. unfold len in U3. rewrite Nat2Z.id, firstn_all in U3.
  assert (∀ j i', zget (conn_map (rdma_remote (session d))) j = Some i' → i' ≠ i → i' ≠ -1 →
    zget cm j = Some i') as Hkeep.
  { intros j i' Hj Hne Hne1. rewrite U2. unfold gives.
    destruct (zget (sess_chunk_map c) j) as [x|] eqn:Hx; [|by rewrite andb_false_r].
    destruct (Z.eqb_spec x (-1)) as [->|Hx1]; [by rewrite andb_false_r|].
    destruct (cn_back _ _ _ _ Hcw j x Hx Hx1) as [_ E]. congruence. }
  split; simpl; rewrite ?len_zset; try done.
  - by rewrite U1.
  - rewrite U3, (cn_size _ _ _ _ Hcw). lia.
  - intros j i' Hj Hne. rewrite U2 in Hj. destruct (gives _ _ _ j) eqn:Hg; [by injection Hj as <-|].
    destruct (H10 j i' Hj Hne) as (Hm & c' & Hc' & Hs'). split; [done|]. exists c'.
    split; [|done]. rewrite zget_zset_ne; [done|]. intros <-. rewrite Hc in Hc'.
    injection Hc' as <-. pose proof (zget_Some_range _ _ _ Hs') as Hjr.
    rewrite (cn_map _ _ _ _ Hcw) in Hjr. unfold gives in Hg. rewrite Hs' in Hg.
    unfold is_lent in Hg. destruct (Z.eqb_spec j (-1)); lia.
  - intros i' c'. rewrite zget_zset. case_decide as Hd; [done|]. intros Hc'.
    assert (i' ≠ i) as Hne by (intros ->; tauto). destruct (H11 _ _ Hc') as [E1 E2 E3 E4 E5 E6].
    rewrite decide_False in E5 by done. split; try done.
    + rewrite E5. by case_decide.
    + intros j x Hx Hx1. destruct (E6 j x Hx Hx1) as [-> E]. split; [done|].
      apply Hkeep; [done | done |]. apply zget_Some_range in Hc'. lia.
  - intros k. simpl. rewrite !zget_zset. destruct (decide (i = k)) as [<-|Hne].
    + by rewrite (decide_True (P := i = i ∧ 0 ≤ i < len (conns (session d)))).
    + rewrite !decide_False by tauto. apply H12.
Qed.

Lemma lend_inv_frame d d' i ks km : conns (session d') = conns (session d) →
  conns_state (session d') = conns_state (session d) →
  rdma_remote (session d') = rdma_remote (session d) → lend_inv d i ks km → lend_inv d' i ks km.
Proof. intros E1 E2 E3 []. split; unfold idle_ok; rewrite ?E1, ?E2, ?E3; done. Qed.

Lemma unlend_loop_ok d i c : lend_inv d i 0 0 → zget (conns (session d)) i = Some (Some c) →
  ∃ cm cc, for_upto MAX_MR_SIZE_GB (unlend_chunk (sess_chunk_map c)) d =
      Ok (with_remote d (λ m, m <| conn_map := cm |> <| conn_chunk_map := cc |>)) ∧
    unlent_upto (sess_chunk_map c) (conn_map (rdma_remote (session d))) MAX_MR_SIZE_GB cm ∧
    len cc = MAX_MR_SIZE_GB.
Proof.
  intros Hinv Hc. pose proof max_mr_pos as Hmax. pose proof (li_wf _ _ _ _ Hinv _ _ Hc) as Hcw.
  pose proof (zget_Some_range _ _ _ Hc) as Hir.
  destruct (for_upto_inv (λ n d', ∃ cm cc,
      d' = with_remote d (λ m, m <| conn_map := cm |> <| conn_chunk_map := cc |>) ∧
      unlent_upto (sess_chunk_map c) (conn_map (rdma_remote (session d))) n cm ∧
      len cc = MAX_MR_SIZE_GB) (unlend_chunk (sess_chunk_map c)) MAX_MR_SIZE_GB d)
    as (d' & -> & cm & cc & -> & Hu & Hl); [lia | | |eauto 10].
  - eexists _, _. split_and!; [|apply unlent_0 | apply (li_chunks _ _ _ _ Hinv)].
    destruct d as [[? ? ? []] ? ?]. done.
  - intros n d' Hn (cm & cc & -> & Hu & Hl).
    destruct (zget_is_Some (sess_chunk_map c) n) as [x Hx]; [rewrite (cn_map _ _ _ _ Hcw); lia|].
    unfold unlend_chunk. rewrite (rd_ok _ _ _ Hx). cbn [res_bind].
    destruct (Z.eqb_spec x (-1)) as [->|Hne].
    + eexists. split; [done|]. exists cm, cc. split_and!; [done | by apply unlent_skip | done].
    + destruct (cn_back _ _ _ _ Hcw n x Hx Hne) as [-> E].
      rewrite wr_ok by (simpl; rewrite (uu_len _ _ _ _ Hu), (li_map _ _ _ _ Hinv); lia).
      cbn [res_bind]. rewrite wr_ok by (simpl; lia). cbn [res_bind].
      eexists. split; [done|]. eexists _, _. split_and!; [done | | by rewrite len_zset].
      eapply unlent_step; [done | done | done | lia | done].
Qed.

Lemma count_zero l k x : count is_lent l = 0 → zget l k = Some x → x = -1.
Proof.
  intros H Hk. destruct (decide (x = -1)) as [|Hne]; [done|].
  pose proof (count_unlend _ _ _ Hk Hne). pose proof (count_nonneg is_lent (zset l k (-1))). lia.
Qed.

Lemma unlend_chunks_ok d i c : lend_inv d i 0 0 → zget (conns (session d)) i = Some (Some c) →
  ∃ cm cc, unlend_chunks d c = Ok (with_remote d (λ m, m <| conn_map := cm |>
      <| conn_chunk_map := cc |> <| mapped_size := mapped_size m - mapped_chunk_size c |>)) ∧
    unlent_upto (sess_chunk_map c) (conn_map (rdma_remote (session d))) MAX_MR_SIZE_GB cm ∧
    len cc = MAX_MR_SIZE_GB.
Proof.
  intros Hinv Hc. pose proof max_mr_pos as Hmax. pose proof (li_wf _ _ _ _ Hinv _ _ Hc) as Hcw.
  rewrite decide_True in Hcw by done. unfold unlend_chunks.
  destruct (lend_bounds _ _ _ _ _ Hinv Hc) as (B1 & B2 & B3).
  destruct (Z.ltb_spec 0 (mapped_chunk_size c)) as [Hp|Hz].
  - destruct (unlend_loop_ok d i c Hinv Hc) as (cm & cc & -> & Hu & Hl).
    exists cm, cc. split_and!; try done. cbn [res_bind].
    unfold with_remote. simpl. rewrite s32_small by lia. done.
  - exists (conn_map (rdma_remote (session d))), (conn_chunk_map (rdma_remote (session d))).
    split_and!; [| |apply (li_chunks _ _ _ _ Hinv)].
    + replace (mapped_chunk_size c) with 0 by lia. destruct d as [[? ? ? []] ? ?].
      unfold with_remote. simpl. by rewrite Z.sub_0_r.
    + assert (count is_lent (sess_chunk_map c) = 0) as H0.
      { rewrite (cn_size _ _ _ _ Hcw) in *. lia. }
      rewrite <- (cn_map _ _ _ _ Hcw). split; [done | |].
      * intros k. unfold gives. destruct (zget (sess_chunk_map c) k) as [x|] eqn:Hx;
          [|by rewrite andb_false_r].
        rewrite (count_zero _ _ _ H0 Hx). by rewrite andb_false_r.
      * unfold len. rewrite Nat2Z.id, firstn_all, H0. lia.
Qed.

(** A connection that goes away leaves the accounts balanced. *)
Lemma destroy_connection_ok d i c : lend_inv d i 0 0 →
  zget (conns (session d)) i = Some (Some c) →
  ∃ d', destroy_connection d i = Ok d' ∧ accounts d' ∧
    conns (session d') = zset (conns (session d)) i None ∧
    conns_state (session d') = zset (conns_state (session d)) i CONN_IDLE ∧
    (∀ j, zget (conn_map (rdma_remote (session d'))) j ≠ Some i) ∧
    conn_num (session d') = s32 (conn_num (session d) - 1) ∧
    running d' = (if conn_num (session d') =? 0 then 0 else running d).
Proof.
  intros Hinv Hc. pose proof (li_wf _ _ _ _ Hinv _ _ Hc) as Hcw.
  pose proof (zget_Some_range _ _ _ Hc) as Hir. pose proof (li_conns _ _ _ _ Hinv) as Lc.
  pose proof (li_states _ _ _ _ Hinv) as Ls.
  destruct (unlend_chunks_ok d i c Hinv Hc) as (cm & cc & E & Hu & Hl).
  pose proof (gone_inv d i c cm cc Hinv Hc Hu Hl) as Hg.
  unfold destroy_connection. rewrite (get_conn_at _ _ _ Hc). cbn [res_bind]. rewrite E.
  cbn [res_bind]. rewrite (cn_index _ _ _ _ Hcw), wr_ok by done. cbn [res_bind].
  unfold set_conn_state. rewrite wr_ok by (simpl; lia). cbn [res_bind].
  eexists. split; [done|]. match goal with |- accounts ?d2 ∧ _ => set (d' := d2) end.
  assert (session d' = session (gone d i c cm cc) <| conn_num := s32 (conn_num (session d) - 1) |>)
    as Es by (unfold d'; destruct (_ =? 0); done).
  assert (accounts d') as Ha by (eapply lend_inv_frame; [..|exact Hg]; by rewrite Es).
  split_and!; [done | by rewrite Es | by rewrite Es | | by rewrite Es |].
  - intros j Hj. destruct (li_lent _ _ _ _ Ha j i Hj) as (_ & c' & Hc' & _); [lia|].
    rewrite Es in Hc'. simpl in Hc'. by rewrite zget_zset_eq in Hc'.
  - rewrite Es. unfold d'. simpl. by destruct (_ =? 0).
Qed.
End DaemonInv.
