(* ===== verification/DaemonSteps.v ===== *)
(** The memory server at work: its start, every event of the connection manager and every
    completion it handles keep the accounts of [DaemonInv] balanced and never fault. *)

From Stdlib Require Import ZArith Lia.
From stdpp Require Import base tactics list numbers option.
From S2P Require Import Prelude Types ByteOrder Daemon DaemonInv.

Section DaemonSteps.
Context `{C : Config} `{D : DaemonConfig}.
Variable malloc_addr : Z → Z.
Variable reg_mr : Z → option Z.

(** * Start *)

Lemma count_replicate {A} (f : A → bool) n x : f x = false → count f (replicate n x) = 0.
Proof.
  intros Hf. induction n as [|n IH]; [done|]. cbn [replicate]. rewrite count_cons, Hf, IH. done.
Qed.

Lemma initial_size_range kb : 0 ≤ kb < 2 ^ 50 → 0 ≤ initial_size kb ≤ MAX_MR_SIZE_GB.
Proof.
  intros Hkb. unfold initial_size. pose proof max_mr_pos. pose proof evict_threshold_pos.
  pose proof expand_threshold_pos.
  assert (s32 (kb / ONE_MB) = kb / ONE_MB) as ->.
  { apply s32_id. unfold is_s32, ONE_MB.
    assert (kb / 1048576 < 2 ^ 30) by (apply Z.div_lt_upper_bound; lia).
    assert (0 ≤ kb / 1048576) by (apply Z.div_pos; lia). lia. }
  set (g := kb / ONE_MB).
  assert ((FREE_MEM_EVICT_THRESHOLD + FREE_MEM_EXPAND_THRESHOLD) / 2 ≤ FREE_MEM_EXPAND_THRESHOLD)
    by (apply Z.div_le_upper_bound; lia).
  repeat match goal with |- context [?a <? ?b] => destruct (Z.ltb_spec a b) end; lia.
Qed.

Lemma alloc_chunk_loop g (m : rdma_remote_mem) : 0 ≤ g ≤ MAX_MR_SIZE_GB →
  len (region_list m) = MAX_MR_SIZE_GB →
  malloc_map m = replicate (Z.to_nat MAX_MR_SIZE_GB) CHUNK_EMPTY →
  ∃ rl mm, for_upto g (λ i m, alloc_chunk malloc_addr m i) m =
      Ok (m <| region_list := rl |> <| malloc_map := mm |>) ∧
    len rl = MAX_MR_SIZE_GB ∧ len mm = MAX_MR_SIZE_GB ∧ count is_malloced mm = g ∧
    Forall (λ x, x = CHUNK_EMPTY ∨ x = CHUNK_MALLOCED) mm ∧
    (∀ k, 0 ≤ k < g → zget rl k = Some (malloc_addr k) ∧ zget mm k = Some CHUNK_MALLOCED).
Proof.
  intros Hg Hl Hm. pose proof max_mr_pos.
  destruct (for_upto_inv (λ n m', ∃ rl mm,
      m' = m <| region_list := rl |> <| malloc_map := mm |> ∧
      len rl = MAX_MR_SIZE_GB ∧ len mm = MAX_MR_SIZE_GB ∧ count is_malloced mm = n ∧
      Forall (λ x, x = CHUNK_EMPTY ∨ x = CHUNK_MALLOCED) mm ∧
      (∀ k, 0 ≤ k < n → zget rl k = Some (malloc_addr k) ∧ zget mm k = Some CHUNK_MALLOCED) ∧
      (∀ k, n ≤ k < MAX_MR_SIZE_GB → zget mm k = Some CHUNK_EMPTY))
    (λ i m, alloc_chunk malloc_addr m i) g m)
    as (m' & -> & rl & mm & -> & H1 & H2 & H3 & Hb & H4 & _); [lia | | |eauto 12].
  - exists (region_list m), (malloc_map m). rewrite Hm. split_and!; try done.
    + rewrite <- Hm. by destruct m.
    + rewrite len_replicate by lia. done.
    + by apply count_replicate.
    + apply Forall_replicate. by left.
    + lia.
    + intros k Hk. by apply zget_replicate.
  - intros n m' Hn (rl & mm & -> & H1 & H2 & H3 & Hb & H4 & H5). unfold alloc_chunk. simpl.
    rewrite !wr_ok by lia. simpl. eexists. split; [done|]. eexists _, _. split; [done|].
    rewrite !len_zset. split_and!; try done.
    + rewrite (count_zset _ _ _ _ _ (H5 n ltac:(lia))). simpl. lia.
    + apply Forall_zset; [done | by right].
    + intros k Hk. destruct (decide (k = n)) as [->|].
      * rewrite !zget_zset_eq by lia. done.
      * rewrite !zget_zset_ne by done. apply H4. lia.
    + intros k Hk. rewrite zget_zset_ne by lia. apply H5. lia.
Qed.

Lemma session_init_ok kb : 0 ≤ kb < 2 ^ 50 →
  ∃ s, rdma_session_init malloc_addr kb = Ok s ∧
    (∀ r o, accounts {| session := s; running := r; outbox := o |}) ∧
    rm_size_gb (rdma_remote s) = initial_size kb ∧
    (∀ k, 0 ≤ k < initial_size kb →
      zget (region_list (rdma_remote s)) k = Some (malloc_addr k) ∧
      zget (malloc_map (rdma_remote s)) k = Some CHUNK_MALLOCED ∧
      zget (conn_map (rdma_remote s)) k = Some (-1)).
Proof.
  intros Hkb. pose proof (initial_size_range kb Hkb) as Hg. pose proof max_mr_pos.
  pose proof max_client_pos. unfold rdma_session_init.
  match goal with |- context [for_upto _ _ ?m] =>
    destruct (alloc_chunk_loop (initial_size kb) m) as (rl & mm & -> & H1 & H2 & H3 & Hb & H4) end;
    [done | by apply len_replicate; lia | done |].
  cbn [res_bind]. eexists. split; [done|]. split_and!; [|done|].
  - intros r o. split; simpl; rewrite ?len_replicate by lia; try done; try lia.
    + by rewrite count_replicate.
    + intros j i Hj Hne. apply zget_In, elem_of_replicate in Hj as [-> _]. done.
    + intros i c Hc. apply zget_In, elem_of_replicate in Hc as [E _]. done.
    + intros i Hi. simpl in *. apply zget_Some_range in Hi.
      rewrite len_replicate in Hi by lia. by apply zget_replicate.
  - intros k Hk. simpl. destruct (H4 k Hk) as [? ?]. split_and!; try done.
    apply zget_replicate. lia.
Qed.

(** * Connections *)

Definition new_conn (i : Z) : connection :=
  {| conn_index := i; sess_chunk_map := replicate (Z.to_nat MAX_MR_SIZE_GB) (-1);
     mapped_chunk_size := 0; evict_sem := 0; stop_sem := 0; connected := 0;
     recv_msg := zero_msg; send_msg := zero_msg; cq_qp_state := CQ_QP_BUSY;
     server_state := S_WAIT |}.

Definition joined (d : daemon) (i : Z) : daemon :=
  d <| session ::= λ s, s <| conns := zset (conns s) i (Some (new_conn i)) |>
                          <| conns_state := zset (conns_state s) i CONN_CONNECTED |> |>.

Lemma joined_inv d i : accounts d → zget (conns_state (session d)) i = Some CONN_IDLE →
  accounts (joined d i).
Proof.
  intros [H1 H2 H3 H4 H5 H6 H7 H8 H9 H10 H11 H12 H13] Hi. pose proof (H12 _ Hi) as Hn.
  pose proof max_mr_pos.
  split; simpl; rewrite ?len_zset; try done.
  - intros j k Hj Hk. destruct (H10 j k Hj Hk) as (? & c & Hc & ?). split; [done|].
    exists c. split; [|done]. rewrite zget_zset_ne; [done|]. intros <-. congruence.
  - intros k c. rewrite zget_zset. case_decide as Hd; [|apply H11].
    destruct Hd as [<- _]. intros [= <-]. split; simpl; rewrite ?len_replicate by lia; try done.
    + rewrite count_replicate by done. by destruct (decide (i = 0)).
    + intros j x Hx Hne. by apply zget_In, elem_of_replicate in Hx as [-> _].
  - intros k. simpl. rewrite zget_zset. case_decide as Hd; [by intros [=]|].
    intros Hk. rewrite zget_zset_ne; [by apply H12|]. intros <-. apply Hd. eauto with zarr.
Qed.

(** The first idle slot is taken. *)
Lemma build_connection_ok d i : accounts d → zget (conns_state (session d)) i = Some CONN_IDLE →
  ∃ p d', build_connection d = Ok (Some p, d') ∧ accounts d' ∧ p ≤ i ∧
    zget (conns_state (session d)) p = Some CONN_IDLE ∧
    conns (session d') = zset (conns (session d)) p (Some (new_conn p)) ∧
    conns_state (session d') = zset (conns_state (session d)) p CONN_CONNECTED ∧
    rdma_remote (session d') = rdma_remote (session d).
Proof.
  intros Ha Hi. pose proof max_client_pos. pose proof (li_states _ _ _ _ Ha) as Ls.
  pose proof (li_conns _ _ _ _ Ha) as Lc. pose proof (zget_Some_range _ _ _ Hi) as Hr.
  unfold build_connection.
  match goal with |- context [for_upto_break MAX_CLIENT ?b ?s0] =>
    destruct (for_upto_break_inv (λ n o, n ≤ i ∧ o = (None, d))
      (λ n o, n ≤ i ∧ zget (conns_state (session d)) n = Some CONN_IDLE ∧ o = (Some n, joined d n))
      b MAX_CLIENT s0) as ([o|o] & -> & Ho) end.
  - lia.
  - split; [lia | done].
  - intros n o Hn [Hle ->]. destruct (zget_is_Some (conns_state (session d)) n) as [st Hst]; [lia|].
    rewrite (rd_ok _ _ _ Hst). cbn [res_bind]. case_decide as Hd.
    + subst st. unfold put_conn, set_conn_state. rewrite wr_ok by lia. cbn [res_bind].
      rewrite wr_ok by (simpl; lia). cbn [res_bind]. eexists. split; [done|]. done.
    + eexists. split; [done|]. split; [|done].
      assert (n ≠ i) by (intros ->; congruence). lia.
  - destruct Ho. lia.
  - destruct Ho as (n & Hn & Hle & Hst & ->). cbn [res_bind ctl_state].
    pose proof (joined_inv d n Ha Hst) as Hj. eexists _, _. split; [done|]. split_and!; try done.
    by eapply lend_inv_frame; [..|exact Hj].
Qed.

(** No idle slot: [conn_num] grows and nobody is connected. *)
Lemma build_connection_full d : accounts d →
  (∀ i, zget (conns_state (session d)) i ≠ Some CONN_IDLE) →
  build_connection d =
    Ok (None, d <| session ::= λ s, s <| conn_num := s32 (conn_num s + 1) |> |>).
Proof.
  intros Ha Hno. pose proof max_client_pos. pose proof (li_states _ _ _ _ Ha) as Ls.
  unfold build_connection.
  match goal with |- context [for_upto_break MAX_CLIENT ?b ?s0] =>
    destruct (for_upto_break_inv (λ n o, o = (None, d)) (λ _ _, False) b MAX_CLIENT s0)
      as ([o|o] & -> & Ho) end; [lia | done | | by subst | by destruct Ho as (? & _ & [])].
  intros n o Hn ->. destruct (zget_is_Some (conns_state (session d)) n) as [st Hst]; [lia|].
  rewrite (rd_ok _ _ _ Hst). cbn [res_bind]. case_decide as Hd; [|by eexists].
  subst. by apply Hno in Hst.
Qed.

(** * Messages that change no map *)

Lemma with_conn_ok d i0 ks km i c f : lend_inv d i0 ks km →
  zget (conns (session d)) i = Some (Some c) →
  conn_index (f c) = conn_index c → sess_chunk_map (f c) = sess_chunk_map c →
  mapped_chunk_size (f c) = mapped_chunk_size c →
  len (buf (send_msg (f c))) = len (buf (send_msg c)) →
  len (rkey (send_msg (f c))) = len (rkey (send_msg c)) →
  ∃ d', with_conn d i f = Ok d' ∧ lend_inv d' i0 ks km ∧
    d' = d <| session ::= λ s, s <| conns := zset (conns s) i (Some (f c)) |> |> ∧
    zget (conns (session d')) i = Some (Some (f c)).
Proof.
  intros Hinv Hc E1 E2 E3 E4 E5. destruct (li_wf _ _ _ _ Hinv _ _ Hc) as [_ _ Hb Hk _ _].
  rewrite (with_conn_at _ _ _ _ Hc). eexists. split; [done|]. split_and!; [|done|].
  - eapply lend_inv_conn; try done; congruence.
  - simpl. apply zget_zset_eq. eauto with zarr.
Qed.

Lemma send_message_ok d i0 ks km i c : lend_inv d i0 ks km →
  zget (conns (session d)) i = Some (Some c) → connected c ≠ 0 →
  ∃ d', send_message d i = Ok d' ∧ lend_inv d' i0 ks km ∧
    d' = d <| outbox := outbox d ++ [(i, send_msg c)] |>.
Proof.
  intros Hinv Hc Hn. unfold send_message. rewrite (get_conn_at _ _ _ Hc). cbn [res_bind].
  rewrite (proj2 (Z.eqb_neq _ _) Hn). eexists. split; [done|]. split; [|done].
  by eapply lend_inv_frame; [..|exact Hinv].
Qed.

(** QUERY: the number of chunks that can be lent is sent. *)
Lemma send_free_mem_size_ok d i c : accounts d → zget (conns (session d)) i = Some (Some c) →
  connected c ≠ 0 →
  ∃ d' m, send_free_mem_size d i = Ok d' ∧ accounts d' ∧ outbox d' = outbox d ++ [(i, m)] ∧
    type m = FREE_SIZE ∧
    size_gb m = count is_malloced (malloc_map (rdma_remote (session d))) -
                count is_lent (conn_map (rdma_remote (session d))) ∧
    rdma_remote (session d') = rdma_remote (session d).
Proof.
  intros Ha Hc Hn. unfold send_free_mem_size.
  match goal with |- context [with_conn d i ?f] =>
    destruct (with_conn_ok d 0 0 0 i c f Ha Hc) as (d1 & -> & Ha1 & E1 & Hc1) end; try done.
  cbn [res_bind].
  destruct (send_message_ok d1 0 0 0 i _ Ha1 Hc1) as (d2 & -> & Ha2 & ->); [done|].
  eexists _, _. split; [done|]. split_and!; try done; subst d1; try done. simpl.
  rewrite s32_small; rewrite (li_size _ _ _ _ Ha), (li_mapped _ _ _ _ Ha); [lia|].
  pose proof max_mr_pos. pose proof (li_malloc _ _ _ _ Ha). pose proof (li_map _ _ _ _ Ha).
  pose proof (count_le_len is_lent (conn_map (rdma_remote (session d)))).
  pose proof (count_le_len is_malloced (malloc_map (rdma_remote (session d)))).
  pose proof (count_nonneg is_lent (conn_map (rdma_remote (session d)))).
  pose proof (count_nonneg is_malloced (malloc_map (rdma_remote (session d)))). lia.
Qed.

(** * The server as a machine *)

Inductive server_event :=
  | SvConnect
  | SvEstablished (i : Z)
  | SvDisconnected (i : Z)
  | SvRecv (i : Z) (m : message)
  | SvSent (i : Z).

(** What the event loop does; the NIC stores a message in [recv_msg] before the receive
    completes. *)
Definition serve (d : daemon) (ev : server_event) : res daemon :=
  match ev with
  | SvConnect => on_event d 0 CM_CONNECT_REQUEST
  | SvEstablished i => on_event d i CM_ESTABLISHED
  | SvDisconnected i => on_event d i CM_DISCONNECTED
  | SvRecv i m =>
      let* d := with_conn d i (λ c, c <| recv_msg := m |>) in
      on_completion reg_mr d i true IBV_WC_RECV
  | SvSent i => on_completion reg_mr d i true IBV_WC_SEND
  end.

(** A free chunk whose memory can be registered. *)
Definition can_lend (m : rdma_remote_mem) : Prop :=
  ∃ j region key, first_lendable m j ∧ zget (region_list m) j = Some region ∧
    reg_mr region = Some key.

(** Clients that follow the protocol: they ask for chunks only while so many are free, for at
    least one (asked for none, [send_mr] lends all and counts none), and give back only what
    they were lent. *)
Definition allowed (d : daemon) (ev : server_event) : Prop :=
  match ev with
  | SvConnect => ∃ i, zget (conns_state (session d)) i = Some CONN_IDLE
  | SvEstablished i | SvDisconnected i | SvSent i =>
      ∃ c, zget (conns (session d)) i = Some (Some c)
  | SvRecv i m => ∃ c, zget (conns (session d)) i = Some (Some c) ∧ connected c ≠ 0 ∧
      match type m with
      | QUERY | ACTIVITY => True
      | BIND => registrable reg_mr (rdma_remote (session d)) ∧
          0 < size_gb m ≤ rm_size_gb (rdma_remote (session d)) - mapped_size (rdma_remote (session d))
      | BIND_SINGLE => can_lend (rdma_remote (session d))
      | DONE => done_ok (c <| recv_msg := m |>)
      | _ => False
      end
  end.

(** BIND_SINGLE: the first free chunk is lent and offered. *)
Lemma serve_bind d i c j region key : accounts d → zget (conns (session d)) i = Some (Some c) →
  connected c ≠ 0 → type (recv_msg c) = BIND_SINGLE → first_lendable (rdma_remote (session d)) j →
  zget (region_list (rdma_remote (session d))) j = Some region → reg_mr region = Some key →
  ∃ d' m, on_completion reg_mr d i true IBV_WC_RECV = Ok d' ∧ accounts d' ∧
    outbox d' = outbox d ++ [(i, m)] ∧ offers m (size_gb (recv_msg c)) j region key ∧
    conn_map (rdma_remote (session d')) = zset (conn_map (rdma_remote (session d))) j i.
Proof.
  intros Ha Hc Hn Ht Hfl Hr Hk. pose proof (li_wf _ _ _ _ Ha _ _ Hc) as [Hix _ _ _ _ _].
  unfold on_completion. cbn [negb]. rewrite (get_conn_at _ _ _ Hc). cbn [res_bind]. rewrite Ht.
  unfold bind. match goal with |- context [with_conn d i ?f] =>
    destruct (with_conn_ok d 0 0 0 i c f Ha Hc) as (d2 & -> & Ha2 & E2 & Hc2) end; try done.
  cbn [res_bind]. apply (lend_inv_any _ _ i) in Ha2.
  destruct (send_single_mr_ok reg_mr d2 i _ (size_gb (recv_msg c)) j region key Ha2 Hc2)
    as (d3 & m3 & -> & Ha3 & Eo & Hof & Em & _ & c3 & Hc3); try (subst; done). cbn [res_bind].
  rewrite Hix. destruct (set_conn_state_ok d3 i 0 0 i c3 CONN_MAPPED Ha3 Hc3)
    as (d4 & -> & Ha4 & ->); [done|]. eexists _, m3. split; [done|].
  split; [exact (lend_inv_any _ _ _ Ha4)|]. simpl. rewrite Eo, Em. split_and!; by subst d2.
Qed.

(** BIND: as many free chunks as asked for are lent and offered. *)
Lemma serve_bind_many d i c : accounts d → zget (conns (session d)) i = Some (Some c) →
  connected c ≠ 0 → type (recv_msg c) = BIND → registrable reg_mr (rdma_remote (session d)) →
  0 < size_gb (recv_msg c) ≤
    rm_size_gb (rdma_remote (session d)) - mapped_size (rdma_remote (session d)) →
  ∃ d' m, on_completion reg_mr d i true IBV_WC_RECV = Ok d' ∧ accounts d' ∧
    outbox d' = outbox d ++ [(i, m)] ∧ type m = INFO ∧ size_gb m = size_gb (recv_msg c) ∧
    (∀ j, 0 ≤ j < MAX_MR_SIZE_GB →
       slot_offer reg_mr (rdma_remote (session d)) (rdma_remote (session d')) i m j) ∧
    mapped_size (rdma_remote (session d')) =
      mapped_size (rdma_remote (session d)) + size_gb (recv_msg c) ∧
    ∃ j, zget (conn_map (rdma_remote (session d'))) j = Some i.
Proof.
  intros Ha Hc Hn Ht Hreg Hsz. pose proof (li_wf _ _ _ _ Ha _ _ Hc) as [Hix _ _ _ _ _].
  unfold on_completion. cbn [negb]. rewrite (get_conn_at _ _ _ Hc). cbn [res_bind]. rewrite Ht.
  unfold bind. match goal with |- context [with_conn d i ?f] =>
    destruct (with_conn_ok d 0 0 0 i c f Ha Hc) as (d2 & -> & Ha2 & E2 & Hc2) end; try done.
  cbn [res_bind]. apply (lend_inv_any _ _ i) in Ha2.
  destruct (send_mr_ok reg_mr d2 i _ (size_gb (recv_msg c)) Ha2 Hc2)
    as (d3 & m3 & -> & Ha3 & Eo & Et & Es & Hsl & Em & Hj & c3 & Hc3); try (subst; done). cbn [res_bind].
  rewrite Hix. destruct (set_conn_state_ok d3 i 0 0 i c3 CONN_MAPPED Ha3 Hc3)
    as (d4 & -> & Ha4 & ->); [done|]. eexists _, m3. split; [done|].
  split; [exact (lend_inv_any _ _ _ Ha4)|]. simpl. subst d2. done.
Qed.

(** DONE: the chunks named are freed. *)
Lemma serve_done d i c : accounts d → zget (conns (session d)) i = Some (Some c) →
  type (recv_msg c) = DONE → done_ok c →
  ∃ d', on_completion reg_mr d i true IBV_WC_RECV = Ok d' ∧ accounts d' ∧
    ∀ k, 0 ≤ k < MAX_MR_SIZE_GB →
      zget (conn_map (rdma_remote (session d'))) k =
        (if gives set_key (rkey (recv_msg c)) MAX_MR_SIZE_GB k then Some (-1)
         else zget (conn_map (rdma_remote (session d))) k) ∧
      zget (malloc_map (rdma_remote (session d'))) k =
        (if gives set_key (rkey (recv_msg c)) MAX_MR_SIZE_GB k then Some CHUNK_EMPTY
         else zget (malloc_map (rdma_remote (session d))) k).
Proof.
  intros Ha Hc Ht Hok. unfold on_completion. cbn [negb]. rewrite (get_conn_at _ _ _ Hc).
  cbn [res_bind]. rewrite Ht. unfold set_busy.
  destruct (with_conn_ok d 0 0 0 i c (λ c, c <| cq_qp_state := CQ_QP_BUSY |>) Ha Hc)
    as (d2 & -> & Ha2 & E2 & Hc2); try done. cbn [res_bind]. apply (lend_inv_any _ _ i) in Ha2.
  destruct (recv_done_ok d2 i _ Ha2 Hc2 Hok) as (d3 & c3 & -> & Ha3 & _ & _ & _ & _ & Hk).
  exists d3. split; [done|]. split; [exact (lend_inv_any _ _ _ Ha3)|]. subst d2. exact Hk.
Qed.

Lemma serve_recv d i c m : accounts d → zget (conns (session d)) i = Some (Some c) →
  connected c ≠ 0 → allowed d (SvRecv i m) → ∃ d', serve d (SvRecv i m) = Ok d' ∧ accounts d'.
Proof.
  intros Ha Hc Hn (c0 & Hc0 & _ & Hm). rewrite Hc in Hc0. injection Hc0 as <-.
  unfold serve. destruct (with_conn_ok d 0 0 0 i c (λ c, c <| recv_msg := m |>) Ha Hc)
    as (d1 & -> & Ha1 & E1 & Hc1); try done. cbn [res_bind].
  destruct (decide (type m = BIND_SINGLE)) as [Ht|Hnb].
  { rewrite Ht in Hm. destruct Hm as (j & region & key & Hfl & Hr & Hk).
    destruct (serve_bind d1 i _ j region key Ha1 Hc1) as (d' & m' & E & Ha' & _);
      [try (subst; done).. | eauto]. }
  destruct (decide (type m = BIND)) as [Ht|Hnm].
  { rewrite Ht in Hm. destruct Hm as [Hreg Hsz].
    destruct (serve_bind_many d1 i _ Ha1 Hc1) as (d' & m' & E & Ha' & _);
      [try (subst; done).. | eauto]. }
  destruct (decide (type m = DONE)) as [Ht|Hnd].
  { rewrite Ht in Hm. destruct (serve_done d1 i _ Ha1 Hc1 Ht Hm) as (d' & E & Ha' & _). eauto. }
  unfold on_completion. cbn [negb]. rewrite (get_conn_at _ _ _ Hc1). cbn [res_bind].
  change (type (recv_msg (c <| recv_msg := m |>))) with (type m).
  change (size_gb (recv_msg (c <| recv_msg := m |>))) with (size_gb m).
  pose proof (li_wf _ _ _ _ Ha1 _ _ Hc1) as [Hix _ _ _ _ _]. unfold set_busy, bind.
  destruct (type m) eqn:Ht; try done;
  try match goal with |- context [with_conn d1 i ?f] =>
    destruct (with_conn_ok d1 0 0 0 i _ f Ha1 Hc1) as (d2 & -> & Ha2 & E2 & Hc2);
      [done.. | cbn [res_bind]] end.
  - by eexists.
  - destruct (send_free_mem_size_ok d2 i _ Ha2 Hc2) as (d3 & m3 & -> & Ha3 & _); [done|]. by eexists.
Qed.

(** Every event leads to balanced accounts, whatever its order. *)
Lemma serve_ok d ev : accounts d → allowed d ev → ∃ d', serve d ev = Ok d' ∧ accounts d'.
Proof.
  intros Ha. destruct ev as [|i|i|i m|i].
  - intros [i Hi]. destruct (build_connection_ok d i Ha Hi) as (p & d' & E & Ha' & _).
    unfold serve, on_event. rewrite E. by eexists.
  - intros [c Hc]. unfold serve, on_event, on_connect.
    destruct (with_conn_ok d 0 0 0 i c (λ c, c <| connected := 1 |>) Ha Hc)
      as (d1 & -> & Ha1 & _ & Hc1); try done. cbn [res_bind].
    destruct (send_free_mem_size_ok d1 i _ Ha1 Hc1) as (d2 & m & -> & Ha2 & _); [done|]. by eexists.
  - intros [c Hc]. destruct (destroy_connection_ok d i c) as (d' & E & Ha' & _);
      [by eapply lend_inv_any | done|]. exists d'. done.
  - intros Hal. pose proof Hal as (c & Hc & Hn & _). by eapply serve_recv.
  - intros [c Hc]. unfold serve, on_completion, set_busy. cbn [negb].
    destruct (with_conn_ok d 0 0 0 i c (λ c, c <| cq_qp_state := CQ_QP_IDLE |>) Ha Hc)
      as (d1 & -> & Ha1 & _); try done. by eexists.
Qed.

Inductive server_reach : daemon → list server_event → daemon → Prop :=
  | reach_nil d : server_reach d [] d
  | reach_snoc d evs d1 ev d2 : server_reach d evs d1 → allowed d1 ev → serve d1 ev = Ok d2 →
      server_reach d (evs ++ [ev]) d2.

Lemma server_reach_accounts d evs d' : accounts d → server_reach d evs d' → accounts d'.
Proof.
  intros Ha Hr. induction Hr as [|d evs d1 ev d2 Hr IH Hal E]; [done|].
  destruct (serve_ok d1 ev (IH Ha) Hal) as (d3 & E3 & H3). congruence.
Qed.

Definition started (s : rdma_session) : daemon := {| session := s; running := 1; outbox := [] |}.

(** C10: From [rdma_session_init] on, after any sequence of events of clients that follow
    the protocol, the sizes the server keeps are the numbers of allocated and of lent
    chunks, its map of lent chunks and the maps of its connections agree, and the next
    event is handled without a fault. *)
Theorem server_accounts_balanced kb s evs d : 0 ≤ kb < 2 ^ 50 →
  rdma_session_init malloc_addr kb = Ok s → server_reach (started s) evs d →
  accounts d ∧ ∀ ev, allowed d ev → ∃ d', serve d ev = Ok d' ∧ accounts d'.
Proof.
  intros Hkb Hs Hr. assert (accounts (started s)) as Ha.
  { destruct (session_init_ok kb Hkb) as (s' & E & Hacc & _). rewrite Hs in E.
    injection E as <-. apply Hacc. }
  assert (accounts d) as Hd by by eapply server_reach_accounts.
  split; [done|]. intros ev. by apply serve_ok.
Qed.

(** C28: A lost connection's chunks return to the pool: none stays marked as lent to it, its
    slot is idle and no other changes, the accounts balance, and the memory thread is told to stop when it was
    the last one. *)
Theorem destroy_connection_correct d i c : accounts d →
  zget (conns (session d)) i = Some (Some c) →
  ∃ d', destroy_connection d i = Ok d' ∧ accounts d' ∧
    conns (session d') = zset (conns (session d)) i None ∧
    conns_state (session d') = zset (conns_state (session d)) i CONN_IDLE ∧
    (∀ j, zget (conn_map (rdma_remote (session d'))) j ≠ Some i) ∧
    conn_num (session d') = s32 (conn_num (session d) - 1) ∧
    running d' = (if conn_num (session d') =? 0 then 0 else running d).
Proof. intros Ha Hc. by eapply destroy_connection_ok; [eapply lend_inv_any|]. Qed.

(** Asked for a chunk when none is free, the server answers with no key set and still
    counts a chunk as lent: [mapped_size] exceeds the number of lent chunks by one. *)
Theorem bind_single_overcounts d i c select : accounts d →
  zget (conns (session d)) i = Some (Some c) → connected c ≠ 0 →
  (∀ j, zget (malloc_map (rdma_remote (session d))) j = Some CHUNK_MALLOCED →
        zget (conn_map (rdma_remote (session d))) j ≠ Some (-1)) →
  ∃ d' m, send_single_mr reg_mr d i select = Ok d' ∧ outbox d' = outbox d ++ [(i, m)] ∧
    type m = INFO_SINGLE ∧ (∀ k x, zget (rkey m) k = Some x → x = 0) ∧
    conn_map (rdma_remote (session d')) = conn_map (rdma_remote (session d)) ∧
    mapped_size (rdma_remote (session d')) =
      count is_lent (conn_map (rdma_remote (session d'))) + 1.
Proof.
  intros Ha Hc Hcon Hno. pose proof max_mr_pos as Hmax. apply (lend_inv_any _ _ i) in Ha.
  destruct (lend_bounds _ _ _ _ _ Ha Hc) as (B1 & _ & _).
  unfold send_single_mr.
  match goal with |- context [with_conn d i ?f] =>
    destruct (with_conn_ok d i 0 0 i c f Ha Hc) as (d1 & -> & Ha1 & E1 & Hc1) end; try done.
  { simpl. unfold len. by rewrite length_replicate. }
  cbn [res_bind]. rewrite (lend_search_none reg_mr d1 i Ha1) by (by subst d1).
  cbn [res_bind ctl_state]. set (d2 := with_remote d1 _).
  rewrite (with_conn_at d2 i _ _ Hc1). cbn [res_bind].
  match goal with |- context [zset (conns _) i (Some ?c')] => set (c3 := c') end.
  set (d3 := d2 <| session ::= _ |>).
  assert (zget (conns (session d3)) i = Some (Some c3)) as Hc3
    by (apply zget_zset_eq; eauto with zarr).
  unfold send_message. rewrite (get_conn_at _ _ _ Hc3). cbn [res_bind].
  replace (connected c3) with (connected c) by done. rewrite (proj2 (Z.eqb_neq _ _) Hcon).
  eexists _, _. split; [done|]. split_and!; try (subst d3 d2 d1; done).
  - intros k x Hx. by apply zget_In, elem_of_replicate in Hx as [-> _].
  - subst d3 d2 d1. simpl. rewrite s32_small by lia.
    rewrite (li_mapped _ _ _ _ Ha). lia.
Qed.
End DaemonSteps.

(** * A server at work *)

Definition demo_addr (k : Z) : Z := (k + 1) * 2 ^ 30.
Definition demo_reg (region : Z) : option Z := Some (region / 2 ^ 30 + 100).
Definition demo_kb : Z := 14 * ONE_MB.

Definition demo_session : rdma_session :=
  match rdma_session_init demo_addr demo_kb with
  | Ok s => s
  | Fault _ => {| conns := []; conns_state := []; conn_num := 0;
                  rdma_remote := {| region_list := []; mr_list := []; rm_size_gb := 0;
                    mapped_size := 0; conn_map := []; malloc_map := []; conn_chunk_map := [] |} |}
  end.

Definition after (d : daemon) (ev : server_event) : daemon :=
  match serve demo_reg d ev with Ok d' => d' | Fault _ => d end.

Definition bind_msg (k : Z) : message := zero_msg <| type := BIND_SINGLE |> <| size_gb := k |>.

Definition demo_d1 : daemon := after (started demo_session) SvConnect.
Definition demo_d2 : daemon := after demo_d1 (SvEstablished 0).
Definition demo_d3 : daemon := after demo_d2 (SvRecv 0 (bind_msg 4)).

Lemma demo_first : first_lendable (rdma_remote (session demo_d2)) 0.
Proof. split_and!; [vm_compute; done.. | intros; lia]. Qed.

Lemma demo_reach :
  server_reach demo_reg (started demo_session)
    [SvConnect; SvEstablished 0; SvRecv 0 (bind_msg 4)] demo_d3.
Proof.
  apply (reach_snoc _ _ [SvConnect; SvEstablished 0] demo_d2);
    [apply (reach_snoc _ _ [SvConnect] demo_d1);
       [apply (reach_snoc _ _ [] (started demo_session)); [constructor | |]| |]| |].
  - exists 0. vm_compute. done.
  - vm_compute. done.
  - eexists. vm_compute. done.
  - vm_compute. done.
  - exists (new_conn 0 <| connected := 1 |> <| send_msg ::= λ m, m <| type := FREE_SIZE |>
              <| size_gb := 6 |> |>).
    split; [vm_compute; done|]. split; [done|].
    change (can_lend demo_reg (rdma_remote (session demo_d2))).
    exists 0, (demo_addr 0), 101. split; [apply demo_first|]. split; vm_compute; done.
  - vm_compute. done.
Qed.

Lemma demo_init : rdma_session_init demo_addr demo_kb = Ok demo_session.
Proof. vm_compute. done. Qed.

Lemma demo_accounts evs d : server_reach demo_reg (started demo_session) evs d → accounts d.
Proof.
  intros Hr. assert (accounts (started demo_session)) as Ha.
  { destruct (session_init_ok demo_addr demo_kb) as (s' & E & Hacc & _);
      [unfold demo_kb, ONE_MB; lia|]. rewrite demo_init in E. injection E as <-. apply Hacc. }
  eapply server_reach_accounts; done.
Qed.

(** A BIND message that asks for no chunk: all six are lent, and none is counted. *)
Example bind_none_lends_all :
  let d := after demo_d2 (SvRecv 0 (zero_msg <| type := BIND |>)) in
  mapped_size (rdma_remote (session d)) = 0 ∧
  count is_lent (conn_map (rdma_remote (session d))) = 6.
Proof. vm_compute. done. Qed.

Lemma server_accounts_balanced_witness : accounts demo_d3.
Proof.
  apply (server_accounts_balanced demo_addr demo_reg demo_kb demo_session
           [SvConnect; SvEstablished 0; SvRecv 0 (bind_msg 4)] demo_d3);
    [unfold demo_kb, ONE_MB; lia | apply demo_init | apply demo_reach].
Defined.

Definition conn0 (d : daemon) : connection :=
  match zget (conns (session d)) 0 with Some (Some c) => c | _ => new_conn 0 end.

Lemma destroy_connection_correct_witness : ∃ d', destroy_connection demo_d3 0 = Ok d' ∧ accounts d'.
Proof.
  destruct (destroy_connection_correct demo_d3 0 (conn0 demo_d3)) as (d' & E & Ha & _);
    [exact (demo_accounts _ _ demo_reach) | vm_compute; done | eauto].
Defined.

(** A server with nothing to lend. *)
Definition demo_none : daemon :=
  after (after (started (match rdma_session_init demo_addr 0 with Ok s => s | Fault _ => demo_session end))
    SvConnect) (SvEstablished 0).

Lemma demo_none_accounts : accounts demo_none.
Proof.
  destruct (session_init_ok demo_addr 0) as (s & E & Hacc & _); [lia|].
  destruct (serve_ok demo_reg (started s) SvConnect) as (d1 & E1 & Ha1);
    [apply Hacc | |].
  { vm_compute in E. injection E as <-. exists 0. vm_compute. done. }
  destruct (serve_ok demo_reg d1 (SvEstablished 0)) as (d2 & E2 & Ha2); [done | |].
  { vm_compute in E. injection E as <-. vm_compute in E1. injection E1 as <-. eexists.
    vm_compute. done. }
  assert (demo_none = d2) as ->; [|done]. unfold demo_none. rewrite E. unfold after at 2.
  rewrite E1. unfold after. by rewrite E2.
Qed.

Lemma bind_single_overcounts_witness : ∃ d' m,
  send_single_mr demo_reg demo_none 0 3 = Ok d' ∧ outbox d' = outbox demo_none ++ [(0, m)] ∧
  mapped_size (rdma_remote (session d')) =
    count is_lent (conn_map (rdma_remote (session d'))) + 1.
Proof.
  destruct (bind_single_overcounts demo_reg demo_none 0 (conn0 demo_none) 3)
    as (d' & m & E & Eo & _ & _ & _ & Em).
  - apply demo_none_accounts.
  - vm_compute. done.
  - vm_compute. done.
  - intros j Hj. apply zget_In in Hj.
    assert (malloc_map (rdma_remote (session demo_none)) =
            replicate (Z.to_nat MAX_MR_SIZE_GB) CHUNK_EMPTY) as E by (vm_compute; done).
    rewrite E in Hj. by apply elem_of_replicate in Hj as [? _].
  - exists d', m. exact (conj E (conj Eo Em)).
Defined.
