(* ===== verification/ConnStates.v ===== *)
(** The states of the server's connections: a connection is in state [CONN_MAPPED] exactly
    while it has chunks, in every state the server reaches.  [evict_mem] relies on it when it
    asks every client that has chunks. *)

From Stdlib Require Import ZArith Lia.
From stdpp Require Import base tactics list numbers option.
From S2P Require Import Prelude Types ByteOrder Daemon DaemonInv DaemonSteps.

Section ConnStates.
Context `{C : Config} `{D : DaemonConfig}.
Variable reg_mr : Z → option Z.

Definition has_chunks (d : daemon) (i : Z) : Prop :=
  ∃ c, zget (conns (session d)) i = Some (Some c) ∧ 0 < mapped_chunk_size c.

Definition mapped_states (d : daemon) : Prop :=
  ∀ i, zget (conns_state (session d)) i = Some CONN_MAPPED ↔ has_chunks d i.

(** * Only connection [i] changes *)

Definition touches (i : Z) (d d' : daemon) : Prop :=
  ∀ k, k ≠ i → zget (conns (session d')) k = zget (conns (session d)) k ∧
               zget (conns_state (session d')) k = zget (conns_state (session d)) k.

#[export] Instance touches_preorder i : PreOrder (touches i).
Proof.
  split; [done|]. intros d1 d2 d3 H1 H2 k Hk.
  destruct (H1 k Hk), (H2 k Hk). split; congruence.
Qed.

Lemma touches_same i d d' : conns (session d') = conns (session d) →
  conns_state (session d') = conns_state (session d) → touches i d d'.
Proof. intros E1 E2 k _. by rewrite E1, E2. Qed.

Lemma touches_states i d d' : touches i d d' → mapped_states d →
  (zget (conns_state (session d')) i = Some CONN_MAPPED ↔ has_chunks d' i) → mapped_states d'.
Proof.
  intros Ht Hm Hi k. destruct (decide (k = i)) as [->|Hne]; [done|].
  destruct (Ht k Hne) as [E1 E2]. unfold has_chunks. rewrite E1, E2. apply Hm.
Qed.

Lemma put_conn_touches d i c d' : put_conn d i c = Ok d' → touches i d d'.
Proof.
  unfold put_conn. intros (l & H & [= <-])%res_bind_ok k Hk. simpl. split; [|done].
  unfold wr in H. destruct (zget _ i); [|done]. injection H as <-. by apply zget_zset_ne.
Qed.

Lemma with_conn_touches d i f d' : with_conn d i f = Ok d' → touches i d d'.
Proof. unfold with_conn. intros (c & _ & H)%res_bind_ok. by eapply put_conn_touches. Qed.

Lemma send_message_touches d i k d' : send_message d i = Ok d' → touches k d d'.
Proof.
  unfold send_message. intros H. res_split. destruct (_ =? 0); [done|]. injection H as <-.
  by apply touches_same.
Qed.

Lemma lend_chunk_touches d i j d' : lend_chunk reg_mr d i j = Ok d' → touches i d d'.
Proof.
  unfold lend_chunk. intros H. res_split. destruct (reg_mr _); [|done]. res_split.
  apply put_conn_touches in H. etransitivity; [|exact H]. by apply touches_same.
Qed.

Lemma send_single_mr_touches d i k d' : send_single_mr reg_mr d i k = Ok d' → touches i d d'.
Proof.
  unfold send_single_mr. intros H. res_split. rename a into d1, a0 into out, a1 into d3.
  transitivity d1; [by eapply with_conn_touches|].
  transitivity (ctl_state out).
  { eapply (for_from_break_pres (touches i d1)); [|exact Ha0 | done].
    intros j d2 c Hd Hb. apply res_bind_ok in Hb as ([|] & _ & Hb); [|by injection Hb as <-].
    apply res_bind_ok in Hb as (d4 & Hl & Hb). injection Hb as <-. cbn. transitivity d2; [done | by eapply lend_chunk_touches]. }
  transitivity d3; [|by eapply send_message_touches].
  transitivity (with_remote (ctl_state out) (λ m, m <| mapped_size := s32 (mapped_size m + 1) |>));
    [by apply touches_same | by eapply with_conn_touches].
Qed.

Lemma send_mr_touches d i k d' : send_mr reg_mr d i k = Ok d' → touches i d d'.
Proof.
  unfold send_mr. intros H. res_split. rename a into d1, a0 into out, a1 into d3.
  transitivity d1; [by eapply with_conn_touches|].
  transitivity (ctl_state out).2.
  { eapply (for_from_break_pres (λ st, touches i d1 st.2)); [|exact Ha0 | done].
    intros j [n d2] c Hd Hb. apply res_bind_ok in Hb as ([|] & _ & Hb); [|by injection Hb as <-].
    apply res_bind_ok in Hb as (d4 & Hl & Hb). injection Hb as <-.
    transitivity d2; [done|]. apply lend_chunk_touches in Hl. by destruct (_ =? k). }
  transitivity d3; [|by eapply send_message_touches].
  transitivity (with_remote (ctl_state out).2 (λ m, m <| mapped_size := s32 (mapped_size m + k) |>));
    [by apply touches_same | by eapply with_conn_touches].
Qed.

(** A change of a connection that keeps its size. *)
Lemma with_conn_states d i f d' : (∀ c, mapped_chunk_size (f c) = mapped_chunk_size c) →
  with_conn d i f = Ok d' → mapped_states d → mapped_states d'.
Proof.
  intros Hf H Hm. eapply touches_states; [by eapply with_conn_touches | done|].
  unfold with_conn in H. apply res_bind_ok in H as (c & Hc & H). unfold get_conn, rd in Hc.
  destruct (zget (conns (session d)) i) as [[c0|]|] eqn:E; [|done..]. injection Hc as ->.
  rewrite (put_conn_at _ _ _ _ E) in H. injection H as <-. simpl.
  rewrite (Hm i). unfold has_chunks. simpl. rewrite zget_zset_eq by eauto with zarr. rewrite E.
  split; intros (c' & [= <-] & Hc); [exists (f c) | exists c]; (split; [done|]);
    rewrite Hf in *; done.
Qed.

Lemma send_message_states d i d' : send_message d i = Ok d' → mapped_states d → mapped_states d'.
Proof.
  unfold send_message. intros H. res_split. destruct (_ =? 0); [done|]. by injection H as <-.
Qed.

Lemma send_free_mem_size_states d i d' : send_free_mem_size d i = Ok d' →
  mapped_states d → mapped_states d'.
Proof.
  unfold send_free_mem_size. intros H Hm. res_split. eapply send_message_states; [exact H|].
  by eapply with_conn_states; [|exact Ha|].
Qed.

(** * Events *)

(** A connection with a chunk in its map has chunks by its count. *)
Lemma lent_has_chunks d i j : accounts d → zget (conn_map (rdma_remote (session d))) j = Some i →
  i ≠ -1 → has_chunks d i.
Proof.
  intros Ha Hj Hne. destruct (li_lent _ _ _ _ Ha j i Hj Hne) as (_ & c & Hc & Hs). exists c.
  split; [done|]. destruct (li_wf _ _ _ _ Ha _ _ Hc) as [_ _ _ _ Hsz _].
  assert (j ≠ -1) as Hj1 by (apply zget_Some_range in Hj; lia).
  pose proof (count_unlend _ _ _ Hs Hj1).
  pose proof (count_nonneg is_lent (zset (sess_chunk_map c) j (-1))). case_decide; lia.
Qed.

Lemma serve_bind_states d i c d' j : accounts d → accounts d' →
  zget (conns (session d)) i = Some (Some c) →
  type (recv_msg c) = BIND_SINGLE ∨ type (recv_msg c) = BIND →
  on_completion reg_mr d i true IBV_WC_RECV = Ok d' →
  zget (conn_map (rdma_remote (session d'))) j = Some i → mapped_states d → mapped_states d'.
Proof.
  intros Ha Ha' Hc Ht H Hj Hm. pose proof (li_wf _ _ _ _ Ha _ _ Hc) as [Hix _ _ _ _ _].
  unfold on_completion in H. cbn [negb] in H. rewrite (get_conn_at _ _ _ Hc) in H.
  cbn [res_bind] in H.
  assert (∃ d2, touches i d d2 ∧ set_conn_state d2 i CONN_MAPPED = Ok d') as (d2 & Ht2 & H2).
  { destruct Ht as [Ht|Ht]; rewrite Ht, Hix in H; res_split; rename a into d1, a0 into d2; exists d2;
    (split; [|done]); (transitivity d1; [by eapply with_conn_touches|]);
    [by eapply send_single_mr_touches | by eapply send_mr_touches]. }
  clear H. unfold set_conn_state in H2. res_split. injection H2 as <-. unfold wr in Ha0.
  destruct (zget (conns_state (session d2)) i) as [st|] eqn:Est; [|done]. injection Ha0 as <-.
  apply (touches_states i d); [|done|].
  - intros k Hk. destruct (Ht2 k Hk) as [E1 E2]. simpl. split; [done|]. by rewrite zget_zset_ne.
  - simpl. rewrite zget_zset_eq by eauto with zarr. split; [|done]. intros _.
    eapply lent_has_chunks; [exact Ha' | exact Hj|]. apply zget_Some_range in Hc. lia.
Qed.

Lemma serve_done_states d i c : accounts d → zget (conns (session d)) i = Some (Some c) →
  done_ok c → mapped_states d → ∀ d', recv_done d i = Ok d' → mapped_states d'.
Proof.
  intros Ha Hc Hok Hm d' H. apply (lend_inv_any _ _ i) in Ha.
  destruct (recv_done_ok d i c Ha Hc Hok) as (d2 & c' & E & Ha' & Hc' & _ & _ & [Ecs Est _ Emc _ _] & _).
  rewrite H in E. injection E as <-.
  pose proof (li_wf _ _ _ _ Ha' _ _ Hc') as [_ _ _ _ Hsz _]. rewrite decide_True in Hsz by done.
  pose proof (count_nonneg is_lent (sess_chunk_map c')).
  assert (0 ≤ i < len (conns_state (session d))) as Hi.
  { rewrite (li_states _ _ _ _ Ha), <- (li_conns _ _ _ _ Ha). eauto with zarr. }
  apply (touches_states i d); [|done|].
  - intros k Hk. rewrite Ecs, Est. rewrite zget_zset_ne by done. split; [done|].
    destruct (_ =? 0); [by rewrite zget_zset_ne | done].
  - unfold has_chunks. rewrite Hc', Est. destruct (Z.eqb_spec (mapped_chunk_size c') 0) as [Hz|Hz].
    + rewrite zget_zset_eq by done. split; [done|]. intros (c2 & [= <-] & ?). lia.
    + rewrite (Hm i). destruct Hok as (_ & Hq & _).
      pose proof (count_nonneg set_key (rkey (recv_msg c))). split; intros _.
      * exists c'. split; [done | lia].
      * exists c. split; [done | lia].
Qed.

(** Every event of a client that keeps the protocol. *)
Lemma serve_states d ev d' : accounts d → allowed reg_mr d ev → serve reg_mr d ev = Ok d' →
  mapped_states d → mapped_states d'.
Proof.
  intros Ha Hal H Hm. destruct ev as [|i|i|i m|i]; cbn [allowed] in Hal.
  - destruct Hal as [i Hi]. destruct (build_connection_ok d i Ha Hi)
      as (p & d2 & E & _ & _ & Hp & Ec & Es & _).
    unfold serve, on_event in H. rewrite E in H. injection H as <-.
    pose proof (zget_Some_range _ _ _ Hp) as Hr. rewrite (li_states _ _ _ _ Ha) in Hr.
    apply (touches_states p d); [|done|].
    + intros k Hk. by rewrite Ec, Es, !zget_zset_ne.
    + unfold has_chunks. rewrite Ec, Es, !zget_zset_eq
        by (rewrite ?(li_states _ _ _ _ Ha), ?(li_conns _ _ _ _ Ha); done).
      split; [done|]. intros (c & [= <-] & Hc). done.
  - unfold serve, on_event, on_connect in H. res_split.
    eapply send_free_mem_size_states; [exact H|]. by eapply with_conn_states; [|exact Ha0|].
  - destruct Hal as [c Hc]. destruct (destroy_connection_ok d i c) as (d2 & E & _ & Ec & Es & _);
      [by eapply lend_inv_any | done|].
    unfold serve, on_event in H. rewrite E in H. injection H as <-.
    pose proof (zget_Some_range _ _ _ Hc) as Hr. rewrite (li_conns _ _ _ _ Ha) in Hr.
    apply (touches_states i d); [|done|].
    + intros k Hk. by rewrite Ec, Es, !zget_zset_ne.
    + unfold has_chunks. rewrite Ec, Es, !zget_zset_eq
        by (rewrite ?(li_states _ _ _ _ Ha), ?(li_conns _ _ _ _ Ha); done).
      split; [done|]. by intros (c0 & [=] & _).
  - destruct Hal as (c & Hc & Hn & Hal). unfold serve in H.
    destruct (with_conn_ok d 0 0 0 i c (λ c, c <| recv_msg := m |>) Ha Hc)
      as (d1 & E1 & Ha1 & Ed1 & Hc1); try done.
    rewrite E1 in H. cbn [res_bind] in H.
    assert (mapped_states d1) as Hm1 by (by eapply with_conn_states; [|exact E1|]).
    destruct (decide (type m = BIND_SINGLE)) as [Ht|Hnb].
    { rewrite Ht in Hal. destruct Hal as (j & region & key & Hfl & Hr & Hk).
      destruct (serve_bind reg_mr d1 i _ j region key Ha1 Hc1) as (d2 & m2 & E & Ha2 & _ & _ & Em);
        [try (subst; done)..|]. rewrite H in E. injection E as <-.
      eapply (serve_bind_states d1 i _ d' j); [done | done | exact Hc1 | by left | done | | done].
      rewrite Em. apply zget_zset_eq. destruct Hfl as (_ & Hj & _). subst d1. eauto with zarr. }
    destruct (decide (type m = BIND)) as [Ht|Hnm].
    { rewrite Ht in Hal. destruct Hal as [Hreg Hsz].
      destruct (serve_bind_many reg_mr d1 i _ Ha1 Hc1)
        as (d2 & m2 & E & Ha2 & _ & _ & _ & _ & _ & j & Hj); [try (subst; done)..|].
      rewrite H in E. injection E as <-.
      eapply (serve_bind_states d1 i _ d' j); [done | done | exact Hc1 | by right | done | done | done]. }
    unfold on_completion in H. cbn [negb] in H. rewrite (get_conn_at _ _ _ Hc1) in H.
    cbn [res_bind] in H. change (type (recv_msg (c <| recv_msg := m |>))) with (type m) in H.
    destruct (type m) eqn:Ht; try done.
    + (* DONE *) unfold set_busy in H. res_split.
      destruct (with_conn_ok d1 0 0 0 i _ (λ c, c <| cq_qp_state := CQ_QP_BUSY |>) Ha1 Hc1)
        as (d2 & E2 & Ha2 & Ed2 & Hc2); try done. rewrite E2 in Ha0. injection Ha0 as <-.
      eapply serve_done_states; [exact Ha2 | exact Hc2 | done | | exact H].
      by eapply with_conn_states; [|exact E2|].
    + by eapply with_conn_states; [|exact H|].
    + unfold set_busy in H. res_split. eapply send_free_mem_size_states; [exact H|].
      by eapply with_conn_states; [|exact Ha0|].
  - unfold serve, on_completion, set_busy in H. cbn [negb] in H. by eapply with_conn_states; [|exact H|].
Qed.

Lemma started_states malloc_addr kb s : rdma_session_init malloc_addr kb = Ok s →
  mapped_states (started s).
Proof.
  unfold rdma_session_init. intros H. res_split. injection H as <-. intros i. unfold has_chunks. simpl.
  split; [intros Hi | intros (c & Hi & _)]; by apply zget_In, elem_of_replicate in Hi as [? _].
Qed.

Lemma server_reach_states d evs d' : accounts d → mapped_states d → server_reach reg_mr d evs d' →
  mapped_states d'.
Proof.
  intros Ha Hm Hr. induction Hr as [|d evs d1 ev d2 Hr IH Hal E]; [done|].
  eapply serve_states; [by eapply server_reach_accounts | done | done | by apply IH].
Qed.

End ConnStates.
