(* ===== verification/Protocol.v ===== *)
(** The two ends together: a client that asks a server for a chunk and handles the answer
    ends with the chunk mapped to the memory the server registered, and a client that was
    told to stop gives back exactly the chunks the server named. *)

From Stdlib Require Import ZArith Lia Ascii.
From stdpp Require Import base tactics list numbers option.
From S2P Require Import Prelude Types ByteOrder Bitmap CtxPool Stackbd Request Views ChunkMap.
From S2P Require Import MapInv World Transfer Servers Pages Session Eviction MapSafety.
From S2P Require Import Daemon DaemonInv DaemonSteps.

Section Protocol.
Context `{C : Config} `{D : DaemonConfig}.
Variable reg_mr : Z → option Z.

(** Every slot the client uses is one the server lent it. *)
Definition in_step (c : kernel_cb) (cn : connection) : Prop :=
  ∀ j gb, zget (chunk_map (remote_chunk c)) j = Some gb → gb ≠ -1 →
    zget (sess_chunk_map cn) j = Some j.

Lemma in_step_free c cn d i cb j : accounts d → zget (conns (session d)) i = Some (Some cn) →
  cb_wf cb c → in_step c cn → zget (conn_map (rdma_remote (session d))) j = Some (-1) →
  zget (chunk_map (remote_chunk c)) j = Some (-1).
Proof.
  intros Ha Hcn Hwf Hstep Hj. pose proof (zget_Some_range _ _ _ Hj) as Hr.
  rewrite (li_map _ _ _ _ Ha) in Hr.
  destruct (zget_is_Some (chunk_map (remote_chunk c)) j) as [gb Hgb];
    [rewrite (cw_map _ _ Hwf); lia|].
  destruct (decide (gb = -1)) as [->|Hne]; [done|].
  pose proof (Hstep _ _ Hgb Hne) as Hs.
  destruct (cn_back _ _ _ _ (li_wf _ _ _ _ Ha _ _ Hcn) j j Hs) as [_ E]; [lia|].
  rewrite Hj in E. injection E as E. apply zget_Some_range in Hcn. lia.
Qed.

(** The slot an offer names is its first slot with a key. *)
Lemma offers_first m select j region key : offers m select j region key →
  0 ≤ j < MAX_MR_SIZE_GB → u32 key ≠ 0 → first_key m = Some j.
Proof.
  intros Hof Hj Hk. pose proof (of_keys _ _ _ _ _ Hof) as Hkeys.
  assert (htonl (u32 key) ≠ 0) as Hk'.
  { intros E. apply Hk. by apply (htonl_zero (u32 key) (u32_range key)). }
  destruct (first_key m) as [i|] eqn:Hf.
  - apply first_key_Some in Hf as (k & Hi & Hne & Hlow).
    pose proof (zget_Some_range _ _ _ Hi) as Hr. rewrite (of_klen _ _ _ _ _ Hof) in Hr.
    rewrite Hkeys in Hi by done. case_decide as Hd; [by subst|]. by injection Hi as <-.
  - pose proof (Hkeys j Hj) as E. rewrite decide_True in E by done.
    by apply (first_key_None _ _ _ Hf) in E.
Qed.

(** A server that offers a free slot for an unmapped chunk keeps its promise. *)
Lemma offer_promise s c m gb j region key : unmapped s gb → offers m gb j region key →
  0 ≤ j < MAX_MR_SIZE_GB → u32 key ≠ 0 → zget (chunk_map (remote_chunk c)) j = Some (-1) →
  promise s c m.
Proof.
  intros Hu Hof Hj Hk Hfree. pose proof (offers_first _ _ _ _ _ Hof Hj Hk) as Hf.
  destruct Hof as [Ht Hsz Hkl Hbl _ _]. split; [by split|]. rewrite Ht, Hsz. split; [done|].
  intros i Hi. congruence.
Qed.

(** The client handles the offer. *)
Lemma offer_accepted s cb c m gb j region key : map_inv s → zget (cb_list s) cb = Some c →
  cb_wf cb c → 0 ≤ cb < len (cb_state_list s) →
  test_state_val CONNECTED ≤ test_state_val (state c) → unmapped s gb →
  offers m gb j region key → u32 key ≠ 0 → zget (chunk_map (remote_chunk c)) j = Some (-1) →
  ∃ s' c' ck, client_recv (put_cb s cb (c <| recv_buf := m |>)) cb sizeof_rdma_info = Ok (0, s') ∧
    map_inv s' ∧ serves s' cb j gb ∧ zget (cb_list s') cb = Some c' ∧ state c' = WAIT_OPS ∧
    zget (chunk_list (remote_chunk c')) j = Some ck ∧
    remote_rkey ck = u32 key ∧ remote_addr ck = u64 region ∧ bitmap_g ck = Some bitmap_alloc.
Proof.
  intros Hinv Hc Hwf Hst Hcon Hu Hof Hk Hfree.
  pose proof (zget_Some_range _ _ _ Hfree) as Hj. rewrite (cw_map _ _ Hwf) in Hj.
  pose proof (offers_first _ _ _ _ _ Hof Hj Hk) as Hf.
  pose proof (offer_promise s c m gb j region key Hu Hof Hj Hk Hfree) as Hp.
  destruct Hof as [Ht Hsz Hkl Hbl Hkeys Haddr].
  destruct (recv_buf_promise _ _ _ _ Hinv Hc Hwf Hp) as (Hi & Hc1 & Hwf1 & _).
  set (s1 := put_cb s cb (c <| recv_buf := m |>)) in *.
  unfold client_recv. rewrite (read_cb_at _ _ _ Hc1). cbn [res_bind].
  rewrite Z.eqb_refl. cbn [negb].
  change (state (c <| recv_buf := m |>)) with (state c).
  rewrite (proj2 (Z.ltb_ge _ _) Hcon).
  change (type (recv_buf (c <| recv_buf := m |>))) with (type m). rewrite Ht, (cw_index _ _ Hwf1).
  destruct (set_cb_state_inv s1 cb CB_MAPPED Hi Hst) as [-> Hi2]. cbn [res_bind].
  set (c2 := c <| recv_buf := m |> <| state := WAIT_OPS |>).
  assert (cb_wf cb c2) as Hwf2 by (destruct Hwf1; by split).
  destruct (with_cb_inv _ cb _ (λ c, c <| state := WAIT_OPS |>) Hi2 Hc1) as (E & Hi3 & Hc3);
    [done..|].
  unfold set_state. rewrite E. cbn [res_bind].
  destruct Hu as [Hu1 Hu2]. pose proof (zget_Some_range _ _ _ Hu1) as Hg.
  rewrite (mi_index _ Hinv) in Hg.
  assert (msg_wf m) as Hmw by by split.
  rewrite (single_chunk_init_eq _ _ _ Hi3 Hc3 Hwf2 Hmw) by (simpl; lia).
  change (first_key _) with (first_key m). rewrite Hf.
  change (rkey _) with (rkey m). change (buf _) with (buf m).
  pose proof (Hkeys j Hj) as Hkj. rewrite decide_True in Hkj by done. rewrite Hkj, Haddr.
  cbn [res_bind]. set (s3 := put_cb (s1 <| cb_state_list := _ |>) _ _) in *.
  eexists _, _, (offered (htonl (u32 key)) (htonll (u64 region))). split; [done|]. split_and!.
  - apply single_mapped_inv; try done. simpl. by rewrite Hsz.
  - eexists. split; [simpl; apply zget_zset_eq; rewrite !len_zset; eauto with zarr|]. simpl.
    rewrite Hsz. split; [apply zget_zset_eq; eauto with zarr|]. lia.
  - simpl. apply zget_zset_eq. rewrite !len_zset. eauto with zarr.
  - done.
  - simpl. apply zget_zset_eq. by rewrite (cw_chunks _ _ Hwf).
  - simpl. apply htonl_involutive, u32_range.
  - simpl. apply ntohll_htonll. apply Z.mod_pos_bound. lia.
  - done.
Qed.

(** C7: The handshake for a chunk.  The client sends BIND_SINGLE for an unmapped chunk
    [gb]; the server, having a free chunk, lends its first one and answers; the client
    handles the answer.  Then the client routes [gb] to the slot of the server's chunk, with
    the address and key the server registered and an empty bitmap, the server counts the
    chunk as lent to this client, and both sides keep their invariants. *)
Theorem bind_single_handshake s cb c gb d i cn j region key :
  map_inv s → zget (cb_list s) cb = Some c → cb_wf cb c → 0 ≤ cb < len (cb_state_list s) →
  test_state_val CONNECTED ≤ test_state_val (state c) → unmapped s gb →
  accounts d → zget (conns (session d)) i = Some (Some cn) → connected cn ≠ 0 →
  in_step c cn → first_lendable (rdma_remote (session d)) j →
  zget (region_list (rdma_remote (session d))) j = Some region → reg_mr region = Some key →
  u32 key ≠ 0 →
  ∃ ask s1 c1 d' reply s' c' ck,
    IS_send_bind_single s cb gb = Ok (ask, s1) ∧ zget (cb_list s1) cb = Some c1 ∧
    serve reg_mr d (SvRecv i ask) = Ok d' ∧ outbox d' = outbox d ++ [(i, reply)] ∧
    client_recv (put_cb s1 cb (c1 <| recv_buf := reply |>)) cb sizeof_rdma_info = Ok (0, s') ∧
    map_inv s' ∧ accounts d' ∧
    zget (cb_index_map s') gb = Some cb ∧ zget (chunk_map_cb_chunk s') gb = Some j ∧
    zget (conn_map (rdma_remote (session d'))) j = Some i ∧
    zget (cb_list s') cb = Some c' ∧ zget (chunk_list (remote_chunk c')) j = Some ck ∧
    remote_rkey ck = u32 key ∧ remote_addr ck = u64 region ∧ bitmap_g ck = Some bitmap_alloc.
Proof.
  intros Hinv Hc Hwf Hst Hcon Hu Ha Hcn Hcc Hin Hfl Hr Hk Hk0.
  pose proof Hfl as (_ & Hfree & _).
  pose proof (in_step_free _ _ _ _ _ _ Ha Hcn Hwf Hin Hfree) as Hslot.
  unfold IS_send_bind_single, post_msg. rewrite (read_cb_at _ _ _ Hc). cbn [res_bind].
  rewrite (write_cb_at _ _ _ _ Hc). cbn [res_bind].
  match goal with |- context [zset (cb_list s) cb ?x] => set (c1 := x) end.
  assert (cb_wf cb c1) as Hwf1 by (destruct Hwf; by split).
  set (s1 := s <| cb_list := zset (cb_list s) cb c1 |>).
  assert (zget (cb_list s1) cb = Some c1) as Hc1 by (apply zget_zset_eq; eauto with zarr).
  assert (map_inv s1) as Hinv1 by (by eapply map_inv_cb).
  set (ask := _ <| size_gb := gb |>).
  destruct (with_conn_ok d 0 0 0 i cn (λ c, c <| recv_msg := ask |>) Ha Hcn)
    as (d1 & E1 & Ha1 & Ed1 & Hcn1); try done.
  destruct (serve_bind reg_mr d1 i _ j region key Ha1 Hcn1)
    as (d' & reply & E2 & Ha2 & Eo & Hof & Em); try (subst d1; done).
  destruct (offer_accepted s1 cb c1 reply gb j region key)
    as (s' & c' & ck & E3 & Hinv' & Hsv & Hc' & _ & Hck & R1 & R2 & R3); try done.
  destruct (mi_bwd _ Hinv' _ _ _ Hsv) as [Hm1 Hm2].
  exists ask, s1, c1, d', reply, s', c', ck. unfold serve. rewrite E1. cbn [res_bind].
  split_and!; try done.
  - by subst d1.
  - rewrite Em. subst d1. simpl. apply zget_zset_eq. eauto with zarr.
Qed.

(** * Giving chunks back *)

(** A STOP message: it counts the slots it names, and the client uses them all. *)
Record stop_ok (c : kernel_cb) (m : IS_rdma_info) : Prop := {
  so_type : type m = STOP;
  so_keys : len (rkey m) = MAX_MR_SIZE_GB;
  so_bufs : len (buf m) = MAX_MR_SIZE_GB;
  so_size : size_gb m = count set_key (rkey m);
  so_some : size_gb m ≠ 0;
  so_used : ∀ j k, zget (rkey m) j = Some k → k ≠ 0 →
    ∃ gb, zget (chunk_map (remote_chunk c)) j = Some gb ∧ gb ≠ -1;
}.

(** The control block after a STOP. *)
Definition stopped (c : kernel_cb) (m : IS_rdma_info) (marks : list ascii) : kernel_cb :=
  c <| recv_buf := m |> <| state := RECV_STOP |>
    <| remote_chunk ::= λ rc, rc <| shrink_size_g := size_gb m |> <| evict_chunk_map := marks |>
                                 <| c_state := C_STOP |> |>.

Lemma stopped_same cb c m marks : cb_wf cb (stopped c m marks) → cb_wf cb c →
  cb_same c (stopped c m marks).
Proof.
  intros Hw Hc. split; try done. intros cb' H. pose proof (cw_index _ _ H). pose proof (cw_index _ _ Hc).
  assert (cb' = cb) as -> by congruence. done.
Qed.

(** A DONE message that gives back the slots a STOP message names. *)
Record gives_back (stop msg : message) : Prop := {
  gb_type : type msg = DONE;
  gb_size : size_gb msg = size_gb stop;
  gb_len : len (rkey msg) = len (rkey stop);
  gb_keys : ∀ j k k', zget (rkey stop) j = Some k → zget (rkey msg) j = Some k' →
    set_key k' = set_key k;
}.

Lemma stop_received s cb c m : zget (cb_list s) cb = Some c → cb_wf cb c →
  test_state_val CONNECTED ≤ test_state_val (state c) → stop_ok c m →
  ∃ marks, client_recv (put_cb s cb (c <| recv_buf := m |>)) cb sizeof_rdma_info =
      Ok (0, put_cb s cb (stopped c m marks)) ∧
    cb_wf cb (stopped c m marks) ∧ marks_ok (stopped c m marks) ∧
    ∀ j k, zget (rkey m) j = Some k → marked (stopped c m marks) j = set_key k.
Proof.
  intros Hc Hwf Hcon [Ht Hkl Hbl Hsz Hne Hused].
  set (c1 := c <| recv_buf := m |>). set (s1 := put_cb s cb c1).
  assert (zget (cb_list s1) cb = Some c1) as Hc1 by (apply zget_zset_eq; eauto with zarr).
  unfold client_recv. rewrite (read_cb_at _ _ _ Hc1). cbn [res_bind]. rewrite Z.eqb_refl.
  cbn [negb]. change (state c1) with (state c). rewrite (proj2 (Z.ltb_ge _ _) Hcon).
  change (type (recv_buf c1)) with (type m). rewrite Ht. unfold set_state.
  rewrite (with_cb_at _ _ _ _ Hc1). cbn [res_bind]. unfold client_recv_stop.
  set (s2 := s1 <| cb_list := _ |>). set (c2 := c1 <| state := RECV_STOP |>).
  assert (zget (cb_list s2) cb = Some c2) as Hc2 by (apply zget_zset_eq; eauto with zarr).
  rewrite (read_cb_at _ _ _ Hc2). cbn [res_bind]. rewrite (with_cb_at _ _ _ _ Hc2).
  cbn [res_bind]. change (size_gb (recv_buf c2)) with (size_gb m).
  rewrite (proj2 (Z.eqb_neq _ _) Hne).
  destruct (stop_marks_ok (rkey m) (evict_chunk_map (remote_chunk c))) as (marks & E & Hl & Hm);
    [done | apply (cw_evict _ _ Hwf)|].
  change (rkey (recv_buf c2)) with (rkey m).
  change (evict_chunk_map (remote_chunk c2)) with (evict_chunk_map (remote_chunk c)).
  rewrite E. cbn [res_bind].
  erewrite with_cb_at by (apply zget_zset_eq; eauto with zarr). simpl. rewrite !zset_zset.
  assert (∀ j k, zget (rkey m) j = Some k → marked (stopped c m marks) j = set_key k) as Hmk.
  { intros j k Hk. unfold marked. simpl. rewrite (Hm _ _ Hk). unfold set_key. by destruct (k =? 0). }
  exists marks. split_and!; [done | destruct Hwf; by split | | done].
  intros j Hj. pose proof Hj as Hj'. unfold marked in Hj. simpl in Hj.
  destruct (zget marks j) as [x|] eqn:Hx; [|done]. apply zget_Some_range in Hx.
  destruct (zget_is_Some (rkey m) j) as [k Hk]; [lia|]. rewrite (Hmk _ _ Hk) in Hj'.
  apply (Hused _ _ Hk). by apply Z.eqb_neq, negb_true_iff.
Qed.

Variable submit_queues : Z.
Context (single_chunk_map : IS_session → Z → res IS_session).
Context `{M : !ChunkMapper submit_queues single_chunk_map}.

(** The client's part: it cancels the slots and answers DONE. *)
Lemma client_stops s cb c m : client_inv submit_queues s → zget (cb_list s) cb = Some c →
  zget (cb_state_list s) cb = Some CB_MAPPED → stop_ok c m → 0 ≤ submit_queues →
  quiet submit_queues s cb →
  ∃ s1 reply s2,
    client_recv (put_cb s cb (c <| recv_buf := m |>)) cb sizeof_rdma_info = Ok (0, s1) ∧
    evict_stop submit_queues single_chunk_map s1 cb = Ok (Some reply, s2) ∧
    client_inv submit_queues s2 ∧ keeps_pages (eq cb) s s2 ∧ gives_back m reply.
Proof.
  intros Hci Hc Hst Hso Hsq Hquiet.
  destruct (servers_ready _ _ _ _ _ (ci_servers _ _ Hci) Hst ltac:(done) ltac:(done) Hc) as [Hwf Hcon].
  destruct (stop_received s cb c m Hc Hwf Hcon Hso) as (marks & E1 & Hwf1 & Hmk & Hmarks).
  set (c1 := stopped c m marks) in *. set (s1 := put_cb s cb c1) in *.
  destruct (client_same submit_queues s cb c c1 Hci Hc) as [Hci1 Hk1];
    [by right | by apply (stopped_same cb) | done|].
  assert (zget (cb_list s1) cb = Some c1) as Hc1 by (apply zget_zset_eq; eauto with zarr).
  destruct (evict_stop_ok submit_queues single_chunk_map s1 cb c1)
    as (rk & s2 & E2 & Hev & Hrkl & Hrk); try done; [apply Hci1 | apply Hci1 | apply Hso|].
  assert (client_inv submit_queues s2 ∧ keeps_pages (eq cb) s s2) as [Hci2 Hk2].
  { destruct Hev as [V1 V2 V3 V4 V5 _ _], Hci1 as [_ _ W3 W4 W5].
    split; [split; auto; by eapply keeps_ops|]. transitivity s1; [by apply keeps_nobody | done]. }
  exists s1, (done_msg c1 rk), s2. split_and!; try done. split; [done | done | |].
  - change (len rk = len (rkey m)). by rewrite Hrkl, (so_keys _ _ Hso).
  - intros j k r Hk Hr. change (zget rk j = Some r) in Hr. pose proof (zget_Some_range _ _ _ Hk) as Hj.
    rewrite (so_keys _ _ Hso) in Hj. rewrite (Hrk j Hj), (Hmarks _ _ Hk) in Hr.
    injection Hr as <-. by destruct (set_key k).
Qed.

(** C9: The handshake that takes chunks away.  A server names some of the slots a client
    uses in a STOP message; the client, once no request is in flight there, cancels them,
    looks for other servers, and answers DONE; the server then frees exactly the chunks it
    named, and both sides keep their invariants. *)
Theorem stop_done_handshake s cb c m d i cn :
  client_inv submit_queues s → zget (cb_list s) cb = Some c →
  zget (cb_state_list s) cb = Some CB_MAPPED → stop_ok c m →
  0 ≤ submit_queues → quiet submit_queues s cb →
  accounts d → zget (conns (session d)) i = Some (Some cn) → connected cn ≠ 0 → in_step c cn →
  ∃ s1 reply s2 d',
    client_recv (put_cb s cb (c <| recv_buf := m |>)) cb sizeof_rdma_info = Ok (0, s1) ∧
    evict_stop submit_queues single_chunk_map s1 cb = Ok (Some reply, s2) ∧
    serve reg_mr d (SvRecv i reply) = Ok d' ∧ client_inv submit_queues s2 ∧
    keeps_pages (eq cb) s s2 ∧ accounts d' ∧
    ∀ j k, zget (rkey m) j = Some k →
      zget (conn_map (rdma_remote (session d'))) j =
        (if set_key k then Some (-1) else zget (conn_map (rdma_remote (session d))) j) ∧
      zget (malloc_map (rdma_remote (session d'))) j =
        (if set_key k then Some CHUNK_EMPTY else zget (malloc_map (rdma_remote (session d))) j).
Proof.
  intros Hci Hc Hst Hso Hsq Hquiet Ha Hcn Hcc Hin.
  destruct (client_stops s cb c m Hci Hc Hst Hso Hsq Hquiet)
    as (s1 & reply & s2 & E1 & E2 & Hci2 & Hk2 & [Gt Gs Gl Gk]).
  destruct (with_conn_ok d 0 0 0 i cn (λ c, c <| recv_msg := reply |>) Ha Hcn)
    as (d1 & F1 & Ha1 & Ed1 & Hcn1); try done.
  rewrite (so_keys _ _ Hso) in Gl.
  destruct (serve_done reg_mr d1 i _ Ha1 Hcn1) as (d' & F2 & Ha' & Hk); [done | |].
  { split_and!; [done | |].
    - change (size_gb reply = count set_key (rkey reply)). rewrite Gs, (so_size _ _ Hso).
      apply count_pointwise; [by rewrite Gl, (so_keys _ _ Hso) | intros j x y ? ?; symmetry; eauto].
    - intros j Hg. unfold gives in Hg. change (rkey _) with (rkey reply) in Hg.
      destruct (zget (rkey reply) j) as [r|] eqn:Hr; [|by rewrite andb_false_r in Hg].
      apply andb_true_iff in Hg as [_ Hg].
      destruct (zget_is_Some (rkey m) j) as [k Hkj]; [rewrite (so_keys _ _ Hso), <- Gl; eauto with zarr|].
      rewrite (Gk _ _ _ Hkj Hr) in Hg.
      destruct (so_used _ _ Hso _ _ Hkj) as (gb & Hgb & Hne);
        [by apply Z.eqb_neq, negb_true_iff|].
      exists j. split; [by eapply Hin|]. apply zget_Some_range in Hr. lia. }
  exists s1, reply, s2, d'. unfold serve. rewrite F1. cbn [res_bind]. split_and!; try done.
  intros j k Hkj. pose proof (zget_Some_range _ _ _ Hkj) as Hj. rewrite (so_keys _ _ Hso) in Hj.
  destruct (zget_is_Some (rkey reply) j) as [r Hr]; [lia|]. specialize (Hk j Hj). revert Hk.
  change (rkey (recv_msg _)) with (rkey reply). unfold gives.
  rewrite Hr, (Gk _ _ _ Hkj Hr), (proj2 (Z.leb_le 0 j)), (proj2 (Z.ltb_lt j MAX_MR_SIZE_GB)) by lia.
  simpl. by subst d1.
Qed.
End Protocol.

(** * A client and a server *)

Lemma demo_reach2 : server_reach demo_reg (started demo_session) [SvConnect; SvEstablished 0] demo_d2.
Proof.
  apply (reach_snoc _ _ [SvConnect] demo_d1);
    [apply (reach_snoc _ _ [] (started demo_session)); [constructor | |]| |].
  - exists 0. vm_compute. done.
  - vm_compute. done.
  - eexists. vm_compute. done.
  - vm_compute. done.
Qed.

Lemma bind_single_handshake_witness : ∃ ask s1 c1 d' reply s',
  IS_send_bind_single demo_connected 0 5 = Ok (ask, s1) ∧
  serve demo_reg demo_d2 (SvRecv 0 ask) = Ok d' ∧ outbox d' = outbox demo_d2 ++ [(0, reply)] ∧
  client_recv (put_cb s1 0 (c1 <| recv_buf := reply |>)) 0 sizeof_rdma_info = Ok (0, s') ∧
  zget (cb_index_map s') 5 = Some 0 ∧ zget (chunk_map_cb_chunk s') 5 = Some 0 ∧
  zget (conn_map (rdma_remote (session d'))) 0 = Some 0.
Proof.
  destruct (bind_single_handshake demo_reg demo_connected 0 (demo_cb0 <| state := CONNECTED |>) 5
    demo_d2 0 (conn0 demo_d2) 0 (demo_addr 0) 101)
    as (ask & s1 & c1 & d' & reply & s' & c' & ck & E1 & _ & E2 & E3 & E4 & _ & _ & E5 & E6 & E7 & _).
  - apply demo_connected_inv.
  - vm_compute. reflexivity.
  - apply demo_cb0_wf.
  - vm_compute. done.
  - vm_compute. done.
  - split; vm_compute; reflexivity.
  - exact (demo_accounts _ _ demo_reach2).
  - vm_compute. reflexivity.
  - vm_compute. done.
  - intros j gb Hj Hne. change (chunk_map _) with (replicate 32 (-1)) in Hj.
    apply zget_In, elem_of_replicate in Hj as [-> _]. done.
  - apply demo_first.
  - vm_compute. reflexivity.
  - vm_compute. reflexivity.
  - vm_compute. done.
  - exists ask, s1, c1, d', reply, s'.
    exact (conj E1 (conj E2 (conj E3 (conj E4 (conj E5 (conj E6 E7)))))).
Defined.

(** Chunk 5 mapped to slot 0, contexts idle, and a STOP for that slot. *)
Definition demo_bound0 : IS_session :=
  single_mapped demo_offered 0 (demo_cb0 <| state := CONNECTED |> <| recv_buf := demo_offer |>)
    0 (htonl 101) (htonll (demo_addr 0)).
Definition demo_bound : IS_session :=
  demo_bound0 <| IS_conns := [{| cpu_id := 0; ctx_pools := [initialised 4096] |}] |>
    <| cb_state_list := [CB_MAPPED] |> <| rdma_on := DEV_RDMA_ON |>.
Definition demo_bound_cb : kernel_cb :=
  match zget (cb_list demo_bound) 0 with Some c => c | None => demo_cb0 end.
Definition demo_stop : IS_rdma_info :=
  {| buf := replicate 32 0; rkey := zset (replicate 32 0) 0 1; size_gb := 1; type := STOP |}.

Lemma demo_bound_inv : map_inv demo_bound.
Proof.
  destruct (recv_buf_promise demo_connected 0 (demo_cb0 <| state := CONNECTED |>) demo_offer)
    as (Hi & Hc & _ & _);
    [apply demo_connected_inv | reflexivity | apply demo_cb0_wf | apply demo_promise|].
  refine (map_inv_ext demo_bound0 demo_bound eq_refl eq_refl eq_refl eq_refl eq_refl
    (single_mapped_inv demo_offered 0 _ 0 (htonl 101) (htonll (demo_addr 0)) Hi Hc _ _));
    [reflexivity | split; reflexivity].
Qed.

Lemma demo_bound_map : chunk_map (remote_chunk demo_bound_cb) = zset (replicate 32 (-1)) 0 5.
Proof. reflexivity. Qed.

Lemma demo_bound_wf : cb_wf 0 demo_bound_cb.
Proof.
  apply (cb_ready demo_bound 0 _ 0 5 demo_bound_inv); [reflexivity|].
  rewrite demo_bound_map. reflexivity.
Qed.

Lemma demo_bound_client : client_inv 1 demo_bound.
Proof.
  apply (one_server_client 1 demo_bound CB_MAPPED demo_bound_cb); try (vm_compute; reflexivity).
  - apply demo_bound_inv.
  - split; vm_compute; reflexivity.
  - split; [apply demo_bound_wf | vm_compute; discriminate].
  - vm_compute. discriminate.
  - intros i Hi. assert (i = 0) as -> by lia. exists (initialised 4096). split; [reflexivity|].
    split; by eexists.
Qed.

Lemma demo_quiet : quiet 1 demo_bound 0.
Proof.
  intros i Hi. assert (i = 0) as -> by lia.
  exists (initialised 4096), (replicate (Z.to_nat IS_QUEUE_DEPTH) (fresh_ctx 4096)).
  split_and!; [reflexivity | reflexivity | |].
  - by rewrite len_replicate.
  - by apply Forall_replicate.
Qed.

Lemma demo_stop_ok : stop_ok demo_bound_cb demo_stop.
Proof.
  split; try (vm_compute; done). intros j k Hj Hk. exists 5. rewrite demo_bound_map.
  simpl in Hj. rewrite zget_zset in Hj. case_decide as Hd.
  - destruct Hd as [<- _]. done.
  - apply zget_In in Hj. by apply (elem_of_replicate 32 0 k) in Hj as [-> _].
Qed.

Lemma stop_done_handshake_witness : ∃ s1 reply s2 d',
  client_recv (put_cb demo_bound 0 (demo_bound_cb <| recv_buf := demo_stop |>)) 0
    sizeof_rdma_info = Ok (0, s1) ∧
  evict_stop 1 (λ s _, Ok s) s1 0 = Ok (Some reply, s2) ∧
  serve demo_reg demo_d3 (SvRecv 0 reply) = Ok d' ∧ client_inv 1 s2 ∧ accounts d' ∧
  zget (malloc_map (rdma_remote (session d'))) 0 = Some CHUNK_EMPTY.
Proof.
  assert (zget (rkey demo_stop) 0 = Some 1) as H0 by reflexivity.
  destruct (stop_done_handshake demo_reg 1 (λ s _, Ok s) demo_bound 0 demo_bound_cb demo_stop
    demo_d3 0 (conn0 demo_d3)) as (s1 & reply & s2 & d' & E1 & E2 & E3 & Hi & _ & Ha & Hk).
  - apply demo_bound_client.
  - reflexivity.
  - reflexivity.
  - apply demo_stop_ok.
  - lia.
  - apply demo_quiet.
  - exact (demo_accounts _ _ demo_reach).
  - vm_compute. reflexivity.
  - vm_compute. done.
  - intros j gb. rewrite demo_bound_map, zget_zset. case_decide as Hd.
    + destruct Hd as [<- _]. intros _ _. vm_compute. reflexivity.
    + intros Hj Hne. apply zget_In, (elem_of_replicate 32 (-1) gb) in Hj as [-> _]. done.
  - destruct (Hk 0 1 H0) as [_ Hm]. exists s1, reply, s2, d'.
    exact (conj E1 (conj E2 (conj E3 (conj Hi (conj Ha Hm))))).
Defined.
