(* ===== verification/Mapping.v ===== *)
(** [IS_single_chunk_map] as a whole: of the servers asked, which are connected if they are not
    yet, the one that reports the most free memory serves the chunk afterwards.  So it keeps the
    promise of [Eviction.ChunkMapper]. *)

From Stdlib Require Import ZArith Lia.
From stdpp Require Import relations base tactics list numbers option.
From S2P Require Import Prelude Types ByteOrder Bitmap CtxPool Stackbd Request Views ChunkMap.
From S2P Require Import MapInv World Transfer Servers Pages Session Eviction Select Trigger.
From S2P Require Import MapSafety SelectInv Daemon DaemonInv DaemonSteps Protocol.

Section Mapping.
Context `{C : Config}.
Variable submit_queues : Z.

(** * Asking *)

(** Slot [j] of server [cb] can be offered: it is free, or the server has no tables yet. *)
Definition slot_free (s : IS_session) (cb j : Z) : Prop :=
  0 ≤ j < MAX_MR_SIZE_GB ∧
  (zget (cb_state_list s) cb = Some CB_IDLE ∨
   ∃ c, zget (cb_list s) cb = Some c ∧ zget (chunk_map (remote_chunk c)) j = Some (-1)).

(** What asking changes: idle servers become connected, and otherwise nothing but messages,
    states and sizes of control blocks. *)
Record asked (s s' : IS_session) : Prop := {
  ak_index : cb_index_map s' = cb_index_map s;
  ak_slots : chunk_map_cb_chunk s' = chunk_map_cb_chunk s;
  ak_num : cb_num s' = cb_num s;
  ak_conns : IS_conns s' = IS_conns s;
  ak_on : rdma_on s' = rdma_on s;
  ak_ops : write_ops s' = write_ops s ∧ read_ops s' = read_ops s ∧ last_ops s' = last_ops s;
  ak_weights : w_weight s' = w_weight s ∧ cur_weight s' = cur_weight s;
  ak_pages : keeps_pages nobody s s';
  ak_state : ∀ cb st, zget (cb_state_list s) cb = Some st → ∃ st',
    zget (cb_state_list s') cb = Some st' ∧ (st' = st ∨ st = CB_IDLE ∧ st' = CB_CONNECTED);
  ak_free : ∀ cb j, slot_free s cb j → slot_free s' cb j;
}.

#[local] Instance asked_preorder : PreOrder asked.
Proof.
  split; [intros s; split; try done; eauto|].
  intros s1 s2 s3 [A1 A2 A3 A4 A5 (A6 & A7 & A8) (Aw & Ac) A9 A10 A11] [B1 B2 B3 B4 B5 (B6 & B7 & B8) (Bw & Bc) B9 B10 B11].
  split; try congruence; [split_and!; congruence | split; congruence | by transitivity s2 | | auto].
  intros cb st H1. destruct (A10 _ _ H1) as (st2 & H2 & D2). destruct (B10 _ _ H2) as (st3 & H3 & D3).
  exists st3. split; [done|]. destruct D2 as [->|[-> ->]]; [done|]. right. split; [done|].
  by destruct D3 as [->|[? _]].
Qed.

(** The FREE_SIZE messages of the servers, with the sizes they report. *)
Definition reports (p : peers) (f : Z → Z) : Prop :=
  ∀ cb, type (free_size_msg p cb) = FREE_SIZE ∧ size_gb (free_size_msg p cb) = f cb ∧
    0 ≤ f cb < 2 ^ 31.

(** The answer to a query, on a connection that is established. *)
Lemma wait_free_size p f s cb c : reports p f → zget (cb_list s) cb = Some c →
  test_state_val CONNECTED ≤ test_state_val (state c) →
  ∃ s' c', (let* s := wait_for s cb (free_size_msg p cb) FREE_MEM_RECV in
            set_state s cb AFTER_FREE_MEM) = Ok s' ∧ s' = put_cb s cb c' ∧ cb_same c c' ∧
    chunk_list (remote_chunk c') = chunk_list (remote_chunk c) ∧
    target_size_g (remote_chunk c') = f cb ∧ state c' = AFTER_FREE_MEM.
Proof.
  intros Hp Hc Hcon. destruct (Hp cb) as (Ht & Hz & _). unfold wait_for.
  rewrite (with_cb_at _ _ _ _ Hc). cbn [res_bind].
  set (c1 := c <| recv_buf := free_size_msg p cb |>). change (s <| cb_list := _ |>) with (put_cb s cb c1).
  pose proof (put_cb_at s cb c c1 Hc) as Hc1. unfold client_recv.
  rewrite (read_cb_at _ _ _ Hc1). cbn [res_bind]. rewrite Z.eqb_refl. cbn [negb].
  rewrite (proj2 (Z.ltb_ge _ _)) by exact Hcon. change (recv_buf c1) with (free_size_msg p cb).
  rewrite Ht, (with_cb_at _ _ _ _ Hc1). cbn [res_bind].
  match goal with |- context [zset _ cb ?x] => set (c2 := x) end.
  change (put_cb s cb c1 <| cb_list := _ |>) with (put_cb (put_cb s cb c1) cb c2). rewrite put_cb_twice.
  pose proof (put_cb_at s cb c c2 Hc) as Hc2.
  rewrite (read_cb_at _ _ _ Hc2). cbn [res_bind]. rewrite decide_True by done. cbn [res_bind].
  unfold set_state. rewrite (with_cb_at _ _ _ _ Hc2).
  eexists _, _. split; [done|]. split; [apply put_cb_twice|]. split_and!; try done.
  split; try done. intros cb' []. by split.
Qed.

(** A server in use is asked. *)
Lemma ask_used p f s cb c st : map_inv s → servers_ok submit_queues s → reports p f →
  zget (cb_state_list s) cb = Some st → st = CB_CONNECTED ∨ st = CB_MAPPED →
  zget (cb_list s) cb = Some c →
  ∃ s', ask_server submit_queues p s cb = Ok (f cb, s') ∧ map_inv s' ∧
    servers_ok submit_queues s' ∧ asked s s' ∧ zget (cb_state_list s') cb = Some st.
Proof.
  intros Hi Hs Hp Hst Hu Hc.
  destruct (servers_ready _ _ _ _ _ Hs Hst ltac:(by destruct Hu as [-> | ->]) ltac:(by destruct Hu as [-> | ->]) Hc) as [Hwf Hcon].
  unfold ask_server. rewrite (rd_ok _ _ _ Hst). cbn [res_bind].
  replace (cb_state_val CB_IDLE <? cb_state_val st) with true by (by destruct Hu as [-> | ->]).
  unfold IS_send_query, post_msg. rewrite (read_cb_at _ _ _ Hc). cbn [res_bind].
  rewrite (write_cb_at _ _ _ _ Hc). cbn [res_bind].
  match goal with |- context [zset _ cb ?x] => set (c1 := x) end.
  change (s <| cb_list := _ |>) with (put_cb s cb c1). pose proof (put_cb_at s cb c c1 Hc) as Hc1.
  destruct (wait_free_size p f (put_cb s cb c1) cb c1 Hp Hc1 Hcon) as (s' & c' & E & Es & Hsm & El & Ef & _).
  rewrite put_cb_twice in Es. rewrite E. cbn [res_bind]. subst s'.
  rewrite (read_cb_at _ _ _ (put_cb_at s cb c c' Hc)). cbn [res_bind]. rewrite Ef.
  assert (cb_same c c') as Hsm'.
  { destruct Hsm as [K1 K2 Kz K3 K4 K5]. split; try done. intros cb' []. apply K1. by split. }
  exists (put_cb s cb c'). split; [done|].
  assert (map_inv (put_cb s cb c')) as Hi' by (apply (map_inv_cb s cb c); [done | done | by apply Hsm' | apply Hsm']).
  split_and!; [done | by eapply servers_same | | done].
  split; try done; [| eauto |].
  - eapply (keeps_cb _ s _ cb c c'); try done; [by apply grow_same | by apply slots_same; [apply Hsm'|]].
  - intros cb' j [Hj [Hf|(c0 & Hc0 & Hf)]]; (split; [done|]); [by left | right]. cbn. rewrite zget_zset.
    case_decide as Hd; [|eauto]. destruct Hd as [<- _]. exists c'. split; [done|].
    rewrite (cs_map _ _ Hsm'). rewrite Hc in Hc0. by injection Hc0 as <-.
Qed.

(** Events of the connection manager move the state of the connection. *)
Lemma connect_ok s cb c : zget (cb_list s) cb = Some c →
  connect s cb = Ok (put_cb s cb (c <| state := CONNECTED |>)).
Proof.
  intros Hc. unfold connect. cbn. unfold set_state.
  rewrite (with_cb_at _ _ _ _ Hc). cbn [res_bind].
  erewrite with_cb_at by (by apply (put_cb_at s cb c)). cbn [res_bind].
  erewrite with_cb_at by (apply zget_zset_eq; cbn; rewrite len_zset; eauto with zarr).
  f_equal. unfold put_cb. cbn. by rewrite !zset_zset.
Qed.

Lemma cb_size_page : IS_PAGE_SIZE ≤ s32 (IS_PAGE_SIZE * MAX_SGL_LEN).
Proof.
  pose proof max_sgl_pos. unfold IS_PAGE_SIZE in *. rewrite s32_id; unfold is_s32; lia.
Qed.

(** An idle server is connected first. *)
Lemma ask_idle p f s cb c : map_inv s → servers_ok submit_queues s → reports p f →
  zget (cb_state_list s) cb = Some CB_IDLE → zget (cb_list s) cb = Some c →
  ∃ s', ask_server submit_queues p s cb = Ok (f cb, s') ∧ map_inv s' ∧
    servers_ok submit_queues s' ∧ asked s s' ∧ zget (cb_state_list s') cb = Some CB_CONNECTED.
Proof.
  intros Hi Hs Hp Hst Hc. destruct (so_cb _ _ Hs _ _ Hst) as (c0 & Hc0 & Hid).
  rewrite Hc in Hc0. injection Hc0 as <-. unfold ask_server. rewrite (rd_ok _ _ _ Hst). cbn [res_bind].
  change (cb_state_val CB_IDLE <? cb_state_val CB_IDLE) with false. cbv iota.
  rewrite (read_cb_at _ _ _ Hc). cbn [res_bind].
  destruct (kernel_cb_init 0 submit_queues c) as [rc [c1|]] eqn:Hinit; [|done].
  assert (rc = 0) as -> by (by injection Hinit as <-). cbn [snd deref res_bind].
  destruct (idle_init _ _ _ _ Hid Hinit) as (Hwf1 & Hid1 & _).
  assert (cb_size c1 = s32 (IS_PAGE_SIZE * MAX_SGL_LEN)) as Hz1 by (by injection Hinit as <-).
  rewrite (write_cb_at _ _ _ _ Hc). cbn [res_bind].
  change (s <| cb_list := _ |>) with (put_cb s cb c1). pose proof (put_cb_at s cb c c1 Hc) as Hc1.
  rewrite (connect_ok _ _ _ Hc1), put_cb_twice. cbn [res_bind]. set (c2 := c1 <| state := CONNECTED |>).
  pose proof (put_cb_at s cb c c2 Hc) as Hc2.
  destruct (wait_free_size p f (put_cb s cb c2) cb c2 Hp Hc2 ltac:(done)) as (s' & c3 & E & Es & Hsm & El & Ef & Est).
  rewrite put_cb_twice in Es. rewrite <- res_bind_assoc, E. cbn [res_bind]. subst s'.
  unfold set_cb_state. cbn [cb_state_list put_cb].
  rewrite wr_ok by (apply (zget_Some_range _ _ _ Hst)). cbn [res_bind].
  set (s' := put_cb s cb c3 <| cb_state_list := _ |>).
  assert (zget (cb_list s') cb = Some c3) as Hc3 by (by apply (put_cb_at s cb c)).
  rewrite (read_cb_at _ _ _ Hc3). cbn [res_bind]. rewrite Ef.
  assert (cb_wf cb c2) as Hwf2 by (destruct Hwf1; by split). pose proof (cs_fits _ _ Hsm _ Hwf2) as Hwf3.
  assert (cb_idle cb c3) as Hid3.
  { destruct Hid1 as [I1 I2 I3]. destruct Hsm as [_ K2 _ K3 K4 _]. split; [by rewrite K2 | by rewrite K3 | by rewrite K4]. }
  assert (map_inv s') as Hi'.
  { apply (map_inv_ext (put_cb s cb c3)); try done. by apply (idle_map_inv s cb c). }
  exists s'. split; [done|]. split_and!; [done | | |by apply zget_zset_eq; apply (zget_Some_range _ _ _ Hst)].
  - eapply (servers_update _ s s' cb c c3 CB_CONNECTED); try done.
    + split; [split; [done | by rewrite Est]|]. rewrite (cs_size _ _ Hsm). unfold c2. cbn. rewrite Hz1. apply cb_size_page.
    + exact (so_pools _ _ Hs _ _ Hst).
  - split; try done.
    + eapply (keeps_cb _ s s' cb c c3); try done; [by apply grow_same | eapply slots_idle; [done | apply Hid3]].
    + intros cb' st Hst'. cbn. rewrite zget_zset. case_decide as Hd; [|eauto]. destruct Hd as [<- _].
      rewrite Hst in Hst'. injection Hst' as <-. eauto.
    + intros cb' j [Hj Hf]. split; [done|]. cbn. rewrite !zget_zset. destruct (decide (cb = cb')) as [<-|Hne].
      * right. rewrite decide_True by eauto with zarr. exists c3. split; [done|].
        rewrite (cs_map _ _ Hsm). injection Hinit as <-. by apply (zget_replicate MAX_MR_SIZE_GB).
      * rewrite !decide_False by tauto. destruct Hf as [Hf|Hf]; [by left | by right].
Qed.

(** Any server that takes chunks. *)
Lemma ask_server_ok p f s cb st : map_inv s → servers_ok submit_queues s → reports p f →
  zget (cb_state_list s) cb = Some st → cb_open st = true →
  ∃ s', ask_server submit_queues p s cb = Ok (f cb, s') ∧ map_inv s' ∧
    servers_ok submit_queues s' ∧ asked s s' ∧
    ∃ st', zget (cb_state_list s') cb = Some st' ∧ (st' = CB_CONNECTED ∨ st' = CB_MAPPED).
Proof.
  intros Hi Hs Hp Hst Ho. destruct (so_cb _ _ Hs _ _ Hst) as (c & Hc & _).
  destruct (decide (st = CB_IDLE)) as [->|Hne].
  - destruct (ask_idle p f s cb c Hi Hs Hp Hst Hc) as (s' & E & H1 & H2 & H3 & H4). eauto 10.
  - assert (st = CB_CONNECTED ∨ st = CB_MAPPED) as Hu by (destruct st; try done; auto).
    destruct (ask_used p f s cb c st Hi Hs Hp Hst Hu Hc) as (s' & E & H1 & H2 & H3 & H4). eauto 10.
Qed.

Record asked_upto (f : Z → Z) (selection : list Z) (i : Z) (fm so : list Z) : Prop := {
  au_fm : len fm = len selection;
  au_so : len so = len selection;
  au_at : ∀ k cb, 0 ≤ k < i → zget selection k = Some cb →
    zget fm k = Some (f cb) ∧ zget so k = Some cb;
}.

Lemma asked_all f selection fm so : asked_upto f selection (len selection) fm so →
  fm = f <$> selection ∧ so = selection.
Proof.
  intros [H1 H2 H3]. split; apply zlist_eq.
  - unfold len in *. by rewrite length_fmap.
  - intros i Hi. destruct (zget_is_Some selection i) as [cb Hcb]; [lia|].
    destruct (H3 i cb) as [-> _]; [lia | done|]. unfold zget in *. case_decide; [|done].
    by rewrite list_lookup_fmap, Hcb.
  - done.
  - intros i Hi. destruct (zget_is_Some selection i) as [cb Hcb]; [lia|].
    destruct (H3 i cb) as [_ ->]; [lia | done | done].
Qed.

(** A server in use: connected, or mapped already. *)
Definition in_use (s : IS_session) (cb : Z) : Prop :=
  ∃ st, zget (cb_state_list s) cb = Some st ∧ (st = CB_CONNECTED ∨ st = CB_MAPPED).

Lemma asked_in_use s s' cb : asked s s' → in_use s cb → in_use s' cb.
Proof.
  intros Ha (st & Hst & Hu). destruct (ak_state _ _ Ha _ _ Hst) as (st' & Hst' & [->|[-> _]]).
  - by exists st.
  - by destruct Hu.
Qed.

Lemma asked_open s s' cb st : asked s s' → zget (cb_state_list s) cb = Some st → cb_open st = true →
  ∃ st', zget (cb_state_list s') cb = Some st' ∧ cb_open st' = true.
Proof. intros Ha Hst Ho. destruct (ak_state _ _ Ha _ _ Hst) as (st' & Hst' & [->|[_ ->]]); eauto. Qed.

Lemma ask_servers_ok p f s selection : map_inv s → servers_ok submit_queues s → reports p f →
  picks s selection →
  ∃ s', ask_servers submit_queues p selection s = Ok (f <$> selection, selection, s') ∧
    map_inv s' ∧ servers_ok submit_queues s' ∧ asked s s' ∧ ∀ cb, cb ∈ selection → in_use s' cb.
Proof.
  intros Hi Hs Hp [_ Hpk]. unfold ask_servers.
  match goal with |- context [for_upto _ ?b ?s0] =>
    destruct (for_upto_inv (λ i st, asked_upto f selection i st.1.1 st.1.2 ∧ map_inv st.2 ∧
      servers_ok submit_queues st.2 ∧ asked s st.2 ∧
      ∀ k cb, 0 ≤ k < i → zget selection k = Some cb → in_use st.2 cb) b (len selection) s0)
      as ([[fm so] s'] & -> & Hau & Hi' & Hs' & Hm' & Hu') end.
  - apply len_nonneg.
  - split_and!; [|done.. | lia]. split; cbn [fst snd]; [unfold len; by rewrite length_replicate.. | lia].
  - intros i [[fm so] s1] Hr (Hau & Hi1 & Hs1 & Hm1 & Hu1). cbn [fst snd] in *.
    destruct (zget_is_Some selection i) as [cb Hcb]; [lia|]. rewrite (rd_ok _ _ _ Hcb). cbn [res_bind].
    destruct (Hpk cb) as (st & Hst & Ho); [by eapply zget_In|].
    destruct (asked_open _ _ _ _ Hm1 Hst Ho) as (st1 & Hst1 & Ho1).
    rewrite (rd_ok _ _ _ Hst1). cbn [res_bind]. rewrite decide_False by (by intros ->).
    destruct (ask_server_ok p f s1 cb st1 Hi1 Hs1 Hp Hst1 Ho1) as (s2 & -> & Hi2 & Hs2 & Hm2 & Hu2). cbn [res_bind].
    destruct Hau as [H1 H2 H3]. rewrite wr_ok by lia. cbn [res_bind]. rewrite wr_ok by lia.
    cbn [res_bind]. eexists. split; [done|]. cbn [fst snd].
    split_and!; [|done | done | by transitivity s1|].
    + split; rewrite ?len_zset; try done.
      intros k cb' Hk Hcb'. destruct (decide (k = i)) as [->|Hne].
      * rewrite Hcb in Hcb'. injection Hcb' as <-. by rewrite !zget_zset_eq by lia.
      * rewrite !zget_zset_ne by done. apply H3; [lia | done].
    + intros k cb' Hk Hcb'. destruct (decide (k = i)) as [->|Hne]; [rewrite Hcb in Hcb'; by injection Hcb' as <-|].
      eapply asked_in_use; [done|]. apply (Hu1 k); [lia | done].
  - cbn [fst snd] in *. destruct (asked_all _ _ _ _ Hau) as [-> ->]. exists s'. split_and!; try done.
    intros cb Hcb. apply list_elem_of_lookup in Hcb as [k Hk]. rewrite <- zget_nat in Hk.
    apply (Hu' (Z.of_nat k)); [|done]. by apply zget_Some_range in Hk.
Qed.

(** Asking is a search that maps nothing. *)
Lemma asked_remapped s s' : asked s s' → remapped s s'.
Proof.
  intros [A1 A2 A3 A4 A5 A6 Aw A7 A8 A9]. split; try done.
  - intros Hon gb cb ci Hm. rewrite A5. apply (Hon gb cb ci). unfold mapping in *. by rewrite A1, A2 in Hm.
  - intros cb st Hst Ho. destruct (A8 _ _ Hst) as (st' & Hst' & [->|[-> _]]); done.
Qed.

(** * Binding *)

(** Allocations of the kernel succeed. *)
Class memory_ok (kzalloc_ok : Z → Z → bool) : Prop := allocates : ∀ i k, kzalloc_ok i k = true.

Lemma dma_setup_ok kzalloc_ok size cb s : memory_ok kzalloc_ok →
  (∀ i, 0 ≤ i < submit_queues → is_Some (pool_at s i cb)) →
  ∃ s', IS_ctx_dma_setup kzalloc_ok submit_queues size cb s = Ok s' ∧ same_but_conns s s' ∧
    len (IS_conns s') = len (IS_conns s) ∧
    (∀ i cb', pool_at s' i cb' = if decide (cb = cb' ∧ 0 ≤ i < submit_queues)
       then Some (initialised size) else pool_at s i cb').
Proof.
  intros Hk Hp. unfold IS_ctx_dma_setup. destruct (Z.le_gt_cases 0 submit_queues) as [Hsq|Hsq].
  2:{ unfold for_upto. replace (Z.to_nat submit_queues) with 0%nat by lia. exists s. split; [done|].
      split_and!; [apply same_but_conns_refl | done|]. intros i cb'. by rewrite decide_False by lia. }
  match goal with |- context [for_upto _ ?b ?s0] =>
    destruct (for_upto_inv (λ n s', same_but_conns s s' ∧ len (IS_conns s') = len (IS_conns s) ∧
      ∀ i cb', pool_at s' i cb' = if decide (cb = cb' ∧ 0 ≤ i < n)
        then Some (initialised size) else pool_at s i cb') b submit_queues s0) as (s' & -> & H); [done | | | by exists s'] end.
  - split_and!; [apply same_but_conns_refl | done|]. intros i cb'. by rewrite decide_False by lia.
  - intros n s1 Hn (Hs1 & Hl1 & Hp1). rewrite (ctx_init_all (kzalloc_ok n) size) by (intros; apply Hk). cbn [res_bind].
    destruct (Hp n Hn) as [p0 Hp0]. assert (pool_at s1 n cb = Some p0) as Hp0' by (by rewrite Hp1, decide_False by lia).
    destruct (set_pool_at s1 n cb p0 (initialised size) Hp0') as (s2 & E & Hs2 & Hp2).
    exists s2. split; [done|]. split_and!; [by eapply same_but_conns_trans | by rewrite (set_pool_len _ _ _ _ _ E)|].
    intros i cb'. rewrite Hp2, Hp1. destruct (decide (cb = cb')) as [<-|Hne].
    + destruct (decide (n = i)) as [->|Hni]; [by rewrite !decide_True by lia|]. rewrite (decide_False (P := n = i ∧ _)) by tauto.
      destruct (decide (0 ≤ i < n)); [by rewrite !decide_True by lia|]. by rewrite !decide_False by lia.
    + by rewrite !decide_False by tauto.
Qed.

(** Before its first chunk a server gets its contexts. *)
Record prepared (s : IS_session) (cb : Z) (s' : IS_session) : Prop := {
  pr_sess : ∃ n cs, s' = s <| mapped_cb_num := n |> <| IS_conns := cs |>;
  pr_len : len (IS_conns s') = len (IS_conns s);
  pr_others : ∀ i cb', cb' ≠ cb → pool_at s' i cb' = pool_at s i cb';
  pr_grow : pools_grow s s';
  pr_live : pools_fit submit_queues s' CB_MAPPED cb;
}.

Lemma prepare_ok kzalloc_ok s cb c st : memory_ok kzalloc_ok → servers_ok submit_queues s →
  zget (cb_state_list s) cb = Some st → st = CB_CONNECTED ∨ st = CB_MAPPED →
  zget (cb_list s) cb = Some c →
  ∃ s', (if decide (st = CB_CONNECTED) then
           IS_ctx_dma_setup kzalloc_ok submit_queues (cb_size c) cb
             (s <| mapped_cb_num := s32 (mapped_cb_num s + 1) |>)
         else Ok s) = Ok s' ∧ prepared s cb s'.
Proof.
  intros Hk Hs Hst Hu Hc. pose proof (so_pools _ _ Hs _ _ Hst) as Hp.
  destruct Hu as [-> | ->]; [rewrite decide_True by done | rewrite decide_False by done].
  - destruct (so_cb _ _ Hs _ _ Hst) as (c0 & Hc0 & _ & Hz). rewrite Hc in Hc0. injection Hc0 as <-.
    set (s1 := s <| mapped_cb_num := _ |>).
    destruct (dma_setup_ok kzalloc_ok (cb_size c) cb s1 Hk) as (s' & E & [cs Es] & Hl & Hv).
    { intros i Hi. destruct (Hp i Hi) as (p & Hpa & _). by exists p. }
    exists s'. split; [done|]. split; [by exists (s32 (mapped_cb_num s + 1)), cs | done | | |].
    + intros i cb' Hne. by rewrite Hv, decide_False by (intros [? _]; congruence).
    + intros i cb'. rewrite Hv. case_decide as Hd; [|by left]. destruct Hd as [<- Hi]. right.
      destruct (Hp i Hi) as (p & Hpa & Hf). cbn in Hf. subst p. split; [exact Hpa|]. by exists (cb_size c).
    + intros i Hi. rewrite Hv, decide_True by done. eexists. split; [done|]. split; by eexists.
  - exists s. split; [done|]. split; try done. exists (mapped_cb_num s), (IS_conns s). by destruct s.
Qed.

(** Server [cb] offers for chunk [gb] a slot that is free on both sides. *)
Definition offers_slot (s : IS_session) (p : peers) (cb gb : Z) : Prop :=
  ∃ j region key, offers (bind_reply p cb gb) gb j region key ∧ u32 key ≠ 0 ∧ slot_free s cb j.

(** Chunk [gb] is bound to a slot of server [cb], and nothing else changes. *)
Record bound (s : IS_session) (cb gb : Z) (s' : IS_session) : Prop := {
  bd_inv : map_inv s';
  bd_servers : servers_ok submit_queues s';
  bd_rest : remapped s s';
  bd_others : ∀ k, k ≠ gb → zget (cb_index_map s') k = zget (cb_index_map s) k ∧
                            zget (chunk_map_cb_chunk s') k = zget (chunk_map_cb_chunk s) k;
  bd_index : zget (cb_index_map s') gb = Some cb;
  bd_serves : ∃ j, serves s' cb j gb;
}.

(** The offer is asked for and taken. *)
Lemma bind_taken s p cb c gb st j region key : map_inv s → zget (cb_state_list s) cb = Some st →
  zget (cb_list s) cb = Some c → cb_ready_for cb c → unmapped s gb →
  offers (bind_reply p cb gb) gb j region key → u32 key ≠ 0 →
  0 ≤ j < MAX_MR_SIZE_GB → zget (chunk_map (remote_chunk c)) j = Some (-1) →
  ∃ m s1 s2 c1 c', IS_send_bind_single s cb gb = Ok (m, s1) ∧
    wait_for s1 cb (bind_reply p cb gb) WAIT_OPS = Ok s2 ∧
    taken (put_cb s cb c1 <| cb_state_list := zset (cb_state_list s) cb CB_MAPPED |>) cb
      (c1 <| state := WAIT_OPS |>) c' s2 ∧
    remote_chunk c1 = remote_chunk c ∧ size_gb (recv_buf c1) = gb ∧ serves s2 cb j gb.
Proof.
  intros Hi Hst Hc [Hwf Hcon] Hu Hof Hk Hj Hfree.
  set (c0 := c <| send_buf ::= λ m, m <| type := BIND_SINGLE |> <| size_gb := gb |> |>).
  set (c1 := c0 <| recv_buf := bind_reply p cb gb |>).
  pose proof (put_cb_at s cb c c0 Hc) as Hc0. pose proof (put_cb_at s cb c c1 Hc) as Hc1.
  assert (cb_wf cb c0) as Hwf0 by (destruct Hwf; by split).
  assert (cb_wf cb c1) as Hwf1 by (destruct Hwf; by split).
  assert (map_inv (put_cb s cb c0)) as Hi0 by (by apply (map_inv_cb s cb c)).
  assert (map_inv (put_cb s cb c1)) as Hi1 by (by apply (map_inv_cb s cb c)).
  assert (0 ≤ cb < len (cb_state_list (put_cb s cb c1))) as Hr by (apply (zget_Some_range _ _ _ Hst)).
  destruct (recv_offer_taken (put_cb s cb c1) cb c1 Hi1 Hc1 Hwf1 Hr) as (s2 & c' & E & Htk);
    [by eapply offer_promise | apply Hof | done|].
  destruct (offer_accepted (put_cb s cb c0) cb c0 (bind_reply p cb gb) gb j region key)
    as (s2' & c2 & ck & E' & _ & Hsv & Hc2 & Hst2 & _); [done..|].
  change (c0 <| recv_buf := _ |>) with c1 in E'. rewrite put_cb_twice, E in E'. injection E' as <-.
  unfold IS_send_bind_single, post_msg. rewrite (read_cb_at _ _ _ Hc). cbn [res_bind].
  rewrite (write_cb_at _ _ _ _ Hc). cbn [res_bind]. eexists _, (put_cb s cb c0), s2, c1, c'.
  split; [done|]. unfold wait_for. rewrite (with_cb_at _ _ _ _ Hc0). cbn [res_bind].
  change (c0 <| recv_buf := _ |>) with c1. change (put_cb s cb c0 <| cb_list := _ |>) with (put_cb (put_cb s cb c0) cb c1).
  rewrite put_cb_twice, E. cbn [res_bind]. rewrite (read_cb_at _ _ _ Hc2). cbn [res_bind].
  rewrite decide_True by done. split_and!; try done. apply Hof.
Qed.

Lemma slot_free_at s cb c st j : zget (cb_state_list s) cb = Some st → st = CB_CONNECTED ∨ st = CB_MAPPED →
  zget (cb_list s) cb = Some c → slot_free s cb j →
  0 ≤ j < MAX_MR_SIZE_GB ∧ zget (chunk_map (remote_chunk c)) j = Some (-1).
Proof.
  intros Hst Hu Hc [Hj [Hf|(c' & Hc' & Hf)]]; [rewrite Hst in Hf; destruct Hu; congruence|].
  split; [done|]. congruence.
Qed.

(** Contexts if need be, the request and the answer. *)
Lemma bind_server kzalloc_ok s p cb c gb st : memory_ok kzalloc_ok → map_inv s →
  servers_ok submit_queues s → zget (cb_state_list s) cb = Some st → st = CB_CONNECTED ∨ st = CB_MAPPED →
  zget (cb_list s) cb = Some c → unmapped s gb → offers_slot s p cb gb →
  ∃ s1 m s2 s3,
    (if decide (st = CB_CONNECTED) then
       IS_ctx_dma_setup kzalloc_ok submit_queues (cb_size c) cb
         (s <| mapped_cb_num := s32 (mapped_cb_num s + 1) |>)
     else Ok s) = Ok s1 ∧
    IS_send_bind_single s1 cb gb = Ok (m, s2) ∧
    wait_for s2 cb (bind_reply p cb gb) WAIT_OPS = Ok s3 ∧
    bound s cb gb (s3 <| rdma_on := DEV_RDMA_ON |>).
Proof.
  intros Hk Hi Hs Hst Hu Hc Hun (j & region & key & Hof & Hkey & Hsl).
  destruct (slot_free_at _ _ _ _ _ Hst Hu Hc Hsl) as [Hj Hfree].
  destruct (prepare_ok kzalloc_ok s cb c st Hk Hs Hst Hu Hc) as (s1 & E1 & [(n & cs & Es1) Hl1 Ho1 Hg1 Hv1]).
  assert (map_inv s1) as Hi1 by (subst s1; by apply (map_inv_ext s)).
  assert (cb_ready_for cb c) as Hrd by (by eapply servers_ready; [..|exact Hc]; [done|done|destruct Hu; by subst|destruct Hu; by subst]).
  destruct (bind_taken s1 p cb c gb st j region key) as (m & s2 & s3 & c1 & c' & E2 & E3 & Htk & Erc & Egb & Hsv);
    [by subst s1..|].
  destruct Htk as [T1 (fi & cc & im & T2) T3 T4 T5 T6 _]. cbn in T6. rewrite Egb in T6.
  set (s' := s3 <| rdma_on := DEV_RDMA_ON |>). exists s1, m, s2, s3. split_and!; try done.
  assert (map_inv s') as Hi' by (by apply (map_inv_ext s3)).
  assert (cb_list s' = zset (cb_list s) cb c') as El by (subst s3 s1; cbn; by rewrite zset_zset).
  assert (IS_conns s' = IS_conns s1) as Ec by (subst s3 s1; done).
  assert (cb_state_list s' = zset (cb_state_list s) cb CB_MAPPED) as Est by (subst s3 s1; done).
  assert (serves s' cb j gb) as Hsv' by exact Hsv.
  split; [done | | | | apply (mi_bwd _ Hi' _ _ _ Hsv') | by exists j].
  - eapply (servers_update _ s s' cb c c' CB_MAPPED Hs Hc El Est).
    + by subst s3 s1.
    + by rewrite Ec.
    + intros i cb' Hne. unfold pool_at at 1. rewrite Ec. by apply Ho1.
    + split; [done|]. by rewrite T4.
    + intros i Hx. destruct (Hv1 i Hx) as (q & Hq & Hq'). exists q. split; [|done].
      unfold pool_at. by rewrite Ec.
  - split.
    + eapply (keeps_cb _ s s' cb c c'); try done; try (by subst s3 s1).
      intros ci g Hg. destruct (T5 ci g Hg) as [K1 K2]. cbn in K1, K2. rewrite Erc in K1, K2. auto.
    + by intros _ ? ? ? _.
    + clear E1. intros cb' st' Hst' Ho. change (cb_state_list (_ <| rdma_on := _ |>)) with (cb_state_list s').
      rewrite Est, zget_zset. case_decide as Hd; [|done]. destruct Hd as [<- _].
      rewrite Hst in Hst'. injection Hst' as <-. destruct Hu; by subst st.
    + by subst s3 s1.
    + by subst s3 s1.
  - intros k Hne. destruct (T6 k Hne) as [F1 F2]. subst s1. split; [exact F1 | exact F2].
Qed.

(** * The whole *)

(** The outcome of [IS_single_chunk_map] for chunk [gb], [selection] being the servers asked. *)
Record mapped_best (f : Z → Z) (selection : list Z) (gb : Z) (s : IS_session)
  (out : Z * IS_session) : Prop := {
  mb_inv : map_inv out.2;
  mb_servers : servers_ok submit_queues out.2;
  mb_remaps : remaps s gb out.2;
  mb_best : out.1 = -1 ∧ unmapped out.2 gb ∧ (∀ cb, cb ∈ selection → f cb ≤ 0) ∨
   out.1 = gb ∧ ∃ cb j, cb ∈ selection ∧ (∀ cb', cb' ∈ selection → f cb' ≤ f cb) ∧
     zget (cb_index_map out.2) gb = Some cb ∧ serves out.2 cb j gb;
}.

Lemma best_server f (selection fm so : list Z) : 0 < len selection →
  best_upto (f <$> selection) selection (len (f <$> selection)) fm so →
  ∃ cb, zget fm 0 = Some (f cb) ∧ zget so 0 = Some cb ∧ cb ∈ selection ∧
    ∀ cb', cb' ∈ selection → f cb' ≤ f cb.
Proof.
  intros Hp [H1 H2 _ Hperm Hmax]. assert (len (f <$> selection) = len selection) as El
    by (unfold len; by rewrite length_fmap).
  destruct (zget_is_Some fm 0) as [a Ha]; [lia|]. destruct (zget_is_Some so 0) as [cb Hcb]; [lia|].
  assert (∀ x y, (x, y) ∈ zip fm so ↔ (x, y) ∈ zip (f <$> selection) selection) as Hin
    by (intros x y; by rewrite Hperm).
  assert (∀ x y, (x, y) ∈ zip (f <$> selection) selection ↔ x = f y ∧ y ∈ selection) as Hz.
  { clear. intros x y. induction selection as [|z l IH]; simpl.
    - split; [intros H; by apply elem_of_nil in H | intros [_ H]; by apply elem_of_nil in H].
    - rewrite !elem_of_cons, IH. split; [intros [[= -> ->]|[-> ?]]; auto | intros [-> [->|?]]; auto]. }
  destruct (proj1 (Hz a cb)) as [-> Hsel].
  { apply Hin, (zget_In _ 0). by apply zget_zip. }
  exists cb. split_and!; try done. intros cb' Hcb'.
  assert ((f cb', cb') ∈ zip fm so) as (i & Hi)%list_elem_of_lookup by (apply Hin, Hz; done).
  rewrite <- zget_nat in Hi. apply zget_zip in Hi as [Hi _].
  apply (Hmax (Z.of_nat i) (f cb) (f cb')); try done.
  apply zget_Some_range in Hi. lia.
Qed.

(** No server has memory: only the servers asked are connected. *)
Lemma asked_none f selection s gb s' : map_inv s' → servers_ok submit_queues s' → asked s s' →
  unmapped s gb → (∀ cb, cb ∈ selection → f cb ≤ 0) → mapped_best f selection gb s (-1, s').
Proof.
  intros Hi Hs Ha [U1 U2] Hf.
  assert (unmapped s' gb) by (split; [rewrite (ak_index _ _ Ha) | rewrite (ak_slots _ _ Ha)]; done).
  split; [done | done | | by left]. split; [| done | by apply asked_remapped].
  intros k _. cbn [snd]. by rewrite (ak_index _ _ Ha), (ak_slots _ _ Ha).
Qed.

Lemma bound_best f selection s1 s gb cb s' : asked s s1 → bound s1 cb gb s' → cb ∈ selection →
  (∀ cb', cb' ∈ selection → f cb' ≤ f cb) → mapped_best f selection gb s (gb, s').
Proof.
  intros Ha [B1 B2 B3 B4 B5 [j B6]] Hin Hbest. split; [done | done | | right; split; [done | by exists cb, j]].
  split; [| |transitivity s1; [by apply asked_remapped | done]].
  - intros k Hk. rewrite <- (ak_index _ _ Ha), <- (ak_slots _ _ Ha). by apply B4.
  - cbn [snd]. intros Hn. rewrite B5 in Hn. injection Hn as E. destruct B6 as (c & Hc & _).
    apply zget_Some_range in Hc. unfold NO_CB_MAPPED in E. lia.
Qed.

Lemma single_chunk_map_ok kzalloc_ok rand p f s gb selection : memory_ok kzalloc_ok → map_inv s →
  servers_ok submit_queues s → unmapped s gb → reports p f →
  select_servers rand s = Ok selection → picks s selection →
  (∀ cb, cb ∈ selection → 0 < f cb → offers_slot s p cb gb) →
  ∃ out, IS_single_chunk_map submit_queues kzalloc_ok rand p s gb = Ok out ∧
    mapped_best f selection gb s out.
Proof.
  intros Hk Hi Hs Hu Hp Hsel Hpk Hoff. unfold IS_single_chunk_map. rewrite Hsel. cbn [res_bind].
  destruct (Z.eqb_spec (len selection) 0) as [H0|H0].
  { eexists. split; [done|]. apply asked_none; try done.
    intros cb Hcb. destruct selection; [by apply elem_of_nil in Hcb | done]. }
  pose proof (len_nonneg selection).
  destruct (ask_servers_ok p f s selection Hi Hs Hp Hpk) as (s1 & -> & Hi1 & Hs1 & Ha1 & Hin1). cbn [res_bind].
  destruct (best_first_ok (f <$> selection) selection) as (fm & so & -> & Hb).
  { unfold len. by rewrite length_fmap. }
  { unfold len in *. rewrite length_fmap. lia. }
  { apply Forall_fmap, Forall_forall. intros cb _. destruct (Hp cb) as (_ & _ & ?). unfold is_s32. simpl. lia. }
  { apply Forall_forall. intros cb Hcb%list_elem_of_In. destruct Hpk as [_ Hpk]. destruct (Hpk cb Hcb) as (st & Hst & _).
    apply zget_Some_range in Hst. pose proof (so_states _ _ Hs). pose proof (so_num _ _ Hs). unfold is_s32. lia. }
  cbn [res_bind]. destruct (best_server f selection fm so) as (cb & Hf & Hcb & Hin & Hbest); [lia | done|].
  rewrite (rd_ok _ _ _ Hf). cbn [res_bind].
  destruct (Z.eqb_spec (f cb) 0) as [Hz|Hz].
  { eexists. split; [done|]. apply asked_none; try done. intros cb' Hcb'. rewrite <- Hz. by apply Hbest. }
  destruct (Hp cb) as (_ & _ & Hfr). destruct (Hin1 cb Hin) as (st & Hst & Hu1).
  destruct (so_cb _ _ Hs1 _ _ Hst) as (c & Hc & _).
  assert (unmapped s1 gb) as Hun by (destruct Hu; split; [rewrite (ak_index _ _ Ha1) | rewrite (ak_slots _ _ Ha1)]; done).
  assert (offers_slot s1 p cb gb) as Hof.
  { destruct (Hoff cb Hin ltac:(lia)) as (j & region & key & H1 & H2 & H3). exists j, region, key.
    split_and!; try done. by apply (ak_free _ _ Ha1). }
  destruct (bind_server kzalloc_ok s1 p cb c gb st Hk Hi1 Hs1 Hst Hu1 Hc Hun Hof) as (s2 & m & s3 & s4 & E1 & E2 & E3 & Hbd).
  rewrite (rd_ok _ _ _ Hcb). cbn [res_bind]. rewrite (read_cb_at _ _ _ Hc). cbn [res_bind].
  rewrite (rd_ok _ _ _ Hst). cbn [res_bind]. cbv zeta. rewrite E1. cbn [res_bind]. rewrite E2. cbn [res_bind].
  rewrite E3. cbn [res_bind]. eexists. split; [done|]. by eapply bound_best.
Qed.

(** * The implementation of the interface *)

Section Mapper.
Variables (kzalloc_ok : Z → Z → bool) (rand : IS_session → Z → Z) (p : IS_session → peers).

(** [IS_single_chunk_map] as its callers use it, which drop the result. *)
Definition select_mapper (s : IS_session) (gb : Z) : res IS_session :=
  let* (_, s') := IS_single_chunk_map submit_queues kzalloc_ok (rand s) (p s) s gb in Ok s'.

(** Servers report at most what they can lend: whoever reports memory offers a slot that the
    session does not use. *)
Class honest : Prop := offers_memory : ∀ s, map_inv s → servers_ok submit_queues s →
  ∃ f, reports (p s) f ∧
    ∀ gb cb st, zget (cb_state_list s) cb = Some st → cb_open st = true → 0 < f cb →
      offers_slot s (p s) cb gb.

#[export] Instance selection_mapper `{Hk : !memory_ok kzalloc_ok} `{Hh : !honest} :
  ChunkMapper submit_queues select_mapper.
Proof.
  intros s gb Hi Hs Hu. destruct (offers_memory s Hi Hs) as (f & Hp & Hoff).
  destruct (select_open (rand s) s (so_states _ _ Hs)) as (selection & Hsel & Hpk & _).
  destruct (single_chunk_map_ok kzalloc_ok (rand s) (p s) f s gb selection) as ([rc s'] & E & Hout); try done.
  { intros cb Hin Hf. destruct Hpk as [_ Hpk]. destruct (Hpk cb Hin) as (st & Hst & Ho). eauto. }
  unfold select_mapper. rewrite E. cbn [res_bind]. exists s'. destruct Hout. by split_and!.
Qed.

End Mapper.

End Mapping.


(** * A lender *)

(** The servers of a session, each of which lends its first slot that is free. *)
Section Lender.
Context `{C : Config}.

Definition first_free (s : IS_session) (cb : Z) : option Z :=
  match zget (cb_state_list s) cb, zget (cb_list s) cb with
  | Some CB_IDLE, _ => Some 0
  | _, Some c => (λ e, Z.of_nat e.1) <$> list_find (λ gb, gb = -1) (chunk_map (remote_chunk c))
  | _, None => None
  end.

Definition zero_slots : list Z := replicate (Z.to_nat MAX_MR_SIZE_GB) 0.

Definition lender (s : IS_session) : peers := {|
  free_size_msg cb := {| buf := zero_slots; rkey := zero_slots;
    size_gb := match first_free s cb with Some _ => 1 | None => 0 end; type := FREE_SIZE |};
  bind_reply cb gb :=
    let j := default 0 (first_free s cb) in
    {| buf := zset zero_slots j (htonll ((j + 1) * ONE_GB)); rkey := zset zero_slots j (htonl 55);
       size_gb := gb; type := INFO_SINGLE |};
|}.

Lemma len_zero_slots : len zero_slots = MAX_MR_SIZE_GB.
Proof. pose proof max_mr_pos. unfold zero_slots. apply len_replicate. lia. Qed.

Lemma first_free_ok submit_queues s cb st j : servers_ok submit_queues s →
  zget (cb_state_list s) cb = Some st → cb_open st = true → first_free s cb = Some j → slot_free s cb j.
Proof.
  intros Hs Hst Ho. unfold first_free. rewrite Hst. pose proof max_mr_pos.
  destruct (decide (st = CB_IDLE)) as [->|Hne]; [intros [= <-]; split; [lia | by left]|].
  destruct (so_cb _ _ Hs _ _ Hst) as (c & Hc & Hf). rewrite Hc.
  destruct (servers_ready _ _ _ _ _ Hs Hst Hne ltac:(by intros ->) Hc) as [Hwf _].
  assert ((λ e, Z.of_nat e.1) <$> list_find (λ gb, gb = -1) (chunk_map (remote_chunk c)) = Some j →
    slot_free s cb j) as Hfind; [|by destruct st].
  destruct (list_find _ _) as [[i x]|] eqn:E; [|done]. intros [= <-].
  apply list_find_Some in E as (E & -> & _). rewrite <- zget_nat in E.
  pose proof (zget_Some_range _ _ _ E). rewrite (cw_map _ _ Hwf) in *. split; [done|]. right. by exists c.
Qed.

#[export] Instance lender_honest submit_queues : honest submit_queues lender.
Proof.
  intros s Hi Hs. exists (λ cb, match first_free s cb with Some _ => 1 | None => 0 end). split.
  - intros cb. split; [done|]. split; [done|]. destruct (first_free s cb); lia.
  - intros gb cb st Hst Ho. destruct (first_free s cb) as [j|] eqn:E; [|lia]. intros _.
    pose proof (first_free_ok _ _ _ _ _ Hs Hst Ho E) as Hf. pose proof len_zero_slots as Hl. destruct Hf as [Hj Hf].
    exists j, ((j + 1) * ONE_GB), 55. split_and!; [|done | by split]. cbn [bind_reply lender]. rewrite E. change (default 0 (Some j)) with j.
    split; try done; cbn [rkey buf]; rewrite ?len_zset; try done.
    + intros k Hk. destruct (decide (k = j)) as [->|Hne]; [by apply zget_zset_eq; rewrite Hl|].
      rewrite zget_zset_ne by done. by apply (zget_replicate MAX_MR_SIZE_GB).
    + rewrite zget_zset_eq by (by rewrite Hl). f_equal. f_equal. symmetry. apply u64_id. unfold is_u64, ONE_GB.
      pose proof max_mr_pos. lia.
Qed.

End Lender.


(** * A session with one server *)

#[export] Instance all_memory : memory_ok (λ _ _, true).
Proof. done. Qed.

Definition demo_mapper : IS_session → Z → res IS_session :=
  select_mapper 1 (λ _ _, true) (λ _ _, 3) lender.

Definition ok_or {A} (r : res A) (d : A) : A := match r with Ok a => a | Fault _ => d end.

Lemma ok_or_ok {A} (r : res A) d : (if r is Ok _ then true else false) = true → r = Ok (ok_or r d).
Proof. by destruct r. Qed.

(** A request for chunk 5 is counted, and the trigger connects the server and maps the chunk. *)
Definition demo_counted : IS_session := ok_or (count_op demo_created true 5) demo_created.
Definition demo_live : IS_session := ok_or (trigger_period demo_mapper demo_counted) demo_counted.

Lemma demo_counts : count_op demo_created true 5 = Ok demo_counted.
Proof. by apply ok_or_ok. Qed.

Lemma demo_triggers : trigger_period demo_mapper demo_counted = Ok demo_live.
Proof. apply ok_or_ok. vm_compute. reflexivity. Qed.

Lemma demo_live_run : rtc (map_step 1 demo_mapper) demo_created demo_live.
Proof.
  eapply rtc_l; [eapply ms_count, demo_counts|]. apply rtc_once, ms_trigger, demo_triggers.
Qed.

Lemma demo_counted_client : client_inv 1 demo_counted.
Proof. apply (count_client 1 _ _ _ _ demo_created_client demo_counts). Qed.

Lemma demo_live_client : client_inv 1 demo_live ∧ keeps_pages nobody demo_created demo_live.
Proof.
  destruct (count_client 1 _ _ _ _ demo_created_client demo_counts) as [Hc Hk].
  destruct (trigger_client 1 demo_mapper demo_counted demo_live Hc demo_triggers) as [H1 H2].
  split; [exact H1|]. etransitivity; [exact Hk | exact H2].
Qed.

Lemma chunk_mapping_safe_witness :
  zget (cb_index_map demo_live) 5 = Some 0 ∧ zget (chunk_map_cb_chunk demo_live) 5 = Some 0 ∧
  (∀ gb gb' cb ci, cb ≠ NO_CB_MAPPED →
     zget (cb_index_map demo_live) gb = Some cb → zget (chunk_map_cb_chunk demo_live) gb = Some ci →
     zget (cb_index_map demo_live) gb' = Some cb → zget (chunk_map_cb_chunk demo_live) gb' = Some ci →
     gb = gb') ∧
  free_chunk_index demo_live + 1 = count (λ k, k =? -1) (chunk_map_cb_chunk demo_live).
Proof.
  split; [vm_compute; reflexivity|]. split; [vm_compute; reflexivity|].
  apply (chunk_mapping_safe 1 (λ _, true) one_portal demo_mapper demo_created demo_live);
    [done | apply demo_live_run].
Defined.


