(* ===== verification/IoInv.v ===== *)
(** The data path moves contexts between pools and their users and sets bits of bitmaps; the
    invariant of the client stays. *)

From Stdlib Require Import ZArith Lia Ascii.
From stdpp Require Import functions relations base tactics list numbers option gmap.
From S2P Require Import Prelude Types ByteOrder Bitmap CtxPool Stackbd Request Views ChunkMap.
From S2P Require Import MapInv World Transfer Servers Pages Session Eviction Select Trigger.
From S2P Require Import MapSafety Completion Coherence Volume.

Section IoInv.
Context `{C : Config} `{BL : BlockLayer} `{V : Verbs}.
Variable submit_queues : Z.

(** * Contexts *)

(** Pools that have contexts, and a stack of free ones, alike. *)
Definition same_shape (p p' : ctx_pool_list) : Prop :=
  (is_Some (ctx_pool p') ↔ is_Some (ctx_pool p)) ∧ (is_Some (free_ctxs p') ↔ is_Some (free_ctxs p)).

(** Contexts are taken, written or returned. *)
Definition ctx_moves (s s' : IS_session) : Prop := same_but_conns s s' ∧ same_pools s s'.

Lemma ctx_moves_refl s : ctx_moves s s.
Proof. split; [apply same_but_conns_refl | done]. Qed.

Lemma ctx_moves_trans s1 s2 s3 : ctx_moves s1 s2 → ctx_moves s2 s3 → ctx_moves s1 s3.
Proof. intros [A1 A2] [B1 B2]. split; [by eapply same_but_conns_trans | by transitivity s2]. Qed.

Lemma set_pool_moves s s' conn cb p p' : get_pool s conn cb = Ok p → set_pool s conn cb p' = Ok s' →
  (is_Some (ctx_pool p') ↔ is_Some (ctx_pool p)) → (is_Some (free_ctxs p') ↔ is_Some (free_ctxs p)) →
  ctx_moves s s'.
Proof.
  intros Hg Hs E1 E2. assert (pool_at s conn cb = Some p) as Hp.
  { unfold get_pool in Hg. res_split. apply rd_inv in Ha, Hg. unfold pool_at. by rewrite Ha. }
  destruct (set_pool_at s conn cb p p' Hp) as (s2 & E & Hc & Hv). rewrite Hs in E. injection E as <-.
  split; [done|]. split; [by eapply set_pool_len|]. intros conn' cb' q Hq. rewrite Hv.
  case_decide as Hd; [|by exists q]. destruct Hd as [<- <-]. exists p'. split; [done|].
  rewrite Hp in Hq. by injection Hq as <-.
Qed.

(** The invariant of the client is kept. *)
Definition keeps_client (s s' : IS_session) : Prop :=
  client_inv submit_queues s → client_inv submit_queues s'.

#[local] Instance keeps_client_preorder : PreOrder keeps_client.
Proof. split; [intros s H; exact H|]. intros s1 s2 s3 H1 H2 H. auto. Qed.

Lemma moves_client s s' : ctx_moves s s' → keeps_client s s'.
Proof.
  intros [Hc Hp] [Hi Hs Hset Hops Hon]. pose proof Hc as [cs ->].
  split; [by apply (map_inv_ext s) | by eapply servers_conns | exact Hset | | exact Hon].
  destruct Hops. by split.
Qed.

Lemma write_ctx_moves s s' p c : write_ctx s p c = Ok s' → ctx_moves s s'.
Proof.
  unfold write_ctx. intros H. res_split. destruct (ctx_pool a) as [l|] eqn:E; [|done].
  eapply set_pool_moves; [exact Ha | exact H | cbn; rewrite E; split; by eexists | done].
Qed.

Lemma with_ctx_conns w w' p f : with_ctx w p f = Ok w' → ctx_moves (sess w) (sess w').
Proof. unfold with_ctx. intros H. res_split. injection H as <-. by eapply write_ctx_moves. Qed.

Lemma insert_ctx_conns s s' p : IS_insert_ctx s p = Ok s' → ctx_moves s s'.
Proof.
  unfold IS_insert_ctx, pool_insert. intros H. res_split. injection Ha0 as <-.
  destruct (free_ctxs a) as [l|] eqn:E; [|done].
  eapply set_pool_moves; [exact Ha | exact H | done | cbn; rewrite E; split; by eexists].
Qed.

Lemma insert_conns w w' p : IS_insert w p = Ok w' → ctx_moves (sess w) (sess w').
Proof. unfold IS_insert. intros H. res_split. injection H as <-. by eapply insert_ctx_conns. Qed.

Lemma effect_conns w w' e : apply_effect w e = Ok w' → ctx_moves (sess w) (sess w').
Proof.
  destruct e; cbn; intros H; [injection H as <-; apply ctx_moves_refl..|].
  res_split. injection H as <-. by eapply insert_ctx_conns.
Qed.

Lemma get_ctx_shape p r p' : IS_get_ctx p = Ok (r, p') → same_shape p p'.
Proof.
  unfold IS_get_ctx. intros H. res_split. destruct (free_ctxs p) as [l|] eqn:E; [|done].
  case_decide; res_split; injection H as _ <-; split; cbn; rewrite ?E; done.
Qed.

Lemma acquire_conns fuel : ∀ s cb conn p s',
  acquire_ctx submit_queues fuel s cb conn = Ok (p, s') → ctx_moves s s'.
Proof.
  induction fuel as [|fuel IH]; intros s cb conn p s' H; cbn [acquire_ctx] in H; [done|].
  res_split. destruct a0 as [o pool]. destruct (get_ctx_shape _ _ _ Ha0).
  destruct o as [i|]; res_split.
  - injection H as _ <-. by eapply set_pool_moves.
  - apply IH in H. eapply ctx_moves_trans; [by eapply set_pool_moves | done].
Qed.

(** Chain the steps that touch contexts only. *)
Ltac conns :=
  repeat match goal with
  | H : with_ctx _ _ _ = Ok _ |- _ => apply with_ctx_conns in H
  | H : IS_insert _ _ = Ok _ |- _ => apply insert_conns in H
  | H : apply_effect _ _ = Ok _ |- _ => apply effect_conns in H
  | H : acquire_ctx _ _ _ _ _ = Ok (_, _) |- _ => apply acquire_conns in H
  end; cbn [sess upd] in *; eauto using ctx_moves_trans, ctx_moves_refl.

Lemma to_disk_conns w w' r : to_disk w r = Ok w' → ctx_moves (sess w) (sess w').
Proof. unfold to_disk. intros H. res_split. destruct a. conns. Qed.

Lemma to_disk2_conns w w' r : to_disk2 w r = Ok w' → ctx_moves (sess w) (sess w').
Proof. unfold to_disk2. intros H. res_split. destruct a. conns. Qed.

Lemma post_rdma_conns w cb p wr e w' : post_rdma w cb p wr = Ok (e, w') →
  ctx_moves (sess w) (sess w').
Proof.
  unfold post_rdma. intros H. res_split. destruct (_ =? 0); injection H as _ <-; conns.
Qed.

Lemma bio_generate_conns w p r w' : stackbd_bio_generate w p r = Ok w' →
  ctx_moves (sess w) (sess w').
Proof. unfold stackbd_bio_generate. intros H. res_split. destruct a1. conns. Qed.

Lemma rdma_read_conns w cb ci ck off len r e w' :
  IS_rdma_read submit_queues w cb ci ck off len r = Ok (e, w') → ctx_moves (sess w) (sess w').
Proof.
  unfold IS_rdma_read. intros H. res_split. destruct a0 as [p s]. res_split. conns.
  destruct (negb _); [res_split; injection H as _ <- | ];
    repeat match goal with
    | H : to_disk2 _ _ = Ok _ |- _ => apply to_disk2_conns in H
    | H : post_rdma _ _ _ _ = Ok _ |- _ => apply post_rdma_conns in H
    end; conns.
Qed.

Lemma rdma_write_conns w cb ci ck off len r e w' :
  IS_rdma_write submit_queues w cb ci ck off len r = Ok (e, w') → ctx_moves (sess w) (sess w').
Proof.
  unfold IS_rdma_write. intros H. res_split. destruct a0 as [p s]. res_split. conns.
  destruct (negb _); res_split; [injection H as _ <- | ];
    repeat match goal with
    | H : to_disk2 _ _ = Ok _ |- _ => apply to_disk2_conns in H
    | H : stackbd_bio_generate _ _ _ = Ok _ |- _ => apply bio_generate_conns in H
    | H : post_rdma _ _ _ _ = Ok _ |- _ => apply post_rdma_conns in H
    end; conns.
Qed.

Lemma transfer_conns w cb ci ck off len write r e w' :
  IS_transfer_chunk submit_queues w cb ci ck off len write r = Ok (e, w') →
  ctx_moves (sess w) (sess w').
Proof.
  unfold IS_transfer_chunk. intros H. res_split. destruct a as [ret w1].
  assert (ctx_moves (sess w) (sess w1)) as H1.
  { destruct write; [by apply rdma_write_conns in Ha | by apply rdma_read_conns in Ha]. }
  destruct (ret =? 0); by injection H as _ <-.
Qed.

(** ** Bitmaps *)

(** An operation on bitmaps that keeps them well formed. *)
Definition keeps_bitmap (f : list Z → res (list Z)) : Prop :=
  ∀ bm bm', bitmap_wf bm → f bm = Ok bm' → bitmap_wf bm'.

Lemma group_set_keeps off len : keeps_bitmap (λ bm, IS_bitmap_group_set bm off len).
Proof.
  intros bm bm' Hwf H. unfold IS_bitmap_group_set, for_upto in H.
  eapply (for_from_pres bitmap_wf); [|exact H|done]. clear. intros i bm bm' Hwf H.
  unfold IS_bitmap_set in H. cbv beta in H. res_split. apply wr_inv in H as [Hr ->].
  apply rd_inv in Ha. apply bitmap_wf_zset; [done|]. unfold bit_mask.
  pose proof (Forall_zget _ _ _ _ (proj2 Hwf) Ha). auto with bitmap.
Qed.

Lemma group_clear_keeps off len : keeps_bitmap (λ bm, IS_bitmap_group_clear bm off len).
Proof.
  intros bm bm' Hwf H. unfold IS_bitmap_group_clear, for_upto in H.
  eapply (for_from_pres bitmap_wf); [|exact H|done]. clear. intros i bm bm' Hwf H.
  unfold IS_bitmap_clear in H. cbv beta in H. res_split. apply wr_inv in H as [Hr ->].
  apply rd_inv in Ha. apply bitmap_wf_zset; [done|]. unfold bit_mask.
  pose proof (Forall_zget _ _ _ _ (proj2 Hwf) Ha). auto with bitmap.
Qed.

Lemma update_bitmap_client f s cb ci s' : keeps_bitmap f → update_bitmap f s cb ci = Ok s' →
  keeps_client s s'.
Proof.
  intros Hf H Hci. unfold update_bitmap, read_cb in H. res_split. injection H as <-.
  apply rd_inv in Ha, Ha0. apply wr_inv in Ha3 as [Hr3 ->]. apply wr_inv in Ha4 as [Hr4 ->].
  destruct (bitmap_g a0) as [bm|] eqn:Hb; [|done]. injection Ha1 as <-.
  match goal with |- context [zset (cb_list s) cb ?x] => set (c' := x) end.
  change (client_inv submit_queues (put_cb s cb c')).
  assert (∀ cb', cb_wf cb' a → cb_wf cb' c') as Hwf.
  { intros cb' [? ? ? ? ? ? Hbm]. split; cbn; rewrite ?len_zset; try done.
    intros cj gb Hcj Hne. rewrite zget_zset. case_decide as Hd; [|by eapply Hbm].
    destruct Hd as [<- _]. destruct (Hbm _ _ Hcj Hne) as (ck & bm0 & Hck & Hbm0 & Hw).
    rewrite Ha0 in Hck. injection Hck as <-. rewrite Hb in Hbm0. injection Hbm0 as <-.
    eexists _, _. split; [done|]. split; [done|]. by eapply Hf. }
  destruct Hci as [Hi Hs Hset Hops Hon]. split; [| |exact Hset | destruct Hops; by split | exact Hon].
  - eapply map_inv_cb_any; [done | exact Ha | | done].
    destruct (mi_cbs _ Hi _ _ Ha) as [Hbl|Hw]; [left; destruct Hbl; by split | right; by apply Hwf].
  - apply (servers_same _ s cb a c' Hs Ha). by split.
Qed.

(** ** Requests and completions *)

Lemma count_op_client s write gb s' : count_op s write gb = Ok s' → keeps_client s s'.
Proof. intros H Hci. apply (count_client submit_queues s write gb s' Hci H). Qed.

Lemma clear_side_client s write cb gb off len s' : clear_side s write cb gb off len = Ok s' →
  keeps_client s s'.
Proof.
  unfold clear_side. intros H. destruct (_ =? _); [by injection H as <-|]. res_split.
  destruct write; [|by injection H as <-]. eapply update_bitmap_client; [|exact H].
  apply group_clear_keeps.
Qed.

Lemma disk_ok_client w r e w' : disk_ok w r = Ok (e, w') → keeps_client (sess w) (sess w').
Proof.
  unfold disk_ok. intros H. res_split. injection H as _ <-. by eapply moves_client, to_disk_conns.
Qed.

Lemma request_client w r e w' : IS_request submit_queues w r = Ok (e, w') →
  keeps_client (sess w) (sess w').
Proof.
  unfold IS_request. intros H. res_split. apply count_op_client in Ha.
  set (w1 := w <| sess := a |>) in *. change a with (sess w1) in Ha. transitivity (sess w1); [done|].
  destruct (_ =? end_index_of r).
  - res_split. destruct (_ =? NO_CB_MAPPED); [by eapply disk_ok_client|]. res_split.
    destruct (_ =? -1); [by eapply disk_ok_client|]. res_split.
    repeat case_match; res_split; repeat case_match;
      first [by eapply disk_ok_client | by eapply moves_client, transfer_conns].
  - res_split. apply clear_side_client in Ha2, Ha3. apply disk_ok_client in H. cbn [sess upd] in *.
    transitivity a2; [done|]. by transitivity a3.
Qed.

Lemma buf_store_conns w b k pg w' : buf_store w b k pg = Ok w' → ctx_moves (sess w) (sess w').
Proof.
  unfold buf_store. intros H. destruct b; [injection H as <-; apply ctx_moves_refl|].
  res_split. conns.
Qed.

Lemma disk_io_conns x d x' : disk_io x d = Ok x' → ctx_moves (sess (dev x)) (sess (dev x')).
Proof.
  unfold disk_io, for_upto. intros H.
  eapply (for_from_pres (λ y, ctx_moves (sess (dev x)) (sess (dev y)))) in H;
    [done | | apply ctx_moves_refl].
  clear. intros i y y' Hy H. cbv beta in H. destruct (bi_write d); res_split; injection H as <-; [done|].
  apply buf_store_conns in Ha. cbn. by eapply ctx_moves_trans.
Qed.

Lemma nic_io_conns x po x' : nic_io x po = Ok x' → ctx_moves (sess (dev x)) (sess (dev x')).
Proof.
  unfold nic_io, for_upto. intros H.
  eapply (for_from_pres (λ y, ctx_moves (sess (dev x)) (sess (dev y)))) in H;
    [done | | apply ctx_moves_refl].
  clear. intros i y y' Hy H. cbv beta in H. destruct (wr_opc (po_wr po)); res_split; injection H as <-;
    [|done]. apply buf_store_conns in Ha. cbn. by eapply ctx_moves_trans.
Qed.

Lemma disk_step_client x x' : disk_step x = Ok x' → keeps_client (sess (dev x)) (sess (dev x')).
Proof.
  unfold disk_step. destruct (stackbd_threadfn _) as [st [i|]]; intros H; [|by injection H as <-].
  res_split. injection H as <-. apply disk_io_conns in Ha. apply effect_conns in Ha1. cbn in *.
  eapply moves_client, ctx_moves_trans; done.
Qed.

Lemma read_done_conns w p w' : client_read_done w p = Ok w' → ctx_moves (sess w) (sess w').
Proof. unfold client_read_done. intros H. res_split. injection H as <-. cbn. conns. Qed.

Lemma write_done_client w p w' : client_write_done w p = Ok w' → keeps_client (sess w) (sess w').
Proof.
  unfold client_write_done. intros H. res_split. destruct (chunk_ptr a) as [[cb ci]|]; [|by injection H as <-].
  res_split. apply with_ctx_conns in Ha0, Ha2. apply update_bitmap_client in Ha1; [|apply group_set_keeps].
  cbn [sess upd] in *. transitivity (sess a0); [by apply moves_client|].
  transitivity a1; [done|]. transitivity (sess a2); [by apply moves_client|].
  destruct (req a); [|by injection H as <-]. res_split. apply with_ctx_conns in Ha3. injection H as <-.
  by apply moves_client.
Qed.

Lemma nic_step_client x x' : nic_step x = Ok x' → keeps_client (sess (dev x)) (sess (dev x')).
Proof.
  unfold nic_step. destruct (posted (dev x)) as [|po rest]; intros H; [by injection H as <-|].
  res_split. injection H as <-. apply nic_io_conns in Ha. cbn [dev sess upd] in *.
  transitivity (sess (dev a)); [by apply moves_client|].
  destruct (wr_opc (po_wr po)); [by eapply moves_client, read_done_conns | by eapply write_done_client].
Qed.

Lemma io_step_client m m' : io_step submit_queues m m' →
  keeps_client (sess (dev (wd m))) (sess (dev (wd m'))).
Proof.
  intros [x v b r a pg w Hr Hh Hap Hno Hq|x v b h Hh|x x' v b Hne Hs|x x' v b l1 po l2 El Hs]; cbn.
  - apply queue_rq_inv in Hq. by eapply request_client.
  - done.
  - by apply disk_step_client.
  - by apply nic_step_client in Hs.
Qed.

(** * Creation *)

(** A session starts without contexts. *)
Lemma created_free conn_ok portal s conn cb :
  IS_session_create conn_ok submit_queues portal = Ok (0, Some s) → free_at s conn cb = None.
Proof.
  unfold IS_session_create. intros H. res_split. destruct a as [n portals].
  destruct (forallb _ _); [|done]. injection H as <-. unfold free_at, pool_at. cbn.
  destruct (zget (_ <$> seqZ 0 submit_queues) conn) as [c|] eqn:E; [|done].
  apply zget_In, list_elem_of_fmap in E as (i & -> & _). cbn.
  destruct (zget (replicate _ empty_pool) cb) as [p|] eqn:E; [|done].
  by apply zget_In, elem_of_replicate in E as [-> _].
Qed.

Lemma created_owned conn_ok portal s :
  IS_session_create conn_ok submit_queues portal = Ok (0, Some s) → pools_owned s [] ∧ ctxs_ok s.
Proof.
  intros H. split; [split|].
  - intros p Hp. by apply elem_of_nil in Hp.
  - intros conn cb fc Hf. by rewrite (created_free _ _ _ _ _ H) in Hf.
  - intros p [fc Hf]. by rewrite (created_free _ _ _ _ _ H) in Hf.
Qed.

End IoInv.
