(* ===== verification/Disconnect.v ===== *)
(** A lost server ([is_main.c], [IS_disconnect_handler]): its chunks go back to the unmapped
    ones, its reads in flight go to the disk and its writes in flight end, and other servers
    are asked for its chunks. *)

From Stdlib Require Import ZArith Lia Ascii.
From stdpp Require Import functions base tactics list numbers option gmap.
From S2P Require Import Prelude Types ByteOrder Bitmap CtxPool Stackbd Request Views ChunkMap.
From S2P Require Import MapInv World Transfer Servers Pages Session Eviction Select Trigger.
From S2P Require Import MapSafety Completion Coherence Volume Mapping IoInv.

(** * Loops over a list of contexts *)

Fixpoint each {A S} (body : A → S → res S) (l : list A) (s : S) : res S :=
  match l with
  | [] => Ok s
  | x :: l => let* s := body x s in each body l s
  end.

Lemma each_app {A S} (body : A → S → res S) l k s :
  each body (l ++ k) s = let* s := each body l s in each body k s.
Proof.
  revert s. induction l as [|x l IH]; intros s; simpl; [done|].
  destruct (body x s); simpl; [apply IH | done].
Qed.

Lemma each_fmap {A B S} (f : A → B) (body : B → S → res S) l s :
  each body (f <$> l) s = each (λ x, body (f x)) l s.
Proof.
  revert s. induction l as [|x l IH]; intros s; simpl; [done|].
  destruct (body (f x) s); simpl; [apply IH | done].
Qed.

Lemma for_from_each {S} (body : Z → S → res S) n : ∀ lo s,
  for_from lo n body s = each body (seqZ lo (Z.of_nat n)) s.
Proof.
  induction n as [|n IH]; intros lo s; simpl; [done|].
  rewrite (seqZ_cons lo) by lia. simpl. destruct (body lo s); [|done]. simpl.
  rewrite IH. by replace (Z.pred (Z.of_nat (Datatypes.S n))) with (Z.of_nat n) by lia.
Qed.

Lemma for_upto_each {S} (body : Z → S → res S) n s : 0 ≤ n →
  for_upto n body s = each body (seqZ 0 n) s.
Proof. intros Hn. unfold for_upto. by rewrite for_from_each, Z2Nat.id by done. Qed.

Lemma each_ext {A S} (f g : A → S → res S) l s : (∀ x s, f x s = g x s) → each f l s = each g l s.
Proof.
  intros H. revert s. induction l as [|x l IH]; intros s; simpl; [done|]. rewrite H.
  destruct (g x s); simpl; [apply IH | done].
Qed.

Lemma each_concat {A S} (body : A → S → res S) ls s :
  each body (concat ls) s = each (each body) ls s.
Proof.
  revert s. induction ls as [|l ls IH]; intros s; simpl; [done|]. rewrite each_app.
  destruct (each body l s); simpl; [apply IH | done].
Qed.

Section Disconnect.
Context `{C : Config} `{BL : BlockLayer} `{V : Verbs}.
Variable submit_queues : Z.

(** * Requests in flight *)

(** The contexts of one server, in the order of the handler's loops. *)
Definition pool_ptrs (cb i : Z) : list ctx_ptr :=
  (λ j, {| p_conn := i; p_cb := cb; p_idx := j |}) <$> seqZ 0 IS_QUEUE_DEPTH.
Definition server_ptrs (cb : Z) : list ctx_ptr := concat (pool_ptrs cb <$> seqZ 0 submit_queues).

Lemma elem_of_server_ptrs cb p : p ∈ server_ptrs cb ↔
  p_cb p = cb ∧ 0 ≤ p_conn p < submit_queues ∧ 0 ≤ p_idx p < IS_QUEUE_DEPTH.
Proof.
  unfold server_ptrs, pool_ptrs. rewrite list_elem_of_In, in_concat. split.
  - intros (l & Hl & Hp). apply list_elem_of_In, list_elem_of_fmap in Hl as (i & -> & Hi).
    apply list_elem_of_In, list_elem_of_fmap in Hp as (j & -> & Hj).
    apply elem_of_seqZ in Hi, Hj. simpl. lia.
  - intros (Hc & Hi & Hj). eexists. rewrite <- !list_elem_of_In. split.
    + apply list_elem_of_fmap. exists (p_conn p). split; [done|]. apply elem_of_seqZ. lia.
    + apply list_elem_of_fmap. exists (p_idx p). split; [destruct p; simpl in *; by subst|].
      apply elem_of_seqZ. lia.
Qed.

Lemma NoDup_server_ptrs cb : NoDup (server_ptrs cb).
Proof.
  unfold server_ptrs. assert (NoDup (seqZ 0 submit_queues)) as Hn by apply NoDup_seqZ.
  induction (seqZ 0 submit_queues) as [|i l IH]; [constructor|].
  change (NoDup (pool_ptrs cb i ++ concat (pool_ptrs cb <$> l))).
  apply NoDup_cons in Hn as [Hi Hn]. apply NoDup_app. split_and!.
  - apply NoDup_fmap_2; [intros j k E; by injection E | apply NoDup_seqZ].
  - intros p Hp Hq. apply list_elem_of_fmap in Hp as (j & -> & _).
    apply list_elem_of_In, in_concat in Hq as (k & Hk & Hq).
    apply list_elem_of_In, list_elem_of_fmap in Hk as (i' & -> & Hi').
    apply list_elem_of_In, list_elem_of_fmap in Hq as (j' & [= -> _] & _). done.
  - by apply IH.
Qed.

Lemma settle_each w cb : 0 ≤ submit_queues →
  settle_in_flight submit_queues w cb = each (λ p w, settle_ctx w p) (server_ptrs cb) w.
Proof.
  intros Hsq. unfold settle_in_flight, server_ptrs. rewrite for_upto_each, each_concat, each_fmap
    by done. apply each_ext. intros i w'. rewrite for_upto_each by done.
  unfold pool_ptrs. by rewrite each_fmap.
Qed.

(** What becomes of the request of a context. *)
Definition to_queue (s : IS_session) (p : ctx_ptr) : list bio :=
  match ctx_at s p with
  | Some c => if in_flight c =? CTX_R_IN_FLIGHT
              then match req c with Some r => queue_of IS_stackbd_end_io2 r (rq_bio r) | None => [] end
              else []
  | None => []
  end.

Definition to_end (s : IS_session) (p : ctx_ptr) : list (request * Z) :=
  match ctx_at s p with
  | Some c => if in_flight c =? CTX_W_IN_FLIGHT
              then match req c with Some r => [(r, 0)] | None => [] end
              else []
  | None => []
  end.

(** A context whose read is in flight is held by it and has its request. *)
Definition settleable (s : IS_session) (held : list ctx_ptr) (p : ctx_ptr) : Prop :=
  ∃ c, ctx_at s p = Some c ∧
    (in_flight c = CTX_R_IN_FLIGHT →
     p ∈ held ∧ ∃ r, req c = Some r ∧ rq_wf r ∧ clones_ok (rq_bio r)).

(** What settling leaves alone. *)
Record settled_like (w w' : bd) : Prop := {
  sl_sess : same_but_conns (sess w) (sess w');
  sl_ready : stackbd_ready (stackbd w') = stackbd_ready (stackbd w);
  sl_host : host w' = host w;
  sl_posted : posted w' = posted w;
  sl_free conn cb : is_Some (free_at (sess w') conn cb) ↔ is_Some (free_at (sess w) conn cb);
}.

Lemma settle_ctx_ok w p held : pools_owned (sess w) held → settleable (sess w) held p →
  stackbd_ready (stackbd w) = true →
  ∃ w' held', settle_ctx w p = Ok w' ∧ settled_like w w' ∧ pools_owned (sess w') held' ∧
    (∀ q, q ≠ p → q ∈ held → q ∈ held') ∧
    (∀ q, q ≠ p → ctx_at (sess w') q = ctx_at (sess w) q) ∧
    bio_list (stackbd w') = bio_list (stackbd w) ++ to_queue (sess w) p ∧
    ended w' = ended w ++ to_end (sess w) p.
Proof.
  intros Ho (c & Hc & Hr) Hready. unfold settle_ctx, to_queue, to_end.
  rewrite (read_ctx_at _ _ _ Hc), Hc. cbn [res_bind].
  destruct (with_ctx_at w p c (λ c, c <| in_flight := CTX_IDLE |>) Hc) as (s1 & Ew & Hu).
  pose proof Hu as (Hs1 & Hq1 & Hf1).
  destruct (Z.eqb_spec (in_flight c) CTX_R_IN_FLIGHT) as [E|E].
  - rewrite E. cbn [Z.eqb]. destruct (Hr E) as (Hin & r & Hreq & Hrwf & Hcl).
    rewrite Ew. cbn [res_bind]. rewrite Hreq. cbn [deref res_bind]. unfold to_disk2,
      IS_mq_request_stackbd2, stackbd_make_request4. cbn [stackbd upd].
    rewrite make_request_queue by done. cbn [res_bind apply_effect].
    apply list_elem_of_split in Hin as (l1 & l2 & Hsp). set (held' := l1 ++ l2).
    assert (held ≡ₚ p :: held') as Hh by (rewrite Hsp; symmetry; apply Permutation_middle).
    assert (pools_owned s1 (p :: held')) as Ho1.
    { rewrite <- Hh. by eapply ctx_upd_owned. }
    destruct (insert_ctx_owned s1 held' p Ho1) as (s2 & Hins & Ho2 & Hs2 & Hq2 & Hf2).
    unfold IS_insert. cbn [sess upd]. rewrite Hins. cbn [res_bind]. eexists _, held'.
    split; [done|]. split.
    { split; try done; cbn; [by eapply same_but_conns_trans|].
      intros conn cb. rewrite Hf2. by rewrite Hf1. }
    cbn. split_and!; [done | | | done | by rewrite app_nil_r].
    + intros q Hne Hq. rewrite Hh in Hq. by apply elem_of_cons in Hq as [?|?].
    + intros q Hne. rewrite Hq2, Hq1, decide_False; congruence.
  - destruct (Z.eqb_spec (in_flight c) CTX_W_IN_FLIGHT) as [E2|E2].
    + rewrite Ew. cbn [res_bind].
      assert (settled_like w (w <| sess := s1 |>)) as Hl.
      { split; try done. intros conn cb. cbn. by rewrite Hf1. }
      destruct (req c) as [r|]; eexists _, held; (split; [done|]); (split; [destruct Hl; by split|]);
        cbn; rewrite ?app_nil_r; split_and!; try done; try (by eapply ctx_upd_owned);
        intros q Hne; rewrite Hq1, decide_False; congruence.
    + exists w, held. rewrite !app_nil_r. split_and!; try done. split; try done.
      apply same_but_conns_refl.
Qed.

Lemma settle_list_ok ps : ∀ w held, NoDup ps → pools_owned (sess w) held →
  (∀ p, p ∈ ps → settleable (sess w) held p) → stackbd_ready (stackbd w) = true →
  ∃ w' held', each (λ p w, settle_ctx w p) ps w = Ok w' ∧ settled_like w w' ∧
    pools_owned (sess w') held' ∧
    bio_list (stackbd w') = bio_list (stackbd w) ++ concat (to_queue (sess w) <$> ps) ∧
    ended w' = ended w ++ concat (to_end (sess w) <$> ps).
Proof.
  induction ps as [|p ps IH]; intros w held Hn Ho Hs Hr; simpl.
  { exists w, held. rewrite !app_nil_r. split_and!; try done. split; try done.
    apply same_but_conns_refl. }
  apply NoDup_cons in Hn as [Hp Hn].
  destruct (settle_ctx_ok w p held Ho) as (w1 & held1 & -> & L1 & Ho1 & Hh1 & Hc1 & Hb1 & He1);
    [apply Hs; by left | done|]. cbn [res_bind].
  assert (∀ q, q ∈ ps → q ≠ p) as Hne by (intros q Hq ->; done).
  destruct (IH w1 held1) as (w2 & held2 & -> & L2 & Ho2 & Hb2 & He2); try done.
  - intros q Hq. destruct (Hs q) as (c & Hc & Hrd); [by right|]. exists c.
    rewrite Hc1 by auto. split; [done|]. intros E. destruct (Hrd E) as [Hin ?].
    split; [by apply Hh1; auto | done].
  - rewrite (sl_ready _ _ L1). done.
  - exists w2, held2. split; [done|].
    assert ((to_queue (sess w1) <$> ps) = (to_queue (sess w) <$> ps) ∧
            (to_end (sess w1) <$> ps) = (to_end (sess w) <$> ps)) as [E1 E2].
    { split; apply list_fmap_ext; intros j q Hq%list_elem_of_lookup_2;
        unfold to_queue, to_end; by rewrite Hc1 by auto. }
    split_and!; [|done| |].
    + destruct L1 as [A1 A2 A3 A4 A5], L2 as [B1 B2 B3 B4 B5]. split; try congruence.
      * by eapply same_but_conns_trans.
      * intros conn cb. by rewrite B5.
    + by rewrite Hb2, Hb1, E1, <- app_assoc.
    + by rewrite He2, He1, E2, <- app_assoc.
Qed.

(** Settling moves contexts and nothing else of the session. *)
Lemma settle_ctx_moves w p w' : settle_ctx w p = Ok w' → ctx_moves (sess w) (sess w').
Proof.
  unfold settle_ctx. intros H. res_split. destruct (_ =? CTX_R_IN_FLIGHT); res_split.
  - apply with_ctx_conns in Ha0. apply to_disk2_conns in Ha2. apply insert_conns in H.
    eauto using ctx_moves_trans.
  - destruct (_ =? CTX_W_IN_FLIGHT); [|injection H as <-; apply ctx_moves_refl].
    res_split. apply with_ctx_conns in Ha0. destruct (req a); by injection H as <-.
Qed.

Lemma settle_list_moves ps : ∀ w w', each (λ p w, settle_ctx w p) ps w = Ok w' →
  ctx_moves (sess w) (sess w').
Proof.
  induction ps as [|p ps IH]; cbn [each]; intros w w' H; [injection H as <-; apply ctx_moves_refl|].
  res_split. apply settle_ctx_moves in Ha. eauto using ctx_moves_trans.
Qed.

(** * The chunks of the lost server *)

(** Slot [j] of [c], below [i], serves [gb]. *)
Definition slot_below (c : kernel_cb) (i gb : Z) : Prop :=
  ∃ j, 0 ≤ j < i ∧ zget (chunk_map (remote_chunk c)) j = Some gb ∧ gb ≠ -1.

(** After [i] slots of [drop_chunks]: their chunks are routed nowhere and marked. *)
Record dropped (s : IS_session) (cb : Z) (c : kernel_cb) (i : Z) (s' : IS_session) (ev : list Z)
  : Prop := {
  dr_sess : ∃ im cl rm, s' = s <| cb_index_map := im |>
      <| cb_list := zset (cb_list s) cb (with_chunks c cl rm) |> ∧ cb_wf cb (with_chunks c cl rm) ∧
    len im = STACKBD_SIZE_G ∧
    (∀ gb, slot_below c i gb → zget im gb = Some NO_CB_MAPPED) ∧
    (∀ gb, ¬ slot_below c i gb → zget im gb = zget (cb_index_map s) gb);
  dr_evlen : len ev = STACKBD_SIZE_G;
  dr_ev gb : zget ev gb = Some 1 ↔ slot_below c i gb;
}.

Lemma slot_below_S c i gb : 0 ≤ i → slot_below c (i + 1) gb ↔
  slot_below c i gb ∨ (zget (chunk_map (remote_chunk c)) i = Some gb ∧ gb ≠ -1).
Proof.
  intros Hi. split.
  - intros (j & Hj & Hg & Hne). destruct (decide (j = i)) as [->|]; [by right|].
    left. exists j. split; [lia | done].
  - intros [(j & Hj & ?)|?]; [exists j | exists i]; (split; [lia | done]).
Qed.

Lemma drop_chunks_ok s cb c : map_inv s → zget (cb_list s) cb = Some c → cb_wf cb c →
  ∃ s' ev, drop_chunks s cb (replicate (Z.to_nat STACKBD_SIZE_G) (-1)) = Ok (s', ev) ∧
    dropped s cb c MAX_MR_SIZE_GB s' ev.
Proof.
  intros Hinv Hc Hwf. pose proof stackbd_size_pos. pose proof max_mr_pos. unfold drop_chunks.
  match goal with |- context [for_upto _ ?b ?s0] =>
    destruct (for_upto_inv (λ i st, dropped s cb c i st.1 st.2) b MAX_MR_SIZE_GB s0)
      as ([s' ev] & -> & Hd); [lia | | | by exists s', ev] end.
  - split; simpl.
    + exists (cb_index_map s), (chunk_list (remote_chunk c)), (remote_mapped (remote_chunk c)).
      assert (with_chunks c (chunk_list (remote_chunk c)) (remote_mapped (remote_chunk c)) = c) as E
        by (unfold with_chunks; destruct c as [? ? ? [] ? ? ?]; done).
      rewrite E, zset_id by done. split_and!; [by destruct s | done | apply Hinv | | done].
      intros gb (j & Hj & _). lia.
    + apply len_replicate. lia.
    + intros gb. split.
      * intros [? _]%zget_In%elem_of_replicate. lia.
      * intros (j & Hj & _). lia.
  - intros i [s' ev] Hi [(im & cl & rm & Es & Hw & Hlim & H1 & H2) Hel Hev]. cbn [fst snd] in *.
    assert (zget (cb_list s') cb = Some (with_chunks c cl rm)) as Hc'.
    { rewrite Es. cbn. apply zget_zset_eq. eauto with zarr. }
    rewrite (read_cb_at _ _ _ Hc'). cbn [res_bind].
    change (chunk_map (remote_chunk (with_chunks c cl rm))) with (chunk_map (remote_chunk c)).
    destruct (zget_is_Some (chunk_map (remote_chunk c)) i) as [k Hk];
      [rewrite (cw_map _ _ Hwf); lia|].
    rewrite (rd_ok _ _ _ Hk). cbn [res_bind]. destruct (Z.eqb_spec k (-1)) as [->|Hne].
    + eexists. split; [done|]. cbn [fst snd].
      assert (∀ gb, slot_below c (i + 1) gb ↔ slot_below c i gb) as Hsb.
      { intros gb. rewrite slot_below_S by lia. rewrite Hk.
        split; [intros [?|[[= <-] ?]]; done | by left]. }
      split; [|done|intros gb; by rewrite Hsb]. exists im, cl, rm. split_and!; try done;
        intros gb; rewrite Hsb; auto.
    + destruct (mi_bwd _ Hinv cb i k) as [Hb1 Hb2]; [by apply (serves_at _ _ _ _ _ Hc)|].
      pose proof (zget_Some_range _ _ _ Hb1) as Hkr. rewrite (mi_index _ Hinv) in Hkr.
      rewrite wr_ok by lia. cbn [res_bind].
      destruct (cw_bitmaps _ _ Hw i k Hk Hne) as (ck & bm & Hck & Hbm & Hbw).
      rewrite (rd_ok _ _ _ Hck). cbn [res_bind]. rewrite Hbm. cbn [deref res_bind].
      rewrite (bitmap_init_alloc _ Hbw). cbn [res_bind]. rewrite wr_ok by eauto with zarr.
      cbn [res_bind]. rewrite wr_ok by (rewrite (cw_mapped _ _ Hw); lia). cbn [res_bind].
      rewrite Es. cbn [cb_index_map upd]. rewrite wr_ok by lia. cbn [res_bind].
      rewrite (write_cb_at _ cb (with_chunks c cl rm)) by (rewrite Es in Hc'; exact Hc').
      cbn [res_bind]. eexists. split; [done|]. cbn [fst snd cb_list upd]. rewrite zset_zset.
      split; [|by rewrite len_zset|].
      * eexists (zset im k NO_CB_MAPPED),
          (zset cl i (ck <| bitmap_g := Some bitmap_alloc |>)), (zset rm i CHUNK_UNMAPPED).
        split; [done|]. split.
        { destruct Hw as [? ? ? ? ? ? Hb]. split; cbn in *; rewrite ?len_zset; try done.
          intros ci gb Hci Hn. rewrite zget_zset. case_decide; [|eauto]. eexists _, _.
          split_and!; [done | done | apply bitmap_wf_alloc]. }
        split; [by rewrite len_zset|]. split; intros gb; rewrite slot_below_S, Hk by lia.
        -- rewrite zget_zset. case_decide as Hd; [done|]. intros [?|[[= ->] _]]; [auto|].
           exfalso. apply Hd. lia.
        -- intros Hn. rewrite zget_zset_ne; [apply H2; tauto|]. intros ->. apply Hn. by right.
      * intros gb. rewrite slot_below_S, Hk, <- Hev, zget_zset by lia. case_decide as Hd.
        -- destruct Hd as [<- _]. split; [by right | done].
        -- split; [by left|]. intros [?|[[= ->] _]]; [done|]. exfalso. apply Hd. lia.
Qed.

(** ** Giving the chunks back *)

Definition with_map (c : kernel_cb) (cm : list Z) : kernel_cb :=
  c <| remote_chunk := remote_chunk c <| chunk_map := cm |> |>.

(** Slot [j] of [c], from [i] on, serves [gb]. *)
Definition slot_from (c : kernel_cb) (i gb : Z) : Prop :=
  ∃ j, i ≤ j ∧ zget (chunk_map (remote_chunk c)) j = Some gb ∧ gb ≠ -1.

(** After [i] slots of [release_chunks]: the maps are those of a session in which these slots
    serve nothing ([im] is its routing), but that the chunks of the slots still to come are
    already routed nowhere. *)
Record released (s : IS_session) (cb : Z) (c : kernel_cb) (i : Z) (s' : IS_session)
  (cm im : list Z) : Prop := {
  rl_sess : ∃ cc fi ul, s' = s <| chunk_map_cb_chunk := cc |> <| free_chunk_index := fi |>
      <| unmapped_chunk_list := ul |> <| cb_list := zset (cb_list s) cb (with_map c cm) |>;
  rl_inv : map_inv (s' <| cb_index_map := im |>);
  rl_wf : cb_wf cb (with_map c cm);
  rl_rest j : i ≤ j → zget cm j = zget (chunk_map (remote_chunk c)) j;
  rl_from gb : slot_from c i gb → zget (cb_index_map s) gb = Some NO_CB_MAPPED;
  rl_else gb : ¬ slot_from c i gb → zget (cb_index_map s) gb = zget im gb;
  rl_done gb : slot_below c i gb → unmapped s' gb;
  rl_keep gb : ¬ slot_below c i gb →
    zget (chunk_map_cb_chunk s') gb = zget (chunk_map_cb_chunk s) gb;
}.

Lemma unmap_chunk_frame s s' im cl k : unmap_chunk (s <| cb_index_map := im |> <| cb_list := cl |>) k = Ok s' →
  ∃ cc fi ul, unmap_chunk s k = Ok (s <| chunk_map_cb_chunk := cc |> <| free_chunk_index := fi |>
      <| unmapped_chunk_list := ul |>) ∧
    s' = s <| chunk_map_cb_chunk := cc |> <| free_chunk_index := fi |>
           <| unmapped_chunk_list := ul |> <| cb_index_map := im |> <| cb_list := cl |>.
Proof.
  unfold unmap_chunk. cbn. intros H. res_split. injection H as <-. rewrite Ha. cbn.
  rewrite Ha0. cbn. by eexists _, _, _.
Qed.

Lemma slot_from_S c i gb : slot_from c i gb ↔
  slot_from c (i + 1) gb ∨ (zget (chunk_map (remote_chunk c)) i = Some gb ∧ gb ≠ -1).
Proof.
  split.
  - intros (j & Hj & Hg). destruct (decide (j = i)) as [->|]; [by right|].
    left. exists j. split; [lia | done].
  - intros [(j & Hj & ?)|?]; [exists j | exists i]; (split; [lia | done]).
Qed.

(** One slot that serves a chunk. *)
Lemma release_slot s cb c i s' cm im k : zget (cb_list s) cb = Some c → 0 ≤ i →
  released s cb c i s' cm im → zget (chunk_map (remote_chunk c)) i = Some k → k ≠ -1 →
  ∃ s1 s2, unmap_chunk s' k = Ok s1 ∧
    write_cb s1 cb (with_map c (zset cm i (-1))) = Ok s2 ∧
    released s cb c (i + 1) s2 (zset cm i (-1)) (zset im k NO_CB_MAPPED).
Proof.
  intros Hc Hi0 [(cc & fi & ul & Es) Hinv Hwf Hrest Hfrom Helse Hdone Hkeep] Hk Hne.
  set (σ := s' <| cb_index_map := im |>) in *.
  assert (zget (cb_list σ) cb = Some (with_map c cm)) as Hcσ.
  { subst σ. rewrite Es. cbn. apply zget_zset_eq. eauto with zarr. }
  assert (zget cm i = Some k) as Hcm by (by rewrite Hrest).
  destruct (mi_bwd _ Hinv cb i k) as [Hb1 Hb2]; [by apply (serves_at _ _ _ _ _ Hcσ)|].
  assert (cb_wf cb (with_map c (zset cm i (-1)))) as Hwf'.
  { destruct Hwf as [? ? ? ? ? ? Hb]. split; cbn in *; rewrite ?len_zset; try done.
    intros ci gb. rewrite zget_zset. case_decide; [by intros [= <-] ?|]. apply Hb. }
  assert (map_inv (s' <| cb_index_map := zset im k NO_CB_MAPPED |>
    <| cb_list := zset (cb_list s') cb (with_map c (zset cm i (-1))) |>)) as Hinv1.
  { eapply (cancel_inv σ _ cb (with_map c cm) (with_map c (zset cm i (-1))) i k); done. }
  destruct (unmap_chunk_ok _ k i Hinv1) as (σ2 & n2 & ul2 & E2 & Hinv2 & Hu2 & Eσ).
  { cbn. rewrite zget_zset_eq; [done | eauto with zarr]. }
  { exact Hb2. }
  { lia. }
  assert (chunk_map_cb_chunk σ2 = zset (chunk_map_cb_chunk s') k (-1)) as Ec2 by (by rewrite Eσ).
  clear Eσ. destruct (unmap_chunk_frame _ _ _ _ _ E2) as (cc' & fi' & ul' & Eu & ->).
  exists (s' <| chunk_map_cb_chunk := cc' |> <| free_chunk_index := fi' |> <| unmapped_chunk_list := ul' |>).
  rewrite (write_cb_at _ cb (with_map c cm)) by exact Hcσ.
  eexists. split; [exact Eu|]. split; [done|]. cbn in Ec2.
  assert (zget (cb_index_map s) k = Some NO_CB_MAPPED) as Hk0.
  { apply Hfrom. exists i. split; [lia | done]. }
  split.
  - exists cc', fi', ul'. rewrite Es. cbn. by rewrite zset_zset.
  - exact Hinv2.
  - done.
  - intros j Hj. rewrite zget_zset_ne by lia. apply Hrest. lia.
  - intros gb Hg. apply Hfrom, slot_from_S. by left.
  - intros gb Hg. rewrite zget_zset. case_decide as Hd; [by destruct Hd as [<- _]|].
    apply Helse. rewrite slot_from_S. intros [?|[E ?]]; [done|]. apply Hd.
    rewrite Hk in E. injection E as ->. split; [done | eauto with zarr].
  - intros gb. rewrite slot_below_S by done. intros [Hg|[Hg _]].
    + destruct (Hdone gb Hg) as [U1 U2]. split; [done|]. cbn.
      rewrite Ec2, zget_zset. case_decide; [done | exact U2].
    + rewrite Hk in Hg. injection Hg as <-. destruct Hu2 as [_ U2]. split; [|done].
      rewrite Es. exact Hk0.
  - intros gb. rewrite slot_below_S by done. intros Hg. cbn. rewrite Ec2, zget_zset_ne.
    + apply Hkeep. tauto.
    + intros ->. apply Hg. by right.
Qed.

Lemma release_chunks_ok s im0 cb c : map_inv (s <| cb_index_map := im0 |>) →
  zget (cb_list s) cb = Some c → cb_wf cb c → len (cb_index_map s) = STACKBD_SIZE_G →
  (∀ gb, slot_below c MAX_MR_SIZE_GB gb → zget (cb_index_map s) gb = Some NO_CB_MAPPED) →
  (∀ gb, ¬ slot_below c MAX_MR_SIZE_GB gb → zget (cb_index_map s) gb = zget im0 gb) →
  ∃ s', release_chunks s cb = Ok s' ∧ map_inv s' ∧
    (∃ cc fi ul cm, s' = s <| chunk_map_cb_chunk := cc |> <| free_chunk_index := fi |>
      <| unmapped_chunk_list := ul |> <| cb_list := zset (cb_list s) cb (with_map c cm) |>) ∧
    (∀ gb, slot_below c MAX_MR_SIZE_GB gb → unmapped s' gb) ∧
    (∀ gb, ¬ slot_below c MAX_MR_SIZE_GB gb →
       zget (chunk_map_cb_chunk s') gb = zget (chunk_map_cb_chunk s) gb).
Proof.
  intros Hinv Hc Hwf Hlen H1 H2. pose proof max_mr_pos.
  assert (∀ gb, slot_from c 0 gb ↔ slot_below c MAX_MR_SIZE_GB gb) as Hsf.
  { intros gb. split; intros (j & Hj & Hg & ?); exists j; (split; [|done]);
      apply zget_Some_range in Hg; rewrite (cw_map _ _ Hwf) in Hg; lia. }
  unfold release_chunks.
  match goal with |- context [for_upto _ ?b ?s0] =>
    destruct (for_upto_inv (λ i s', ∃ cm im, released s cb c i s' cm im) b MAX_MR_SIZE_GB s0)
      as (s' & -> & cm & im & [(cc & fi & ul & Es) Hi Hw _ _ Helse Hdone Hkeep]); [lia | | |] end.
  - exists (chunk_map (remote_chunk c)), im0.
    assert (with_map c (chunk_map (remote_chunk c)) = c) as E
      by (unfold with_map; destruct c as [? ? ? [] ? ? ?]; done).
    split; try done.
    + exists (chunk_map_cb_chunk s), (free_chunk_index s), (unmapped_chunk_list s).
      rewrite E, zset_id by done. by destruct s.
    + by rewrite E.
    + intros gb Hg. by apply H1, Hsf.
    + intros gb Hg. apply H2. by rewrite <- Hsf.
    + intros gb (j & Hj & _). lia.
  - intros i s' Hi (cm & im & Hr).
    assert (zget (cb_list s') cb = Some (with_map c cm)) as Hc'.
    { destruct (rl_sess _ _ _ _ _ _ _ Hr) as (? & ? & ? & ->). cbn. apply zget_zset_eq.
      eauto with zarr. }
    rewrite (read_cb_at _ _ _ Hc'). cbn [res_bind].
    destruct (zget_is_Some (chunk_map (remote_chunk c)) i) as [k Hk];
      [rewrite (cw_map _ _ Hwf); lia|].
    assert (zget (chunk_map (remote_chunk (with_map c cm))) i = Some k) as Hcm
      by (cbn; by rewrite (rl_rest _ _ _ _ _ _ _ Hr)).
    rewrite (rd_ok _ _ _ Hcm). cbn [res_bind]. destruct (Z.eqb_spec k (-1)) as [->|Hne].
    + exists s'. split; [done|]. exists cm, im.
      assert (∀ gb, slot_from c i gb ↔ slot_from c (i + 1) gb) as Hsf'.
      { intros gb. rewrite (slot_from_S c i), Hk. split; [intros [?|[[= <-] ?]]; done | by left]. }
      destruct Hr as [R1 R2 R3 R4 R5 R6 R7 R8]. split; try done.
      * intros j Hj. apply R4. lia.
      * intros gb Hg. by apply R5, Hsf'.
      * intros gb Hg. apply R6. by rewrite Hsf'.
      * intros gb. rewrite slot_below_S, Hk by lia. intros [?|[[= <-] ?]]; [by apply R7 | done].
      * intros gb. rewrite slot_below_S by lia. intros Hg. apply R8. tauto.
    + destruct (release_slot s cb c i s' cm im k) as (s1 & s2 & E1 & E2 & Hr2); [done | lia | done..|].
      rewrite E1. cbn [res_bind]. cbn [chunk_map remote_chunk with_map upd] in *.
      rewrite wr_ok by (pose proof (cw_map _ _ (rl_wf _ _ _ _ _ _ _ Hr)) as E; cbn in E; lia).
      cbn [res_bind]. exists s2. split; [exact E2 | eauto].
  - exists s'. split; [done|].
    assert (im = cb_index_map s) as ->.
    { symmetry. pose proof (mi_index _ Hi) as Hl. cbn in Hl. apply zlist_eq; [congruence|].
      intros gb _. apply Helse. intros (j & Hj & Hg & _). apply zget_Some_range in Hg.
      rewrite (cw_map _ _ Hwf) in Hg. lia. }
    rewrite Es in *. cbn in *. split_and!; eauto 10.
Qed.

(** ** The pools *)

Lemma free_pools_ok s cb : 0 ≤ submit_queues →
  (∀ i, 0 ≤ i < submit_queues → is_Some (free_at s i cb)) →
  ∃ s', free_pools submit_queues s cb = Ok s' ∧ same_but_conns s s' ∧
    len (IS_conns s') = len (IS_conns s) ∧
    (∀ i, 0 ≤ i < submit_queues → pool_at s' i cb = Some empty_pool) ∧
    (∀ i cb', cb' ≠ cb → pool_at s' i cb' = pool_at s i cb').
Proof.
  intros Hsq Hf. unfold free_pools.
  match goal with |- context [for_upto _ ?b ?s0] =>
    destruct (for_upto_inv (λ i s', same_but_conns s s' ∧ len (IS_conns s') = len (IS_conns s) ∧
      ∀ j cb', pool_at s' j cb' = if decide (cb' = cb ∧ 0 ≤ j < i) then Some empty_pool
        else pool_at s j cb') b submit_queues s0)
      as (s' & -> & ? & ? & Hv); [done | | |] end.
  - split_and!; [apply same_but_conns_refl | done|]. intros j cb'. by rewrite decide_False by lia.
  - intros i s' Hi (Hs & Hl & Hv). destruct (Hf i Hi) as [fc Hfc].
    destruct (free_at_pool _ _ _ _ Hfc) as (p & Hp & Hpf).
    assert (pool_at s' i cb = Some p) as Hp' by (by rewrite Hv, decide_False by lia).
    rewrite (get_pool_at _ _ _ _ Hp'). cbn [res_bind]. rewrite Hpf. cbn [deref res_bind].
    destruct (set_pool_at s' i cb p empty_pool Hp') as (s2 & E & Hs2 & Hp2).
    exists s2. split; [done|].
    split_and!; [by eapply same_but_conns_trans | by rewrite (set_pool_len _ _ _ _ _ E)|].
    intros j cb'. rewrite Hp2, Hv. destruct (decide (cb' = cb)) as [->|Hne].
    + destruct (decide (j = i)) as [->|Hji]; [by rewrite !decide_True by lia|].
      rewrite (decide_False (P := i = j ∧ _)) by lia.
      destruct (decide (0 ≤ j < i)); [by rewrite !decide_True by lia | by rewrite !decide_False by lia].
    + by rewrite !decide_False by (intros [? ?]; congruence).
  - exists s'. split_and!; try done; [intros i Hi; by rewrite Hv, decide_True|].
    intros i cb' Hne. by rewrite Hv, decide_False by tauto.
Qed.

Context (single_chunk_map : IS_session → Z → res IS_session).
Context `{M : !ChunkMapper submit_queues single_chunk_map}.

(** ** Other servers for the chunks *)

(** After the search for the first [i] chunks. *)
Record recovered (ev : list Z) (i : Z) (s s' : IS_session) : Prop := {
  rv_inv : map_inv s';
  rv_servers : servers_ok submit_queues s';
  rv_ahead : ∀ gb, i ≤ gb → zget ev gb = Some 1 → unmapped s' gb;
  rv_others : ∀ gb, zget ev gb ≠ Some 1 → zget (cb_index_map s') gb = zget (cb_index_map s) gb ∧
    zget (chunk_map_cb_chunk s') gb = zget (chunk_map_cb_chunk s) gb;
  rv_found : ∀ gb, zget ev gb = Some 1 → zget (cb_index_map s') gb = Some NO_CB_MAPPED →
    unmapped s' gb;
  rv_rest : remapped s s';
}.

Lemma remap_lost ev s : map_inv s → servers_ok submit_queues s → len ev = STACKBD_SIZE_G →
  (∀ gb, zget ev gb = Some 1 → unmapped s gb) →
  ∃ s', for_upto STACKBD_SIZE_G (λ i s,
      let* e := rd ev i in if e =? 1 then single_chunk_map s i else Ok s) s = Ok s' ∧
    recovered ev STACKBD_SIZE_G s s'.
Proof.
  intros Hinv Hs Hl Hu. pose proof stackbd_size_pos.
  match goal with |- context [for_upto _ ?b ?s0] =>
    destruct (for_upto_inv (λ i s', recovered ev i s s') b STACKBD_SIZE_G s0)
      as (s' & -> & ?); [lia | | | by exists s'] end.
  - by split; auto.
  - intros i s' Hi [Hi' Hs' Hf Hk Hn Hr].
    destruct (zget_is_Some ev i) as [e He]; [lia|]. rewrite (rd_ok _ _ _ He). cbn [res_bind].
    destruct (Z.eqb_spec e 1) as [->|Hne].
    + destruct (mapper_ok s' i Hi' Hs' (Hf i ltac:(lia) He)) as (s2 & -> & Hi2 & Hs2 & [R1 R2 R3]).
      exists s2. split; [done|]. split; [done | done | | | | by transitivity s'].
      * intros gb Hg He'. destruct (R1 gb) as [A1 A2]; [lia|]. unfold unmapped. rewrite A1, A2.
        apply Hf; [lia | done].
      * intros gb Hg. destruct (R1 gb) as [-> ->]; [congruence|]. by apply Hk.
      * intros gb Hg. destruct (decide (gb = i)) as [->|Hne]; [exact R2|].
        destruct (R1 gb Hne) as [A1 A2]. unfold unmapped. rewrite A1, A2. by apply Hn.
    + exists s'. split; [done|]. split; try done. intros gb Hg. apply Hf. lia.
Qed.

(** The chunks a server's slots serve are the chunks routed to it. *)
Lemma slots_routed s cb c gb : map_inv s → zget (cb_list s) cb = Some c → cb_wf cb c →
  slot_below c MAX_MR_SIZE_GB gb ↔ zget (cb_index_map s) gb = Some cb.
Proof.
  intros Hinv Hc Hwf. pose proof (zget_Some_range _ _ _ Hc). split.
  - intros (j & Hj & Hg & Hne). apply (mi_bwd _ Hinv cb j gb). by apply (serves_at _ _ _ _ _ Hc).
  - intros Hg. destruct (mi_fwd _ Hinv gb cb Hg) as (ci & _ & Hs); [unfold NO_CB_MAPPED; lia|].
    apply (serves_at _ _ _ _ _ Hc) in Hs as [Hs Hne]. exists ci. split; [|done].
    apply zget_Some_range in Hs. by rewrite (cw_map _ _ Hwf) in Hs.
Qed.

(** ** The two halves of the handler *)

(** The chunks of [cb], whose control block becomes [c2], are routed nowhere and marked in [ev]. *)
Record gone (s : IS_session) (cb : Z) (c c2 : kernel_cb) (s2 : IS_session) (ev : list Z) : Prop := {
  gn_sess : ∃ im, s2 = s <| cb_index_map := im |> <| cb_list := zset (cb_list s) cb c2 |> ∧
    len im = STACKBD_SIZE_G ∧
    (∀ gb, slot_below c MAX_MR_SIZE_GB gb → zget im gb = Some NO_CB_MAPPED) ∧
    (∀ gb, ¬ slot_below c MAX_MR_SIZE_GB gb → zget im gb = zget (cb_index_map s) gb);
  gn_cb : cb_wf cb c2;
  gn_map : chunk_map (remote_chunk c2) = chunk_map (remote_chunk c);
  gn_evlen : len ev = STACKBD_SIZE_G;
  gn_ev gb : zget ev gb = Some 1 ↔ zget (cb_index_map s) gb = Some cb;
}.

Lemma drop_phase s cb c : map_inv s → zget (cb_list s) cb = Some c → cb_wf cb c →
  ∃ s1 ev s2 c2, drop_chunks s cb (replicate (Z.to_nat STACKBD_SIZE_G) (-1)) = Ok (s1, ev) ∧
    with_cb s1 cb (λ c, c <| remote_chunk ::= λ rc, rc <| chunk_size_g := 0 |> |>) = Ok s2 ∧
    gone s cb c c2 s2 ev.
Proof.
  intros Hinv Hc Hwf. destruct (drop_chunks_ok s cb c Hinv Hc Hwf) as (s1 & ev & E & [Hd Hel Hev]).
  destruct Hd as (im & cl & rm & Es1 & Hw1 & Hlim & Him1 & Him2).
  assert (zget (cb_list s1) cb = Some (with_chunks c cl rm)) as Hc1.
  { rewrite Es1. cbn. apply zget_zset_eq. eauto with zarr. }
  eexists s1, ev, _, _. split; [done|]. rewrite (with_cb_at _ _ _ _ Hc1). split; [done|]. split.
  - exists im. rewrite Es1. cbn. by rewrite zset_zset.
  - destruct Hw1. by split.
  - done.
  - done.
  - intros gb. rewrite Hev. by apply slots_routed.
Qed.

(** The session once the chunks and the contexts of the lost server [cb] are given back; its
    connections were those of [s3] before. *)
Record freed (s : IS_session) (cb : Z) (s3 : IS_session) (ev : list Z) (s5 : IS_session) : Prop := {
  fd_inv : map_inv s5;
  fd_sess : ∃ im cc fi ul c5 cs, s5 = s <| cb_index_map := im |> <| chunk_map_cb_chunk := cc |>
    <| free_chunk_index := fi |> <| unmapped_chunk_list := ul |>
    <| cb_list := zset (cb_list s) cb c5 |> <| IS_conns := cs |>;
  fd_len : len (IS_conns s5) = len (IS_conns s3);
  fd_pools : ∀ i, 0 ≤ i < submit_queues → pool_at s5 i cb = Some empty_pool;
  fd_others : ∀ i cb', cb' ≠ cb → pool_at s5 i cb' = pool_at s3 i cb';
  fd_lost : ∀ gb, zget ev gb = Some 1 → unmapped s5 gb;
  fd_keep : ∀ gb, zget ev gb ≠ Some 1 → zget (cb_index_map s5) gb = zget (cb_index_map s) gb ∧
    zget (chunk_map_cb_chunk s5) gb = zget (chunk_map_cb_chunk s) gb;
}.

Lemma release_phase s cb c c2 s2 ev s3 : 0 ≤ submit_queues → map_inv s →
  zget (cb_list s) cb = Some c → cb_wf cb c → gone s cb c c2 s2 ev → same_but_conns s2 s3 →
  (∀ i, 0 ≤ i < submit_queues → is_Some (free_at s3 i cb)) →
  ∃ s4 s5, release_chunks s3 cb = Ok s4 ∧ free_pools submit_queues s4 cb = Ok s5 ∧
    freed s cb s3 ev s5.
Proof.
  intros Hsq Hinv Hc Hwf [(im & Es2 & Hlim & Him1 & Him2) Hw2 Hm2 Hel Hev] [cs Es3] Hf.
  assert (∀ gb, slot_below c2 MAX_MR_SIZE_GB gb ↔ slot_below c MAX_MR_SIZE_GB gb) as Hsb
    by (intros gb; unfold slot_below; by rewrite Hm2).
  destruct (release_chunks_ok s3 (cb_index_map s) cb c2) as
    (s4 & E4 & Hinv4 & (cc & fi & ul & cm & Es4) & Hun4 & Hk4).
  { rewrite Es3, Es2. cbn. eapply map_inv_ext; [..|exact (map_inv_cb s cb c c2 Hinv Hc Hw2 Hm2)]; done. }
  { rewrite Es3, Es2. cbn. apply zget_zset_eq. eauto with zarr. }
  { done. }
  { by rewrite Es3, Es2. }
  { intros gb ?%Hsb. rewrite Es3, Es2. by apply Him1. }
  { intros gb Hg. rewrite Hsb in Hg. rewrite Es3, Es2. by apply Him2. }
  assert (∀ i cb', pool_at s4 i cb' = pool_at s3 i cb') as Hp4 by (intros; by rewrite Es4).
  destruct (free_pools_ok s4 cb Hsq) as (s5 & E5 & [cs5 Es5] & Hl5 & Hp5 & Ho5).
  { intros i Hi. unfold free_at. rewrite Hp4. by apply Hf. }
  exists s4, s5. split_and!; [done | done|]. split.
  - rewrite Es5. by eapply (map_inv_ext s4).
  - exists im, cc, fi, ul, (with_map c2 cm), cs5. rewrite Es5, Es4, Es3, Es2. cbn. by rewrite zset_zset.
  - rewrite Hl5. by rewrite Es4.
  - done.
  - intros i cb' Hne. rewrite Ho5 by done. apply Hp4.
  - intros gb. rewrite Hev, <- (slots_routed _ _ _ _ Hinv Hc Hwf), Es5. intros Hg%Hsb. exact (Hun4 gb Hg).
  - intros gb. rewrite Hev, <- (slots_routed _ _ _ _ Hinv Hc Hwf), Es5. intros Hg.
    pose proof (Him2 gb Hg) as H1. rewrite <- Hsb in Hg. pose proof (Hk4 gb Hg) as H2. cbn.
    split; [by rewrite Es4, Es3, Es2 | by rewrite H2, Es3, Es2].
Qed.

(** The servers without the one that is lost. *)
Lemma freed_servers s0 s cb c s3 ev s5 : servers_ok submit_queues s0 → zget (cb_list s) cb = Some c →
  cb_list s = cb_list s0 → cb_num s = cb_num s0 →
  cb_state_list s = zset (cb_state_list s0) cb CB_FAIL → same_pools s0 s3 →
  freed s cb s3 ev s5 → servers_ok submit_queues s5.
Proof.
  intros Hs Hc El En Est Hp [_ (im & cc & fi & ul & c5 & cs & E5) Hl Hpl Ho _ _].
  assert (servers_ok submit_queues (s0 <| IS_conns := IS_conns s3 |>)) as Hs'
    by (eapply (servers_conns _ s0); [done | by eexists | exact Hp]).
  eapply (servers_update _ _ s5 cb c c5 CB_FAIL Hs').
  - cbn. by rewrite <- El.
  - rewrite E5. cbn. by rewrite El.
  - rewrite E5. exact Est.
  - rewrite E5. exact En.
  - exact Hl.
  - exact Ho.
  - done.
  - intros i Hi. exists empty_pool. split; [by apply Hpl | done].
Qed.

(** The client after the search for other servers. *)
Lemma recovered_client s0 s cb s3 ev s5 s7 : MapInv.settled s0 → ops_wf s0 →
  (∀ gb, zget (cb_index_map s) gb = zget (cb_index_map s0) gb ∧
     zget (chunk_map_cb_chunk s) gb = zget (chunk_map_cb_chunk s0) gb) →
  write_ops s = write_ops s0 → read_ops s = read_ops s0 → last_ops s = last_ops s0 →
  freed s cb s3 ev s5 → recovered ev STACKBD_SIZE_G (s5 <| rdma_on := DEV_RDMA_ON |>) s7 →
  client_inv submit_queues (s7 <| trigger_enable := TRIGGER_ON |>).
Proof.
  intros Hset Hops Hm Ew Er Eo [_ (im & cc & fi & ul & c5 & cs & E5) _ _ _ _ Hk]
    [Hi7 Hs7 _ Ho7 Hf7 [Hp7 _ _ _ _]].
  split; [by apply (map_inv_ext s7) | by apply (servers_ext _ s7) | | |].
  - intros gb Hg. destruct (decide (zget ev gb = Some 1)) as [He|He]; [exact (Hf7 gb He Hg)|].
    destruct (Ho7 gb He) as [A1 A2], (Hk gb He) as [B1 B2], (Hm gb) as [C1 C2]. cbn in A1, A2.
    destruct (Hset gb) as [_ U]; [cbn in Hg; congruence|]. split; [done|]. cbn. congruence.
  - apply (keeps_ops nobody (s5 <| rdma_on := DEV_RDMA_ON |>) s7) in Hp7 as [? ? ?]; [by split|].
    destruct Hops. rewrite E5. split; cbn; congruence.
  - intros gb cb' ci _. apply (kp_on _ _ _ Hp7). done.
Qed.

(** ** The handler *)

(** The session as the handler first marks it. *)
Definition failing (s : IS_session) (cb : Z) : IS_session :=
  s <| cb_state_list := zset (cb_state_list s) cb CB_FAIL |>
    <| trigger_enable := TRIGGER_OFF |> <| rdma_on := DEV_RDMA_OFF |>.

Record disconnected (w : bd) (cb : Z) (w3 : bd) (ev : list Z) (s2 s5 s7 : IS_session) : Prop := {
  dc_gone : ∃ c c2, gone (failing (sess w) cb) cb c c2 s2 ev;
  dc_settle : each (λ p w, settle_ctx w p) (server_ptrs cb) (w <| sess := s2 |>) = Ok w3;
  dc_freed : freed (failing (sess w) cb) cb (sess w3) ev s5;
  dc_recovered : recovered ev STACKBD_SIZE_G (s5 <| rdma_on := DEV_RDMA_ON |>) s7;
}.

Lemma disconnect_ok w cb st held : client_inv submit_queues (sess w) →
  zget (cb_state_list (sess w)) cb = Some st → st = CB_MAPPED ∨ st = CB_EVICTING →
  0 ≤ submit_queues → pools_owned (sess w) held →
  (∀ p, p ∈ server_ptrs cb → settleable (sess w) held p) → stackbd_ready (stackbd w) = true →
  ∃ w3 ev s2 s5 s7, disconnected w cb w3 ev s2 s5 s7 ∧
    IS_disconnect_handler submit_queues single_chunk_map w cb =
      Ok (0, w3 <| sess := s7 <| trigger_enable := TRIGGER_ON |> |>) ∧
    client_inv submit_queues (s7 <| trigger_enable := TRIGGER_ON |>) ∧
    bio_list (stackbd w3) = bio_list (stackbd w) ++ concat (to_queue (sess w) <$> server_ptrs cb) ∧
    ended w3 = ended w ++ concat (to_end (sess w) <$> server_ptrs cb).
Proof.
  intros [Hi Hs Hset Hops Hon] Hst Hm Hsq Ho Hctx Hready.
  destruct (so_cb _ _ Hs _ _ Hst) as (c & Hc & Hfit).
  assert (cb_wf cb c) as Hwf by (destruct Hm as [-> | ->]; apply Hfit).
  pose proof (zget_Some_range _ _ _ Hst) as Hcb.
  unfold IS_disconnect_handler. rewrite (read_cb_at _ _ _ Hc). cbn [res_bind].
  rewrite (cw_index _ _ Hwf), (rd_ok _ _ _ Hst). cbn [res_bind]. unfold set_cb_state.
  rewrite wr_ok by done. cbn [res_bind]. rewrite decide_False by (destruct Hm as [-> | ->]; done).
  change (sess w <| cb_state_list := _ |> <| trigger_enable := _ |> <| rdma_on := _ |>)
    with (failing (sess w) cb). set (s0 := failing (sess w) cb).
  assert (map_inv s0) as Hinv0 by (by eapply (map_inv_ext (sess w))).
  destruct (drop_phase s0 cb c Hinv0 Hc Hwf) as (s1 & ev & s2 & c2 & -> & E2 & Hg).
  cbn [res_bind]. rewrite E2. cbn [res_bind]. rewrite settle_each by done.
  assert (∀ i cb, pool_at s2 i cb = pool_at (sess w) i cb) as Ep
    by (intros; destruct (gn_sess _ _ _ _ _ _ Hg) as (? & -> & _); done).
  destruct (pool_views _ _ Ep) as [Ef Eq].
  destruct (settle_list_ok (server_ptrs cb) (w <| sess := s2 |>) held) as
    (w3 & held3 & E3 & [L1 _ _ _ L5] & _ & Hb3 & He3); [apply NoDup_server_ptrs | | | done|].
  { eapply pools_owned_free; [|exact Ho]. done. }
  { intros p Hp. destruct (Hctx p Hp) as (x & Hx & ?). exists x. by rewrite <- Eq in Hx. }
  rewrite E3. cbn [res_bind]. cbn [sess upd] in L1, L5.
  destruct (release_phase s0 cb c c2 s2 ev (sess w3)) as (s4 & s5 & -> & E5 & Hfd); try done.
  { intros i Hx. apply L5. rewrite Ef. by eapply servers_live. }
  cbn [res_bind]. rewrite E5. cbn [res_bind].
  assert (same_pools (sess w) (sess w3)) as Hsp.
  { pose proof E3 as [_ [Hl Hp]]%settle_list_moves. split.
    - rewrite Hl. destruct (gn_sess _ _ _ _ _ _ Hg) as (? & -> & _). done.
    - intros i cb' q Hq. apply Hp. cbn. by rewrite Ep. }
  pose proof (freed_servers (sess w) s0 cb c (sess w3) ev s5 Hs Hc eq_refl eq_refl eq_refl Hsp Hfd) as Hs5.
  destruct (remap_lost ev (s5 <| rdma_on := DEV_RDMA_ON |>)) as (s7 & -> & Hrec);
    [apply (map_inv_ext s5); try done; apply Hfd | by apply (servers_ext _ s5) | apply Hg | apply Hfd|].
  cbn [res_bind]. exists w3, ev, s2, s5, s7. split; [split; eauto|]. split; [done|]. split.
  { by eapply (recovered_client (sess w) s0 cb (sess w3) ev s5 s7). }
  split.
  - rewrite Hb3. do 2 f_equal. apply list_fmap_ext. intros. unfold to_queue. cbn. by rewrite Eq.
  - rewrite He3. do 2 f_equal. apply list_fmap_ext. intros. unfold to_end. cbn. by rewrite Eq.
Qed.

(** ** A server lost while it is idle *)

(** Contexts without a request in flight are left alone. *)
Lemma settle_quiet ps : ∀ w,
  (∀ p, p ∈ ps → ∃ c, ctx_at (sess w) p = Some c ∧ in_flight c = CTX_IDLE) →
  each (λ p w, settle_ctx w p) ps w = Ok w.
Proof.
  induction ps as [|p ps IH]; intros w Hq; cbn [each]; [done|].
  destruct (Hq p) as (c & Hc & Hf); [by left|]. unfold settle_ctx.
  rewrite (read_ctx_at _ _ _ Hc). cbn [res_bind]. rewrite Hf. cbn. apply IH.
  intros q Hq'. apply Hq. by right.
Qed.

(** The pages of the other servers stay, with their contexts; the lost server has neither. *)
Lemma freed_keeps s cb c s3 ev s5 : map_inv s → zget (cb_list s) cb = Some c → 
  freed (failing s cb) cb s3 ev s5 → (∀ gb, zget ev gb = Some 1 ↔ zget (cb_index_map s) gb = Some cb) →
  keeps_pages (eq cb) (s <| IS_conns := IS_conns s5 |>) (s5 <| rdma_on := DEV_RDMA_ON |>).
Proof.
  intros Hi Hc [Hi5 (im & cc & fi & ul & c5 & cs & E5) _ _ _ Hl Hk] Hev.
  assert (map_inv (s5 <| rdma_on := DEV_RDMA_ON |>)) as Hi5' by by apply (map_inv_ext s5).
  eapply (keeps_cb _ _ _ cb c c5); try done.
  - by apply (map_inv_ext s).
  - by rewrite E5.
  - by apply grow_same.
  - by rewrite E5.
  - by rewrite E5.
  - by rewrite E5.
  - intros ci gb Hne. split; [|by intros _ []]. intros Hci. exfalso.
    assert (zget (cb_list s5) cb = Some c5) as Hc5
      by (rewrite E5; apply zget_zset_eq; apply (zget_Some_range _ _ _ Hc)).
    destruct (mi_bwd _ Hi5 cb ci gb) as [Hx _]; [by apply (serves_at _ _ _ _ _ Hc5)|].
    apply zget_Some_range in Hc. destruct (decide (zget ev gb = Some 1)) as [He|He].
    + destruct (Hl gb He) as [Hn _]. rewrite Hx in Hn. injection Hn as E. unfold NO_CB_MAPPED in E. lia.
    + destruct (Hk gb He) as [E _]. rewrite Hx in E. by apply He, Hev.
Qed.

(** When a server without requests in flight goes away, only the session changes: the pools of
    the server are emptied, and its chunks are given up. *)
Lemma disconnect_quiet w cb held w' : client_inv submit_queues (sess w) →
  zget (cb_state_list (sess w)) cb = Some CB_MAPPED → 0 < submit_queues →
  quiet submit_queues (sess w) cb → pools_owned (sess w) held → stackbd_ready (stackbd w) = true →
  IS_disconnect_handler submit_queues single_chunk_map w cb = Ok (0, w') →
  ∃ cs s', w' = w <| sess := s' |> ∧ client_inv submit_queues s' ∧
    keeps_pages (eq cb) (sess w <| IS_conns := cs |>) s' ∧
    (∀ i cb', cb' ≠ cb → pool_at (sess w <| IS_conns := cs |>) i cb' = pool_at (sess w) i cb') ∧
    (∀ i p, pool_at (sess w <| IS_conns := cs |>) i cb = Some p → p = empty_pool).
Proof.
  intros Hci Hst Hsq Hq Ho Hrd H. pose proof Hci as [Hi Hs _ _ _].
  assert (∀ p, p ∈ server_ptrs cb → ∃ c, ctx_at (sess w) p = Some c ∧ in_flight c = CTX_IDLE) as Hidle.
  { intros p (<- & Hx & Hj)%elem_of_server_ptrs. destruct (Hq _ Hx) as (pool & l & Hp & Hl & Hlen & Hf).
    destruct (zget_is_Some l (p_idx p)) as [c Hc]; [lia|]. exists c.
    split; [unfold ctx_at; by rewrite Hp, Hl | by apply (Forall_zget _ _ _ _ Hf Hc)]. }
  destruct (disconnect_ok w cb CB_MAPPED held) as
    (w3 & ev & s2 & s5 & s7 & [(c & c2 & Hg) E3 Hfd Hrec] & E & Hci' & _ & _); try done.
  { by left. }
  { lia. }
  { intros p Hp. destruct (Hidle p Hp) as (c & Hc & Hf). exists c. split; [done|]. by rewrite Hf. }
  rewrite H in E. injection E as ->.
  assert (∀ i cb', pool_at s2 i cb' = pool_at (sess w) i cb') as Ep
    by (intros; destruct (gn_sess _ _ _ _ _ _ Hg) as (? & -> & _); done).
  destruct (pool_views _ _ Ep) as [_ Eq].
  rewrite settle_quiet in E3 by (intros p Hp; destruct (Hidle p Hp) as (x & Hx & Hf);
    exists x; cbn; by rewrite Eq). injection E3 as <-.
  destruct (so_cb _ _ Hs _ _ Hst) as (c0 & Hc0 & _).
  pose proof (freed_keeps (sess w) cb c0 s2 ev s5 Hi Hc0 Hfd (gn_ev _ _ _ _ _ _ Hg)) as Hk.
  exists (IS_conns s5), (s7 <| trigger_enable := TRIGGER_ON |>). split; [done|]. split; [done|]. split.
  { transitivity (s5 <| rdma_on := DEV_RDMA_ON |>); [exact Hk|]. transitivity s7.
    - apply keeps_nobody, (rd_pages _ _ (rv_rest _ _ _ _ Hrec)).
    - by apply keeps_same. }
  split.
  - intros i cb' Hne. etransitivity; [exact (fd_others _ _ _ _ _ Hfd i cb' Hne) | apply Ep].
  - intros i p Hp. change (pool_at s5 i cb = Some p) in Hp.
    assert (0 ≤ i < submit_queues) as Hr.
    { unfold pool_at in Hp. destruct (zget (IS_conns s5) i) eqn:E; [|done]. apply zget_Some_range in E.
      pose proof (so_conns _ _ Hs). pose proof (fd_len _ _ _ _ _ Hfd) as El. cbn in El.
      assert (len (IS_conns s2) = len (IS_conns (sess w))) by (destruct (gn_sess _ _ _ _ _ _ Hg) as (? & -> & _); done).
      lia. }
    rewrite (fd_pools _ _ _ _ _ Hfd i Hr) in Hp. by injection Hp as <-.
Qed.

(** * Theorem *)

(** C8: a mapped server that disconnects is taken out completely.  The handler returns, the
    invariant of the client holds again and the server is marked as failed; each chunk of the
    lost server is among the unmapped ones unless the search for servers has mapped it anew,
    other chunks keep their routes and slots;
    every read that was in
    flight on the server is on the disk's queue, in the order of the contexts, with the callback
    that ends it; every write that was in flight has been ended; the trigger runs again. *)
Theorem disconnect_correct w cb st held
  (Hinv : client_inv submit_queues (sess w))
  (Hst : zget (cb_state_list (sess w)) cb = Some st) (Hm : st = CB_MAPPED ∨ st = CB_EVICTING)
  (Hsq : 0 ≤ submit_queues) (Ho : pools_owned (sess w) held)
  (Hctx : ∀ p, p ∈ server_ptrs cb → settleable (sess w) held p)
  (Hready : stackbd_ready (stackbd w) = true) :
  ∃ w', IS_disconnect_handler submit_queues single_chunk_map w cb = Ok (0, w') ∧
    client_inv submit_queues (sess w') ∧ zget (cb_state_list (sess w')) cb = Some CB_FAIL ∧
    trigger_enable (sess w') = TRIGGER_ON ∧
    (∀ gb, zget (cb_index_map (sess w)) gb ≠ Some cb →
       zget (cb_index_map (sess w')) gb = zget (cb_index_map (sess w)) gb ∧
       zget (chunk_map_cb_chunk (sess w')) gb = zget (chunk_map_cb_chunk (sess w)) gb) ∧
    (∀ gb, zget (cb_index_map (sess w)) gb = Some cb →
       zget (cb_index_map (sess w')) gb = Some NO_CB_MAPPED → unmapped (sess w') gb) ∧
    bio_list (stackbd w') = bio_list (stackbd w) ++ concat (to_queue (sess w) <$> server_ptrs cb) ∧
    ended w' = ended w ++ concat (to_end (sess w) <$> server_ptrs cb).
Proof.
  destruct (disconnect_ok w cb st held Hinv Hst Hm Hsq Ho Hctx Hready)
    as (w3 & ev & s2 & s5 & s7 & [(c & c2 & Hg) _ Hfd [_ _ _ Ho7 Hf7 Hr7]] & -> & Hci & Hb & He).
  eexists. split; [done|]. cbn [sess upd stackbd ended]. split; [done|]. split.
  { change (zget (cb_state_list s7) cb = Some CB_FAIL). apply (rd_closed _ _ Hr7); [|done].
    destruct (fd_sess _ _ _ _ _ Hfd) as (? & ? & ? & ? & ? & ? & ->). apply zget_zset_eq.
    by eapply zget_Some_range. }
  split; [done|]. pose proof (gn_ev _ _ _ _ _ _ Hg) as Hr. split_and!; [| |done | done].
  - intros gb Hgb. assert (zget ev gb ≠ Some 1) as Hne' by (by rewrite Hr).
    destruct (Ho7 gb Hne') as [A1 A2], (fd_keep _ _ _ _ _ Hfd gb Hne') as [B1 B2].
    exact (conj (eq_trans A1 B1) (eq_trans A2 B2)).
  - intros gb Hgb%Hr. exact (Hf7 gb Hgb).
Qed.

End Disconnect.

(** * A server lost with a read in flight *)

(** Context [p] holds the read [r]. *)
Definition reading (s : IS_session) (r : request) : option (ctx_ptr * IS_session) :=
  match acquire_ctx 1 (ctx_attempts 1) s 0 0 with
  | Ok (p, s) =>
      match read_ctx s p with
      | Ok c =>
          match write_ctx s p (c <| req := Some r |> <| in_flight := CTX_R_IN_FLIGHT |>) with
          | Ok s => Some (p, s)
          | Fault _ => None
          end
      | Fault _ => None
      end
  | Fault _ => None
  end.

Definition lost_read : request := page_rq 1 false (5 * CHUNK_PAGES) 0.
Definition lost_bd (s : IS_session) : bd := demo_bd {[ 0 := pageA ]} <| sess := s |>.

Lemma live_owned : pools_owned demo_live [].
Proof.
  eapply grow_owned; [apply (kp_pools _ _ _ (proj2 demo_live_client))|].
  apply (created_owned 1 (λ _, true) one_portal demo_created eq_refl).
Qed.

Lemma live_pool_0 : pool_at demo_live 0 0 = Some (initialised IS_PAGE_SIZE).
Proof. vm_compute. reflexivity. Qed.

Lemma reading_ok s0 size p0 r : pools_owned s0 [] → pool_at s0 0 0 = Some (initialised size) →
  p0 ∈ server_ptrs 1 0 →
  match acquire_ctx 1 (ctx_attempts 1) s0 0 0 with Ok (p, _) => Some p | Fault _ => None end = Some p0 →
  rq_wf r → clones_ok (BL := roomy_block_layer) (rq_bio r) →
  ∃ s, reading s0 r = Some (p0, s) ∧ ctx_moves s0 s ∧
    pools_owned s [p0] ∧ ∀ q, q ∈ server_ptrs 1 0 → settleable (BL := roomy_block_layer) s [p0] q.
Proof.
  intros Ho0 Hp0 Hin Hacq Hr Hcl. unfold reading.
  assert (∀ q, q ∈ server_ptrs 1 0 → ctx_at s0 q = Some (fresh_ctx size)) as Hctx.
  { intros q (Hc & Hi & Hj)%elem_of_server_ptrs. destruct q as [i c j]. cbn in *. subst c.
    assert (i = 0) as -> by lia. unfold ctx_at. cbn. rewrite Hp0.
    exact (zget_replicate IS_QUEUE_DEPTH (fresh_ctx size) j Hj). }
  destruct (acquire_ctx 1 (ctx_attempts 1) s0 0 0) as [[p s1]|] eqn:Ha; [|done]. injection Hacq as ->.
  pose proof (acquire_ctx_owned _ _ _ _ _ _ _ _ Ho0 Ha) as (Hp & _ & Ho & Hs & Hq & Hf).
  assert (ctx_at s1 p0 = Some (fresh_ctx size)) as Hc by (rewrite Hq; by apply Hctx).
  rewrite (read_ctx_at _ _ _ Hc).
  destruct (write_ctx_at s1 p0 (fresh_ctx size)
    (fresh_ctx size <| req := Some r |> <| in_flight := CTX_R_IN_FLIGHT |>) Hc) as (s2 & E2 & Hs2 & Hq2 & Hf2).
  rewrite E2. exists s2. split; [done|].
  split; [eapply ctx_moves_trans; [by eapply acquire_conns | by eapply write_ctx_moves]|].
  split; [by eapply pools_owned_free|].
  intros q Hq'. unfold settleable. rewrite Hq2. case_decide as Hd.
  - subst q. eexists. split; [done|]. intros _. split; [by left|]. by exists r.
  - exists (fresh_ctx size). rewrite Hq, Hctx by done. split; [done|]. done.
Qed.

Definition lost_ptr : ctx_ptr := {| p_conn := 0; p_cb := 0; p_idx := IS_QUEUE_DEPTH - 1 |}.

Lemma moves_same s s' : ctx_moves s s' →
  cb_state_list s' = cb_state_list s ∧ cb_index_map s' = cb_index_map s.
Proof. by intros [[cs ->] _]. Qed.

Lemma live_acquire :
  match acquire_ctx 1 (ctx_attempts 1) demo_live 0 0 with Ok (p, _) => Some p | Fault _ => None end
  = Some lost_ptr.
Proof. vm_compute. reflexivity. Qed.

Lemma lost_ptr_in : lost_ptr ∈ server_ptrs 1 0.
Proof. by apply elem_of_server_ptrs. Qed.

Lemma live_maps : zget (cb_state_list demo_live) 0 = Some CB_MAPPED ∧
  zget (cb_index_map demo_live) 5 = Some 0.
Proof. vm_compute. split; reflexivity. Qed.

#[local] Opaque demo_live.

Lemma disconnect_correct_witness :
  ∃ s w', reading demo_live lost_read = Some (lost_ptr, s) ∧
    IS_disconnect_handler (BL := roomy_block_layer) 1 demo_mapper (lost_bd s) 0 = Ok (0, w') ∧
    zget (cb_index_map s) 5 = Some 0 ∧ client_inv 1 (sess w') ∧
    bio_list (stackbd w') = concat (to_queue s <$> server_ptrs 1 0).
Proof.
  destruct (reading_ok demo_live IS_PAGE_SIZE lost_ptr lost_read live_owned live_pool_0 lost_ptr_in
    live_acquire) as (s & E & Hmv & Ho & Hset);
    [split; [discriminate | split; [reflexivity | vm_compute; reflexivity]]
    | apply Forall_true; intros d; eexists; reflexivity |].
  pose proof (moves_client 1 _ _ Hmv (proj1 demo_live_client)) as Hci.
  destruct live_maps as [Hst Hm5]. destruct (moves_same _ _ Hmv) as [E1 E2].
  pose proof (eq_trans (f_equal (λ l, zget l 0) E1) Hst) as Hsts.
  pose proof (eq_trans (f_equal (λ l, zget l 5) E2) Hm5) as Hms. cbv beta in Hsts, Hms.
  destruct (disconnect_correct (BL := roomy_block_layer) 1 demo_mapper (lost_bd s) 0 CB_MAPPED [lost_ptr]
    Hci Hsts (or_introl eq_refl) ltac:(lia) Ho Hset eq_refl)
    as (w' & Ew & Hi & _ & _ & _ & _ & Hb & _).
  exists s, w'. exact (conj E (conj Ew (conj Hms (conj Hi Hb)))).
Defined.

(** ** A write whose disk leg is still queued *)

(** A write to chunk 5 is posted to the server and queued for the disk; the card sends it, the
    server goes away, then the disk gets to it. *)
Definition lost_write_run : res world :=
  let x := wd demo_machine <| dev := lost_bd demo_live |> in
  let* (_, _, w) := IS_queue_rq (BL := roomy_block_layer) 1 (dev x) (page_rq 1 true (5 * CHUNK_PAGES) 0) in
  let* x := nic_step (x <| dev := w |>) in
  let* (_, w) := IS_disconnect_handler (BL := roomy_block_layer) 1 demo_mapper (dev x) 0 in
  disk_step (x <| dev := w |>).

