(* ===== verification/Swap.v ===== *)
(** The swap device as a whole, from session creation on: requests, the backup disk and the
    network card of [Volume], together with the trigger thread, the connections, the servers'
    messages and the evictions of [MapSafety].  Chunks come and go while the device is in use,
    and it still behaves as a flat array of pages. *)

From Stdlib Require Import ZArith Lia Ascii.
From stdpp Require Import functions relations base tactics list numbers option gmap.
From S2P Require Import Prelude Types ByteOrder Bitmap CtxPool Stackbd Request Views ChunkMap.
From S2P Require Import MapInv World Transfer Servers Pages Session Eviction Select Trigger.
From S2P Require Import MapSafety Completion Coherence Endings Volume Mapping IoInv Disconnect.

Section Swap.
Context `{C : Config} `{BL : BlockLayer} `{V : Verbs}.
Variable submit_queues : Z.

(** * The mapping changes under the data path *)

(** The home of page [n] stays as it is. *)
Definition untouched (s s' : IS_session) (n : Z) : Prop :=
  mapping s' (chunk_of n) = mapping s (chunk_of n) ∧
  ∀ cb ci, mapping s (chunk_of n) = Some (cb, ci) → chunk_at s' cb ci = chunk_at s cb ci.

Lemma untouched_chunk s s' n : untouched s s' n → mapped_chunk s' n = mapped_chunk s n.
Proof.
  intros [H1 H2]. unfold mapped_chunk. rewrite H1.
  destruct (mapping s (chunk_of n)) as [[cb ci]|]; [by rewrite H2 | done].
Qed.

(** Only servers without requests in flight lose chunks. *)
Definition spares (lost : Z → Prop) (s : IS_session) : Prop :=
  ∀ cb p c, ctx_at s p = Some c → flying cb p c → ¬ lost cb.

Lemma quiet_idle s cb p c : servers_ok submit_queues s → 0 < submit_queues →
  quiet submit_queues s cb → ctx_at s p = Some c → ¬ flying cb p c.
Proof.
  intros Hs Hsq Hq Hp [<- Hf]. unfold ctx_at in Hp.
  destruct (pool_at s (p_conn p) (p_cb p)) as [pool|] eqn:Ep; [|done].
  assert (0 ≤ p_conn p < submit_queues) as Hr.
  { unfold pool_at in Ep. destruct (zget (IS_conns s) (p_conn p)) eqn:E; [|done].
    apply zget_Some_range in E. pose proof (so_conns _ _ Hs). lia. }
  destruct (Hq _ Hr) as (pool' & l & Ep' & El & _ & Hidle). rewrite Ep in Ep'. injection Ep' as <-.
  rewrite El in Hp. by apply Hf, (Forall_zget _ _ _ _ Hidle Hp).
Qed.

(** A work request is that of a context in flight. *)
Lemma flight_flying s f po : flight_posted s f po →
  ∃ c, ctx_at s (f_ctx f) = Some c ∧ flying (p_cb (f_ctx f)) (f_ctx f) c.
Proof.
  destruct f as [r a p|r a p]; cbn.
  - intros (cb & ck & c & _ & Hc & _ & [<- Hf] & _). eexists. by split.
  - intros (cb & ci & ck & c & pg & _ & _ & Hc & [<- Hf] & _). eexists. by split.
Qed.

Lemma flights_flying s fs l f : Forall2 (flight_posted s) fs l → f ∈ fs →
  ∃ c, ctx_at s (f_ctx f) = Some c ∧ flying (p_cb (f_ctx f)) (f_ctx f) c.
Proof.
  intros Hp [i Hi]%list_elem_of_lookup.
  destruct (Forall2_lookup_l _ _ _ _ _ Hp Hi) as (po & _ & Hf). by eapply flight_flying.
Qed.

(** Work requests survive. *)
Lemma flight_posted_remap lost s s' f po : keeps_pages lost s s' → spares lost s →
  flight_posted s f po → flight_posted s' f po.
Proof.
  intros Hk Hl Hp. destruct f as [r a p|r a p]; cbn in *.
  - destruct Hp as (cb & ck & c & Hm & Hc & Hr & Hf & Hh & ->). exists cb, ck, c.
    pose proof (Hl _ _ _ Hc Hf) as Hn.
    assert (untouched s s' (page_no r)) as Hun.
    { unfold mapped_chunk in Hm. destruct (mapping s (chunk_of (page_no r))) as [[cb' ci]|] eqn:Em; [|done].
      destruct (chunk_at s cb' ci) eqn:Ek; [|done]. injection Hm as -> ->.
      destruct (kp_served _ _ _ Hk _ _ _ Em Hn) as [E1 E2]. split; [congruence|].
      intros cb1 ci1. rewrite Em. intros [= <- <-]. exact E2. }
    unfold remote_hit in *. rewrite (untouched_chunk _ _ _ Hun).
    split_and!; try done. by eapply grow_ctx; [apply Hk|].
  - destruct Hp as (cb & ci & ck & c & pg & Hm & Hck & Hc & Hf & Hw & ->). exists cb, ci, ck, c, pg.
    pose proof (Hl _ _ _ Hc Hf) as Hn.
    destruct (kp_served _ _ _ Hk _ _ _ Hm Hn) as [E1 E2].
    split_and!; try done; [by rewrite E2 | by eapply grow_ctx; [apply Hk|]].
Qed.

Lemma coherent_remap lost x v q fs s' :
  coherent x v q fs → keeps_pages lost (sess (dev x)) s' → session_wf s' →
  spares lost (sess (dev x)) →
  coherent (x <| dev := dev x <| sess := s' |> |>) v q fs.
Proof.
  intros [Hwf Hready Hc Ho Hnd Hfl Hq Hp Hrq Hfk Hpg Hho Hla Hd Hr] Hk Hwf' Hl.
  pose proof (kp_pools _ _ _ Hk) as Hg. split; simpl in *; try done.
  - by eapply grow_ctxs_ok.
  - by eapply grow_owned.
  - eapply Forall2_impl; [exact Hp|]. intros f po. by apply flight_posted_remap with lost.
  - intros f Hin. apply (flight_ok_frame (sess (dev x)) _ v); [|done | auto].
    destruct (flights_flying _ _ _ _ Hp Hin) as (c & Hcp & _).
    apply ctx_page_eq. rewrite Hcp. by eapply grow_ctx.
  - intros n. rewrite (settled_ext (sess (dev x)) _ (host (dev x))); [apply Hd | | done].
    intros p Hin. apply ctx_page_eq. unfold ctx_at. rewrite (grow_live _ _ _ _ Hg); [done|].
    apply (proj1 Ho), elem_of_app. by right.
  - intros n key Hkey Hhit Hne. destruct (kp_hit _ _ _ Hk n Hhit) as [Hh E].
    apply Hr; [congruence | done..].
Qed.

(** ** A server is lost *)

(** No write of the disk's queue comes from a context of server [cb]. *)
Definition unqueued (w : bd) (cb : Z) : Prop :=
  ∀ b p, b ∈ bio_list (stackbd w) → bi_private b = Priv_ctx p → p_cb p ≠ cb.

Lemma unqueued_ctxs x v q fs cb : coherent x v q fs → unqueued (dev x) cb →
  ∀ p, p ∈ q_ctxs q → p_cb p ≠ cb.
Proof.
  intros Hco Hu p [n Hin]%elem_of_q_ctxs.
  apply (Hu (q_bio (QCtx p n))); [|done]. rewrite (co_queue _ _ _ _ Hco).
  apply list_elem_of_fmap. eauto.
Qed.

(** The pools of a server go, none of whose contexts is in use. *)
Lemma coherent_drop x v q fs cb cs : coherent x v q fs → spares (eq cb) (sess (dev x)) →
  unqueued (dev x) cb →
  (∀ i cb', cb' ≠ cb → pool_at (sess (dev x) <| IS_conns := cs |>) i cb' = pool_at (sess (dev x)) i cb') →
  (∀ i p, pool_at (sess (dev x) <| IS_conns := cs |>) i cb = Some p → p = empty_pool) →
  coherent (x <| dev := dev x <| sess := sess (dev x) <| IS_conns := cs |> |> |>) v q fs.
Proof.
  intros Hco Hsp Hu Hpo Hpe. pose proof (unqueued_ctxs _ _ _ _ _ Hco Hu) as Hbl.
  set (s := sess (dev x)) in *. set (s' := s <| IS_conns := cs |>) in *.
  assert (∀ q, p_cb q ≠ cb → ctx_at s' q = ctx_at s q) as Hctx
    by (intros p Hq; unfold ctx_at; by rewrite Hpo).
  assert (∀ i cb', is_Some (free_at s' i cb') → cb' ≠ cb) as Hne.
  { intros i cb' [fc Hf] ->. unfold free_at in Hf. destruct (pool_at s' i cb) as [p|] eqn:E; [|done].
    by rewrite (Hpe _ _ E) in Hf. }
  assert (∀ i cb', cb' ≠ cb → free_at s' i cb' = free_at s i cb') as Hfree
    by (intros i cb' Hn; unfold free_at; by rewrite Hpo).
  destruct Hco as [Hwf Hready Hc [Ho1 Ho2] Hnd Hfl Hq Hp Hrq Hfk Hpg Hho Hla Hd Hr].
  assert (∀ f, f ∈ fs → p_cb (f_ctx f) ≠ cb) as Hfly.
  { intros f Hin E. destruct (flights_flying _ _ _ _ Hp Hin) as (c & Hcp & Hf).
    by apply (Hsp _ _ _ Hcp Hf). }
  assert (∀ p, p ∈ held_by q fs → p_cb p ≠ cb) as Hheld.
  { intros p [Hin|Hin]%elem_of_app; [|by apply Hbl].
    apply elem_of_read_ctxs in Hin as (r & a & Hin). exact (Hfly _ Hin). }
  split; simpl in *; try done.
  - by eapply session_wf_conns; [eexists|].
  - intros p Hf Hi. pose proof (Hne _ _ Hf) as Hn. rewrite Hctx by done. apply Hc; [|done].
    by rewrite <- Hfree.
  - split; [intros p Hin; rewrite Hfree by auto; by apply Ho1|].
    intros i cb' fc Hf. apply Ho2. rewrite <- Hfree; [done|]. eapply Hne. by eexists.
  - apply (flights_frame s); [by apply same_map_conns; eexists | | done].
    intros f Hin. by apply Hctx, Hfly.
  - intros f Hin. apply (flight_ok_frame s _ v); [by apply ctx_page_eq, Hctx, Hfly | done | auto].
  - intros n. rewrite (settled_ext s _ (host (dev x))); [apply Hd | | done].
    intros p Hin. by apply ctx_page_eq, Hctx, Hbl.
Qed.

(** * The machine *)

Context (single_chunk_map : IS_session → Z → res IS_session).
Context `{CM : !ChunkMapper submit_queues single_chunk_map}.

(** A step of the data path, a step of the mapping, at any time and whatever is posted to
    the network card or queued for the disk, or the loss of a server that has no request in
    flight and no write in the disk's queue.  Servers lend memory that exists and lies apart. *)
Inductive swap_step : machine → machine → Prop :=
  | swap_io m m' : io_step submit_queues m m' → swap_step m m'
  | swap_map x v b s' :
      map_step submit_queues single_chunk_map (sess (dev x)) s' → homes_apart s' →
      swap_step {| wd := x; vol := v; busy := b |}
        {| wd := x <| dev := dev x <| sess := s' |> |>; vol := v; busy := b |}
  | swap_lost x v b cb w' :
      zget (cb_state_list (sess (dev x))) cb = Some CB_MAPPED → 0 < submit_queues →
      quiet submit_queues (sess (dev x)) cb → unqueued (dev x) cb →
      IS_disconnect_handler submit_queues single_chunk_map (dev x) cb = Ok (0, w') →
      homes_apart (sess w') →
      swap_step {| wd := x; vol := v; busy := b |} {| wd := x <| dev := w' |>; vol := v; busy := b |}.

Inductive swap_device_step : machine → list reply → machine → Prop :=
  | swap_device m m' : swap_step m m' → swap_device_step m (replies m m') m'.

Lemma client_session_wf s : client_inv submit_queues s → homes_apart s → session_wf s.
Proof. intros [? ? ? [? ? ?] ?] Ha. by apply map_inv_session_wf. Qed.

(** Coherent data and a client in order. *)
Definition swap_inv (m : machine) : Prop := inv m ∧ client_inv submit_queues (sess (dev (wd m))).

Lemma swap_simulation m l m' : swap_device_step m l m' → swap_inv m →
  flat_step (abs m) l (abs m') ∧ swap_inv m'.
Proof.
  intros [m1 m2 Hs] [Hi Hm].
  destruct Hs as [m1 m2 Hio|x v b s' Hs Ha|x v b cb w' Hst Hsq Hq Hu Hdis Ha].
  - destruct (device_simulation submit_queues m1 (replies m1 m2) m2) as [Hf Hi']; [by constructor | done|].
    split; [done|]. split; [done|]. by eapply io_step_client.
  - destruct (map_step_client _ _ _ _ Hm Hs) as [Hm' (lost & Hk & Hl)]. split; [|split; [|done]].
    + rewrite replies_none by done. apply flat_skip.
    + destruct Hi as (q & fs & Hco & Hb). exists q, fs. split; [|done].
      eapply coherent_remap; [done | exact Hk | by apply client_session_wf|].
      intros cb p c Hc Hf Hlost. destruct (Hl _ Hlost). by eapply quiet_idle; [apply Hm|..].
  - destruct Hi as (q & fs & Hco & Hb).
    destruct (disconnect_quiet submit_queues single_chunk_map (dev x) cb (held_by q fs) w')
      as (cs & s' & -> & Hm' & Hk & Hpo & Hpe); [done..|apply Hco | apply Hco | done|].
    split; [|split; [|done]].
    + rewrite replies_none by done. apply flat_skip.
    + assert (spares (eq cb) (sess (dev x))) as Hsp.
      { intros cb' p c Hc Hf <-. by eapply quiet_idle; [apply Hm|..]. }
      exists q, fs. split; [|done].
      pose proof (coherent_drop x v q fs cb cs Hco Hsp Hu Hpo Hpe) as Hco1.
      refine (coherent_remap (eq cb) _ v q fs s' Hco1 Hk (client_session_wf _ Hm' Ha) _).
      intros cb' p c Hc [E1 _] <-. unfold ctx_at in Hc. rewrite E1 in Hc. cbn in Hc.
      destruct (pool_at _ (p_conn p) cb) as [pool|] eqn:E; [|done]. by rewrite (Hpe _ _ E) in Hc.
Qed.

Lemma swap_runs m l m' : run swap_device_step m l m' → swap_inv m →
  run flat_step (abs m) l (abs m') ∧ swap_inv m'.
Proof. apply run_simulation, swap_simulation. Qed.

(** * The start *)

(** The device after [IS_session_create]: nothing is queued or posted, and the volume is what
    the disk holds. *)
Record started (s0 : IS_session) (m : machine) : Prop := {
  st_sess : sess (dev (wd m)) = s0;
  st_busy : busy m = [];
  st_ready : stackbd_ready (stackbd (dev (wd m))) = true;
  st_queue : bio_list (stackbd (dev (wd m))) = [];
  st_posted : posted (dev (wd m)) = [];
  st_disk : ∀ n, disk (wd m) n = vol m n;
}.

Lemma started_inv conn_ok portal s0 m :
  IS_session_create conn_ok submit_queues portal = Ok (0, Some s0) → started s0 m → swap_inv m.
Proof.
  intros Hc [Es Hb Hrd Hq Hp Hd]. pose proof (created_client _ _ _ _ Hc) as Hci.
  destruct (created_owned _ _ _ _ Hc) as [Ho Hok]. unfold swap_inv. rewrite Es. split; [|done].
  assert (∀ gb, mapping s0 gb = None) as Hn.
  { intros gb. destruct (mapping s0 gb) as [[cb ci]|] eqn:E; [|done]. apply (ci_on _ _ Hci) in E.
    unfold IS_session_create in Hc. res_split. destruct a. destruct (forallb _ _); [|done]. by injection Hc as <-. }
  apply fresh_inv. split; rewrite ?Es; try done.
  - apply client_session_wf; [done|].
    split; intros *; [intros Hm | intros _ Hm]; by rewrite Hn in Hm.
  - intros n. unfold remote_hit, mapped_chunk. by rewrite Hn.
Qed.

End Swap.

(** * Executable runs *)

Section Exec.
Context `{C : Config} `{BL : BlockLayer} `{V : Verbs}.
Variable submit_queues : Z.

Context (single_chunk_map : IS_session → Z → res IS_session).
Context `{CM : !ChunkMapper submit_queues single_chunk_map}.

(** A command of the data path, a period of the trigger, a message of server [cb], the
    eviction thread of [cb], or the loss of [cb]. *)
Inductive swap_command :=
  Io (c : command) | Trigger | Message (cb : Z) (m : IS_rdma_info) | Evict (cb : Z) | Lose (cb : Z).

Definition swap_command_ok (c : swap_command) : Prop :=
  match c with Io c => command_ok c | _ => True end.

(** Checks of the conditions of [map_step], for a server that is in use. *)
Definition promise_check (s : IS_session) (c : kernel_cb) (m : IS_rdma_info) : bool :=
  (len (buf m) =? MAX_MR_SIZE_GB) && (len (rkey m) =? MAX_MR_SIZE_GB) &&
  match type m with
  | INFO => false
  | INFO_SINGLE =>
      bool_decide (rdma_on s = DEV_RDMA_ON) &&
      bool_decide (zget (cb_index_map s) (size_gb m) = Some NO_CB_MAPPED) &&
      bool_decide (zget (chunk_map_cb_chunk s) (size_gb m) = Some (-1)) &&
      match first_key m with
      | Some i => bool_decide (zget (chunk_map (remote_chunk c)) i = Some (-1))
      | None => true
      end
  | _ => true
  end.

Definition marks_check (c : kernel_cb) : bool :=
  forallb (λ i, negb (marked c i) ||
      match zget (chunk_map (remote_chunk c)) i with Some k => negb (k =? -1) | None => false end)
    (seqZ 0 (len (evict_chunk_map (remote_chunk c)))).

Definition quiet_check (s : IS_session) (cb : Z) : bool :=
  forallb (λ i, match pool_at s i cb with
                | Some {| ctx_pool := Some l |} =>
                    (len l =? IS_QUEUE_DEPTH) && forallb (λ c, in_flight c =? CTX_IDLE) l
                | _ => false
                end) (seqZ 0 submit_queues).

(** At most one chunk is mapped, to memory that exists. *)
Definition one_home_check (s : IS_session) : bool :=
  let mapped := filter (λ gb, is_Some (mapping s gb)) (seqZ 0 (len (cb_index_map s))) in
  match mapped with
  | [] => true
  | [gb] =>
      match mapping s gb with
      | Some (cb, ci) =>
          match chunk_at s cb ci with
          | Some ck => (0 <=? remote_addr ck) && (remote_addr ck + ONE_GB <=? 2 ^ 64)
          | None => true
          end
      | None => true
      end
  | _ => false
  end.

Definition used_check (s : IS_session) (cb : Z) : bool :=
  bool_decide (zget (cb_state_list s) cb = Some CB_MAPPED).

Definition unqueued_check (w : bd) (cb : Z) : bool :=
  forallb (λ b, match bi_private b with Priv_ctx p => negb (p_cb p =? cb) | _ => true end)
    (bio_list (stackbd w)).

Definition put_session (m : machine) (s : IS_session) : res machine :=
  if one_home_check s
  then Ok {| wd := wd m <| dev := dev (wd m) <| sess := s |> |>; vol := vol m; busy := busy m |}
  else Fault Blocked.

Definition exec_swap (m : machine) (c : swap_command) : res machine :=
  let s := sess (dev (wd m)) in
  match c with
  | Io c => exec_command submit_queues m c
  | Trigger => let* s' := trigger_period single_chunk_map s in put_session m s'
  | Message cb msg =>
      let* c := rd (cb_list s) cb in
      if used_check s cb && promise_check s c msg
      then let* (_, s') := client_recv (put_cb s cb (c <| recv_buf := msg |>)) cb sizeof_rdma_info in
           put_session m s'
      else Fault Blocked
  | Evict cb =>
      let* c := rd (cb_list s) cb in
      if used_check s cb && marks_check c && negb (shrink_size_g (remote_chunk c) =? 0) &&
         (0 <? submit_queues) && quiet_check s cb
      then let* (_, s') := evict_stop submit_queues single_chunk_map s cb in put_session m s'
      else Fault Blocked
  | Lose cb =>
      if used_check s cb && (0 <? submit_queues) && quiet_check s cb && unqueued_check (dev (wd m)) cb
      then let* (e, w) := IS_disconnect_handler submit_queues single_chunk_map (dev (wd m)) cb in
           if (e =? 0) && one_home_check (sess w)
           then Ok {| wd := wd m <| dev := w |>; vol := vol m; busy := busy m |}
           else Fault Blocked
      else Fault Blocked
  end.

Fixpoint exec_swaps (cs : list swap_command) (m : machine) : res (list reply * machine) :=
  match cs with
  | [] => Ok ([], m)
  | c :: cs' =>
      let* m' := exec_swap m c in
      let* (l, m2) := exec_swaps cs' m' in
      Ok (replies m m' ++ l, m2)
  end.

(** ** The checks are sound *)

Lemma promise_check_ok s c m : promise_check s c m = true →
  promise s c m ∧ (type m = INFO_SINGLE → rdma_on s = DEV_RDMA_ON).
Proof.
  unfold promise_check. intros [[H1%Z.eqb_eq H2%Z.eqb_eq]%andb_prop H]%andb_prop.
  destruct (type m) eqn:Ht; try (split; [|done]; split; [done|]; by rewrite Ht).
  apply andb_prop in H as [[[H0%bool_decide_eq_true H3%bool_decide_eq_true]%andb_prop
    H4%bool_decide_eq_true]%andb_prop H5].
  split; [|done]. split; [done|]. rewrite Ht. split; [done|]. intros i Hi. rewrite Hi in H5.
  by apply bool_decide_eq_true in H5.
Qed.

Lemma marks_check_ok c : marks_check c = true → marks_ok c.
Proof.
  intros H i Hm. assert (0 ≤ i < len (evict_chunk_map (remote_chunk c))) as Hi.
  { unfold marked in Hm. destruct (zget _ i) eqn:E; [|done]. by eapply zget_Some_range. }
  pose proof (forallb_seqZ _ _ _ H Hi) as Hk. cbv beta in Hk. rewrite Hm in Hk. cbn in Hk.
  destruct (zget (chunk_map (remote_chunk c)) i) as [k|]; [|done]. exists k.
  split; [done|]. intros ->. done.
Qed.

Lemma quiet_check_ok s cb : quiet_check s cb = true → quiet submit_queues s cb.
Proof.
  intros H i Hi. pose proof (forallb_seqZ _ _ _ H Hi) as Hk. cbv beta in Hk.
  destruct (pool_at s i cb) as [[[l|] fc]|]; try done.
  apply andb_prop in Hk as [Hl%Z.eqb_eq Hf]. eexists _, l. split_and!; try done.
  apply Forall_forall. intros c Hc. rewrite forallb_forall in Hf.
  apply Z.eqb_eq, Hf. by apply list_elem_of_In.
Qed.

Lemma mapping_range s gb cb ci : mapping s gb = Some (cb, ci) → 0 ≤ gb < len (cb_index_map s).
Proof.
  unfold mapping. destruct (zget (cb_index_map s) gb) eqn:E; [|done].
  intros _. by eapply zget_Some_range.
Qed.

Lemma one_home_check_ok s : one_home_check s = true → homes_apart s.
Proof.
  unfold one_home_check. intros H.
  assert (∀ gb cb ci, mapping s gb = Some (cb, ci) →
    gb ∈ filter (λ gb, is_Some (mapping s gb)) (seqZ 0 (len (cb_index_map s)))) as Hin.
  { intros gb cb ci Hm. apply list_elem_of_filter. split; [by eexists|].
    apply elem_of_seqZ. pose proof (mapping_range _ _ _ _ Hm). lia. }
  destruct (filter _ _) as [|g [|]] in H, Hin; [| |done].
  { split; intros *; [intros Hm | intros _ Hm]; by apply Hin, not_elem_of_nil in Hm. }
  assert (∀ gb cb ci, mapping s gb = Some (cb, ci) → gb = g) as Hg.
  { intros gb cb ci Hm%Hin. by apply list_elem_of_singleton in Hm. }
  split.
  - intros gb cb ci ck Hm Hk. pose proof (Hg _ _ _ Hm) as ->. rewrite Hm, Hk in H. lia.
  - intros gb gb' cb ci cb' ci' ck ck' Hne Hm Hm'. apply Hg in Hm, Hm'. congruence.
Qed.

Lemma used_check_ok s cb c : servers_ok submit_queues s → zget (cb_list s) cb = Some c →
  used_check s cb = true → zget (cb_state_list s) cb = Some CB_MAPPED ∧ cb_wf cb c.
Proof.
  intros Hs Hc H%bool_decide_eq_true. split; [done|].
  by apply (servers_ready _ _ _ _ _ Hs H ltac:(done) ltac:(done) Hc).
Qed.

Lemma unqueued_check_ok w cb : unqueued_check w cb = true → unqueued w cb.
Proof.
  unfold unqueued_check. rewrite forallb_forall. intros H b p Hb Hp.
  specialize (H b (proj1 (list_elem_of_In _ _) Hb)). rewrite Hp in H. lia.
Qed.

Lemma put_session_step m s' m' : put_session m s' = Ok m' →
  map_step submit_queues single_chunk_map (sess (dev (wd m))) s' →
  swap_step submit_queues single_chunk_map m m'.
Proof.
  destruct m as [x v b]. unfold put_session. cbn [wd vol busy].
  destruct (one_home_check s') eqn:Hh; [|done]. intros H Hs.
  assert (m' = {| wd := x <| dev := dev x <| sess := s' |> |>; vol := v; busy := b |}) as -> by congruence.
  apply swap_map; [done | by apply one_home_check_ok].
Qed.

Lemma exec_swap_step m c m' : swap_command_ok c → servers_ok submit_queues (sess (dev (wd m))) →
  exec_swap m c = Ok m' → swap_step submit_queues single_chunk_map m m'.
Proof.
  intros Hok Hi. destruct c as [c| |cb msg|cb|cb]; cbn [exec_swap]; intros H.
  - constructor. by eapply exec_command_step.
  - res_split. eapply put_session_step; [exact H|]. by apply ms_trigger.
  - res_split. apply rd_inv in Ha. destruct (used_check _ _) eqn:H1; [|done].
    destruct (used_check_ok _ _ _ Hi Ha H1) as [Hst Hwf]. cbn [andb] in H.
    destruct (promise_check _ _ _) eqn:H2; [|done]. res_split. destruct a0 as [rc s'].
    apply promise_check_ok in H2 as [Hp Hon]. eapply put_session_step; [exact H|].
    eapply ms_message; [exact Ha | done | by eapply zget_Some_range | done | by auto | exact Ha0].
  - res_split. apply rd_inv in Ha. destruct (used_check _ _) eqn:H1; [|done].
    destruct (used_check_ok _ _ _ Hi Ha H1) as [Hst Hwf]. cbn [andb] in H.
    destruct (marks_check a) eqn:H2; [|done]. destruct (Z.eqb_spec (shrink_size_g (remote_chunk a)) 0); [done|].
    destruct (Z.ltb_spec 0 submit_queues); [|done]. destruct (quiet_check _ _) eqn:H3; [|done].
    cbn in H. res_split. destruct a0 as [m1 s']. eapply put_session_step; [exact H|].
    eapply ms_evict; [exact Ha | done | by apply marks_check_ok | done | done
                     | by apply quiet_check_ok | exact Ha0].
  - destruct (used_check _ _) eqn:H1; [|done]. apply bool_decide_eq_true in H1. cbn [andb] in H.
    destruct (Z.ltb_spec 0 submit_queues); [|done]. destruct (quiet_check _ _) eqn:H2; [|done].
    destruct (unqueued_check _ _) eqn:H3; [|done]. cbn in H. res_split. destruct a as [e w].
    destruct (Z.eqb_spec e 0) as [->|]; [|done]. destruct (one_home_check _) eqn:H4; [|done].
    cbn [andb] in H. destruct m as [x v b]. cbn [wd vol busy] in *. injection H as <-.
    eapply swap_lost; [exact H1 | done | by apply quiet_check_ok | by apply unqueued_check_ok
                      | exact Ha | by apply one_home_check_ok].
Qed.

Lemma exec_swaps_run cs : ∀ m l m', Forall swap_command_ok cs → swap_inv submit_queues m →
  exec_swaps cs m = Ok (l, m') → run (swap_device_step submit_queues single_chunk_map) m l m'.
Proof.
  induction cs as [|c cs IH]; cbn [exec_swaps]; intros m l m' Hok Hi H.
  { injection H as <- <-. constructor. }
  apply Forall_cons in Hok as [Hc Hok]. res_split. destruct a0 as [l' m2]. injection H as <- <-.
  assert (swap_device_step submit_queues single_chunk_map m (replies m a) a) as Hs
    by (constructor; by eapply exec_swap_step; [.. | apply Hi | exact Ha]).
  econstructor; [exact Hs|]. eapply IH; [done | | exact Ha0].
  by eapply (swap_simulation submit_queues single_chunk_map).
Qed.

End Exec.

(** * A chunk comes and goes *)

(** The session as it is created, with one server, on the small device. *)
Definition swap_machine : machine :=
  {| wd := {| dev := demo_bd {[ 0 := pageA; 4096 := pageB; 8192 := pageB; 12288 := pageB; 16384 := pageB ]}
                       <| sess := demo_created |>;
              disk := λ _, []; remote := λ _, [] |};
     vol := λ _, []; busy := [] |}.

(** The server takes slot 0 back. *)
Definition take_back : IS_rdma_info :=
  {| buf := replicate 32 0; rkey := <[0%nat := 1]> (replicate 32 0); size_gb := 1; type := STOP |}.

(** A page of chunk 5 is written to the disk; the trigger sees the request, connects the server
    and maps the chunk; the page is written over the network together with the next one, which
    ends first, and read back; the slot is taken away while the writes to disk are still queued;
    the page is read from the disk; the trigger maps the chunk anew; the page is not recorded
    there and is read from the disk again.  Then it is written once more over the network, the
    server is lost, and it is read from the disk. *)
Definition swap_page : Z := 5 * CHUNK_PAGES + 3.
Definition swap_commands : list swap_command :=
  [Io (Submit (page_rq 1 true swap_page 4096) 4096); Io Disk; Trigger;
   Io (Submit (page_rq 2 true swap_page 0) 0);
   Io (Submit (page_rq 8 true (swap_page + 1) 8192) 8192); Io (Nic 1); Io (Nic 0);
   Io (Submit (page_rq 3 false swap_page 4096) 4096); Io (Nic 0);
   Message 0 take_back; Evict 0;
   Io (Submit (page_rq 4 false swap_page 8192) 8192); Io Disk; Io Disk; Io Disk; Trigger;
   Io (Submit (page_rq 5 false swap_page 12288) 12288); Io Disk;
   Io (Submit (page_rq 6 true swap_page 16384) 16384); Io (Nic 0); Io Disk; Lose 0;
   Io (Submit (page_rq 7 false swap_page 0) 0); Io Disk].
Definition swap_replies : list reply :=
  [(page_rq 1 true swap_page 4096, None); (page_rq 8 true (swap_page + 1) 8192, None);
   (page_rq 2 true swap_page 0, None);
   (page_rq 3 false swap_page 4096, Some pageA); (page_rq 4 false swap_page 8192, Some pageA);
   (page_rq 5 false swap_page 12288, Some pageA); (page_rq 6 true swap_page 16384, None);
   (page_rq 7 false swap_page 0, Some pageB)].
Definition swap_final : machine :=
  match exec_swaps (BL := roomy_block_layer) 1 demo_mapper swap_commands swap_machine with
  | Ok (_, m) => m | Fault _ => swap_machine end.

Lemma swap_started : started demo_created swap_machine.
Proof. split; reflexivity. Qed.

Lemma swap_exec : exec_swaps (BL := roomy_block_layer) 1 demo_mapper swap_commands swap_machine =
  Ok (swap_replies, swap_final).
Proof.
  unfold swap_final.
  assert (match exec_swaps (BL := roomy_block_layer) 1 demo_mapper swap_commands swap_machine with
          | Ok (l, _) => Some l | Fault _ => None end = Some swap_replies) as H by (vm_compute; reflexivity).
  destruct (exec_swaps 1 demo_mapper swap_commands swap_machine) as [[l m]|]; [|done]. by injection H as ->.
Qed.

Lemma swap_commands_ok : Forall swap_command_ok swap_commands.
Proof. repeat constructor; cbn [swap_command_ok command_ok]; by apply page_rq_ok. Qed.

(** * Theorems *)


