(* ===== verification/Evict.v ===== *)
(** Taking memory back ([infiniswap_daemon/rdma-common.c], [evict_mem] and the body of the
    loop of [free_mem]): chunks that are not lent are freed, then the least active lent
    chunks of a sample are recalled; chunks are allocated when memory is plentiful.

    [evict_mem] waits for its clients twice.  Its definitions stop where it waits: what
    [sem_wait] waits for is another event of [DaemonSteps.serve]. *)

From Stdlib Require Import ZArith Lia SpecFloat.
From stdpp Require Import base tactics list numbers option.
From S2P Require Import Prelude Types ByteOrder Daemon.

Section Evict.
Context `{C : Config} `{D : DaemonConfig}.
Variable malloc_addr : Z → Z.

(** * Chunks that are not lent *)

(** Free chunk [i] if it is allocated and not lent; stop once [evict_g] are freed. *)
Definition free_chunk (evict_g i : Z) (st : Z * rdma_remote_mem)
  : res (ctl (Z * rdma_remote_mem)) :=
  let '(freed_g, m) := st in
  let* free := lendable m i in
  if free : bool then
    let* mm := wr (malloc_map m) i CHUNK_EMPTY in
    let freed_g := freed_g + 1 in
    let m := m <| malloc_map := mm |> in
    Ok (if freed_g =? evict_g then Break (freed_g, m <| rm_size_gb := s32 (rm_size_gb m - evict_g) |>)
        else Next (freed_g, m))
  else Ok (Next (freed_g, m)).

(** [None]: enough was freed and [evict_mem] returns; else what is left to evict. *)
Definition free_unmapped (d : daemon) (evict_g : Z) : res (option Z * daemon) :=
  let* out := for_upto_break MAX_MR_SIZE_GB (free_chunk evict_g) (0, rdma_remote (session d)) in
  match out with
  | Break (_, m) => Ok (None, with_remote d (λ _, m))
  | Next (freed_g, m) =>
      Ok (Some (evict_g - freed_g),
          with_remote d (λ _, m <| rm_size_gb := s32 (rm_size_gb m - freed_g) |>))
  end.

(** * The clients to ask *)

(** [random_chunk_select]: -1 for a chunk that is not lent, else 0. *)
Definition selectable (m : rdma_remote_mem) : list Z :=
  (λ c, if c =? -1 then -1 else 0) <$> conn_map m.

(** One draw: from a random chunk on, the first one that is lent and not selected yet. *)
Definition select_chunk (m : rdma_remote_mem) (random : Z) (st : list Z * list Z)
  : res (list Z * list Z) :=
  let '(sel, send_list) := st in
  let* x := probe (Z.to_nat MAX_MR_SIZE_GB) MAX_MR_SIZE_GB
              (λ x, match zget sel x with Some v => negb (v =? 0) | None => true end)
              (random mod MAX_MR_SIZE_GB) in
  let* sel := wr sel x 1 in
  let* owner := rd (conn_map m) x in
  let* send_list := wr send_list owner 1 in
  Ok (sel, send_list).

(** Every client that has chunks. *)
Definition select_all (d : daemon) (send_list : list Z) : res (list Z) :=
  for_upto MAX_CLIENT (λ i send_list,
    let* st := rd (conns_state (session d)) i in
    if decide (st = CONN_MAPPED) then
      let* _ := get_conn d i in wr send_list i 1
    else Ok send_list) send_list.

(** The number of chunks to recall and the clients to ask; [rand j] is the [j]-th draw. *)
Definition select_clients (rand : Z → Z) (d : daemon) (evict_g : Z) : res (Z * list Z) :=
  let m := rdma_remote (session d) in
  let send_list := replicate (Z.to_nat MAX_CLIENT) (-1) in
  if mapped_size m <? evict_g + EXTRA_CHUNK_NUM then
    let evict_g := if mapped_size m <? evict_g then mapped_size m else evict_g in
    let* send_list := select_all d send_list in
    Ok (evict_g, send_list)
  else
    let* (_, send_list) := for_upto (evict_g + EXTRA_CHUNK_NUM)
      (λ j st, select_chunk m (rand j) st) (selectable m, send_list) in
    Ok (evict_g, send_list).

(** The chunks of the clients asked. *)
Definition total_chunks (d : daemon) (send_list : list Z) : res Z :=
  for_upto MAX_CLIENT (λ i k,
    let* s := rd send_list i in
    if s =? 1 then let* c := get_conn d i in Ok (k + mapped_chunk_size c) else Ok k) 0.

Definition send_evicts (d : daemon) (send_list : list Z) (j : Z) : res daemon :=
  for_upto MAX_CLIENT (λ i d,
    let* s := rd send_list i in
    if s =? 1 then send_evict d i j else Ok d) d.

(** [evict_mem] up to the wait for the activities: what was decided, if it goes on. *)
Record eviction := { ev_j : Z; ev_k : Z; ev_send_list : list Z }.

Definition evict_begin (rand : Z → Z) (d : daemon) (stop_g : Z) : res (option eviction * daemon) :=
  let* (rest, d) := free_unmapped d stop_g in
  match rest with
  | None => Ok (None, d)
  | Some evict_g =>
      let* (j, send_list) := select_clients rand d evict_g in
      let* k := total_chunks d send_list in
      let* d := send_evicts d send_list j in
      Ok (Some {| ev_j := j; ev_k := k; ev_send_list := send_list |}, d)
  end.

(** * The activities *)

(** The activities of client [i], from its ACTIVITY message. *)
Definition collect_client (i : Z) (st : Z * list chunk_activity * daemon)
  : res (Z * list chunk_activity * daemon) :=
  let '(n, l, d) := st in
  let* c := get_conn d i in
  if evict_sem c <=? 0 then Fault Blocked
  else
    let* (n, l) := for_upto MAX_MR_SIZE_GB (λ m '(n, l),
      let* b := rd (buf (recv_msg c)) m in
      if b =? 0 then Ok (n, l)
      else
        let* l := wr l n {| activity := ntohll b; ca_chunk_index := m |} in
        Ok (n + 1, l)) (n, l) in
    let* d := put_conn d i (c <| evict_sem := evict_sem c - 1 |>
                              <| send_msg ::= λ s, clear_keys (s <| size_gb := 0 |>) |>) in
    Ok (n, l, d).

Definition collect (d : daemon) (send_list : list Z) (l : list chunk_activity)
  : res (Z * list chunk_activity * daemon) :=
  for_upto MAX_CLIENT (λ i st,
    let* s := rd send_list i in
    if s =? 1 then collect_client i st else Ok st) (0, l, d).

(** * The least active chunks *)

(** Entry [m] changes places with entry [n] if it is less active. *)
Definition order_pair (n m : Z) (l : list chunk_activity) : res (list chunk_activity) :=
  let* a := rd l n in
  let* b := rd l m in
  if activity b <? activity a then let* l := wr l n b in wr l m a else Ok l.

(** The inner loop: the least active entry from [n] on comes to place [n]. *)
Definition bring_least (k n : Z) (l : list chunk_activity) : res (list chunk_activity) :=
  for_from (n + 1) (Z.to_nat (k - (n + 1))) (order_pair n) l.

(** The chunk at place [n] is recalled from its client. *)
Definition recall_chunk (n : Z) (l : list chunk_activity) (send_list : list Z) (d : daemon)
  : res (list Z * Z * daemon) :=
  let* a := rd l n in
  let chunk_index := ca_chunk_index a in
  let* conn_index := rd (conn_map (rdma_remote (session d))) chunk_index in
  let* s := rd send_list conn_index in
  let* send_list := if s =? 1 then wr send_list conn_index 2 else Ok send_list in
  let* c := get_conn d conn_index in
  let* rk := wr (rkey (send_msg c)) chunk_index 1 in
  let* d := put_conn d conn_index (c <| send_msg ::= λ m, m <| rkey := rk |>
                                        <| size_gb := size_gb m + 1 |> |>) in
  Ok (send_list, conn_index, d).

(** Recall the [j] least active chunks; the last client recalled from comes out too. *)
Definition recall (j k : Z) (l : list chunk_activity) (send_list : list Z) (d : daemon)
  : res (list chunk_activity * list Z * Z * daemon) :=
  for_upto j (λ n '(l, send_list, _, d),
    let* l := bring_least k n l in
    let* (send_list, conn_index, d) := recall_chunk n l send_list d in
    Ok (l, send_list, conn_index, d)) (l, send_list, -1, d).

(** The STOP of client [i]: the count is that of client [conn_index]. *)
Definition stop_client (send_list : list Z) (conn_index i : Z) (d : daemon) : res daemon :=
  let* s := rd send_list i in
  if s =? 2 then
    let* c := get_conn d conn_index in send_stop d i (size_gb (send_msg c))
  else if s =? 1 then send_stop d i 0
  else Ok d.

(** [evict_mem] from the activities to the first wait for a DONE: [l] is the memory
    [malloc] gave for [evict_list].  [stop_client] follows for each client in turn. *)
Definition evict_choose (ev : eviction) (l : list chunk_activity) (d : daemon)
  : res (list Z * Z * daemon) :=
  let* (_, l, d) := collect d (ev_send_list ev) l in
  let* (_, send_list, conn_index, d) := recall (ev_j ev) (ev_k ev) l (ev_send_list ev) d in
  Ok (send_list, conn_index, d).

(** * The memory thread *)

(** IEEE numbers: [float] and [double]. *)
Definition to_f32 (x : spec_float) : spec_float :=
  match x with
  | S754_finite s m e => binary_normalize 24 128 (if s then Z.neg m else Z.pos m) e s
  | _ => x
  end.
Definition to_f64 (x : spec_float) : spec_float :=
  match x with
  | S754_finite s m e => binary_normalize 53 1024 (if s then Z.neg m else Z.pos m) e s
  | _ => x
  end.
Definition f64_of (z : Z) : spec_float := binary_normalize 53 1024 z 0 false.
Definition f32_of (z : Z) : spec_float := binary_normalize 24 128 z 0 false.

(** Conversion to [int]: towards zero. *)
Definition int_of (x : spec_float) : Z :=
  match x with
  | S754_finite s m e =>
      let a := if 0 <=? e then Z.pos m * 2 ^ e else Z.pos m / 2 ^ (- e) in
      if s then - a else a
  | _ => 0
  end.

(** 0.7, and one minus it as a [float]. *)
Definition CURR_FREE_MEM_WEIGHT : spec_float := S754_finite false 6305039478318694 (-53).
Definition last_free_mem_weight : spec_float :=
  to_f32 (SFsub 53 1024 (f64_of 1) CURR_FREE_MEM_WEIGHT).

Definition filter_free_mem (free_mem_g last_free_mem_g : Z) : Z :=
  int_of (SFadd 53 1024
    (SFmul 53 1024 CURR_FREE_MEM_WEIGHT (f64_of free_mem_g))
    (to_f64 (SFmul 24 128 (f32_of last_free_mem_g) last_free_mem_weight))).

(** The variables of [free_mem]. *)
Record mem_state := { last_free_mem_g : Z; evict_hit_count : Z; expand_hit_count : Z }.

(** Allocate [expand_size_g] chunks in the first empty places. *)
Definition expand_chunk (expand_size_g i : Z) (st : Z * rdma_remote_mem)
  : res (ctl (Z * rdma_remote_mem)) :=
  let '(j, m) := st in
  let* a := rd (malloc_map m) i in
  if a =? CHUNK_EMPTY then
    let* m := alloc_chunk malloc_addr m i in
    let j := j + 1 in
    Ok (if j =? expand_size_g then Break (j, m) else Next (j, m))
  else Ok (Next (j, m)).

Definition expand_mem (m : rdma_remote_mem) (last : Z) : res (Z * rdma_remote_mem) :=
  let expand_size_g := last - FREE_MEM_EXPAND_THRESHOLD in
  let expand_size_g := if MAX_MR_SIZE_GB <? expand_size_g + rm_size_gb m
                       then MAX_MR_SIZE_GB - rm_size_gb m else expand_size_g in
  let* out := for_upto_break MAX_MR_SIZE_GB (expand_chunk expand_size_g) (0, m) in
  let m := (ctl_state out).2 in
  Ok (expand_size_g, m <| rm_size_gb := s32 (rm_size_gb m + expand_size_g) |>).

(** One iteration, with [free_mem_kb] read from the system; the argument of [evict_mem] if
    it is called, which changes no variable of the thread. *)
Definition mem_step (free_mem_kb : Z) (st : mem_state) (m : rdma_remote_mem)
  : res (option Z * mem_state * rdma_remote_mem) :=
  let free_mem_g := s32 (free_mem_kb / ONE_MB) in
  let filtered := filter_free_mem free_mem_g (last_free_mem_g st) in
  if filtered <? FREE_MEM_EVICT_THRESHOLD then
    let hits := evict_hit_count st + 1 in
    if MEM_EVICT_HIT_THRESHOLD <=? hits then
      let stop_size_g := FREE_MEM_EVICT_THRESHOLD - filtered in
      let stop_size_g := if rm_size_gb m <? stop_size_g then rm_size_gb m else stop_size_g in
      Ok (if 0 <? stop_size_g then Some stop_size_g else None,
          {| last_free_mem_g := filtered + stop_size_g; evict_hit_count := 0;
             expand_hit_count := 0 |}, m)
    else Ok (None, {| last_free_mem_g := filtered; evict_hit_count := hits;
                      expand_hit_count := 0 |}, m)
  else if FREE_MEM_EXPAND_THRESHOLD <? filtered then
    let hits := expand_hit_count st + 1 in
    if MEM_EXPAND_HIT_THRESHOLD <=? hits then
      let* (n, m) := expand_mem m filtered in
      Ok (None, {| last_free_mem_g := filtered - n; evict_hit_count := 0;
                   expand_hit_count := 0 |}, m)
    else Ok (None, {| last_free_mem_g := filtered; evict_hit_count := 0;
                      expand_hit_count := hits |}, m)
  else Ok (None, {| last_free_mem_g := filtered; evict_hit_count := evict_hit_count st;
                    expand_hit_count := expand_hit_count st |}, m).

End Evict.
