(* ===== verification/EvictInv.v ===== *)
(** What [Evict] guarantees: the accounts of the server stay balanced, only chunks that are
    not lent are freed, the draw of clients ends, and the chunks recalled are the least
    active ones. *)

From Stdlib Require Import ZArith Lia SpecFloat.
From stdpp Require Import base tactics list numbers option.
From S2P Require Import Prelude Types ByteOrder Daemon DaemonInv DaemonSteps Evict.

Section EvictInv.
Context `{C : Config} `{D : DaemonConfig}.

(** * Allocated chunks *)

(** The allocation map changes where nothing is lent. *)
Lemma accounts_malloc d rl mm n : accounts d → len rl = MAX_MR_SIZE_GB → len mm = MAX_MR_SIZE_GB →
  n = count is_malloced mm → Forall (λ x, x = CHUNK_EMPTY ∨ x = CHUNK_MALLOCED) mm →
  (∀ j x, zget (conn_map (rdma_remote (session d))) j = Some x → x ≠ -1 →
     zget mm j = zget (malloc_map (rdma_remote (session d))) j) →
  accounts (with_remote d (λ m, m <| region_list := rl |> <| malloc_map := mm |>
                                  <| rm_size_gb := n |>)).
Proof.
  intros [H1 H2 H3 H4 H5 H6 H7 H8 H9 H10 H11 H12 H13] Hr Hm -> Hb Hlent.
  split; simpl; try done; [lia| |].
  - intros j i Hj Hi. rewrite (Hlent j i Hj Hi). by apply H10.
  - intros i c Hc. destruct (H11 i c Hc). by split.
Qed.

Definition free_at (m : rdma_remote_mem) (mm : list Z) (k : Z) : Prop :=
  zget mm k = Some CHUNK_MALLOCED ∧ zget (conn_map m) k = Some (-1).

(** After [freed] chunks below [i] were freed. *)
Record freed_upto (m : rdma_remote_mem) (i freed : Z) (mm : list Z) : Prop := {
  fu_len : len mm = MAX_MR_SIZE_GB;
  fu_count : count is_malloced mm = count is_malloced (malloc_map m) - freed;
  fu_lent : ∀ j x, zget (conn_map m) j = Some x → x ≠ -1 → zget mm j = zget (malloc_map m) j;
  fu_below : ∀ k, k < i → ¬ free_at m mm k;
  fu_above : ∀ k, i ≤ k → zget mm k = zget (malloc_map m) k;
  fu_bits : Forall (λ x, x = CHUNK_EMPTY ∨ x = CHUNK_MALLOCED) mm;
}.

Lemma freed_0 m : len (malloc_map m) = MAX_MR_SIZE_GB →
  Forall (λ x, x = CHUNK_EMPTY ∨ x = CHUNK_MALLOCED) (malloc_map m) →
  freed_upto m 0 0 (malloc_map m).
Proof.
  intros Hl Hb. split; try done; [lia|]. intros k Hk [H _]. apply zget_Some_range in H. lia.
Qed.

Lemma free_chunk_ok evict_g m i freed mm : len (conn_map m) = MAX_MR_SIZE_GB →
  0 ≤ i < MAX_MR_SIZE_GB → freed_upto m i freed mm →
  ∃ c, free_chunk evict_g i (freed, m <| malloc_map := mm |>) = Ok c ∧
    match c with
    | Next (freed', m') => ∃ mm', m' = m <| malloc_map := mm' |> ∧ freed_upto m (i + 1) freed' mm' ∧
        (freed' = freed ∨ freed' = freed + 1 ∧ freed' ≠ evict_g)
    | Break (freed', m') => ∃ mm', freed' = freed + 1 ∧ freed' = evict_g ∧
        freed_upto m (i + 1) freed' mm' ∧
        m' = m <| malloc_map := mm' |> <| rm_size_gb := s32 (rm_size_gb m - evict_g) |>
    end.
Proof.
  intros Hc Hi [L Hn Hl Hb Ha Hbits]. unfold free_chunk.
  destruct (lendable_at (m <| malloc_map := mm |>) i) as (a & b & Ea & Eb & ->);
    [simpl; lia | simpl; lia|]. simpl in Ea, Eb. cbn [res_bind].
  destruct ((a =? CHUNK_MALLOCED) && (b =? -1)) eqn:E.
  - apply andb_true_iff in E as [->%Z.eqb_eq ->%Z.eqb_eq]. cbn [malloc_map].
    rewrite wr_ok by (simpl; lia). cbn [res_bind].
    assert (freed_upto m (i + 1) (freed + 1) (zset mm i CHUNK_EMPTY)) as Hf.
    { split.
      - by rewrite len_zset.
      - rewrite (count_free _ _ Ea). lia.
      - intros j x Hj Hx. rewrite zget_zset_ne; [by eapply Hl|]. intros <-. congruence.
      - intros k Hk [H H']. destruct (decide (k = i)) as [->|Hne].
        + by rewrite zget_zset_eq in H by lia.
        + rewrite zget_zset_ne in H by done. apply (Hb k); [lia | by split].
      - intros k Hk. rewrite zget_zset_ne by lia. apply Ha. lia.
      - apply Forall_zset; [done | by left]. }
    destruct (Z.eqb_spec (freed + 1) evict_g) as [He|He].
    + eexists. split; [done|]. simpl. by eexists.
    + eexists. split; [done|]. simpl. eexists. split; [done|]. split; [done|]. by right.
  - eexists. split; [done|]. simpl. exists mm. split; [done|]. split; [|by left]. split; try done.
    + intros k Hk [H H']. destruct (decide (k = i)) as [->|Hne];
        [|apply (Hb k); [lia | by split]].
      rewrite H in Ea. rewrite H' in Eb. injection Ea as <-. by injection Eb as <-.
    + intros k Hk. apply Ha. lia.
Qed.

(** Freeing before anything is recalled. *)
Lemma free_unmapped_ok d evict_g : accounts d → 0 < evict_g →
  ∃ rest d', free_unmapped d evict_g = Ok (rest, d') ∧ accounts d' ∧
    conn_map (rdma_remote (session d')) = conn_map (rdma_remote (session d)) ∧
    conns (session d') = conns (session d) ∧
    match rest with
    | None => rm_size_gb (rdma_remote (session d')) = rm_size_gb (rdma_remote (session d)) - evict_g
    | Some r => 0 < r ∧
        rm_size_gb (rdma_remote (session d')) = rm_size_gb (rdma_remote (session d)) - (evict_g - r) ∧
        ∀ k, ¬ free_at (rdma_remote (session d')) (malloc_map (rdma_remote (session d'))) k
    end.
Proof.
  intros Ha He. set (m := rdma_remote (session d)). pose proof max_mr_pos.
  assert (∀ freed mm, freed_upto m MAX_MR_SIZE_GB freed mm ∨ (∃ i, freed_upto m i freed mm) →
    s32 (rm_size_gb m - freed) = count is_malloced mm ∧
    count is_malloced mm = rm_size_gb m - freed) as Hs32.
  { intros freed mm Hor. assert (∃ i, freed_upto m i freed mm) as [i [L Hn _ _ _ _]]
      by (destruct Hor; eauto). pose proof (li_size _ _ _ _ Ha) as Hsz.
    pose proof (count_nonneg is_malloced mm). pose proof (count_le_len is_malloced mm).
    subst m. rewrite s32_small; lia. }
  unfold free_unmapped. fold m.
  destruct (for_upto_break_inv
    (λ i st, ∃ mm, st.2 = m <| malloc_map := mm |> ∧ freed_upto m i st.1 mm ∧ st.1 < evict_g)
    (λ i st, ∃ mm, st.1 = evict_g ∧ freed_upto m (i + 1) evict_g mm ∧
       st.2 = m <| malloc_map := mm |> <| rm_size_gb := s32 (rm_size_gb m - evict_g) |>)
    (free_chunk evict_g) MAX_MR_SIZE_GB (0, m)) as (c & -> & Hc).
  - lia.
  - exists (malloc_map m). split; [by destruct m|]. split; [|done].
    apply freed_0; [apply (li_malloc _ _ _ _ Ha) | apply (li_bits _ _ _ _ Ha)].
  - intros i [freed m'] Hi (mm & Em & Hf & Hlt). cbn [fst snd] in Em, Hf, Hlt. subst m'.
    destruct (free_chunk_ok evict_g m i freed mm (li_map _ _ _ _ Ha) Hi Hf) as (c & -> & Hc).
    exists c. split; [done|]. destruct c as [[f' m']|[f' m']].
    + destruct Hc as (mm' & -> & Hf' & Hor). exists mm'. split_and!; try done. simpl. lia.
    + destruct Hc as (mm' & Ef & Ef' & Hf' & ->). exists mm'. simpl. subst evict_g. done.
  - cbn [res_bind]. destruct c as [[f' m']|[f' m']].
    + destruct Hc as (mm & Em & Hf & Hlt). simpl in *. subst m'.
      destruct (Hs32 _ _ (or_introl Hf)) as [E1 E2]. eexists _, _. split; [done|].
      split; [|split; [done|]; split; [done|]; split; [lia|]; split].
      * pose proof (accounts_malloc d (region_list m) mm (count is_malloced mm) Ha
          (li_regions _ _ _ _ Ha) (fu_len _ _ _ _ Hf) eq_refl (fu_bits _ _ _ _ Hf)
          (fu_lent _ _ _ _ Hf)) as H0.
        rewrite <- E1 in H0. exact H0.
      * simpl. rewrite E1. fold m. lia.
      * simpl. intros k Hk. destruct (decide (k < MAX_MR_SIZE_GB)).
        -- by apply (fu_below _ _ _ _ Hf k).
        -- destruct Hk as [Hk _]. apply zget_Some_range in Hk.
           rewrite (fu_len _ _ _ _ Hf) in Hk. lia.
    + destruct Hc as (i & _ & mm & Ef & Hf & Em). simpl in *. subst f' m'.
      destruct (Hs32 _ _ (or_intror (ex_intro _ _ Hf))) as [E1 E2]. eexists _, _. split; [done|].
      split; [|split; [done|]; split; [done|]].
      * pose proof (accounts_malloc d (region_list m) mm (count is_malloced mm) Ha
          (li_regions _ _ _ _ Ha) (fu_len _ _ _ _ Hf) eq_refl (fu_bits _ _ _ _ Hf)
          (fu_lent _ _ _ _ Hf)) as H0.
        rewrite <- E1 in H0. exact H0.
      * simpl. rewrite E1. fold m. lia.
Qed.

(** * The least active chunks *)

Lemma zset_swap_perm {A} (l : list A) i j a b : zget l i = Some a → zget l j = Some b →
  zset (zset l i b) j a ≡ₚ l.
Proof.
  intros Hi Hj. pose proof (zget_Some_range _ _ _ Hi). pose proof (zget_Some_range _ _ _ Hj).
  unfold zset, zget in *. rewrite !decide_True in * by lia. by apply Permutation_insert_swap.
Qed.

(** Entry [n] is no more active than the entries from [lo] up to [hi]. *)
Definition least_at (l : list chunk_activity) (n lo hi : Z) : Prop :=
  ∀ x a b, lo ≤ x < hi → zget l n = Some a → zget l x = Some b → activity a ≤ activity b.

Lemma order_pair_ok n m l : 0 ≤ n < m → m < len l → least_at l n n m →
  ∃ l', order_pair n m l = Ok l' ∧ l' ≡ₚ l ∧ least_at l' n n (m + 1) ∧
    ∀ x, x < n → zget l' x = zget l x.
Proof.
  intros Hn Hm Hl. destruct (zget_is_Some l n) as [a Ha]; [lia|].
  destruct (zget_is_Some l m) as [b Hb]; [lia|].
  unfold order_pair. rewrite (rd_ok _ _ _ Ha), (rd_ok _ _ _ Hb). cbn [res_bind].
  destruct (Z.ltb_spec (activity b) (activity a)) as [Hlt|Hge].
  - rewrite wr_ok by lia. cbn [res_bind]. rewrite wr_ok by (rewrite len_zset; lia).
    eexists. split; [done|]. split_and!.
    + by apply zset_swap_perm.
    + intros x a' b' Hx. rewrite zget_zset_ne, zget_zset_eq by lia. intros [= <-].
      rewrite zget_zset, len_zset. case_decide as Hd; [intros [= <-]; lia|].
      rewrite zget_zset. case_decide as Hd'; [intros [= <-]; lia|]. intros Hb'.
      assert (x ≠ m) by (intros ->; apply Hd; lia). pose proof (Hl x a b' ltac:(lia) Ha Hb'). lia.
    + intros x Hx. by rewrite !zget_zset_ne by lia.
  - exists l. split_and!; try done. intros x a' b' Hx Ha' Hb'. rewrite Ha in Ha'.
    injection Ha' as <-. destruct (decide (x = m)) as [->|Hne].
    + rewrite Hb in Hb'. by injection Hb' as <-.
    + apply (Hl x); [lia | done..].
Qed.

Lemma bring_least_ok k n l : 0 ≤ n < k → len l = k →
  ∃ l', bring_least k n l = Ok l' ∧ l' ≡ₚ l ∧ least_at l' n n k ∧
    ∀ x, x < n → zget l' x = zget l x.
Proof.
  intros Hn Hl. unfold bring_least.
  destruct (for_from_inv (λ m l', l' ≡ₚ l ∧ least_at l' n n m ∧
      ∀ x, x < n → zget l' x = zget l x) (order_pair n) (Z.to_nat (k - (n + 1))) (n + 1) l)
    as (l' & -> & Hp & Hle & Hpre).
  - split_and!; try done. intros x a b Hx Ha Hb. assert (x = n) as -> by lia.
    rewrite Ha in Hb. by injection Hb as <-.
  - intros m l1 Hm (Hp & Hle & Hpre).
    destruct (order_pair_ok n m l1) as (l2 & -> & Hp2 & Hle2 & Hpre2); [lia | |done|].
    { unfold len in *. rewrite Hp. lia. }
    exists l2. split_and!; try done; [by rewrite Hp2|]. intros x Hx. rewrite Hpre2 by done. by apply Hpre.
  - exists l'. split_and!; try done. by replace k with (n + 1 + Z.of_nat (Z.to_nat (k - (n + 1)))) by lia.
Qed.

(** The first [n] entries are in order and no more active than the others. *)
Definition least_first (l : list chunk_activity) (n k : Z) : Prop :=
  ∀ x, 0 ≤ x < n → least_at l x x k.

Lemma least_first_step k n l l' : len l = k → l' ≡ₚ l → least_first l n k → least_at l' n n k →
  (∀ x, x < n → zget l' x = zget l x) → 0 ≤ n → least_first l' (n + 1) k.
Proof.
  intros Hlen Hp Hf Hl Hpre Hn x Hx. destruct (decide (x = n)) as [->|Hne]; [done|].
  intros y a b Hy Ha Hb. rewrite Hpre in Ha by lia.
  destruct (decide (y < n)) as [Hyn|Hyn].
  - rewrite Hpre in Hb by done. apply (Hf x ltac:(lia) y); [lia | done..].
  - (* the entries from [n] on are those of [l] in another order *)
    assert (b ∈ drop (Z.to_nat n) l) as (i & Hi)%list_elem_of_lookup.
    { assert (take (Z.to_nat n) l' = take (Z.to_nat n) l) as Et.
      { apply list_eq. intros i. destruct (decide (i < Z.to_nat n)%nat).
        - rewrite !lookup_take_lt by lia. rewrite <- !zget_nat. apply Hpre. lia.
        - rewrite !lookup_take_ge by lia. done. }
      assert (drop (Z.to_nat n) l' ≡ₚ drop (Z.to_nat n) l) as Hd.
      { rewrite <- (take_drop (Z.to_nat n) l), <- (take_drop (Z.to_nat n) l'), Et in Hp.
        by apply Permutation_app_inv_l in Hp. }
      rewrite <- Hd. apply list_elem_of_lookup. exists (Z.to_nat y - Z.to_nat n)%nat.
      rewrite lookup_drop. unfold zget in Hb. rewrite decide_True in Hb by lia.
      by replace (Z.to_nat n + (Z.to_nat y - Z.to_nat n))%nat with (Z.to_nat y) by lia. }
    rewrite lookup_drop in Hi. rewrite <- zget_nat in Hi.
    pose proof (zget_Some_range _ _ _ Hi). by apply (Hf x ltac:(lia) (Z.of_nat (Z.to_nat n + i))); [lia|..].
Qed.

(** * Recalling *)

(** Chunk [x] of client [i] is among the first [n] entries. *)
Definition recalled (m : rdma_remote_mem) (l : list chunk_activity) (n i x : Z) : Prop :=
  ∃ y a, 0 ≤ y < n ∧ zget l y = Some a ∧ ca_chunk_index a = x ∧ zget (conn_map m) x = Some i.

Lemma recalled_pre m l l' n i x : (∀ y, y < n → zget l' y = zget l y) →
  recalled m l' n i x ↔ recalled m l n i x.
Proof.
  intros H. split; intros (y & a & Hy & Ha & ? & ?); exists y, a; split_and!; try done; try lia;
    [rewrite <- H | rewrite H]; done || lia.
Qed.

Lemma recalled_snoc m l n i x a : 0 ≤ n → zget l n = Some a →
  recalled m l (n + 1) i x ↔
    recalled m l n i x ∨ ca_chunk_index a = x ∧ zget (conn_map m) x = Some i.
Proof.
  intros Hn Ha. split.
  - intros (y & b & Hy & Hb & Hx & Hi). destruct (decide (y = n)) as [->|Hne].
    + right. rewrite Ha in Hb. by injection Hb as <-.
    + left. exists y, b. split_and!; try done; lia.
  - intros [(y & b & Hy & Hb & Hx & Hi)|[Hx Hi]].
    + exists y, b. split_and!; try done; lia.
    + exists n, a. split_and!; try done; lia.
Qed.

(** The message prepared for client [i] names and counts what is recalled from it. *)
Definition names (m : rdma_remote_mem) (l : list chunk_activity) (n i : Z) (msg : message) : Prop :=
  size_gb msg = count set_key (rkey msg) ∧
  ∀ x r, zget (rkey msg) x = Some r → set_key r = true ↔ recalled m l n i x.

Record recall_inv (d0 : daemon) (sl0 : list Z) (l0 : list chunk_activity) (k n : Z)
  (l : list chunk_activity) (sl : list Z) (d : daemon) : Prop := {
  ri_perm : l ≡ₚ l0;
  ri_least : least_first l n k;
  ri_acc : accounts d;
  ri_rem : rdma_remote (session d) = rdma_remote (session d0);
  ri_len : len sl = len sl0;
  ri_sl : ∀ i, zget sl0 i = Some 1 → zget sl i = Some 1 ∨ zget sl i = Some 2;
  ri_two : ∀ i, zget sl0 i = Some 1 →
    zget sl i = Some 2 ↔ ∃ x, recalled (rdma_remote (session d0)) l n i x;
  ri_other : ∀ i, zget sl0 i ≠ Some 1 → zget sl i = zget sl0 i;
  ri_states : conns_state (session d) = conns_state (session d0);
  ri_conns : ∀ i, zget (conns (session d)) i = zget (conns (session d0)) i ∨
    ∃ c m, zget (conns (session d0)) i = Some (Some c) ∧
      zget (conns (session d)) i = Some (Some (c <| send_msg := m |>));
  ri_names : ∀ i c, zget sl0 i = Some 1 → zget (conns (session d)) i = Some (Some c) →
    names (rdma_remote (session d0)) l n i (send_msg c);
}.

(** The entries name distinct chunks, lent to clients that were asked. *)
Definition entries_ok (m : rdma_remote_mem) (sl : list Z) (l : list chunk_activity) : Prop :=
  NoDup (ca_chunk_index <$> l) ∧
  ∀ a, a ∈ l → ∃ i, zget (conn_map m) (ca_chunk_index a) = Some i ∧ i ≠ -1 ∧ zget sl i = Some 1.

Lemma entry_new m l n i x a : NoDup (ca_chunk_index <$> l) → 0 ≤ n → zget l n = Some a →
  ca_chunk_index a = x → ¬ recalled m l n i x.
Proof.
  intros Hnd Hn Ha Hx (y & b & Hy & Hb & Hbx & _).
  pose proof (zget_Some_range _ _ _ Ha). pose proof (zget_Some_range _ _ _ Hb).
  unfold zget in Ha, Hb. rewrite !decide_True in * by lia.
  assert (Z.to_nat y = Z.to_nat n); [|lia].
  apply (NoDup_lookup (ca_chunk_index <$> l) _ _ x Hnd); rewrite list_lookup_fmap.
  - rewrite Hb. simpl. by rewrite Hbx.
  - rewrite Ha. simpl. by rewrite Hx.
Qed.

(** The message grows by one chunk. *)
Lemma names_step m l n i msg a : 0 ≤ n → zget l n = Some a → NoDup (ca_chunk_index <$> l) →
  zget (conn_map m) (ca_chunk_index a) = Some i → 0 ≤ ca_chunk_index a < len (rkey msg) →
  names m l n i msg →
  names m l (n + 1) i (msg <| rkey := zset (rkey msg) (ca_chunk_index a) 1 |>
                           <| size_gb := size_gb msg + 1 |>).
Proof.
  intros Hn Ha Hnd Hi Hr [Hsz Hk]. destruct (zget_is_Some _ _ Hr) as [r0 Hr0].
  assert (set_key r0 = false) as Hr00.
  { destruct (set_key r0) eqn:E; [|done]. apply (Hk _ _ Hr0) in E.
    by apply (entry_new m l n i (ca_chunk_index a) a Hnd Hn Ha eq_refl) in E. }
  split; simpl.
  - rewrite (count_zset _ _ _ _ _ Hr0), Hr00. simpl. lia.
  - intros x r. rewrite zget_zset, (recalled_snoc _ _ _ _ _ _ Hn Ha). case_decide as Hd.
    + destruct Hd as [<- _]. intros [= <-]. split; [by right | done].
    + intros Hx. rewrite (Hk _ _ Hx). split; [by left|]. intros [?|[<- _]]; [done|]. tauto.
Qed.

Lemma names_other m l n i msg a i' : 0 ≤ n → zget l n = Some a →
  zget (conn_map m) (ca_chunk_index a) = Some i' → i ≠ i' →
  names m l n i msg → names m l (n + 1) i msg.
Proof.
  intros Hn Ha Hi Hne [Hsz Hk]. split; [done|]. intros x r Hx.
  rewrite (Hk _ _ Hx), (recalled_snoc _ _ _ _ _ _ Hn Ha). split; [by left|].
  intros [?|[<- ?]]; [done | congruence].
Qed.

Lemma names_pre m l l' n i msg : (∀ y, y < n → zget l' y = zget l y) →
  names m l n i msg → names m l' n i msg.
Proof. intros H [Hs Hk]. split; [done|]. intros x r Hx. rewrite (recalled_pre m l l' _ _ _ H). by apply Hk. Qed.

Lemma recall_chunk_ok d0 sl0 l0 k n l sl d : entries_ok (rdma_remote (session d0)) sl0 l0 →
  len l0 = k → 0 ≤ n < k → len sl0 = MAX_CLIENT →
  (∃ l1, l ≡ₚ l1 ∧ recall_inv d0 sl0 l0 k n l1 sl d ∧ least_at l n n k ∧
     ∀ x, x < n → zget l x = zget l1 x) →
  ∃ sl' ci d', recall_chunk n l sl d = Ok (sl', ci, d') ∧ zget sl0 ci = Some 1 ∧
    recall_inv d0 sl0 l0 k (n + 1) l sl' d'.
Proof.
  intros [Hnd0 Hent] Hlen Hn Hsl0 (l1 & Hp1 & Hri & Hle & Hpre).
  destruct Hri as [Hp Hlf Ha Hr Hsl Hs12 Htwo Hot Hst Hcs Hnm].
  assert (l ≡ₚ l0) as Hpl by (by rewrite Hp1).
  assert (len l = k) as Hll by (unfold len in *; rewrite Hpl; lia).
  destruct (zget_is_Some l n) as [a Hla]; [lia|].
  destruct (Hent a) as (i & Hi & Hne & Hsi); [rewrite <- Hpl; by eapply zget_In|].
  assert (NoDup (ca_chunk_index <$> l)) as Hnd by (by rewrite Hpl).
  set (x := ca_chunk_index a) in *. set (m := rdma_remote (session d0)) in *.
  rewrite <- Hr in Hi.
  destruct (li_lent _ _ _ _ Ha x i Hi Hne) as (_ & c & Hc & Hcx).
  destruct (li_wf _ _ _ _ Ha _ _ Hc) as [_ Hcm Hcb Hck _ _].
  assert (0 ≤ x < len (rkey (send_msg c))) as Hxr.
  { rewrite Hck. rewrite <- Hcm. eauto with zarr. }
  assert (∃ s, zget sl i = Some s) as [s Hs] by (destruct (Hs12 i Hsi); eauto).
  unfold recall_chunk. rewrite (rd_ok _ _ _ Hla). cbn [res_bind]. fold x.
  rewrite (rd_ok _ _ _ Hi). cbn [res_bind]. rewrite (rd_ok _ _ _ Hs). cbn [res_bind].
  assert ((if s =? 1 then wr sl i 2 else Ok sl) = Ok (zset sl i 2)) as ->.
  { destruct (Hs12 i Hsi) as [E|E]; rewrite Hs in E; injection E as ->; simpl.
    - apply wr_ok. eauto with zarr.
    - by rewrite zset_id. }
  cbn [res_bind]. rewrite (get_conn_at _ _ _ Hc). cbn [res_bind]. rewrite wr_ok by done.
  cbn [res_bind]. rewrite (put_conn_at _ _ _ _ Hc). cbn [res_bind].
  eexists _, _, _. split; [done|]. split; [done|]. rewrite Hr in Hi. split; try done.
  - refine (least_first_step k n l1 l _ Hp1 Hlf Hle Hpre ltac:(lia)). unfold len in *. by rewrite <- Hp1.
  - apply (lend_inv_conn _ _ _ _ _ _ _ Ha Hc); try done. simpl. by rewrite len_zset.
  - by rewrite len_zset.
  - intros i' Hi'. rewrite zget_zset. case_decide; [by right | by apply Hs12].
  - intros i' Hi'. rewrite zget_zset. case_decide as Hd.
    + destruct Hd as [<- _]. split; [|done]. intros _. exists x.
      apply (recalled_snoc _ _ _ _ _ _ (proj1 Hn) Hla). by right.
    + assert (i' ≠ i) as Hii by (intros ->; apply Hd; eauto with zarr).
      rewrite (Htwo i' Hi'). split; intros [y Hy]; exists y.
      * apply (recalled_snoc _ _ _ _ _ _ (proj1 Hn) Hla). left. by rewrite (recalled_pre _ l1 l).
      * apply (recalled_snoc _ _ _ _ _ _ (proj1 Hn) Hla) in Hy as [Hy|[<- E]];
          [|change (zget (conn_map m) x = Some i') in E; congruence].
        by rewrite (recalled_pre _ l1 l) in Hy.
  - intros i' Hi'. rewrite zget_zset_ne; [by apply Hot|]. intros <-. done.
  - intros i'. simpl. rewrite zget_zset. case_decide as Hd; [|apply Hcs]. destruct Hd as [<- _]. right.
    destruct (Hcs i) as [E|(c1 & m1 & E1 & E2)].
    + rewrite Hc in E. by exists c, (send_msg c <| rkey := zset (rkey (send_msg c)) x 1 |>
        <| size_gb := size_gb (send_msg c) + 1 |>).
    + rewrite Hc in E2. injection E2 as ->. by eexists c1, _.
  - intros i' c' Hi'. simpl. rewrite zget_zset. case_decide as Hd.
    + destruct Hd as [<- _]. intros [= <-].
      apply (names_step m l n i (send_msg c) a); try done; [lia|].
      apply (names_pre m l1 l); [done|]. by apply Hnm.
    + intros Hc'. assert (i' ≠ i) as Hii by (intros ->; apply Hd; eauto with zarr).
      apply (names_other m l n i' _ a i); try done; [lia|].
      apply (names_pre m l1 l); [done|]. by apply Hnm.
Qed.

(** The [j] least active chunks are recalled. *)
Lemma recall_ok d sl l j k : accounts d → entries_ok (rdma_remote (session d)) sl l →
  len l = k → 0 ≤ j ≤ k → len sl = MAX_CLIENT →
  (∀ i c, zget sl i = Some 1 → zget (conns (session d)) i = Some (Some c) →
     size_gb (send_msg c) = 0 ∧ ∀ x r, zget (rkey (send_msg c)) x = Some r → r = 0) →
  ∃ l' sl' ci d', recall j k l sl d = Ok (l', sl', ci, d') ∧ (0 < j → zget sl ci = Some 1) ∧
    recall_inv d sl l k j l' sl' d'.
Proof.
  intros Ha He Hl Hj Hsl Hzero. unfold recall.
  assert (∀ i x, ¬ recalled (rdma_remote (session d)) l 0 i x) as Hno
    by (intros i x (y & _ & Hy & _); lia).
  match goal with |- context [for_upto j ?b ?s0] =>
    destruct (for_upto_inv (λ n st, (0 < n → zget sl st.1.2 = Some 1) ∧
        recall_inv d sl l k n st.1.1.1 st.1.1.2 st.2) b j s0)
      as ([[[l' sl'] ci] d'] & -> & Hri); [lia | | |by eexists _, _, _, _] end.
  - split; [lia|]. split; simpl; try done.
    + intros x Hx. lia.
    + intros i Hi. by left.
    + intros i Hi. split; [rewrite Hi; by intros [=] | intros [x Hx]; by apply Hno in Hx].
    + by left.
    + intros i c Hi Hc. destruct (Hzero i c Hi Hc) as [E Hk]. split.
      * rewrite E. destruct (decide (count set_key (rkey (send_msg c)) = 0)) as [->|Hne]; [done|].
        destruct (count_pos set_key (rkey (send_msg c))) as (r & Hr & Hs);
          [pose proof (count_nonneg set_key (rkey (send_msg c))); lia|].
        apply list_elem_of_lookup in Hr as [p Hp]. rewrite <- zget_nat in Hp.
        by rewrite (Hk _ _ Hp) in Hs.
      * intros x r Hx. rewrite (Hk _ _ Hx). split; [done|]. intros Hr. by apply Hno in Hr.
  - intros n [[[l1 sl1] ci] d1] Hn [_ Hri]. cbn [fst snd] in Hri.
    assert (len l1 = k) as Hl1 by (pose proof (ri_perm _ _ _ _ _ _ _ _ Hri) as Hp;
      unfold len in *; rewrite Hp; lia).
    destruct (bring_least_ok k n l1) as (l2 & -> & Hp2 & Hle2 & Hpre2); [lia | done|].
    cbn [res_bind].
    destruct (recall_chunk_ok d sl l k n l2 sl1 d1) as (sl2 & ci2 & d2 & -> & Hci & Hri2);
      try done; [lia | by exists l1|].
    cbn [res_bind]. by eexists.
Qed.

(** * The draw of clients *)

Definition is_zero (v : Z) : bool := v =? 0.

Record drawn (m : rdma_remote_mem) (n : Z) (sel sl : list Z) : Prop := {
  dr_len : len sel = MAX_MR_SIZE_GB;
  dr_lent : ∀ x, zget sel x = Some 0 → ∃ i, zget (conn_map m) x = Some i ∧ i ≠ -1;
  dr_left : count is_zero sel = count is_lent (conn_map m) - n;
  dr_sl : len sl = MAX_CLIENT;
  dr_one : ∀ i v, zget sl i = Some v → v = -1 ∨ v = 1 ∧ ∃ x, zget (conn_map m) x = Some i;
  dr_some : 0 < n → ∃ i, zget sl i = Some 1;
}.

Lemma drawn_0 m : len (conn_map m) = MAX_MR_SIZE_GB →
  drawn m 0 (selectable m) (replicate (Z.to_nat MAX_CLIENT) (-1)).
Proof.
  intros Hl. pose proof max_client_pos. unfold selectable. split.
  - unfold len in *. by rewrite length_fmap.
  - intros x Hx. unfold zget in *. case_decide; [|done]. rewrite list_lookup_fmap in Hx.
    destruct (conn_map m !! Z.to_nat x) as [i|]; [|done]. simpl in Hx.
    exists i. split; [done|]. intros ->. done.
  - rewrite Z.sub_0_r. clear Hl. induction (conn_map m) as [|c l IH]; [done|].
    rewrite fmap_cons, !count_cons, IH. f_equal. unfold is_lent. by destruct (c =? -1).
  - rewrite len_replicate by lia. done.
  - intros i v Hv. apply zget_In, elem_of_replicate in Hv as [-> _]. by left.
  - lia.
Qed.

(** A draw ends while lent chunks are left. *)
Lemma select_chunk_ok d random n sel sl : accounts d →
  0 ≤ n < count is_lent (conn_map (rdma_remote (session d))) →
  drawn (rdma_remote (session d)) n sel sl →
  ∃ sel' sl', select_chunk (rdma_remote (session d)) random (sel, sl) = Ok (sel', sl') ∧
    drawn (rdma_remote (session d)) (n + 1) sel' sl'.
Proof.
  intros Ha Hn [Hl Hlent Hleft Hsl Hone _]. pose proof max_mr_pos.
  set (m := rdma_remote (session d)) in *.
  set (busy := λ x, match zget sel x with Some v => negb (v =? 0) | None => true end).
  destruct (count_pos is_zero sel) as (v & Hv & Ev); [lia|]. apply Z.eqb_eq in Ev as ->.
  apply list_elem_of_lookup in Hv as [y Hy]. rewrite <- zget_nat in Hy.
  pose proof (zget_Some_range _ _ _ Hy) as Hyr.
  destruct (probe_total MAX_MR_SIZE_GB busy (random mod MAX_MR_SIZE_GB) (Z.of_nat y))
    as (x & Hx & Hxr & Hb); [apply Z.mod_pos_bound; lia | lia | unfold busy; by rewrite Hy|].
  unfold select_chunk. fold busy. rewrite Hx. cbn [res_bind]. unfold busy in Hb.
  destruct (zget sel x) as [v|] eqn:Hsx; [|done]. apply negb_false_iff, Z.eqb_eq in Hb as ->.
  destruct (Hlent _ Hsx) as (i & Hi & Hne).
  destruct (li_lent _ _ _ _ Ha x i Hi Hne) as (_ & c & Hc & _).
  pose proof (zget_Some_range _ _ _ Hc) as Hir. rewrite (li_conns _ _ _ _ Ha) in Hir.
  rewrite wr_ok by lia. cbn [res_bind]. rewrite (rd_ok _ _ _ Hi). cbn [res_bind].
  rewrite wr_ok by lia. cbn [res_bind]. eexists _, _. split; [done|]. split.
  - by rewrite len_zset.
  - intros z. rewrite zget_zset. case_decide; [by intros [=] | apply Hlent].
  - rewrite (count_zset _ _ _ _ _ Hsx). simpl. lia.
  - by rewrite len_zset.
  - intros i' v. rewrite zget_zset. case_decide as Hd; [|apply Hone].
    destruct Hd as [<- _]. intros [= <-]. right. split; [done | by exists x].
  - intros _. exists i. apply zget_zset_eq. lia.
Qed.

Lemma select_clients_ok rand d evict_g : accounts d → 0 ≤ evict_g →
  evict_g + EXTRA_CHUNK_NUM ≤ mapped_size (rdma_remote (session d)) →
  ∃ sl, select_clients rand d evict_g = Ok (evict_g, sl) ∧ len sl = MAX_CLIENT ∧
    (∃ i, zget sl i = Some 1) ∧
    ∀ i v, zget sl i = Some v →
      v = -1 ∨ v = 1 ∧ ∃ x, zget (conn_map (rdma_remote (session d))) x = Some i.
Proof.
  intros Ha He Hm. unfold select_clients. rewrite (proj2 (Z.ltb_ge _ _)) by lia.
  pose proof (li_mapped _ _ _ _ Ha) as Hms. unfold EXTRA_CHUNK_NUM in *.
  destruct (for_upto_inv (λ n st, drawn (rdma_remote (session d)) n st.1 st.2)
    (λ j st, select_chunk (rdma_remote (session d)) (rand j) st) (evict_g + 2)
    (selectable (rdma_remote (session d)), replicate (Z.to_nat MAX_CLIENT) (-1)))
    as ([sel sl] & -> & Hd); [lia | apply drawn_0, (li_map _ _ _ _ Ha) | |].
  - intros n [sel sl] Hn Hd.
    destruct (select_chunk_ok d (rand n) n sel sl Ha) as (sel' & sl' & E & Hd'); [lia | done|].
    by eexists.
  - cbn [res_bind]. exists sl. split; [done|]. split; [apply (dr_sl _ _ _ _ Hd)|].
    split; [apply (dr_some _ _ _ _ Hd); lia | apply (dr_one _ _ _ _ Hd)].
Qed.

(** * Expanding *)

Section Memory.
Variable malloc_addr : Z → Z.

(** After [j] chunks below [i] were allocated. *)
Record grown (m : rdma_remote_mem) (i j : Z) (rl mm : list Z) : Prop := {
  gr_rl : len rl = MAX_MR_SIZE_GB;
  gr_mm : len mm = MAX_MR_SIZE_GB;
  gr_count : count is_malloced mm = count is_malloced (malloc_map m) + j;
  gr_bits : Forall (λ x, x = CHUNK_EMPTY ∨ x = CHUNK_MALLOCED) mm;
  gr_keep : ∀ k, zget (malloc_map m) k = Some CHUNK_MALLOCED → zget mm k = Some CHUNK_MALLOCED;
  gr_below : ∀ k, 0 ≤ k < i → zget mm k = Some CHUNK_MALLOCED;
}.

Lemma expand_chunk_ok n m i j rl mm : 0 ≤ i < MAX_MR_SIZE_GB → grown m i j rl mm →
  ∃ c, expand_chunk malloc_addr n i (j, m <| region_list := rl |> <| malloc_map := mm |>) = Ok c ∧
    ∃ j' rl' mm', grown m (i + 1) j' rl' mm' ∧
      (ctl_state c).2 = m <| region_list := rl' |> <| malloc_map := mm' |> ∧
      match c with
      | Next (j1, _) => j1 = j' ∧ (j' = j ∨ j' = j + 1 ∧ j' ≠ n)
      | Break (j1, _) => j1 = j' ∧ j' = n
      end.
Proof.
  intros Hi [L1 L2 Hc Hb Hk Hlow]. destruct (zget_is_Some mm i) as [a Ha]; [lia|].
  pose proof (rd_ok _ _ _ Ha) as Hrd.
  change (rd (malloc_map (m <| region_list := rl |> <| malloc_map := mm |>)) i = Ok a) in Hrd.
  unfold expand_chunk. rewrite Hrd. cbn [res_bind].
  destruct (Forall_zget _ _ _ _ Hb Ha) as [->| ->].
  - simpl. unfold alloc_chunk. simpl. rewrite wr_ok by lia. cbn [res_bind].
    rewrite wr_ok by (simpl; lia). cbn [res_bind].
    assert (grown m (i + 1) (j + 1) (zset rl i (malloc_addr i)) (zset mm i CHUNK_MALLOCED)) as Hg.
    { split; rewrite ?len_zset; try done.
      - rewrite (count_zset _ _ _ _ _ Ha). simpl. lia.
      - apply Forall_zset; [done | by right].
      - intros k Hm. rewrite zget_zset. case_decide; [done | by apply Hk].
      - intros k Hr. rewrite zget_zset. case_decide as Hd; [done|]. apply Hlow.
        assert (k ≠ i) by (intros ->; apply Hd; lia). lia. }
    destruct (Z.eqb_spec (j + 1) n) as [He|He]; eexists; (split; [done|]);
      eexists _, _, _; (split; [done|]); (split; [done|]); simpl; [done|]. split; [done|]. by right.
  - eexists. split; [done|]. exists j, rl, mm. split_and!; try done; [|by left]. split; try done.
    intros k Hr. destruct (decide (k = i)) as [->|]; [done|]. apply Hlow. lia.
Qed.

(** All places allocated. *)
Lemma all_malloced mm : (∀ k, 0 ≤ k < len mm → zget mm k = Some CHUNK_MALLOCED) →
  count is_malloced mm = len mm.
Proof.
  intros H. assert (mm = replicate (length mm) CHUNK_MALLOCED) as ->.
  { apply list_eq. intros i. rewrite <- !zget_nat. destruct (decide (i < length mm)%nat).
    - rewrite H by (unfold len; lia). rewrite zget_nat. symmetry. by apply lookup_replicate_2.
    - rewrite !zget_None; [done | right; unfold len; rewrite ?length_replicate; lia..]. }
  unfold len. rewrite length_replicate. generalize (length mm). intros n. clear.
  induction n as [|n IH]; [done|]. cbn [replicate]. rewrite count_cons, IH. simpl. lia.
Qed.

Lemma expand_mem_ok d last : accounts d → FREE_MEM_EXPAND_THRESHOLD < last →
  ∃ n m', expand_mem malloc_addr (rdma_remote (session d)) last = Ok (n, m') ∧
    n = Z.min (last - FREE_MEM_EXPAND_THRESHOLD)
              (MAX_MR_SIZE_GB - rm_size_gb (rdma_remote (session d))) ∧
    rm_size_gb m' = rm_size_gb (rdma_remote (session d)) + n ∧
    conn_map m' = conn_map (rdma_remote (session d)) ∧ accounts (with_remote d (λ _, m')).
Proof.
  intros Ha Hlast. set (m := rdma_remote (session d)). pose proof max_mr_pos.
  pose proof (li_size _ _ _ _ Ha) as Hsz. pose proof (li_malloc _ _ _ _ Ha) as Hml. fold m in Hsz, Hml.
  pose proof (count_le_len is_malloced (malloc_map m)). pose proof (count_nonneg is_malloced (malloc_map m)).
  unfold expand_mem. set (n := if MAX_MR_SIZE_GB <? _ then _ else _).
  assert (n = Z.min (last - FREE_MEM_EXPAND_THRESHOLD) (MAX_MR_SIZE_GB - rm_size_gb m)) as Hn.
  { unfold n. destruct (Z.ltb_spec MAX_MR_SIZE_GB (last - FREE_MEM_EXPAND_THRESHOLD + rm_size_gb m)); lia. }
  destruct (for_upto_break_inv
    (λ i st, ∃ rl mm, grown m i st.1 rl mm ∧ 0 ≤ st.1 ∧ (0 < n → st.1 < n) ∧
       st.2 = m <| region_list := rl |> <| malloc_map := mm |>)
    (λ i st, ∃ i rl mm, grown m i n rl mm ∧ st.2 = m <| region_list := rl |> <| malloc_map := mm |>)
    (expand_chunk malloc_addr n) MAX_MR_SIZE_GB (0, m)) as (c & -> & Hc).
  - lia.
  - exists (region_list m), (malloc_map m). split_and!; [|done|done|by destruct m].
    split; cbn [fst]; try done; try lia; [apply (li_regions _ _ _ _ Ha) | apply (li_bits _ _ _ _ Ha)].
  - intros i [j m'] Hi (rl & mm & Hg & Hj0 & Hlt & Em). cbn [fst snd] in *. subst m'.
    destruct (expand_chunk_ok n m i j rl mm Hi Hg) as (c & -> & j' & rl' & mm' & Hg' & Es & Hc).
    exists c. split; [done|]. destruct c as [[j1 m1]|[j1 m1]]; cbn [ctl_state fst snd] in *.
    + destruct Hc as [-> Hor]. exists rl', mm'. split_and!; try done; lia.
    + destruct Hc as [-> ->]. by exists (i + 1), rl', mm'.
  - cbn [res_bind].
    assert (∃ i rl mm, grown m i n rl mm ∧
      (ctl_state c).2 = m <| region_list := rl |> <| malloc_map := mm |>) as (i & rl & mm & Hg & ->).
    { destruct c as [[j m']|[j m']]; cbn [ctl_state fst snd] in *; [|by destruct Hc as (_ & _ & ?)].
      destruct Hc as (rl & mm & Hg & Hj0 & Hlt & ->). exists MAX_MR_SIZE_GB, rl, mm.
      assert (j = n) as <-; [|done]. pose proof (gr_count _ _ _ _ _ Hg) as Hcn.
      rewrite all_malloced in Hcn by (rewrite (gr_mm _ _ _ _ _ Hg); apply (gr_below _ _ _ _ _ Hg)).
      rewrite (gr_mm _ _ _ _ _ Hg) in Hcn. lia. }
    pose proof (gr_count _ _ _ _ _ Hg) as Hcn.
    assert (s32 (rm_size_gb m + n) = count is_malloced mm) as Es by (rewrite s32_small; lia).
    eexists _, _. split; [done|]. split_and!; [done | cbn [rm_size_gb]; simpl; lia | done|].
    pose proof (accounts_malloc d rl mm (count is_malloced mm) Ha (gr_rl _ _ _ _ _ Hg)
      (gr_mm _ _ _ _ _ Hg) eq_refl (gr_bits _ _ _ _ _ Hg)) as Hacc.
    rewrite <- Es in Hacc. apply Hacc. intros j x Hj Hx.
    destruct (li_lent _ _ _ _ Ha j x Hj Hx) as [Hm _]. rewrite Hm. by apply (gr_keep _ _ _ _ _ Hg).
Qed.

End Memory.
End EvictInv.
