(* ===== verification/EvictSafety.v ===== *)
(** The properties of the memory thread of the server, with a server of two clients on
    which they are evaluated. *)

From Stdlib Require Import ZArith Lia SpecFloat.
From stdpp Require Import base tactics list numbers option.
From S2P Require Import Prelude Types ByteOrder Daemon DaemonInv DaemonSteps Evict EvictInv.

(** * A server with two clients *)

Definition asks (d : daemon) (i k : Z) : daemon := after d (SvRecv i (bind_msg k)).
Definition two_d0 : daemon := after (after (started demo_session) SvConnect) SvConnect.
Definition two_d1 : daemon := after (after two_d0 (SvEstablished 0)) (SvEstablished 1).
(** Chunks 0 and 1 are lent to client 0, chunk 2 to client 1; 3, 4 and 5 are not lent. *)
Definition two_d2 : daemon := asks (asks (asks two_d1 0 4) 0 5) 1 4.

Definition conn_of (d : daemon) (i : Z) : connection :=
  match zget (conns (session d)) i with Some (Some c) => c | _ => new_conn i end.

Lemma after_accounts d ev d' : accounts d → allowed demo_reg d ev → serve demo_reg d ev = Ok d' →
  accounts d'.
Proof. intros Ha Hal E. destruct (serve_ok demo_reg d ev Ha Hal) as (d2 & E2 & H2). congruence. Qed.

Ltac next_accounts ev :=
  match goal with |- accounts (after ?d ev) =>
    apply (after_accounts d ev); [| | vm_compute; reflexivity] end.

Lemma two_d1_accounts : accounts two_d1.
Proof.
  unfold two_d1. next_accounts (SvEstablished 1); [|exists (conn_of two_d0 1); vm_compute; reflexivity].
  next_accounts (SvEstablished 0); [|exists (conn_of two_d0 0); vm_compute; reflexivity].
  unfold two_d0. next_accounts SvConnect; [|exists 1; vm_compute; reflexivity].
  next_accounts SvConnect; [|exists 0; vm_compute; reflexivity].
  exact (demo_accounts _ _ (reach_nil _ _)).
Qed.

(** Client [i] is lent chunk [j], the first free one. *)
Lemma asks_accounts d i k j region key : accounts d →
  zget (conns (session d)) i = Some (Some (conn_of d i)) → connected (conn_of d i) ≠ 0 →
  first_lendable (rdma_remote (session d)) j →
  zget (region_list (rdma_remote (session d))) j = Some region → demo_reg region = Some key →
  accounts (asks d i k).
Proof.
  intros Ha Hc Hn Hf Hr Hk. unfold asks, after.
  destruct (serve_ok demo_reg d (SvRecv i (bind_msg k)) Ha) as (d' & -> & Ha'); [|done].
  exists (conn_of d i). split_and!; try done. by exists j, region, key.
Qed.

Lemma two_d2_accounts : accounts two_d2.
Proof.
  unfold two_d2.
  apply (asks_accounts _ 1 4 2 (demo_addr 2) 103);
    [apply (asks_accounts _ 0 5 1 (demo_addr 1) 102);
       [apply (asks_accounts _ 0 4 0 (demo_addr 0) 101); [apply two_d1_accounts|..]|..]|..];
  try (vm_compute; reflexivity); try (vm_compute; discriminate).
  all: split_and!; [vm_compute; reflexivity.. |]; intros k a b Hk.
  - lia.
  - assert (k = 0) as -> by lia. vm_compute. intros [= <-] [= <-]. by right.
  - assert (k = 0 ∨ k = 1) as [-> | ->] by lia; vm_compute; intros [= <-] [= <-]; by right.
Qed.

(** * Freeing and expanding *)

(** C25: [evict_mem] first frees chunks that are lent to nobody.  Either it frees as many as
    it was asked for, or it frees all of them and goes on with the rest; no client loses
    a chunk and the accounts balance. *)
Theorem free_unmapped_correct `{C : Config} `{D : DaemonConfig} d evict_g :
  accounts d → 0 < evict_g →
  ∃ rest d', free_unmapped d evict_g = Ok (rest, d') ∧ accounts d' ∧
    conn_map (rdma_remote (session d')) = conn_map (rdma_remote (session d)) ∧
    conns (session d') = conns (session d) ∧
    match rest with
    | None => rm_size_gb (rdma_remote (session d')) = rm_size_gb (rdma_remote (session d)) - evict_g
    | Some r => 0 < r ∧
        rm_size_gb (rdma_remote (session d')) = rm_size_gb (rdma_remote (session d)) - (evict_g - r) ∧
        ∀ k, ¬ free_at (rdma_remote (session d')) (malloc_map (rdma_remote (session d'))) k
    end.
Proof. apply free_unmapped_ok. Qed.

Lemma free_unmapped_correct_witness : ∃ rest d', free_unmapped two_d2 4 = Ok (rest, d') ∧ accounts d'.
Proof.
  destruct (free_unmapped_correct two_d2 4 two_d2_accounts eq_refl) as (rest & d' & E & Ha & _).
  exists rest, d'. exact (conj E Ha).
Defined.

(** C26: An iteration of the memory thread keeps the accounts balanced, whatever memory the
    system reports: it asks [evict_mem] for between one chunk and all there are, or allocates
    chunks up to the limit of the chunk maps, and never does both. *)
Theorem mem_step_correct `{C : Config} `{D : DaemonConfig} malloc_addr d kb st : accounts d →
  ∃ req st' m', mem_step malloc_addr kb st (rdma_remote (session d)) = Ok (req, st', m') ∧
    accounts (with_remote d (λ _, m')) ∧
    conn_map m' = conn_map (rdma_remote (session d)) ∧
    rm_size_gb (rdma_remote (session d)) ≤ rm_size_gb m' ≤ MAX_MR_SIZE_GB ∧
    (∀ n, req = Some n → 0 < n ≤ rm_size_gb m' ∧ m' = rdma_remote (session d) ∧
       filter_free_mem (s32 (kb / ONE_MB)) (last_free_mem_g st) < FREE_MEM_EVICT_THRESHOLD).
Proof.
  intros Ha. set (m := rdma_remote (session d)).
  assert (accounts (with_remote d (λ _, m))) as Hsame by (destruct d as [[]]; exact Ha).
  assert (0 ≤ rm_size_gb m ≤ MAX_MR_SIZE_GB) as Hr.
  { unfold m. rewrite (li_size _ _ _ _ Ha), <- (li_malloc _ _ _ _ Ha).
    pose proof (count_le_len is_malloced (malloc_map (rdma_remote (session d)))).
    pose proof (count_nonneg is_malloced (malloc_map (rdma_remote (session d)))). lia. }
  unfold mem_step. set (f := filter_free_mem _ _).
  destruct (Z.ltb_spec f FREE_MEM_EVICT_THRESHOLD) as [Hf|Hf].
  - destruct (_ <=? _).
    + eexists _, _, m. split; [done|]. split_and!; try done; try lia. intros n.
      destruct (Z.ltb_spec (rm_size_gb m) (FREE_MEM_EVICT_THRESHOLD - f));
        match goal with |- context [0 <? ?x] => destruct (Z.ltb_spec 0 x) end;
        intros [= <-]; split_and!; try done; lia.
    + eexists _, _, m. split; [done|]. split_and!; try done; lia.
  - destruct (Z.ltb_spec FREE_MEM_EXPAND_THRESHOLD f) as [Hg|Hg].
    + destruct (_ <=? _).
      * destruct (expand_mem_ok malloc_addr d f Ha Hg) as (n & m' & E & Hn & Hm & Hc & Ha').
        fold m in E, Hn, Hm, Hc. rewrite E. cbn [res_bind]. eexists _, _, m'. split; [done|].
        split_and!; try done; lia.
      * eexists _, _, m. split; [done|]. split_and!; try done; lia.
    + eexists _, _, m. split; [done|]. split_and!; try done; lia.
Qed.

Lemma mem_step_correct_witness : ∃ req st' m',
  mem_step demo_addr (30 * ONE_MB) {| last_free_mem_g := 30; evict_hit_count := 0; expand_hit_count := 19 |}
    (rdma_remote (session two_d2)) = Ok (req, st', m') ∧ accounts (with_remote two_d2 (λ _, m')).
Proof.
  destruct (mem_step_correct demo_addr two_d2 (30 * ONE_MB)
    {| last_free_mem_g := 30; evict_hit_count := 0; expand_hit_count := 19 |} two_d2_accounts)
    as (req & st' & m' & E & Ha & _).
  exists req, st', m'. exact (conj E Ha).
Defined.

(** * Recalling *)

(** C27: The draw of clients ends and asks only clients that have chunks: with two more
    chunks lent than are to be recalled, every draw finds a chunk that is lent and was not
    drawn before, from whatever place it starts. *)
Theorem select_clients_terminates `{C : Config} `{D : DaemonConfig} rand d evict_g :
  accounts d → 0 ≤ evict_g → evict_g + EXTRA_CHUNK_NUM ≤ mapped_size (rdma_remote (session d)) →
  ∃ sl, select_clients rand d evict_g = Ok (evict_g, sl) ∧ len sl = MAX_CLIENT ∧
    (∃ i, zget sl i = Some 1) ∧
    ∀ i v, zget sl i = Some v →
      v = -1 ∨ v = 1 ∧ ∃ x, zget (conn_map (rdma_remote (session d))) x = Some i.
Proof. apply select_clients_ok. Qed.

Lemma select_clients_terminates_witness : ∃ sl,
  select_clients (λ j, 31 + j) two_d2 1 = Ok (1, sl) ∧ len sl = MAX_CLIENT.
Proof.
  destruct (select_clients_terminates (λ j, 31 + j) two_d2 1 two_d2_accounts)
    as (sl & E & Hl & _); [lia | vm_compute; discriminate|].
  exists sl. exact (conj E Hl).
Defined.

(** C13: Of the chunks whose activity was reported, the [j] least active ones are recalled:
    the list is a permutation of the reports, its first [j] entries are in order and no more
    active than the rest, and the message prepared for each client names and counts exactly
    the chunks recalled from it.  The accounts do not change. *)
Theorem recall_least_active `{C : Config} `{D : DaemonConfig} d sl l j k :
  accounts d → entries_ok (rdma_remote (session d)) sl l → len l = k → 0 ≤ j ≤ k →
  len sl = MAX_CLIENT →
  (∀ i c, zget sl i = Some 1 → zget (conns (session d)) i = Some (Some c) →
     size_gb (send_msg c) = 0 ∧ ∀ x r, zget (rkey (send_msg c)) x = Some r → r = 0) →
  ∃ l' sl' ci d', recall j k l sl d = Ok (l', sl', ci, d') ∧ accounts d' ∧ l' ≡ₚ l ∧
    (∀ x y a b, 0 ≤ x < j → x ≤ y < k → zget l' x = Some a → zget l' y = Some b →
       activity a ≤ activity b) ∧
    ∀ i c, zget sl i = Some 1 → zget (conns (session d')) i = Some (Some c) →
      (zget sl' i = Some 2 ↔ ∃ x, recalled (rdma_remote (session d)) l' j i x) ∧
      size_gb (send_msg c) = count set_key (rkey (send_msg c)) ∧
      ∀ x r, zget (rkey (send_msg c)) x = Some r →
        set_key r = true ↔ recalled (rdma_remote (session d)) l' j i x.
Proof.
  intros Ha He Hl Hj Hsl Hz.
  destruct (recall_ok d sl l j k Ha He Hl Hj Hsl Hz) as (l' & sl' & ci & d' & E & _ & Hri).
  exists l', sl', ci, d'. split; [done|]. split; [apply (ri_acc _ _ _ _ _ _ _ _ Hri)|].
  split; [apply (ri_perm _ _ _ _ _ _ _ _ Hri)|]. split.
  - intros x y a b Hx Hy Hxa Hyb. by apply (ri_least _ _ _ _ _ _ _ _ Hri x Hx y).
  - intros i c Hi Hc. split; [by apply (ri_two _ _ _ _ _ _ _ _ Hri)|].
    apply (ri_names _ _ _ _ _ _ _ _ Hri i c Hi Hc).
Qed.

(** The messages to both clients cleared, as [collect] leaves them. *)
Definition cleared (c : connection) : connection :=
  c <| send_msg ::= λ m, clear_keys (m <| size_gb := 0 |>) |>.
Definition clear_conn (d : daemon) (i : Z) : daemon :=
  d <| session ::= λ s, s <| conns := zset (conns s) i (Some (cleared (conn_of two_d2 i))) |> |>.
Definition two_d3 : daemon := clear_conn (clear_conn two_d2 0) 1.
Definition two_asked : list Z := [1; 1] ++ replicate 30 (-1).
Definition two_reports : list chunk_activity :=
  [ {| activity := 5; ca_chunk_index := 0 |}; {| activity := 1; ca_chunk_index := 1 |};
    {| activity := 3; ca_chunk_index := 2 |} ].

Lemma clear_conn_accounts d i : accounts d →
  zget (conns (session d)) i = Some (Some (conn_of two_d2 i)) →
  len (buf (send_msg (cleared (conn_of two_d2 i)))) = MAX_MR_SIZE_GB →
  len (rkey (send_msg (cleared (conn_of two_d2 i)))) = MAX_MR_SIZE_GB → accounts (clear_conn d i).
Proof. intros Ha Hc Hb Hk. by apply (lend_inv_conn _ _ _ _ _ _ _ Ha Hc). Qed.

Lemma two_d3_accounts : accounts two_d3.
Proof.
  apply clear_conn_accounts; [apply clear_conn_accounts; [exact two_d2_accounts|..]|..];
    vm_compute; reflexivity.
Qed.

Lemma cleared_zero c : size_gb (send_msg (cleared c)) = 0 ∧
  ∀ x r, zget (rkey (send_msg (cleared c))) x = Some r → r = 0.
Proof.
  split; [done|]. intros x r Hr. by apply zget_In, elem_of_replicate in Hr as [-> _].
Qed.

Lemma two_asked_one i : zget two_asked i = Some 1 → i = 0 ∨ i = 1.
Proof.
  intros Hi. destruct (decide (i = 0)); [by left|]. destruct (decide (i = 1)); [by right|].
  pose proof (zget_Some_range _ _ _ Hi). unfold zget, two_asked in Hi.
  rewrite decide_True in Hi by lia.
  replace (Z.to_nat i) with (S (S (Z.to_nat (i - 2)))) in Hi by lia.
  change (replicate 30 (-1) !! Z.to_nat (i - 2) = Some 1) in Hi.
  by apply lookup_replicate_1 in Hi as [? _].
Qed.

Lemma two_d3_conn i c : i = 0 ∨ i = 1 → zget (conns (session two_d3)) i = Some (Some c) →
  cleared (conn_of two_d2 i) = c.
Proof.
  assert (len (conns (session two_d2)) = 32) as Hl by (vm_compute; reflexivity).
  change (conns (session two_d3)) with (zset (zset (conns (session two_d2)) 0
    (Some (cleared (conn_of two_d2 0)))) 1 (Some (cleared (conn_of two_d2 1)))).
  intros [->| ->].
  - rewrite zget_zset_ne, zget_zset_eq by lia. intros H. by injection H.
  - rewrite zget_zset_eq by (rewrite len_zset; lia). intros H. by injection H.
Qed.

Lemma two_entries : entries_ok (rdma_remote (session two_d3)) two_asked two_reports.
Proof.
  split; [by apply (bool_decide_unpack _)|]. intros a Ha. unfold two_reports in Ha.
  apply elem_of_cons in Ha as [->|[->|[->|Ha%elem_of_nil]%elem_of_cons]%elem_of_cons]; [| | |done].
  - exists 0. vm_compute. done.
  - exists 0. vm_compute. done.
  - exists 1. vm_compute. done.
Qed.

Lemma recall_least_active_witness : ∃ l' sl' ci d',
  recall 2 3 two_reports two_asked two_d3 = Ok (l', sl', ci, d') ∧ accounts d' ∧ l' ≡ₚ two_reports.
Proof.
  destruct (recall_least_active two_d3 two_asked two_reports 2 3)
    as (l' & sl' & ci & d' & E & Ha & Hp & _).
  - exact two_d3_accounts.
  - exact two_entries.
  - reflexivity.
  - lia.
  - reflexivity.
  - intros i c Hi Hc. destruct (two_d3_conn i c (two_asked_one i Hi) Hc). apply cleared_zero.
  - exists l', sl', ci, d'. exact (conj E (conj Ha Hp)).
Defined.

(** * The counts of STOP messages *)

(** An ACTIVITY message with these activities in its first slots. *)
Definition activity_msg (l : list Z) : message :=
  zero_msg <| type := ACTIVITY |>
           <| buf := (ntohll <$> l) ++ replicate (Z.to_nat MAX_MR_SIZE_GB - length l) 0 |>.

(** The whole of [evict_mem 6] on the server with two clients, up to the first STOP: the
    three chunks that are not lent are freed, the other three are recalled.  The type of the
    message to client 0, the number of chunks it names, and its count. *)
Definition stop_scenario : res (info_type * Z * Z) :=
  let* (ev, d) := evict_begin (λ _, 0) two_d2 6 in
  match ev with
  | None => Fault Die
  | Some ev =>
      let* d := serve demo_reg d (SvRecv 0 (activity_msg [2; 3])) in
      let* d := serve demo_reg d (SvRecv 1 (activity_msg [0; 0; 6])) in
      let* (sl, ci, d) := evict_choose ev
        (replicate (Z.to_nat (ev_k ev)) {| activity := 0; ca_chunk_index := 0 |}) d in
      let* d := stop_client sl ci 0 d in
      match zget (outbox d) (len (outbox d) - 1) with
      | Some (_, m) => Ok (type m, count set_key (rkey m), size_gb m)
      | None => Fault Die
      end
  end.


(** * The filter *)

Definition between (a b : Z) : bool :=
  let f := filter_free_mem a b in (Z.min a b <=? f) && (f <=? Z.max a b).

Lemma filter_table : forallb (λ a, forallb (between a) (seqZ 0 128)) (seqZ 0 128) = true.
Proof. vm_compute. reflexivity. Qed.


