(* ===== verification/EvictMem.v ===== *)
(** [evict_mem] from beginning to end ([infiniswap_daemon/rdma-common.c]), with the messages of
    the clients it waits for: the server frees what is not lent, asks for the activities,
    recalls the least active chunks, and has given back exactly the memory it was asked for.
    This holds while one client has all the chunks that are lent; with several the counts of
    the STOP messages are wrong ([EvictSafety.stop_counts_mixed]). *)

From Stdlib Require Import ZArith Lia.
From stdpp Require Import base tactics list numbers option.
From S2P Require Import Prelude Types ByteOrder Daemon DaemonInv DaemonSteps ConnStates Protocol.
From S2P Require Import Evict EvictInv EvictSafety.

Section EvictMem.
Context `{C : Config} `{D : DaemonConfig}.
Variable reg_mr : Z → option Z.
(** The random numbers, and the memory [malloc] gives for [evict_list]. *)
Variable rand : Z → Z.
Variable evict_memory : Z → list chunk_activity.
(** What client [i] answers to an EVICT message, and to a STOP message. *)
Variable on_evict on_stop : Z → message → message.

(** * The whole function *)

(** The ACTIVITY messages arrive while [evict_mem] waits for [evict_sem]. *)
Definition await_activity (send_list : list Z) (d : daemon) : res daemon :=
  for_upto MAX_CLIENT (λ i d,
    let* s := rd send_list i in
    if s =? 1 then
      let* c := get_conn d i in serve reg_mr d (SvRecv i (on_evict i (send_msg c)))
    else Ok d) d.

(** STOP, and unless its count is 0 the wait for the DONE of the client. *)
Definition stop_wait (send_list : list Z) (conn_index i : Z) (d : daemon) : res daemon :=
  let* d := stop_client send_list conn_index i d in
  let* s := rd send_list i in
  if s =? 2 then
    let* c := get_conn d i in
    if size_gb (send_msg c) =? 0 then Ok d
    else
      let* d := serve reg_mr d (SvRecv i (on_stop i (send_msg c))) in
      wait_stop d i
  else Ok d.

Definition evict_mem (d : daemon) (stop_g : Z) : res daemon :=
  let* (ev, d) := evict_begin rand d stop_g in
  match ev with
  | None => Ok d
  | Some ev =>
      let* d := await_activity (ev_send_list ev) d in
      let* (send_list, conn_index, d) := evict_choose ev (evict_memory (ev_k ev)) d in
      for_upto MAX_CLIENT (stop_wait send_list conn_index) d
  end.

(** * What the clients promise *)

(** An EVICT message, and a STOP message that names chunks of client [i] and counts them. *)
Record evict_msg (m : message) : Prop := {
  em_type : type m = EVICT;
  em_keys : len (rkey m) = MAX_MR_SIZE_GB;
  em_bufs : len (buf m) = MAX_MR_SIZE_GB;
  em_some : size_gb m ≠ 0;
}.

Record stop_msg (rm : rdma_remote_mem) (i : Z) (m : message) : Prop := {
  sm_type : type m = STOP;
  sm_keys : len (rkey m) = MAX_MR_SIZE_GB;
  sm_bufs : len (buf m) = MAX_MR_SIZE_GB;
  sm_size : size_gb m = count set_key (rkey m);
  sm_some : size_gb m ≠ 0;
  sm_own : ∀ j k, zget (rkey m) j = Some k → set_key k = true → zget (conn_map rm) j = Some i;
}.

(** Client [i] reports the activities [b], nonzero for its own chunks and for no other, and
    gives back the chunks a STOP message names. *)
Record keeps_word (rm : rdma_remote_mem) (i : Z) (b : list Z) : Prop := {
  kw_len : len b = MAX_MR_SIZE_GB;
  kw_chunks : ∀ j x, zget b j = Some x → x ≠ 0 ↔ zget (conn_map rm) j = Some i;
  kw_evict : ∀ m, evict_msg m → type (on_evict i m) = ACTIVITY ∧ buf (on_evict i m) = b;
  kw_stop : ∀ m, stop_msg rm i m → gives_back m (on_stop i m);
}.

(** * One client has every chunk that is lent *)

Definition sole (m : rdma_remote_mem) (i0 : Z) : Prop :=
  ∀ j i, zget (conn_map m) j = Some i → i ≠ -1 → i = i0.

Lemma sole_chunks d i0 i : accounts d → sole (rdma_remote (session d)) i0 → has_chunks d i → i = i0.
Proof.
  intros Ha Hs (c & Hc & Hp). destruct (li_wf _ _ _ _ Ha _ _ Hc) as [_ _ _ _ Hsz Hback].
  destruct (count_pos is_lent (sess_chunk_map c)) as (x & Hx & Hl); [case_decide; lia|].
  apply negb_true_iff, Z.eqb_neq in Hl.
  apply list_elem_of_lookup in Hx as [p Hp']. rewrite <- zget_nat in Hp'.
  destruct (Hback _ _ Hp' Hl) as [_ Hm]. apply (Hs _ _ Hm). apply zget_Some_range in Hc. lia.
Qed.

Lemma sole_size d i0 c : accounts d → sole (rdma_remote (session d)) i0 →
  zget (conns (session d)) i0 = Some (Some c) →
  mapped_size (rdma_remote (session d)) = mapped_chunk_size c.
Proof.
  intros Ha Hs Hc. destruct (li_wf _ _ _ _ Ha _ _ Hc) as [_ Hl _ _ Hsz Hback].
  rewrite (li_mapped _ _ _ _ Ha), Hsz, Z.add_0_r. replace (if decide _ then 0 else 0) with 0 by by case_decide.
  rewrite Z.add_0_r. apply count_pointwise; [by rewrite (li_map _ _ _ _ Ha), Hl|].
  intros j x y Hx Hy. unfold is_lent. f_equal. destruct (Z.eqb_spec x (-1)) as [->|Hn].
  - destruct (Z.eqb_spec y (-1)) as [|Hy1]; [done|]. destruct (Hback _ _ Hy Hy1) as [_ E].
    rewrite Hx in E. injection E as <-. apply zget_Some_range in Hc. lia.
  - pose proof (Hs _ _ Hx Hn) as ->. destruct (li_lent _ _ _ _ Ha _ _ Hx Hn) as (_ & c' & Hc' & Hj).
    rewrite Hc in Hc'. injection Hc' as <-. rewrite Hy in Hj. injection Hj as ->.
    destruct (Z.eqb_spec j (-1)); [|done]. apply zget_Some_range in Hx. lia.
Qed.

(** Once nothing is left to free, all the memory is lent. *)
Lemma all_lent d : accounts d →
  (∀ k, ¬ free_at (rdma_remote (session d)) (malloc_map (rdma_remote (session d))) k) →
  rm_size_gb (rdma_remote (session d)) = mapped_size (rdma_remote (session d)).
Proof.
  intros Ha Hn. rewrite (li_size _ _ _ _ Ha), (li_mapped _ _ _ _ Ha). f_equal.
  apply count_pointwise; [by rewrite (li_malloc _ _ _ _ Ha), (li_map _ _ _ _ Ha)|].
  intros j x y Hx Hy. unfold is_malloced, is_lent. destruct (Z.eqb_spec x CHUNK_MALLOCED) as [->|Hx1].
  - destruct (Z.eqb_spec y (-1)) as [->|]; [|done]. destruct (Hn j). by split.
  - destruct (Z.eqb_spec y (-1)) as [|Hy1]; [done|]. destruct (li_lent _ _ _ _ Ha _ _ Hy Hy1) as [E _].
    congruence.
Qed.

(** The client alone is asked. *)
Record asked_one (sl : list Z) (i0 : Z) : Prop := {
  ao_len : len sl = MAX_CLIENT;
  ao_one : zget sl i0 = Some 1;
  ao_rest : ∀ i v, zget sl i = Some v → i ≠ i0 → v = -1;
}.

(** A loop over the clients asked. *)
Lemma asked_loop {S} sl i0 (f : Z → S → res S) s : asked_one sl i0 →
  for_upto MAX_CLIENT (λ i s, let* x := rd sl i in if x =? 1 then f i s else Ok s) s = f i0 s.
Proof.
  intros [Hl H1 Hr]. pose proof (zget_Some_range _ _ _ H1) as Hi. rewrite Hl in Hi.
  rewrite (for_upto_single _ i0) by
    (done || (intros i s' Hi' Hne; destruct (zget_is_Some sl i) as [v Hv]; [lia|];
              rewrite (rd_ok _ _ _ Hv), (Hr _ _ Hv Hne); done)).
  by rewrite (rd_ok _ _ _ H1).
Qed.

Lemma select_one d r i0 : accounts d → mapped_states d → sole (rdma_remote (session d)) i0 →
  has_chunks d i0 → 0 < r ≤ mapped_size (rdma_remote (session d)) →
  ∃ sl, select_clients rand d r = Ok (r, sl) ∧ asked_one sl i0.
Proof.
  intros Ha Hm Hs Hi Hr. pose proof Hi as (c & Hc & _). pose proof max_client_pos.
  pose proof (zget_Some_range _ _ _ Hc) as Hi0. rewrite (li_conns _ _ _ _ Ha) in Hi0.
  destruct (Z.ltb_spec (mapped_size (rdma_remote (session d))) (r + EXTRA_CHUNK_NUM)) as [Hlt|Hge].
  - unfold select_clients. rewrite (proj2 (Z.ltb_lt _ _)) by lia.
    rewrite (proj2 (Z.ltb_ge _ r)) by lia. unfold select_all.
    rewrite (for_upto_single _ i0); [|done|].
    + rewrite (rd_ok _ _ _ (proj2 (Hm i0) Hi)). cbn [res_bind]. rewrite decide_True by done.
      rewrite (get_conn_at _ _ _ Hc). cbn [res_bind]. rewrite wr_ok by (rewrite len_replicate; lia).
      eexists. split; [done|]. split.
      * rewrite len_zset, len_replicate; lia.
      * apply zget_zset_eq. rewrite len_replicate; lia.
      * intros i v Hv Hne. rewrite zget_zset_ne in Hv by done.
        by apply zget_In, elem_of_replicate in Hv as [-> _].
    + intros i sl Hir Hne. destruct (zget_is_Some (conns_state (session d)) i) as [st Hst];
        [rewrite (li_states _ _ _ _ Ha); lia|].
      rewrite (rd_ok _ _ _ Hst). cbn [res_bind]. rewrite decide_False; [done|]. intros ->.
      apply Hne, (sole_chunks d); [done | done | by apply Hm].
  - destruct (select_clients_ok rand d r Ha) as (sl & E & Hl & [i1 H1] & Hv); [lia | lia|].
    assert (∀ i, zget sl i = Some 1 → i = i0) as Hone.
    { intros i Hsi. destruct (Hv _ _ Hsi) as [?|[_ [x Hx]]]; [done|]. apply (Hs _ _ Hx).
      apply zget_Some_range in Hsi. lia. }
    exists sl. split; [done|]. split; [done | by rewrite <- (Hone _ H1)|].
    intros i v Hiv Hne. destruct (Hv _ _ Hiv) as [?|[-> _]]; [done|]. by apply Hone in Hiv.
Qed.

(** * The reports *)

Definition report_at (b : list Z) (m : Z) : option chunk_activity :=
  match zget b m with
  | Some x => if x =? 0 then None else Some {| activity := ntohll x; ca_chunk_index := m |}
  | None => None
  end.
Definition reports (b : list Z) (n : Z) : list chunk_activity := omap (report_at b) (seqZ 0 n).

Lemma reports_next b n x : 0 ≤ n → zget b n = Some x →
  reports b (n + 1) = reports b n ++
    (if x =? 0 then [] else [{| activity := ntohll x; ca_chunk_index := n |}]).
Proof.
  intros Hn Hx. unfold reports. rewrite seqZ_app by lia. rewrite omap_app. f_equal.
  rewrite Z.add_0_l, seqZ_cons by lia. change (Z.pred 1) with 0. cbn. unfold report_at. rewrite Hx.
  by destruct (x =? 0).
Qed.

Lemma length_reports b n : 0 ≤ n ≤ len b →
  len (reports b n) = count set_key (take (Z.to_nat n) b).
Proof.
  intros [Hn Hle]. revert Hle. pattern n. apply natlike_ind; [done | | done]. clear n Hn.
  intros n Hn IH Hle. destruct (zget_is_Some b n) as [x Hx]; [lia|].
  unfold Z.succ. rewrite (reports_next _ _ _ Hn Hx), (count_take _ _ _ _ Hx), <- IH by lia.
  unfold len. rewrite length_app. unfold set_key. destruct (x =? 0); simpl; lia.
Qed.

Lemma elem_of_reports b n a : a ∈ reports b n → 0 ≤ ca_chunk_index a < n ∧
  ∃ x, zget b (ca_chunk_index a) = Some x ∧ x ≠ 0 ∧ activity a = ntohll x.
Proof.
  unfold reports. intros (m & Hm%elem_of_seqZ & Ha)%list_elem_of_omap. unfold report_at in Ha.
  destruct (zget b m) as [x|] eqn:Hx; [|done]. destruct (Z.eqb_spec x 0); [done|].
  injection Ha as <-. simpl. split; [lia|]. eauto.
Qed.

Lemma activity_of v m : activity {| activity := v; ca_chunk_index := m |} = v.
Proof. reflexivity. Qed.

Lemma reports_in b n m x : 0 ≤ m < n → zget b m = Some x → x ≠ 0 →
  ∃ a, a ∈ reports b n ∧ ca_chunk_index a = m ∧ activity a = ntohll x.
Proof.
  intros Hm Hx Hne. exists {| activity := ntohll x; ca_chunk_index := m |}.
  split_and!; [|reflexivity | apply activity_of].
  apply list_elem_of_omap. exists m. split; [apply elem_of_seqZ; lia|].
  unfold report_at. rewrite Hx. by destruct (Z.eqb_spec x 0).
Qed.

Lemma reports_distinct b n : NoDup (ca_chunk_index <$> reports b n).
Proof.
  assert (ca_chunk_index <$> reports b n = filter (λ m, is_Some (report_at b m)) (seqZ 0 n)) as ->;
    [|apply list.NoDup_filter, NoDup_seqZ].
  unfold reports. induction (seqZ 0 n) as [|m l IH]; [done|]. rewrite filter_cons.
  change (omap (report_at b) (m :: l)) with
    (match report_at b m with Some a => a :: omap (report_at b) l | None => omap (report_at b) l end).
  destruct (report_at b m) as [a|] eqn:E.
  - rewrite decide_True, fmap_cons, IH by by eexists. f_equal. unfold report_at in E.
    destruct (zget b m) as [x|]; [|done]. destruct (x =? 0); [done|]. by injection E as <-.
  - by rewrite decide_False by by intros [? [=]].
Qed.

Lemma count_take_le {A} (f : A → bool) n (l : list A) : count f (take n l) ≤ count f l.
Proof.
  unfold count. rewrite <- (take_drop n l) at 2. rewrite List.filter_app, length_app. lia.
Qed.

(** The message fills the list. *)
Lemma collect_loop_ok b l : len b = MAX_MR_SIZE_GB → len l = count set_key b →
  for_upto MAX_MR_SIZE_GB (λ m '(n, l),
      let* x := rd b m in
      if x =? 0 then Ok (n, l)
      else
        let* l := wr l n {| activity := ntohll x; ca_chunk_index := m |} in
        Ok (n + 1, l)) (0, l) = Ok (len l, reports b MAX_MR_SIZE_GB).
Proof.
  intros Hb Hl. pose proof max_mr_pos.
  match goal with |- for_upto _ ?body _ = _ =>
    destruct (for_upto_inv (λ m st, st = (len (reports b m),
      reports b m ++ drop (length (reports b m)) l)) body MAX_MR_SIZE_GB (0, l))
      as (st & -> & ->) end; [lia | done | |].
  - intros m st Hm ->. destruct (zget_is_Some b m) as [x Hx]; [lia|].
    rewrite (rd_ok _ _ _ Hx). cbn [res_bind]. rewrite (reports_next _ _ _ (proj1 Hm) Hx).
    pose proof (length_reports b (m + 1)) as Hlen. rewrite (reports_next _ _ _ (proj1 Hm) Hx) in Hlen.
    pose proof (count_take_le set_key (Z.to_nat (m + 1)) b).
    destruct (x =? 0); [by rewrite app_nil_r; eexists|].
    set (r := reports b m) in *. unfold len in *. rewrite length_app in Hlen. simpl in Hlen.
    destruct (drop (length r) l) as [|y t] eqn:Ed.
    { apply (f_equal length) in Ed. rewrite length_drop in Ed. simpl in Ed. lia. }
    rewrite wr_ok by (unfold len; rewrite length_app; simpl; lia). cbn [res_bind].
    eexists. split; [done|]. f_equal; [rewrite length_app; simpl; lia|].
    unfold zset. rewrite decide_True by lia. rewrite Nat2Z.id.
    rewrite insert_app_r_alt, Nat.sub_diag by done. simpl. rewrite <- app_assoc. simpl. f_equal. f_equal.
    rewrite length_app. simpl. rewrite <- drop_drop, Ed. done.
  - pose proof (length_reports b MAX_MR_SIZE_GB) as Hlen.
    assert (take (Z.to_nat MAX_MR_SIZE_GB) b = b) as Ht
      by (rewrite <- Hb; unfold len; by rewrite Nat2Z.id, firstn_all).
    rewrite Ht in Hlen.
    assert (len (reports b MAX_MR_SIZE_GB) = len l) as E by lia. rewrite E. f_equal. f_equal.
    unfold len in E. rewrite drop_ge by lia. apply app_nil_r.
Qed.

(** * From EVICT to the reports *)

(** The client is told, answers, and its activities are collected; its message is blank. *)
Lemma gather_ok d i c r b l : zget (conns (session d)) i = Some (Some c) → connected c ≠ 0 →
  0 ≤ evict_sem c → len (rkey (send_msg c)) = MAX_MR_SIZE_GB → len (buf (send_msg c)) = MAX_MR_SIZE_GB →
  r ≠ 0 → (∀ m, evict_msg m → type (on_evict i m) = ACTIVITY ∧ buf (on_evict i m) = b) →
  len b = MAX_MR_SIZE_GB → len l = count set_key b →
  ∃ d2 d3 d4 m0 m, send_evict d i r = Ok d2 ∧
    (let* c := get_conn d2 i in serve reg_mr d2 (SvRecv i (on_evict i (send_msg c)))) = Ok d3 ∧
    collect_client i (0, l, d3) = Ok (len l, reports b MAX_MR_SIZE_GB, d4) ∧
    session d4 = session d <| conns := zset (conns (session d)) i
      (Some (c <| recv_msg := m0 |> <| send_msg := m |>)) |> ∧
    size_gb m = 0 ∧ rkey m = replicate (length (rkey (send_msg c))) 0 ∧ buf m = buf (send_msg c).
Proof.
  intros Hc Hn Hs Hkl Hbl Hr Hev Hb Hl. pose proof (zget_Some_range _ _ _ Hc) as Hi.
  unfold send_evict. rewrite (with_conn_at _ _ _ _ Hc). cbn [res_bind].
  match goal with |- context [zset (conns _) i (Some ?c')] => set (c1 := c') end.
  set (d1 := d <| session ::= _ |>).
  assert (zget (conns (session d1)) i = Some (Some c1)) as Hc1 by (by apply zget_zset_eq).
  unfold send_message. rewrite (get_conn_at _ _ _ Hc1). cbn [res_bind].
  change (connected c1) with (connected c). rewrite (proj2 (Z.eqb_neq _ _) Hn).
  match goal with |- context [Ok ?d' = Ok _] => set (d2 := d') end. exists d2.
  assert (zget (conns (session d2)) i = Some (Some c1)) as Hc2 by exact Hc1.
  rewrite (get_conn_at _ _ _ Hc2). cbn [res_bind]. set (m0 := on_evict i (send_msg c1)).
  destruct (Hev (send_msg c1)) as [Ht Eb].
  { split; [done | | done | done]. unfold c1. cbn. unfold len in *. by rewrite length_replicate. }
  fold m0 in Ht, Eb. unfold serve. rewrite (with_conn_at _ _ _ _ Hc2). cbn [res_bind].
  match goal with |- context [d2 <| session ::= ?f |>] => set (d3 := d2 <| session ::= f |>) end.
  set (c3 := c1 <| recv_msg := m0 |>).
  assert (zget (conns (session d3)) i = Some (Some c3)) as Hc3
    by (apply zget_zset_eq; change (0 ≤ i < len (zset (conns (session d)) i (Some c1)));
        by rewrite len_zset).
  unfold on_completion. cbn [negb]. rewrite (get_conn_at _ _ _ Hc3). cbn [res_bind].
  change (type (recv_msg c3)) with (type m0). rewrite Ht.
  rewrite (with_conn_at _ _ _ _ Hc3).
  match goal with |- context [d3 <| session ::= ?f |>] => set (d4 := d3 <| session ::= f |>) end.
  set (c4 := c3 <| evict_sem := evict_sem c3 + 1 |>).
  assert (zget (conns (session d4)) i = Some (Some c4)) as Hc4
    by (apply zget_zset_eq; eauto with zarr).
  eexists d4, _, m0, (clear_keys (send_msg c4 <| size_gb := 0 |>)). split; [done|]. split; [done|]. split.
  - unfold collect_client. rewrite (get_conn_at _ _ _ Hc4). cbn [res_bind].
    change (evict_sem c4) with (evict_sem c + 1). rewrite (proj2 (Z.leb_gt _ _)) by lia.
    change (buf (recv_msg c4)) with (buf m0). rewrite Eb, collect_loop_ok by done.
    cbn [res_bind]. rewrite (put_conn_at _ _ _ _ Hc4). cbn [res_bind]. done.
  - unfold d4, d3, d2, d1. simpl. rewrite !zset_zset. split_and!; [| done | | done].
    2:{ unfold c1, clear_keys. simpl. by rewrite length_replicate. }
    f_equal. f_equal. f_equal. unfold c4, c3, c1. simpl. rewrite Z.add_simpl_r. by destruct c.
Qed.

(** * From STOP to DONE *)

(** As many keys are set as there are chunks named. *)
Lemma count_marked idx : ∀ keys, NoDup idx → (∀ x, x ∈ idx → 0 ≤ x < len keys) →
  (∀ x r, zget keys x = Some r → set_key r = true ↔ x ∈ idx) → count set_key keys = len idx.
Proof.
  induction idx as [|x idx IH]; intros keys Hnd Hr Hk.
  - destruct (decide (count set_key keys = 0)) as [->|Hne]; [done|].
    destruct (count_pos set_key keys) as (r & Hin & Hs); [pose proof (count_nonneg set_key keys); lia|].
    apply list_elem_of_lookup in Hin as [p Hp]. rewrite <- zget_nat in Hp.
    apply (Hk _ _ Hp) in Hs. by apply elem_of_nil in Hs.
  - apply list.NoDup_cons in Hnd as [Hx Hnd]. assert (0 ≤ x < len keys) as Hxr by (apply Hr; left).
    destruct (zget_is_Some keys x Hxr) as [r Hxk].
    assert (set_key r = true) as Hs by (apply (Hk _ _ Hxk); left).
    pose proof (count_zset set_key keys x 0 r Hxk) as Hcz. rewrite Hs in Hcz. simpl in Hcz.
    assert (count set_key (zset keys x 0) = len idx) as E.
    { apply IH; [done | |].
      - intros y Hy. rewrite len_zset. apply Hr. by right.
      - intros y q. rewrite zget_zset. case_decide as Hd.
        + destruct Hd as [<- _]. intros [= <-]. split; [done|]. by intros ?.
        + intros Hq. rewrite (Hk _ _ Hq). rewrite elem_of_cons. split; [|by right].
          intros [->|]; [|done]. by destruct Hd. }
    unfold len in *. simpl. lia.
Qed.

(** A DONE message and what the server does with it. *)
Lemma recv_done_message d i c m : accounts d → mapped_states d →
  zget (conns (session d)) i = Some (Some c) → type m = DONE → done_ok (c <| recv_msg := m |>) →
  ∃ d' c', serve reg_mr d (SvRecv i m) = Ok d' ∧ accounts d' ∧ mapped_states d' ∧
    zget (conns (session d')) i = Some (Some c') ∧ stop_sem c' = stop_sem c + 1 ∧
    rm_size_gb (rdma_remote (session d')) = rm_size_gb (rdma_remote (session d)) - size_gb m ∧
    mapped_size (rdma_remote (session d')) = mapped_size (rdma_remote (session d)) - size_gb m ∧
    ∀ k, 0 ≤ k < MAX_MR_SIZE_GB → zget (conn_map (rdma_remote (session d'))) k =
      if gives set_key (rkey m) MAX_MR_SIZE_GB k then Some (-1)
      else zget (conn_map (rdma_remote (session d))) k.
Proof.
  intros Ha Hm Hc Ht Hok. unfold serve.
  destruct (with_conn_ok d 0 0 0 i c (λ c, c <| recv_msg := m |>) Ha Hc)
    as (d1 & E1 & Ha1 & Ed1 & Hc1); try done. rewrite E1. cbn [res_bind].
  assert (mapped_states d1) as Hm1 by (by eapply with_conn_states; [|exact E1|]).
  unfold on_completion. cbn [negb]. rewrite (get_conn_at _ _ _ Hc1). cbn [res_bind].
  change (type (recv_msg (c <| recv_msg := m |>))) with (type m). rewrite Ht. unfold set_busy.
  destruct (with_conn_ok d1 0 0 0 i _ (λ c, c <| cq_qp_state := CQ_QP_BUSY |>) Ha1 Hc1)
    as (d2 & E2 & Ha2 & Ed2 & Hc2); try done. rewrite E2. cbn [res_bind].
  assert (mapped_states d2) as Hm2 by (by eapply with_conn_states; [|exact E2|]).
  destruct (recv_done_ok d2 i _ (lend_inv_any _ _ i Ha2) Hc2 Hok)
    as (d3 & c3 & E3 & Ha3 & Hc3 & Hss & _ & Hf & Hk).
  exists d3, c3. split; [done|]. split; [exact (lend_inv_any _ _ _ Ha3)|].
  split; [eapply serve_done_states; [exact Ha2 | exact Hc2 | exact Hok | exact Hm2 | exact E3]|].
  split; [done|]. split; [done|]. split; [|split].
  - rewrite (df_size _ _ _ _ _ Hf). by subst d2 d1.
  - rewrite (df_lent _ _ _ _ _ Hf). by subst d2 d1.
  - intros k Hkr. destruct (Hk k Hkr) as [-> _]. by subst d2 d1.
Qed.

Lemma wait_stop_ok d i c : accounts d → mapped_states d →
  zget (conns (session d)) i = Some (Some c) → 0 < stop_sem c →
  ∃ d', wait_stop d i = Ok d' ∧ accounts d' ∧ mapped_states d' ∧
    rdma_remote (session d') = rdma_remote (session d).
Proof.
  intros Ha Hm Hc Hs.
  destruct (with_conn_ok d 0 0 0 i c (λ c, c <| stop_sem := stop_sem c - 1 |>) Ha Hc)
    as (d1 & E1 & Ha1 & Ed1 & _); try done.
  assert (mapped_states d1) as Hm1 by (by eapply with_conn_states; [|exact E1|]).
  exists d1. split_and!; [|done | done | by subst d1]. rewrite <- E1.
  unfold wait_stop, with_conn. rewrite (get_conn_at _ _ _ Hc). cbn [res_bind].
  by rewrite (proj2 (Z.leb_gt _ _)) by lia.
Qed.

(** The client gives back what the message prepared for it names. *)
Lemma finish_ok d i c sl n : accounts d → mapped_states d →
  zget (conns (session d)) i = Some (Some c) → connected c ≠ 0 → 0 ≤ stop_sem c →
  len sl = MAX_CLIENT → zget sl i = Some 2 → (∀ k v, zget sl k = Some v → k ≠ i → v = -1) →
  0 < n → size_gb (send_msg c) = n → count set_key (rkey (send_msg c)) = n →
  (∀ x r, zget (rkey (send_msg c)) x = Some r → set_key r = true →
     zget (conn_map (rdma_remote (session d))) x = Some i) →
  (∀ m, stop_msg (rdma_remote (session d)) i m → gives_back m (on_stop i m)) →
  ∃ d', for_upto MAX_CLIENT (stop_wait sl i) d = Ok d' ∧ accounts d' ∧ mapped_states d' ∧
    rm_size_gb (rdma_remote (session d')) = rm_size_gb (rdma_remote (session d)) - n ∧
    mapped_size (rdma_remote (session d')) = mapped_size (rdma_remote (session d)) - n ∧
    ∀ x r, zget (rkey (send_msg c)) x = Some r → zget (conn_map (rdma_remote (session d'))) x =
      if set_key r then Some (-1) else zget (conn_map (rdma_remote (session d))) x.
Proof.
  intros Ha Hm Hc Hn Hss Hl H2 Hrest Hpos Hsz Hcnt Hlent Hgb.
  pose proof (zget_Some_range _ _ _ H2) as Hi. rewrite Hl in Hi.
  rewrite (for_upto_single _ i) by
    (done || (intros k d0 Hk Hne; destruct (zget_is_Some sl k) as [v Hv]; [lia|];
      unfold stop_wait, stop_client; rewrite (rd_ok _ _ _ Hv), (Hrest _ _ Hv Hne); done)).
  unfold stop_wait, stop_client. rewrite (rd_ok _ _ _ H2). cbn [res_bind Z.eqb Pos.eqb].
  rewrite (get_conn_at _ _ _ Hc). cbn [res_bind]. rewrite Hsz. unfold send_stop.
  match goal with |- context [with_conn d i ?f] =>
    destruct (with_conn_ok d 0 0 0 i c f Ha Hc) as (d1 & E1 & Ha1 & Ed1 & Hc1) end; try done.
  assert (mapped_states d1) as Hm1 by (by eapply with_conn_states; [|exact E1|]). rewrite E1. cbn [res_bind].
  destruct (send_message_ok d1 0 0 0 i _ Ha1 Hc1) as (d2 & E2 & Ha2 & Ed2); [done|].
  pose proof (send_message_states _ _ _ E2 Hm1) as Hm2. rewrite E2. cbn [res_bind].
  assert (rdma_remote (session d2) = rdma_remote (session d)) as Er by (by subst d2 d1).
  set (c1 := c <| send_msg ::= _ |>) in *.
  assert (zget (conns (session d2)) i = Some (Some c1)) as Hc2 by (by subst d2).
  rewrite (get_conn_at _ _ _ Hc2). cbn [res_bind].
  change (size_gb (send_msg c1)) with n. rewrite (proj2 (Z.eqb_neq n 0)) by lia.
  set (m := on_stop i (send_msg c1)). destruct (li_wf _ _ _ _ Ha _ _ Hc) as [_ _ Hbl Hkl _ _].
  destruct (Hgb (send_msg c1)) as [Gt Gs Gl Gk].
  { split; [done | done | done | by symmetry | cbn; lia | exact Hlent]. }
  fold m in Gt, Gs, Gl, Gk. change (size_gb (send_msg c1)) with n in Gs.
  change (rkey (send_msg c1)) with (rkey (send_msg c)) in Gl, Gk.
  assert (∀ x r, zget (rkey (send_msg c)) x = Some r →
    gives set_key (rkey m) MAX_MR_SIZE_GB x = set_key r) as Hg.
  { intros x r Hx. pose proof (zget_Some_range _ _ _ Hx) as Hxr. unfold gives.
    destruct (zget_is_Some (rkey m) x) as [k Hk]; [lia|]. rewrite Hk, (Gk _ _ _ Hx Hk).
    rewrite (proj2 (Z.leb_le 0 x)), (proj2 (Z.ltb_lt x _)) by lia. done. }
  destruct (recv_done_message d2 i c1 m Ha2 Hm2 Hc2 Gt)
    as (d3 & c3 & E3 & Ha3 & Hm3 & Hc3 & Hs3 & Hsize & Hlsize & Hmap).
  { split_and!; simpl.
    - lia.
    - rewrite Gs, <- Hcnt. apply count_pointwise; [done|]. intros x r k Hx Hk. symmetry. eauto.
    - intros x Hx. assert (0 ≤ x < len (rkey (send_msg c))) as Hxr.
      { unfold gives in Hx. apply andb_true_iff in Hx as [[?%Z.leb_le ?%Z.ltb_lt]%andb_true_iff _]. lia. }
      destruct (zget_is_Some _ _ Hxr) as [r Hr]. rewrite (Hg _ _ Hr) in Hx.
      destruct (li_lent _ _ _ _ Ha x i) as (_ & c' & Hc' & Hx'); [by eapply Hlent | lia|].
      rewrite Hc in Hc'. injection Hc' as <-. exists x. split; [done | lia]. }
  rewrite E3. cbn [res_bind].
  destruct (wait_stop_ok d3 i c3 Ha3 Hm3 Hc3) as (d4 & E4 & Ha4 & Hm4 & Er4).
  { rewrite Hs3. change (stop_sem c1) with (stop_sem c). lia. }
  exists d4. split_and!; [done..| | |].
  - rewrite Er4, Hsize, Er, Gs. done.
  - rewrite Er4, Hlsize, Er, Gs. done.
  - intros x r Hx. pose proof (zget_Some_range _ _ _ Hx). rewrite Er4, Hmap by lia.
    by rewrite (Hg _ _ Hx), Er.
Qed.

(** * Choosing the chunks *)

(** What [recall] leaves for the client: its connection with the message [m], which names [n]
    of its chunks, the least active ones by the reports [b]. *)
Record chosen (d : daemon) (i : Z) (c : connection) (b : list Z) (n : Z) (sl : list Z)
  (d' : daemon) (m : message) : Prop := {
  ch_acc : accounts d';
  ch_states : mapped_states d';
  ch_remote : rdma_remote (session d') = rdma_remote (session d);
  ch_conn : zget (conns (session d')) i = Some (Some (c <| send_msg := m |>));
  ch_len : len sl = MAX_CLIENT;
  ch_two : zget sl i = Some 2;
  ch_rest : ∀ k v, zget sl k = Some v → k ≠ i → v = -1;
  ch_size : size_gb m = n;
  ch_count : count set_key (rkey m) = n;
  ch_lent : ∀ x r, zget (rkey m) x = Some r → set_key r = true →
    zget (conn_map (rdma_remote (session d))) x = Some i;
  ch_least : ∀ x z q r bx bz, zget (rkey m) x = Some q → set_key q = true →
    zget (rkey m) z = Some r → set_key r = false →
    zget b x = Some bx → zget b z = Some bz → bz ≠ 0 → ntohll bx ≤ ntohll bz;
}.

Lemma take_elem {A} (x : A) n l : x ∈ take n l → x ∈ l.
Proof. intros H. rewrite <- (take_drop n l). apply elem_of_app. by left. Qed.

Lemma recalled_entries m l n i x : (∀ a, a ∈ l → zget (conn_map m) (ca_chunk_index a) = Some i) →
  recalled m l n i x ↔ x ∈ ca_chunk_index <$> take (Z.to_nat n) l.
Proof.
  intros Hl. rewrite list_elem_of_fmap. split.
  - intros (y & a & Hy & Ha & <- & _). exists a. split; [done|].
    apply list_elem_of_lookup. exists (Z.to_nat y). unfold zget in Ha. rewrite decide_True in Ha by lia.
    rewrite lookup_take_lt by lia. done.
  - intros (a & -> & Ha). apply list_elem_of_lookup in Ha as [p Hp].
    apply lookup_take_Some in Hp as [Hp Hlt]. exists (Z.of_nat p), a.
    split_and!; [lia | lia | by rewrite zget_nat | done | apply Hl; by eapply list_elem_of_lookup_2].
Qed.

(** The first [n] of the entries, in order, are no more active than any other. *)
Lemma entries_least b n l' a z bz : l' ≡ₚ reports b MAX_MR_SIZE_GB → len b = MAX_MR_SIZE_GB →
  least_first l' n (len l') → a ∈ take (Z.to_nat n) l' →
  z ∉ ca_chunk_index <$> take (Z.to_nat n) l' → zget b z = Some bz → bz ≠ 0 →
  ∃ bx, zget b (ca_chunk_index a) = Some bx ∧ ntohll bx ≤ ntohll bz.
Proof.
  intros Hp Hb Hleast Ha Hz Hbz Hne.
  assert (a ∈ l') as Hal by exact (take_elem _ _ _ Ha). rewrite Hp in Hal.
  apply elem_of_reports in Hal as (_ & bx & Hbx & _ & Ea). exists bx. split; [done|]. rewrite <- Ea.
  destruct (reports_in b MAX_MR_SIZE_GB z bz) as (e & Hin & Ez & Ee);
    [apply zget_Some_range in Hbz; lia | done | done|].
  rewrite <- Hp in Hin. rewrite <- Ee.
  apply list_elem_of_lookup in Hin as [p Hpz]. apply list_elem_of_lookup in Ha as [y Hy].
  apply lookup_take_Some in Hy as [Hy Hyn].
  assert (¬ (p < Z.to_nat n)%nat) as Hnp.
  { intros Hlt. apply Hz, list_elem_of_fmap. exists e. split; [done|].
    apply list_elem_of_lookup. exists p. by rewrite lookup_take_lt. }
  pose proof (lookup_lt_Some _ _ _ Hpz). rewrite <- zget_nat in Hpz, Hy.
  refine (Hleast (Z.of_nat y) _ (Z.of_nat p) _ _ _ Hy Hpz); unfold len; lia.
Qed.

Lemma entries_count b n l' keys : l' ≡ₚ reports b MAX_MR_SIZE_GB → 0 ≤ n ≤ len l' →
  (∀ a, a ∈ l' → 0 ≤ ca_chunk_index a < len keys) →
  (∀ x q, zget keys x = Some q → set_key q = true ↔ x ∈ ca_chunk_index <$> take (Z.to_nat n) l') →
  count set_key keys = n.
Proof.
  intros Hp Hn Hr Hk. rewrite (count_marked (ca_chunk_index <$> take (Z.to_nat n) l')); [| | |done].
  - unfold len in *. rewrite length_fmap, length_take. lia.
  - rewrite fmap_take. eapply sublist_NoDup; [|apply sublist_take]. rewrite Hp. apply reports_distinct.
  - intros x (a & -> & Hin)%list_elem_of_fmap. apply Hr. exact (take_elem _ _ _ Hin).
Qed.

Lemma recall_inv_states d sl l k n l' sl' d' : mapped_states d →
  recall_inv d sl l k n l' sl' d' → mapped_states d'.
Proof.
  intros Hm Hri j. unfold has_chunks. rewrite (ri_states _ _ _ _ _ _ _ _ Hri), (Hm j). unfold has_chunks.
  destruct (ri_conns _ _ _ _ _ _ _ _ Hri j) as [->|(c2 & m2 & E1 & E2)]; [done|]. rewrite E1, E2.
  split; intros (c3 & [= <-] & ?); eexists; by split.
Qed.

Lemma recall_inv_conn d sl l k n l' sl' d' i c : zget (conns (session d)) i = Some (Some c) →
  recall_inv d sl l k n l' sl' d' → ∃ m, zget (conns (session d')) i = Some (Some (c <| send_msg := m |>)).
Proof.
  intros Hc Hri. destruct (ri_conns _ _ _ _ _ _ _ _ Hri i) as [E|(c2 & m & E1 & E2)].
  - exists (send_msg c). rewrite E, Hc. by destruct c.
  - exists m. rewrite Hc in E1. by injection E1 as <-.
Qed.

(** Every report is for a chunk of the client. *)
Definition reports_own (m : rdma_remote_mem) (i : Z) (b : list Z) : Prop :=
  ∀ j x, zget b j = Some x → x ≠ 0 → zget (conn_map m) j = Some i.

Lemma recall_chosen d i c sl b n l' sl' d' : accounts d → mapped_states d →
  zget (conns (session d)) i = Some (Some c) → asked_one sl i → len b = MAX_MR_SIZE_GB →
  reports_own (rdma_remote (session d)) i b → 0 < n ≤ count set_key b → len l' = count set_key b →
  recall_inv d sl (reports b MAX_MR_SIZE_GB) (count set_key b) n l' sl' d' →
  ∃ m, chosen d i c b n sl' d' m.
Proof.
  intros Ha Hm Hc [Hsl H1 Hrest] Hb Hbi Hn Hll Hri.
  destruct (recall_inv_conn _ _ _ _ _ _ _ _ _ _ Hc Hri) as [m Hc']. exists m.
  pose proof (recall_inv_states _ _ _ _ _ _ _ _ Hm Hri) as Hm'.
  destruct Hri as [Hp Hleast Ha' Hr Hl' _ Htwo Hot Hst Hcs Hnm].
  assert (∀ a, a ∈ l' → zget (conn_map (rdma_remote (session d))) (ca_chunk_index a) = Some i) as Hown.
  { intros a Hin. rewrite Hp in Hin. apply elem_of_reports in Hin as (_ & x & Hx & Hne & _). by eapply Hbi. }
  destruct (Hnm i _ H1 Hc') as [Hsz Hkeys]. cbn in Hsz, Hkeys.
  assert (len (rkey m) = MAX_MR_SIZE_GB) as Hkl by (by destruct (li_wf _ _ _ _ Ha' _ _ Hc')).
  assert (∀ x q, zget (rkey m) x = Some q →
    set_key q = true ↔ x ∈ ca_chunk_index <$> take (Z.to_nat n) l') as Hset.
  { intros x q Hx. rewrite (Hkeys _ _ Hx). by apply recalled_entries. }
  assert (count set_key (rkey m) = n) as Hcnt.
  { apply (entries_count b n l'); [done | lia | | done]. intros a Hin.
    rewrite Hkl, <- (li_map _ _ _ _ Ha). eapply zget_Some_range. by apply Hown. }
  split; [done | done | done | done | | | | | | |].
  - lia.
  - apply Htwo; [done|]. destruct (zget_is_Some l' 0) as [a H0]; [lia|]. exists (ca_chunk_index a), 0, a.
    split_and!; [lia | lia | done | done|]. apply Hown. by eapply zget_In.
  - intros k v Hk Hne. apply (Hrest k); [|done]. rewrite <- Hot; [done|]. intros Hk1. by apply Hrest in Hk1.
  - by rewrite Hsz.
  - done.
  - intros x q Hx Hs. apply (Hset _ _ Hx), list_elem_of_fmap in Hs as (a & -> & Hin).
    apply Hown. exact (take_elem _ _ _ Hin).
  - intros x z q r bx bz Hx Hq Hz Hr' Hbx Hbz Hne.
    apply (Hset _ _ Hx), list_elem_of_fmap in Hq as (a & -> & Hin).
    rewrite <- Hll in Hleast.
    destruct (entries_least b n l' a z bz) as (bx' & Hbx' & Hle); try done.
    { intros Hzin. apply (Hset _ _ Hz) in Hzin. congruence. }
    rewrite Hbx in Hbx'. by injection Hbx' as <-.
Qed.

Lemma choose_ok d i c sl b n : accounts d → mapped_states d →
  zget (conns (session d)) i = Some (Some c) → asked_one sl i →
  size_gb (send_msg c) = 0 → (∀ x r, zget (rkey (send_msg c)) x = Some r → r = 0) →
  len b = MAX_MR_SIZE_GB → reports_own (rdma_remote (session d)) i b → 0 < n ≤ count set_key b →
  ∃ l' sl' d' m, recall n (count set_key b) (reports b MAX_MR_SIZE_GB) sl d = Ok (l', sl', i, d') ∧
    chosen d i c b n sl' d' m.
Proof.
  intros Ha Hm Hc Hask Hz Hzk Hb Hbi Hn. pose proof Hask as [Hsl H1 Hrest]. pose proof max_mr_pos.
  pose proof (zget_Some_range _ _ _ Hc) as Hi.
  assert (len (reports b MAX_MR_SIZE_GB) = count set_key b) as Hl.
  { rewrite length_reports by lia. rewrite <- Hb. unfold len. by rewrite Nat2Z.id, firstn_all. }
  destruct (recall_ok d sl (reports b MAX_MR_SIZE_GB) n (count set_key b) Ha)
    as (l' & sl' & ci & d' & E & Hci & Hri); [|done | lia | done | |].
  { split; [apply reports_distinct|]. intros a (_ & x & Hx & Hne & _)%elem_of_reports.
    exists i. split_and!; [by eapply Hbi | lia | done]. }
  { intros k c' Hk Hc'. destruct (decide (k = i)) as [->|Hne]; [|by apply Hrest in Hk].
    rewrite Hc in Hc'. by injection Hc' as <-. }
  assert (ci = i) as ->.
  { destruct (decide (ci = i)) as [|Hne]; [done|]. specialize (Hci ltac:(lia)). by apply Hrest in Hci. }
  destruct (recall_chosen d i c sl b n l' sl' d') as [m Hch]; try done.
  { pose proof (ri_perm _ _ _ _ _ _ _ _ Hri) as Hp. unfold len in *. by rewrite Hp. }
  by exists l', sl', d', m.
Qed.

(** * Recalling from the one client *)

(** The memory [n] is taken back; the client loses the least active of its chunks by [b]. *)
Record taken (d : daemon) (i : Z) (b : list Z) (n : Z) (d' : daemon) : Prop := {
  tk_acc : accounts d';
  tk_states : mapped_states d';
  tk_size : rm_size_gb (rdma_remote (session d')) = rm_size_gb (rdma_remote (session d)) - n;
  tk_mapped : mapped_size (rdma_remote (session d')) = mapped_size (rdma_remote (session d)) - n;
  tk_map : ∀ x, zget (conn_map (rdma_remote (session d'))) x = Some (-1) ∨
    zget (conn_map (rdma_remote (session d'))) x = zget (conn_map (rdma_remote (session d))) x;
  tk_least : ∀ x z bx bz, zget b x = Some bx → zget b z = Some bz →
    zget (conn_map (rdma_remote (session d))) x = Some i →
    zget (conn_map (rdma_remote (session d'))) x = Some (-1) →
    zget (conn_map (rdma_remote (session d'))) z = Some i → ntohll bx ≤ ntohll bz;
}.

Lemma stop_taken d i c b n sl d' m : accounts d → zget (conns (session d)) i = Some (Some c) →
  connected c ≠ 0 → 0 ≤ stop_sem c → 0 < n → chosen d i c b n sl d' m →
  (∀ j x, zget b j = Some x → x ≠ 0 ↔ zget (conn_map (rdma_remote (session d))) j = Some i) →
  (∀ m, stop_msg (rdma_remote (session d)) i m → gives_back m (on_stop i m)) →
  ∃ d2, for_upto MAX_CLIENT (stop_wait sl i) d' = Ok d2 ∧ taken d i b n d2.
Proof.
  intros Ha Hc Hn Hss Hpos [Ha' Hm' Hr Hc' Hl H2 Hrest Hsz Hcnt Hlent Hleast] Hb Hgb.
  destruct (finish_ok d' i (c <| send_msg := m |>) sl n) as (d2 & E & Ha2 & Hm2 & Hs2 & Hms2 & Hk);
    try done; [by rewrite Hr..|]. cbn [send_msg upd] in Hk.
  exists d2. split; [done|]. rewrite Hr in *.
  assert (len (rkey m) = MAX_MR_SIZE_GB) as Hkl by (by destruct (li_wf _ _ _ _ Ha' _ _ Hc')).
  assert (∀ x y, zget (conn_map (rdma_remote (session d2))) x = Some y →
    ∃ q, zget (rkey m) x = Some q) as Hkey.
  { intros x y Hx. apply zget_Some_range in Hx. rewrite (li_map _ _ _ _ Ha2) in Hx.
    destruct (zget_is_Some (rkey m) x) as [q Hq]; [lia | eauto]. }
  split; try done.
  - intros x. destruct (zget (conn_map (rdma_remote (session d2))) x) as [y|] eqn:Hy.
    + destruct (Hkey _ _ Hy) as [q Hq]. rewrite (Hk _ _ Hq) in Hy.
      destruct (set_key q); [left | right]; done.
    + right. destruct (zget (conn_map (rdma_remote (session d))) x) as [y|] eqn:E2; [|done].
      apply zget_Some_range in E2. rewrite (li_map _ _ _ _ Ha), <- (li_map _ _ _ _ Ha2) in E2.
      apply zget_is_Some in E2 as [? E2]. congruence.
  - intros x z bx bz Hx Hz Hix Hlost Hkept.
    destruct (Hkey _ _ Hlost) as [q Hq]. destruct (Hkey _ _ Hkept) as [r Hr'].
    rewrite (Hk _ _ Hq) in Hlost. rewrite (Hk _ _ Hr') in Hkept.
    pose proof (zget_Some_range _ _ _ Hc).
    destruct (set_key q) eqn:Eq; [|rewrite Hix in Hlost; injection Hlost as ->; lia].
    destruct (set_key r) eqn:Er; [injection Hkept as <-; lia|].
    apply (Hleast x z q r); try done. by apply (Hb _ _ Hz).
Qed.

Lemma recall_all d i c sl r b : accounts d → mapped_states d →
  zget (conns (session d)) i = Some (Some c) → connected c ≠ 0 →
  0 ≤ evict_sem c → 0 ≤ stop_sem c → sole (rdma_remote (session d)) i → asked_one sl i →
  0 < r ≤ mapped_size (rdma_remote (session d)) →
  keeps_word (rdma_remote (session d)) i b → (∀ k, 0 ≤ k → len (evict_memory k) = k) →
  ∃ d1 d2 sl2 ci d3 d', send_evicts d sl r = Ok d1 ∧ await_activity sl d1 = Ok d2 ∧
    evict_choose {| ev_j := r; ev_k := mapped_chunk_size c; ev_send_list := sl |}
      (evict_memory (mapped_chunk_size c)) d2 = Ok (sl2, ci, d3) ∧
    for_upto MAX_CLIENT (stop_wait sl2 ci) d3 = Ok d' ∧ taken d i b r d'.
Proof.
  intros Ha Hm Hc Hn Hes Hss Hso Hask Hr [Rl Rb Rev Hgb] Hmem.
  pose proof (zget_Some_range _ _ _ Hc) as Hi. pose proof (sole_size _ _ _ Ha Hso Hc) as Hms.
  assert (count set_key b = mapped_chunk_size c) as Hcnt.
  { rewrite <- Hms, (li_mapped _ _ _ _ Ha), Z.add_0_r.
    apply count_pointwise; [by rewrite Rl, (li_map _ _ _ _ Ha)|]. intros j x y Hx Hy.
    unfold set_key, is_lent. f_equal. destruct (Z.eqb_spec x 0) as [Hx0|Hx0].
    - destruct (Z.eqb_spec y (-1)) as [|Hy1]; [done|]. pose proof (Hso _ _ Hy Hy1) as ->.
      apply (Rb _ _ Hx) in Hy. done.
    - apply (Rb _ _ Hx) in Hx0. rewrite Hy in Hx0. injection Hx0 as ->.
      symmetry. apply Z.eqb_neq. lia. }
  destruct (li_wf _ _ _ _ Ha _ _ Hc) as [_ _ Hbl Hkl _ _].
  destruct (gather_ok d i c r b (evict_memory (mapped_chunk_size c)))
    as (d1 & d2 & d3 & m0 & m & E1 & E2 & E3 & Es & Hz & Hk & Hbm); try done; [lia | rewrite Hmem by lia; done|].
  set (c3 := c <| recv_msg := m0 |> <| send_msg := m |>) in *.
  assert (accounts d3) as Ha3.
  { eapply lend_inv_frame; [..|apply (lend_inv_conn d 0 0 0 i c c3 Ha Hc)]; try (by rewrite Es); try done.
    - cbn. by rewrite Hbm.
    - cbn. rewrite Hk. unfold len in *. by rewrite length_replicate. }
  assert (zget (conns (session d3)) i = Some (Some c3)) as Hc3
    by (rewrite Es; by apply zget_zset_eq).
  assert (rdma_remote (session d3) = rdma_remote (session d)) as Er by (by rewrite Es).
  assert (mapped_states d3) as Hm3.
  { apply (touches_states i d); [|done|].
    - intros k Hne. rewrite Es. cbn. split; [by rewrite zget_zset_ne | done].
    - replace (conns_state (session d3)) with (conns_state (session d)) by (by rewrite Es).
      rewrite (Hm i). unfold has_chunks. rewrite Hc, Hc3.
      split; intros (c' & [= <-] & ?); eexists; by split. }
  destruct (choose_ok d3 i c3 sl b r) as (l' & sl' & d4 & m4 & E4 & Hch); try done.
  { intros x q. cbn. rewrite Hk. intros Hx. by apply zget_In, elem_of_replicate in Hx as [-> _]. }
  { rewrite Er. intros j x Hx. by apply Rb. }
  { lia. }
  destruct (stop_taken d3 i c3 b r sl' d4 m4) as (d5 & E5 & Htk); try done; [lia | by rewrite Er..|].
  exists d1, d2, sl', i, d4, d5. split_and!; [| | |done|].
  - unfold send_evicts. by rewrite (asked_loop sl i).
  - unfold await_activity. by rewrite (asked_loop sl i).
  - unfold evict_choose, collect. cbn [ev_j ev_k ev_send_list]. rewrite (asked_loop sl i), E3 by done.
    cbn [res_bind]. rewrite <- Hcnt. by rewrite E4.
  - destruct Htk. split; rewrite <- ?Er; done.
Qed.

(** * The theorem *)

Lemma free_unmapped_states d g rest d' : free_unmapped d g = Ok (rest, d') →
  conns_state (session d') = conns_state (session d).
Proof.
  unfold free_unmapped. intros (out & _ & H)%res_bind_ok.
  destruct out as [[]|[]]; by injection H as <- <-.
Qed.

Lemma lent_le d : accounts d →
  mapped_size (rdma_remote (session d)) ≤ rm_size_gb (rdma_remote (session d)).
Proof.
  intros Ha. rewrite (li_mapped _ _ _ _ Ha), (li_size _ _ _ _ Ha), !Z.add_0_r.
  apply count_mono; [by rewrite (li_map _ _ _ _ Ha), (li_malloc _ _ _ _ Ha)|].
  intros j x y Hx Hy Hl%negb_true_iff%Z.eqb_neq.
  destruct (li_lent _ _ _ _ Ha _ _ Hx Hl) as [E _]. rewrite Hy in E. by injection E as ->.
Qed.

(** What the whole function does. *)
Lemma evict_mem_ok d i c b stop_g :
  accounts d → mapped_states d → zget (conns (session d)) i = Some (Some c) → connected c ≠ 0 →
  0 ≤ evict_sem c → 0 ≤ stop_sem c → sole (rdma_remote (session d)) i →
  0 < stop_g ≤ rm_size_gb (rdma_remote (session d)) →
  keeps_word (rdma_remote (session d)) i b → (∀ k, 0 ≤ k → len (evict_memory k) = k) →
  ∃ d', evict_mem d stop_g = Ok d' ∧ accounts d' ∧ mapped_states d' ∧
    rm_size_gb (rdma_remote (session d')) = rm_size_gb (rdma_remote (session d)) - stop_g ∧
    mapped_size (rdma_remote (session d')) =
      Z.min (mapped_size (rdma_remote (session d))) (rm_size_gb (rdma_remote (session d)) - stop_g) ∧
    (∀ x, zget (conn_map (rdma_remote (session d'))) x = Some (-1) ∨
      zget (conn_map (rdma_remote (session d'))) x = zget (conn_map (rdma_remote (session d))) x) ∧
    ∀ x z bx bz, zget b x = Some bx → zget b z = Some bz →
      zget (conn_map (rdma_remote (session d))) x = Some i →
      zget (conn_map (rdma_remote (session d'))) x = Some (-1) →
      zget (conn_map (rdma_remote (session d'))) z = Some i → ntohll bx ≤ ntohll bz.
Proof.
  intros Ha Hm Hc Hn Hes Hss Hso Hg Hkw Hmem. pose proof (zget_Some_range _ _ _ Hc) as Hi.
  destruct (free_unmapped_ok d stop_g Ha) as (rest & d1 & E & Ha1 & Ecm & Ecs & Hrest); [lia|].
  assert (mapped_states d1) as Hm1.
  { intros k. unfold has_chunks. rewrite Ecs, (free_unmapped_states _ _ _ _ E). apply Hm. }
  assert (mapped_size (rdma_remote (session d1)) = mapped_size (rdma_remote (session d))) as Ems
    by (by rewrite (li_mapped _ _ _ _ Ha1), (li_mapped _ _ _ _ Ha), Ecm).
  unfold evict_mem, evict_begin. rewrite E. cbn [res_bind].
  destruct rest as [r|].
  2:{ exists d1. pose proof (lent_le d1 Ha1). split_and!; try done; [lia | by rewrite Ecm; right|].
      rewrite Ecm. intros x z bx bz _ _ Hx Hx' _. rewrite Hx in Hx'. injection Hx' as ->. lia. }
  destruct Hrest as (Hr & Hsz & Hnf). pose proof (all_lent d1 Ha1 Hnf) as Hall. rewrite <- Ecs in Hc.
  assert (sole (rdma_remote (session d1)) i) as Hso1 by (intros j k; rewrite Ecm; apply Hso).
  assert (has_chunks d1 i) as Hhc by (exists c; split; [done|]; rewrite <- (sole_size _ _ _ Ha1 Hso1 Hc); lia).
  destruct (select_one d1 r i Ha1 Hm1 Hso1 Hhc) as (sl & -> & Hask); [lia|]. cbn [res_bind].
  unfold total_chunks. rewrite (asked_loop sl i), (get_conn_at _ _ _ Hc) by done. cbn [res_bind].
  rewrite Z.add_0_l.
  destruct (recall_all d1 i c sl r b) as (d2 & d3 & sl2 & ci & d4 & d' & E1 & E2 & E3 & E4 & Htk); try done.
  { lia. }
  { destruct Hkw as [? Hb ? Hst]. split; [done | by rewrite Ecm | done|].
    intros m [? ? ? ? ? Hown]. apply Hst. split; try done. by rewrite <- Ecm. }
  rewrite E1. cbn [res_bind ev_send_list ev_k]. rewrite E2. cbn [res_bind]. rewrite E3. cbn [res_bind].
  destruct Htk as [T1 T2 T3 T4 T5 T6]. rewrite Ecm in T5, T6.
  exists d'. split_and!; try done; lia.
Qed.

(** C12: The whole of [evict_mem], while one client has all the chunks that are lent.  Asked for
    between one chunk and all there are, the function returns, and the server has given up
    exactly that much memory; chunks that are not lent go first, and the client loses chunks
    only for the rest.  What it loses is no more active, by its own report, than what it
    keeps.  The accounts and the states of the connections are in order afterwards. *)
Theorem evict_mem_correct d i c b stop_g :
  accounts d → mapped_states d → zget (conns (session d)) i = Some (Some c) → connected c ≠ 0 →
  0 ≤ evict_sem c → 0 ≤ stop_sem c → sole (rdma_remote (session d)) i →
  0 < stop_g ≤ rm_size_gb (rdma_remote (session d)) →
  keeps_word (rdma_remote (session d)) i b → (∀ k, 0 ≤ k → len (evict_memory k) = k) →
  ∃ d', evict_mem d stop_g = Ok d' ∧ accounts d' ∧ mapped_states d' ∧
    rm_size_gb (rdma_remote (session d')) = rm_size_gb (rdma_remote (session d)) - stop_g ∧
    mapped_size (rdma_remote (session d')) =
      Z.min (mapped_size (rdma_remote (session d))) (rm_size_gb (rdma_remote (session d)) - stop_g) ∧
    (∀ x, zget (conn_map (rdma_remote (session d'))) x = Some (-1) ∨
      zget (conn_map (rdma_remote (session d'))) x = zget (conn_map (rdma_remote (session d))) x) ∧
    ∀ x z bx bz, zget b x = Some bx → zget b z = Some bz →
      zget (conn_map (rdma_remote (session d))) x = Some i →
      zget (conn_map (rdma_remote (session d'))) x = Some (-1) →
      zget (conn_map (rdma_remote (session d'))) z = Some i → ntohll bx ≤ ntohll bz.
Proof. apply evict_mem_ok. Qed.

End EvictMem.

(** * A server with one client *)

Lemma after_ok d ev : accounts d ∧ mapped_states d → allowed demo_reg d ev →
  accounts (after d ev) ∧ mapped_states (after d ev).
Proof.
  intros [Ha Hm] Hal. unfold after. destruct (serve_ok demo_reg d ev Ha Hal) as (d' & E & Ha').
  rewrite E. split; [done|]. exact (serve_states demo_reg d ev d' Ha Hal E Hm).
Qed.

(** Chunks 0, 1 and 2 are lent to client 0; 3, 4 and 5 are not lent. *)
Definition one_client : daemon := asks (asks (asks demo_d2 0 4) 0 5) 0 6.

Lemma asks_ok d k j region key : accounts d ∧ mapped_states d →
  zget (conns (session d)) 0 = Some (Some (conn_of d 0)) → connected (conn_of d 0) ≠ 0 →
  first_lendable (rdma_remote (session d)) j →
  zget (region_list (rdma_remote (session d))) j = Some region → demo_reg region = Some key →
  accounts (asks d 0 k) ∧ mapped_states (asks d 0 k).
Proof.
  intros Ha Hc Hn Hf Hr Hk. apply after_ok; [done|]. exists (conn_of d 0).
  split_and!; try done. by exists j, region, key.
Qed.

Lemma one_client_ok : accounts one_client ∧ mapped_states one_client.
Proof.
  unfold one_client.
  apply (asks_ok _ 6 2 (demo_addr 2) 103);
    [apply (asks_ok _ 5 1 (demo_addr 1) 102);
       [apply (asks_ok _ 4 0 (demo_addr 0) 101);
          [unfold demo_d2; apply after_ok; [unfold demo_d1; apply after_ok; [split|]|]|..]|..]|..];
  try (vm_compute; reflexivity); try (vm_compute; discriminate).
  - exact (demo_accounts _ _ (reach_nil _ _)).
  - exact (started_states demo_addr demo_kb demo_session demo_init).
  - exists 0. vm_compute. reflexivity.
  - exists (conn_of demo_d1 0). vm_compute. reflexivity.
  - apply demo_first.
  - split_and!; [vm_compute; reflexivity.. |]. intros k a b Hk.
    assert (k = 0) as -> by lia. vm_compute. intros [= <-] [= <-]. by right.
  - split_and!; [vm_compute; reflexivity.. |]. intros k a b Hk.
    assert (k = 0 ∨ k = 1) as [-> | ->] by lia; vm_compute; intros [= <-] [= <-]; by right.
Qed.

(** The client is most active on chunk 0 and least active on chunk 1; it does what it is
    told. *)
Definition one_report (i : Z) (m : message) : message := activity_msg [5; 1; 3].
Definition obedient (i : Z) (m : message) : message := m <| type := DONE |>.
Definition one_memory (k : Z) : list chunk_activity :=
  replicate (Z.to_nat k) {| activity := 0; ca_chunk_index := 0 |}.

Lemma one_sole : sole (rdma_remote (session one_client)) 0.
Proof.
  assert (forallb (λ i, (i =? -1) || (i =? 0)) (conn_map (rdma_remote (session one_client))) = true)
    as H by (vm_compute; reflexivity).
  rewrite forallb_forall in H. intros j i Hj Hne. apply zget_In, list_elem_of_In, H in Hj. lia.
Qed.

Lemma one_keeps_word :
  keeps_word one_report obedient (rdma_remote (session one_client)) 0 (buf (activity_msg [5; 1; 3])).
Proof.
  split; [reflexivity | | by intros m _ |].
  - intros j b Hj. assert (0 ≤ j < 32) as Hr by (apply zget_Some_range in Hj; exact Hj).
    assert (forallb (λ j, match zget (buf (activity_msg [5; 1; 3])) j with
      | Some b => Bool.eqb (negb (b =? 0))
          (bool_decide (zget (conn_map (rdma_remote (session one_client))) j = Some 0))
      | None => true end) (seqZ 0 32) = true) as H by (vm_compute; reflexivity).
    apply (forallb_seqZ _ _ j) in H; [|done]. cbv beta in H.
    rewrite Hj in H. apply eqb_prop in H. rewrite <- (bool_decide_eq_true (zget _ j = Some 0)), <- H.
    rewrite negb_true_iff, Z.eqb_neq. reflexivity.
  - intros m _. split; [reflexivity.. |]. intros j k k' Hj Hk. cbn in Hk. rewrite Hj in Hk.
    injection Hk as ->. reflexivity.
Qed.

(** Five of the six chunks are taken back: the three that are not lent, and chunks 1 and 2. *)
Lemma evict_mem_correct_witness :
  ∃ d', evict_mem demo_reg (λ _, 0) one_memory one_report obedient one_client 5 = Ok d' ∧
    accounts d' ∧ rm_size_gb (rdma_remote (session d')) = 1.
Proof.
  destruct one_client_ok as [Ha Hm].
  destruct (evict_mem_correct demo_reg (λ _, 0) one_memory one_report obedient one_client 0
    (conn_of one_client 0) (buf (activity_msg [5; 1; 3])) 5 Ha Hm) as (d' & E & Ha' & _ & Hs & _).
  - vm_compute. reflexivity.
  - vm_compute. discriminate.
  - vm_compute. discriminate.
  - vm_compute. discriminate.
  - exact one_sole.
  - vm_compute. split; [reflexivity | discriminate].
  - exact one_keeps_word.
  - intros k Hk. apply len_replicate. exact Hk.
  - exists d'. split; [exact E|]. split; [exact Ha'|]. rewrite Hs. vm_compute. reflexivity.
Defined.
