(* ===== verification/Recall.v ===== *)
(** An eviction from end to end: [evict_mem] of the server, answered by the code of the client
    ([client_recv], [evict_handler]).  The server gets the memory it asked for, and the chunks
    the client loses are the ones it used least.  An activity is reported plus one, so that 0
    means that a slot is not used; the largest value of the counter would wrap to 0, and is
    excluded (the weights of the filter, 80 and 20, give only even values). *)

From Stdlib Require Import ZArith Lia.
From stdpp Require Import base tactics list numbers option.
From S2P Require Import Prelude Types ByteOrder Bitmap CtxPool Stackbd Request Views ChunkMap.
From S2P Require Import MapInv World Transfer Servers Pages Session Eviction MapSafety.
From S2P Require Import Daemon DaemonInv DaemonSteps ConnStates Protocol.
From S2P Require Import Evict EvictInv EvictSafety EvictMem.

Section Recall.
Context `{C : Config} `{D : DaemonConfig}.
Variable submit_queues : Z.
Context (single_chunk_map : IS_session → Z → res IS_session).
Context `{M : !ChunkMapper submit_queues single_chunk_map}.

(** * The client's answers *)

(** The message arrives and [client_recv] handles it. *)
Definition deliver (s : IS_session) (cb : Z) (m : message) : res IS_session :=
  let* c := read_cb s cb in
  let* (_, s) := client_recv (put_cb s cb (c <| recv_buf := m |>)) cb sizeof_rdma_info in Ok s.

(** The wait of [evict_handler] for a state of the server's chunks ends. *)
Definition woken (s : IS_session) (cb : Z) (st : chunk_list_state) : res unit :=
  let* c := read_cb s cb in
  if decide (c_state (remote_chunk c) = st) then Ok tt else Fault Blocked.

(** EVICT: [evict_handler] wakes up and reports the activities. *)
Definition answer_evict (s : IS_session) (cb : Z) (m : message) : res (message * IS_session) :=
  let* s := deliver s cb m in
  let* _ := woken s cb C_EVICT in evict_activity s cb.

(** STOP: it wakes up again, gives the chunks up and sends DONE. *)
Definition answer_stop (s : IS_session) (cb : Z) (m : message) : res (option message * IS_session) :=
  let* s := deliver s cb m in
  let* _ := woken s cb C_STOP in evict_stop submit_queues single_chunk_map s cb.

Definition evict_reply (s : IS_session) (cb : Z) (m : message) : message :=
  match answer_evict s cb m with Ok (r, _) => r | Fault _ => zero_msg end.
Definition stop_reply (s : IS_session) (cb : Z) (m : message) : message :=
  match answer_stop s cb m with Ok (Some r, _) => r | _ => zero_msg end.

Lemma woken_at s cb c : zget (cb_list s) cb = Some c → woken s cb (c_state (remote_chunk c)) = Ok tt.
Proof. intros Hc. unfold woken. rewrite (read_cb_at _ _ _ Hc). cbn [res_bind]. by rewrite decide_True. Qed.

(** * EVICT *)

(** The words of the ACTIVITY message. *)
Definition ops_of (s : IS_session) (gb : Z) : Z := match zget (last_ops s) gb with Some o => o | None => 0 end.
Definition activities (s : IS_session) (c : kernel_cb) : list Z :=
  (λ gb, if gb =? -1 then 0 else ntohll (u64 (ops_of s gb + 1))) <$> chunk_map (remote_chunk c).

Lemma zget_activities s c j : zget (activities s c) j =
  (λ gb, if gb =? -1 then 0 else ntohll (u64 (ops_of s gb + 1))) <$> zget (chunk_map (remote_chunk c)) j.
Proof. unfold activities, zget. case_decide; [apply list_lookup_fmap | done]. Qed.

Lemma list_eq_zget {A} (l k : list A) : (∀ j, zget l j = zget k j) → l = k.
Proof. intros H. apply list_eq. intros i. by rewrite <- !zget_nat. Qed.

Lemma send_activity_ok s cb c : zget (cb_list s) cb = Some c → cb_wf cb c →
  len (buf (send_buf c)) = MAX_MR_SIZE_GB →
  (∀ j gb, zget (chunk_map (remote_chunk c)) j = Some gb → gb ≠ -1 → is_Some (zget (last_ops s) gb)) →
  ∃ m s', IS_send_activity s cb = Ok (m, s') ∧ type m = ACTIVITY ∧ buf m = activities s c.
Proof.
  intros Hc Hwf Hl Hops. pose proof max_mr_pos. pose proof (cw_map _ _ Hwf) as Hcm.
  unfold IS_send_activity. rewrite (read_cb_at _ _ _ Hc). cbn [res_bind].
  match goal with |- context [for_upto MAX_MR_SIZE_GB ?body (buf (send_buf c))] =>
    destruct (for_upto_inv (λ n b, len b = MAX_MR_SIZE_GB ∧
      ∀ j, 0 ≤ j < n → zget b j = zget (activities s c) j) body MAX_MR_SIZE_GB (buf (send_buf c)))
      as (b & -> & Hb & Hj) end; [lia | split; [done | lia] | |].
  - intros i b Hi [Hb Hj]. destruct (zget_is_Some (chunk_map (remote_chunk c)) i) as [gb Hgb]; [lia|].
    rewrite (rd_ok _ _ _ Hgb). cbn [res_bind].
    assert (∃ v, zget (activities s c) i = Some v ∧ (if gb =? -1 then wr b i 0 else
      let* ops := rd (last_ops s) gb in wr b i (ntohll (u64 (ops + 1)))) = Ok (zset b i v)) as (v & Hv & ->).
    { rewrite zget_activities, Hgb. eexists. split; [done|]. cbv beta. destruct (Z.eqb_spec gb (-1)) as [|Hne].
      - apply wr_ok. lia.
      - unfold ops_of. destruct (Hops _ _ Hgb Hne) as [o Ho]. rewrite Ho, (rd_ok _ _ _ Ho). apply wr_ok. lia. }
    eexists. split; [done|]. split; [by rewrite len_zset|]. intros j Hj'. rewrite zget_zset.
    case_decide as Hd; [by destruct Hd as [<- _]|]. apply Hj. assert (j ≠ i) by (intros ->; apply Hd; lia). lia.
  - cbn [res_bind]. unfold post_msg. rewrite (read_cb_at _ _ _ Hc). cbn [res_bind].
    rewrite (write_cb_at _ _ _ _ Hc). cbn [res_bind]. eexists _, _. split; [done|]. split; [done|].
    cbn. apply list_eq_zget. intros j. destruct (decide (0 ≤ j < MAX_MR_SIZE_GB)) as [Hr|Hr]; [by apply Hj|].
    unfold activities. unfold zget. case_decide; [|done]. unfold len in *.
    rewrite !lookup_ge_None_2; [done | rewrite length_fmap; lia | lia].
Qed.

(** The control block after an EVICT. *)
Definition evicting (c : kernel_cb) (m : message) : kernel_cb :=
  c <| recv_buf := m |> <| state := RECV_EVICT |>
    <| remote_chunk ::= λ rc, rc <| shrink_size_g := size_gb m |> <| c_state := C_EVICT |> |>.

Lemma evict_received s cb c m : zget (cb_list s) cb = Some c →
  test_state_val CONNECTED ≤ test_state_val (state c) → evict_msg m →
  deliver s cb m = Ok (put_cb s cb (evicting c m)).
Proof.
  intros Hc Hcon [Ht _ _ Hne]. unfold deliver. rewrite (read_cb_at _ _ _ Hc). cbn [res_bind].
  set (c1 := c <| recv_buf := m |>). set (s1 := put_cb s cb c1).
  assert (zget (cb_list s1) cb = Some c1) as Hc1 by (apply zget_zset_eq; eauto with zarr).
  unfold client_recv. rewrite (read_cb_at _ _ _ Hc1). cbn [res_bind]. rewrite Z.eqb_refl.
  cbn [negb]. change (state c1) with (state c). rewrite (proj2 (Z.ltb_ge _ _) Hcon).
  change (type (recv_buf c1)) with (type m). rewrite Ht. unfold set_state.
  rewrite (with_cb_at _ _ _ _ Hc1). cbn [res_bind]. unfold client_recv_evict.
  set (s2 := s1 <| cb_list := _ |>). set (c2 := c1 <| state := RECV_EVICT |>).
  assert (zget (cb_list s2) cb = Some c2) as Hc2 by (apply zget_zset_eq; eauto with zarr).
  rewrite (read_cb_at _ _ _ Hc2). cbn [res_bind].
  change (size_gb (recv_buf c2)) with (size_gb m). rewrite (proj2 (Z.eqb_neq _ _) Hne).
  rewrite (with_cb_at _ _ _ _ Hc2). cbn [res_bind]. f_equal.
  unfold s2, s1, put_cb. simpl. by rewrite !zset_zset.
Qed.

(** Client and server agree on the chunks of connection [i]. *)
Definition same_chunks (rm : rdma_remote_mem) (i : Z) (c : kernel_cb) : Prop :=
  ∀ j gb, zget (chunk_map (remote_chunk c)) j = Some gb →
    gb ≠ -1 ↔ zget (conn_map rm) j = Some i.

(** A mapped server of the client, in a session in order. *)
Record served_by (s : IS_session) (cb : Z) (c : kernel_cb) : Prop := {
  sb_inv : client_inv submit_queues s;
  sb_cb : zget (cb_list s) cb = Some c;
  sb_state : zget (cb_state_list s) cb = Some CB_MAPPED;
}.

Lemma served_ops s cb c j gb : served_by s cb c →
  zget (chunk_map (remote_chunk c)) j = Some gb → gb ≠ -1 → zget (last_ops s) gb = Some (ops_of s gb).
Proof.
  intros [Hci Hc _] Hj Hne. destruct (mi_bwd _ (ci_map _ _ Hci) cb j gb) as [Hi _].
  { exists c. split_and!; try done. }
  apply zget_Some_range in Hi. rewrite (mi_index _ (ci_map _ _ Hci)) in Hi. unfold ops_of.
  destruct (zget_is_Some (last_ops s) gb) as [o ->]; [by rewrite (ow_last _ (ci_ops _ _ Hci)) | done].
Qed.

(** The client's answer to an EVICT message. *)
Lemma evict_answered s cb c m : served_by s cb c → len (buf (send_buf c)) = MAX_MR_SIZE_GB →
  evict_msg m → type (evict_reply s cb m) = ACTIVITY ∧ buf (evict_reply s cb m) = activities s c.
Proof.
  intros Hs Hl Hm. pose proof Hs as [Hci Hc Hst].
  destruct (servers_ready _ _ _ _ _ (ci_servers _ _ Hci) Hst ltac:(done) ltac:(done) Hc) as [Hwf Hcon].
  unfold evict_reply, answer_evict. rewrite (evict_received _ _ _ _ Hc Hcon Hm). cbn [res_bind].
  assert (zget (cb_list (put_cb s cb (evicting c m))) cb = Some (evicting c m)) as Hc'
    by (apply zget_zset_eq; eauto with zarr).
  change C_EVICT with (c_state (remote_chunk (evicting c m))). rewrite (woken_at _ _ _ Hc'). cbn [res_bind].
  destruct (send_activity_ok (put_cb s cb (evicting c m)) cb (evicting c m)) as (r & s' & E & Ht & Hb).
  - done.
  - destruct Hwf. by split.
  - done.
  - intros j gb Hj Hne. eexists. by eapply (served_ops s cb c).
  - unfold evict_activity. rewrite E. by split.
Qed.

(** The client's answer to a STOP message. *)
Lemma stop_answered rm i s cb c m : served_by s cb c → 0 ≤ submit_queues → quiet submit_queues s cb →
  same_chunks rm i c → stop_msg rm i m →
  ∃ reply s', answer_stop s cb m = Ok (Some reply, s') ∧ client_inv submit_queues s' ∧
    keeps_pages (eq cb) s s' ∧ gives_back m reply.
Proof.
  intros Hs Hsq Hq Hsame [Ht Hk Hb Hz Hne Hown]. pose proof Hs as [Hci Hc Hst].
  destruct (servers_ready _ _ _ _ _ (ci_servers _ _ Hci) Hst ltac:(done) ltac:(done) Hc) as [Hwf Hcon].
  assert (stop_ok c m) as Hso.
  { split; try done. intros j k Hj Hkne.
    destruct (zget_is_Some (chunk_map (remote_chunk c)) j) as [gb Hgb].
    { rewrite (cw_map _ _ Hwf), <- Hk. eauto with zarr. }
    exists gb. split; [done|]. apply (Hsame _ _ Hgb), (Hown _ _ Hj). by apply negb_true_iff, Z.eqb_neq. }
  destruct (client_stops submit_queues single_chunk_map s cb c m) as (s1 & reply & s2 & E1 & E2 & H);
    try done.
  destruct (stop_received s cb c m Hc Hwf Hcon Hso) as (marks & E1' & _).
  rewrite E1 in E1'. injection E1' as ->.
  exists reply, s2. split; [|done]. unfold answer_stop, deliver. rewrite (read_cb_at _ _ _ Hc).
  cbn [res_bind]. rewrite E1. cbn [res_bind].
  assert (zget (cb_list (put_cb s cb (stopped c m marks))) cb = Some (stopped c m marks)) as Hc'
    by (apply zget_zset_eq; eauto with zarr).
  change C_STOP with (c_state (remote_chunk (stopped c m marks))). by rewrite (woken_at _ _ _ Hc').
Qed.

(** The code of the client keeps the promise that [evict_mem] relies on. *)
Lemma client_keeps_word rm i s cb c s2 c2 :
  served_by s cb c → len (buf (send_buf c)) = MAX_MR_SIZE_GB → same_chunks rm i c →
  (∀ j gb, zget (chunk_map (remote_chunk c)) j = Some gb → gb ≠ -1 → 0 ≤ ops_of s gb < 2 ^ 64 - 1) →
  served_by s2 cb c2 → same_chunks rm i c2 → 0 ≤ submit_queues → quiet submit_queues s2 cb →
  keeps_word (λ _, evict_reply s cb) (λ _, stop_reply s2 cb) rm i (activities s c).
Proof.
  intros Hs Hl Hsame Hops Hs2 Hsame2 Hsq Hq. split.
  - pose proof Hs as [Hci Hc Hst].
    destruct (servers_ready _ _ _ _ _ (ci_servers _ _ Hci) Hst ltac:(done) ltac:(done) Hc) as [Hwf _].
    unfold len, activities. rewrite length_fmap. apply (cw_map _ _ Hwf).
  - intros j x. rewrite zget_activities. intros (gb & Hgb & ->)%fmap_Some.
    rewrite <- (Hsame _ _ Hgb). destruct (Z.eqb_spec gb (-1)) as [|Hne]; [done|].
    split; [done|]. intros _ E. apply (f_equal ntohll) in E. specialize (Hops _ _ Hgb Hne).
    rewrite (u64_id (ops_of s gb + 1)) in E by (unfold is_u64; lia).
    rewrite ntohll_involutive in E by (unfold is_u64; lia). change (ntohll 0) with 0 in E. lia.
  - intros m Hm. by apply evict_answered.
  - intros m Hm. destruct (stop_answered rm i s2 cb c2 m) as (reply & s' & E & _ & _ & H); try done.
    unfold stop_reply. by rewrite E.
Qed.

(** * Both ends *)

(** C11: An eviction from end to end, while client [i] has all the chunks that are lent.  The
    server's [evict_mem] is answered by the client's own code: in session [s] to the EVICT
    message, and, when no request is in flight on the server any more, in session [s2] to the
    STOP message.  [evict_mem] returns with the memory it was asked for and its accounts in
    order; the client handles the messages without a fault, stays in order and keeps its pages
    on other servers; and a device chunk that loses its memory was not used more than one that
    keeps it. *)
Theorem eviction_end_to_end reg_mr rand evict_memory d i cn stop_g s cb c s2 c2 :
  accounts d → mapped_states d → zget (conns (session d)) i = Some (Some cn) → connected cn ≠ 0 →
  0 ≤ evict_sem cn → 0 ≤ stop_sem cn → sole (rdma_remote (session d)) i →
  0 < stop_g ≤ rm_size_gb (rdma_remote (session d)) → (∀ k, 0 ≤ k → len (evict_memory k) = k) →
  served_by s cb c → len (buf (send_buf c)) = MAX_MR_SIZE_GB →
  same_chunks (rdma_remote (session d)) i c →
  (∀ j gb, zget (chunk_map (remote_chunk c)) j = Some gb → gb ≠ -1 → 0 ≤ ops_of s gb < 2 ^ 64 - 1) →
  served_by s2 cb c2 → same_chunks (rdma_remote (session d)) i c2 →
  0 ≤ submit_queues → quiet submit_queues s2 cb →
  ∃ d', evict_mem reg_mr rand evict_memory (λ _, evict_reply s cb) (λ _, stop_reply s2 cb) d stop_g =
      Ok d' ∧ accounts d' ∧ mapped_states d' ∧
    rm_size_gb (rdma_remote (session d')) = rm_size_gb (rdma_remote (session d)) - stop_g ∧
    mapped_size (rdma_remote (session d')) =
      Z.min (mapped_size (rdma_remote (session d))) (rm_size_gb (rdma_remote (session d)) - stop_g) ∧
    (∀ m, stop_msg (rdma_remote (session d)) i m → ∃ reply s3,
       answer_stop s2 cb m = Ok (Some reply, s3) ∧ client_inv submit_queues s3 ∧
       keeps_pages (eq cb) s2 s3 ∧ gives_back m reply) ∧
    ∀ x z gx gz, zget (chunk_map (remote_chunk c)) x = Some gx → gx ≠ -1 →
      zget (chunk_map (remote_chunk c)) z = Some gz → gz ≠ -1 →
      zget (conn_map (rdma_remote (session d'))) x = Some (-1) →
      zget (conn_map (rdma_remote (session d'))) z = Some i → ops_of s gx ≤ ops_of s gz.
Proof.
  intros Ha Hm Hc Hn Hes Hss Hso Hg Hmem Hs Hl Hsame Hops Hs2 Hsame2 Hsq Hq.
  destruct (evict_mem_ok reg_mr rand evict_memory (λ _, evict_reply s cb) (λ _, stop_reply s2 cb)
    d i cn (activities s c) stop_g) as (d' & E & Ha' & Hm' & Hz & Hmz & _ & Hleast); try done.
  { by eapply client_keeps_word. }
  exists d'. split_and!; try done; [intros m Hst; by eapply stop_answered|].
  intros x z gx gz Hx Hxn Hz' Hzn Hlost Hkept.
  assert (∀ j gb, zget (chunk_map (remote_chunk c)) j = Some gb → gb ≠ -1 →
    zget (activities s c) j = Some (ntohll (u64 (ops_of s gb + 1))) ∧
    ntohll (ntohll (u64 (ops_of s gb + 1))) = ops_of s gb + 1) as Hact.
  { intros j gb Hj Hne. specialize (Hops _ _ Hj Hne). rewrite zget_activities, Hj. split.
    - cbn. by rewrite (proj2 (Z.eqb_neq _ _) Hne).
    - rewrite u64_id, ntohll_involutive by (unfold is_u64; lia). done. }
  destruct (Hact _ _ Hx Hxn) as [Ax Ex], (Hact _ _ Hz' Hzn) as [Az Ez].
  pose proof (Hleast _ _ _ _ Ax Az (proj1 (Hsame _ _ Hx) Hxn) Hlost Hkept) as Hle.
  rewrite Ex, Ez in Hle. lia.
Qed.
End Recall.

(** * A client and a server *)

(** The server of [EvictMem.one_client] has lent chunks 0, 1 and 2 to a client that uses them
    for its chunks 5, 4 and 6, the first most and the second least. *)
Definition demo_cb2 : kernel_cb := mapped_cb demo_bound_cb 1 4 1 0.
Definition demo_cb3 : kernel_cb := mapped_cb demo_cb2 2 6 1 0.
Definition demo_two : IS_session := mapped_session demo_bound 0 demo_bound_cb 1 4 1 0.
Definition demo_three : IS_session :=
  mapped_session demo_two 0 demo_cb2 2 6 1 0
    <| last_ops := zset (zset (zset (last_ops demo_bound) 5 500) 4 100) 6 300 |>.

Lemma demo_three_cb : zget (cb_list demo_three) 0 = Some demo_cb3.
Proof. apply zget_zset_eq. vm_compute. split; [discriminate | reflexivity]. Qed.

Lemma map_inv_last s lo : map_inv s → map_inv (s <| last_ops := lo |>).
Proof. by apply map_inv_ext. Qed.

Lemma demo_three_inv : map_inv demo_three.
Proof.
  apply map_inv_last.
  apply map_slot_inv; [apply map_slot_inv|..].
  - exact demo_bound_inv.
  - reflexivity.
  - rewrite demo_bound_map. reflexivity.
  - split; vm_compute; reflexivity.
  - apply zget_zset_eq. vm_compute. split; [discriminate | reflexivity].
  - vm_compute. reflexivity.
  - split; vm_compute; reflexivity.
Qed.

Lemma demo_three_map : chunk_map (remote_chunk demo_cb3) = [5; 4; 6] ++ replicate 29 (-1).
Proof. vm_compute. reflexivity. Qed.

Lemma demo_three_served : served_by 1 demo_three 0 demo_cb3.
Proof.
  split; [|exact demo_three_cb | reflexivity].
  apply (one_server_client 1 demo_three CB_MAPPED demo_cb3);
    [exact demo_three_inv | vm_compute; reflexivity | | reflexivity | reflexivity | reflexivity
    | exact demo_three_cb | | | ].
  - split; vm_compute; reflexivity.
  - split; [|vm_compute; discriminate]. apply (cb_ready demo_three 0 _ 0 5 demo_three_inv demo_three_cb).
    rewrite demo_three_map. reflexivity.
  - vm_compute. discriminate.
  - intros i Hi. assert (i = 0) as -> by lia. exists (initialised 4096). split; [reflexivity|].
    split; by eexists.
Qed.

(** The slots of the demonstration. *)
Lemma demo_three_slots j gb : zget (chunk_map (remote_chunk demo_cb3)) j = Some gb →
  0 ≤ j < 32 ∧ (gb = -1 ∧ 3 ≤ j ∨ j = 0 ∧ gb = 5 ∨ j = 1 ∧ gb = 4 ∨ j = 2 ∧ gb = 6).
Proof.
  intros Hj. rewrite demo_three_map in Hj. pose proof (zget_Some_range _ _ _ Hj) as Hr.
  change (len _) with 32 in Hr. split; [done|].
  destruct (decide (j = 0)) as [->|]; [injection Hj as <-; lia|].
  destruct (decide (j = 1)) as [->|]; [injection Hj as <-; lia|].
  destruct (decide (j = 2)) as [->|]; [injection Hj as <-; lia|].
  left. split; [|lia]. unfold zget in Hj. rewrite decide_True in Hj by lia.
  rewrite lookup_app_r in Hj by (simpl; lia). by apply lookup_replicate in Hj as [? _].
Qed.

Lemma demo_agree : same_chunks (rdma_remote (session one_client)) 0 demo_cb3.
Proof.
  intros j gb Hj. destruct (demo_three_slots _ _ Hj) as [Hr [[-> H3]|H]]; clear Hj.
  - split; [done|]. intros Hm.
    assert (conn_map (rdma_remote (session one_client)) = replicate 3 0 ++ replicate 29 (-1)) as E
      by (vm_compute; reflexivity).
    rewrite E in Hm. unfold zget in Hm. rewrite decide_True, lookup_app_r in Hm by (simpl; lia).
    apply lookup_replicate in Hm as [Hm _]. discriminate Hm.
  - destruct H as [[-> ->]|[[-> ->]|[-> ->]]]; vm_compute; done.
Qed.

Lemma demo_ops j gb : zget (chunk_map (remote_chunk demo_cb3)) j = Some gb → gb ≠ -1 →
  0 ≤ ops_of demo_three gb < 2 ^ 64 - 1.
Proof.
  intros Hj Hne. destruct (demo_three_slots _ _ Hj) as [_ [[-> _]|H]]; clear Hj; [done|].
  destruct H as [[_ ->]|[[_ ->]|[_ ->]]]; vm_compute; split; done.
Qed.

(** Five chunks are taken back: the three that are not lent, and two of the client.  The least
    used one is among them if the most used one is. *)
Lemma eviction_end_to_end_witness :
  ∃ d', evict_mem demo_reg (λ _, 0) one_memory (λ _, evict_reply demo_three 0)
      (λ _, stop_reply 1 (λ s _, Ok s) demo_three 0) one_client 5 = Ok d' ∧
    accounts d' ∧ rm_size_gb (rdma_remote (session d')) = 1 ∧
    mapped_size (rdma_remote (session d')) = 1 ∧
    ¬ (zget (conn_map (rdma_remote (session d'))) 0 = Some (-1) ∧
       zget (conn_map (rdma_remote (session d'))) 1 = Some 0).
Proof.
  destruct one_client_ok as [Ha Hm].
  destruct (eviction_end_to_end 1 (λ s _, Ok s) demo_reg (λ _, 0) one_memory one_client 0
    (conn_of one_client 0) 5 demo_three 0 demo_cb3 demo_three demo_cb3)
    as (d' & E & Ha' & _ & Hz & Hmz & _ & Hleast).
  - exact Ha.
  - exact Hm.
  - vm_compute. reflexivity.
  - vm_compute. discriminate.
  - vm_compute. discriminate.
  - vm_compute. discriminate.
  - exact one_sole.
  - vm_compute. split; [reflexivity | discriminate].
  - intros k Hk. apply len_replicate. exact Hk.
  - exact demo_three_served.
  - vm_compute. reflexivity.
  - exact demo_agree.
  - exact demo_ops.
  - exact demo_three_served.
  - exact demo_agree.
  - lia.
  - exact demo_quiet.
  - exists d'. split; [exact E|]. split; [exact Ha'|]. split; [rewrite Hz; vm_compute; reflexivity|].
    split; [rewrite Hmz; vm_compute; reflexivity|]. intros [H0 H1].
    specialize (Hleast 0 1 5 4 ltac:(rewrite demo_three_map; reflexivity) ltac:(discriminate)
      ltac:(rewrite demo_three_map; reflexivity) ltac:(discriminate) H0 H1).
    vm_compute in Hleast. by apply Hleast.
Defined.
