(* ===== verification/ServerGlue.v ===== *)
(** The memory server around its session ([rdma-common.c], [build_context],
    [build_connection], [register_memory], [post_receives], [destroy_connection], [poll_cq];
    [infiniswap-daemon.c], [main]): the objects of the verbs library it holds, the thread that
    polls the completion queue and the loops of [main] and [free_mem].

    [Daemon] models what these functions do to the session; here are the objects.  The calls
    of the library are answered by [ibverbs]; [TEST_NZ] and [TEST_Z] end the process. *)

From Stdlib Require Import ZArith Lia.
From stdpp Require Import relations base tactics list numbers option gmap.
From S2P Require Import Prelude Types Handles ByteOrder Daemon DaemonInv DaemonSteps Evict.

(** * Data *)

Record context := {
  ctx_verbs : Z;
  ctx_mem : ptr;
  pd : ptr;
  comp_channel : ptr;
  cq : ptr;
  cq_poller_thread : ptr;
}.

(** The objects of one connection; [receives]: the receives posted for it. *)
Record conn_objs := {
  id : Z;
  conn_mem : ptr;
  qp : ptr;
  send_buf_mem : ptr;
  recv_buf_mem : ptr;
  mr_send : ptr;
  mr_recv : ptr;
  receives : Z;
}.
#[export] Instance eta_conn_objs : Eta conn_objs :=
  λ r, {| id := id r; conn_mem := conn_mem r; qp := qp r; send_buf_mem := send_buf_mem r;
          recv_buf_mem := recv_buf_mem r; mr_send := mr_send r; mr_recv := mr_recv r;
          receives := receives r |}.

Record server := { s_ctx : option context; sv_heap : heap }.
#[export] Instance eta_server : Eta server := λ r, {| s_ctx := s_ctx r; sv_heap := sv_heap r |}.

Record ibv_qp_init_attr := {
  send_cq : ptr; recv_cq : ptr; max_send_wr : Z; max_recv_wr : Z; max_send_sge : Z; max_recv_sge : Z
}.
Record conn_param := { s_initiator_depth : Z; s_responder_resources : Z; rnr_retry_count : Z }.

(** The answers of the library to one connection request. *)
Record ibverbs := {
  v_malloc : Z → bool;    (* of the context, the connection, the two messages *)
  v_alloc_pd : bool;
  v_channel : bool;
  v_create_cq : bool;
  v_notify : Z;
  v_thread : Z;
  v_create_qp : Z;
  v_reg_send : bool;
  v_reg_recv : bool;
  v_post_recv : Z;
  v_accept : Z;
}.

(** * Operations *)

Definition TEST_NZ (x : Z) : res unit := if x =? 0 then Ok tt else Fault Die.
Definition TEST_Z (p : ptr) : res unit := if is_null p then Fault Die else Ok tt.

Section Glue.
Variable V : ibverbs.

Definition build_context (verbs : Z) (g : server) : res server :=
  match s_ctx g with
  | Some c => if ctx_verbs c =? verbs then Ok g else Fault Die
  | None =>
      let '(m, h) := acquire_null K_ctx (v_malloc V 0) (sv_heap g) in
      let* _ := find K_ctx m h in
      let '(p, h) := acquire_null K_pd (v_alloc_pd V) h in
      let* _ := TEST_Z p in
      let '(ch, h) := acquire_null K_channel (v_channel V) h in
      let* _ := TEST_Z ch in
      let '(q, h) := acquire_null K_cq (v_create_cq V) h in
      let* _ := TEST_Z q in
      let* _ := TEST_NZ (v_notify V) in
      let* _ := TEST_NZ (v_thread V) in
      let '(t, h) := acquire K_thread h in
      Ok {| s_ctx := Some {| ctx_verbs := verbs; ctx_mem := m; pd := p; comp_channel := ch;
                             cq := q; cq_poller_thread := t |};
            sv_heap := h |}
  end.

Definition build_params : conn_param :=
  {| s_initiator_depth := 1; s_responder_resources := 1; rnr_retry_count := 7 |}.

Definition build_qp_attr (g : server) : res ibv_qp_init_attr :=
  let* c := deref (s_ctx g) in
  Ok {| send_cq := cq c; recv_cq := cq c; max_send_wr := 10; max_recv_wr := 100;
        max_send_sge := 1; max_recv_sge := 1 |}.

Definition register_memory (c : conn_objs) (g : server) : res (conn_objs * server) :=
  let* x := deref (s_ctx g) in
  let* _ := find K_pd (pd x) (sv_heap g) in
  let '(s, h) := acquire_null K_msg (v_malloc V 2) (sv_heap g) in
  let '(r, h) := acquire_null K_msg (v_malloc V 3) h in
  let '(ms, h) := acquire_null K_mr (v_reg_send V) h in
  let* _ := TEST_Z ms in
  let '(mr, h) := acquire_null K_mr (v_reg_recv V) h in
  let* _ := TEST_Z mr in
  Ok (c <| send_buf_mem := s |> <| recv_buf_mem := r |> <| mr_send := ms |> <| mr_recv := mr |>,
      g <| sv_heap := h |>).

Definition post_receives (c : conn_objs) (g : server) : res conn_objs :=
  let* _ := find K_mr (mr_recv c) (sv_heap g) in
  let* _ := find K_qp (qp c) (sv_heap g) in
  let* _ := TEST_NZ (v_post_recv V) in
  Ok (c <| receives := receives c + 1 |>).

(** [build_connection] for the identifier [i], of device [verbs]. *)
Definition build_connection_objs (verbs i : Z) (g : server) : res (conn_objs * server) :=
  let* g := build_context verbs g in
  let* attr := build_qp_attr g in
  let* _ := find K_cm_id (Obj i) (sv_heap g) in
  let* _ := find K_cq (send_cq attr) (sv_heap g) in
  let* _ := TEST_NZ (v_create_qp V) in
  let '(q, h) := acquire K_qp (sv_heap g) in
  let '(m, h) := acquire_null K_conn (v_malloc V 1) h in
  let* _ := find K_conn m h in
  let c := {| id := i; conn_mem := m; qp := q; send_buf_mem := Null; recv_buf_mem := Null;
              mr_send := Null; mr_recv := Null; receives := 0 |} in
  let* (c, g) := register_memory c (g <| sv_heap := h |>) in
  let* c := post_receives c g in
  Ok (c, g).

(** [on_connect_request]: a request comes with an identifier of its own. *)
Definition on_connect_request (verbs : Z) (g : server) : res (conn_objs * server) :=
  let '(i, h) := acquire K_cm_id (sv_heap g) in
  let* (c, g) := build_connection_objs verbs (next_id (sv_heap g)) (g <| sv_heap := h |>) in
  let* _ := TEST_NZ (v_accept V) in
  Ok (c, g).

(** The objects [destroy_connection] gives back. *)
Definition destroy_connection_objs (c : conn_objs) (g : server) : res server :=
  let* h := release K_qp (qp c) (sv_heap g) in
  let* h := release K_mr (mr_send c) h in
  let* h := release K_mr (mr_recv c) h in
  let* h := kfree K_msg (send_buf_mem c) h in
  let* h := kfree K_msg (recv_buf_mem c) h in
  let* h := release K_cm_id (Obj (id c)) h in
  let* h := release K_conn (conn_mem c) h in
  Ok (g <| sv_heap := h |>).

End Glue.

(** * The objects of the server *)

Definition obj (p : ptr) (k : kind) : list (Z * kind) :=
  match p with Obj i => [(i, k)] | _ => [] end.

Definition ctx_list (o : option context) : list (Z * kind) :=
  match o with
  | None => []
  | Some c => obj (cq_poller_thread c) K_thread ++ obj (cq c) K_cq ++ obj (comp_channel c) K_channel ++
              obj (pd c) K_pd ++ obj (ctx_mem c) K_ctx
  end.

Definition conn_list (c : conn_objs) : list (Z * kind) :=
  obj (mr_recv c) K_mr ++ obj (mr_send c) K_mr ++ obj (recv_buf_mem c) K_msg ++
  obj (send_buf_mem c) K_msg ++ obj (conn_mem c) K_conn ++ obj (qp c) K_qp ++ [(id c, K_cm_id)].

Definition is_obj (p : ptr) : Prop := ∃ i, p = Obj i.

(** The objects of a connection exist, but that a message may have no memory. *)
Record complete (c : conn_objs) : Prop := {
  co_qp : is_obj (qp c);
  co_mem : is_obj (conn_mem c);
  co_send : is_obj (mr_send c);
  co_recv : is_obj (mr_recv c);
  co_msgs : IS_ERR (send_buf_mem c) = false ∧ IS_ERR (recv_buf_mem c) = false;
}.

(** The live objects are those of the context and of the connections, each of them once. *)
Record server_owns (g : server) (cs : list conn_objs) : Prop := {
  so_owns : owns (sv_heap g) (concat (conn_list <$> cs) ++ ctx_list (s_ctx g));
  so_complete : Forall complete cs;
  so_ctx : ∀ c, s_ctx g = Some c → is_obj (pd c) ∧ is_obj (cq c);
}.

(** * Histories *)

(** A connection request, answered by some [V], and the loss of a connection. *)
Inductive glue_step : server * list conn_objs → server * list conn_objs → Prop :=
  | gs_connect V verbs g cs c g' : on_connect_request V verbs g = Ok (c, g') →
      glue_step (g, cs) (g', c :: cs)
  | gs_disconnect g l c k g' : destroy_connection_objs c g = Ok g' →
      glue_step (g, l ++ c :: k) (g', l ++ k).

(** ** Lemmas *)

Lemma acquire_null_owns k ok h l p h' : owns h l → acquire_null k ok h = (p, h') →
  owns h' (obj p k ++ l) ∧ IS_ERR p = false.
Proof.
  unfold acquire_null. intros Ho H. destruct ok; [|by injection H as <- <-].
  injection H as <- <-. split; [by apply owns_acquire | done].
Qed.

Lemma find_obj k p h i : find k p h = Ok i → is_obj p.
Proof. destruct p; [done | done | by eexists]. Qed.

Lemma TEST_Z_obj p u : IS_ERR p = false → TEST_Z p = Ok u → is_obj p.
Proof. destruct p; [done | done | by eexists]. Qed.

(** The next call: an object, a check, or the end of the process. *)
Ltac glue_step_tac :=
  lazymatch goal with
  | H : context [acquire_null ?k ?ok ?h], Ho : owns ?h ?l |- _ =>
      let p := fresh "p" in let h' := fresh "h" in let E := fresh "E" in
      let Ho' := fresh "Ho" in let Hn := fresh "Hn" in
      destruct (acquire_null k ok h) as [p h'] eqn:E;
      destruct (acquire_null_owns _ _ _ _ _ _ Ho E) as [Ho' Hn]; clear Ho E
  | H : context [acquire ?k ?h], Ho : owns ?h ?l |- _ =>
      apply (owns_acquire k) in Ho; destruct (acquire k h) as [? ?] eqn:?
  end.

Lemma build_context_owns V verbs g g' l :
  owns (sv_heap g) (l ++ ctx_list (s_ctx g)) →
  (∀ c, s_ctx g = Some c → is_obj (pd c) ∧ is_obj (cq c)) →
  build_context V verbs g = Ok g' →
  owns (sv_heap g') (l ++ ctx_list (s_ctx g')) ∧
  ∀ c, s_ctx g' = Some c → is_obj (pd c) ∧ is_obj (cq c).
Proof.
  intros Ho Hc H. unfold build_context in H. destruct (s_ctx g) as [x|] eqn:Ex.
  { destruct (ctx_verbs x =? verbs); [|done]. injection H as <-. rewrite Ex. auto. }
  rewrite app_nil_r in Ho. do 4 (glue_step_tac; res_split).
  match goal with Ho : owns ?h _ |- _ => pose proof (owns_acquire K_thread _ _ Ho) as Hh end.
  apply find_obj in Ha as [i0 ->]. apply (TEST_Z_obj _ _ Hn0) in Ha0 as [i1 ->].
  apply (TEST_Z_obj _ _ Hn1) in Ha1 as [i2 ->]. apply (TEST_Z_obj _ _ Hn2) in Ha2 as [i3 ->].
  injection H as <-. cbn [s_ctx ctx_list sv_heap] in *. split.
  - rewrite (Permutation_app_comm l). exact Hh.
  - intros c [= <-]. cbn. split; by eexists.
Qed.

Lemma register_memory_owns V c g c' g' l : owns (sv_heap g) l →
  register_memory V c g = Ok (c', g') →
  owns (sv_heap g') (obj (mr_recv c') K_mr ++ obj (mr_send c') K_mr ++
    obj (recv_buf_mem c') K_msg ++ obj (send_buf_mem c') K_msg ++ l) ∧
  is_obj (mr_send c') ∧ is_obj (mr_recv c') ∧
  (IS_ERR (send_buf_mem c') = false ∧ IS_ERR (recv_buf_mem c') = false) ∧
  s_ctx g' = s_ctx g ∧ id c' = id c ∧ conn_mem c' = conn_mem c ∧ qp c' = qp c ∧
  receives c' = receives c.
Proof.
  intros Ho H. unfold register_memory in H. res_split. do 4 (glue_step_tac; res_split).
  injection H as <- <-. cbn. pose proof (TEST_Z_obj _ _ Hn1 Ha1). pose proof (TEST_Z_obj _ _ Hn2 Ha2).
  split_and!; done.
Qed.

Lemma connect_owns V verbs g cs c g' : server_owns g cs →
  on_connect_request V verbs g = Ok (c, g') → server_owns g' (c :: cs) ∧ receives c = 1.
Proof.
  intros [Ho Hc Hx] H. unfold on_connect_request in H. cbn [acquire fst snd] in H. res_split.
  destruct a as [c0 g1]. res_split. injection H as <- <-. unfold build_connection_objs in Ha.
  res_split. apply (owns_acquire K_cm_id) in Ho. rewrite app_comm_cons in Ho.
  eapply build_context_owns in Ha1 as [Ho1 Hx1]; [|exact Ho|exact Hx]. clear Ho Hx.
  apply (owns_acquire K_qp) in Ho1. unfold acquire in Ha at 1.
  cbn [acquire snd] in Ho1. glue_step_tac.
  res_split. destruct a6 as [c1 g2]. res_split. injection Ha as <- <-.
  eapply register_memory_owns in Ha6 as (Ho2 & Hs & Hr & Hm & Ec & Ei & Em & Eq & Er); [|exact Ho].
  apply find_obj in Ha1 as [i ->]. unfold post_receives in Ha7. res_split. injection Ha7 as <-.
  cbn in *. split; [|by rewrite Er]. split.
  - cbn. unfold conn_list at 1. cbn. rewrite Ei, Em, Eq, Ec, <- !app_assoc. exact Ho2.
  - constructor; [|done]. split; cbn; rewrite ?Eq, ?Em; try done; by eexists.
  - cbn. by rewrite Ec.
Qed.

Lemma kfree_owns k p h l : IS_ERR p = false → owns h (obj p k ++ l) →
  ∃ h', kfree k p h = Ok h' ∧ owns h' l.
Proof.
  destruct p; [by eauto | done |]. intros _ Ho. by apply owns_release in Ho.
Qed.

Lemma disconnect_owns g l c k : server_owns g (l ++ c :: k) →
  ∃ g', destroy_connection_objs c g = Ok g' ∧ server_owns g' (l ++ k) ∧ s_ctx g' = s_ctx g.
Proof.
  intros [Ho Hc Hx]. apply Forall_app in Hc as [Hl Hc]. apply Forall_cons in Hc as [Hc Hk].
  destruct Hc as [[q Eq] [m Em] [s Es] [r Er] [Hs Hr]].
  rewrite fmap_app, concat_app in Ho. cbn [fmap list_fmap concat] in Ho.
  set (rest := concat (conn_list <$> l) ++ concat (conn_list <$> k) ++ ctx_list (s_ctx g)).
  assert (owns (sv_heap g) (conn_list c ++ rest)) as Ho'.
  { revert Ho. unfold rest. apply owns_perm. rewrite <- !app_assoc. apply Permutation_app_swap_app. }
  unfold conn_list in Ho'. rewrite Eq, Em, Es, Er in Ho'. cbn [obj] in Ho'.
  unfold destroy_connection_objs. rewrite Eq, Em, Es, Er.
  set (bs := obj (send_buf_mem c) K_msg) in *. set (br := obj (recv_buf_mem c) K_msg) in *.
  assert (owns (sv_heap g) ([(q, K_qp)] ++ [(s, K_mr)] ++ [(r, K_mr)] ++ bs ++ br ++
    [(id c, K_cm_id)] ++ [(m, K_conn)] ++ rest)) as H0.
  { revert Ho'. apply owns_perm. solve_Permutation. }
  apply owns_release in H0 as (h1 & -> & H1). cbn [res_bind].
  apply owns_release in H1 as (h2 & -> & H2). cbn [res_bind].
  apply owns_release in H2 as (h3 & -> & H3). cbn [res_bind].
  destruct (kfree_owns _ _ _ _ Hs H3) as (h4 & -> & H4). cbn [res_bind].
  destruct (kfree_owns _ _ _ _ Hr H4) as (h5 & -> & H5). cbn [res_bind].
  apply owns_release in H5 as (h6 & -> & H6). cbn [res_bind].
  apply owns_release in H6 as (h7 & -> & H7). cbn [res_bind].
  eexists. split; [done|]. split; [|done]. split; cbn.
  - by rewrite fmap_app, concat_app, <- app_assoc.
  - by apply Forall_app.
  - done.
Qed.


(** ** Two clients, of which the first leaves *)

Definition willing : ibverbs :=
  {| v_malloc := λ _, true; v_alloc_pd := true; v_channel := true; v_create_cq := true;
     v_notify := 0; v_thread := 0; v_create_qp := 0; v_reg_send := true; v_reg_recv := true;
     v_post_recv := 0; v_accept := 0 |}.

Definition one_client : res (conn_objs * server) :=
  on_connect_request willing 1 {| s_ctx := None; sv_heap := empty_heap |}.


(** * The threads *)

Section Threads.
Context `{C : Config} `{D : DaemonConfig} (reg_mr : Z → option Z).

(** ** Polling *)

(** A completion of connection [wc_conn], with its status and opcode. *)
Record completion := { wc_conn : Z; wc_status_ok : bool; wc_op : wc_opcode }.

(** [ibv_poll_cq]: a completion, 0, or a negative error code. *)
Inductive poll_result := Polled (wc : completion) | PollEmpty | PollError.

Definition complete_wc (d : daemon) (wc : completion) : res daemon :=
  on_completion reg_mr d (wc_conn wc) (wc_status_ok wc) (wc_op wc).

(** [while (ibv_poll_cq(cq, 1, &wc)) on_completion(&wc)]: an error is not 0, and leaves in
    [wc] the completion handled before.  Polling ends with an empty queue. *)
Fixpoint drain_cq (wc : option completion) (rs : list poll_result) (d : daemon)
  : res (option completion * daemon) :=
  match rs with
  | [] => Fault Blocked
  | PollEmpty :: _ => Ok (wc, d)
  | Polled wc :: rs => let* d := complete_wc d wc in drain_cq (Some wc) rs d
  | PollError :: rs =>
      let* last := deref wc in
      let* d := complete_wc d last in drain_cq wc rs d
  end.

(** [poll_cq] over the events of the completion channel so far; [None]: one of the calls
    around the event fails. *)
Fixpoint poll_cq (wc : option completion) (events : list (option (list poll_result))) (d : daemon)
  : res daemon :=
  match events with
  | [] => Ok d
  | None :: _ => Fault Die
  | Some rs :: events => let* (wc, d) := drain_cq wc rs d in poll_cq wc events d
  end.

(** ** [main] and [free_mem] *)

(** The loop of [main] over the events of the connection manager, until there are no more;
    [on_event] returns 0 unless the process ends. *)
Fixpoint main_loop (evs : list (Z * cm_event)) (d : daemon) : res daemon :=
  match evs with
  | [] => Ok d
  | (i, ev) :: evs => let* d := on_event d i ev in main_loop evs d
  end.

(** The loop condition of [free_mem]: [None] when the thread returns, else what one iteration
    gives. *)
Definition free_mem_iteration malloc_addr (free_mem_kb : Z) (st : mem_state) (d : daemon)
  : res (option (option Z * mem_state * daemon)) :=
  if running d =? 0 then Ok None
  else
    let* (e, st, m) := mem_step malloc_addr free_mem_kb st (rdma_remote (session d)) in
    Ok (Some (e, st, with_remote d (λ _, m))).

(** ** [running] *)

(** [f] leaves [running] as it is. *)
Definition keeps_running (f : daemon → res daemon) : Prop :=
  ∀ d d', f d = Ok d' → running d' = running d.

Lemma keeps_put_conn i c : keeps_running (λ d, put_conn d i c).
Proof. intros d d' H. unfold put_conn in H. res_split. by injection H as <-. Qed.

Lemma keeps_with_conn i f : keeps_running (λ d, with_conn d i f).
Proof. intros d d' H. unfold with_conn in H. res_split. by apply keeps_put_conn in H. Qed.

Lemma keeps_set_conn_state i st : keeps_running (λ d, set_conn_state d i st).
Proof. intros d d' H. unfold set_conn_state in H. res_split. by injection H as <-. Qed.

Lemma keeps_send_message i : keeps_running (λ d, send_message d i).
Proof.
  intros d d' H. unfold send_message in H. res_split. destruct (connected a =? 0); [done|].
  by injection H as <-.
Qed.

(** Chain the equations of a sequence of calls. *)
Ltac keeps :=
  repeat match goal with
  | H : put_conn _ _ _ = Ok _ |- _ => apply keeps_put_conn in H
  | H : with_conn _ _ _ = Ok _ |- _ => apply keeps_with_conn in H
  | H : set_conn_state _ _ _ = Ok _ |- _ => apply keeps_set_conn_state in H
  | H : send_message _ _ = Ok _ |- _ => apply keeps_send_message in H
  end; cbn in *; try congruence.

Lemma keeps_lend_chunk i j : keeps_running (λ d, lend_chunk reg_mr d i j).
Proof.
  intros d d' H. unfold lend_chunk in H. res_split. destruct (reg_mr a2); [|done]. res_split. keeps.
Qed.

Lemma keeps_send_single_mr i k : keeps_running (λ d, send_single_mr reg_mr d i k).
Proof.
  intros d d' H. unfold send_single_mr in H. res_split.
  apply (for_from_break_pres (λ x, running x = running a)) in Ha0; [keeps | | done].
  clear. intros j x c Hx H. cbv beta in H. res_split. destruct a0.
  - res_split. apply keeps_lend_chunk in Ha0. injection H as <-. cbn. congruence.
  - by injection H as <-.
Qed.

Lemma keeps_send_mr i k : keeps_running (λ d, send_mr reg_mr d i k).
Proof.
  intros d d' H. unfold send_mr in H. res_split.
  apply (for_from_break_pres (λ x, running x.2 = running a)) in Ha0; [keeps | | done].
  clear. intros j [n x] c Hx H. cbv beta iota in H. res_split. destruct a0.
  - res_split. apply keeps_lend_chunk in Ha0. injection H as <-. destruct (_ =? _); cbn in *; congruence.
  - by injection H as <-.
Qed.

Lemma keeps_recv_done i : keeps_running (λ d, recv_done d i).
Proof.
  intros d d' H. unfold recv_done in H. res_split.
  assert (running a0 = running d) as E.
  { apply (for_from_pres (λ x, running x = running d)) in Ha0; [done | | done].
    clear. intros j x x' Hx H. unfold drop_chunk in H. cbv beta in H. res_split.
    destruct (a0 =? 0); [by injection H as <-|]. res_split. keeps. }
  destruct (mapped_chunk_size a2 =? 0); [keeps|]. injection H as <-. keeps.
Qed.

Lemma keeps_send_free_mem_size i : keeps_running (λ d, send_free_mem_size d i).
Proof. intros d d' H. unfold send_free_mem_size in H. res_split. keeps. Qed.

Lemma keeps_on_completion i ok op : keeps_running (λ d, on_completion reg_mr d i ok op).
Proof.
  intros d d' H. unfold on_completion in H. destruct (negb ok); [done|]. destruct op.
  - res_split. destruct (type (recv_msg a)); try done; unfold set_busy, bind in *; res_split;
      repeat match goal with
      | H : send_free_mem_size _ _ = Ok _ |- _ => apply keeps_send_free_mem_size in H
      | H : send_mr _ _ _ _ = Ok _ |- _ => apply keeps_send_mr in H
      | H : send_single_mr _ _ _ _ = Ok _ |- _ => apply keeps_send_single_mr in H
      | H : recv_done _ _ = Ok _ |- _ => apply keeps_recv_done in H
      end; keeps.
  - unfold set_busy in H. keeps.
Qed.

Lemma keeps_build_connection d o d' : build_connection d = Ok (o, d') → running d' = running d.
Proof.
  intros H. unfold build_connection in H. res_split.
  apply (for_from_break_pres (λ x, running x.2 = running d)) in Ha; [|clear|done].
  - destruct (ctl_state a) as [slot x]. injection H as <- <-. done.
  - intros j [o x] c Hx H. cbv beta iota in H. res_split. case_decide.
    + res_split. injection H as <-. keeps.
    + by injection H as <-.
Qed.

(** Once [running] is 0 no event sets it again. *)
Lemma stays_stopped d ev d' : running d = 0 → serve reg_mr d ev = Ok d' → running d' = 0.
Proof.
  intros Hd H. destruct ev as [|i|i|i m|i]; unfold serve, on_event in H; res_split.
  - destruct a as [o x]. apply keeps_build_connection in Ha. injection H as <-. congruence.
  - unfold on_connect in Ha. apply keeps_send_free_mem_size in H. keeps.
  - unfold destroy_connection in H. res_split. injection H as <-.
    assert (running a0 = running d) as E0.
    { clear - Ha0. unfold unlend_chunks in Ha0. destruct (0 <? _); [|by injection Ha0 as <-].
      res_split. injection Ha0 as <-. cbn.
      apply (for_from_pres (λ x, running x = running d)) in Ha; [done | | done]. clear.
      intros j x x' Hx H. unfold unlend_chunk in H. cbv beta in H. res_split.
      destruct (a0 =? -1); [by injection H as <-|]. res_split. injection H as <-. done. }
    destruct (_ =? 0); [done|]. keeps.
  - apply keeps_on_completion in H. keeps.
  - apply keeps_on_completion in H. congruence.
Qed.

(** C39: the memory thread stops for good when the last client leaves.  Losing the only
    connection clears [running], no event of later clients sets it again, and the loop of
    [free_mem] ends: from then on the server neither expands nor evicts, whatever memory it
    lends. *)
Theorem memory_thread_stops malloc_addr d i c evs d2
  (Ha : accounts d) (Hc : zget (conns (session d)) i = Some (Some c))
  (Hlast : conn_num (session d) = 1) :
  ∃ d1, serve reg_mr d (SvDisconnected i) = Ok d1 ∧
    (server_reach reg_mr d1 evs d2 →
     running d2 = 0 ∧ ∀ kb st, free_mem_iteration malloc_addr kb st d2 = Ok None).
Proof.
  destruct (destroy_connection_ok d i c) as (d1 & E & _ & _ & _ & _ & En & Er);
    [by apply (lend_inv_any _ _ i) in Ha | done|].
  rewrite Hlast in En. exists d1. split; [exact E|]. intros Hr.
  assert (running d1 = 0) as H1 by (rewrite Er, En; done).
  assert (running d2 = 0) as H2.
  { induction Hr as [|x evs x1 ev x2 _ IH _ Es]; [done|]. eapply stays_stopped; [|exact Es]. auto. }
  split; [done|]. intros kb st. unfold free_mem_iteration. by rewrite H2.
Qed.

End Threads.

(** ** The client of [DaemonSteps] leaves and another one comes *)

Lemma memory_thread_stops_witness :
  ∃ d1 d2, serve demo_reg demo_d3 (SvDisconnected 0) = Ok d1 ∧
    server_reach demo_reg d1 [SvConnect] d2 ∧ conn_num (session d2) = 1 ∧
    ∀ kb st, free_mem_iteration demo_addr kb st d2 = Ok None.
Proof.
  assert (∃ c, zget (conns (session demo_d3)) 0 = Some (Some c)) as [c Hc]
    by (eexists; vm_compute; reflexivity).
  assert (conn_num (session demo_d3) = 1) as Hn by (vm_compute; reflexivity).
  destruct (serve demo_reg demo_d3 (SvDisconnected 0)) as [d1|] eqn:E;
    [|vm_compute in E; discriminate E].
  destruct (serve demo_reg d1 SvConnect) as [d2|] eqn:E2;
    [|vm_compute in E; injection E as <-; vm_compute in E2; discriminate E2].
  assert (zget (conns_state (session d1)) 0 = Some CONN_IDLE) as Hi
    by (vm_compute in E; injection E as <-; vm_compute; reflexivity).
  assert (conn_num (session d2) = 1) as Hn2.
  { vm_compute in E. injection E as <-. vm_compute in E2. injection E2 as <-. vm_compute. reflexivity. }
  assert (server_reach demo_reg d1 [SvConnect] d2) as Hr.
  { apply (reach_snoc _ d1 [] d1 SvConnect d2); [constructor | exists 0; exact Hi | exact E2]. }
  exists d1, d2. split; [reflexivity|]. split; [exact Hr|]. split; [exact Hn2|].
  destruct (memory_thread_stops demo_reg demo_addr demo_d3 0 c [SvConnect] d2
    (demo_accounts _ _ demo_reach) Hc Hn) as (d1' & E' & H).
  rewrite E in E'. injection E' as <-. exact (proj2 (H Hr)).
Defined.

(** ** One request, answered twice *)

(** The number of chunks lent, of messages sent. *)
Definition lent (r : res (option completion * daemon)) : option (Z * nat) :=
  match r with
  | Ok (_, d) => Some (mapped_size (rdma_remote (session d)), length (outbox d))
  | Fault _ => None
  end.

Definition asked : daemon :=
  match with_conn demo_d2 0 (λ c, c <| recv_msg := bind_msg 4 |>) with Ok d => d | Fault _ => demo_d2 end.
Definition bind_wc : completion := {| wc_conn := 0; wc_status_ok := true; wc_op := IBV_WC_RECV |}.

(** When polling the completion queue fails, the loop takes the error code for a completion and
    handles the last one again: a client that asked for one chunk is lent two. *)
Example poll_error_lends_twice :
  lent (drain_cq demo_reg None [Polled bind_wc; PollEmpty] asked) = Some (1, 2%nat) ∧
  lent (drain_cq demo_reg None [Polled bind_wc; PollError; PollEmpty] asked) = Some (2, 3%nat).
Proof. vm_compute. split; reflexivity. Qed.
